(* ===== verification/_CoqProject ===== *)
-Q . S2P
Prelude.v
GoTime.v
GoText.v
Wire.v
RelayCodec.v
Noise.v
PeerCodec.v
Credential.v
Stun.v
RelayTransport.v
Channel.v
RelaySession.v
RelayServer.v
RelayClient.v
RelayManager.v
RelayHandshake.v
Tunnel.v
Router.v
MeshManager.v
Driver.v
MeshSafety.v
NodeRelay.v
Monitor.v
Jwt.v
PortalDb.v
PortalNetwork.v
PortalInternal.v
PortalAuth.v
Portal.v
QueryGen.v
QuerySet.v
ApiClient.v
Config.v
Entry.v
SignOn.v
Calling.v
Pulling.v
Services.v
Admission.v
Relaying.v
Device.v
DeviceOpen.v
Bench.v
Logging.v
Commands.v
Menu.v
WinMenu.v
