(* ===== verification/Prelude.v ===== *)
(** * PairMesh verification development

    PairMesh is a layer-three mesh VPN in Go.  This library models its own
    logic - the node, the relay server and the portal - and proves what makes
    them correct.  File names below are under [src/].

    ** The program and how its parts interact

    - The _portal_ ([portal/]) keeps users, devices, networks, keys and relay
      servers in a database.  It signs credentials, gives out addresses and
      answers every node with the graph of its peers.
    - A _relay server_ ([relay/], [internal/relay/]) holds one encrypted TCP
      session per node, admits nodes by the portal's credentials, forwards
      sealed messages between them, and tells the portal who is connected.
    - A _node_ ([node/]) signs on, asks the portal for its credential
      (preflight) and its peers, keeps a connection to the relay servers,
      learns its external address with STUN, pairs with its peers through the
      relay, and moves packets between its virtual device and the tunnels.

    ** Files

    Shared: [Prelude] - the Go outcome monad (value, error, panic), state
    passing with Go's control flow ([gguard] for deferred clean-up, [grecover],
    [gfor]), machine-width integers, slices, preservation of invariants
    ([gpreserves] with its hint database).  [GoTime], [GoText] - the functions
    of [time], [strconv] and [strings] the code relies on.  [Wire] - constants,
    error codes and message records ([constant/], [errcode/], [protocol/],
    [message/]).  [Noise] - the cipher, the handshake, protobuf and RSA as
    classes with their laws.

    Transport: [RelayCodec] ([internal/codec/relay_codec.go]), [PeerCodec]
    ([peer_codec.go], [serde/]), [Credential] ([security/]), [Stun]
    ([internal/stun/], [relay/server/stun.go]), [RelayTransport]
    ([security_transporter.go], [write_packet.go]), [Channel] (one direction of a
    connection, in any interleaving of its goroutines), [RelaySession] (sessions and
    [server.go] of [internal/relay/]), [RelayServer] ([relay/server/] and the
    whole server as a step relation), [RelayClient], [RelayManager]
    ([client*.go]), [RelayHandshake] (client, session and byte stream composed),
    [NodeRelay] (the relay manager behind the driver's interface).

    Node: [Tunnel] ([node/mesh/tunnel/]), [Router] ([node/device/router.go]),
    [MeshManager] ([node/mesh/]), [Driver] ([node/driver/]), [MeshSafety] (the
    turns of the driver's and the tunnels' goroutines in any order), [Monitor]
    ([node/monitor/]), [Config] (configuration files of all three programs,
    [node/entry/exchange.go]), [Entry] ([entry_gui.go], [entry_cli.go],
    [i18n/]), [Device] (framing, the Windows read loop, platform commands of
    [node/device/]), [DeviceOpen] (opening and closing a device on the three
    systems, [node/device/tun/]), [Menu] ([gui_darwin.go], [systray/], the
    tray's refresh), [WinMenu] ([gui_windows.go]).

    Portal: [Jwt] ([pkg/jwt/], [internal/ledis/]), [PortalDb] (tables,
    transactions and address allocation of [portal/db/]), [PortalNetwork]
    ([api_network.go], [api_invitation.go]), [PortalInternal]
    ([api_internal.go], [api_device.go], [server.go]), [PortalAuth] (validators
    of [plugins.go], [api_key.go], [api_user.go], [api_setting.go],
    [api_sso.go], [sso/github/]), [Portal] (the routes of [server.go], the
    validators in front of them and every handler behind them, on one state:
    a request from its method and path to its answer), [Services] ([portal.go], [provider.go],
    [relay/server/serve.go]), [QueryGen] (the generator of query sets,
    [tools/qs/]), [QuerySet] (the structs of [models.go], the query sets that are
    generated for them in [autogen_query.go], and what their methods do).

    Between the two: [ApiClient] ([internal/jsonapi/], [node/api/],
    [relay/api/]), [SignOn], which puts the client in front of the portal's own
    handlers, [Calling], where the clients' requests meet the routes of the whole
    portal, [Pulling], which follows the peer graph from the portal's tables
    into the node's relay connections, mesh and routes, [Admission], where a
    relay server and a node that the same portal answers meet, and [Relaying], which takes a fragment from one node's tunnel
    through both connections of the relay to the other's device.

    Around them: [Commands] (the processes of the portal, the relay and the
    node's command line, [cmd/] and [entry_cli.go], from the flags to the exit),
    [Logging] ([logutil/], [portal/db/logger.go], [netutil/], [cmdutil/]), [Bench]
    ([bench/], [cmd/pairbench/]).

    ** How state and operations correspond to the code

    A Go method is a function of the same name in [GoM S A], a state-passing
    function to a value, an error or a panic; an error keeps the state reached,
    as the code does.  Objects that several owners share - sessions, clients,
    endpoints, peers, relay records - live in heaps and are named by locations,
    so aliasing is the code's; a slice whose spare capacity matters carries it.
    Goroutines are turns: one iteration of a loop is one operation, and the
    systems that run several (relay server, tunnels, node, portal, application,
    sign-on) are step relations, or runs of a list of turns, over any interleaving.  Integers are
    [Z] with the code's width applied where it can wrap ([u16], [u32], [u64],
    [i64]); times are nanoseconds.  What the code reads from outside - clocks,
    random bytes, sockets, the database's answers - is an argument or a class.

    ** Environment interfaces

    Third-party and system code appears only as classes and arguments, their
    documented behaviour as a second class ([...Ok]) or as named hypotheses,
    each with a concrete instance the examples run on: [Noise] (AEAD, handshake,
    protobuf, RSA), [Gorm]/[GormOk] (statements may fail; when they succeed they
    do what they say), [Encoding], [JwtLib]/[JwtLibOk], [LedisDB]/[LedisOk],
    [FileSystem]/[FileSystemOk], [Curve], [Json], [Yaml], [RsaKey], the database's
    [Collation] and the meaning of its conditions [Sql]/[SqlOk]/[SqlTable], gorm's
    naming of columns and Go's formatter as arguments, the system calls that
    open a device [Kernel]/[KernelOk], the Windows toolkit
    [WalkEvents]/[WalkEventsOk] and [WalkLists]/[WalkListsOk], the HTTP router
    [Mux]/[MuxOk] and the decoding of bodies [Bodies], [NetAddr], [KeyExchange]
    and the platform's routes.

    ** Interfaces between components

    The driver is written against [RelayOps], what it asks of the relay manager,
    and proved against [RelayOpsOk], what the manager promises it;
    [NodeRelay] discharges both with the manager of [RelayManager], for any
    outcomes of dialling, by a simulation of an abstract manager that only tells
    who is connected and who waits ([manager_implements_membership]).  A component of the portal promises that its handlers
    keep a predicate of the tables ([UserHandlers], [KeyHandlers],
    [DeviceHandlers], [NetworkHandlers] in [Portal]); what all four promise, the
    portal keeps under any requests.

    ** What the theorems show

    - Wire: decoding inverts encoding whatever the TCP segmentation, always
      comes back, and the peer messages, the channel, credentials, tunnels and
      the macOS frames round-trip ([decode_stream_roundtrip],
      [decoding_comes_back], [connection_is_a_queue],
      [peer_message_roundtrip], [tunnel_fragment_roundtrip]).
    - Who may do what: accepted credentials were signed and have not expired,
      relay sessions are those that proved a credential, unauthenticated packets
      change nothing, accepted portal requests are of the owner of a key or
      token, one-off keys stay with their machine, only owners change roles.
    - What a running node keeps: in every state its goroutines can reach, failed
      updates included, peers, tunnels and index belong together
      ([mesh_stays_consistent]), so a packet of the device only leaves for the node
      that owns its destination address ([packets_leave_for_the_addressee]).
    - Invariants of long runs: relay sessions under any interleaving; the device
      registry, the references between networks and the binding of one-off keys
      under any requests to any route of the portal and any answers of the
      database ([portal_invariants]); one session per application, the tray's
      menu.
    - The portal as one program: a request that has an effect or an answer went
      past the guard of its route ([requests_pass_their_guard]), and the order in
      which routes are registered does not matter ([routing_ignores_order]).
    - Menus: the macOS and the Windows menu show the summary whatever they
      showed before ([rendered_menu_shows_the_summary],
      [windows_menu_shows_the_summary]).
    - Processes and devices: a signal ends the portal's process, a cancelled
      relay ends, the node ends with the device's next packet
      ([signal_ends_the_portal], [cancelled_relay_ends],
      [node_ends_with_a_packet]); opening a device gives it the one descriptor
      that stays ([new_device_holds_one_descriptor]).
    - Measurements: the benchmark counts what it echoed, and its percentiles are
      measured values in order ([echo_rounds_are_measured],
      [report_percentiles]); the switches of the log are the environment's.
    - End to end: a node that holds an authentication key gets in - key exchange,
      preflight and the relay's start go through the portal's routes, and the
      relay server admits the node as the key's user
      ([key_holder_joins_relay], by [key_holder_gets_credential] and
      [relay_handshake_completes]); a pull of the peer graph leaves the node with
      the neighbours, routes and relay connections that the portal's tables say
      ([pull_follows_the_portal]); a fragment written on one node reaches the
      other's device through the relay ([fragment_crosses_the_relay]); catch-up
      pairs tunnels, an exchanged key makes the node its user, configurations and
      identities survive restarts.
    - Query sets: a generated method does what its name says, the portal's
      queries select the rows of the predicates by which the models of the
      handlers select, and the generated text does not depend on the order of
      Go's maps ([methods_mean_their_names], [portal_queries_select_their_rows],
      [generation_is_deterministic]).  What is generated is the committed file up
      to blank space; [QuerySet] checks length and sum for the query set of
      networks.
    - Agreement with a specification: a connection is a queue of messages under
      any interleaving of its goroutines, the relay manager implements the abstract
      one under any calls, the route table is the configuration's,
      the peer graph is the neighbourhood, the driver's binary search is a look
      through all the peers, the mesh follows the control plane's peers.

    Plain theorems and examples beside these record defects: each is named in
    the findings of the manifest with the line it is about.

    ** Fuel and bounds

    [decode_loop] has the length of its buffer as fuel, and every round takes at
    least a byte ([decode_loop_ends]); the search of [Driver] has the number of
    peers, and every round halves the interval ([own_server_is_found] includes
    that it returns); number and duration formatting in [GoTime] has the number
    of digits.  The percentiles of [Bench] are computed with the rounding of
    [float64], for up to 2 ^ 40 measurements.  The runs of [Commands] end by
    a weight that every step lowers.  The other recursions are structural.

    ** Not modelled, and why

    The protobuf runtime, which is generated by a tool outside the repository
    ([message/packet.pb.go]; its records are in [Wire]).  How a database runs
    statements: the portal's tables compare texts by equality, as a collation
    that tells different texts apart does.  Third-party code
    in the tree ([node/device/tun/wintun/], [tools/appify/]).  Native menus and
    dialogs ([systray_c.go], [messagebox/]), the declaration of flags and help
    texts, a mock generated for the tests, and how zap writes a line. *)
From stdpp Require Export base gmap sets list strings sorting.
From coqutil Require Export Byte.
From coqutil Require Import Word.LittleEndianList.
From Stdlib Require Export ZArith Lia.
#[export] Set Default Goal Selector "!".
#[global] Open Scope Z_scope.

Declare Scope go_scope.
Delimit Scope go_scope with go.
#[global] Open Scope go_scope.

(** ** Errors, results and panics *)

(** A Go [error] value.  [EMsg] is [errors.New]/[fmt.Errorf], [ECode] the
    [errcode.Error] struct, [EStatus] an error dressed by
    [fn.ErrorWithStatusCode], [EWrap] an error with a message in front, and
    [EExt] an error value built by code outside the repository. *)
Inductive error : Type :=
| EMsg (msg : string)
| ECode (code : Z) (msg : string)
| EStatus (status : Z) (e : error)
| EWrap (msg : string) (e : error)
| EExt (tag : string).

#[export] Instance error_eq_dec : EqDecision error.
Proof. solve_decision. Defined.

(** The outcome of a Go call that returns [(A, error)] and may panic. *)
Inductive result (A : Type) : Type :=
| Ok (a : A)
| Err (e : error)
| Panic (why : string).
Arguments Ok {A} a.
Arguments Err {A} e.
Arguments Panic {A} why.

#[export] Instance result_eq_dec {A} `{EqDecision A} : EqDecision (result A).
Proof. solve_decision. Defined.

#[export] Instance result_ret : MRet result := fun A a => Ok a.
#[export] Instance result_bind : MBind result := fun A B f m =>
  match m with Ok a => f a | Err e => Err e | Panic w => Panic w end.
#[export] Instance result_fmap : FMap result := fun A B f m =>
  match m with Ok a => Ok (f a) | Err e => Err e | Panic w => Panic w end.

Definition is_ok {A} (r : result A) : bool :=
  match r with Ok _ => true | _ => false end.
Definition is_panic {A} (r : result A) : bool :=
  match r with Panic _ => true | _ => false end.

(** ** Stateful code *)

(** A Go procedure on a state [S]: the state it leaves behind survives an
    error and a panic, as the memory of the program does. *)
Definition GoM (S A : Type) : Type := S -> S * result A.

#[export] Instance gom_ret {S} : MRet (GoM S) := fun A a s => (s, Ok a).
#[export] Instance gom_bind {S} : MBind (GoM S) := fun A B f m s =>
  match m s with
  | (s', Ok a) => f a s'
  | (s', Err e) => (s', Err e)
  | (s', Panic w) => (s', Panic w)
  end.

Definition gget {S} : GoM S S := fun s => (s, Ok s).
Definition gmodify {S} (f : S -> S) : GoM S unit := fun s => (f s, Ok tt).
Definition gthrow {S A} (e : error) : GoM S A := fun s => (s, Err e).
Definition gpanic {S A} (w : string) : GoM S A := fun s => (s, Panic w).
Definition glift {S A} (r : result A) : GoM S A := fun s => (s, r).
Definition gwhen {S} (b : bool) (m : GoM S unit) : GoM S unit :=
  if b then m else mret tt.
(** [err := m; if err != nil { log }]: the error is dropped, a panic is not. *)
Definition gignore {S A} (m : GoM S A) : GoM S unit := fun s =>
  match m s with
  | (s', Ok _) | (s', Err _) => (s', Ok tt)
  | (s', Panic w) => (s', Panic w)
  end.
(** [fmt.Errorf("msg: %w", err)] and [errors.WithMessage] on a call's error. *)
Definition gwrap {S A} (msg : string) (m : GoM S A) : GoM S A := fun s =>
  match m s with (s', Err e) => (s', Err (EWrap msg e)) | r => r end.
(** [defer func() { if e := recover(); e != nil { err = ... } }()]: a panic
    becomes the error the call returns. *)
Definition grecover {S A} (m : GoM S A) : GoM S A := fun s =>
  match m s with
  | (s', Panic w) => (s', Err (EMsg w))
  | r => r
  end.
(** [defer func() { recover(); cleanup() }()] around a call whose error is
    only logged. *)
Definition gguard {S A} (m : GoM S A) (cleanup : GoM S unit) : GoM S unit := fun s =>
  match m s with
  | (s', Ok _) | (s', Err _) => (s', Ok tt)
  | (s', Panic _) => cleanup s'
  end.
(** The state after a call and its outcome. *)
Definition gstate {S A} (m : GoM S A) (s : S) : S := fst (m s).
Definition gresult {S A} (m : GoM S A) (s : S) : result A := snd (m s).

(** [for _, x := range xs { body x }], left to right. *)
Fixpoint gfor {S A} (xs : list A) (body : A -> GoM S unit) : GoM S unit :=
  match xs with
  | [] => mret tt
  | x :: xs' => _ ← body x; gfor xs' body
  end.

Lemma gbind_assoc {S A B C} (m : GoM S A) (f : A -> GoM S B) (g : B -> GoM S C) s :
  ((m ≫= f) ≫= g) s = (m ≫= (fun a => f a ≫= g)) s.
Proof. cbv [mbind gom_bind]. by destruct (m s) as [s' [| |]]. Qed.

Lemma gfor_app {S A} (xs ys : list A) (body : A -> GoM S unit) s :
  gfor (xs ++ ys) body s = (_ ← gfor xs body; gfor ys body) s.
Proof.
  revert s. induction xs as [|x xs IH]; intros s; [done|]. cbn.
  cbv [mbind gom_bind]. destruct (body x s) as [s' [| |]]; [|done|done].
  by rewrite IH.
Qed.

Lemma gfor_ext {S A} (xs : list A) (f g : A -> GoM S unit) s :
  (forall x t, f x t = g x t) -> gfor xs f s = gfor xs g s.
Proof.
  intros Hfg. revert s. induction xs as [|x xs IH]; intros s; [done|]. cbn. cbv [mbind gom_bind].
  rewrite Hfg. by destruct (g x s) as [s' [| |]].
Qed.

(** An invariant preserved by every iteration is preserved by the loop,
    whatever the outcome. *)
Lemma gfor_invariant {S A} (P : S -> Prop) (xs : list A) (body : A -> GoM S unit) s :
  (forall x s, x ∈ xs -> P s -> P (gstate (body x) s)) ->
  P s -> P (gstate (gfor xs body) s).
Proof.
  revert s. induction xs as [|x xs IH]; intros s Hstep Hs; [done|].
  cbn. unfold gstate, mbind, gom_bind in *.
  pose proof (Hstep x s ltac:(constructor) Hs) as Hx.
  destruct (body x s) as [s' [| |]]; cbn in *; [|done|done].
  apply IH; [|done]. intros y t Hy. apply Hstep. by constructor.
Qed.

(** [for i, x := range xs { body i x }], from index [i]. *)
Fixpoint genum {S A} (i : nat) (xs : list A) (body : nat -> A -> GoM S unit) : GoM S unit :=
  match xs with [] => mret tt | x :: xs => _ ← body i x; genum (1 + i) xs body end.

(** Such a loop over a list of the state, reached through [get]: below [n] the
    body replaces the element, from there on it appends one, and [P] relates
    what it is given to the element; [R] is what it keeps of the rest, [I] what
    it needs. *)
Section Loop.
Context {S A X : Type} (get : S -> list X) (P : nat -> A -> X -> Prop) (R : S -> S -> Prop)
  `{!Reflexive R} `{!Transitive R} (I : S -> Prop) (body : nat -> A -> GoM S unit) (n : nat).
Hypothesis keeps_I : forall m m', R m m' -> I m -> I m'.
Hypothesis body_old : forall i a m x, I m -> (i < n)%nat -> get m !! i = Some x ->
  exists m' y, body i a m = (m', Ok tt) /\ get m' = <[i := y]> (get m) /\ P i a y /\ R m m'.
Hypothesis body_new : forall i a m, I m -> (n <= i)%nat -> i = length (get m) ->
  exists m' y, body i a m = (m', Ok tt) /\ get m' = get m ++ [y] /\ P i a y /\ R m m'.

(** The elements a loop leaves, from index [k] on. *)
Fixpoint numbered (k : nat) (xs : list A) (ys : list X) : Prop :=
  match xs, ys with
  | [], [] => True
  | a :: xs, y :: ys => P k a y /\ numbered (1 + k) xs ys
  | _, _ => False
  end.
Lemma numbered_length xs : forall k ys, numbered k xs ys -> length xs = length ys.
Proof. induction xs as [|a xs IH]; intros k [|y ys] H; [done..|]. destruct H as [_ H]. cbn. f_equal. by eapply IH. Qed.
Lemma numbered_Forall2 (Q : A -> X -> Prop) xs : (forall i a y, P i a y -> Q a y) -> forall k ys, numbered k xs ys -> Forall2 Q xs ys.
Proof.
  intros HQ. induction xs as [|a xs IH]; intros k [|y ys] H; [constructor|done..|]. destruct H as [Ha H].
  constructor; [by eapply HQ|by eapply IH].
Qed.
Lemma numbered_lookup xs : forall k ys j a y, numbered k xs ys -> xs !! j = Some a -> ys !! j = Some y -> P (k + j) a y.
Proof.
  induction xs as [|b xs IH]; intros k [|z ys] [|j] a y H Ha Hy; cbn in *; try done.
  - simplify_eq. rewrite Nat.add_0_r. apply H.
  - rewrite Nat.add_succ_r. by apply (IH (1 + k)%nat ys); [apply H|..].
Qed.

Lemma genum_loop xs : forall pre old m, I m -> get m = pre ++ old ->
  n = (length pre + length old)%nat \/ (old = [] /\ (n <= length pre)%nat) ->
  exists m' cur, genum (length pre) xs body m = (m', Ok tt) /\ get m' = pre ++ cur ++ drop (length xs) old /\
    numbered (length pre) xs cur /\ R m m'.
Proof using All.
  induction xs as [|a xs IH]; intros pre old m HI Hg Hn.
  { exists m, []. split_and!; [done|by rewrite Hg|constructor|done]. }
  cbn [genum]. cbv [mbind gom_bind].
  assert (exists m1 y old', body (length pre) a m = (m1, Ok tt) /\ get m1 = (pre ++ [y]) ++ old' /\ P (length pre) a y /\ R m m1 /\
    old' = drop 1 old /\ (n = (length (pre ++ [y]) + length old')%nat \/ (old' = [] /\ (n <= length (pre ++ [y]))%nat))) as
    (m1 & y & old' & Hb & Hg1 & Hy & HR & Hold & Hn').
  { destruct old as [|x old].
    - destruct (body_new (length pre) a m HI) as (m1 & y & Hb & Hg1 & Hy & HR); [destruct Hn as [->|[_ ?]]; cbn; lia|by rewrite Hg, app_nil_r|].
      exists m1, y, []. split_and!; [done|by rewrite Hg1, Hg, !app_nil_r|done|done|done|]. right. split; [done|].
      rewrite length_app. destruct Hn as [->|[_ ?]]; cbn; lia.
    - destruct Hn as [Hn|[? _]]; [|done]. cbn in Hn.
      destruct (body_old (length pre) a m x HI) as (m1 & y & Hb & Hg1 & Hy & HR); [lia|by rewrite Hg, list_lookup_middle|].
      exists m1, y, old. split_and!; [done| |done|done|done|left; rewrite length_app; cbn; lia].
      rewrite Hg1, Hg, insert_app_r_alt by lia. rewrite Nat.sub_diag. cbn. by rewrite <- app_assoc. }
  rewrite Hb. destruct (IH (pre ++ [y]) old' m1 (keeps_I _ _ HR HI) Hg1 Hn') as (m' & cur & Hg' & Hl & HF & HR').
  assert (length (pre ++ [y]) = (1 + length pre)%nat) as Hlen by (rewrite length_app; cbn; lia). rewrite Hlen in Hg', HF.
  exists m', (y :: cur). split_and!; [done| |by split|by etrans].
  rewrite Hl, Hold, drop_drop, <- !app_assoc. done.
Qed.

Lemma genum_numbered xs m : I m -> n = length (get m) ->
  exists m' cur, genum 0 xs body m = (m', Ok tt) /\ get m' = cur ++ drop (length xs) (get m) /\ numbered 0 xs cur /\ R m m'.
Proof using All. intros HI Hn. apply (genum_loop xs [] (get m) m); [done|done|by left]. Qed.
End Loop.

(** The same when what the body does does not depend on the index. *)
Lemma genum_all {S A X : Type} (get : S -> list X) (P : A -> X -> Prop) (R : S -> S -> Prop) `{!Reflexive R} `{!Transitive R}
    (I : S -> Prop) (body : nat -> A -> GoM S unit) (n : nat) :
  (forall m m', R m m' -> I m -> I m') ->
  (forall i a m x, I m -> (i < n)%nat -> get m !! i = Some x ->
    exists m' y, body i a m = (m', Ok tt) /\ get m' = <[i := y]> (get m) /\ P a y /\ R m m') ->
  (forall i a m, I m -> (n <= i)%nat -> i = length (get m) ->
    exists m' y, body i a m = (m', Ok tt) /\ get m' = get m ++ [y] /\ P a y /\ R m m') ->
  forall xs m, I m -> n = length (get m) ->
  exists m' cur, genum 0 xs body m = (m', Ok tt) /\ get m' = cur ++ drop (length xs) (get m) /\ Forall2 P xs cur /\ R m m'.
Proof.
  intros H1 H2 H3 xs m HI Hn. destruct (genum_numbered get (fun _ => P) R I body n H1 H2 H3 xs m HI Hn) as (m' & cur & Hb & Hg & HF & HR).
  exists m', cur. split_and!; [done..| |done]. by eapply (numbered_Forall2 (fun _ => P)).
Qed.

(** *** Preservation of a state predicate *)

Definition gpreserves {S A} (P : S -> Prop) (m : GoM S A) : Prop :=
  forall s, P s -> P (gstate m s).

Create HintDb gpres.

Section Preserves.
Context {S : Type} (P : S -> Prop).

Lemma gpres_ret {A} (a : A) : gpreserves P (mret a : GoM S A).
Proof. intros s Hs. exact Hs. Qed.
Lemma gpres_get : gpreserves P gget.
Proof. intros s Hs. exact Hs. Qed.
Lemma gpres_throw {A} e : gpreserves P (gthrow e : GoM S A).
Proof. intros s Hs. exact Hs. Qed.
Lemma gpres_panic {A} w : gpreserves P (gpanic w : GoM S A).
Proof. intros s Hs. exact Hs. Qed.
Lemma gpres_lift {A} (r : result A) : gpreserves P (glift r).
Proof. intros s Hs. exact Hs. Qed.
Lemma gpres_bind {A B} (m : GoM S A) (k : A -> GoM S B) :
  gpreserves P m -> (forall a, gpreserves P (k a)) -> gpreserves P (m ≫= k).
Proof.
  intros Hm Hk s Hs. unfold gpreserves, gstate in *. specialize (Hm s Hs).
  cbv [mbind gom_bind]. destruct (m s) as [s' [a| |]]; [by apply Hk|done|done].
Qed.
Lemma gpres_ignore {A} (m : GoM S A) : gpreserves P m -> gpreserves P (gignore m).
Proof.
  intros Hm s Hs. specialize (Hm s Hs). unfold gstate, gignore in *.
  by destruct (m s) as [s' [| |]].
Qed.
Lemma gpres_recover {A} (m : GoM S A) : gpreserves P m -> gpreserves P (grecover m).
Proof.
  intros Hm s Hs. specialize (Hm s Hs). unfold gstate, grecover in *.
  by destruct (m s) as [s' [| |]].
Qed.
Lemma gpres_guard {A} (m : GoM S A) (c : GoM S unit) :
  gpreserves P m -> gpreserves P c -> gpreserves P (gguard m c).
Proof.
  intros Hm Hc s Hs. specialize (Hm s Hs). unfold gstate, gguard in *.
  destruct (m s) as [s' [| |]]; [done..|by apply Hc].
Qed.
Lemma gpres_for {A} (xs : list A) (body : A -> GoM S unit) :
  (forall x, gpreserves P (body x)) -> gpreserves P (gfor xs body).
Proof. intros Hb s Hs. apply gfor_invariant; [|done]. intros x t _. apply Hb. Qed.
Lemma gpres_modify f : (forall s, P s -> P (f s)) -> gpreserves P (gmodify f).
Proof. intros Hf s. apply Hf. Qed.
End Preserves.
#[export] Hint Resolve gpres_ret gpres_get gpres_throw gpres_panic gpres_lift gpres_bind
  gpres_ignore gpres_recover gpres_guard gpres_for : gpres.

(** Split a preservation goal along the program until the atoms. *)
Ltac gpres_step :=
  match goal with
  | |- gpreserves _ (_ ≫= _) => apply gpres_bind; [|intros ?]
  | |- gpreserves _ (if ?b then _ else _) => destruct b eqn:?
  | |- gpreserves _ (match ?x with _ => _ end) => destruct x eqn:?
  | |- gpreserves _ (let '_ := ?x in _) => destruct x eqn:?
  | |- gpreserves _ _ => solve [eauto with gpres]
  | |- gpreserves _ (gignore _) => apply gpres_ignore
  | |- gpreserves _ (grecover _) => apply gpres_recover
  | |- gpreserves _ (gguard _ _) => apply gpres_guard
  | |- gpreserves _ (gfor _ _) => apply gpres_for; intros ?
  end.
Ltac gpres := repeat gpres_step.

(** ** Machine integers *)

Definition u8 (z : Z) : Z := z mod 2 ^ 8.
Definition u16 (z : Z) : Z := z mod 2 ^ 16.
Definition u32 (z : Z) : Z := z mod 2 ^ 32.
Definition u64 (z : Z) : Z := z mod 2 ^ 64.
(** Two's complement reinterpretation as [int64] (and Go's 64-bit [int]). *)
Definition i64 (z : Z) : Z :=
  let w := z mod 2 ^ 64 in if w <? 2 ^ 63 then w else w - 2 ^ 64.
Definition maxInt64 : Z := 2 ^ 63 - 1.
Definition minInt64 : Z := - 2 ^ 63.

Lemma i64_small z : minInt64 <= z <= maxInt64 -> i64 z = z.
Proof.
  unfold minInt64, maxInt64, i64. intros H. destruct (decide (0 <= z)).
  - rewrite Z.mod_small by lia. destruct (Z.ltb_spec z (2 ^ 63)); lia.
  - assert (z mod 2 ^ 64 = z + 2 ^ 64) as ->.
    { symmetry. apply (Z.mod_unique _ _ (-1)); lia. }
    destruct (Z.ltb_spec (z + 2 ^ 64) (2 ^ 63)); lia.
Qed.

Lemma u64_i64 z : 0 <= z < 2 ^ 64 -> u64 (i64 z) = z.
Proof.
  intros H. unfold i64, u64. rewrite (Z.mod_small z) by lia.
  destruct (z <? 2 ^ 63).
  - by apply Z.mod_small.
  - symmetry. apply (Z.mod_unique _ _ (-1)); lia.
Qed.

Lemma i64_u64 z : minInt64 <= z <= maxInt64 -> i64 (u64 z) = z.
Proof.
  intros H. rewrite <- (i64_small z) at 2 by done. unfold i64, u64.
  by rewrite Z.mod_mod by lia.
Qed.

(** XOR of two values below a power of two stays below it. *)
Lemma lxor_bound n a b :
  0 <= n -> 0 <= a < 2 ^ n -> 0 <= b < 2 ^ n -> 0 <= Z.lxor a b < 2 ^ n.
Proof.
  intros Hn Ha Hb.
  assert (0 <= Z.lxor a b) by (apply Z.lxor_nonneg; lia).
  split; [done|].
  rewrite <- (Z.mod_small a (2 ^ n)), <- (Z.mod_small b (2 ^ n)) by done.
  rewrite <- !Z.land_ones by done.
  replace (Z.lxor (Z.land a (Z.ones n)) (Z.land b (Z.ones n)))
    with (Z.land (Z.lxor a b) (Z.ones n)).
  - rewrite Z.land_ones by done. apply Z.mod_pos_bound. lia.
  - apply Z.bits_inj'. intros i Hi. rewrite !Z.land_spec, !Z.lxor_spec, !Z.land_spec.
    by destruct (Z.testbit a i), (Z.testbit b i), (Z.testbit (Z.ones n) i).
Qed.

Lemma lor_bound n a b :
  0 <= n -> 0 <= a < 2 ^ n -> 0 <= b < 2 ^ n -> 0 <= Z.lor a b < 2 ^ n.
Proof.
  intros Hn Ha Hb. split; [apply Z.lor_nonneg; lia|].
  rewrite <- (Z.mod_small a (2 ^ n)), <- (Z.mod_small b (2 ^ n)) by done.
  rewrite <- !Z.land_ones, <- Z.land_lor_distr_l, Z.land_ones by done.
  apply Z.mod_pos_bound. lia.
Qed.

Lemma lxor_cancel a b : Z.lxor (Z.lxor a b) b = a.
Proof. by rewrite Z.lxor_assoc, Z.lxor_nilpotent, Z.lxor_0_r. Qed.

(** ** Byte slices *)

Abbreviation bytes := (list Byte.byte).

Definition zlen {A} (l : list A) : Z := Z.of_nat (length l).
Lemma zlen_nonneg {A} (l : list A) : 0 <= zlen l.
Proof. unfold zlen. lia. Qed.
(** [l[i:]], [l[:i]] for an index already known to be in range. *)
Definition zdrop {A} (i : Z) (l : list A) : list A := drop (Z.to_nat i) l.
Definition ztake {A} (i : Z) (l : list A) : list A := take (Z.to_nat i) l.

(** [binary.BigEndian.PutUint16/32/64] writes [n] bytes; [Uint16/32/64] reads them. *)
Definition be_put (n : nat) (w : Z) : bytes := rev (le_split n w).
Definition be_get (bs : bytes) : Z := le_combine (rev bs).

Lemma length_be_put n w : length (be_put n w) = n.
Proof. unfold be_put. by rewrite length_rev, length_le_split. Qed.

Lemma be_get_put n w : be_get (be_put n w) = w mod 2 ^ (Z.of_nat n * 8).
Proof. unfold be_get, be_put. by rewrite rev_involutive, le_combine_split. Qed.

Lemma be_get_put_small n w :
  0 <= w < 2 ^ (Z.of_nat n * 8) -> be_get (be_put n w) = w.
Proof. intros H. rewrite be_get_put. by apply Z.mod_small. Qed.

Lemma be_get_bound bs : 0 <= be_get bs < 2 ^ (8 * zlen bs).
Proof. unfold be_get, zlen. rewrite <- length_rev. apply le_combine_bound. Qed.

Lemma be_put_get bs : be_put (length bs) (be_get bs) = bs.
Proof.
  unfold be_get, be_put. rewrite <- (length_rev bs), split_le_combine.
  apply rev_involutive.
Qed.

Lemma be_put_4 v : be_put 4 v =
  [byte.of_Z (Z.shiftr v 24); byte.of_Z (Z.shiftr v 16); byte.of_Z (Z.shiftr v 8); byte.of_Z v].
Proof. unfold be_put, le_split. cbn [rev app]. by rewrite !Z.shiftr_shiftr by lia. Qed.

Lemma be_put_get_len n bs : length bs = n -> be_put n (be_get bs) = bs.
Proof. intros <-. apply be_put_get. Qed.

(** [copy(dst, src)]: the destination after the copy. *)
Definition go_copy {A} (dst src : list A) : list A :=
  take (length dst) src ++ drop (length src) dst.

Lemma length_go_copy {A} (dst src : list A) : length (go_copy dst src) = length dst.
Proof. unfold go_copy. rewrite length_app, length_take, length_drop. lia. Qed.

Lemma go_copy_same {A} (dst src : list A) :
  length dst = length src -> go_copy dst src = src.
Proof.
  intros H. unfold go_copy. rewrite H, take_ge by lia.
  rewrite drop_ge by lia. apply app_nil_r.
Qed.

(** [make([]byte, n)]. *)
Definition go_make (n : Z) : bytes := replicate (Z.to_nat n) Byte.x00.

Definition byte_xor (a b : Byte.byte) : Byte.byte :=
  byte.of_Z (Z.lxor (byte.unsigned a) (byte.unsigned b)).

Lemma byte_range b : 0 <= byte.unsigned b < 256.
Proof. pose proof (byte.unsigned_range b). lia. Qed.

Lemma byte_xor_cancel a b : byte_xor (byte_xor a b) b = a.
Proof.
  apply byte.unsigned_inj. unfold byte_xor. rewrite !byte.unsigned_of_Z.
  unfold byte.wrap.
  pose proof (byte_range a). pose proof (byte_range b).
  assert (0 <= Z.lxor (byte.unsigned a) (byte.unsigned b) < 2 ^ 8)
    by (apply lxor_bound; lia).
  rewrite (Z.mod_small (Z.lxor (byte.unsigned a) (byte.unsigned b))) by done.
  rewrite lxor_cancel. by apply Z.mod_small.
Qed.

(** [b[lo:hi]], with Go's bounds check. *)
Definition go_slice {A} (b : list A) (lo hi : Z) : result (list A) :=
  if decide (0 <= lo <= hi /\ hi <= zlen b) then Ok (ztake (hi - lo) (zdrop lo b))
  else Panic "slice bounds out of range".
(** [b[i]], with Go's bounds check. *)
Definition go_index (b : bytes) (i : Z) : result Byte.byte :=
  if decide (0 <= i < zlen b) then Ok (nth (Z.to_nat i) b Byte.x00)
  else Panic "index out of range".

Lemma go_slice_ok {A} (b : list A) lo hi :
  0 <= lo <= hi -> hi <= zlen b -> go_slice b lo hi = Ok (ztake (hi - lo) (zdrop lo b)).
Proof. intros. unfold go_slice. by rewrite decide_True. Qed.
Lemma go_index_ok (b : bytes) i :
  0 <= i < zlen b -> go_index b i = Ok (nth (Z.to_nat i) b Byte.x00).
Proof. intros. unfold go_index. by rewrite decide_True. Qed.
Lemma zlen_ztake {A} (l : list A) n : 0 <= n <= zlen l -> zlen (ztake n l) = n.
Proof. unfold zlen, ztake. rewrite length_take. lia. Qed.
Lemma zlen_zdrop {A} (l : list A) n : 0 <= n <= zlen l -> zlen (zdrop n l) = zlen l - n.
Proof. unfold zlen, zdrop. rewrite length_drop. lia. Qed.

Lemma go_slice_mid {A} (l m k : list A) lo hi :
  lo = zlen l -> hi = lo + zlen m -> go_slice (l ++ m ++ k) lo hi = Ok m.
Proof.
  intros -> ->. rewrite go_slice_ok; [|pose proof (zlen_nonneg l); pose proof (zlen_nonneg m); lia|].
  - unfold ztake, zdrop, zlen. rewrite Nat2Z.id, drop_app_length.
    replace (Z.to_nat _) with (length m) by lia. by rewrite take_app_length.
  - unfold zlen. rewrite !length_app. lia.
Qed.
Lemma go_slice_prefix {A} (m k : list A) hi : hi = zlen m -> go_slice (m ++ k) 0 hi = Ok m.
Proof. intros ->. by apply (go_slice_mid [] m k). Qed.
Lemma go_slice_suffix {A} (l m : list A) lo :
  lo = zlen l -> go_slice (l ++ m) lo (zlen (l ++ m)) = Ok m.
Proof.
  intros ->. rewrite <- (app_nil_r m) at 1. apply go_slice_mid; [done|].
  unfold zlen. rewrite length_app. lia.
Qed.
Lemma go_slice_full {A} (m : list A) : go_slice m 0 (zlen m) = Ok m.
Proof. apply (go_slice_suffix []). done. Qed.
Lemma go_slice_inv {A} (b : list A) lo hi c :
  go_slice b lo hi = Ok c -> 0 <= lo <= hi /\ hi <= zlen b /\ zlen c = hi - lo.
Proof.
  unfold go_slice. case_decide as H; [|done]. destruct H as [H1 H2]. intros [= <-].
  split; [done|]. split; [done|]. rewrite zlen_ztake; [done|]. rewrite zlen_zdrop; lia.
Qed.

(** [string] constants used as byte strings. *)
Definition bytes_of_string (s : string) : bytes :=
  String.list_byte_of_string s.

#[export] Instance byte_eq_dec : EqDecision Byte.byte := Byte.byte_eq_dec.

(** ** Slices and offsets *)

Lemma take_app_exact {A} (l k : list A) n : n = length l -> take n (l ++ k) = l.
Proof. intros ->. apply take_app_length. Qed.
Lemma drop_app_exact {A} (l k : list A) n : n = length l -> drop n (l ++ k) = k.
Proof. intros ->. apply drop_app_length. Qed.

Lemma zlen_app {A} (l k : list A) : zlen (l ++ k) = zlen l + zlen k.
Proof. unfold zlen. rewrite length_app. lia. Qed.
Lemma zlen_be_put n w : zlen (be_put n w) = Z.of_nat n.
Proof. unfold zlen. by rewrite length_be_put. Qed.
Lemma zlen_cons {A} (x : A) l : zlen (x :: l) = 1 + zlen l.
Proof. unfold zlen. cbn [length]. lia. Qed.
Lemma zlen_nil {A} : zlen (@nil A) = 0.
Proof. done. Qed.

Create Rewrite HintDb golen.
#[export] Hint Rewrite @zlen_app @zlen_be_put @zlen_cons @zlen_nil @length_app length_be_put
  @length_take @length_drop @length_replicate @length_go_copy : golen.

(** Length goals: rewrite the known lengths, then [lia]. *)
Ltac solve_len :=
  repeat (progress (autorewrite with golen in *; cbv [zlen] in *)); cbn [length] in *; lia.

(** Slice goals [take/drop (n) (l ++ k)] whose offset is the length of [l]. *)
Ltac slice_step :=
  first [ rewrite take_app_exact by solve_len
        | rewrite drop_app_exact by solve_len
        | rewrite take_ge by solve_len ].

(** Case analysis on the innermost [match] or [if] of the goal. *)
Ltac case_goal :=
  match goal with
  | |- context [match ?x with _ => _ end] => destruct x eqn:?
  end.

(** Unfold the monad operations, and only them. *)
Ltac res_simpl := cbv [mbind result_bind gom_bind mret result_ret gom_ret fmap result_fmap].
Ltac res_simpl_in H :=
  cbv [mbind result_bind gom_bind mret result_ret gom_ret fmap result_fmap] in H.

(** ** Time *)

(** A [time.Time] is its nanosecond count from the Unix epoch; the zero
    [time.Time] is January 1 of year 1. *)
Definition Second : Z := 1000000000.
Definition ZeroTime : Z := -62135596800 * Second.
(** [t.Sub(u)] saturates at the range of [time.Duration]. *)
Definition time_sub (t u : Z) : Z := Z.max minInt64 (Z.min maxInt64 (t - u)).
(** [time.Since(u)] at the instant [now]. *)
Definition time_since (now u : Z) : Z := time_sub now u.
(** [time.Unix(sec, nsec)] and [t.Unix()]. *)
Definition time_unix (sec nsec : Z) : Z := sec * Second + nsec.
Definition unix_of (t : Z) : Z := t / Second.
(** Go's truncated [/] and [%] on [int64]. *)
Definition go_div (a b : Z) : Z := Z.quot a b.
Definition go_rem (a b : Z) : Z := Z.rem a b.

Lemma time_unix_split ts : time_unix (go_div ts Second) (go_rem ts Second) = ts.
Proof. unfold time_unix, go_div, go_rem. rewrite Z.mul_comm. symmetry. apply Z.quot_rem'. Qed.

(** A key that tells the members of a list apart. *)
Lemma NoDup_map_inj {A B} (f : A -> B) (l : list A) x y :
  NoDup (map f l) -> x ∈ l -> y ∈ l -> f x = f y -> x = y.
Proof.
  induction l as [|z l IH]; [by intros _ ?%elem_of_nil|]. cbn. intros [Hz Hn]%NoDup_cons Hx Hy Hf.
  apply elem_of_cons in Hx, Hy.
  assert (forall w, w ∈ l -> f w <> f z) as Hne by (intros w Hw He; apply Hz; rewrite <- He; by apply list_elem_of_fmap_2).
  destruct Hx as [->|Hx], Hy as [->|Hy]; [done|..|by apply IH]; exfalso; by eapply Hne.
Qed.
