(* ===== verification/GoTime.v ===== *)
(** The duration text format of Go's [time] package, which the relay server
    and client use to agree on the heartbeat interval:
    [time.Duration.String] and [time.ParseDuration]. *)
From S2P Require Import Prelude.

Definition Nanosecond : Z := 1.
Definition Microsecond : Z := 1000.
Definition Millisecond : Z := 1000000.
Definition Minute : Z := 60 * Second.
Definition Hour : Z := 60 * Minute.

Definition digit (d : Z) : Byte.byte := byte.of_Z (48 + d).
Definition digit_val (b : Byte.byte) : option Z :=
  let c := byte.unsigned b in if (48 <=? c) && (c <=? 57) then Some (c - 48) else None.

(** Decimal digits of [v], most significant first. *)
Fixpoint fmtInt_aux (fuel : nat) (v : Z) (acc : bytes) : bytes :=
  match fuel with
  | O => acc
  | S fuel' => if v <? 10 then digit v :: acc else fmtInt_aux fuel' (v / 10) (digit (v mod 10) :: acc)
  end.
Definition fmtInt (v : Z) : bytes := fmtInt_aux 20 v [].

(** [fmtFrac]: the fraction [v/10^prec] without trailing zeros, and the
    integer part. *)
Fixpoint fmtFrac_aux (prec : nat) (v : Z) (printing : bool) (acc : bytes) : bytes * Z :=
  match prec with
  | O => (if printing then byte.of_Z 46 :: acc else acc, v)
  | S prec' =>
    let d := v mod 10 in
    let printing := printing || negb (d =? 0) in
    fmtFrac_aux prec' (v / 10) printing (if printing then digit d :: acc else acc)
  end.
Definition fmtFrac (v : Z) (prec : nat) : bytes * Z := fmtFrac_aux prec v false [].

Definition micro : bytes := [Byte.xc2; Byte.xb5].

(** [d.String()]. *)
Definition Duration_String (d : Z) : bytes :=
  if d =? 0 then bytes_of_string "0s"
  else
    let u := Z.abs d in
    let body :=
      if u <? Microsecond then fmtInt u ++ bytes_of_string "ns"
      else if u <? Millisecond then
        let (f, v) := fmtFrac u 3 in fmtInt v ++ f ++ micro ++ bytes_of_string "s"
      else if u <? Second then
        let (f, v) := fmtFrac u 6 in fmtInt v ++ f ++ bytes_of_string "ms"
      else
        let (f, v) := fmtFrac u 9 in
        let s := fmtInt (v mod 60) ++ f ++ bytes_of_string "s" in
        let m := v / 60 in
        if m =? 0 then s
        else
          let s := fmtInt (m mod 60) ++ bytes_of_string "m" ++ s in
          let h := m / 60 in
          if h =? 0 then s else fmtInt h ++ bytes_of_string "h" ++ s in
    if d <? 0 then Byte.x2d :: body else body.

(** [leadingInt]: [None] on overflow. *)
Fixpoint leadingInt (s : bytes) (x : Z) : option (Z * bytes) :=
  match s with
  | b :: rest =>
    match digit_val b with
    | None => Some (x, s)
    | Some v =>
      if 2 ^ 63 / 10 <? x then None
      else let y := x * 10 + v in if 2 ^ 63 <? y then None else leadingInt rest y
    end
  | [] => Some (x, [])
  end.

(** [leadingFraction]: digits beyond the precision of an [int64] are
    skipped. *)
Fixpoint leadingFraction (s : bytes) (x scale : Z) (overflow : bool) : Z * Z * bytes :=
  match s with
  | b :: rest =>
    match digit_val b with
    | None => (x, scale, s)
    | Some v =>
      if overflow then leadingFraction rest x scale true
      else if maxInt64 / 10 <? x then leadingFraction rest x scale true
      else
        let y := x * 10 + v in
        if 2 ^ 63 <? y then leadingFraction rest x scale true
        else leadingFraction rest y (scale * 10) false
    end
  | [] => (x, scale, [])
  end.

Definition unitMap (u : bytes) : option Z :=
  if bool_decide (u = bytes_of_string "ns") then Some Nanosecond
  else if bool_decide (u = bytes_of_string "us") then Some Microsecond
  else if bool_decide (u = micro ++ bytes_of_string "s") then Some Microsecond
  else if bool_decide (u = [Byte.xce; Byte.xbc] ++ bytes_of_string "s") then Some Microsecond
  else if bool_decide (u = bytes_of_string "ms") then Some Millisecond
  else if bool_decide (u = bytes_of_string "s") then Some Second
  else if bool_decide (u = bytes_of_string "m") then Some Minute
  else if bool_decide (u = bytes_of_string "h") then Some Hour
  else None.

Fixpoint take_unit (s : bytes) : bytes * bytes :=
  match s with
  | b :: rest =>
    let c := byte.unsigned b in
    if (c =? 46) || ((48 <=? c) && (c <=? 57)) then ([], s)
    else let (u, r) := take_unit rest in (b :: u, r)
  | [] => ([], [])
  end.

(** The components [number unit] of a duration.  The fraction is taken
    exactly and rounded down, which is what the floating-point product of the
    library computes for fractions of at most as many digits as the unit has. *)
Fixpoint parse_components (fuel : nat) (s : bytes) (d : Z) : option Z :=
  match fuel with
  | O => None
  | S fuel' =>
    match s with
    | [] => Some d
    | b :: _ =>
      let c := byte.unsigned b in
      if negb ((c =? 46) || ((48 <=? c) && (c <=? 57))) then None
      else
        match leadingInt s 0 with
        | None => None
        | Some (v, s1) =>
          let pre := negb (zlen s1 =? zlen s) in
          let '(f, scale, s2, post) :=
            match s1 with
            | p :: s1' =>
              if byte.unsigned p =? 46 then
                let '(f, scale, s2) := leadingFraction s1' 0 1 false in
                (f, scale, s2, negb (zlen s2 =? zlen s1'))
              else (0, 1, s1, false)
            | [] => (0, 1, s1, false)
            end in
          if negb pre && negb post then None
          else
            let (u, s3) := take_unit s2 in
            if bool_decide (u = []) then None
            else
              match unitMap u with
              | None => None
              | Some unit =>
                if 2 ^ 63 / unit <? v then None
                else
                  let v := v * unit in
                  let v := if 0 <? f then v + f * unit / scale else v in
                  if 2 ^ 63 <? v then None
                  else
                    let d := d + v in
                    if 2 ^ 63 <? d then None else parse_components fuel' s3 d
              end
        end
    end
  end.

(** [time.ParseDuration].  [None] is an error. *)
Definition ParseDuration (s : bytes) : option Z :=
  let '(neg, s) :=
    match s with
    | b :: rest => if bool_decide (b = Byte.x2d) then (true, rest)
                   else if bool_decide (b = Byte.x2b) then (false, rest) else (false, s)
    | [] => (false, s)
    end in
  if bool_decide (s = bytes_of_string "0") then Some 0
  else if bool_decide (s = []) then None
  else
    match parse_components (S (length s)) s 0 with
    | None => None
    | Some d =>
      if neg then Some (- d) else if maxInt64 <? d then None else Some d
    end.

(** The interval the relay server announces survives the text format, as do
    the other shapes of duration the two functions treat apart. *)
Example duration_text_roundtrip :
  Forall (fun d => ParseDuration (Duration_String d) = Some d)
    [30 * Second; 0; 1; 1500; -90 * Second; 2 * Hour + 3 * Minute + 4 * Second + 5 * Millisecond;
     250 * Millisecond].
Proof. repeat constructor; by vm_compute. Qed.
