(* ===== verification/GoText.v ===== *)
(** Text functions of Go's standard library the portal and the node use:
    [strconv.ParseUint], [strings.Split] on a space, [strings.TrimSpace] (on
    ASCII text), [strings.HasPrefix], [TrimPrefix] and [TrimSuffix]. *)
From stdpp Require Export pretty.
From Stdlib Require Import Ascii.
From S2P Require Import Prelude.
#[global] Open Scope Z_scope.
#[local] Set Warnings "-clear-no-such-hyp".

(** ** [strconv.ParseUint(s, 10, 64)] *)

Definition ErrSyntax : error := EMsg "invalid syntax".
Definition ErrRange : error := EMsg "value out of range".
Definition maxUint64 : Z := 2 ^ 64 - 1.

(** The value that comes with the error is zero, or the largest one. *)
Fixpoint parse_digits (s : string) (acc : Z) : Z * option error :=
  match s with
  | EmptyString => (acc, None)
  | String c s' =>
    let n := Z.of_nat (nat_of_ascii c) in
    if (48 <=? n) && (n <=? 57) then
      let v := acc * 10 + (n - 48) in
      if v <? 2 ^ 64 then parse_digits s' v else (maxUint64, Some ErrRange)
    else (0, Some ErrSyntax)
  end.
Definition parse_uint (s : string) : Z * option error :=
  match s with EmptyString => (0, Some ErrSyntax) | _ => parse_digits s 0 end.
Definition ParseUint (s : string) : option Z :=
  match parse_uint s with (n, None) => Some n | _ => None end.

(** ** [strings] *)

Definition space : ascii := ascii_of_nat 32.

(** [strings.Split(s, sep)] for a separator of one byte. *)
Fixpoint split_on (sep : ascii) (s : string) : list string :=
  match s with
  | EmptyString => [EmptyString]
  | String c s' =>
    if Ascii.eqb c sep then EmptyString :: split_on sep s'
    else match split_on sep s' with
         | w :: ws => String c w :: ws
         | [] => [String c EmptyString]
         end
  end.

(** Tab, newline, vertical tab, form feed, carriage return and space. *)
Definition is_space (c : ascii) : bool :=
  let n := nat_of_ascii c in (Nat.leb 9 n && Nat.leb n 13) || Nat.eqb n 32.
Fixpoint trim_left (s : string) : string :=
  match s with
  | String c s' => if is_space c then trim_left s' else s
  | EmptyString => EmptyString
  end.
Fixpoint trim_right (s : string) : string :=
  match s with
  | String c s' =>
    match trim_right s' with
    | EmptyString => if is_space c then EmptyString else String c EmptyString
    | r => String c r
    end
  | EmptyString => EmptyString
  end.
Definition TrimSpace (s : string) : string := trim_right (trim_left s).

Definition HasPrefix (s p : string) : bool := String.prefix p s.
Definition TrimPrefix (s p : string) : string :=
  if HasPrefix s p then String.substring (String.length p) (String.length s - String.length p) s else s.
Definition HasSuffix (s p : string) : bool :=
  Nat.leb (String.length p) (String.length s)
  && String.eqb (String.substring (String.length s - String.length p) (String.length p) s) p.
Definition TrimSuffix (s p : string) : string :=
  if HasSuffix s p then String.substring 0 (String.length s - String.length p) s else s.

(** [strings.ToUpper], [strings.ToLower] and one letter, on ASCII text; [strings.Join]. *)
Definition upper (c : ascii) : ascii :=
  let n := nat_of_ascii c in if Nat.leb 97 n && Nat.leb n 122 then ascii_of_nat (n - 32) else c.
Definition lower (c : ascii) : ascii :=
  let n := nat_of_ascii c in if Nat.leb 65 n && Nat.leb n 90 then ascii_of_nat (n + 32) else c.
Fixpoint ToUpper (s : string) : string :=
  match s with EmptyString => EmptyString | String c s' => String (upper c) (ToUpper s') end.
Fixpoint ToLower (s : string) : string :=
  match s with EmptyString => EmptyString | String c s' => String (lower c) (ToLower s') end.
Definition Join (l : list string) (sep : string) : string := String.concat sep l.

(** A text between quotation marks. *)
Definition quote_mark : string := String (ascii_of_nat 34) EmptyString.
Definition quoted (s : string) : string := (quote_mark ++ s ++ quote_mark)%string.

(** ** Lemmas *)

Lemma length_append (a c : string) : String.length (a ++ c)%string = (String.length a + String.length c)%nat.
Proof. induction a as [|x a IH]; [done|]. change (S (String.length (a ++ c)%string) = S (String.length a + String.length c)). by rewrite IH. Qed.
Lemma pretty_char_digit x : (x < 10)%N ->
  Z.of_nat (nat_of_ascii (pretty_N_char x)) = 48 + Z.of_N x.
Proof.
  intros Hx.
  assert (x = 0 \/ x = 1 \/ x = 2 \/ x = 3 \/ x = 4 \/ x = 5 \/ x = 6 \/ x = 7 \/ x = 8 \/ x = 9)%N as Hc by lia.
  repeat destruct Hc as [->|Hc]; try done. by subst.
Qed.

Lemma parse_digits_pretty x s :
  (x < 2 ^ 64)%N -> parse_digits (pretty_N_go x s) 0 = parse_digits s (Z.of_N x).
Proof.
  revert s. induction (N.lt_wf_0 x) as [x _ IH]; intros s Hx.
  assert (x = 0 \/ 0 < x)%N as [->|Hpos] by lia; [by rewrite pretty_N_go_0|].
  rewrite pretty_N_go_step by done.
  rewrite IH; [|by apply N.div_lt|by apply (N.le_lt_trans _ x); [apply N.Div0.div_le_upper_bound; lia|]].
  pose proof (N.mod_lt x 10 ltac:(done)) as Hm. pose proof (N.div_mod x 10 ltac:(done)) as Hd.
  cbn [parse_digits]. rewrite pretty_char_digit by done.
  set (q := (x `div` 10)%N) in *. set (m := (x `mod` 10)%N) in *. clearbody q m.
  destruct (Z.leb_spec 48 (48 + Z.of_N m)) as [_|]; [|lia].
  destruct (Z.leb_spec (48 + Z.of_N m) 57) as [_|]; [|lia]. cbn [andb].
  replace (Z.of_N q * 10 + (48 + Z.of_N m - 48)) with (Z.of_N x) by lia.
  destruct (Z.ltb_spec (Z.of_N x) (2 ^ 64)) as [|]; [done|lia].
Qed.

Lemma pretty_go_nonempty x s : (0 < x)%N \/ s <> EmptyString -> pretty_N_go x s <> EmptyString.
Proof.
  revert s. induction (N.lt_wf_0 x) as [x _ IH]; intros s Hx.
  assert (x = 0 \/ 0 < x)%N as [->|Hpos] by lia; [rewrite pretty_N_go_0; destruct Hx; [lia|done]|].
  rewrite pretty_N_go_step by done. apply IH; [by apply N.div_lt|by right].
Qed.

(** Formatting then parsing an unsigned 64-bit integer. *)
Lemma parse_uint_pretty n : 0 <= n < 2 ^ 64 -> parse_uint (pretty n) = (n, None).
Proof.
  intros Hn. destruct n as [|p|p]; [done| |lia].
  change (pretty (Zpos p)) with (pretty_N_go (Npos p) EmptyString).
  unfold parse_uint. pose proof (pretty_go_nonempty (Npos p) EmptyString (or_introl eq_refl)) as Hne.
  pose proof (parse_digits_pretty (Npos p) EmptyString ltac:(lia)) as Hp.
  destruct (pretty_N_go (Npos p) EmptyString); [done|exact Hp].
Qed.

(** A text with none of the separators, and none of the blanks. *)
Fixpoint free_of (c : ascii) (s : string) : bool :=
  match s with EmptyString => true | String d s' => negb (Ascii.eqb d c) && free_of c s' end.
Fixpoint unblank (s : string) : bool :=
  match s with EmptyString => true | String c s' => negb (is_space c) && unblank s' end.

Lemma unblank_free s : unblank s = true -> free_of space s = true.
Proof.
  induction s as [|c s IH]; [done|]. cbn. rewrite !andb_true_iff. intros [Hc Hs]. split; [|by apply IH].
  destruct (Ascii.eqb_spec c space) as [->|]; done.
Qed.
Lemma split_on_free sep s : free_of sep s = true -> split_on sep s = [s].
Proof.
  induction s as [|c s IH]; [done|]. cbn. destruct (Ascii.eqb c sep); [done|]. intros Hs. by rewrite IH.
Qed.
Lemma split_on_two sep a b :
  free_of sep a = true -> free_of sep b = true -> split_on sep (a ++ String sep b)%string = [a; b].
Proof.
  intros Ha Hb. induction a as [|c a IH].
  { change (EmptyString ++ String sep b)%string with (String sep b). cbn [split_on]. by rewrite Ascii.eqb_refl, (split_on_free _ _ Hb). }
  change (String c a ++ String sep b)%string with (String c (a ++ String sep b)). cbn [split_on].
  cbn in Ha. destruct (Ascii.eqb c sep); [done|]. by rewrite IH.
Qed.
Lemma trim_right_unblank s : unblank s = true -> trim_right s = s.
Proof.
  induction s as [|c s IH]; [done|]. cbn. rewrite andb_true_iff. intros [Hc Hs]. rewrite IH by done.
  destruct s; [|done]. by destruct (is_space c).
Qed.
Lemma TrimSpace_unblank s : unblank s = true -> TrimSpace s = s.
Proof.
  intros Hs. unfold TrimSpace. replace (trim_left s) with s; [by apply trim_right_unblank|].
  destruct s as [|c s]; [done|]. cbn in *. by destruct (is_space c).
Qed.
