(* ===== verification/Wire.v ===== *)
(** Wire-level vocabulary: the protocol constants ([constant/constant.go]),
    the packet types and messages of [message/packet.pb.go] and the JSON
    records of [protocol/portal.go] and [protocol/relay.go].  Every integer
    field is a [Z] within the range of its Go type. *)
From S2P Require Import Prelude.

(** ** Packet layout ([constant/constant.go]) *)

Definition HeaderNonceSize : Z := 4.
Definition HeaderPacketTypeSize : Z := 2.
Definition PacketHeaderSize : Z := 10.
Definition FragmentHeaderSize : Z := 14.
Definition MaxBufferSize : Z := 4096.
Definition DiscoveryDuration : Z := 30 * Second.
Definition MaxSegmentSize : Z := 2048 - 32.
Definition MaxMessageSize : Z := MaxSegmentSize.
Definition HeartbeatInterval : Z := 30 * Second.

Definition PrefixAuthKey : string := "AuthKey".
Definition PrefixFastKey : string := "FastKey".
Definition PrefixJwtToken : string := "Bearer".

(** ** Error codes ([errcode/errcode.go], [errcode/errors.go]) *)

Module ErrCode.
Definition InternalError : Z := 1.
Definition InvalidVersion : Z := 2.
Definition IncompatibleVersion : Z := 3.
Definition InvalidSecretKey : Z := 4.
Definition NotFound : Z := 5.
Definition InvalidToken : Z := 6.
Definition IllegalRequest : Z := 7.
Definition IllegalOperation : Z := 8.
Definition DeviceExceed : Z := 9.

Definition ErrInvalidAuthKey : error :=
  EStatus 401 (ECode InvalidSecretKey "invalid authentication privateKey").
Definition ErrInvalidToken : error := EStatus 403 (ECode InvalidToken "invalid token").
Definition ErrServerInternal : error := ECode InternalError "server internal error".
Definition ErrNotFound : error := ECode NotFound "not found".
Definition ErrIllegalRequest : error := ECode IllegalRequest "illegal request".
Definition ErrIllegalOperation : error := ECode IllegalOperation "illegal operation".
Definition ErrDeviceExceed : error := ECode DeviceExceed "device exceed".
End ErrCode.
Export ErrCode.

(** ** Packet types ([message.PacketType], an [int32]) *)

Abbreviation PacketType := Z (only parsing).
Definition PacketType_Handshake : PacketType := 0.
Definition PacketType_HandshakeAck : PacketType := 1.
Definition PacketType_ProbeRequest : PacketType := 2.
Definition PacketType_ProbeResponse : PacketType := 3.
Definition PacketType_Heartbeat : PacketType := 4.
Definition PacketType_SyncPeer : PacketType := 5.
Definition PacketType_Forward : PacketType := 6.
Definition PacketType_Discovery : PacketType := 7.
Definition PacketType_Fragment : PacketType := 8.
Definition PacketType__UnitTestRequest : PacketType := 99.
Definition PacketType__UnitTestResponse : PacketType := 100.

(** ** Messages *)

Abbreviation PeerID := Z (only parsing).
Abbreviation UserID := Z (only parsing).
Abbreviation NetworkID := Z (only parsing).
Abbreviation ServerID := Z (only parsing).

Record PacketHandshake := mkPacketHandshake {
  hs_Message : bytes; hs_IsPrimary : bool }.
Record PacketHandshakeAck := mkPacketHandshakeAck { hsa_Message : bytes }.
Record PacketHeartbeat := mkPacketHeartbeat { hb_Timestamp : Z }.
Record PacketProbeRequest := mkPacketProbeRequest { prq_Peers : list Z }.
Record PacketProbeResponse := mkPacketProbeResponse {
  prs_OnlinePeers : list Z; prs_OfflinePeers : list Z }.
Record PacketForward := mkPacketForward {
  fw_SrcPeerID : Z; fw_DstPeerID : Z; fw_Nonce : Z; fw_Fragment : bytes }.
Record PacketDiscovery := mkPacketDiscovery {
  dc_SenderPeerID : Z; dc_Timestamp : Z }.

(** [PacketSyncPeer_Purpose]; other numbers can arrive on the wire. *)
Inductive Purpose :=
| Undefined | Catchup | CatchupAck | PairRequest | PairResponse | EndpointsChanged
| UnknownPurpose (n : Z).

Record PacketSyncPeer_Network := mkSyncNetwork { sn_Name : string; sn_ID : Z }.
Record PacketSyncPeer_RelayServer := mkSyncRelayServer {
  sr_ID : Z; sr_Name : string; sr_Region : string; sr_Host : string; sr_Port : Z;
  sr_PublicKey : string }.
(** Sub-message fields are Go pointers: [None] is [nil]. *)
Record PacketSyncPeer_PeerInfo := mkSyncPeerInfo {
  pi_PeerID : Z; pi_UserID : Z; pi_Name : string; pi_IPv4 : string;
  pi_PublicKey : bytes; pi_PrimaryServer : option PacketSyncPeer_RelayServer;
  pi_Networks : list PacketSyncPeer_Network }.
Record PacketSyncPeer := mkPacketSyncPeer {
  sp_DstPeerID : Z; sp_Purpose : Purpose;
  sp_Peer : option PacketSyncPeer_PeerInfo; sp_Endpoints : list string }.

(** [proto.Message] values the program exchanges. *)
Inductive Message :=
| MHandshake (m : PacketHandshake)
| MHandshakeAck (m : PacketHandshakeAck)
| MHeartbeat (m : PacketHeartbeat)
| MProbeRequest (m : PacketProbeRequest)
| MProbeResponse (m : PacketProbeResponse)
| MSyncPeer (m : PacketSyncPeer)
| MForward (m : PacketForward)
| MDiscovery (m : PacketDiscovery)
| MUnitTestRequest (field : string)
| MUnitTestResponse (field : string).

(** The Go type of a message, as the registry of [serde] selects it. *)
Inductive MessageKind :=
| KHandshake | KHandshakeAck | KHeartbeat | KProbeRequest | KProbeResponse
| KSyncPeer | KForward | KDiscovery | KUnitTestRequest | KUnitTestResponse.

Definition kind_of (m : Message) : MessageKind :=
  match m with
  | MHandshake _ => KHandshake | MHandshakeAck _ => KHandshakeAck
  | MHeartbeat _ => KHeartbeat | MProbeRequest _ => KProbeRequest
  | MProbeResponse _ => KProbeResponse | MSyncPeer _ => KSyncPeer
  | MForward _ => KForward | MDiscovery _ => KDiscovery
  | MUnitTestRequest _ => KUnitTestRequest | MUnitTestResponse _ => KUnitTestResponse
  end.

#[export] Instance MessageKind_eq_dec : EqDecision MessageKind.
Proof. solve_decision. Defined.

(** ** Portal and relay records ([protocol/portal.go], [protocol/relay.go]) *)

Record Network := mkNetwork { nw_ID : NetworkID; nw_Name : string; nw_Peers : list PeerID }.
Record Peer := mkPeer {
  pr_ID : PeerID; pr_UserID : UserID; pr_Name : string; pr_IPv4 : string;
  pr_ServerID : ServerID; pr_Active : bool }.
Record RelayServer := mkRelayServer {
  rs_ID : ServerID; rs_Name : string; rs_Region : string; rs_Host : string;
  rs_Port : Z; rs_STUNPort : Z; rs_PublicKey : string }.
Record PeerGraphResponse := mkPeerGraphResponse {
  pg_NotModified : bool; pg_UniqueHash : string; pg_UpdateInterval : Z;
  pg_RelayServers : list RelayServer; pg_Peers : list Peer; pg_Networks : list Network }.
Record PreflightRequest := mkPreflightRequest { pf_OS : string; pf_Host : string }.
Record PreflightResponse := mkPreflightResponse {
  pfr_ID : PeerID; pfr_UserID : UserID; pfr_Name : string; pfr_IPv4 : string;
  pfr_PrimaryServer : RelayServer; pfr_Credential : string; pfr_CredentialLease : Z }.
Record RelayKeepaliveRequest := mkRelayKeepaliveRequest {
  rk_Name : string; rk_Region : string; rk_Host : string; rk_Port : Z; rk_STUNPort : Z;
  rk_PublicKey : string; rk_Peers : list PeerID; rk_StartedAt : Z }.
Record RelayKeepaliveResponse := mkRelayKeepaliveResponse {
  rkr_PublicKey : string; rkr_SyncFailed : bool }.

#[export] Instance RelayServer_eq_dec : EqDecision RelayServer.
Proof. solve_decision. Defined.
#[export] Instance Network_eq_dec : EqDecision Network.
Proof. solve_decision. Defined.
#[export] Instance Peer_eq_dec : EqDecision Peer.
Proof. solve_decision. Defined.

(** The zero values of the Go structs, where the source returns them. *)
Definition zero_RelayServer : RelayServer := mkRelayServer 0 "" "" "" 0 0 "".
