(* ===== verification/RelayCodec.v ===== *)
(** The framing of the relay TCP stream: [internal/codec/relay_codec.go].
    A frame is [nonce(4) | type(2) | size(4) | payload]; the decoder keeps
    the bytes it has not consumed and the header it has already read. *)
From S2P Require Import Prelude Wire.

(** ** State and packets *)

Record RawPacket := mkRawPacket { rp_Type : PacketType; rp_Nonce : Z; rp_Payload : bytes }.

#[export] Instance RawPacket_eq_dec : EqDecision RawPacket.
Proof. solve_decision. Defined.

(** [size < 0] means that no header is pending. *)
Record RelayCodec := mkCodec { buf : bytes; size : Z; typ : PacketType; nonce : Z }.

Definition NewCodec : RelayCodec := mkCodec [] (-1) 0 0.

(** ** Encoding *)

(** [uint16(typ) ^ uint16(nonce&(1<<16-1))], used in both directions. *)
Definition mask_type (t nonce : Z) : Z :=
  Z.lxor (u16 t) (u16 (Z.land nonce (2 ^ 16 - 1))).

Definition Encode (nonce : Z) (typ : PacketType) (data : bytes) : result bytes :=
  let payloadSize := u32 (zlen data) in
  let total := u32 (PacketHeaderSize + payloadSize) in
  if total <? PacketHeaderSize then Panic "slice bounds out of range"
  else Ok (be_put 4 nonce ++ be_put 2 (mask_type typ nonce) ++ be_put 4 payloadSize
           ++ go_copy (go_make (total - PacketHeaderSize)) data).

(** ** Decoding *)

(** [readHeader]: consume ten bytes of [c.buf] and remember the header. *)
Definition readHeader (c : RelayCodec) : RelayCodec :=
  let header := ztake PacketHeaderSize (buf c) in
  let nonce := be_get (take 4 header) in
  let typeNumber := be_get (take 2 (drop 4 header)) in
  mkCodec (zdrop PacketHeaderSize (buf c))
          (be_get (take 4 (drop 6 header)))
          (mask_type typeNumber nonce)
          nonce.

(** The [for c.size > 0 && c.size <= c.buf.Len()] loop.  Every iteration
    consumes at least one byte, so [length (buf c)] iterations are enough
    ([decode_loop_ends]). *)
Fixpoint decode_loop (fuel : nat) (c : RelayCodec) (output : list RawPacket)
  : RelayCodec * result (list RawPacket) :=
  if (0 <? size c) && (size c <=? zlen (buf c)) then
    match fuel with
    | O => (c, Panic "out of fuel")
    | S fuel =>
      if MaxMessageSize <? size c then (c, Err (EMsg "message size exceed"))
      else
        let output := output ++ [mkRawPacket (typ c) (nonce c) (ztake (size c) (buf c))] in
        let rest := zdrop (size c) (buf c) in
        let c := mkCodec rest (size c) (typ c) (nonce c) in
        if PacketHeaderSize <=? zlen rest then decode_loop fuel (readHeader c) output
        else decode_loop fuel (mkCodec rest (-1) (typ c) (nonce c)) output
    end
  else (c, Ok output).

Definition Decode (input : bytes) : GoM RelayCodec (list RawPacket) := fun c =>
  let c := mkCodec (buf c ++ input) (size c) (typ c) (nonce c) in
  if zlen (buf c) <? PacketHeaderSize then (c, Ok [])
  else
    let c := if size c <? 0 then readHeader c else c in
    decode_loop (length (buf c)) c [].

(** The packets a reader goroutine pushes for a sequence of reads: it stops
    at the first error, as [Read] of both transporters does. *)
Fixpoint decode_all (chunks : list bytes) : GoM RelayCodec (list RawPacket) :=
  match chunks with
  | [] => mret []
  | ch :: rest => ps ← Decode ch; qs ← decode_all rest; mret (ps ++ qs)
  end.

(** ** Specification: the byte stream of a packet sequence *)

Definition header_bytes (n : Z) (t : PacketType) (s : Z) : bytes :=
  be_put 4 n ++ be_put 2 (mask_type t n) ++ be_put 4 s.
Definition frame (p : RawPacket) : bytes :=
  header_bytes (rp_Nonce p) (rp_Type p) (zlen (rp_Payload p)) ++ rp_Payload p.
Definition wire (ps : list RawPacket) : bytes := concat (map frame ps).

(** A packet the program can put on the wire, with a payload of at least
    [lo] bytes. *)
Definition packet_ok (lo : Z) (p : RawPacket) : Prop :=
  0 <= rp_Nonce p < 2 ^ 32 /\ 0 <= rp_Type p < 2 ^ 16 /\
  lo <= zlen (rp_Payload p) <= MaxMessageSize.

#[export] Instance packet_ok_dec lo p : Decision (packet_ok lo p).
Proof. unfold packet_ok. apply _. Defined.

(** The stream bytes the decoder holds: what it buffered, with the header
    it already consumed put back in front. *)
Definition pending (c : RelayCodec) : bytes :=
  if size c <? 0 then buf c
  else header_bytes (nonce c) (typ c) (size c) ++ buf c.

(** Between two calls: no header pending, or one that announces at least
    ten bytes. *)
Definition codec_wf (c : RelayCodec) : Prop := size c = -1 \/ PacketHeaderSize <= size c.

(** Nothing more can be decoded without further input. *)
Definition quiescent (c : RelayCodec) : Prop :=
  (size c < 0 /\ zlen (buf c) < PacketHeaderSize) \/ (0 <= size c /\ zlen (buf c) < size c).

(** ** Header lemmas *)

Lemma mask_type_range t n : 0 <= mask_type t n < 2 ^ 16.
Proof. unfold mask_type, u16. apply lxor_bound; [lia| |]; apply Z.mod_pos_bound; lia. Qed.

Lemma mask_type_involutive t n : 0 <= t < 2 ^ 16 -> mask_type (mask_type t n) n = t.
Proof.
  intros Ht. pose proof (mask_type_range t n). unfold mask_type at 1.
  unfold u16 at 1. rewrite Z.mod_small by done. unfold mask_type.
  rewrite lxor_cancel. unfold u16. by apply Z.mod_small.
Qed.

Lemma length_header_bytes n t s : length (header_bytes n t s) = 10%nat.
Proof. unfold header_bytes. solve_len. Qed.
Lemma zlen_header_bytes n t s : zlen (header_bytes n t s) = 10.
Proof. unfold zlen. by rewrite length_header_bytes. Qed.
#[local] Hint Rewrite length_header_bytes zlen_header_bytes : golen.

Lemma readHeader_bytes n t s rest sz ty nn :
  0 <= n < 2 ^ 32 -> 0 <= t < 2 ^ 16 -> 0 <= s < 2 ^ 32 ->
  readHeader (mkCodec (header_bytes n t s ++ rest) sz ty nn) = mkCodec rest s t n.
Proof.
  intros Hn Ht Hs. unfold readHeader, ztake, zdrop, PacketHeaderSize. cbn [buf].
  rewrite drop_app_exact by solve_len. rewrite take_app_exact by solve_len.
  pose proof (mask_type_range t n).
  assert (take 4 (header_bytes n t s) = be_put 4 n) as ->.
  { unfold header_bytes. by rewrite take_app_exact by solve_len. }
  assert (take 2 (drop 4 (header_bytes n t s)) = be_put 2 (mask_type t n)) as ->.
  { unfold header_bytes. rewrite drop_app_exact by solve_len.
    by rewrite take_app_exact by solve_len. }
  assert (take 4 (drop 6 (header_bytes n t s)) = be_put 4 s) as ->.
  { unfold header_bytes. rewrite app_assoc, drop_app_exact by solve_len.
    by rewrite take_ge by solve_len. }
  rewrite !be_get_put_small by (cbn; lia). by rewrite mask_type_involutive by done.
Qed.

Lemma header_bytes_inj n t s x n' t' s' y :
  0 <= n < 2 ^ 32 -> 0 <= t < 2 ^ 16 -> 0 <= s < 2 ^ 32 ->
  0 <= n' < 2 ^ 32 -> 0 <= t' < 2 ^ 16 -> 0 <= s' < 2 ^ 32 ->
  header_bytes n t s ++ x = header_bytes n' t' s' ++ y ->
  n = n' /\ t = t' /\ s = s' /\ x = y.
Proof.
  intros Hn Ht Hs Hn' Ht' Hs' H.
  pose proof (readHeader_bytes n t s x 0 0 0 Hn Ht Hs) as E1.
  pose proof (readHeader_bytes n' t' s' y 0 0 0 Hn' Ht' Hs') as E2.
  rewrite H, E2 in E1. by simplify_eq.
Qed.

Lemma Encode_frame p :
  packet_ok 0 p -> Encode (rp_Nonce p) (rp_Type p) (rp_Payload p) = Ok (frame p).
Proof.
  intros (Hn & Ht & Hl). unfold Encode, MaxMessageSize, MaxSegmentSize in *.
  pose proof (zlen_nonneg (rp_Payload p)).
  unfold u32, PacketHeaderSize. rewrite (Z.mod_small (zlen _)) by lia.
  rewrite Z.mod_small by lia.
  destruct (Z.ltb_spec (10 + zlen (rp_Payload p)) 10); [lia|].
  unfold frame, header_bytes. rewrite <- !app_assoc. do 4 f_equal.
  apply go_copy_same. unfold go_make. solve_len.
Qed.

Lemma wire_cons p ps : wire (p :: ps) = frame p ++ wire ps.
Proof. done. Qed.

Lemma packet_ok_size lo p : 0 <= lo -> packet_ok lo p -> 0 <= zlen (rp_Payload p) < 2 ^ 32.
Proof. unfold packet_ok, MaxMessageSize, MaxSegmentSize. lia. Qed.

Lemma packet_ok_weaken lo lo' p : lo' <= lo -> packet_ok lo p -> packet_ok lo' p.
Proof. unfold packet_ok. lia. Qed.

(** ** Decoding a well-formed stream *)

(** A stream of valid frames, of which the decoder holds the first part. *)
Definition in_sync (c : RelayCodec) (rest : bytes) (ps : list RawPacket) : Prop :=
  codec_wf c /\ (0 <= size c -> 0 <= nonce c < 2 ^ 32 /\ 0 <= typ c < 2 ^ 16 /\ size c < 2 ^ 32)
  /\ pending c ++ rest = wire ps.

Lemma readHeader_sync c rest ps :
  size c = -1 -> PacketHeaderSize <= zlen (buf c) -> Forall (packet_ok 10) ps ->
  in_sync c rest ps ->
  in_sync (readHeader c) rest ps /\ 0 <= size (readHeader c) /\
  (length (buf (readHeader c)) <= length (buf c))%nat.
Proof.
  intros Hsz Hlen Hok (_ & _ & Hp). destruct c as [b s t n].
  cbn [size buf] in *; subst s.
  unfold PacketHeaderSize in *. destruct ps as [|p ps].
  { unfold wire in Hp; cbn in Hp. apply app_nil in Hp as [-> _]. done. }
  apply Forall_cons in Hok as [Hp0 Hok]. pose proof (packet_ok_size 10 p ltac:(lia) Hp0).
  destruct Hp0 as (Hn & Ht & Hl).
  rewrite wire_cons in Hp. unfold pending in Hp; cbn in Hp.
  rewrite <- (take_drop 10 b), <- app_assoc in Hp. unfold frame in Hp.
  rewrite <- app_assoc in Hp. apply app_inj_1 in Hp as [Hhd Htl]; [|solve_len].
  assert (readHeader (mkCodec b (-1) t n) = mkCodec (drop 10 b)
    (zlen (rp_Payload p)) (rp_Type p) (rp_Nonce p)) as ->.
  { rewrite <- (take_drop 10 b) at 1. by rewrite Hhd, readHeader_bytes by done. }
  unfold in_sync, codec_wf, pending; cbn [size buf typ nonce].
  split; [|split; [lia|solve_len]].
  destruct (Z.ltb_spec (zlen (rp_Payload p)) 0); [lia|].
  split; [right; unfold PacketHeaderSize; lia|]. split; [lia|].
  by rewrite <- app_assoc, Htl, wire_cons; unfold frame; rewrite <- app_assoc.
Qed.

(** What the pending header says about the next packet. *)
Lemma sync_head c rest ps :
  0 <= size c -> Forall (packet_ok 10) ps -> in_sync c rest ps ->
  exists p ps', ps = p :: ps' /\ size c = zlen (rp_Payload p) /\ typ c = rp_Type p /\
    nonce c = rp_Nonce p /\ buf c ++ rest = rp_Payload p ++ wire ps'.
Proof.
  intros Hsz Hok (_ & Hr & Hp). specialize (Hr Hsz) as (Hn & Ht & Hs).
  unfold pending in Hp. destruct (Z.ltb_spec (size c) 0); [lia|].
  destruct ps as [|p ps'].
  { apply (f_equal zlen) in Hp. unfold wire in Hp. cbn [map concat] in Hp.
    pose proof (zlen_nonneg rest). pose proof (zlen_nonneg (buf c)). solve_len. }
  apply Forall_cons in Hok as [Hp0 Hok]. pose proof (packet_ok_size 10 p ltac:(lia) Hp0).
  destruct Hp0 as (Hn' & Ht' & Hl).
  rewrite wire_cons in Hp. unfold frame in Hp. rewrite <- !app_assoc in Hp.
  apply header_bytes_inj in Hp as (-> & -> & -> & Hp); [|done..].
  by exists p, ps'.
Qed.

Lemma decode_loop_sync fuel : forall c rest ps out,
  (length (buf c) <= fuel)%nat -> Forall (packet_ok 10) ps -> in_sync c rest ps ->
  (size c < 0 -> zlen (buf c) < PacketHeaderSize) ->
  exists ps1 ps2 c', ps = ps1 ++ ps2 /\ decode_loop fuel c out = (c', Ok (out ++ ps1)) /\
    in_sync c' rest ps2 /\ quiescent c'.
Proof.
  induction fuel as [|fuel IH]; intros c rest ps out Hf Hok Hs Hneg.
  all: cbn [decode_loop]; destruct (Z.ltb_spec 0 (size c)) as [Hpos|Hpos]; cbn [andb].
  2,4: exists [], ps, c; rewrite app_nil_r; split_and!; [done..|];
    unfold quiescent; destruct Hs as ([Hwf|Hwf] & _); unfold PacketHeaderSize in *; lia.
  all: destruct (Z.leb_spec (size c) (zlen (buf c))) as [Hle|Hle].
  2,4: exists [], ps, c; rewrite app_nil_r; split_and!; [done..|]; unfold quiescent; lia.
  { unfold zlen in *. lia. }
  destruct (sync_head c rest ps ltac:(lia) Hok Hs) as (p & ps' & -> & Hsz & Hty & Hno & Hb).
  apply Forall_cons in Hok as [Hp0 Hok]. destruct Hp0 as (Hn' & Ht' & Hl).
  rewrite Hsz in *. destruct (Z.ltb_spec MaxMessageSize (zlen (rp_Payload p))); [lia|].
  rewrite <- (take_drop (length (rp_Payload p)) (buf c)), <- app_assoc in Hb.
  apply app_inj_1 in Hb as [Htk Hdr]; [|unfold zlen in *; rewrite length_take; lia].
  assert (ztake (zlen (rp_Payload p)) (buf c) = rp_Payload p) as ->.
  { unfold ztake, zlen. by rewrite Nat2Z.id. }
  assert (zdrop (zlen (rp_Payload p)) (buf c) = drop (length (rp_Payload p)) (buf c)) as ->.
  { unfold zdrop, zlen. by rewrite Nat2Z.id. }
  rewrite Hty, Hno. set (rest' := drop _ _) in *.
  assert (length rest' < length (buf c))%nat as Hlt.
  { subst rest'. rewrite length_drop. unfold zlen in *. lia. }
  set (c0 := mkCodec rest' (-1) (rp_Type p) (rp_Nonce p)).
  assert (in_sync c0 rest ps') as Hs0.
  { split; [by left|]. split; [cbn; lia|]. done. }
  replace (mkRawPacket (rp_Type p) (rp_Nonce p) (rp_Payload p)) with p by by destruct p.
  destruct (Z.leb_spec PacketHeaderSize (zlen rest')) as [Hh|Hh].
  - replace (readHeader _) with (readHeader c0) by done.
    destruct (readHeader_sync c0 rest ps' eq_refl Hh Hok Hs0) as (Hs1 & Hp1 & Hl1).
    destruct (IH (readHeader c0) rest ps' (out ++ [p])) as (ps1 & ps2 & c' & -> & -> & Hc);
      [cbn [buf c0] in *; lia|done|done|lia|].
    exists (p :: ps1), ps2, c'. by rewrite <- app_assoc.
  - cbn [typ nonce]. fold c0.
    destruct (IH c0 rest ps' (out ++ [p])) as (ps1 & ps2 & c' & -> & -> & Hc);
      [cbn [buf c0] in *; lia|done|done|done|].
    exists (p :: ps1), ps2, c'. by rewrite <- app_assoc.
Qed.

Lemma Decode_sync c input rest ps :
  Forall (packet_ok 10) ps -> in_sync c (input ++ rest) ps ->
  exists ps1 ps2 c', ps = ps1 ++ ps2 /\ Decode input c = (c', Ok ps1) /\
    in_sync c' rest ps2 /\ quiescent c'.
Proof.
  intros Hok Hs. set (c1 := mkCodec (buf c ++ input) (size c) (typ c) (nonce c)).
  assert (in_sync c1 rest ps) as Hs1.
  { destruct Hs as (Hwf & Hr & Hp). split; [done|]. split; [done|].
    unfold pending, c1 in *; cbn. destruct (size c <? 0); by rewrite <- ?app_assoc in *. }
  unfold Decode. fold c1. destruct (Z.ltb_spec (zlen (buf c1)) PacketHeaderSize) as [Hlt|Hge].
  { exists [], ps, c1. split_and!; [done..|]. unfold quiescent.
    destruct Hs as ([Hwf|Hwf] & _); cbn [size c1] in *; unfold PacketHeaderSize in *; lia. }
  destruct (Z.ltb_spec (size c1) 0) as [Hneg|Hpos].
  - assert (size c1 = -1) as Hm1.
    { destruct Hs as ([Hwf|Hwf] & _); cbn [size c1] in *; [done|]. unfold PacketHeaderSize in *. lia. }
    destruct (readHeader_sync c1 rest ps Hm1 Hge Hok Hs1) as (Hs2 & Hp2 & _).
    apply (decode_loop_sync _ _ rest ps []); [lia|done|done|lia].
  - apply (decode_loop_sync _ _ rest ps []); [lia|done|done|lia].
Qed.

(** A quiescent decoder that has received everything holds nothing back. *)
Lemma quiescent_done c ps :
  Forall (packet_ok 10) ps -> in_sync c [] ps -> quiescent c -> ps = [] /\ pending c = [].
Proof.
  intros Hok Hs Hq. pose proof Hs as (Hwf & _ & Hp). rewrite app_nil_r in Hp.
  destruct (decide (0 <= size c)) as [Hsz|Hsz].
  - destruct (sync_head c [] ps Hsz Hok Hs) as (p & ps' & -> & Hl & _ & _ & Hb).
    exfalso. rewrite app_nil_r in Hb. destruct Hq as [Hq|Hq]; [lia|].
    rewrite Hb in Hq. pose proof (zlen_nonneg (wire ps')). solve_len.
  - destruct ps as [|p ps].
    { split; [done|]. by rewrite Hp. }
    exfalso. rewrite wire_cons in Hp. unfold frame, pending in Hp.
    destruct (Z.ltb_spec (size c) 0); [|lia].
    destruct Hq as [[_ Hq]|Hq]; [|lia]. rewrite Hp in Hq. unfold PacketHeaderSize in Hq. solve_len.
Qed.

Lemma decode_all_sync chunks : forall c ps,
  Forall (packet_ok 10) ps -> in_sync c (concat chunks) ps -> (chunks = [] -> quiescent c) ->
  exists c', decode_all chunks c = (c', Ok ps) /\ pending c' = [] /\ codec_wf c'.
Proof.
  induction chunks as [|ch chunks IH]; intros c ps Hok Hs Hq.
  { destruct (quiescent_done c ps Hok Hs (Hq eq_refl)) as [-> Hp]. exists c.
    split_and!; [done..|]. by destruct Hs. }
  cbn [decode_all concat] in *.
  destruct (Decode_sync c ch (concat chunks) ps Hok Hs) as (ps1 & ps2 & c' & -> & HD & Hs' & Hq').
  apply Forall_app in Hok as [Hok1 Hok2].
  destruct (IH c' ps2 Hok2 Hs' (fun _ => Hq')) as (c'' & HA & Hp & Hwf).
  exists c''. res_simpl. by rewrite HD, HA.
Qed.

(** A decoder between two packets, which the pieces of one more bring back to
    it with that packet. *)
Definition idle (c : RelayCodec) : Prop := size c = -1 /\ buf c = [].
Lemma decode_frame_pieces c p chunks : idle c -> packet_ok 10 p -> concat chunks = frame p ->
  exists c', decode_all chunks c = (c', Ok [p]) /\ idle c'.
Proof.
  intros [Hs Hb] Hp Hc. destruct (decode_all_sync chunks c [p]) as (c' & Hd & Hpe & Hwf).
  - by constructor.
  - split; [by left|]. split; [lia|]. unfold pending. rewrite Hs, Hb, Hc. unfold wire. cbn. by rewrite app_nil_r.
  - intros _. left. rewrite Hs, Hb. done.
  - exists c'. split; [done|]. unfold pending in Hpe. destruct (Z.ltb_spec (size c') 0) as [Hn|Hn].
    + split; [|done]. destruct Hwf as [|Hwf]; [done|]. unfold PacketHeaderSize in Hwf. lia.
    + apply app_eq_nil in Hpe as [Hh _]. apply (f_equal length) in Hh. by rewrite length_header_bytes in Hh.
Qed.

Lemma NewCodec_sync ps : in_sync NewCodec (wire ps) ps.
Proof. split; [by left|]. split; [cbn; lia|]. done. Qed.

(** A header that announces an empty payload disables the decoder. *)
Definition stalled (c : RelayCodec) : Prop := size c = 0.

(** The bytes of some packets, and a decoder with nothing to do. *)
Definition payload_bytes (ps : list RawPacket) : Z := foldr (fun p n => zlen (rp_Payload p) + n) 0 ps.
Definition drained (c : RelayCodec) : Prop :=
  zlen (buf c) < PacketHeaderSize \/ size c = 0 \/ zlen (buf c) < size c.
Lemma payload_bytes_app ps qs : payload_bytes (ps ++ qs) = payload_bytes ps + payload_bytes qs.
Proof. unfold payload_bytes. induction ps as [|p ps IH]; cbn in *; [done|lia]. Qed.
Lemma readHeader_size c : 0 <= size (readHeader c).
Proof. apply be_get_bound. Qed.

(** Whatever arrives, the fuel of [Decode] is enough; the loop ends when there
    is nothing to do, or at a message that is too long. *)
Lemma decode_loop_ends fuel : forall c out,
  (length (buf c) <= fuel)%nat -> zlen (buf c) < PacketHeaderSize \/ 0 <= size c ->
  Forall (fun p => 1 <= zlen (rp_Payload p) <= MaxMessageSize) out ->
  match decode_loop fuel c out with
  | (c', Ok ps) => drained c' /\ Forall (fun p => 1 <= zlen (rp_Payload p) <= MaxMessageSize) ps /\
                   payload_bytes ps + zlen (buf c') <= payload_bytes out + zlen (buf c)
  | (c', Err e) => e = EMsg "message size exceed" /\ MaxMessageSize < size c'
  | (_, Panic _) => False
  end.
Proof.
  induction fuel as [|fuel IH]; intros c out Hl Hs Hout; cbn [decode_loop];
    destruct (Z.ltb_spec 0 (size c)) as [Hpos|]; destruct (Z.leb_spec (size c) (zlen (buf c))) as [Hle|]; cbn [andb];
    try (split_and!; [unfold drained; lia|done|lia]); [unfold zlen in Hle; lia|].
  destruct (Z.ltb_spec MaxMessageSize (size c)) as [|Hmax]; [done|].
  assert (zlen (ztake (size c) (buf c)) = size c) as Ht by (apply zlen_ztake; lia).
  assert (zlen (zdrop (size c) (buf c)) = zlen (buf c) - size c) as Hd by (apply zlen_zdrop; lia).
  set (rest := zdrop _ _) in *. set (out' := out ++ _).
  assert (Forall (fun p => 1 <= zlen (rp_Payload p) <= MaxMessageSize) out') as Hout'.
  { apply Forall_app. split; [done|]. apply Forall_singleton. cbn. lia. }
  assert (payload_bytes out' + zlen rest = payload_bytes out + zlen (buf c)) as Hp.
  { unfold out'. rewrite payload_bytes_app. cbn. lia. }
  assert (length rest <= fuel)%nat by (unfold zlen in *; lia). rewrite <- Hp.
  destruct (Z.leb_spec PacketHeaderSize (zlen rest)) as [Hh|Hh].
  - specialize (IH (readHeader (mkCodec rest (size c) (typ c) (nonce c))) out').
    assert (zlen (buf (readHeader (mkCodec rest (size c) (typ c) (nonce c)))) = zlen rest - PacketHeaderSize) as Hb
      by (apply zlen_zdrop; cbn; unfold PacketHeaderSize in *; lia).
    ospecialize* IH; [unfold zlen, PacketHeaderSize in *; lia|right; apply readHeader_size|done|].
    destruct (decode_loop fuel _ out') as [c' [ps|e|w]]; [|done..]. destruct IH as (? & ? & ?). split_and!; [done..|].
    unfold PacketHeaderSize in *; lia.
  - apply (IH (mkCodec rest (-1) (typ c) (nonce c)) out'); [done|by left|done].
Qed.
Lemma Decode_ends input c :
  match Decode input c with
  | (c', Ok ps) => drained c' /\ Forall (fun p => 1 <= zlen (rp_Payload p) <= MaxMessageSize) ps /\
                   payload_bytes ps + zlen (buf c') <= zlen (buf c) + zlen input
  | (c', Err e) => e = EMsg "message size exceed" /\ MaxMessageSize < size c'
  | (_, Panic _) => False
  end.
Proof.
  unfold Decode. rewrite <- zlen_app. destruct (Z.ltb_spec (zlen (buf (mkCodec (buf c ++ input) (size c) (typ c) (nonce c)))) PacketHeaderSize) as [Hh|Hh].
  { split_and!; [by left|done|cbn; lia]. }
  set (c0 := mkCodec _ _ _ _) in *. set (c1 := if size c0 <? 0 then readHeader c0 else c0).
  assert (0 <= size c1 /\ zlen (buf c1) <= zlen (buf c0)) as [H1 H2].
  { unfold c1. destruct (Z.ltb_spec (size c0) 0); [|by split; [lia|]]. split; [apply readHeader_size|]. cbn.
    rewrite zlen_zdrop; unfold PacketHeaderSize in *; [lia|]. by cbn in Hh; lia. }
  pose proof (decode_loop_ends (length (buf c1)) c1 [] (Nat.le_refl _) ltac:(by right) ltac:(done)) as H.
  destruct (decode_loop _ c1 []) as [c' [ps|e|w]]; [|done..]. destruct H as (? & ? & H). split_and!; [done..|]. cbn in H, H2. lia.
Qed.
Lemma decode_never_panics input c : is_panic (snd (Decode input c)) = false.
Proof. pose proof (Decode_ends input c) as H. by destruct (Decode input c) as [c' [ps|e|w]]. Qed.

Lemma decode_loop_stop fuel c out : size c <= 0 -> decode_loop fuel c out = (c, Ok out).
Proof.
  intros Hs. assert ((0 <? size c) = false) as H by (apply Z.ltb_ge; lia).
  by destruct fuel; cbn [decode_loop]; rewrite H.
Qed.

Lemma Decode_stalled c input :
  stalled c -> exists c', Decode input c = (c', Ok []) /\ stalled c' /\ buf c' = buf c ++ input.
Proof.
  unfold stalled. intros Hs. unfold Decode; cbn [buf size]. rewrite Hs. cbn [Z.ltb Z.compare].
  destruct (zlen (buf c ++ input) <? PacketHeaderSize); [eexists; split; [done|]; by cbn|].
  rewrite (decode_loop_stop _ (mkCodec _ 0 _ _) [] (Z.le_refl 0)). by eexists.
Qed.

Lemma decode_all_stalled chunks : forall c,
  stalled c -> exists c', decode_all chunks c = (c', Ok []) /\ stalled c' /\
    buf c' = buf c ++ concat chunks.
Proof.
  induction chunks as [|ch chunks IH]; intros c Hs; cbn [decode_all concat].
  { exists c. by rewrite app_nil_r. }
  destruct (Decode_stalled c ch Hs) as (c1 & HD & Hs1 & Hb1).
  destruct (IH c1 Hs1) as (c2 & HA & Hs2 & Hb2). exists c2.
  res_simpl. rewrite HD, HA. split_and!; [done..|].
  by rewrite Hb2, Hb1, app_assoc.
Qed.

Definition sample_packet : RawPacket :=
  mkRawPacket PacketType_Heartbeat 3735928559 (bytes_of_string "ten bytes!").

(** ** Properties *)

(** C1 (round trip).  Whatever the boundaries of the TCP reads, decoding the
    concatenation of encoded packets yields exactly those packets, in order,
    and leaves no byte behind.  The payloads have at least ten bytes, which
    the 16-byte AEAD tag gives every encrypted message. *)
Theorem decode_stream_roundtrip (ps : list RawPacket) (chunks : list bytes) :
  Forall (packet_ok 10) ps -> chunks <> [] -> concat chunks = wire ps ->
  exists c', decode_all chunks NewCodec = (c', Ok ps) /\ pending c' = [].
Proof.
  intros Hok Hne Hw. destruct (decode_all_sync chunks NewCodec ps Hok) as (c' & H & Hp & _).
  - rewrite Hw. apply NewCodec_sync.
  - done.
  - by exists c'.
Qed.


(** Encoding and then decoding a single packet of one to
    [MaxMessageSize] bytes returns it and resets the decoder, for any
    payload length in that range. *)
Theorem encode_decode_roundtrip (p : RawPacket) :
  packet_ok 1 p ->
  exists w, Encode (rp_Nonce p) (rp_Type p) (rp_Payload p) = Ok w /\
    exists c', Decode w NewCodec = (c', Ok [p]) /\ buf c' = [] /\ size c' = -1.
Proof.
  intros Hp. exists (frame p). split; [by apply Encode_frame, (packet_ok_weaken 1)|].
  pose proof (packet_ok_size 1 p ltac:(lia) Hp). destruct Hp as (Hn & Ht & Hl).
  unfold Decode, frame; cbn [buf size NewCodec app].
  destruct (Z.ltb_spec (zlen (header_bytes (rp_Nonce p) (rp_Type p) (zlen (rp_Payload p)) ++ rp_Payload p))
    PacketHeaderSize) as [Hlt|_]; [unfold PacketHeaderSize in Hlt; solve_len|].
  cbn [Z.ltb Z.compare]. rewrite readHeader_bytes by done. cbn [buf].
  set (s := zlen (rp_Payload p)) in *.
  assert (exists n, length (rp_Payload p) = S n) as [n Hlen].
  { destruct (rp_Payload p); [unfold zlen in *; cbn in *; lia|]. by eexists. }
  rewrite Hlen. cbn [decode_loop size buf].
  destruct (Z.ltb_spec 0 s); [|lia]. destruct (Z.leb_spec s (zlen (rp_Payload p))); [|lia]. cbn [andb].
  destruct (Z.ltb_spec MaxMessageSize s); [lia|].
  assert (zdrop s (rp_Payload p) = []) as ->.
  { unfold zdrop, s, zlen. rewrite Nat2Z.id. by rewrite drop_ge. }
  assert (ztake s (rp_Payload p) = rp_Payload p) as ->.
  { unfold ztake, s, zlen. rewrite Nat2Z.id. by rewrite take_ge. }
  cbn [typ nonce app]. change (PacketHeaderSize <=? zlen []) with false. cbn [typ nonce].
  eexists. rewrite decode_loop_stop by (cbn; lia).
  split; [by destruct p|done].
Qed.

(** A frame whose payload is empty is accepted by
    [Encode] but wedges the decoder for good: no later byte is ever decoded,
    every read succeeds with no packet, and the input accumulates in the
    buffer without bound. *)
Theorem empty_payload_stalls_decoder (n : Z) (t : PacketType) (chunks : list bytes) :
  0 <= n < 2 ^ 32 -> 0 <= t < 2 ^ 16 ->
  exists w c', Encode n t [] = Ok w /\
    decode_all (w :: chunks) NewCodec = (c', Ok []) /\ buf c' = concat chunks.
Proof.
  intros Hn Ht. exists (header_bytes n t 0).
  assert (Decode (header_bytes n t 0) NewCodec = (mkCodec [] 0 t n, Ok [])) as HD.
  { unfold Decode; cbn [buf size NewCodec app].
    destruct (Z.ltb_spec (zlen (header_bytes n t 0)) PacketHeaderSize) as [Hlt|_];
      [unfold PacketHeaderSize in Hlt; solve_len|].
    cbn [Z.ltb Z.compare]. rewrite <- (app_nil_r (header_bytes n t 0)).
    by rewrite readHeader_bytes by lia. }
  destruct (decode_all_stalled chunks (mkCodec [] 0 t n) eq_refl) as (c' & HA & _ & Hb).
  exists c'. split; [|split].
  - rewrite <- (app_nil_r (header_bytes n t 0)).
    apply (Encode_frame (mkRawPacket t n [])).
    unfold packet_ok, MaxMessageSize, MaxSegmentSize, zlen. cbn. lia.
  - cbn [decode_all]. res_simpl. by rewrite HD, HA.
  - done.
Qed.

(** ** Witnesses *)

Lemma decode_stream_roundtrip_witness :
  let chunks := [take 3 (wire [sample_packet; sample_packet]);
                 drop 3 (wire [sample_packet; sample_packet])] in
  exists c', decode_all chunks NewCodec = (c', Ok [sample_packet; sample_packet]) /\ pending c' = [].
Proof.
  apply decode_stream_roundtrip; [|done|by vm_compute].
  repeat constructor; by vm_compute.
Defined.

Lemma encode_decode_roundtrip_witness :
  exists w, Encode 3735928559 PacketType_Heartbeat (bytes_of_string "ten bytes!") = Ok w /\
    exists c', Decode w NewCodec = (c', Ok [sample_packet]) /\ buf c' = [] /\ size c' = -1.
Proof. apply (encode_decode_roundtrip sample_packet). repeat split; by vm_compute. Defined.

Lemma empty_payload_stalls_decoder_witness :
  exists w c', Encode 7 PacketType_Heartbeat [] = Ok w /\
    decode_all [w; frame sample_packet] NewCodec = (c', Ok []) /\
    buf c' = concat [frame sample_packet].
Proof.
  destruct (empty_payload_stalls_decoder 7 PacketType_Heartbeat [frame sample_packet])
    as (w & c' & H); [lia|unfold PacketType_Heartbeat; lia|]. by exists w, c'.
Defined.
