(* ===== verification/Noise.v ===== *)
(** Interfaces of the libraries the program is built on: the AEAD cipher and
    the NN handshake of [flynn/noise], the protobuf runtime and the RSA
    signature.  Each is a class of operations with its documented laws, and
    each has a concrete instance used to exercise the theorems. *)
From S2P Require Import Prelude Wire.

(** ** [noise.Cipher] *)

(** [Encrypt(nil, nonce, nil, p)] and [Decrypt(nil, nonce, nil, c)]. *)
Record Cipher := mkCipher {
  Encrypt : Z -> bytes -> bytes;
  Decrypt : Z -> bytes -> result bytes }.

(** An AEAD opens what it sealed under the same nonce, its tag makes the
    sealed text at least 16 bytes long, and opening never panics. *)
Class CipherOk (c : Cipher) : Prop := {
  decrypt_encrypt : forall n p, Decrypt c n (Encrypt c n p) = Ok p;
  encrypt_tag : forall n p, zlen (Encrypt c n p) = zlen p + 16;
  decrypt_no_panic : forall n p, is_panic (Decrypt c n p) = false }.

(** ** Protobuf marshalling *)

Class Proto := {
  Marshal : Message -> result bytes;
  Unmarshal : MessageKind -> bytes -> result Message }.

Class ProtoOk `{Proto} : Prop := {
  unmarshal_marshal : forall m bs, Marshal m = Ok bs -> Unmarshal (kind_of m) bs = Ok m;
  unmarshal_kind : forall k bs m, Unmarshal k bs = Ok m -> kind_of m = k;
  unmarshal_no_panic : forall k bs, is_panic (Unmarshal k bs) = false }.

(** ** RSA signatures *)

(** [rsa.SignPKCS1v15] over the SHA-256 digest of the data, with the private
    key, and [rsa.VerifyPKCS1v15] with the public key. *)
Class Signature := {
  sign : bytes -> result bytes;
  verify : bytes -> bytes -> bool }.

Class SignatureOk `{Signature} : Prop := {
  verify_sign : forall d s, sign d = Ok s -> verify d s = true;
  sign_length : forall d s, sign d = Ok s -> 16 <= zlen s }.

(** ** The NN handshake *)

(** One run of [noise.HandshakeState] with the NN pattern.  The initiator
    writes its payload ([hs_write1]); the responder reads it and answers with
    its own payload and its cipher ([hs_respond]); the initiator reads the
    answer and gets the payload and its cipher ([hs_finish]).  [s] is the
    private state (the ephemeral key) of a party. *)
Class Handshake (HS : Type) := {
  hs_write1 : HS -> bytes -> result bytes;
  hs_read1 : HS -> bytes -> result bytes;
  hs_write2 : HS -> bytes -> bytes -> result (bytes * Cipher);
  hs_finish : HS -> bytes -> result (bytes * Cipher) }.

(** The initiator's payload reaches the responder, the responder's payload
    reaches the initiator, and both derive the same cipher. *)
Class HandshakeOk (HS : Type) `{Handshake HS} : Prop := {
  hs_exchange : forall i r p q m1, hs_write1 i p = Ok m1 ->
    hs_read1 r m1 = Ok p /\
    exists m2 c, hs_write2 r m1 q = Ok (m2, c) /\ hs_finish i m2 = Ok (q, c) /\ CipherOk c }.

(** The initiator's operations return a value or an error. *)
Class HandshakeSafe (HS : Type) `{Handshake HS} : Prop := {
  write1_no_panic : forall hs p, is_panic (hs_write1 hs p) = false;
  finish_no_panic : forall hs m, is_panic (hs_finish hs m) = false }.

(** ** Instances *)

Module Toy.
(** A cipher that appends a constant tag. *)
Definition tag : bytes := replicate 16 Byte.xff.
Definition cipher : Cipher := mkCipher
  (fun n p => p ++ tag)
  (fun n c => if decide (drop (length c - 16) c = tag /\ (16 <= length c)%nat)
              then Ok (take (length c - 16) c) else Err (EExt "chacha20poly1305: open")).

Lemma cipher_ok : CipherOk cipher.
Proof.
  split; intros n p; cbn [Encrypt Decrypt cipher].
  - assert (length (p ++ tag) - 16 = length p)%nat as -> by (unfold tag; solve_len).
    rewrite drop_app_length, take_app_length.
    rewrite decide_True; [done|]. split; [done|]. unfold tag. solve_len.
  - unfold tag. solve_len.
  - by case_decide.
Qed.

(** A protobuf runtime that knows handshakes, heartbeats, forwards and
    probes of a single peer, in fixed-width fields. *)
Definition in_u64 (z : Z) : Prop := 0 <= z < 2 ^ 64.
Definition marshal_err : error := EExt "proto: marshal".
Definition marshal (m : Message) : result bytes :=
  match m with
  | MHandshake hs => Ok ((if hs_IsPrimary hs then Byte.x01 else Byte.x00) :: hs_Message hs)
  | MHandshakeAck ack => Ok (hsa_Message ack)
  | MHeartbeat hb =>
    if decide (in_u64 (hb_Timestamp hb)) then Ok (be_put 8 (hb_Timestamp hb)) else Err marshal_err
  | MForward f =>
    if decide (in_u64 (fw_SrcPeerID f) /\ in_u64 (fw_DstPeerID f) /\ in_u64 (fw_Nonce f))
    then Ok (be_put 8 (fw_SrcPeerID f) ++ be_put 8 (fw_DstPeerID f) ++ be_put 8 (fw_Nonce f)
             ++ fw_Fragment f)
    else Err marshal_err
  | MProbeRequest (mkPacketProbeRequest [p]) =>
    if decide (in_u64 p) then Ok (be_put 8 p) else Err marshal_err
  | _ => Err marshal_err
  end.
Definition unmarshal (k : MessageKind) (bs : bytes) : result Message :=
  match k with
  | KHandshake =>
    match bs with
    | b :: rest => Ok (MHandshake (mkPacketHandshake rest (bool_decide (b = Byte.x01))))
    | [] => Err (EExt "proto: unmarshal")
    end
  | KHandshakeAck => Ok (MHandshakeAck (mkPacketHandshakeAck bs))
  | KHeartbeat => Ok (MHeartbeat (mkPacketHeartbeat (be_get bs)))
  | KForward =>
    Ok (MForward (mkPacketForward (be_get (take 8 bs)) (be_get (take 8 (drop 8 bs)))
                    (be_get (take 8 (drop 16 bs))) (drop 24 bs)))
  | KProbeRequest => Ok (MProbeRequest (mkPacketProbeRequest [be_get bs]))
  | _ => Err (EExt "proto: unmarshal")
  end.
#[export] Instance proto : Proto := {| Marshal := marshal; Unmarshal := unmarshal |}.

Lemma proto_ok : ProtoOk.
Proof.
  split.
  - intros m bs Hm; destruct m as [[m b]|[m]|[ts]|[[|q [|]]]| | |[sp dp n fr]| | |];
      cbn -[be_put be_get take drop] in Hm |- *; try done; unfold in_u64 in *; try case_decide; try done;
      match type of Hm with Ok ?x = Ok bs => assert (bs = x) as -> by congruence end;
      cbn -[be_put be_get take drop]; try done.
    + f_equal. f_equal. by destruct b.
    + by rewrite be_get_put_small by (cbn; lia).
    + by rewrite be_get_put_small by (cbn; lia).
    + assert (forall a b c d : bytes, length a = 8%nat -> length b = 8%nat -> length c = 8%nat ->
        take 8 (a ++ b ++ c ++ d) = a /\ take 8 (drop 8 (a ++ b ++ c ++ d)) = b /\
        take 8 (drop 16 (a ++ b ++ c ++ d)) = c /\ drop 24 (a ++ b ++ c ++ d) = d) as Hf.
      { intros a b c d Ha Hb Hc. split_and!; [by rewrite take_app_exact|by rewrite drop_app_exact, take_app_exact| |].
        - rewrite app_assoc, drop_app_exact by solve_len. by rewrite take_app_exact.
        - rewrite !app_assoc. by rewrite drop_app_exact by solve_len. }
      destruct (Hf (be_put 8 sp) (be_put 8 dp) (be_put 8 n) fr) as (-> & -> & -> & ->);
        [by rewrite length_be_put..|]. by rewrite !be_get_put_small by (cbn; lia).
  - intros k bs m Hm; destruct k, bs; cbn -[be_put be_get take drop] in *; by simplify_eq.
  - intros k bs; by destruct k, bs.
Qed.

(** A handshake whose messages are the payloads behind a constant 32-byte
    ephemeral key. *)
Definition ephemeral : bytes := replicate 32 Byte.x01.
Definition read_hs (m : bytes) : result bytes :=
  if zlen m <? 32 then Err (EExt "noise: message is too short") else Ok (drop 32 m).
#[export] Instance handshake : Handshake unit := {|
  hs_write1 := fun _ p => Ok (ephemeral ++ p);
  hs_read1 := fun _ m => read_hs m;
  hs_write2 := fun _ _ q => Ok (ephemeral ++ q, cipher);
  hs_finish := fun _ m => q ← read_hs m; mret (q, cipher) |}.
Lemma read_hs_ephemeral p : read_hs (ephemeral ++ p) = Ok p.
Proof.
  unfold read_hs. destruct (Z.ltb_spec (zlen (ephemeral ++ p)) 32); [|done].
  rewrite zlen_app in *. pose proof (zlen_nonneg p). change (zlen ephemeral) with 32 in *. lia.
Qed.
Lemma handshake_ok : HandshakeOk unit.
Proof.
  split. intros i r p q m1 Hm. assert (m1 = ephemeral ++ p) as -> by (unfold hs_write1, handshake in Hm; congruence).
  split; [apply read_hs_ephemeral|]. exists (ephemeral ++ q), cipher. split; [done|].
  split; [|apply cipher_ok]. unfold hs_finish, handshake. by rewrite read_hs_ephemeral.
Qed.

Lemma handshake_safe : HandshakeSafe unit.
Proof. split; [done|]. intros hs m. cbn. unfold read_hs. by destruct (_ <? _). Qed.

(** A signature that is a fixed prefix of the data. *)
Definition sig_of (d : bytes) : bytes := take 16 (d ++ replicate 16 Byte.x00).
#[export] Instance signature : Signature :=
  {| sign := fun d => Ok (sig_of d); verify := fun d s => bool_decide (s = sig_of d) |}.

Lemma signature_ok : SignatureOk.
Proof.
  split; cbn; intros d s [= <-].
  - by apply bool_decide_eq_true.
  - unfold sig_of. rewrite <- (take_drop 0 (d ++ _)). cbn [take drop app]. solve_len.
Qed.
End Toy.
