(* ===== verification/PeerCodec.v ===== *)
(** The framing of UDP fragments between peers ([internal/codec/peer_codec.go])
    and the registry that turns payloads into messages
    ([internal/codec/serde/serde.go]). *)
From S2P Require Import Prelude Wire Noise RelayCodec.

(** ** Fragments *)

(** [uint64(nonce) | (^uint64(nonce) << 32)]. *)
Definition pid_mask (nonce : Z) : Z :=
  Z.lor nonce (u64 (Z.shiftl (u64 (Z.lnot nonce)) 32)).

(** [Encode]; [nonce] is the value of [rand.Uint32()]. *)
Definition Encode (nonce : Z) (typ : PacketType) (cipher : Cipher) (peerID : PeerID)
    (payload : bytes) : bytes :=
  let encrypted := Noise.Encrypt cipher nonce payload in
  be_put 4 nonce ++ be_put 2 (mask_type typ nonce)
    ++ be_put 8 (Z.lxor peerID (pid_mask nonce)) ++ encrypted.

Definition EncodeMessage `{Proto} (nonce : Z) (typ : PacketType) (cipher : Cipher)
    (peerID : PeerID) (msg : Message) : result bytes :=
  data ← Marshal msg; mret (Encode nonce typ cipher peerID data).

Definition Decode (data : bytes) : result (Z * PacketType * PeerID * bytes) :=
  if zlen data <? FragmentHeaderSize then Err (EMsg "invalid fragment data")
  else
    let nonce := be_get (take 4 data) in
    let newtyp := mask_type (be_get (take 2 (drop 4 data))) nonce in
    let newpid := Z.lxor (be_get (take 8 (drop 6 data))) (pid_mask nonce) in
    Ok (nonce, newtyp, newpid, drop 14 data).

(** ** The message registry *)

(** [sharedProtos]: a slice of length 101 with [nil] holes. *)
Definition sharedProtos_len : Z := 101.
Definition sharedProtos (t : PacketType) : option MessageKind :=
  if decide (t = PacketType_Handshake) then Some KHandshake
  else if decide (t = PacketType_HandshakeAck) then Some KHandshakeAck
  else if decide (t = PacketType_Heartbeat) then Some KHeartbeat
  else if decide (t = PacketType_ProbeRequest) then Some KProbeRequest
  else if decide (t = PacketType_ProbeResponse) then Some KProbeResponse
  else if decide (t = PacketType_SyncPeer) then Some KSyncPeer
  else if decide (t = PacketType_Forward) then Some KForward
  else if decide (t = PacketType_Discovery) then Some KDiscovery
  else if decide (t = PacketType__UnitTestRequest) then Some KUnitTestRequest
  else if decide (t = PacketType__UnitTestResponse) then Some KUnitTestResponse
  else None.

Definition Deserialize `{Proto} (t : PacketType) (buf : bytes) : result Message :=
  if sharedProtos_len <=? t then Err (EMsg "unrecognized protobuf type")
  else if t <? 0 then Panic "index out of range"
  else match sharedProtos t with
       | None => Err (EMsg "unrecognized protobuf type")
       | Some k =>
         match Unmarshal k buf with
         | Ok m => Ok m
         | Err e => Err (EWrap "unmarshal" e)
         | Panic w => Panic w
         end
       end.

(** ** Lemmas *)

Lemma pid_mask_range n : 0 <= n < 2 ^ 32 -> 0 <= pid_mask n < 2 ^ 64.
Proof.
  intros Hn. unfold pid_mask.
  apply lor_bound; [lia|lia|]. unfold u64. apply Z.mod_pos_bound. lia.
Qed.

Lemma Decode_Encode n t c pid p :
  0 <= n < 2 ^ 32 -> 0 <= t < 2 ^ 16 -> 0 <= pid < 2 ^ 64 ->
  Decode (Encode n t c pid p) = Ok (n, t, pid, Noise.Encrypt c n p).
Proof.
  intros Hn Ht Hpid. unfold Decode.
  pose proof (pid_mask_range n Hn) as Hm. pose proof (mask_type_range t n).
  pose proof (lxor_bound 64 pid (pid_mask n) ltac:(lia) Hpid Hm).
  set (d := Encode n t c pid p).
  assert (take 4 d = be_put 4 n) as -> by (unfold d, Encode; by rewrite take_app_exact by solve_len).
  assert (take 2 (drop 4 d) = be_put 2 (mask_type t n)) as ->.
  { unfold d, Encode. rewrite drop_app_exact by solve_len. by rewrite take_app_exact by solve_len. }
  assert (take 8 (drop 6 d) = be_put 8 (Z.lxor pid (pid_mask n))) as ->.
  { unfold d, Encode. rewrite app_assoc, drop_app_exact by solve_len.
    by rewrite take_app_exact by solve_len. }
  assert (drop 14 d = Noise.Encrypt c n p) as ->.
  { unfold d, Encode. by rewrite !app_assoc, drop_app_exact by solve_len. }
  destruct (Z.ltb_spec (zlen d) FragmentHeaderSize) as [Hlt|_].
  { unfold d, Encode, FragmentHeaderSize in Hlt. pose proof (zlen_nonneg (Noise.Encrypt c n p)). solve_len. }
  rewrite !be_get_put_small by (cbn; lia).
  by rewrite mask_type_involutive, lxor_cancel by done.
Qed.

Lemma sharedProtos_range t k : sharedProtos t = Some k -> 0 <= t < sharedProtos_len.
Proof.
  unfold sharedProtos. intros H.
  repeat case_decide; try done; subst; unfold sharedProtos_len;
    vm_compute; by split.
Qed.

Lemma Deserialize_no_panic `{ProtoOk} t buf :
  0 <= t -> is_panic (Deserialize t buf) = false.
Proof.
  intros Ht. unfold Deserialize. destruct (sharedProtos_len <=? t); [done|].
  destruct (Z.ltb_spec t 0); [lia|]. destruct (sharedProtos t) as [k|]; [|done].
  pose proof (unmarshal_no_panic k buf). by destruct (Unmarshal k buf).
Qed.

Lemma Deserialize_kind `{ProtoOk} t buf m :
  Deserialize t buf = Ok m -> sharedProtos t = Some (kind_of m).
Proof.
  unfold Deserialize. destruct (sharedProtos_len <=? t), (t <? 0); try done.
  destruct (sharedProtos t) as [k|]; [|done].
  destruct (Unmarshal k buf) as [m'| |] eqn:E; try done. intros [= ->].
  by rewrite (unmarshal_kind _ _ _ E).
Qed.

Lemma Deserialize_Marshal `{ProtoOk} t m bs :
  sharedProtos t = Some (kind_of m) -> Marshal m = Ok bs -> Deserialize t bs = Ok m.
Proof.
  intros Ht Hm. pose proof (sharedProtos_range _ _ Ht). unfold Deserialize.
  destruct (Z.leb_spec sharedProtos_len t); [lia|]. destruct (Z.ltb_spec t 0); [lia|].
  by rewrite Ht, (unmarshal_marshal m bs).
Qed.

(** ** Properties *)

(** C9 (round trip).  A message encoded for a peer under any nonce is decoded
    to the same nonce, type and sender, and once opened with the shared
    cipher its payload deserializes to the message that was sent. *)
Theorem peer_message_roundtrip `{ProtoOk} (c : Cipher) (n : Z) (t : PacketType)
    (pid : PeerID) (m : Message) (w : bytes) :
  CipherOk c -> 0 <= n < 2 ^ 32 -> 0 <= pid < 2 ^ 64 ->
  sharedProtos t = Some (kind_of m) -> EncodeMessage n t c pid m = Ok w ->
  exists payload data, Decode w = Ok (n, t, pid, payload) /\
    Decrypt c n payload = Ok data /\ Deserialize t data = Ok m.
Proof.
  intros Hc Hn Hpid Ht HE. pose proof (sharedProtos_range _ _ Ht) as Hr.
  unfold EncodeMessage in HE. destruct (Marshal m) as [bs| |] eqn:Hm; try done.
  res_simpl_in HE. injection HE as <-. exists (Noise.Encrypt c n bs), bs. split_and!.
  - apply Decode_Encode; [done| |done]. unfold sharedProtos_len in *. lia.
  - apply decrypt_encrypt.
  - by apply Deserialize_Marshal.
Qed.

(** Anything a UDP socket can deliver is either rejected or
    split into a nonce, a type, a sender and a payload that are within their
    Go types and whose re-encoding is the datagram itself: decoding neither
    panics nor loses information. *)
Theorem fragment_decode_total (data : bytes) :
  match Decode data with
  | Ok (n, t, pid, payload) =>
    FragmentHeaderSize <= zlen data /\
    0 <= n < 2 ^ 32 /\ 0 <= t < 2 ^ 16 /\ 0 <= pid < 2 ^ 64 /\
    data = be_put 4 n ++ be_put 2 (mask_type t n) ++ be_put 8 (Z.lxor pid (pid_mask n)) ++ payload
  | Err e => zlen data < FragmentHeaderSize /\ e = EMsg "invalid fragment data"
  | Panic _ => False
  end.
Proof.
  unfold Decode, FragmentHeaderSize. destruct (Z.ltb_spec (zlen data) 14) as [|Hl]; [done|].
  assert (14 <= length data)%nat as Hl' by (unfold zlen in Hl; lia).
  assert (length (take 4 data) = 4%nat) as L1 by solve_len.
  assert (length (take 2 (drop 4 data)) = 2%nat) as L2 by solve_len.
  assert (length (take 8 (drop 6 data)) = 8%nat) as L3 by solve_len.
  pose proof (be_get_bound (take 4 data)) as B1.
  pose proof (be_get_bound (take 2 (drop 4 data))) as B2.
  pose proof (be_get_bound (take 8 (drop 6 data))) as B3.
  unfold zlen in B1, B2, B3. rewrite L1 in B1. rewrite L2 in B2. rewrite L3 in B3.
  change (8 * Z.of_nat 4) with 32 in B1. change (8 * Z.of_nat 2) with 16 in B2.
  change (8 * Z.of_nat 8) with 64 in B3.
  split; [done|]. split; [done|]. split; [apply mask_type_range|].
  split; [apply lxor_bound; [lia|done|by apply pid_mask_range]|].
  rewrite mask_type_involutive, lxor_cancel by done.
  rewrite !be_put_get_len by done.
  replace (drop 14 data) with (drop 8 (drop 6 data)) by (by rewrite drop_drop).
  replace (drop 6 data) with (drop 2 (drop 4 data)) by (by rewrite drop_drop).
  by rewrite !take_drop.
Qed.

(** ** Witnesses *)

#[local] Existing Instance Toy.proto.

Lemma peer_message_roundtrip_witness :
  exists w payload data,
    EncodeMessage 77 PacketType_Heartbeat Toy.cipher 1234567 (MHeartbeat (mkPacketHeartbeat 42)) = Ok w /\
    Decode w = Ok (77, PacketType_Heartbeat, 1234567, payload) /\
    Decrypt Toy.cipher 77 payload = Ok data /\
    Deserialize PacketType_Heartbeat data = Ok (MHeartbeat (mkPacketHeartbeat 42)).
Proof.
  destruct (EncodeMessage 77 PacketType_Heartbeat Toy.cipher 1234567
    (MHeartbeat (mkPacketHeartbeat 42))) as [w| |] eqn:E; [|by vm_compute in E..].
  pose proof Toy.proto_ok as Hproto.
  destruct (peer_message_roundtrip Toy.cipher 77 PacketType_Heartbeat 1234567
    (MHeartbeat (mkPacketHeartbeat 42)) w Toy.cipher_ok) as (p & d & H);
    [lia|lia|done|done|]. by exists w, p, d.
Defined.
