(* ===== verification/Credential.v ===== *)
(** Node credentials and Curve25519 keys: [security/credential.go] and
    [security/dh_key.go].  A credential is
    [userID(8) | peerID(8) | expiration(8) | ipLen(1) | ip | signature]. *)
From S2P Require Import Prelude Wire Noise.

(** ** Credentials *)

#[local] Set Default Proof Using "Type".

Section Credentials.
Context `{Signature}.

Definition credentialValidationHeaderSize : Z := 25.

(** The signed part of a credential. *)
Definition credential_data (userID : UserID) (peerID : PeerID) (expirationAt : Z) (ip : bytes)
  : bytes :=
  be_put 8 userID ++ be_put 8 peerID ++ be_put 8 (u64 expirationAt)
    ++ [byte.of_Z (zlen ip)] ++ ip.

(** [Credential(privateKey, userID, peerID, ip, lease)] at the instant [now]. *)
Definition Credential (now : Z) (userID : UserID) (peerID : PeerID) (ip : bytes) (lease : Z)
  : result bytes :=
  let expirationAt := unix_of (now + lease) in
  let data := credential_data userID peerID expirationAt ip in
  signed ← sign data; mret (data ++ signed).

(** [VerifyCredential].  [None] is [valid = false].  The bound
    [credentialValidationHeaderSize+ipLen] is computed on a [byte], so it
    wraps at 256; slicing beyond the credential panics. *)
Definition VerifyCredential (now : Z) (credential : bytes)
  : result (option (UserID * PeerID * bytes)) :=
  if zlen credential <=? credentialValidationHeaderSize + 4 then Ok None
  else
    let ipLen := byte.unsigned (nth 24 credential Byte.x00) in
    let bound := u8 (credentialValidationHeaderSize + ipLen) in
    if zlen credential <? bound then Panic "slice bounds out of range"
    else if negb (verify (ztake bound credential) (zdrop bound credential)) then Ok None
    else if i64 (be_get (take 8 (drop 16 credential))) <? unix_of now then Ok None
    else if bound <? credentialValidationHeaderSize then Panic "slice bounds out of range"
    else Ok (Some (be_get (take 8 credential), be_get (take 8 (drop 8 credential)),
                   zdrop credentialValidationHeaderSize (ztake bound credential))).

(** *** Layout lemmas *)

Lemma length_credential_data u p e ip : length (credential_data u p e ip) = (25 + length ip)%nat.
Proof. unfold credential_data. solve_len. Qed.
#[local] Hint Rewrite length_credential_data : golen.

Lemma credential_fields u p e ip sig :
  let c := credential_data u p e ip ++ sig in
  take 8 c = be_put 8 u /\ take 8 (drop 8 c) = be_put 8 p /\
  take 8 (drop 16 c) = be_put 8 (u64 e) /\ nth 24 c Byte.x00 = byte.of_Z (zlen ip).
Proof.
  cbn zeta. unfold credential_data. rewrite <- !app_assoc. split_and!.
  - by rewrite take_app_exact by solve_len.
  - rewrite drop_app_exact by solve_len. by rewrite take_app_exact by solve_len.
  - rewrite (app_assoc (be_put 8 u)), drop_app_exact by solve_len.
    by rewrite take_app_exact by solve_len.
  - rewrite app_nth2 by solve_len. rewrite app_nth2 by solve_len.
    rewrite app_nth2 by solve_len. by rewrite !length_be_put.
Qed.

Lemma ip_len_small (ip : bytes) : zlen ip <= 230 ->
  u8 (credentialValidationHeaderSize + byte.unsigned (byte.of_Z (zlen ip))) = 25 + zlen ip.
Proof.
  intros Hl. pose proof (zlen_nonneg ip). rewrite byte.unsigned_of_Z. unfold byte.wrap, u8, credentialValidationHeaderSize.
  rewrite (Z.mod_small (zlen ip)) by lia. by rewrite Z.mod_small by lia.
Qed.

(** Any credential long enough to be examined splits into the fields the
    verifier reads, its [ip] being as long as its length byte says. *)
Lemma credential_split c l :
  zlen c >= 25 -> l = byte.unsigned (nth 24 c Byte.x00) -> 25 + l <= zlen c -> l <= 230 ->
  ztake (25 + l) c = credential_data (be_get (take 8 c)) (be_get (take 8 (drop 8 c)))
    (i64 (be_get (take 8 (drop 16 c)))) (zdrop 25 (ztake (25 + l) c)).
Proof.
  intros Hc Hl Hb Hs.
  assert (0 <= l) by (subst l; apply byte_range).
  assert (25 <= length c)%nat by (unfold zlen in *; lia).
  unfold credential_data.
  rewrite !be_put_get_len by solve_len.
  pose proof (be_get_bound (take 8 (drop 16 c))) as B. unfold zlen in B.
  assert (length (take 8 (drop 16 c)) = 8%nat) as L by solve_len. rewrite L in B.
  rewrite u64_i64 by (cbn in B; lia). rewrite be_put_get_len by done.
  unfold ztake, zdrop. set (k := Z.to_nat (25 + l)). change (Z.to_nat 25) with 25%nat.
  assert (zlen (drop 25 (take k c)) = l) as ->.
  { unfold zlen in *. rewrite length_drop, length_take. lia. }
  assert ([byte.of_Z l] = take 1 (drop 24 c)) as ->.
  { subst l. rewrite byte.of_Z_unsigned. do 25 (destruct c as [|? c]; [done || (cbn in *; lia)|]). done. }
  assert (take 8 c ++ take 8 (drop 8 c) ++ take 8 (drop 16 c) ++ take 1 (drop 24 c) = take 25 c) as Hh.
  { replace (drop 24 c) with (drop 8 (drop 8 (drop 8 c))) by (by rewrite !drop_drop).
    replace (drop 16 c) with (drop 8 (drop 8 c)) by (by rewrite drop_drop).
    by rewrite !take_take_drop. }
  rewrite !app_assoc in *. rewrite Hh.
  assert (take 25 c = take 25 (take k c)) as -> by (rewrite take_take; f_equal; lia).
  by rewrite take_drop.
Qed.

(** ** Properties *)

(** A credential issued for an address of at most 230 bytes
    is accepted, with the identity it was issued for, exactly as long as the
    clock has not passed its expiration second. *)
Lemma credential_roundtrip `{!SignatureOk} (now lease t : Z) (u : UserID) (p : PeerID)
    (ip cred : bytes) :
  0 <= u < 2 ^ 64 -> 0 <= p < 2 ^ 64 -> zlen ip <= 230 ->
  minInt64 <= unix_of (now + lease) <= maxInt64 ->
  Credential now u p ip lease = Ok cred ->
  VerifyCredential t cred =
    if unix_of t <=? unix_of (now + lease) then Ok (Some (u, p, ip)) else Ok None.
Proof.
  intros Hu Hp Hip He HC. unfold Credential in HC.
  set (data := credential_data u p (unix_of (now + lease)) ip) in *.
  destruct (sign data) as [sig| |] eqn:Hsig; try done. res_simpl_in HC.
  assert (cred = data ++ sig) as -> by congruence. clear HC.
  pose proof (credential_fields u p (unix_of (now + lease)) ip sig) as (F1 & F2 & F3 & F4).
  fold data in F1, F2, F3, F4. pose proof (sign_length _ _ Hsig).
  assert (length data = 25 + length ip)%nat as Hd by apply length_credential_data.
  unfold VerifyCredential. rewrite F1, F2, F3, F4, ip_len_small by done.
  destruct (Z.leb_spec (zlen (data ++ sig)) (credentialValidationHeaderSize + 4)) as [Hx|_].
  { unfold credentialValidationHeaderSize in Hx. solve_len. }
  destruct (Z.ltb_spec (zlen (data ++ sig)) (25 + zlen ip)) as [Hx|_]; [solve_len|].
  assert (ztake (25 + zlen ip) (data ++ sig) = data) as ->.
  { unfold ztake. rewrite take_app_exact; [done|solve_len]. }
  assert (zdrop (25 + zlen ip) (data ++ sig) = sig) as ->.
  { unfold zdrop. rewrite drop_app_exact; [done|solve_len]. }
  rewrite (verify_sign _ _ Hsig). cbn [negb].
  rewrite be_get_put_small, i64_u64 by (done || (unfold u64; apply Z.mod_pos_bound; lia)).
  rewrite !be_get_put_small by done.
  destruct (Z.ltb_spec (unix_of (now + lease)) (unix_of t)), (Z.leb_spec (unix_of t) (unix_of (now + lease)));
    try lia; try done.
  destruct (Z.ltb_spec (25 + zlen ip) credentialValidationHeaderSize) as [Hx|_].
  { unfold credentialValidationHeaderSize in Hx. pose proof (zlen_nonneg ip). lia. }
  by do 4 f_equal.
Qed.

(** C14 (safety).  Whatever bytes a peer presents, an accepted credential is
    the signed encoding of exactly the identity and address returned, under
    an expiration that has not passed; nothing else in it was trusted. *)
Theorem verified_credential_sound (now : Z) (cred : bytes) (u : UserID) (p : PeerID) (ip : bytes) :
  VerifyCredential now cred = Ok (Some (u, p, ip)) ->
  exists expirationAt sig, cred = credential_data u p expirationAt ip ++ sig /\
    verify (credential_data u p expirationAt ip) sig = true /\
    unix_of now <= expirationAt /\ 0 <= u < 2 ^ 64 /\ 0 <= p < 2 ^ 64.
Proof.
  unfold VerifyCredential, credentialValidationHeaderSize.
  destruct (Z.leb_spec (zlen cred) (25 + 4)) as [|Hc]; [done|].
  set (l := byte.unsigned _). pose proof (byte_range (nth 24 cred Byte.x00)) as Hl. fold l in Hl.
  set (b := u8 (25 + l)). destruct (Z.ltb_spec (zlen cred) b); [done|].
  destruct (verify _ _) eqn:Hv; cbn [negb]; [|done].
  destruct (Z.ltb_spec (i64 (be_get (take 8 (drop 16 cred)))) (unix_of now)) as [|He]; [done|].
  destruct (Z.ltb_spec b 25) as [|Hb]; [done|]. intros [= <- <- <-].
  assert (b = 25 + l /\ l <= 230) as [Hbl Hl'].
  { unfold b, u8 in *. destruct (decide (25 + l < 256)).
    - rewrite Z.mod_small by lia. lia.
    - assert ((25 + l) mod 2 ^ 8 = 25 + l - 256) as Hm; [|lia].
      symmetry. apply (Z.mod_unique _ _ 1); lia. }
  rewrite Hbl in *.
  pose proof (credential_split cred l ltac:(lia) eq_refl ltac:(lia) Hl') as Hs.
  exists (i64 (be_get (take 8 (drop 16 cred)))), (zdrop (25 + l) cred).
  rewrite <- Hs. split; [|split; [done|split; [done|]]].
  - unfold ztake, zdrop. by rewrite take_drop.
  - assert (25 <= length cred)%nat by (unfold zlen in *; lia).
    split; [pose proof (be_get_bound (take 8 cred)) as B|pose proof (be_get_bound (take 8 (drop 8 cred))) as B];
      unfold zlen in B; rewrite ?length_take, ?length_drop in B;
      replace (8 `min` _)%nat with 8%nat in B by lia; cbn in B; lia.
Qed.

(** A short credential with a large length byte makes
    the verifier panic before any signature is checked: 30 bytes suffice. *)
Theorem verify_credential_panics (now : Z) (cred : bytes) :
  29 < zlen cred -> zlen cred < 25 + byte.unsigned (nth 24 cred Byte.x00) < 256 ->
  is_panic (VerifyCredential now cred) = true.
Proof.
  intros Hc Hl. unfold VerifyCredential, credentialValidationHeaderSize.
  destruct (Z.leb_spec (zlen cred) (25 + 4)); [lia|].
  unfold u8. pose proof (byte_range (nth 24 cred Byte.x00)). rewrite Z.mod_small by lia.
  by destruct (Z.ltb_spec (zlen cred) (25 + byte.unsigned (nth 24 cred Byte.x00))); [|lia].
Qed.
End Credentials.

(** ** Curve25519 keys ([security/dh_key.go]) *)

Definition keySize : Z := 32.

(** [DHKeyBytes] is an array of 32 bytes; [DHPrivate] and [DHPublic] wrap it. *)
Record DHKeyBytes := mkDHKeyBytes { key_bytes : bytes }.
Definition DHKeyBytes_zero : DHKeyBytes := mkDHKeyBytes (go_make keySize).
Definition key_wf (k : DHKeyBytes) : Prop := zlen (key_bytes k) = keySize.

#[export] Instance DHKeyBytes_eq_dec : EqDecision DHKeyBytes.
Proof. solve_decision. Defined.

Definition IsZero (k : DHKeyBytes) : bool := bool_decide (k = DHKeyBytes_zero).
Definition Bytes (k : DHKeyBytes) : bytes := go_copy (go_make keySize) (key_bytes k).
Definition Len (k : DHKeyBytes) : Z := keySize.

(** [NewDHPublic]; [NewDHPrivate] has the same body. *)
Definition NewDHPublic (s : bytes) : DHKeyBytes :=
  if keySize <? zlen s then DHKeyBytes_zero
  else mkDHKeyBytes (go_copy (key_bytes DHKeyBytes_zero) s).
Definition NewDHPrivate (s : bytes) : DHKeyBytes :=
  if keySize <? zlen s then DHKeyBytes_zero
  else mkDHKeyBytes (go_copy (key_bytes DHKeyBytes_zero) s).

Record DHKey := mkDHKey { Public : DHKeyBytes; Private : DHKeyBytes }.
(** [noise.DHKey]: two byte slices of any length. *)
Record NoiseDHKey := mkNoiseDHKey { nPrivate : bytes; nPublic : bytes }.

Definition FromNoiseDHKey (nKey : NoiseDHKey) : DHKey :=
  mkDHKey (NewDHPublic (nPublic nKey)) (NewDHPrivate (nPrivate nKey)).
Definition DHKey_IsZero (k : DHKey) : bool := IsZero (Public k).
(** The receiver is a pointer the callers never leave nil; [k2] may be nil. *)
Definition Equals (k : DHKey) (k2 : option DHKey) : bool :=
  match k2 with
  | None => false
  | Some k2 =>
    if bool_decide (Public k = Public k2) then bool_decide (Private k = Private k2) else false
  end.
Definition ToNoiseDHKey (k : DHKey) : NoiseDHKey :=
  mkNoiseDHKey (key_bytes (Private k)) (key_bytes (Public k)).

Lemma NewDHPublic_wf s : key_wf (NewDHPublic s).
Proof.
  unfold key_wf, NewDHPublic. destruct (keySize <? zlen s); [done|]. cbn [key_bytes].
  unfold zlen. by rewrite length_go_copy.
Qed.

Lemma NewDHPublic_id k : key_wf k -> NewDHPublic (key_bytes k) = k.
Proof.
  unfold key_wf, NewDHPublic. intros Hk. rewrite Hk. rewrite Z.ltb_irrefl. destruct k as [b].
  f_equal. apply go_copy_same. change (length (key_bytes DHKeyBytes_zero)) with 32%nat.
  cbn [key_bytes] in *. unfold zlen, keySize in *. lia.
Qed.

Lemma Equals_spec k k2 : Equals k k2 = true <-> k2 = Some k.
Proof.
  unfold Equals. destruct k2 as [k2|]; [|done]. destruct k, k2; cbn.
  repeat case_bool_decide; split; intros; try done; simplify_eq; done.
Qed.

Lemma noise_key_roundtrip k :
  key_wf (Public k) -> key_wf (Private k) -> Equals k (Some (FromNoiseDHKey (ToNoiseDHKey k))) = true.
Proof.
  intros H1 H2. apply Equals_spec. unfold FromNoiseDHKey, ToNoiseDHKey. cbn [nPublic nPrivate].
  assert (NewDHPrivate (key_bytes (Private k)) = Private k) as -> by apply (NewDHPublic_id _ H2).
  rewrite NewDHPublic_id by done. by destruct k.
Qed.

(** ** Witnesses *)

Module CredentialWitness.
#[local] Existing Instance Toy.signature.
#[local] Existing Instance Toy.signature_ok.

Definition ip : bytes := [Byte.x0a; Byte.x01; Byte.x02; Byte.x03].
Definition cred : bytes :=
  match Credential 0 7 9 ip (3600 * Second) with Ok c => c | _ => [] end.
(** Thirty zero bytes but for a length byte of one hundred. *)
Definition forged : bytes := replicate 24 Byte.x00 ++ [byte.of_Z 100] ++ replicate 5 Byte.x00.

Example issued_and_expired :
  VerifyCredential (3600 * Second) cred = Ok (Some (7, 9, ip)) /\ VerifyCredential (3601 * Second) cred = Ok None.
Proof. by vm_compute. Qed.

Lemma verified_credential_sound_witness :
  exists expirationAt sig, cred = credential_data 7 9 expirationAt ip ++ sig /\
    verify (credential_data 7 9 expirationAt ip) sig = true /\
    unix_of 0 <= expirationAt /\ 0 <= 7 < 2 ^ 64 /\ 0 <= 9 < 2 ^ 64.
Proof. apply verified_credential_sound. by vm_compute. Defined.

Lemma verify_credential_panics_witness : is_panic (VerifyCredential 0 forged) = true.
Proof. apply verify_credential_panics; by vm_compute. Defined.
End CredentialWitness.
