(* ===== verification/Stun.v ===== *)
(** The STUN packets of the external-address discovery: [internal/stun/stun.go].
    Byte slices are accessed through checked slices and indices, so that "the
    parser never panics" is a statement about the code's own guards. *)
From S2P Require Import Prelude Wire.

(** ** Constants and transaction identifiers *)

Definition attrNumSoftware : Z := 0x8022.
Definition attrNumFingerprint : Z := 0x8028.
Definition attrMappedAddress : Z := 0x0001.
Definition attrXorMappedAddress : Z := 0x0020.
Definition attrXorMappedAddressAlt : Z := 0x8020.
Definition software : bytes := bytes_of_string "meshnode".
Definition bindingRequest : bytes := [Byte.x00; Byte.x01].
Definition magicCookie : bytes := [Byte.x21; Byte.x12; Byte.xa4; Byte.x42].
Definition lenFingerprint : Z := 8.
Definition headerLen : Z := 20.

(** [TxID] is an array of twelve bytes. *)
Abbreviation TxID := bytes (only parsing).
Definition txid_wf (tx : TxID) : Prop := length tx = 12%nat.

Definition ErrNotSTUN := EMsg "response is not a STUN packet".
Definition ErrNotSuccessResponse := EMsg "STUN packet is not a response".
Definition ErrMalformedAttrs := EMsg "STUN response has malformed attributes".
Definition ErrNotBindingRequest := EMsg "STUN request not a binding request".
Definition ErrWrongSoftware := EMsg "STUN request came from non-PairMesh software".
Definition ErrNoFingerprint := EMsg "STUN request didn't end in fingerprint".
Definition ErrWrongFingerprint := EMsg "STUN request had bogus fingerprint".

(** ** The fingerprint *)

(** [crc32.ChecksumIEEE], bit by bit. *)
Definition crc_bit (c : Z) : Z :=
  if Z.odd c then Z.lxor (Z.shiftr c 1) 0xEDB88320 else Z.shiftr c 1.
Definition crc_byte (c : Z) (b : Byte.byte) : Z :=
  Nat.iter 8 crc_bit (Z.lxor c (byte.unsigned b)).
Definition crc32 (b : bytes) : Z := Z.lxor (foldl crc_byte 0xFFFFFFFF b) 0xFFFFFFFF.
Definition fingerPrint (b : bytes) : Z := Z.lxor (crc32 b) 0x5354554e.

Definition appendU16 (b : bytes) (v : Z) : bytes :=
  b ++ [byte.of_Z (Z.shiftr v 8); byte.of_Z v].
Definition appendU32 (b : bytes) (v : Z) : bytes :=
  b ++ [byte.of_Z (Z.shiftr v 24); byte.of_Z (Z.shiftr v 16); byte.of_Z (Z.shiftr v 8); byte.of_Z v].

(** ** Requests *)

Definition Request (tID : TxID) : bytes :=
  let lenAttrSoftware := 4 + zlen software in
  let b := [] ++ bindingRequest in
  let b := appendU16 b (u16 (lenAttrSoftware + lenFingerprint)) in
  let b := b ++ magicCookie in
  let b := b ++ tID in
  let b := appendU16 b attrNumSoftware in
  let b := appendU16 b (u16 (zlen software)) in
  let b := b ++ software in
  let fp := fingerPrint b in
  let b := appendU16 b attrNumFingerprint in
  let b := appendU16 b 4 in
  appendU32 b fp.

(** [Is]: the first byte and the cookie are only looked at when they exist. *)
Definition Is (b : bytes) : bool :=
  (headerLen <=? zlen b) &&
  (Z.land (byte.unsigned (nth 0 b Byte.x00)) 0xC0 =? 0) &&
  bool_decide (take 4 (drop 4 b) = magicCookie).

(** ** Attributes *)

(** [foreachAttr] runs the callback on every attribute, on the variables [S]
    it captures.  Every round drops four bytes, so [length b] rounds suffice. *)
Fixpoint foreachAttr {S} (fuel : nat) (b : bytes) (fn : Z -> bytes -> GoM S unit) : GoM S unit :=
  if zlen b <=? 0 then mret tt
  else match fuel with
  | O => gpanic "out of fuel"
  | Datatypes.S fuel =>
    if zlen b <? 4 then gthrow ErrMalformedAttrs
    else
      ty ← glift (go_slice b 0 2); le ← glift (go_slice b 2 4);
      let attrType := be_get ty in
      let attrLen := be_get le in
      let attrLenWithPad := Z.ldiff (attrLen + 3) 3 in
      b ← glift (go_slice b 4 (zlen b));
      if zlen b <? attrLenWithPad then gthrow ErrMalformedAttrs
      else
        a ← glift (go_slice b 0 attrLen);
        _ ← fn attrType a;
        b ← glift (go_slice b attrLenWithPad (zlen b));
        foreachAttr fuel b fn
  end.

(** The variables captured by the callback of [ParseBindingRequest]. *)
Record reqVars := mkReqVars { softwareOK : bool; lastAttr : Z; gotFP : Z }.

Definition reqAttr (attrType : Z) (a : bytes) : GoM reqVars unit := fun v =>
  let v := mkReqVars (softwareOK v) attrType (gotFP v) in
  let v := if (attrType =? attrNumSoftware) && bool_decide (a = software)
           then mkReqVars true (lastAttr v) (gotFP v) else v in
  let v := if (attrType =? attrNumFingerprint) && (zlen a =? 4)
           then mkReqVars (softwareOK v) (lastAttr v) (be_get a) else v in
  (v, Ok tt).

Definition ParseBindingRequest (b : bytes) : result TxID :=
  if negb (Is b) then Err ErrNotSTUN
  else
    hd ← go_slice b 0 2;
    if bool_decide (hd <> bindingRequest) then Err ErrNotBindingRequest
    else
      txID ← go_slice b 8 20;
      attrs ← go_slice b headerLen (zlen b);
      match foreachAttr (length attrs) attrs reqAttr (mkReqVars false 0 0) with
      | (_, Err e) => Err e
      | (_, Panic w) => Panic w
      | (v, Ok _) =>
        if negb (softwareOK v) then Err ErrWrongSoftware
        else if negb (lastAttr v =? attrNumFingerprint) then Err ErrNoFingerprint
        else
          body ← go_slice b 0 (zlen b - lenFingerprint);
          if negb (gotFP v =? fingerPrint body) then Err ErrWrongFingerprint
          else Ok txID
      end.

(** ** Responses *)

(** [net.IP.To4]: [None] is the nil slice. *)
Definition To4 (ip : bytes) : option bytes :=
  if zlen ip =? 4 then Some ip
  else if (zlen ip =? 16) && bool_decide (take 12 ip = replicate 10 Byte.x00 ++ [Byte.xff; Byte.xff])
  then Some (drop 12 ip) else None.

(** The i-th byte that masks an address: the cookie, then the transaction. *)
Definition mask_byte (txID : TxID) (i : nat) : Byte.byte := nth i (magicCookie ++ txID) Byte.x00.
Definition mask_addr (txID : TxID) (a : bytes) : bytes :=
  imap (fun i o => byte_xor o (mask_byte txID i)) a.

(** [Response]; [None] is the nil slice returned for an address that is
    neither IPv4 nor IPv6. *)
Definition Response (txID : TxID) (ip : bytes) (port : Z) : option bytes :=
  let ip := default ip (To4 ip) in
  let build fam :=
    let attrsLen := 8 + zlen ip in
    let b := [] ++ [Byte.x01; Byte.x01] in
    let b := appendU16 b (u16 attrsLen) in
    let b := b ++ magicCookie in
    let b := b ++ txID in
    let b := appendU16 b attrXorMappedAddress in
    let b := appendU16 b (u16 (4 + zlen ip)) in
    let b := b ++ [Byte.x00; fam] in
    let b := appendU16 b (Z.lxor port 0x2112) in
    Some (b ++ mask_addr txID ip) in
  if zlen ip =? 4 then build Byte.x01
  else if zlen ip =? 16 then build Byte.x02
  else None.

Definition familyAddrLen (fam : Byte.byte) : Z :=
  if bool_decide (fam = Byte.x01) then 4 else if bool_decide (fam = Byte.x02) then 16 else 0.

Definition xorMappedAddress (tID : TxID) (b : bytes) : result (bytes * Z) :=
  if zlen b <? 4 then Err ErrMalformedAttrs
  else
    xp ← go_slice b 2 4; addrField ← go_slice b 4 (zlen b);
    let port := Z.lxor (be_get xp) 0x2112 in
    fam ← go_index b 1;
    let addrLen := familyAddrLen fam in
    if addrLen =? 0 then Err ErrMalformedAttrs
    else if zlen addrField <? addrLen then Err ErrMalformedAttrs
    else xorAddr ← go_slice addrField 0 addrLen; Ok (mask_addr tID xorAddr, port).

Definition mappedAddress (b : bytes) : result (bytes * Z) :=
  if zlen b <? 4 then Err ErrMalformedAttrs
  else
    p2 ← go_index b 2; p3 ← go_index b 3;
    let port := Z.lor (Z.shiftl (byte.unsigned p2) 8) (byte.unsigned p3) in
    addrField ← go_slice b 4 (zlen b);
    fam ← go_index b 1;
    let addrLen := familyAddrLen fam in
    if addrLen =? 0 then Err ErrMalformedAttrs
    else if zlen addrField <? addrLen then Err ErrMalformedAttrs
    else a ← go_slice addrField 0 addrLen; Ok (a, port).

(** The variables captured by the callback of [ParseResponse]; a pair is an
    address and its port, [None] the nil address. *)
Record respVars := mkRespVars {
  addr : option (bytes * Z); addr6 : option (bytes * Z);
  fallbackAddr : option (bytes * Z); fallbackAddr6 : option (bytes * Z) }.

Definition respAttr (txID : TxID) (attrType : Z) (attr : bytes) : GoM respVars unit := fun v =>
  if (attrType =? attrXorMappedAddress) || (attrType =? attrXorMappedAddressAlt) then
    match xorMappedAddress txID attr with
    | Err e => (v, Err e)
    | Panic w => (v, Panic w)
    | Ok (a, p) =>
      if zlen a =? 16 then (mkRespVars (addr v) (Some (a, p)) (fallbackAddr v) (fallbackAddr6 v), Ok tt)
      else (mkRespVars (Some (a, p)) (addr6 v) (fallbackAddr v) (fallbackAddr6 v), Ok tt)
    end
  else if attrType =? attrMappedAddress then
    match mappedAddress attr with
    | Err _ => (v, Err ErrMalformedAttrs)
    | Panic w => (v, Panic w)
    | Ok (a, p) =>
      if zlen a =? 16 then (mkRespVars (addr v) (addr6 v) (fallbackAddr v) (Some (a, p)), Ok tt)
      else (mkRespVars (addr v) (addr6 v) (Some (a, p)) (fallbackAddr6 v), Ok tt)
    end
  else (v, Ok tt).

Definition ParseResponse (b : bytes) : result (TxID * bytes * Z) :=
  if negb (Is b) then Err ErrNotSTUN
  else
    txID ← go_slice b 8 20;
    hd ← go_slice b 0 2;
    if bool_decide (hd <> [Byte.x01; Byte.x01]) then Err ErrNotSuccessResponse
    else
      le ← go_slice b 2 4;
      let attrsLen := be_get le in
      b ← go_slice b headerLen (zlen b);
      if zlen b <? attrsLen then Err ErrMalformedAttrs
      else
        b ← (if attrsLen <? zlen b then go_slice b 0 attrsLen else Ok b);
        match foreachAttr (length b) b (respAttr txID) (mkRespVars None None None None) with
        | (_, Err e) => Err e
        | (_, Panic w) => Panic w
        | (v, Ok _) =>
          match addr v, fallbackAddr v, addr6 v, fallbackAddr6 v with
          | Some (a, p), _, _, _ => Ok (txID, a, p)
          | None, Some (a, p), _, _ => Ok (txID, a, p)
          | None, None, Some (a, p), _ => Ok (txID, a, p)
          | None, None, None, Some (a, p) => Ok (txID, a, p)
          | None, None, None, None => Err ErrMalformedAttrs
          end
        end.

(** ** The server side ([serveSTUN] of [relay/server/stun.go]) *)

(** The answer to one datagram from [(ip, port)]: the bytes written back, or
    the error that is logged. *)
Definition serveProtocol (data : bytes) (ip : bytes) (port : Z) : result bytes :=
  if negb (Is data) then Err (EMsg "not stun packet")
  else txid ← ParseBindingRequest data; Ok (default [] (Response txid ip (u16 port))).

Example request_parses :
  ParseBindingRequest (Request (replicate 12 Byte.x07)) = Ok (replicate 12 Byte.x07).
Proof. by vm_compute. Qed.
Example response_parses :
  (ParseResponse <$> Response (replicate 12 Byte.x07) [Byte.x01; Byte.x02; Byte.x03; Byte.x04] 4242)
  = Some (Ok (replicate 12 Byte.x07, [Byte.x01; Byte.x02; Byte.x03; Byte.x04], 4242)).
Proof. by vm_compute. Qed.

(** ** Lemmas *)

Lemma appendU16_be b v : appendU16 b v = b ++ be_put 2 v.
Proof. done. Qed.
Lemma appendU32_be b v : appendU32 b v = b ++ be_put 4 v.
Proof. unfold appendU32. by rewrite be_put_4. Qed.

Lemma crc_bit_bound c : 0 <= c < 2 ^ 32 -> 0 <= crc_bit c < 2 ^ 32.
Proof.
  intros Hc. unfold crc_bit. rewrite Z.shiftr_div_pow2 by lia. change (2 ^ 1) with 2.
  assert (0 <= c / 2 < 2 ^ 32) by (split; [apply Z.div_pos; lia|apply Z.div_lt_upper_bound; lia]).
  destruct (Z.odd c); [|done]. apply lxor_bound; lia.
Qed.

Lemma fingerPrint_bound b : 0 <= fingerPrint b < 2 ^ 32.
Proof.
  unfold fingerPrint, crc32. apply lxor_bound; [lia| |lia]. apply lxor_bound; [lia| |lia].
  assert (forall c, 0 <= c < 2 ^ 32 -> 0 <= foldl crc_byte c b < 2 ^ 32) as H; [|apply H; lia].
  induction b as [|x b IH]; intros c Hc; [done|]. cbn [foldl]. apply IH. unfold crc_byte.
  pose proof (byte_range x).
  assert (0 <= Z.lxor c (byte.unsigned x) < 2 ^ 32) as Hx by (apply lxor_bound; lia).
  cbn [Nat.iter]. do 8 apply crc_bit_bound. done.
Qed.

(** An attribute as it lies in a packet. *)
Definition attr_bytes (ty : Z) (a pad : bytes) : bytes :=
  be_put 2 ty ++ be_put 2 (zlen a) ++ a ++ pad.

Lemma foreachAttr_nil {S} fuel (fn : Z -> bytes -> GoM S unit) : foreachAttr fuel [] fn = mret tt.
Proof. by destruct fuel. Qed.

Lemma foreachAttr_step {S} fuel ty a pad rest (fn : Z -> bytes -> GoM S unit) s :
  0 <= ty < 2 ^ 16 -> zlen a < 2 ^ 16 -> zlen a + zlen pad = Z.ldiff (zlen a + 3) 3 ->
  foreachAttr (Datatypes.S fuel) (attr_bytes ty a pad ++ rest) fn s =
    (_ ← fn ty a; foreachAttr fuel rest fn) s.
Proof.
  intros Hty Ha Hpad. pose proof (zlen_nonneg a). pose proof (zlen_nonneg pad).
  pose proof (zlen_nonneg rest). cbn [foreachAttr].
  assert (zlen (attr_bytes ty a pad ++ rest) = 4 + zlen a + zlen pad + zlen rest) as Hl.
  { unfold attr_bytes. rewrite !zlen_app, !zlen_be_put. lia. }
  destruct (Z.leb_spec (zlen (attr_bytes ty a pad ++ rest)) 0); [lia|].
  destruct (Z.ltb_spec (zlen (attr_bytes ty a pad ++ rest)) 4); [lia|]. clear Hl.
  unfold attr_bytes. rewrite <- !app_assoc. rewrite go_slice_prefix by solve_len.
  rewrite (go_slice_mid (be_put 2 ty) (be_put 2 (zlen a)) _ 2 4) by solve_len.
  unfold glift. res_simpl. set (r := a ++ pad ++ rest).
  rewrite (app_assoc (be_put 2 ty) (be_put 2 (zlen a)) r).
  rewrite (go_slice_suffix (be_put 2 ty ++ be_put 2 (zlen a)) r) by solve_len. subst r.
  rewrite !be_get_put_small by (cbn; lia). rewrite <- Hpad.
  destruct (Z.ltb_spec (zlen (a ++ pad ++ rest)) (zlen a + zlen pad)) as [Hx|_].
  { rewrite !zlen_app in Hx. lia. }
  rewrite go_slice_prefix by done.
  rewrite (app_assoc a pad rest), go_slice_suffix by solve_len. done.
Qed.

Lemma Is_true c1 c2 c3 c4 rest :
  Z.land (byte.unsigned c1) 0xC0 = 0 -> 12 <= zlen rest ->
  Is ([c1; c2; c3; c4] ++ magicCookie ++ rest) = true.
Proof.
  intros Hc Hl. unfold Is. rewrite !andb_true_iff. split_and!.
  - apply Z.leb_le. rewrite !zlen_app. unfold headerLen. change (zlen magicCookie) with 4.
    change (zlen [c1; c2; c3; c4]) with 4. lia.
  - cbn [nth app]. by rewrite Hc.
  - apply bool_decide_eq_true. by rewrite drop_app_exact, take_app_exact by done.
Qed.

Lemma foreachAttr_no_panic {S} (fn : Z -> bytes -> GoM S unit) :
  (forall ty a s, is_panic (gresult (fn ty a) s) = false) ->
  forall fuel b s, (length b <= fuel)%nat -> is_panic (gresult (foreachAttr fuel b fn) s) = false.
Proof.
  intros Hfn fuel. unfold gresult in *.
  induction fuel as [|fuel IH]; intros b s Hf; cbn [foreachAttr];
    destruct (Z.leb_spec (zlen b) 0) as [|Hpos]; try done.
  { unfold zlen in *. lia. }
  destruct (Z.ltb_spec (zlen b) 4) as [|H4]; [done|].
  rewrite !go_slice_ok by lia. unfold glift; res_simpl.
  set (al := be_get (ztake (4 - 2) (zdrop 2 b))). set (b4 := ztake (zlen b - 4) (zdrop 4 b)).
  assert (0 <= al) by (pose proof (be_get_bound (ztake (4 - 2) (zdrop 2 b))); lia).
  assert (al <= Z.ldiff (al + 3) 3) as Hpad.
  { change 3 with (Z.ones 2) at 2.
    rewrite Z.ldiff_ones_r by lia. rewrite Z.shiftr_div_pow2, Z.shiftl_mul_pow2 by lia.
    change (2 ^ 2) with 4. pose proof (Z.div_mod (al + 3) 4). pose proof (Z.mod_pos_bound (al + 3) 4). lia. }
  assert (zlen b4 = zlen b - 4) as Hb4.
  { unfold b4. rewrite zlen_ztake; [done|]. rewrite zlen_zdrop; lia. }
  destruct (Z.ltb_spec (zlen b4) (Z.ldiff (al + 3) 3)) as [|Hle]; [done|].
  rewrite !go_slice_ok by lia. set (a := ztake (al - 0) (zdrop 0 b4)).
  pose proof (Hfn (be_get (ztake (2 - 0) (zdrop 0 b))) a s) as Hcall.
  destruct (fn _ a s) as [s' [| |]]; cbn in Hcall; [|done|done].
  apply IH. unfold ztake, zdrop. rewrite length_take, length_drop. unfold zlen in *. lia.
Qed.

Lemma xorMappedAddress_no_panic tx b : is_panic (xorMappedAddress tx b) = false.
Proof.
  unfold xorMappedAddress. destruct (Z.ltb_spec (zlen b) 4); [done|].
  rewrite !go_slice_ok, go_index_ok by lia. res_simpl.
  destruct (familyAddrLen _ =? 0) eqn:?; [done|].
  set (f := familyAddrLen _). set (l := ztake _ (zdrop 4 b)).
  assert (0 <= f) by (unfold f, familyAddrLen; repeat case_bool_decide; lia).
  destruct (Z.ltb_spec (zlen l) f); [done|]. by rewrite go_slice_ok by lia.
Qed.

Lemma mappedAddress_no_panic b : is_panic (mappedAddress b) = false.
Proof.
  unfold mappedAddress. destruct (Z.ltb_spec (zlen b) 4); [done|].
  rewrite !go_slice_ok, !go_index_ok by lia. res_simpl.
  destruct (familyAddrLen _ =? 0) eqn:?; [done|].
  set (f := familyAddrLen _). set (l := ztake _ (zdrop 4 b)).
  assert (0 <= f) by (unfold f, familyAddrLen; repeat case_bool_decide; lia).
  destruct (Z.ltb_spec (zlen l) f); [done|]. by rewrite go_slice_ok by lia.
Qed.

Lemma reqAttr_software v :
  reqAttr attrNumSoftware software v = (mkReqVars true attrNumSoftware (gotFP v), Ok tt).
Proof. unfold reqAttr. by rewrite bool_decide_eq_true_2. Qed.

Lemma reqAttr_fingerprint v fp : 0 <= fp < 2 ^ 32 ->
  reqAttr attrNumFingerprint (be_put 4 fp) v = (mkReqVars (softwareOK v) attrNumFingerprint fp, Ok tt).
Proof.
  intros H. unfold reqAttr. rewrite bool_decide_eq_false_2.
  - rewrite zlen_be_put, be_get_put_small by done. done.
  - intros E. apply (f_equal length) in E. by rewrite length_be_put in E.
Qed.

Lemma reqAttr_no_panic ty a v : is_panic (gresult (reqAttr ty a) v) = false.
Proof. done. Qed.
Lemma respAttr_no_panic tx ty a v : is_panic (gresult (respAttr tx ty a) v) = false.
Proof.
  unfold gresult, respAttr. pose proof (xorMappedAddress_no_panic tx a).
  pose proof (mappedAddress_no_panic a).
  destruct (_ || _).
  - destruct (xorMappedAddress tx a) as [[x p]| |]; [by destruct (zlen x =? 16)|done|done].
  - destruct (_ =? _); [|done].
    destruct (mappedAddress a) as [[x p]| |]; [by destruct (zlen x =? 16)|done|done].
Qed.

Definition request_body (tx : TxID) : bytes :=
  (bindingRequest ++ be_put 2 20 ++ magicCookie) ++ tx ++ attr_bytes attrNumSoftware software [].

Lemma Request_layout tx : Request tx =
  request_body tx ++ attr_bytes attrNumFingerprint (be_put 4 (fingerPrint (request_body tx))) [].
Proof.
  unfold Request. rewrite appendU32_be, !appendU16_be.
  assert (forall x y : bytes, x = y -> x ++ be_put 2 attrNumFingerprint ++ be_put 2 4 ++
    be_put 4 (fingerPrint x) = y ++ attr_bytes attrNumFingerprint (be_put 4 (fingerPrint y)) []) as H.
  { intros x y ->. unfold attr_bytes. by rewrite zlen_be_put, app_nil_r. }
  rewrite <- (H _ _ eq_refl), <- !app_assoc. 
  assert (request_body tx = bindingRequest ++ be_put 2 20 ++ magicCookie ++ tx ++
    be_put 2 attrNumSoftware ++ be_put 2 (zlen software) ++ software) as ->.
  { unfold request_body, attr_bytes. by rewrite <- !app_assoc, app_nil_r. }
  by rewrite <- !app_assoc.
Qed.

Lemma length_request_body tx : txid_wf tx -> length (request_body tx) = 32%nat.
Proof. intros Htx. unfold request_body. rewrite !length_app, Htx. done. Qed.

Lemma mask_addr_involutive tx a : mask_addr tx (mask_addr tx a) = a.
Proof.
  unfold mask_addr. apply list_eq. intros i. rewrite !list_lookup_imap.
  destruct (a !! i) as [x|]; [|done]. cbn. by rewrite byte_xor_cancel.
Qed.
Lemma length_mask_addr tx a : length (mask_addr tx a) = length a.
Proof. unfold mask_addr. by rewrite length_imap. Qed.

Lemma To4_len ip ip4 : To4 ip = Some ip4 -> zlen ip4 = 4.
Proof.
  unfold To4. destruct (Z.eqb_spec (zlen ip) 4); [by intros [= <-]|].
  destruct (Z.eqb_spec (zlen ip) 16) as [H|]; cbn [andb]; [|done].
  case_bool_decide; [|done]. intros [= <-]. unfold zlen in *. rewrite length_drop. lia.
Qed.

(** The answer for a four- or sixteen-byte address. *)
Lemma ParseResponse_layout tx ip fam port :
  txid_wf tx -> familyAddrLen fam = zlen ip -> (zlen ip = 4 \/ zlen ip = 16) -> 0 <= port < 2 ^ 16 ->
  ParseResponse (([Byte.x01; Byte.x01] ++ be_put 2 (8 + zlen ip)) ++ magicCookie ++ tx ++
    attr_bytes attrXorMappedAddress ([Byte.x00; fam] ++ be_put 2 (Z.lxor port 0x2112) ++ mask_addr tx ip) [])
  = Ok (tx, ip, port).
Proof.
  intros Htx Hfam Hip Hport. set (a := [Byte.x00; fam] ++ _ ++ _).
  assert (zlen (mask_addr tx ip) = zlen ip) as Hm by (unfold zlen; by rewrite length_mask_addr).
  assert (zlen a = 4 + zlen ip) as Ha.
  { unfold a. rewrite !zlen_app, zlen_be_put, Hm. change (zlen [Byte.x00; fam]) with 2. lia. }
  assert (zlen (attr_bytes attrXorMappedAddress a []) = 8 + zlen ip) as Hat.
  { unfold attr_bytes. rewrite !zlen_app, !zlen_be_put, zlen_nil. lia. }
  set (at_ := attr_bytes _ _ _) in *. unfold ParseResponse.
  assert (exists l1 l2, be_put 2 (8 + zlen ip) = [l1; l2]) as (l1 & l2 & Hl) by (by do 2 eexists).
  assert (Is (([Byte.x01; Byte.x01] ++ be_put 2 (8 + zlen ip)) ++ magicCookie ++ tx ++ at_) = true) as ->.
  { rewrite Hl. apply Is_true; [done|]. rewrite zlen_app. unfold zlen at 1. rewrite Htx. lia. }
  cbn [negb]. set (hd := [Byte.x01; Byte.x01] ++ be_put 2 (8 + zlen ip)).
  assert (zlen hd = 4) as Hhd by (unfold hd; by rewrite zlen_app, zlen_be_put).
  assert (zlen tx = 12) as Hztx by (unfold zlen; by rewrite Htx).
  rewrite (app_assoc hd). rewrite (go_slice_mid (hd ++ magicCookie) tx at_ 8 20)
    by (rewrite ?zlen_app, ?Hhd, ?Hztx; done).
  rewrite (app_assoc (hd ++ magicCookie)).
  rewrite (go_slice_suffix ((hd ++ magicCookie) ++ tx) at_ headerLen)
    by (rewrite !zlen_app, Hhd, Hztx; done).
  unfold hd. rewrite <- !app_assoc. rewrite go_slice_prefix by done.
  rewrite (go_slice_mid [Byte.x01; Byte.x01] (be_put 2 (8 + zlen ip)) _ 2 4) by (rewrite ?zlen_be_put; done).
  res_simpl. rewrite bool_decide_eq_false_2 by (intros H; by apply H).
  rewrite be_get_put_small by (cbn; lia). rewrite Hat.
  rewrite !Z.ltb_irrefl.
  assert (length at_ = S (length at_ - 1)) as -> by (unfold zlen in Hat; lia).
  rewrite <- (app_nil_r at_). unfold at_.
  rewrite foreachAttr_step; [|unfold attrXorMappedAddress; lia|lia|rewrite Ha, zlen_nil; by destruct Hip as [-> | ->]].
  unfold mbind, gom_bind. unfold respAttr. cbn [Z.eqb attrXorMappedAddress Pos.eqb orb].
  assert (xorMappedAddress tx a = Ok (ip, port)) as ->.
  { unfold xorMappedAddress. destruct (Z.ltb_spec (zlen a) 4); [lia|]. unfold a.
    rewrite (go_slice_mid [Byte.x00; fam] _ _ 2 4) by (rewrite ?zlen_be_put; done).
    rewrite (app_assoc [Byte.x00; fam]), go_slice_suffix by (rewrite zlen_app, zlen_be_put; done).
    rewrite go_index_ok by (rewrite !zlen_app, zlen_be_put, Hm; change (zlen [Byte.x00; fam]) with 2; lia).
    res_simpl. change (nth (Z.to_nat 1) _ Byte.x00) with fam. rewrite Hfam.
    destruct (Z.eqb_spec (zlen ip) 0); [lia|]. rewrite Hm, Z.ltb_irrefl, <- Hm, go_slice_full.
    rewrite be_get_put_small by (cbn; apply lxor_bound; lia).
    by rewrite mask_addr_involutive, lxor_cancel. }
  rewrite foreachAttr_nil. res_simpl. by destruct Hip as [-> | ->].
Qed.

(** ** Properties *)

(** The relay server accepts every request a node builds
    and recovers its transaction identifier. *)
Lemma stun_request_roundtrip (tx : TxID) :
  txid_wf tx -> ParseBindingRequest (Request tx) = Ok tx.
Proof.
  intros Htx. rewrite Request_layout. pose proof (length_request_body tx Htx) as Hlen.
  pose proof (fingerPrint_bound (request_body tx)) as Hfp.
  set (fp := fingerPrint (request_body tx)) in *.
  set (fpa := attr_bytes attrNumFingerprint (be_put 4 fp) []).
  assert (zlen tx = 12) as Hztx by (unfold zlen; by rewrite Htx).
  assert (Is (request_body tx ++ fpa) = true) as HIs.
  { unfold request_body. rewrite <- !app_assoc. apply (Is_true Byte.x00 Byte.x01 Byte.x00 (byte.of_Z 20)); [done|].
    rewrite zlen_app, Hztx. unfold zlen. lia. }
  unfold ParseBindingRequest. rewrite HIs. cbn [negb].
  assert (zlen (request_body tx) = 32) as Hzb by (unfold zlen; by rewrite Hlen).
  assert (zlen (request_body tx ++ fpa) - lenFingerprint = zlen (request_body tx)) as ->.
  { rewrite zlen_app, Hzb. done. }
  rewrite (go_slice_prefix (request_body tx) fpa (zlen (request_body tx))) by done.
  unfold request_body. rewrite <- !app_assoc. rewrite go_slice_prefix by done.
  set (h := bindingRequest ++ be_put 2 20 ++ magicCookie).
  rewrite !(app_assoc bindingRequest), !(app_assoc (bindingRequest ++ be_put 2 20)).
  rewrite <- (app_assoc bindingRequest). fold h.
  rewrite (go_slice_mid h tx _ 8 20) by (rewrite ?Hztx; done).
  rewrite (app_assoc h tx (attr_bytes _ _ _ ++ _)).
  rewrite (go_slice_suffix (h ++ tx) _ headerLen) by (rewrite zlen_app, Hztx; done).
  res_simpl. rewrite bool_decide_eq_false_2 by (intros H; by apply H).
  set (k := length (attr_bytes _ _ _ ++ _)). assert (k = 20%nat) as -> by (unfold k; by rewrite length_app).
  rewrite foreachAttr_step by (done || (unfold attrNumSoftware; lia)).
  unfold mbind, gom_bind. rewrite reqAttr_software.
  rewrite <- (app_nil_r fpa). unfold fpa.
  rewrite foreachAttr_step by (rewrite ?zlen_be_put; done || (unfold attrNumFingerprint; lia)).
  unfold mbind, gom_bind. rewrite reqAttr_fingerprint, foreachAttr_nil by done. res_simpl.
  cbn [softwareOK lastAttr gotFP negb]. rewrite Z.eqb_refl. cbn [negb].
  unfold fp, request_body, h. rewrite <- !app_assoc. by rewrite Z.eqb_refl.
Qed.

(** A node reads back, from the answer the relay server
    builds, its own transaction identifier and the address and port the
    server saw: an IPv4-mapped address as its four bytes, any other IPv4 or
    IPv6 address unchanged. *)
Lemma stun_response_roundtrip (tx : TxID) (ip : bytes) (port : Z) :
  txid_wf tx -> (zlen ip = 4 \/ zlen ip = 16) -> 0 <= port < 2 ^ 16 ->
  exists w, Response tx ip port = Some w /\ ParseResponse w = Ok (tx, default ip (To4 ip), port).
Proof.
  intros Htx Hip Hport. unfold Response. set (ip' := default ip (To4 ip)).
  assert (zlen ip' = 4 \/ zlen ip' = 16) as Hip'.
  { unfold ip'. destruct (To4 ip) as [i4|] eqn:E; [left; by apply (To4_len ip)|done]. }
  assert (forall fam, familyAddrLen fam = zlen ip' ->
    ParseResponse (appendU16 (appendU16 (appendU16 (appendU16 ([] ++ [Byte.x01; Byte.x01]) (u16 (8 + zlen ip')) ++
      magicCookie ++ tx) attrXorMappedAddress) (u16 (4 + zlen ip')) ++ [Byte.x00; fam]) (Z.lxor port 0x2112) ++
      mask_addr tx ip') = Ok (tx, ip', port)) as HP.
  { intros fam Hfam. rewrite <- (ParseResponse_layout tx ip' fam port) by done. f_equal.
    unfold attr_bytes. rewrite !appendU16_be, <- !app_assoc, app_nil_r. cbn [app].
    unfold u16. rewrite !Z.mod_small by (destruct Hip' as [-> | ->]; lia).
    do 4 f_equal. assert (zlen (Byte.x00 :: fam :: be_put 2 (Z.lxor port 8466) ++ mask_addr tx ip') = 4 + zlen ip') as ->.
    { rewrite !zlen_cons, zlen_app, zlen_be_put. unfold zlen. rewrite length_mask_addr. lia. }
    done. }
  assert (forall fam b, familyAddrLen fam = zlen ip' ->
    b = appendU16 ([] ++ [Byte.x01; Byte.x01]) (u16 (8 + zlen ip')) ->
    ParseResponse (appendU16 (appendU16 (appendU16 ((b ++ magicCookie) ++ tx) attrXorMappedAddress)
      (u16 (4 + zlen ip')) ++ [Byte.x00; fam]) (Z.lxor port 0x2112) ++ mask_addr tx ip') = Ok (tx, ip', port)) as HP'.
  { intros fam b Hfam ->. rewrite <- (HP fam Hfam). by rewrite <- app_assoc. }
  destruct Hip' as [H4|H16].
  - destruct (Z.eqb_spec (zlen ip') 4); [|lia]. eexists. split; [done|].
    by apply (HP' Byte.x01).
  - destruct (Z.eqb_spec (zlen ip') 4); [lia|]. destruct (Z.eqb_spec (zlen ip') 16); [|lia].
    eexists. split; [done|]. by apply (HP' Byte.x02).
Qed.

(** No datagram makes either parser panic: every slice and
    index they take is within the bounds their checks established. *)
Theorem stun_parsers_never_panic (b : bytes) :
  is_panic (ParseBindingRequest b) = false /\ is_panic (ParseResponse b) = false.
Proof.
  unfold ParseBindingRequest, ParseResponse.
  destruct (Is b) eqn:HIs; cbn [negb]; [|done].
  assert (20 <= zlen b) as Hl.
  { unfold Is in HIs. rewrite !andb_true_iff in HIs. destruct HIs as [[HIs _] _].
    by apply Z.leb_le in HIs. }
  unfold headerLen, lenFingerprint. rewrite !go_slice_ok by lia. res_simpl. split.
  - case_bool_decide; [done|]. set (attrs := ztake (zlen b - 20) _).
    pose proof (foreachAttr_no_panic reqAttr reqAttr_no_panic (length attrs) attrs
      (mkReqVars false 0 0) (Nat.le_refl _)) as Hf. unfold gresult in Hf.
    destruct (foreachAttr _ attrs reqAttr _) as [v [| |]]; [|done|done].
    destruct (softwareOK v), (lastAttr v =? _), (gotFP v =? _); done.
  - case_bool_decide; [done|]. set (al := be_get _). set (rest := ztake (zlen b - 20) _).
    pose proof (be_get_bound (ztake (4 - 2) (zdrop 2 b))) as Hal. fold al in Hal.
    destruct (Z.ltb_spec (zlen rest) al); [done|].
    rewrite (go_slice_ok rest 0 al) by lia.
    set (tx := ztake (20 - 8) _).
    assert (forall r, is_panic (gresult (foreachAttr (length r) r (respAttr tx)) (mkRespVars None None None None)) = false) as Hf.
    { intros r. apply foreachAttr_no_panic; [apply respAttr_no_panic|lia]. }
    unfold gresult in Hf.
    destruct (al <? zlen rest); [set (r := ztake _ _)|set (r := rest)]; specialize (Hf r);
      destruct (foreachAttr _ r _ _) as [v [| |]]; try done;
      destruct (addr v) as [[]|], (fallbackAddr v) as [[]|], (addr6 v) as [[]|], (fallbackAddr6 v) as [[]|]; done.
Qed.
