(* ===== verification/RelayTransport.v ===== *)
(** The transport both ends of a relay connection share:
    [internal/relay/security_transporter.go], [internal/relay/write_packet.go]
    and the bodies of the read and write loops of
    [internal/relay/session_transporter.go] and
    [internal/relay/client_transporter.go].  A channel is the list of the
    values it holds and a closed flag. *)
From S2P Require Import Prelude Wire RelayCodec Noise PeerCodec.

(** ** Packets and queues *)

Record Packet := mkPacket { pk_Type : PacketType; pk_Message : Message }.

Definition queueSize : Z := 64.

Record securityTransporter := mkSecurityTransporter {
  st_codec : RelayCodec;
  st_chRead : list RawPacket;
  st_chReadClosed : bool;
  st_chWrite : list Packet;
  st_chWriteClosed : bool;
  st_cipher : option Cipher }.

Definition newSecurityTransporter : securityTransporter :=
  mkSecurityTransporter NewCodec [] false [] false None.

Definition SetCipher (c : Cipher) (s : securityTransporter) : securityTransporter :=
  mkSecurityTransporter (st_codec s) (st_chRead s) (st_chReadClosed s)
    (st_chWrite s) (st_chWriteClosed s) (Some c).
Definition set_codec (c : RelayCodec) (s : securityTransporter) : securityTransporter :=
  mkSecurityTransporter c (st_chRead s) (st_chReadClosed s)
    (st_chWrite s) (st_chWriteClosed s) (st_cipher s).
Definition set_chRead (q : list RawPacket) (s : securityTransporter) : securityTransporter :=
  mkSecurityTransporter (st_codec s) q (st_chReadClosed s)
    (st_chWrite s) (st_chWriteClosed s) (st_cipher s).
Definition set_chWrite (q : list Packet) (s : securityTransporter) : securityTransporter :=
  mkSecurityTransporter (st_codec s) (st_chRead s) (st_chReadClosed s)
    q (st_chWriteClosed s) (st_cipher s).
Definition close_chRead (s : securityTransporter) : securityTransporter :=
  mkSecurityTransporter (st_codec s) (st_chRead s) true
    (st_chWrite s) (st_chWriteClosed s) (st_cipher s).
Definition close_chWrite (s : securityTransporter) : securityTransporter :=
  mkSecurityTransporter (st_codec s) (st_chRead s) (st_chReadClosed s)
    (st_chWrite s) true (st_cipher s).

(** [select { case q <- p: return nil; default: err = full }] on the write
    queue: a send on a closed channel panics. *)
Definition try_enqueue (p : Packet) (full : error) : GoM securityTransporter unit := fun s =>
  if st_chWriteClosed s then (s, Panic "send on closed channel")
  else if zlen (st_chWrite s) <? queueSize then (set_chWrite (st_chWrite s ++ [p]) s, Ok tt)
  else (s, Err full).

(** ** Writing *)

Section Wire.
Context `{Proto}.

(** [writePacketHelper]: the bytes handed to [conn.Write] under the random
    [nonce].  Handshake messages travel in the clear. *)
Definition writePacketHelper (wp : Packet) (cipher : option Cipher) (nonce : Z) : result bytes :=
  data ← Marshal (pk_Message wp);
  let data :=
    if negb (pk_Type wp =? PacketType_Handshake) && negb (pk_Type wp =? PacketType_HandshakeAck)
    then match cipher with Some c => Encrypt c nonce data | None => data end
    else data in
  RelayCodec.Encode nonce (pk_Type wp) data.

(** One turn of the write loop: the packet at the head of the queue is
    taken and written. *)
Definition write_turn (nonce : Z) : GoM securityTransporter bytes := fun s =>
  match st_chWrite s with
  | [] => (s, Ok [])
  | wp :: rest => (set_chWrite rest s, writePacketHelper wp (st_cipher s) nonce)
  end.

(** One turn of the read loop: what [conn.Read] returned is decoded, and the
    packets are pushed to the read queue in order.  A push blocks while the
    queue holds 64 packets; the order does not depend on it. *)
Definition read_turn (input : bytes) : GoM securityTransporter unit := fun s =>
  match RelayCodec.Decode input (st_codec s) with
  | (c, Ok ps) => (set_chRead (st_chRead s ++ ps) (set_codec c s), Ok tt)
  | (c, Err e) => (set_codec c s, Err e)
  | (c, Panic w) => (set_codec c s, Panic w)
  end.

(** What both handlers do with a packet before calling the callback. *)
Definition open_payload (cipher : option Cipher) (p : RawPacket) : result Message :=
  payload ← match cipher with
            | Some c => Decrypt c (rp_Nonce p) (rp_Payload p)
            | None => Ok (rp_Payload p)
            end;
  Deserialize (rp_Type p) payload.

(** A sequence of packets written one after the other, each under its own
    nonce. *)
Fixpoint write_all (cipher : option Cipher) (wps : list (Z * Packet)) : result bytes :=
  match wps with
  | [] => Ok []
  | (nonce, wp) :: rest =>
    w ← writePacketHelper wp cipher nonce; ws ← write_all cipher rest; mret (w ++ ws)
  end.

(** ** Lemmas *)

(** A packet the registry knows, whose encoding leaves room for the tag. *)
Definition packet_typed (wp : Packet) : Prop :=
  sharedProtos (pk_Type wp) = Some (kind_of (pk_Message wp)).
Definition packet_fits (wp : Packet) : Prop :=
  exists bs, Marshal (pk_Message wp) = Ok bs /\ zlen bs + 16 <= MaxMessageSize.
Definition is_handshake (t : PacketType) : bool :=
  (t =? PacketType_Handshake) || (t =? PacketType_HandshakeAck).

Lemma Deserialize_known `{!ProtoOk} m t bs :
  sharedProtos t = Some (kind_of m) -> Marshal m = Ok bs -> Deserialize t bs = Ok m.
Proof.
  intros Ht Hm. pose proof (sharedProtos_range _ _ Ht) as Hr. unfold Deserialize.
  destruct (Z.leb_spec sharedProtos_len t); [lia|]. destruct (Z.ltb_spec t 0); [lia|].
  by rewrite Ht, (unmarshal_marshal m bs Hm).
Qed.

(** What one encrypted write puts on the wire. *)
Lemma writePacketHelper_sealed c n t m bs :
  CipherOk c -> 0 <= n < 2 ^ 32 -> sharedProtos t = Some (kind_of m) -> is_handshake t = false ->
  Marshal m = Ok bs -> zlen bs + 16 <= MaxMessageSize ->
  packet_ok 10 (mkRawPacket t n (Encrypt c n bs)) /\
  writePacketHelper (mkPacket t m) (Some c) n = Ok (frame (mkRawPacket t n (Encrypt c n bs))).
Proof.
  intros Hc Hn Ht Hh Hbs Hlen. pose proof (sharedProtos_range _ _ Ht) as Hr. unfold sharedProtos_len in Hr.
  pose proof (zlen_nonneg bs).
  assert (packet_ok 10 (mkRawPacket t n (Encrypt c n bs))) as Hok.
  { unfold packet_ok; cbn [rp_Nonce rp_Type rp_Payload]. rewrite (encrypt_tag n bs). lia. }
  split; [done|]. unfold writePacketHelper. cbn [pk_Message pk_Type]. rewrite Hbs. res_simpl.
  unfold is_handshake in Hh. apply orb_false_iff in Hh as [-> ->]. cbn [negb andb].
  apply (Encode_frame (mkRawPacket t n (Encrypt c n bs))). by apply (packet_ok_weaken 10).
Qed.
Lemma writePacketHelper_encrypted `{!ProtoOk} c n wp :
  CipherOk c -> 0 <= n < 2 ^ 32 -> packet_typed wp -> packet_fits wp ->
  is_handshake (pk_Type wp) = false ->
  exists p, writePacketHelper wp (Some c) n = Ok (frame p) /\ packet_ok 10 p /\
    rp_Type p = pk_Type wp /\ open_payload (Some c) p = Ok (pk_Message wp).
Proof.
  intros Hc Hn Ht (bs & Hbs & Hlen) Hh. destruct wp as [t m]. cbn [pk_Type pk_Message] in *.
  destruct (writePacketHelper_sealed c n t m bs) as [Hok Hw]; [done..|]. eexists. split_and!; [exact Hw|done|done|].
  unfold open_payload; cbn [rp_Nonce rp_Type rp_Payload]. rewrite decrypt_encrypt. res_simpl. by apply Deserialize_known.
Qed.

(** The clear write of a handshake packet. *)
Lemma writePacketHelper_clear `{!ProtoOk} oc n wp bs :
  0 <= n < 2 ^ 32 -> packet_typed wp -> is_handshake (pk_Type wp) = true ->
  Marshal (pk_Message wp) = Ok bs -> zlen bs <= MaxMessageSize ->
  writePacketHelper wp oc n = Ok (frame (mkRawPacket (pk_Type wp) n bs)) /\
  open_payload None (mkRawPacket (pk_Type wp) n bs) = Ok (pk_Message wp).
Proof.
  intros Hn Ht Hh Hbs Hlen.
  pose proof (sharedProtos_range _ _ Ht) as Hr. unfold sharedProtos_len in Hr. split.
  - unfold writePacketHelper. rewrite Hbs. res_simpl.
    unfold is_handshake in Hh.
    assert (negb (pk_Type wp =? PacketType_Handshake) && negb (pk_Type wp =? PacketType_HandshakeAck)
            = false) as -> by (rewrite <- negb_orb, Hh; done).
    apply (Encode_frame (mkRawPacket (pk_Type wp) n bs)).
    unfold packet_ok; cbn. pose proof (zlen_nonneg bs). lia.
  - unfold open_payload; cbn. by apply Deserialize_known.
Qed.

Lemma write_all_frames `{!ProtoOk} c (wps : list (Z * Packet)) :
  CipherOk c ->
  Forall (fun '(n, wp) => 0 <= n < 2 ^ 32 /\ packet_typed wp /\ packet_fits wp /\
                          is_handshake (pk_Type wp) = false) wps ->
  exists ps, write_all (Some c) wps = Ok (wire ps) /\ Forall (packet_ok 10) ps /\
    Forall2 (fun '(_, wp) p => rp_Type p = pk_Type wp /\
                               open_payload (Some c) p = Ok (pk_Message wp)) wps ps.
Proof.
  intros Hc. induction 1 as [|[n wp] wps (Hn & Ht & Hf & Hh) _ (ps & IHw & IHo & IH2)].
  - by exists [].
  - destruct (writePacketHelper_encrypted c n wp Hc Hn Ht Hf Hh) as (p & Hw & Hp & Hty & Hop).
    exists (p :: ps). split_and!; [|by constructor|by constructor].
    cbn [write_all]. rewrite Hw. res_simpl. rewrite IHw. done.
Qed.

End Wire.

(** ** Properties *)

(** End to end over one connection: whatever the sizes of
    the TCP reads, the receiving side gets exactly the packets the writing
    side put on the wire, in order, and with the same cipher opens each of
    them to the message that was sent. *)
Theorem relay_channel_delivers `{ProtoOk} (c : Cipher) (wps : list (Z * Packet))
    (w : bytes) (chunks : list bytes) :
  CipherOk c ->
  Forall (fun '(n, wp) => 0 <= n < 2 ^ 32 /\ packet_typed wp /\ packet_fits wp /\
                          is_handshake (pk_Type wp) = false) wps ->
  write_all (Some c) wps = Ok w -> chunks <> [] -> concat chunks = w ->
  exists c' ps, decode_all chunks NewCodec = (c', Ok ps) /\
    Forall2 (fun '(_, wp) p => rp_Type p = pk_Type wp /\
                               open_payload (Some c) p = Ok (pk_Message wp)) wps ps.
Proof.
  intros Hc Hwps Hw Hne Hcat.
  destruct (write_all_frames c wps Hc Hwps) as (ps & Hps & Hok & H2).
  rewrite Hw in Hps. injection Hps as ->.
  destruct (decode_all_sync chunks NewCodec ps Hok) as (c' & Hd & _).
  - rewrite Hcat. apply NewCodec_sync.
  - done.
  - by exists c', ps.
Qed.

(** ** Witness *)

Module TransportWitness.
#[local] Existing Instance Toy.proto.
#[local] Existing Instance Toy.proto_ok.

Definition beat (t : Z) : Packet := mkPacket PacketType_Heartbeat (MHeartbeat (mkPacketHeartbeat t)).
Definition sent : list (Z * Packet) := [(7, beat 5); (8, beat 6)].
Definition stream : bytes :=
  match write_all (Some Toy.cipher) sent with Ok w => w | _ => [] end.

Lemma relay_channel_delivers_witness :
  exists c' ps, decode_all [take 11 stream; drop 11 stream] NewCodec = (c', Ok ps) /\
    Forall2 (fun '(_, wp) p => rp_Type p = pk_Type wp /\
                               open_payload (Some Toy.cipher) p = Ok (pk_Message wp)) sent ps.
Proof.
  apply (relay_channel_delivers Toy.cipher sent stream [take 11 stream; drop 11 stream]).
  - apply Toy.cipher_ok.
  - constructor; [|constructor; [|constructor]];
      (split; [lia|split; [done|split; [|done]]]; eexists; split; [reflexivity|by vm_compute]).
  - by vm_compute.
  - done.
  - apply (eq_trans (f_equal (app (take 11 stream)) (app_nil_r _))). apply take_drop.
Defined.
End TransportWitness.
