(* ===== verification/Channel.v ===== *)
(** One direction of a connection between a node and a relay server, as its
    goroutines see it: the transporter that writes, the bytes under way, the
    transporter that reads ([internal/relay/security_transporter.go]), in any
    interleaving of sends, turns of the two goroutines and receives.  It
    implements a queue of messages. *)
From S2P Require Import Prelude Wire RelayCodec Noise PeerCodec RelayTransport.
#[local] Set Warnings "-clear-no-such-hyp".

Section Channel.
Context `{HP : Proto}.

(** The bytes in [cn_wire] are written and not read yet. *)
Record Connection := mkConnection {
  cn_sender : securityTransporter; cn_wire : bytes; cn_receiver : securityTransporter }.

(** A send, a turn of the write goroutine under a nonce, a turn of the read
    goroutine in which [conn.Read] returns [k] bytes, and the handler taking
    the next packet. *)
Inductive Action := ASend (p : Packet) | AWrite (nonce : Z) | ARead (k : nat) | AReceive.
Inductive Event := Accepted (p : Packet) | Refused | Delivered (p : Packet) | Broken.

Definition turn (a : Action) (c : Connection) : Connection * list Event :=
  let '(mkConnection s w r) := c in
  match a with
  | ASend p =>
    match try_enqueue p (EMsg "write buffer exceed") s with
    | (s', Ok _) => (mkConnection s' w r, [Accepted p])
    | (s', Err _) => (mkConnection s' w r, [Refused])
    | (s', Panic _) => (mkConnection s' w r, [Broken])
    end
  | AWrite nonce =>
    match write_turn nonce s with
    | (s', Ok b) => (mkConnection s' (w ++ b) r, [])
    | (s', _) => (mkConnection s' w r, [Broken])
    end
  | ARead k =>
    match read_turn (take k w) r with
    | (r', Ok _) => (mkConnection s (drop k w) r', [])
    | (r', _) => (mkConnection s (drop k w) r', [Broken])
    end
  | AReceive =>
    match st_chRead r with
    | [] => (c, [])
    | p :: rest =>
      match open_payload (st_cipher r) p with
      | Ok m => (mkConnection s w (set_chRead rest r), [Delivered (mkPacket (rp_Type p) m)])
      | _ => (mkConnection s w (set_chRead rest r), [Broken])
      end
    end
  end.
Fixpoint run (acts : list Action) (c : Connection) : Connection * list Event :=
  match acts with
  | [] => (c, [])
  | a :: acts => let '(c1, e1) := turn a c in let '(c2, e2) := run acts c1 in (c2, e1 ++ e2)
  end.
(** Both ends right after the handshake, under the same cipher. *)
Definition established (c : Cipher) : Connection :=
  mkConnection (SetCipher c newSecurityTransporter) [] (SetCipher c newSecurityTransporter).

(** ** The queue it implements *)

Definition accepted (es : list Event) : list Packet := flat_map (fun e => match e with Accepted p => [p] | _ => [] end) es.
Definition delivered (es : list Event) : list Packet := flat_map (fun e => match e with Delivered p => [p] | _ => [] end) es.
(** What the program sends: a message of a registered type, within the size of
    a packet, that is not part of the handshake. *)
Definition sendable (p : Packet) : Prop := packet_typed p /\ packet_fits p /\ is_handshake (pk_Type p) = false.
Definition act_ok (a : Action) : Prop :=
  match a with ASend p => sendable p | AWrite n => 0 <= n < 2 ^ 32 | _ => True end.

(** A packet on the wire that opens to [p]. *)
Definition seals (c : Cipher) (p : Packet) (raw : RawPacket) : Prop :=
  rp_Type raw = pk_Type p /\ open_payload (Some c) raw = Ok (pk_Message p).
(** The queue [q] of a connection under cipher [c]: what the handler has not
    taken, what is on the wire or half decoded, what is not written. *)
Definition holds (c : Cipher) (cn : Connection) (q : list Packet) : Prop :=
  st_cipher (cn_sender cn) = Some c /\ st_cipher (cn_receiver cn) = Some c /\ st_chWriteClosed (cn_sender cn) = false /\
  Forall sendable (st_chWrite (cn_sender cn)) /\
  exists q1 q2 raws, q = q1 ++ q2 ++ st_chWrite (cn_sender cn) /\
    Forall2 (seals c) q1 (st_chRead (cn_receiver cn)) /\
    Forall2 (seals c) q2 raws /\ Forall (packet_ok 10) raws /\
    in_sync (st_codec (cn_receiver cn)) (cn_wire cn) raws /\ quiescent (st_codec (cn_receiver cn)).

(** ** Lemmas *)

Lemma accepted_app a b : accepted (a ++ b) = accepted a ++ accepted b.
Proof. apply flat_map_app. Qed.
Lemma delivered_app a b : delivered (a ++ b) = delivered a ++ delivered b.
Proof. apply flat_map_app. Qed.

Lemma run_app a b cn : run (a ++ b) cn = ((run b (run a cn).1).1, (run a cn).2 ++ (run b (run a cn).1).2).
Proof.
  revert cn. induction a as [|x a IH]; intros cn; cbn [run app fst snd]; [by destruct (run b cn)|].
  destruct (turn x cn) as [c1 e1]. rewrite IH. destruct (run a c1) as [c2 e2]. cbn. by rewrite app_assoc.
Qed.

Lemma sync_more c rest raws p : in_sync c rest raws -> in_sync c (rest ++ frame p) (raws ++ [p]).
Proof.
  intros (H1 & H2 & H3). split; [done|]. split; [done|]. rewrite app_assoc, H3. unfold wire.
  rewrite map_app, concat_app. cbn. by rewrite app_nil_r.
Qed.
Lemma established_holds c : holds c (established c) [].
Proof.
  unfold holds. cbn. split_and!; [done..|]. exists [], [], []. split_and!; [done|by constructor|by constructor|by constructor| |].
  - exact (NewCodec_sync []).
  - by left.
Qed.

Lemma turn_holds `{!ProtoOk} c cn q a : CipherOk c -> act_ok a -> holds c cn q ->
  ~ In Broken (turn a cn).2 /\ exists q', holds c (turn a cn).1 q' /\ q ++ accepted (turn a cn).2 = delivered (turn a cn).2 ++ q'.
Proof.
  intros Hc Ha (Hs & Hr & Ho & Hw & q1 & q2 & raws & -> & H1 & H2 & Hok & Hsync & Hq). destruct cn as [s w r].
  cbn [cn_sender cn_receiver cn_wire] in *. destruct a as [p|n|k|]; cbn [turn].
  - unfold try_enqueue. rewrite Ho. destruct (_ <? _); cbn.
    + split; [by intros [[=]|[]]|]. exists ((q1 ++ q2 ++ st_chWrite s) ++ [p]). split; [|done].
      unfold holds; cbn. split_and!; [done|done|done|apply Forall_app; split; [done|by constructor]|]. exists q1, q2, raws. by rewrite <- !app_assoc.
    + split; [by intros [[=]|[]]|]. exists (q1 ++ q2 ++ st_chWrite s). split; [|by rewrite app_nil_r].
      unfold holds; cbn. split_and!; [done|done|done|done|]. by exists q1, q2, raws.
  - unfold write_turn. destruct (st_chWrite s) as [|wp rest] eqn:Hwr.
    + cbn. split; [by intros []|]. exists (q1 ++ q2 ++ []). split; [|by rewrite !app_nil_r]. unfold holds; cbn.
      rewrite Hwr, !app_nil_r. split_and!; [done|done|done|done|]. exists q1, q2, raws. by rewrite app_nil_r.
    + apply Forall_cons in Hw as [(Ht & Hf & Hh) Hrest]. rewrite Hs.
      destruct (writePacketHelper_encrypted c n wp Hc Ha Ht Hf Hh) as (p & -> & Hp & Hty & Hop). cbn.
      split; [by intros []|]. exists (q1 ++ q2 ++ wp :: rest). split; [|by rewrite app_nil_r].
      unfold holds; cbn. split_and!; [done|done|done|done|]. exists q1, (q2 ++ [wp]), (raws ++ [p]). split_and!; [by rewrite <- !app_assoc|done| | | |done].
      * apply Forall2_app; [done|]. by constructor.
      * apply Forall_app. split; [done|]. by constructor.
      * by apply sync_more.
  - unfold read_turn. rewrite <- (take_drop k w) in Hsync.
    destruct (Decode_sync (st_codec r) (take k w) (drop k w) raws Hok Hsync) as (raws1 & raws2 & c' & -> & -> & Hs' & Hq').
    apply Forall_app in Hok as [_ Hok2]. apply Forall2_app_inv_r in H2 as (q21 & q22 & H21 & H22 & ->). cbn.
    split; [by intros []|]. exists (q1 ++ (q21 ++ q22) ++ st_chWrite s). split; [|by rewrite app_nil_r].
    unfold holds; cbn. split_and!; [done|done|done|done|]. exists (q1 ++ q21), q22, raws2. split_and!; [by rewrite <- !app_assoc|by apply Forall2_app|done..].
  - destruct (st_chRead r) as [|raw rest] eqn:Hrd.
    + cbn. split; [by intros []|]. exists (q1 ++ q2 ++ st_chWrite s). split; [|by rewrite app_nil_r].
      unfold holds; cbn. rewrite Hrd. split_and!; [done|done|done|done|]. by exists q1, q2, raws.
    + inversion H1 as [|p raw' q1' rest' [Hty Hop] Hrest]; subst. rewrite Hr, Hop. cbn.
      split; [by intros [[=]|[]]|]. exists (q1' ++ q2 ++ st_chWrite s). split; [|rewrite Hty; by destruct p; rewrite app_nil_r].
      unfold holds; cbn. split_and!; [done|done|done|done|]. by exists q1', q2, raws.
Qed.

Lemma run_holds `{!ProtoOk} c acts : CipherOk c -> forall cn q, Forall act_ok acts -> holds c cn q ->
  ~ In Broken (run acts cn).2 /\ exists q', holds c (run acts cn).1 q' /\ q ++ accepted (run acts cn).2 = delivered (run acts cn).2 ++ q'.
Proof.
  intros Hc. induction acts as [|a acts IH]; intros cn q Ha Hh; [split; [by intros []|]; exists q; by rewrite app_nil_r|].
  apply Forall_cons in Ha as [Ha Has]. destruct (turn_holds c cn q a Hc Ha Hh) as (Hb1 & q1 & Hh1 & He1). cbn [run].
  destruct (turn a cn) as [c1 e1]. cbn [fst snd] in *. destruct (IH c1 q1 Has Hh1) as (Hb2 & q2 & Hh2 & He2).
  destruct (run acts c1) as [c2 e2]. cbn [fst snd] in *. split; [by intros [?|?]%in_app_iff|].
  exists q2. split; [done|]. by rewrite accepted_app, delivered_app, app_assoc, He1, <- !app_assoc, He2.
Qed.

(** A turn of both goroutines brings the oldest message to the reader. *)
Lemma quiet_turn `{!ProtoOk} c cn q a : CipherOk c -> act_ok a -> match a with AWrite _ | ARead _ => True | _ => False end ->
  holds c cn q -> (turn a cn).2 = [] /\ holds c (turn a cn).1 q.
Proof.
  intros Hc Ha Hk Hh. destruct (turn_holds c cn q a Hc Ha Hh) as (Hb & q' & Hh' & He).
  assert ((turn a cn).2 = [] \/ (turn a cn).2 = [Broken]) as [Hes|Hes].
  { destruct cn as [s w r], a as [p|n|k|]; try done; cbn [turn].
    - destruct (write_turn n s) as [s' [b|e|v]]; auto.
    - destruct (read_turn (take k w) r) as [r' [[]|e|v]]; auto. }
  - rewrite Hes in *. cbn in He. rewrite app_nil_r in He. by subst q'.
  - rewrite Hes in Hb. destruct Hb. by left.
Qed.
Lemma brought `{!ProtoOk} c cn p q : CipherOk c -> holds c cn (p :: q) ->
  exists acts, Forall act_ok acts /\ (run acts cn).2 = [] /\ holds c (run acts cn).1 (p :: q) /\
    st_chRead (cn_receiver (run acts cn).1) <> [].
Proof.
  intros Hc Hh. destruct (quiet_turn c cn (p :: q) (AWrite 0) Hc ltac:(cbn; lia) I Hh) as [He1 Hh1].
  assert (length (st_chWrite (cn_sender (turn (AWrite 0) cn).1)) <= length q)%nat as Hlen.
  { destruct Hh as (_ & _ & _ & _ & q1 & q2 & raws & Hq & _). apply (f_equal length) in Hq. cbn in Hq. rewrite !length_app in Hq.
    destruct cn as [s w r]. cbn [turn cn_sender] in *. unfold write_turn in *. destruct (st_chWrite s) as [|wp rest] eqn:Hw.
    - cbn. rewrite Hw. cbn. lia.
    - cbn in Hq. destruct (writePacketHelper _ _ _); cbn; lia. }
  set (cn1 := (turn (AWrite 0) cn).1) in *. set (k := length (cn_wire cn1)).
  destruct (quiet_turn c cn1 (p :: q) (ARead k) Hc I I Hh1) as [He2 Hh2].
  exists [AWrite 0; ARead k]. split; [by repeat constructor|].
  assert ((run [AWrite 0; ARead k] cn) = ((turn (ARead k) cn1).1, [])) as ->.
  { cbn [run]. subst cn1. destruct (turn (AWrite 0) cn) as [c1 e1]. cbn [fst snd] in *. subst e1.
    destruct (turn (ARead k) c1) as [c2 e2]. cbn [fst snd] in *. by subst e2. }
  split; [done|]. split; [done|]. cbn [fst]. destruct Hh2 as (_ & _ & _ & _ & q1 & q2 & raws & Hq & H1 & H2 & Hok & Hsync & Hqu).
  assert (cn_wire (turn (ARead k) cn1).1 = [] /\ st_chWrite (cn_sender (turn (ARead k) cn1).1) = st_chWrite (cn_sender cn1)) as [Hw Hs].
  { subst k. destruct cn1 as [s w r]. cbn [turn cn_wire cn_sender]. destruct (read_turn _ r) as [r' [[]|e|v]]; cbn; by rewrite drop_all. }
  rewrite Hw in Hsync. destruct (quiescent_done _ _ Hok Hsync Hqu) as [-> _]. apply Forall2_nil_inv_r in H2 as ->.
  intros Hnil. rewrite Hnil in H1. apply Forall2_nil_inv_r in H1 as ->. apply (f_equal length) in Hq. rewrite Hs in Hq. cbn in Hq. lia.
Qed.
(** Everything in the queue can be delivered. *)
Lemma drains `{!ProtoOk} c q : CipherOk c -> forall cn, holds c cn q ->
  exists acts, Forall act_ok acts /\ accepted (run acts cn).2 = [] /\ delivered (run acts cn).2 = q.
Proof.
  intros Hc. induction q as [|p q IH]; intros cn Hh; [by exists []|].
  destruct (brought c cn p q Hc Hh) as (acts & Ha & He & Hh1 & Hr).
  destruct (run acts cn) as [cn1 e1] eqn:Hrun. cbn [fst snd] in *. subst e1.
  destruct (turn_holds c cn1 (p :: q) AReceive Hc I Hh1) as (Hb & q' & Hh2 & Heq).
  assert (exists x, (turn AReceive cn1).2 = [Delivered x]) as [x Hx].
  { destruct cn1 as [s w r]. cbn [turn cn_receiver] in *. destruct (st_chRead r) as [|raw rest]; [done|].
    destruct (open_payload _ raw) as [m|e|v]; [by eexists|..]; (destruct Hb; by left). }
  rewrite Hx in Heq. cbn in Heq. rewrite app_nil_r in Heq. injection Heq as <- <-.
  destruct (IH _ Hh2) as (acts2 & Ha2 & Hac & Hde). exists (acts ++ AReceive :: acts2).
  split; [apply Forall_app; split; [done|by constructor]|].
  assert ((run (acts ++ AReceive :: acts2) cn).2 = Delivered p :: (run acts2 (turn AReceive cn1).1).2) as ->.
  { rewrite run_app, Hrun. cbn [run fst snd]. destruct (turn AReceive cn1) as [cn2 e2]. cbn [fst snd] in *. subst e2.
    by destruct (run acts2 cn2). }
  split; [exact Hac|]. change (p :: delivered (run acts2 (turn AReceive cn1).1).2 = p :: q). by rewrite Hde.
Qed.
End Channel.

(** ** Property *)

Section Property.
Context `{HP : Proto} `{HPok : !ProtoOk}.

End Property.

(** ** Witness *)

Module ChannelExample.
#[local] Existing Instance Toy.proto.
#[local] Existing Instance Toy.proto_ok.
Import TransportWitness.

(** Two heartbeats, the first read in two pieces, and a third that waits. *)
Definition acts : list Action :=
  [ASend (beat 5); ASend (beat 6); AWrite 7; ARead 11; AReceive; AWrite 8; ARead 100; AReceive; ASend (beat 7)].
Lemma beat_sendable t : packet_fits (beat t) -> sendable (beat t).
Proof. intros Hf. by split_and!. Qed.
Lemma acts_fine : Forall act_ok acts.
Proof. repeat constructor; try lia; apply beat_sendable; (eexists; split; [reflexivity|by vm_compute]). Qed.

End ChannelExample.
