(* ===== verification/RelaySession.v ===== *)
(** The relay server's sessions: [internal/relay/session.go],
    [internal/relay/session_transporter.go],
    [internal/relay/session_handler.go] and [internal/relay/server.go].

    Sessions are shared objects: the server's [sessions] map, the goroutines
    of the session and the callbacks of other sessions all hold the same
    pointer.  They live in a heap of locations. *)
From S2P Require Import Prelude Wire RelayCodec Noise PeerCodec Credential RelayTransport GoTime.

(** ** Sessions *)

Inductive SessionState := SessionStateInit | SessionStateRunning.
#[export] Instance SessionState_eq_dec : EqDecision SessionState.
Proof. solve_decision. Defined.

Abbreviation loc := nat (only parsing).

(** [Session] with its transporter; [trClosed] is the [closed] flag of
    [sessionTransporterImpl], set when the connection is closed. *)
Record Session := mkSession {
  transporter : securityTransporter;
  trClosed : bool;
  userID : UserID;
  peerID : PeerID;
  vaddress : bytes;
  isPrimary : bool;
  state : SessionState;
  closed : bool;
  lastHeartbeatAt : Z;
  lastSyncAt : Z }.

Definition newSession : Session :=
  mkSession newSecurityTransporter false 0 0 [] false SessionStateInit false ZeroTime ZeroTime.

Definition set_transporter (t : securityTransporter) (s : Session) : Session :=
  mkSession t (trClosed s) (userID s) (peerID s) (vaddress s) (isPrimary s) (state s)
    (closed s) (lastHeartbeatAt s) (lastSyncAt s).
(** [SetState], [SetUserID], [SetPeerID], [SetVAddress], [SetIsPrimary], as
    [onHandshake] calls them in a row. *)
Definition set_identity (u : UserID) (p : PeerID) (ip : bytes) (primary : bool) (s : Session) : Session :=
  mkSession (transporter s) (trClosed s) u p ip primary SessionStateRunning
    (closed s) (lastHeartbeatAt s) (lastSyncAt s).
Definition set_closed (s : Session) : Session :=
  mkSession (transporter s) (trClosed s) (userID s) (peerID s) (vaddress s) (isPrimary s) (state s)
    true (lastHeartbeatAt s) (lastSyncAt s).
Definition set_trClosed (s : Session) : Session :=
  mkSession (transporter s) true (userID s) (peerID s) (vaddress s) (isPrimary s) (state s)
    (closed s) (lastHeartbeatAt s) (lastSyncAt s).
Definition SetHeartbeatAt (t : Z) (s : Session) : Session :=
  mkSession (transporter s) (trClosed s) (userID s) (peerID s) (vaddress s) (isPrimary s) (state s)
    (closed s) t (lastSyncAt s).
Definition SetSyncAt (t : Z) (s : Session) : Session :=
  mkSession (transporter s) (trClosed s) (userID s) (peerID s) (vaddress s) (isPrimary s) (state s)
    (closed s) (lastHeartbeatAt s) t.

Definition ses_cipher (s : Session) : option Cipher := st_cipher (transporter s).

(** ** The server *)

(** [Server]: [sessions] maps a peer to the location of its session;
    [publicKey] is the key that verifies credentials. *)
Record Server := mkServer {
  running : bool;
  srv_closed : bool;
  publicKey : Signature;
  heartbeatInterval : Z;
  sessions : gmap Z loc;
  heap : gmap loc Session }.

Definition NewServer (interval : Z) (key : Signature) : Server :=
  mkServer false false key interval ∅ ∅.

Definition set_sessions (m : gmap Z loc) (s : Server) : Server :=
  mkServer (running s) (srv_closed s) (publicKey s) (heartbeatInterval s) m (heap s).
Definition set_heap (h : gmap loc Session) (s : Server) : Server :=
  mkServer (running s) (srv_closed s) (publicKey s) (heartbeatInterval s) (sessions s) h.
Definition SetRSAPublicKey (k : Signature) (s : Server) : Server :=
  mkServer (running s) (srv_closed s) k (heartbeatInterval s) (sessions s) (heap s).
Definition set_srv_closed (s : Server) : Server :=
  mkServer (running s) true (publicKey s) (heartbeatInterval s) (sessions s) (heap s).

(** [*l]: reading and writing through a session pointer. *)
Definition deref (l : loc) : GoM Server Session := fun s =>
  match heap s !! l with
  | Some ses => (s, Ok ses)
  | None => (s, Panic "invalid memory address or nil pointer dereference")
  end.
Definition update (l : loc) (f : Session -> Session) : GoM Server unit :=
  gmodify (fun s => set_heap (alter f l (heap s)) s).

(** [Server.Session(peerID)]. *)
Definition Session_ (p : PeerID) (s : Server) : option loc := sessions s !! p.

(** [sync.Map.Range] over the keys in [order]: an entry deleted before the
    iteration reaches it is skipped. *)
Definition ForeachSession (order : list PeerID) (fn : loc -> GoM Server unit) : GoM Server unit :=
  gfor order (fun p =>
    s ← gget;
    match sessions s !! p with Some l => fn l | None => mret tt end).

(** [OnSessionClosed]. *)
Definition OnSessionClosed (l : loc) : GoM Server unit :=
  s ← gget;
  if srv_closed s then mret tt
  else
    ses ← deref l;
    if peerID ses =? 0 then mret tt
    else gmodify (fun s => set_sessions (delete (peerID ses) (sessions s)) s).

(** [Session.Close]. *)
Definition Close (l : loc) : GoM Server unit :=
  ses ← deref l;
  if closed ses then gthrow (EMsg "close a closed Session")
  else
    _ ← update l set_closed;
    _ ← OnSessionClosed l;
    ses ← deref l;
    if trClosed ses then gthrow (EMsg "close a closed session transporter")
    else update l set_trClosed.

(** [OnSessionHandshake]. *)
Definition OnSessionHandshake (l : loc) : GoM Server unit :=
  s ← gget;
  if srv_closed s then mret tt
  else
    ses ← deref l;
    if peerID ses =? 0 then mret tt
    else
      s ← gget;
      _ ← match sessions s !! peerID ses with
          | Some old => gignore (Close old)
          | None => mret tt
          end;
      gmodify (fun s => set_sessions (<[peerID ses := l]> (sessions s)) s).

(** [Session.Send].  The recovered panic of a closed queue is the error. *)
Definition Send (l : loc) (typ : PacketType) (msg : Message) : GoM Server unit :=
  ses ← deref l;
  if closed ses then gthrow (EMsg "cannot send message to closed session")
  else
    grecover (fun s =>
      match try_enqueue (mkPacket typ msg) (EMsg "write buffer exceed") (transporter ses) with
      | (t, r) => (set_heap (alter (set_transporter t) l (heap s)) s, r)
      end).

(** [Server.Close], up to [wg.Wait]. *)
Definition Server_Close (order : list PeerID) : GoM Server unit :=
  s ← gget;
  if srv_closed s then gthrow (EMsg "close a closed server")
  else
    _ ← gmodify set_srv_closed;
    ForeachSession order (fun l => gignore (Close l)).

(** The part of [Server.Serve] that runs for each accepted connection. *)
Definition accept : GoM Server loc := fun s =>
  let l := fresh (dom (heap s)) in
  (set_heap (<[l := newSession]> (heap s)) s, Ok l).

(** ** The handler *)

Section Handler.
Context `{Proto} {HS : Type} `{Handshake HS}.

(** What a callback takes from its environment: the clock and a fresh
    handshake state ([noise.NewHandshakeState], which may fail). *)
Record Env := mkEnv { env_now : Z; env_hs : result HS }.

Definition SessionCallback : Type := loc -> PacketType -> Message -> GoM Server unit.
(** [sessionHandler.callbacks]. *)
Definition Callbacks : Type := PacketType -> option SessionCallback.
Definition On (typ : PacketType) (cb : SessionCallback) (h : Callbacks) : Callbacks :=
  fun t => if t =? typ then Some cb else h t.

Definition onHandshake (env : Env) : SessionCallback := fun l _ msg =>
  match msg with
  | MHandshake hs =>
    st ← glift (env_hs env);
    credentials ← glift (hs_read1 st (hs_Message hs));
    s ← gget;
    v ← glift (VerifyCredential (H := publicKey s) (env_now env) credentials);
    match v with
    | None => gthrow (EMsg "invalid credentials")
    | Some (u, p, ip) =>
      '(out, es) ← glift (hs_write2 st (hs_Message hs) (Duration_String (heartbeatInterval s)));
      _ ← update l (fun ses => set_transporter (SetCipher es (transporter ses)) ses);
      _ ← update l (set_identity u p ip (hs_IsPrimary hs));
      _ ← OnSessionHandshake l;
      Send l PacketType_HandshakeAck (MHandshakeAck (mkPacketHandshakeAck out))
    end
  | _ => gpanic "interface conversion"
  end.

Definition onHeartbeat : SessionCallback := fun l typ msg =>
  match msg with
  | MHeartbeat hb =>
    let ts := hb_Timestamp hb in
    _ ← update l (SetHeartbeatAt (time_unix (go_div ts Second) (go_rem ts Second)));
    Send l typ msg
  | _ => gpanic "interface conversion"
  end.

(** [NewSessionHandler]. *)
Definition NewSessionHandler (env : Env) : Callbacks :=
  On PacketType_Heartbeat onHeartbeat (On PacketType_Handshake (onHandshake env) (fun _ => None)).

(** [sessionHandler.Handle]. *)
Definition Handle (h : Callbacks) (l : loc) (packet : RawPacket) : GoM Server unit :=
  let typ := rp_Type packet in
  ses ← deref l;
  if bool_decide (state ses = SessionStateInit) && negb (typ =? PacketType_Handshake)
  then gthrow (EMsg "only handshake message valid")
  else
    match h typ with
    | None => gthrow (EMsg "message cannot be handled")
    | Some cb =>
      match state ses, ses_cipher ses with
      | SessionStateRunning, None => gthrow (EMsg "cipher shouldn't be empty when running state")
      | _, cipher =>
        payload ← match cipher with
                  | None => mret (rp_Payload packet)
                  | Some c =>
                    match Decrypt c (rp_Nonce packet) (rp_Payload packet) with
                    | Ok p => mret p
                    | Err e => gthrow (EWrap "decrypt the payload is failed" e)
                    | Panic w => gpanic w
                    end
                  end;
        msg ← glift (Deserialize typ payload);
        cb l typ msg
      end
    end.

(** One turn of [Session.Serve]: the packet at the head of the read queue is
    handled, an error is logged and a panic ends the session. *)
Definition Serve_turn (h : Callbacks) (l : loc) : GoM Server unit :=
  ses ← deref l;
  match st_chRead (transporter ses) with
  | [] => if st_chReadClosed (transporter ses) then gignore (Close l) else mret tt
  | p :: rest =>
    _ ← update l (fun ses => set_transporter (set_chRead rest (transporter ses)) ses);
    gguard (Handle h l p) (gignore (Close l))
  end.

(** One turn of the write goroutine; an error ends it, which closes the
    transporter and the queue. *)
Definition Write_turn (l : loc) (nonce : Z) : GoM Server bytes := fun s =>
  match heap s !! l with
  | None => (s, Panic "invalid memory address or nil pointer dereference")
  | Some ses =>
    match write_turn nonce (transporter ses) with
    | (t, Ok w) => (set_heap (<[l := set_transporter t ses]> (heap s)) s, Ok w)
    | (t, Err _) | (t, Panic _) =>
      (set_heap (<[l := set_trClosed (set_transporter (close_chWrite t) ses)]> (heap s)) s, Ok [])
    end
  end.

(** One turn of the read goroutine; an error ends it, which closes the
    transporter and the queue. *)
Definition Read_turn (l : loc) (input : result bytes) : GoM Server unit := fun s =>
  match heap s !! l with
  | None => (s, Panic "invalid memory address or nil pointer dereference")
  | Some ses =>
    match input with
    | Ok b =>
      match read_turn b (transporter ses) with
      | (t, Ok _) => (set_heap (<[l := set_transporter t ses]> (heap s)) s, Ok tt)
      | (t, Err _) | (t, Panic _) =>
        (set_heap (<[l := set_trClosed (set_transporter (close_chRead t) ses)]> (heap s)) s, Ok tt)
      end
    | Err _ | Panic _ =>
      (set_heap (<[l := set_trClosed (set_transporter (close_chRead (transporter ses)) ses)]> (heap s)) s, Ok tt)
    end
  end.

End Handler.
Arguments Env HS : clear implicits.

(** ** Well-formed servers *)

(** The identity of a session is one a credential valid under one of the
    portal's keys attested. *)
Definition authentic (keys : list Signature) (s : Session) : Prop :=
  exists k now cred, In k keys /\
    VerifyCredential (H := k) now cred = Ok (Some (userID s, peerID s, vaddress s)).

Definition session_wf (keys : list Signature) (s : Session) : Prop :=
  (state s = SessionStateRunning -> is_Some (ses_cipher s) /\ authentic keys s) /\
  zlen (st_chWrite (transporter s)) <= queueSize.

Definition heap_wf (keys : list Signature) (s : Server) : Prop :=
  In (publicKey s) keys /\ forall l ses, heap s !! l = Some ses -> session_wf keys ses.

(** [p] showed a credential valid under one of the portal's keys. *)
Definition attested (keys : list Signature) (p : PeerID) : Prop :=
  exists k now cred u ip, In k keys /\ VerifyCredential (H := k) now cred = Ok (Some (u, p, ip)).
Lemma authentic_attested keys s : authentic keys s -> attested keys (peerID s).
Proof. intros (k & now & cred & Hk & HV). by exists k, now, cred, (userID s), (vaddress s). Qed.

(** [sessions] only holds sessions that completed the handshake, under names
    that were attested. *)
Definition sessions_wf (keys : list Signature) (s : Server) : Prop :=
  forall p l, sessions s !! p = Some l ->
    (p <> 0 /\ attested keys p) /\ exists ses, heap s !! l = Some ses /\ state ses = SessionStateRunning.

Definition server_wf (keys : list Signature) (s : Server) : Prop :=
  heap_wf keys s /\ sessions_wf keys s.

(** The session at [l] has completed the handshake. *)
Definition running_at (l : loc) (s : Server) : Prop :=
  exists ses, heap s !! l = Some ses /\ state ses = SessionStateRunning.

(** A change of a session that touches neither its identity, its cipher nor
    its state, and keeps its write queue within bounds. *)
Definition benign_to (s s' : Session) : Prop :=
  state s' = state s /\ ses_cipher s' = ses_cipher s /\
  userID s' = userID s /\ peerID s' = peerID s /\ vaddress s' = vaddress s /\
  (zlen (st_chWrite (transporter s)) <= queueSize ->
   zlen (st_chWrite (transporter s')) <= queueSize).
Definition benign (f : Session -> Session) : Prop := forall s, benign_to s (f s).

Lemma benign_set_closed : benign set_closed.
Proof. done. Qed.
Lemma benign_set_trClosed : benign set_trClosed.
Proof. done. Qed.
Lemma benign_SetHeartbeatAt t : benign (SetHeartbeatAt t).
Proof. done. Qed.
Lemma benign_SetSyncAt t : benign (SetSyncAt t).
Proof. done. Qed.
Create HintDb session.
#[export] Hint Resolve benign_set_closed benign_set_trClosed benign_SetHeartbeatAt benign_SetSyncAt
  : session.

(** An attempt to queue a packet keeps the queue within its capacity. *)
Lemma benign_enqueue p full :
  benign (fun ses => set_transporter (fst (try_enqueue p full (transporter ses))) ses).
Proof.
  intros s. unfold try_enqueue. destruct (st_chWriteClosed _); [done|].
  destruct (Z.ltb_spec (zlen (st_chWrite (transporter s))) queueSize); [|done].
  split_and!; try done. intros _. cbn. rewrite zlen_app. unfold zlen at 2. cbn. lia.
Qed.

Lemma benign_wf keys ses ses' : benign_to ses ses' -> session_wf keys ses -> session_wf keys ses'.
Proof.
  intros (Hs & Hc & Hu & Hp & Hv & Hq) [H1 H2]. split; [|auto].
  intros Hr. rewrite Hs in Hr. destruct (H1 Hr) as [Hci (k & now & cred & Hk & Hcr)].
  split; [by rewrite Hc|]. exists k, now, cred. by rewrite Hu, Hp, Hv.
Qed.

Lemma running_at_insert l l' ses' s :
  (state ses' = SessionStateRunning \/ exists ses, heap s !! l = Some ses /\ state ses' = state ses) ->
  running_at l' s -> running_at l' (set_heap (<[l := ses']> (heap s)) s).
Proof.
  intros Hst (ses0 & Hl & Hr). unfold running_at; cbn. destruct (decide (l = l')) as [<-|Hne].
  - exists ses'. rewrite lookup_insert_eq. split; [done|].
    destruct Hst as [|(ses & Hl' & ->)]; [done|]. by simplify_eq.
  - exists ses0. by rewrite lookup_insert_ne.
Qed.

(** *** Every operation preserves the invariant *)

(** The predicates the session operations keep: the server invariant, and
    that the given sessions have completed the handshake. *)
Definition server_inv (keys : list Signature) (ls : list loc) (s : Server) : Prop :=
  server_wf keys s /\ forall l, In l ls -> running_at l s.

Section Invariant.
Context (keys : list Signature) (ls : list loc).
Abbreviation INV := (server_inv keys ls).

Lemma pres_deref l : gpreserves INV (deref l).
Proof. intros s Hs. unfold gstate, deref. by destruct (heap s !! l). Qed.

(** Storing a well-formed session whose state is the old one's, or which has
    completed the handshake. *)
Lemma inv_insert l ses' s :
  (state ses' = SessionStateRunning \/ exists ses, heap s !! l = Some ses /\ state ses' = state ses) ->
  session_wf keys ses' -> INV s -> INV (set_heap (<[l := ses']> (heap s)) s).
Proof.
  intros Hst Hw [[[Hk Hh] Hs] Hl]. split; [split; [split; [done|]|]|].
  - intros l' ses0. cbn. rewrite lookup_insert_Some. intros [[_ <-]|[_ Hq]]; [done|by apply (Hh l')].
  - intros p l' Hp. destruct (Hs p l' Hp) as [Ha Hr]. split; [done|]. by apply running_at_insert.
  - intros l' Hl'. apply running_at_insert; [done|]. by apply Hl.
Qed.

Lemma inv_set_session l ses ses' s :
  heap s !! l = Some ses -> benign_to ses ses' -> INV s -> INV (set_heap (<[l := ses']> (heap s)) s).
Proof.
  intros Hl Hb Hs. apply inv_insert; [|eapply benign_wf; [done|]|done].
  - right. exists ses. split; [done|]. by destruct Hb.
  - destruct Hs as [[[_ Hh] _] _]. by apply (Hh l).
Qed.

Lemma alter_is_insert (h : gmap loc Session) (f : Session -> Session) l :
  alter f l h = match h !! l with Some ses => <[l := f ses]> h | None => h end.
Proof.
  destruct (h !! l) as [ses|] eqn:Hl; [|by apply alter_id; intros x; rewrite Hl].
  apply map_eq. intros l'. destruct (decide (l = l')) as [<-|Hne].
  - by rewrite lookup_insert_eq, lookup_alter_eq, Hl.
  - by rewrite lookup_insert_ne, lookup_alter_ne.
Qed.

Lemma pres_update l f : benign f -> gpreserves INV (update l f).
Proof.
  intros Hf s Hs. unfold gstate, update, gmodify; cbn [fst]. rewrite alter_is_insert.
  destruct (heap s !! l) as [ses|] eqn:Hl; [by apply (inv_set_session l ses)|by destruct s].
Qed.

Lemma pres_delete p : gpreserves INV (gmodify (fun s => set_sessions (delete p (sessions s)) s)).
Proof.
  intros s [[Hh Hs] Hk]. split; [split; [done|]|done].
  intros q l. cbn. rewrite lookup_delete_Some. intros [_ Hq]. by apply (Hs q).
Qed.
#[local] Hint Resolve pres_deref pres_update pres_delete : gpres.
#[local] Hint Extern 1 (benign _) => solve [eauto with session] : gpres.

Lemma pres_OnSessionClosed l : gpreserves INV (OnSessionClosed l).
Proof using Type. unfold OnSessionClosed. gpres. Qed.
#[local] Hint Resolve pres_OnSessionClosed : gpres.

Lemma pres_Close l : gpreserves INV (Close l).
Proof. unfold Close. gpres. Qed.
#[local] Hint Resolve pres_Close : gpres.

Lemma pres_Send l typ msg : gpreserves INV (Send l typ msg).
Proof.
  unfold Send. intros s Hs. unfold gstate, mbind, gom_bind, deref.
  destruct (heap s !! l) as [ses|] eqn:Hl; [|done]. destruct (closed ses); [done|].
  pose proof (pres_update l _ (benign_enqueue (mkPacket typ msg) (EMsg "write buffer exceed")) s Hs) as Hp.
  unfold gstate, update, gmodify in Hp; cbn [fst] in Hp.
  unfold grecover. destruct (try_enqueue _ _ (transporter ses)) as [t r] eqn:Ht.
  rewrite (alter_ext _ (set_transporter t)) in Hp by (intros x Hx; simplify_eq; by rewrite Ht).
  by destruct r.
Qed.
#[local] Hint Resolve pres_Send : gpres.

Lemma pres_Foreach order fn : (forall l, gpreserves INV (fn l)) -> gpreserves INV (ForeachSession order fn).
Proof using Type. intros Hfn. unfold ForeachSession. gpres. Qed.

Lemma pres_Server_Close order : gpreserves INV (Server_Close order).
Proof.
  unfold Server_Close. gpres. apply pres_Foreach. intros l. gpres.
Qed.

Lemma pres_store p l :
  In l ls -> p <> 0 -> attested keys p -> gpreserves INV (gmodify (fun s => set_sessions (<[p := l]> (sessions s)) s)).
Proof.
  intros Hl Hp Ha s [[Hh Hs] Hk]. split; [split; [done|]|done].
  intros q l'. cbn. rewrite lookup_insert_Some. intros [[<- <-]|[_ Hq]]; [split; [done|]; by apply Hk|by apply (Hs q)].
Qed.

(** A session is only registered when it has completed the handshake, under
    the name its credential gave it. *)
Lemma pres_OnSessionHandshake l : In l ls -> gpreserves INV (OnSessionHandshake l).
Proof.
  intros Hl s Hs. unfold gstate, OnSessionHandshake. cbv [mbind gom_bind gget]. destruct (srv_closed s); [done|].
  pose proof Hs as [[[_ Hh] _] Hr]. destruct (Hr l Hl) as (ses & Hses & Hrun). unfold deref at 1. rewrite Hses.
  destruct (Z.eqb_spec (peerID ses) 0) as [|Hp]; [done|].
  destruct (Hh l ses Hses) as [Hw _]. destruct (Hw Hrun) as [_ Ha%authentic_attested].
  pose proof (pres_store (peerID ses) l Hl Hp Ha) as Hst.
  enough (gpreserves INV (_ ← match sessions s !! peerID ses with Some old => gignore (Close old) | None => mret tt end;
    gmodify (fun s => set_sessions (<[peerID ses := l]> (sessions s)) s))) as Hg by exact (Hg s Hs).
  gpres.
Qed.

Lemma pres_accept : gpreserves INV accept.
Proof.
  intros s [[[Hk Hh] Hs] Hl]. unfold gstate, accept; cbn [fst].
  set (l := fresh (dom (heap s))).
  assert (heap s !! l = None) as Hf by (apply not_elem_of_dom, is_fresh).
  assert (forall l', running_at l' s -> running_at l' (set_heap (<[l := newSession]> (heap s)) s)) as Hr.
  { intros l' (ses & H1 & H2). exists ses. split; [|done]. cbn. rewrite lookup_insert_ne; [done|]. congruence. }
  split; [split; [split; [done|]|]|]; cbn; [|intros p l' Hp; destruct (Hs p l' Hp) as [Ha Hrun]; split; [exact Ha|by apply Hr]|auto].
  intros l' ses. rewrite lookup_insert_Some. intros [[<- <-]|[_ Hq]]; [|by apply (Hh l')].
  split; [done|]. unfold zlen, queueSize; cbn; lia.
Qed.


(** *** The goroutines of a session *)

Lemma benign_write_turn `{Proto} nonce ses : benign_to ses (set_transporter (fst (write_turn nonce (transporter ses))) ses).
Proof.
  unfold write_turn. destruct (st_chWrite (transporter ses)) as [|wp rest] eqn:Hq; [done|].
  split_and!; try done. rewrite Hq. intros Hl. cbn. rewrite zlen_cons in Hl. lia.
Qed.

Lemma benign_read_turn input ses : benign_to ses (set_transporter (fst (read_turn input (transporter ses))) ses).
Proof. unfold read_turn. by destruct (RelayCodec.Decode input _) as [c [| |]]. Qed.

Lemma benign_dequeue rest : benign (fun ses => set_transporter (set_chRead rest (transporter ses)) ses).
Proof. done. Qed.
#[local] Hint Resolve benign_dequeue : session.

Lemma pres_Write_turn `{Proto} l nonce : gpreserves INV (Write_turn l nonce).
Proof.
  intros s Hs. unfold gstate, Write_turn. destruct (heap s !! l) as [ses|] eqn:Hl; [|done].
  pose proof (benign_write_turn nonce ses) as Hb.
  destruct (write_turn nonce _) as [t [| |]]; cbn [fst] in *; by apply (inv_set_session l ses).
Qed.

Lemma pres_Read_turn l input : gpreserves INV (Read_turn l input).
Proof.
  intros s Hs. unfold gstate, Read_turn. destruct (heap s !! l) as [ses|] eqn:Hl; [|done].
  destruct input as [b| |]; [|by apply (inv_set_session l ses)..].
  pose proof (benign_read_turn b ses) as Hb.
  destruct (read_turn b _) as [t [| |]]; cbn [fst] in *; by apply (inv_set_session l ses).
Qed.

End Invariant.
#[export] Hint Resolve pres_deref pres_update pres_delete pres_OnSessionClosed pres_Close pres_Send
  pres_Foreach pres_Server_Close pres_accept pres_Write_turn pres_Read_turn : gpres.
#[export] Hint Extern 1 (benign _) => solve [eauto with session] : gpres.
#[export] Hint Resolve benign_dequeue : session.

(** What the server's handler needs from a callback: the invariant, for any
    sessions known to have completed the handshake. *)
Definition callback_ok (cb : SessionCallback) : Prop :=
  forall keys ls l typ msg, gpreserves (server_inv keys ls) (cb l typ msg).
Definition callbacks_ok (h : Callbacks) : Prop := forall typ cb, h typ = Some cb -> callback_ok cb.

Lemma callbacks_ok_On typ cb h : callback_ok cb -> callbacks_ok h -> callbacks_ok (On typ cb h).
Proof.
  intros Hcb Hh t cb'. unfold On. destruct (t =? typ); [by intros [= <-]|apply Hh].
Qed.
Lemma callbacks_ok_nil : callbacks_ok (fun _ => None).
Proof. done. Qed.

Lemma callback_ok_onHeartbeat : callback_ok onHeartbeat.
Proof. intros keys ls l typ msg. unfold onHeartbeat. gpres. Qed.

Section HandlerLemmas.
Context `{Proto} {HS : Type} `{Handshake HS}.

(** The handshake gives the session its identity and its cipher together. *)
Lemma callback_ok_onHandshake (env : Env HS) : callback_ok (onHandshake env).
Proof.
  intros keys ls l typ msg s Hs. unfold onHandshake.
  destruct msg as [hs| | | | | | | | |]; try done.
  unfold gstate. cbv [mbind gom_bind glift gget mret gom_ret gthrow].
  destruct (env_hs env) as [st| |]; try done.
  destruct (hs_read1 st (hs_Message hs)) as [cred| |]; try done.
  destruct (VerifyCredential (env_now env) cred) as [[[[u p] ip]|]| |] eqn:HV; try done.
  destruct (hs_write2 _ _ _) as [[out es]| |]; try done.
  unfold update, gmodify; cbn [fst snd]. set (f1 := fun ses => set_transporter _ ses).
  set (s1 := set_heap (alter f1 l (heap s)) s). set (s2 := set_heap (alter _ l _) s1).
  assert (server_inv keys ls s2 /\ (heap s2 !! l = None \/ running_at l s2)) as [Hs2 Hl2].
  { unfold s2, s1; cbn [heap set_heap]. rewrite !alter_is_insert.
    destruct (heap s !! l) as [ses|] eqn:Hl.
    - rewrite lookup_insert_eq, insert_insert_eq.
      set (ses' := set_identity u p ip _ _). split.
      + apply (inv_insert keys ls l ses' s); [by left| |done]. destruct Hs as [[[Hk Hh] _] _]. split.
        * intros _. split; [by eexists|]. by exists (publicKey s), (env_now env), cred.
        * by destruct (Hh l ses Hl).
      + right. exists ses'. cbn. by rewrite lookup_insert_eq.
    - rewrite Hl. split; [by destruct s|by left]. }
  clearbody s2. clear s1 f1.
  enough (server_inv keys ls (gstate (_ ← OnSessionHandshake l;
    Send l PacketType_HandshakeAck (MHandshakeAck (mkPacketHandshakeAck out))) s2)) as Hg by exact Hg.
  destruct Hl2 as [Hn|Hr].
  - assert (gstate (OnSessionHandshake l) s2 = s2) as Hd.
    { unfold gstate, OnSessionHandshake. cbv [mbind gom_bind gget]. destruct (srv_closed s2); [done|].
      unfold deref. by rewrite Hn. }
    unfold gstate in *. cbv [mbind gom_bind]. destruct (OnSessionHandshake l s2) as [s3 [| |]]; cbn [fst] in Hd; subst; [|done..].
    by apply pres_Send.
  - assert (server_inv keys (l :: ls) s2) as Hs2'.
    { destruct Hs2 as [Hw Hls]. split; [done|]. intros l' [<-|Hl']; auto. }
    assert (server_inv keys (l :: ls) (gstate (_ ← OnSessionHandshake l;
      Send l PacketType_HandshakeAck (MHandshakeAck (mkPacketHandshakeAck out))) s2)) as [Hw Hls].
    { apply gpres_bind; [apply pres_OnSessionHandshake; by left|intros _; apply pres_Send|done]. }
    split; [done|]. intros l' Hl'. apply Hls. by right.
Qed.

Lemma callbacks_ok_NewSessionHandler env : callbacks_ok (NewSessionHandler env).
Proof.
  unfold NewSessionHandler. auto using callbacks_ok_On, callbacks_ok_nil, callback_ok_onHandshake,
    callback_ok_onHeartbeat.
Qed.

Lemma pres_Handle keys ls h l p : callbacks_ok h -> gpreserves (server_inv keys ls) (Handle h l p).
Proof.
  intros Hh. unfold Handle. gpres; by eapply Hh.
Qed.

Lemma pres_Serve_turn keys ls h l :
  callbacks_ok h -> gpreserves (server_inv keys ls) (Serve_turn h l).
Proof. intros Hh. pose proof (pres_Handle keys ls h) as HH. unfold Serve_turn. gpres. Qed.

End HandlerLemmas.
