(* ===== verification/RelayServer.v ===== *)
(** The relay server application: the callbacks of
    [relay/server/callbacks.go], the keepalive turn of
    [relay/server/keepalive.go], and the whole server as a step relation over
    the interleavings of its goroutines. *)
From S2P Require Import Prelude Wire RelayCodec Noise PeerCodec Credential RelayTransport GoTime RelaySession.

Section App.
Context `{Proto} {HS : Type} `{Handshake HS}.

(** ** Callbacks *)

Definition onForward : SessionCallback := fun self _ msg =>
  match msg with
  | MForward forward =>
    s ← gget;
    match Session_ (fw_DstPeerID forward) s with
    | None => mret tt
    | Some peerSession => Send peerSession PacketType_Forward (MForward forward)
    end
  | _ => gpanic "interface conversion"
  end.

(** The two lists of the answer, in the order of the request. *)
Definition probe_response (s : Server) (peers : list Z) : PacketProbeResponse :=
  foldl (fun res p =>
    match Session_ p s with
    | None => mkPacketProbeResponse (prs_OnlinePeers res) (prs_OfflinePeers res ++ [p])
    | Some _ => mkPacketProbeResponse (prs_OnlinePeers res ++ [p]) (prs_OfflinePeers res)
    end) (mkPacketProbeResponse [] []) peers.

Definition onProbe : SessionCallback := fun self _ msg =>
  match msg with
  | MProbeRequest probe =>
    s ← gget;
    Send self PacketType_ProbeResponse (MProbeResponse (probe_response s (prq_Peers probe)))
  | _ => gpanic "interface conversion"
  end.

Definition onSyncPeer : SessionCallback := fun self _ msg =>
  match msg with
  | MSyncPeer syncPeer =>
    s ← gget;
    match Session_ (sp_DstPeerID syncPeer) s with
    | None => mret tt
    | Some peerSession => Send peerSession PacketType_SyncPeer (MSyncPeer syncPeer)
    end
  | _ => gpanic "interface conversion"
  end.

(** [registerCallback] on the handler [NewServer] created. *)
Definition registerCallback (h : Callbacks) : Callbacks :=
  On PacketType_ProbeRequest onProbe
    (On PacketType_SyncPeer onSyncPeer (On PacketType_Forward onForward h)).
Definition handler (env : Env HS) : Callbacks := registerCallback (NewSessionHandler env).

(** ** Keepalive with the portal *)

(** The peers one tick reports: the primary sessions not reported for
    [SyncInterval], in the order [sync.Map.Range] visits them. *)
Definition unsynced_peers (now syncInterval : Z) (order : list PeerID) (s : Server) : list PeerID :=
  flat_map (fun p =>
    match sessions s !! p with
    | None => []
    | Some l =>
      match heap s !! l with
      | Some ses => if isPrimary ses && (syncInterval <? time_since now (lastSyncAt ses))
                    then [peerID ses] else []
      | None => []
      end
    end) order.

(** [s.SetSyncAt(now)] for the peers reported that still have a session. *)
Definition sync_peers (now : Z) (peers : list PeerID) : GoM Server unit :=
  gfor peers (fun p =>
    s ← gget;
    match Session_ p s with
    | None => mret tt
    | Some l => update l (SetSyncAt now)
    end).

(** [keepaliveWithPortal]: [resp] is the answer of the portal, [parse] the
    base64 and PKCS#1 decoding of a public key. *)
Definition keepaliveWithPortal (parse : string -> result Signature)
    (resp : result RelayKeepaliveResponse) : result (Signature * bool) :=
  r ← resp; key ← parse (rkr_PublicKey r); mret (key, rkr_SyncFailed r).

(** One tick of [keepalive].  The first component is what is reported. *)
Definition keepalive_tick (now now' syncInterval : Z) (order : list PeerID)
    (portal : list PeerID -> result (Signature * bool)) : GoM Server (list PeerID) :=
  s ← gget;
  let peers := unsynced_peers now syncInterval order s in
  match portal peers with
  | Err _ => mret peers
  | Panic w => gpanic w
  | Ok (key, syncFailed) =>
    _ ← gmodify (SetRSAPublicKey key);
    if syncFailed then mret peers
    else _ ← sync_peers now' peers; mret peers
  end.

(** ** Invariance of the callbacks *)

Lemma callbacks_ok_handler env : callbacks_ok (handler env).
Proof.
  unfold handler, registerCallback.
  do 3 (apply callbacks_ok_On; [intros keys ls l typ msg; unfold onProbe, onSyncPeer, onForward; gpres|]).
  apply callbacks_ok_NewSessionHandler.
Qed.

Lemma pres_sync_peers keys ls now peers : gpreserves (server_inv keys ls) (sync_peers now peers).
Proof. unfold sync_peers. gpres. Qed.

(** ** The server as a transition system *)

(** [sys_closing] holds the sessions whose [Close] has swapped the flag and
    has not yet run [OnSessionClosed]: another goroutine can run in between.
    [sys_keys] are the verification keys the portal has published so far. *)
Record System := mkSystem {
  sys_srv : Server; sys_closing : list nat; sys_keys : list Signature }.

Inductive step : System -> System -> Prop :=
| step_accept srv cl ks :
  step (mkSystem srv cl ks) (mkSystem (gstate accept srv) cl ks)
| step_read l input srv cl ks :
  step (mkSystem srv cl ks) (mkSystem (gstate (Read_turn l input) srv) cl ks)
| step_write l nonce srv cl ks :
  step (mkSystem srv cl ks) (mkSystem (gstate (Write_turn l nonce) srv) cl ks)
| step_serve env l srv cl ks :
  step (mkSystem srv cl ks) (mkSystem (gstate (Serve_turn (handler env) l) srv) cl ks)
| step_close_swap l ses srv cl ks :
  heap srv !! l = Some ses -> closed ses = false ->
  step (mkSystem srv cl ks) (mkSystem (gstate (update l set_closed) srv) (l :: cl) ks)
| step_close_hook l cl1 cl2 srv ks :
  step (mkSystem srv (cl1 ++ l :: cl2) ks)
       (mkSystem (gstate (_ ← OnSessionClosed l; update l set_trClosed) srv) (cl1 ++ cl2) ks)
| step_key k srv cl ks :
  step (mkSystem srv cl ks) (mkSystem (SetRSAPublicKey k srv) cl (k :: ks))
| step_sync now peers srv cl ks :
  step (mkSystem srv cl ks) (mkSystem (gstate (sync_peers now peers) srv) cl ks)
| step_stop order srv cl ks :
  step (mkSystem srv cl ks) (mkSystem (gstate (Server_Close order) srv) cl ks).

Inductive reachable (interval : Z) (k0 : Signature) : System -> Prop :=
| reach_init : reachable interval k0 (mkSystem (NewServer interval k0) [] [k0])
| reach_step s s' : reachable interval k0 s -> step s s' -> reachable interval k0 s'.

Lemma inv_NewServer interval k0 : server_inv [k0] [] (NewServer interval k0).
Proof.
  split; [split; [split|]|].
  - by left.
  - intros l ses; cbn. by rewrite lookup_empty.
  - intros p l; cbn. by rewrite lookup_empty.
  - done.
Qed.

Lemma inv_more_keys k ks ls s : server_inv ks ls s -> server_inv (k :: ks) ls (SetRSAPublicKey k s).
Proof.
  intros [[[Hk Hh] Hs] Hl]. split; [split; [split|]|]; [by left| | |done].
  2: { intros p l Hp. destruct (Hs p l Hp) as [[Hz (k' & now & cred & u & ip & Hin & HV)] Hr]. split; [|done].
       split; [done|]. exists k', now, cred, u, ip. split; [by right|done]. }
  intros l ses Hses. destruct (Hh l ses Hses) as [H1 H2]. split; [|done].
  intros Hr. destruct (H1 Hr) as [Hc (k' & now & cred & Hin & HV)]. split; [done|].
  exists k', now, cred. split; [by right|done].
Qed.

Lemma inv_step s s' : step s s' ->
  server_inv (sys_keys s) [] (sys_srv s) -> server_inv (sys_keys s') [] (sys_srv s').
Proof.
  pose proof callbacks_ok_handler as Hh.
  destruct 1; cbn [sys_keys sys_srv]; intros Hs.
  - by apply pres_accept.
  - by apply pres_Read_turn.
  - by apply pres_Write_turn.
  - apply pres_Serve_turn; [apply Hh|done].
  - apply pres_update; [auto with session|done].
  - eapply gpres_bind; [apply pres_OnSessionClosed|intros _; apply pres_update; auto with session|done].
  - by apply inv_more_keys.
  - by apply pres_sync_peers.
  - by apply pres_Server_Close.
Qed.

Lemma inv_reachable interval k0 s : reachable interval k0 s -> server_inv (sys_keys s) [] (sys_srv s).
Proof. induction 1; [apply inv_NewServer|by eapply inv_step]. Qed.

End App.

(** ** Handling one packet *)

(** A session whose [Send] succeeds, and the session with the packet queued. *)
Definition sendable (ses : Session) : Prop :=
  closed ses = false /\ st_chWriteClosed (transporter ses) = false /\
  zlen (st_chWrite (transporter ses)) < queueSize.
Definition enqueued (t : PacketType) (m : Message) (ses : Session) : Session :=
  set_transporter (set_chWrite (st_chWrite (transporter ses) ++ [mkPacket t m]) (transporter ses)) ses.

(** The session at [l] completed the handshake with cipher [c]. *)
Definition session_running (s : Server) (l : nat) (ses : Session) (c : Cipher) : Prop :=
  heap s !! l = Some ses /\ state ses = SessionStateRunning /\ ses_cipher ses = Some c /\ CipherOk c.

Lemma Send_ok l t m s ses :
  heap s !! l = Some ses -> sendable ses ->
  Send l t m s = (set_heap (<[l := enqueued t m ses]> (heap s)) s, Ok tt).
Proof.
  intros Hl (Hc & Hq & Hn). unfold Send, deref. cbv [mbind gom_bind]. rewrite Hl, Hc.
  unfold grecover, try_enqueue. rewrite Hq.
  destruct (Z.ltb_spec (zlen (st_chWrite (transporter ses))) queueSize); [|lia].
  rewrite alter_is_insert, Hl. done.
Qed.

Lemma Send_closed l t m s ses :
  heap s !! l = Some ses -> closed ses = true ->
  Send l t m s = (s, Err (EMsg "cannot send message to closed session")).
Proof. intros Hl Hc. unfold Send, deref. cbv [mbind gom_bind]. by rewrite Hl, Hc. Qed.

(** Closing an open, registered session. *)
Lemma Close_ok l s ses :
  srv_closed s = false -> heap s !! l = Some ses -> closed ses = false -> trClosed ses = false ->
  peerID ses <> 0 ->
  Close l s = (set_heap (<[l := set_trClosed (set_closed ses)]> (heap s))
                 (set_sessions (delete (peerID ses) (sessions s)) s), Ok tt).
Proof.
  intros Hopen Hl Hcl Htr Hp. unfold Close, OnSessionClosed, update, deref.
  cbv [mbind gom_bind gget gmodify]. rewrite Hl, Hcl, (alter_is_insert _ _ l), Hl.
  cbn [heap set_heap srv_closed]. rewrite Hopen. cbn [heap set_heap]. rewrite lookup_insert_eq. cbn [peerID set_closed].
  destruct (Z.eqb_spec (peerID ses) 0); [done|]. cbn [heap set_heap set_sessions sessions].
  rewrite lookup_insert_eq. cbn [trClosed set_closed]. rewrite Htr.
  cbn [heap set_heap set_sessions sessions]. rewrite alter_is_insert, lookup_insert_eq, insert_insert_eq. done.
Qed.

(** A sealed message reaches its callback. *)
Lemma Handle_running {HS : Type} `{Handshake HS} `{ProtoOk} (h : Callbacks) l s ses c n t m bs cb :
  session_running s l ses c -> sharedProtos t = Some (kind_of m) -> Marshal m = Ok bs ->
  h t = Some cb -> Handle h l (mkRawPacket t n (Encrypt c n bs)) s = cb l t m s.
Proof.
  intros (Hl & Hst & Hci & Hc) Ht Hm Hcb. unfold Handle, deref. cbv [mbind gom_bind]. rewrite Hl.
  cbn [rp_Type rp_Nonce rp_Payload]. rewrite Hst, Hcb, Hci.
  rewrite bool_decide_eq_false_2 by done. cbn [andb]. rewrite decrypt_encrypt. cbv [mret gom_ret glift].
  by rewrite (Deserialize_known m t bs).
Qed.

Lemma probe_response_filter s ps :
  probe_response s ps = mkPacketProbeResponse
    (filter (fun p => is_Some (sessions s !! p)) ps) (filter (fun p => ~ is_Some (sessions s !! p)) ps).
Proof.
  unfold probe_response, Session_.
  enough (forall on off, foldl (fun res p =>
    match sessions s !! p with
    | None => mkPacketProbeResponse (prs_OnlinePeers res) (prs_OfflinePeers res ++ [p])
    | Some _ => mkPacketProbeResponse (prs_OnlinePeers res ++ [p]) (prs_OfflinePeers res)
    end) (mkPacketProbeResponse on off) ps =
    mkPacketProbeResponse (on ++ filter (fun p => is_Some (sessions s !! p)) ps)
                          (off ++ filter (fun p => ~ is_Some (sessions s !! p)) ps)) as Hg by apply Hg.
  induction ps as [|p ps IH]; intros on off; [by rewrite !filter_nil, !app_nil_r|]. cbn [foldl].
  rewrite !filter_cons. destruct (sessions s !! p) eqn:Hp; cbn [prs_OnlinePeers prs_OfflinePeers]; rewrite IH.
  - rewrite decide_True by (by eexists). rewrite decide_False by (intros Hn; by apply Hn; eexists).
    by rewrite <- app_assoc.
  - rewrite decide_False by (by intros []). rewrite decide_True by (by intros []).
    by rewrite <- app_assoc.
Qed.

Section Properties.
Context `{HP : Proto} {HS : Type} `{HH : Handshake HS}.

(** ** Properties *)

(** C2 (invariant).  In every state the server can reach, under any
    interleaving of its goroutines: a registered peer showed a credential for
    its identifier that was valid under a key the portal published, and its
    session completed the handshake; a session that completed it holds a cipher
    and an identity (user, peer, address) that such a credential attests; and no
    write queue exceeds its capacity. *)
Theorem relay_sessions_authenticated (interval : Z) (k0 : Signature) (sys : System) :
  reachable interval k0 sys ->
  (forall p l, sessions (sys_srv sys) !! p = Some l ->
     (p <> 0 /\ exists key now cred u ip, In key (sys_keys sys) /\ VerifyCredential (H := key) now cred = Ok (Some (u, p, ip))) /\
     exists ses, heap (sys_srv sys) !! l = Some ses /\ state ses = SessionStateRunning) /\
  (forall l ses, heap (sys_srv sys) !! l = Some ses -> state ses = SessionStateRunning ->
     is_Some (ses_cipher ses) /\
     exists key now cred, In key (sys_keys sys) /\
       VerifyCredential (H := key) now cred = Ok (Some (userID ses, peerID ses, vaddress ses))) /\
  (forall l ses, heap (sys_srv sys) !! l = Some ses ->
     zlen (st_chWrite (transporter ses)) <= 64).
Proof.
  intros Hr. destruct (inv_reachable interval k0 sys Hr) as [[[_ Hh] Hs] _]. split_and!.
  - exact Hs.
  - intros l ses Hl Hst. by destruct (Hh l ses Hl) as [Hw _]; apply Hw.
  - intros l ses Hl. by destruct (Hh l ses Hl) as [_ Hq].
Qed.

(** Traffic that does not prove itself has no effect: before
    the handshake every packet but a handshake is refused, and afterwards
    every packet its cipher does not open is, in both cases leaving the
    server exactly as it was. *)
Theorem unauthenticated_packet_refused (env : Env HS) (l : nat) (p : RawPacket) (s : Server) (ses : Session) :
  heap s !! l = Some ses ->
  (state ses = SessionStateInit /\ rp_Type p <> PacketType_Handshake) \/
  (exists c e, state ses = SessionStateRunning /\ ses_cipher ses = Some c /\
               Decrypt c (rp_Nonce p) (rp_Payload p) = Err e) ->
  exists e, Handle (handler env) l p s = (s, Err e).
Proof.
  intros Hl [[Hst Ht]|(c & e & Hst & Hc & Hd)]; unfold Handle, deref; cbv [mbind gom_bind]; rewrite Hl, Hst.
  - rewrite bool_decide_eq_true_2 by done. destruct (Z.eqb_spec (rp_Type p) PacketType_Handshake); [done|].
    by eexists.
  - rewrite bool_decide_eq_false_2 by done. cbn [andb].
    destruct (handler env (rp_Type p)); [|by eexists]. rewrite Hc, Hd. by eexists.
Qed.

(** C22 (functional).  A sealed forward is appended, unchanged and once, to
    the write queue of the destination's session, and nothing else changes;
    when the destination is not connected it is dropped without an error. *)
Theorem forward_reaches_destination `{!ProtoOk} (env : Env HS) (l : nat) (s : Server) (ses : Session)
    (c : Cipher) (n : Z) (f : PacketForward) (bs : bytes) :
  session_running s l ses c -> Marshal (MForward f) = Ok bs ->
  (sessions s !! fw_DstPeerID f = None ->
   Handle (handler env) l (mkRawPacket PacketType_Forward n (Encrypt c n bs)) s = (s, Ok tt)) /\
  (forall d dst, sessions s !! fw_DstPeerID f = Some d -> heap s !! d = Some dst -> sendable dst ->
   Handle (handler env) l (mkRawPacket PacketType_Forward n (Encrypt c n bs)) s =
     (set_heap (<[d := enqueued PacketType_Forward (MForward f) dst]> (heap s)) s, Ok tt)).
Proof.
  intros Hr Hm.
  rewrite (Handle_running (handler env) l s ses c n PacketType_Forward (MForward f) bs onForward) by done.
  unfold onForward, Session_. cbv [mbind gom_bind gget]. split.
  - intros ->. done.
  - intros d dst -> Hd Hsend. by apply Send_ok.
Qed.

(** The answer to a probe lists the requested peers that
    have a session as online and the others as offline, each in the order of
    the request, and goes to the session that asked. *)
Theorem probe_partitions_peers `{!ProtoOk} (env : Env HS) (l : nat) (s : Server) (ses : Session)
    (c : Cipher) (n : Z) (ps : list Z) (bs : bytes) :
  session_running s l ses c -> sendable ses -> Marshal (MProbeRequest (mkPacketProbeRequest ps)) = Ok bs ->
  Handle (handler env) l (mkRawPacket PacketType_ProbeRequest n (Encrypt c n bs)) s =
    (set_heap (<[l := enqueued PacketType_ProbeResponse
        (MProbeResponse (mkPacketProbeResponse
           (filter (fun p => is_Some (sessions s !! p)) ps)
           (filter (fun p => ~ is_Some (sessions s !! p)) ps))) ses]> (heap s)) s, Ok tt).
Proof.
  intros Hr Hs Hm.
  rewrite (Handle_running (handler env) l s ses c n PacketType_ProbeRequest
    (MProbeRequest (mkPacketProbeRequest ps)) bs onProbe) by done.
  unfold onProbe. cbv [mbind gom_bind gget]. rewrite probe_response_filter. cbn [prq_Peers].
  apply Send_ok; [by destruct Hr|done].
Qed.

(** A second handshake on a session that is already
    registered for the peer closes that very session: it stays registered,
    closed, the acknowledgement is refused, and every later message for the
    peer is lost although the connection made a valid handshake. *)
Theorem second_handshake_kills_session (l : nat) (s : Server) (ses : Session) :
  srv_closed s = false -> heap s !! l = Some ses -> peerID ses <> 0 ->
  sessions s !! peerID ses = Some l -> closed ses = false -> trClosed ses = false ->
  sessions (gstate (OnSessionHandshake l) s) !! peerID ses = Some l /\
  forall typ msg, Send l typ msg (gstate (OnSessionHandshake l) s) =
    (gstate (OnSessionHandshake l) s, Err (EMsg "cannot send message to closed session")).
Proof.
  intros Hopen Hl Hp Hreg Hcl Htr. unfold gstate, OnSessionHandshake, deref.
  cbv [mbind gom_bind gget gignore gmodify]. rewrite Hopen, Hl.
  destruct (Z.eqb_spec (peerID ses) 0); [done|]. rewrite Hreg, (Close_ok l s ses) by done.
  cbn [fst sessions set_sessions set_heap]. rewrite lookup_insert_eq. split; [done|]. intros typ msg.
  apply (Send_closed l typ msg _ (set_trClosed (set_closed ses))); [|done].
  cbn. by rewrite lookup_insert_eq.
Qed.

(** The close of an old connection races with the handshake of
    the new one: once the old session has swapped its flag, the handshake
    registers the new session without waiting, and the old session's
    [OnSessionClosed] then removes the entry by peer, although it now belongs
    to the new session, which stays open and is unreachable for every
    forward, probe and sync. *)
Theorem close_unregisters_new_session (old new : nat) (s : Server) (so sn : Session) :
  srv_closed s = false -> old <> new -> heap s !! old = Some so -> heap s !! new = Some sn ->
  closed so = true -> closed sn = false -> peerID so = peerID sn -> peerID sn <> 0 ->
  sessions s !! peerID sn = Some old ->
  let s1 := gstate (OnSessionHandshake new) s in
  let s2 := gstate (OnSessionClosed old) s1 in
  sessions s1 !! peerID sn = Some new /\ sessions s2 !! peerID sn = None /\
  heap s2 !! new = Some sn /\ closed sn = false.
Proof.
  intros Hopen Hne Ho Hn Hco Hcn Hpe Hp Hreg.
  assert (gstate (OnSessionHandshake new) s = set_sessions (<[peerID sn := new]> (sessions s)) s) as ->.
  { unfold gstate, OnSessionHandshake, Close, deref. cbv [mbind gom_bind gget gignore gmodify].
    rewrite Hopen, Hn. destruct (Z.eqb_spec (peerID sn) 0); [done|]. by rewrite Hreg, Ho, Hco. }
  cbn zeta.
  assert (gstate (OnSessionClosed old) (set_sessions (<[peerID sn:=new]> (sessions s)) s) =
    set_sessions (delete (peerID sn) (<[peerID sn:=new]> (sessions s))) s) as ->.
  { unfold gstate, OnSessionClosed, deref. cbv [mbind gom_bind gget gmodify].
    cbn [srv_closed set_sessions]. rewrite Hopen. cbn [set_sessions heap]. rewrite Ho, Hpe.
    by destruct (Z.eqb_spec (peerID sn) 0). }
  cbn [sessions set_sessions heap]. by rewrite lookup_insert_eq, lookup_delete_eq.
Qed.

End Properties.

(** ** Witnesses *)

Module ServerWitness.
#[local] Existing Instance Toy.proto.
#[local] Existing Instance Toy.proto_ok.
#[local] Existing Instance Toy.handshake.

Definition ip : bytes := [Byte.x0a; Byte.x01; Byte.x02; Byte.x03].
(** A credential of peer 5 of user 3, signed by the portal. *)
Definition credential : bytes :=
  credential_data 3 5 100 ip ++ Toy.sig_of (credential_data 3 5 100 ip).
(** The first packet a node sends. *)
Definition hello : bytes :=
  frame (mkRawPacket PacketType_Handshake 1 (Byte.x01 :: Toy.ephemeral ++ credential)).
Definition env : Env unit := mkEnv (50 * Second) (Ok tt).

Definition srv0 : Server := NewServer (30 * Second) Toy.signature.
Definition srv1 : Server := gstate accept srv0.
Definition srv2 : Server := gstate (Read_turn 0 (Ok hello)) srv1.
Definition srv3 : Server := gstate (Serve_turn (handler env) 0) srv2.

(** After the handshake the peer is registered under its identity. *)
Example srv3_registered :
  sessions srv3 !! 5 = Some 0%nat /\
  (fun ses => (userID ses, peerID ses, vaddress ses, isPrimary ses)) <$> heap srv3 !! 0%nat
    = Some (3, 5, ip, true).
Proof. split; by vm_compute. Qed.

Lemma srv3_reachable : reachable (30 * Second) Toy.signature (mkSystem srv3 [] [Toy.signature]).
Proof.
  eapply reach_step; [eapply reach_step; [eapply reach_step; [apply reach_init|]|]|].
  - apply step_accept.
  - apply (step_read 0 (Ok hello)).
  - apply (step_serve env 0).
Qed.

Definition ses0 : Session := match heap srv3 !! 0%nat with Some ses => ses | None => newSession end.

Lemma srv3_running : session_running srv3 0 ses0 Toy.cipher.
Proof. split_and!; [by vm_compute..|apply Toy.cipher_ok]. Qed.

Lemma relay_sessions_authenticated_witness :
  (exists ses, heap srv3 !! 0%nat = Some ses /\ state ses = SessionStateRunning) /\
  zlen (st_chWrite (transporter ses0)) <= 64.
Proof.
  destruct (relay_sessions_authenticated (30 * Second) Toy.signature (mkSystem srv3 [] [Toy.signature])
    srv3_reachable) as (H1 & _ & H3).
  split; [apply (H1 5 0%nat); by vm_compute|]. apply (H3 0%nat). by vm_compute.
Defined.

Lemma unauthenticated_packet_refused_witness :
  exists e, Handle (handler env) 0 (mkRawPacket PacketType_Heartbeat 1 []) srv1 = (srv1, Err e).
Proof.
  apply (unauthenticated_packet_refused env 0 _ srv1 newSession); [by vm_compute|left].
  split; [done|discriminate].
Defined.

Definition fwd (dst : Z) : PacketForward := mkPacketForward 5 dst 1 [Byte.x2a].
Definition sealed (m : Message) : bytes := match Marshal m with Ok b => b | _ => [] end.

Lemma forward_reaches_destination_witness :
  Handle (handler env) 0 (mkRawPacket PacketType_Forward 9 (Encrypt Toy.cipher 9 (sealed (MForward (fwd 5))))) srv3 =
    (set_heap (<[0%nat := enqueued PacketType_Forward (MForward (fwd 5)) ses0]> (heap srv3)) srv3, Ok tt) /\
  Handle (handler env) 0 (mkRawPacket PacketType_Forward 9 (Encrypt Toy.cipher 9 (sealed (MForward (fwd 6))))) srv3 =
    (srv3, Ok tt).
Proof.
  split.
  - apply (forward_reaches_destination env 0 srv3 ses0 Toy.cipher 9 (fwd 5)); [apply srv3_running|by vm_compute..|].
    split_and!; by vm_compute.
  - apply (forward_reaches_destination env 0 srv3 ses0 Toy.cipher 9 (fwd 6)); [apply srv3_running|by vm_compute..].
Defined.

Lemma probe_partitions_peers_witness :
  Handle (handler env) 0 (mkRawPacket PacketType_ProbeRequest 9
      (Encrypt Toy.cipher 9 (sealed (MProbeRequest (mkPacketProbeRequest [5]))))) srv3 =
    (set_heap (<[0%nat := enqueued PacketType_ProbeResponse
      (MProbeResponse (mkPacketProbeResponse
         (filter (fun p => is_Some (sessions srv3 !! p)) [5])
         (filter (fun p => ~ is_Some (sessions srv3 !! p)) [5]))) ses0]> (heap srv3)) srv3, Ok tt).
Proof.
  apply (probe_partitions_peers env 0 srv3 ses0 Toy.cipher 9 [5]); [apply srv3_running| |by vm_compute].
  split_and!; by vm_compute.
Defined.

Lemma second_handshake_kills_session_witness :
  sessions (gstate (OnSessionHandshake 0) srv3) !! 5 = Some 0%nat /\
  Send 0 PacketType_Heartbeat (MHeartbeat (mkPacketHeartbeat 1)) (gstate (OnSessionHandshake 0) srv3)
    = (gstate (OnSessionHandshake 0) srv3, Err (EMsg "cannot send message to closed session")).
Proof.
  destruct (second_handshake_kills_session 0 srv3 ses0) as [H1 H2]; [by vm_compute..|].
  assert (peerID ses0 = 5) as Hp by by vm_compute. rewrite Hp in H1. split; [exact H1|apply H2].
Defined.

(** A connection that shakes hands again, with the credential of another peer,
    is registered under both; when it closes only the second entry goes. *)
Definition credential6 : bytes := credential_data 3 6 100 ip ++ Toy.sig_of (credential_data 3 6 100 ip).
Definition renamed : Server := gstate (Handle (handler env) 0 (mkRawPacket PacketType_Handshake 9
  (Encrypt Toy.cipher 9 (sealed (MHandshake (mkPacketHandshake (Toy.ephemeral ++ credential6) false)))))) srv3.
Example second_identity_keeps_the_first :
  (sessions renamed !! 5, sessions renamed !! 6) = (Some 0%nat, Some 0%nat) /\
  let gone := gstate (Close 0) renamed in
  (sessions gone !! 5, sessions gone !! 6) = (Some 0%nat, None) /\ closed <$> heap gone !! 0%nat = Some true.
Proof. by vm_compute. Qed.

(** The same peer connects again while its first session is closing. *)
Definition old1 : Server := gstate (update 0 set_closed) srv3.
Definition srv4 : Server := gstate accept old1.
Definition both : Server :=
  gstate (update 1 (set_identity 3 5 ip true)) srv4.
Definition so : Session := match heap both !! 0%nat with Some ses => ses | None => newSession end.
Definition sn : Session := match heap both !! 1%nat with Some ses => ses | None => newSession end.

Lemma close_unregisters_new_session_witness :
  let s2 := gstate (OnSessionClosed 0) (gstate (OnSessionHandshake 1) both) in
  sessions s2 !! 5 = None /\ heap s2 !! 1%nat = Some sn.
Proof.
  destruct (close_unregisters_new_session 0 1 both so sn) as (_ & H2 & H3 & _);
    [by vm_compute..|].
  assert (peerID sn = 5) as Hp by by vm_compute. rewrite Hp in H2. split; [exact H2|exact H3].
Defined.
End ServerWitness.
