(* ===== verification/RelayClient.v ===== *)
(** The node's connection to a relay server: [internal/relay/client.go],
    [internal/relay/client_handler.go] and
    [internal/relay/client_transporter.go]. *)
From S2P Require Import Prelude Wire RelayCodec Noise PeerCodec Credential RelayTransport GoTime.

(** ** The client and its transporter *)

Inductive ClientTransporterState :=
| ClientTransporterStateInit | ClientTransporterStateConnecting | ClientTransporterStateConnected.
#[export] Instance ClientTransporterState_eq_dec : EqDecision ClientTransporterState.
Proof. solve_decision. Defined.

(** Where the write goroutine stands: in its [select], inside the send of a
    heartbeat to the write queue, or over. *)
Inductive Writer := WriterSelect | WriterSending (p : Packet) | WriterDone.

Record Client (HS : Type) := mkClient {
  cl_tr : securityTransporter;
  cl_relayServer : RelayServer;
  cl_credentials : bytes;
  cl_state : ClientTransporterState;
  cl_handshakeState : option HS;
  cl_heartbeatInterval : Z;
  cl_isPrimary : bool;
  cl_trClosed : bool;        (* clientTransporterImpl.closed *)
  cl_hsSignal : bool;        (* hsSignal has been closed *)
  cl_writer : Writer;
  cl_latency : Z;
  cl_closed : bool;          (* Client.closed *)
  cl_onClosed : option RelayServer (* what the OnClosed closure captured *) }.
Arguments mkClient {HS}.
Arguments cl_tr {HS}. Arguments cl_relayServer {HS}. Arguments cl_credentials {HS}.
Arguments cl_state {HS}. Arguments cl_handshakeState {HS}. Arguments cl_heartbeatInterval {HS}.
Arguments cl_isPrimary {HS}. Arguments cl_trClosed {HS}. Arguments cl_hsSignal {HS}.
Arguments cl_writer {HS}. Arguments cl_latency {HS}. Arguments cl_closed {HS}.
Arguments cl_onClosed {HS}.

Section Client.
Context `{Proto} {HS : Type} `{Handshake HS}.
Implicit Types c : Client HS.

(** [NewClientTransporter] and [NewClient]. *)
Definition NewClient (server : RelayServer) (credentials : bytes) : Client HS :=
  mkClient newSecurityTransporter server credentials ClientTransporterStateInit None 0 false
    false false WriterSelect 0 false None.

Definition cl_set_tr (t : securityTransporter) c : Client HS :=
  mkClient t (cl_relayServer c) (cl_credentials c) (cl_state c) (cl_handshakeState c)
    (cl_heartbeatInterval c) (cl_isPrimary c) (cl_trClosed c) (cl_hsSignal c) (cl_writer c)
    (cl_latency c) (cl_closed c) (cl_onClosed c).
Definition cl_set_state (st : ClientTransporterState) (sig : bool) c : Client HS :=
  mkClient (cl_tr c) (cl_relayServer c) (cl_credentials c) st (cl_handshakeState c)
    (cl_heartbeatInterval c) (cl_isPrimary c) (cl_trClosed c) sig (cl_writer c)
    (cl_latency c) (cl_closed c) (cl_onClosed c).
Definition cl_set_hs (hs : HS) c : Client HS :=
  mkClient (cl_tr c) (cl_relayServer c) (cl_credentials c) (cl_state c) (Some hs)
    (cl_heartbeatInterval c) (cl_isPrimary c) (cl_trClosed c) (cl_hsSignal c) (cl_writer c)
    (cl_latency c) (cl_closed c) (cl_onClosed c).
Definition SetHeartbeatInterval (d : Z) c : Client HS :=
  mkClient (cl_tr c) (cl_relayServer c) (cl_credentials c) (cl_state c) (cl_handshakeState c)
    d (cl_isPrimary c) (cl_trClosed c) (cl_hsSignal c) (cl_writer c)
    (cl_latency c) (cl_closed c) (cl_onClosed c).
Definition SetIsPrimary (b : bool) c : Client HS :=
  mkClient (cl_tr c) (cl_relayServer c) (cl_credentials c) (cl_state c) (cl_handshakeState c)
    (cl_heartbeatInterval c) b (cl_trClosed c) (cl_hsSignal c) (cl_writer c)
    (cl_latency c) (cl_closed c) (cl_onClosed c).
Definition cl_set_trClosed c : Client HS :=
  mkClient (cl_tr c) (cl_relayServer c) (cl_credentials c) (cl_state c) (cl_handshakeState c)
    (cl_heartbeatInterval c) (cl_isPrimary c) true (cl_hsSignal c) (cl_writer c)
    (cl_latency c) (cl_closed c) (cl_onClosed c).
Definition cl_set_writer (w : Writer) c : Client HS :=
  mkClient (cl_tr c) (cl_relayServer c) (cl_credentials c) (cl_state c) (cl_handshakeState c)
    (cl_heartbeatInterval c) (cl_isPrimary c) (cl_trClosed c) (cl_hsSignal c) w
    (cl_latency c) (cl_closed c) (cl_onClosed c).
Definition SetLatency (l : Z) c : Client HS :=
  mkClient (cl_tr c) (cl_relayServer c) (cl_credentials c) (cl_state c) (cl_handshakeState c)
    (cl_heartbeatInterval c) (cl_isPrimary c) (cl_trClosed c) (cl_hsSignal c) (cl_writer c)
    l (cl_closed c) (cl_onClosed c).
Definition cl_set_closed c : Client HS :=
  mkClient (cl_tr c) (cl_relayServer c) (cl_credentials c) (cl_state c) (cl_handshakeState c)
    (cl_heartbeatInterval c) (cl_isPrimary c) (cl_trClosed c) (cl_hsSignal c) (cl_writer c)
    (cl_latency c) true (cl_onClosed c).
Definition OnClosed (r : RelayServer) c : Client HS :=
  mkClient (cl_tr c) (cl_relayServer c) (cl_credentials c) (cl_state c) (cl_handshakeState c)
    (cl_heartbeatInterval c) (cl_isPrimary c) (cl_trClosed c) (cl_hsSignal c) (cl_writer c)
    (cl_latency c) (cl_closed c) (Some r).

Definition cl_cipher c : option Cipher := st_cipher (cl_tr c).

(** [clientTransporterImpl.SetState]: entering [Connected] from
    [Connecting] closes [hsSignal]; closing it twice would panic. *)
Definition SetState (st : ClientTransporterState) : GoM (Client HS) unit := fun c =>
  if bool_decide (cl_state c = ClientTransporterStateConnecting) &&
     bool_decide (st = ClientTransporterStateConnected)
  then if cl_hsSignal c then (c, Panic "close of closed channel")
       else (cl_set_state st true c, Ok tt)
  else (cl_set_state st (cl_hsSignal c) c, Ok tt).

(** [clientTransporterImpl.Close]. *)
Definition Transporter_Close : GoM (Client HS) unit := fun c =>
  if cl_trClosed c then (c, Err (EMsg "close a closed client"))
  else (cl_set_trClosed c, Ok tt).

(** [Client.Send]. *)
Definition Send (typ : PacketType) (msg : Message) : GoM (Client HS) unit := fun c =>
  if cl_closed c then (c, Err (EMsg "cannot send message to closed client"))
  else
    match try_enqueue (mkPacket typ msg) (EMsg "send buffer exceeded") (cl_tr c) with
    | (t, Ok _) => (cl_set_tr t c, Ok tt)
    | (t, Err e) => (cl_set_tr t c, Err e)
    | (t, Panic w) => (cl_set_tr t c, Err (EMsg w))
    end.

(** ** The handler *)

Definition ClientCallback : Type := PacketType -> Message -> GoM (Client HS) unit.
Definition ClientCallbacks : Type := PacketType -> option ClientCallback.
Definition On (typ : PacketType) (cb : ClientCallback) (h : ClientCallbacks) : ClientCallbacks :=
  fun t => if t =? typ then Some cb else h t.

Definition onHandshakeAck : ClientCallback := fun _ msg =>
  match msg with
  | MHandshakeAck ack =>
    c ← gget;
    match cl_handshakeState c with
    | None => gpanic "invalid memory address or nil pointer dereference"
    | Some st =>
      '(interval, es) ← glift (hs_finish st (hsa_Message ack));
      let parsed := match ParseDuration interval with Some d => d | None => HeartbeatInterval end in
      _ ← gmodify (fun c => cl_set_tr (SetCipher es (cl_tr c)) c);
      _ ← SetState ClientTransporterStateConnected;
      gmodify (SetHeartbeatInterval parsed)
    end
  | _ => gpanic "interface conversion"
  end.

(** The latency is half the round trip, [time.Since(t) / 2]. *)
Definition onHeartbeat (now : Z) : ClientCallback := fun _ msg =>
  match msg with
  | MHeartbeat hb =>
    let ts := hb_Timestamp hb in
    let t := time_unix (go_div ts Second) (go_rem ts Second) in
    gmodify (SetLatency (go_div (time_since now t) 2))
  | _ => gpanic "interface conversion"
  end.

(** [NewClientHandler]. *)
Definition NewClientHandler (now : Z) : ClientCallbacks :=
  On PacketType_Heartbeat (onHeartbeat now) (On PacketType_HandshakeAck onHandshakeAck (fun _ => None)).

(** [clientHandler.Handle]. *)
Definition Handle (h : ClientCallbacks) (packet : RawPacket) : GoM (Client HS) unit :=
  let typ := rp_Type packet in
  c ← gget;
  if bool_decide (cl_state c = ClientTransporterStateConnecting) && negb (typ =? PacketType_HandshakeAck)
  then gthrow (EMsg "only handshake message valid when connecting status")
  else
    match h typ with
    | None => gthrow (EMsg "message cannot be handled")
    | Some cb =>
      match cl_state c, cl_cipher c with
      | ClientTransporterStateConnected, None =>
        gthrow (EMsg "cipher shouldn't be empty when running state")
      | _, cipher =>
        payload ← match cipher with
                  | None => mret (rp_Payload packet)
                  | Some ci => glift (Decrypt ci (rp_Nonce packet) (rp_Payload packet))
                  end;
        msg ← glift (Deserialize typ payload);
        cb typ msg
      end
    end.

(** ** Connecting *)

(** [c.chWrite <- p]. *)
Definition push (p : Packet) : GoM (Client HS) unit := fun c =>
  if st_chWriteClosed (cl_tr c) then (c, Panic "send on closed channel")
  else (cl_set_tr (set_chWrite (st_chWrite (cl_tr c) ++ [p]) (cl_tr c)) c, Ok tt).

(** [Connect] up to the wait for the handshake: [dial] is the outcome of
    [net.Dial], [hs] of [noise.NewHandshakeState].  The handshake packet is
    put on the write queue with a blocking send, which a closed queue turns
    into a panic. *)
Definition Connect (dial : result unit) (hs : result HS) : GoM (Client HS) unit :=
  c ← gget;
  if negb (bool_decide (cl_state c = ClientTransporterStateInit))
  then gthrow (EMsg "cannot connect remote MERP server due to state isn't init")
  else
    _ ← glift dial;
    _ ← gmodify (fun c => cl_set_state ClientTransporterStateConnecting (cl_hsSignal c) c);
    st ← glift hs;
    _ ← gmodify (cl_set_hs st);
    out ← glift (hs_write1 st (cl_credentials c));
    let msg := MHandshake (mkPacketHandshake out (cl_isPrimary c)) in
    push (mkPacket PacketType_Handshake msg).

(** The end of [Connect]: [hsSignal] or the context, whichever comes. *)
Definition Connect_wait (done : error) : GoM (Client HS) unit := fun c =>
  if cl_hsSignal c then (c, Ok tt) else (c, Err done).

(** ** The write goroutine *)

(** What its [select] picks. *)
Inductive WriterEvent := WriterPacket (nonce : Z) | WriterTimer (now : Z) | WriterExit.

(** One turn: the bytes it writes.  A turn inside the heartbeat's send only
    succeeds once the queue has room. *)
Definition Writer_turn (ev : WriterEvent) : GoM (Client HS) bytes := fun c =>
  match cl_writer c with
  | WriterDone => (c, Ok [])
  | WriterSending p =>
    if zlen (st_chWrite (cl_tr c)) <? queueSize
    then (cl_set_writer WriterSelect (cl_set_tr (set_chWrite (st_chWrite (cl_tr c) ++ [p]) (cl_tr c)) c), Ok [])
    else (c, Ok [])
  | WriterSelect =>
    match ev with
    | WriterPacket nonce =>
      match write_turn nonce (cl_tr c) with
      | (t, Ok w) => (cl_set_tr t c, Ok w)
      | (t, Err _) | (t, Panic _) =>
        (cl_set_writer WriterDone (cl_set_trClosed (cl_set_tr (close_chWrite t) c)), Ok [])
      end
    | WriterTimer now =>
      if negb (bool_decide (cl_state c = ClientTransporterStateConnected)) then (c, Ok [])
      else if cl_trClosed c then (c, Ok [])
      else (cl_set_writer (WriterSending (mkPacket PacketType_Heartbeat
              (MHeartbeat (mkPacketHeartbeat now)))) c, Ok [])
    | WriterExit =>
      (cl_set_writer WriterDone (cl_set_trClosed (cl_set_tr (close_chWrite (cl_tr c)) c)), Ok [])
    end
  end.

(** One turn of the read goroutine: the outcome of [conn.Read]; an error
    closes the transporter and the queue. *)
Definition Reader_turn (input : result bytes) : GoM (Client HS) unit := fun c =>
  match input with
  | Ok b =>
    match read_turn b (cl_tr c) with
    | (t, Ok _) => (cl_set_tr t c, Ok tt)
    | (t, Err _) | (t, Panic _) => (cl_set_trClosed (cl_set_tr (close_chRead t) c), Ok tt)
    end
  | Err _ | Panic _ => (cl_set_trClosed (cl_set_tr (close_chRead (cl_tr c)) c), Ok tt)
  end.

(** One turn of [Client.Serve]: it returns when the read queue is closed
    and empty; a panic of a callback ends the process. *)
Definition Serve_turn (h : ClientCallbacks) : GoM (Client HS) bool := fun c =>
  match st_chRead (cl_tr c) with
  | [] => (c, Ok (negb (st_chReadClosed (cl_tr c))))
  | p :: rest =>
    match Handle h p (cl_set_tr (set_chRead rest (cl_tr c)) c) with
    | (c', Panic w) => (c', Panic w)
    | (c', _) => (c', Ok true)
    end
  end.

End Client.

(** ** Properties *)

Section Properties.
Context `{HP : Proto} {HS : Type} `{HH : Handshake HS}.

(** The write goroutine is the only consumer of the write
    queue and also puts the heartbeats on it: when the heartbeat timer fires
    on a connected client whose queue is full, it blocks on its own queue
    for good.  No later turn writes a byte, and every [Send] is refused. *)
Theorem heartbeat_blocks_full_queue (c : Client HS) (now : Z) (evs : list WriterEvent) :
  cl_writer c = WriterSelect -> cl_state c = ClientTransporterStateConnected -> cl_trClosed c = false ->
  queueSize <= zlen (st_chWrite (cl_tr c)) -> st_chWriteClosed (cl_tr c) = false -> cl_closed c = false ->
  let c' := gstate (Writer_turn (WriterTimer now)) c in
  Forall (fun ev => Writer_turn ev c' = (c', Ok [])) evs /\
  forall typ msg, gresult (Send typ msg) c' = Err (EMsg "send buffer exceeded").
Proof.
  intros Hw Hs Ht Hq Hqc Hc.
  assert (gstate (Writer_turn (WriterTimer now)) c = cl_set_writer (WriterSending
    (mkPacket PacketType_Heartbeat (MHeartbeat (mkPacketHeartbeat now)))) c) as ->.
  { unfold gstate, Writer_turn. rewrite Hw, Hs, Ht. by rewrite bool_decide_eq_true_2 by done. }
  split.
  - induction evs as [|ev evs IH]; constructor; [|done]. unfold Writer_turn. cbn [cl_writer cl_set_writer cl_tr].
    destruct (Z.ltb_spec (zlen (st_chWrite (cl_tr c))) queueSize); [lia|done].
  - intros typ msg. unfold gresult, Send, try_enqueue. cbn [cl_closed cl_set_writer cl_tr]. rewrite Hc, Hqc.
    destruct (Z.ltb_spec (zlen (st_chWrite (cl_tr c))) queueSize); [lia|done].
Qed.

End Properties.

Module ClientWitness.
#[local] Existing Instance Toy.proto.
Definition beat : Packet := mkPacket PacketType_Heartbeat (MHeartbeat (mkPacketHeartbeat 1)).
Definition full_client : Client unit :=
  cl_set_state ClientTransporterStateConnected true
    (cl_set_tr (set_chWrite (replicate 64 beat) newSecurityTransporter) (NewClient zero_RelayServer [])).

Lemma heartbeat_blocks_full_queue_witness :
  let c' := gstate (Writer_turn (WriterTimer 5)) full_client in
  Forall (fun ev => Writer_turn ev c' = (c', Ok [])) [WriterPacket 1; WriterExit; WriterPacket 2] /\
  forall typ msg, gresult (Send typ msg) c' = Err (EMsg "send buffer exceeded").
Proof. apply heartbeat_blocks_full_queue; by vm_compute. Defined.
End ClientWitness.
