(* ===== verification/RelayManager.v ===== *)
(** The node's relay connections as a whole:
    [internal/relay/client_manager.go] and [internal/relay/events.go].
    Clients are shared between the manager and their goroutines, so they live
    in a heap. *)
From S2P Require Import Prelude Wire RelayCodec Noise PeerCodec Credential RelayTransport GoTime RelayClient.

(** [Event]: the data is the server and the client. *)
Inductive Event :=
| EventTypeClientClosed (r : RelayServer) (client : nat)
| EventTypeClientConnected (r : RelayServer) (client : nat).

Record Manager (HS : Type) := mkManager {
  m_closed : bool;
  m_credential : option bytes;
  m_primary : ServerID;
  m_events : list Event;
  m_clients : gmap Z nat;
  m_pending : gmap Z RelayServer;
  m_heap : gmap nat (Client HS) }.
Arguments mkManager {HS}. Arguments m_closed {HS}. Arguments m_credential {HS}.
Arguments m_primary {HS}. Arguments m_events {HS}. Arguments m_clients {HS}.
Arguments m_pending {HS}. Arguments m_heap {HS}.

Section Manager.
Context `{Proto} {HS : Type} `{Handshake HS}.
Implicit Types m : Manager HS.
Abbreviation M := (GoM (Manager HS)).
Abbreviation mget := (gget : M (Manager HS)).

Definition NewManager : Manager HS := mkManager false None 0 [] ∅ ∅ ∅.

Definition SetCredential (cred : bytes) m : Manager HS :=
  mkManager (m_closed m) (Some cred) (m_primary m) (m_events m) (m_clients m) (m_pending m) (m_heap m).
Definition SetPrimaryServerID (id : ServerID) m : Manager HS :=
  mkManager (m_closed m) (m_credential m) id (m_events m) (m_clients m) (m_pending m) (m_heap m).
Definition set_clients (cs : gmap Z nat) m : Manager HS :=
  mkManager (m_closed m) (m_credential m) (m_primary m) (m_events m) cs (m_pending m) (m_heap m).
Definition set_pending (p : gmap Z RelayServer) m : Manager HS :=
  mkManager (m_closed m) (m_credential m) (m_primary m) (m_events m) (m_clients m) p (m_heap m).
Definition set_mheap (h : gmap nat (Client HS)) m : Manager HS :=
  mkManager (m_closed m) (m_credential m) (m_primary m) (m_events m) (m_clients m) (m_pending m) h.
Definition set_mclosed m : Manager HS :=
  mkManager true (m_credential m) (m_primary m) (m_events m) (m_clients m) (m_pending m) (m_heap m).
(** [m.events <- e]; the monitor goroutine drains the channel. *)
Definition event (e : Event) : M unit := gmodify (fun m =>
  mkManager (m_closed m) (m_credential m) (m_primary m) (m_events m ++ [e]) (m_clients m)
    (m_pending m) (m_heap m)).

Definition PrimaryServerID m : ServerID := m_primary m.

Definition RelayServerClient (id : ServerID) m : option nat := m_clients m !! id.

Definition PrimaryRelayServerClient m : option nat :=
  if m_primary m =? 0 then None else m_clients m !! m_primary m.

(** A client operation, run on the client at [l]. *)
Definition on_client {A} (l : nat) (op : GoM (Client HS) A) : M A := fun m =>
  match m_heap m !! l with
  | None => (m, Panic "invalid memory address or nil pointer dereference")
  | Some c => let (c', r) := op c in (set_mheap (<[l := c']> (m_heap m)) m, r)
  end.

(** What [connect] meets outside the process: the base64 decoding of the
    server's key, the dial, the handshake state, and the acknowledgement if
    one arrives before the context ends (otherwise the context's error). *)
Record ConnEnv := mkConnEnv {
  ce_key : result bytes;
  ce_dial : result unit;
  ce_hs : result HS;
  ce_ack : option RawPacket;
  ce_ctxErr : error;
  ce_now : Z }.

(** [client.Connect(ctx)] with its goroutines: the handshake packet is
    written, the answer is handled by [client.Serve]. *)
Definition client_Connect (env : ConnEnv) : GoM (Client HS) unit :=
  _ ← Connect (ce_dial env) (ce_hs env);
  _ ← gmodify (fun c => cl_set_tr (set_chWrite [] (cl_tr c)) c);
  _ ← match ce_ack env with
      | Some p => gignore (Handle (NewClientHandler (ce_now env)) p)
      | None => mret tt
      end;
  Connect_wait (ce_ctxErr env).

Definition gtry {S A} (m : GoM S A) (h : error -> GoM S A) : GoM S A := fun s =>
  match m s with
  | (s', Err e) => h e s'
  | r => r
  end.

(** [connect].  The registration of the forwarding callbacks touches no
    state of the model: which callback runs is decided by the packet type
    in the driver's component. *)
Definition connect (env : ConnEnv) (r : RelayServer) : M bool :=
  m ← mget;
  match m_clients m !! rs_ID r with
  | Some _ => mret true
  | None =>
    match ce_key env with
    | Err _ => mret false
    | Panic w => gpanic w
    | Ok publicKey =>
      match m_credential m with
      | None => gpanic "interface conversion: interface is nil, not []uint8"
      | Some cred =>
        let l := fresh (dom (m_heap m)) in
        let client := SetIsPrimary (bool_decide (rs_ID r = m_primary m)) (NewClient r cred) in
        _ ← gmodify (fun m => set_mheap (<[l := client]> (m_heap m)) m);
        gtry
          (_ ← on_client l (client_Connect env);
           _ ← gmodify (fun m => set_clients (<[rs_ID r := l]> (m_clients m)) m);
           _ ← event (EventTypeClientConnected r l);
           _ ← on_client l (gmodify (OnClosed r));
           mret true)
          (fun _ => mret false)
      end
    end
  end.

(** The closure [connect] installs with [client.OnClosed]. *)
Definition onClosed (capture : RelayServer) (l : nat) : M unit :=
  m ← mget;
  if m_closed m then mret tt
  else
    match m_clients m !! rs_ID capture with
    | None => mret tt
    | Some _ =>
      _ ← event (EventTypeClientClosed capture l);
      _ ← gmodify (fun m => set_clients (delete (rs_ID capture) (m_clients m)) m);
      gmodify (fun m => set_pending (<[rs_ID capture := capture]> (m_pending m)) m)
    end.

(** [Client.Close]. *)
Definition Client_Close (l : nat) : M unit := fun m =>
  match m_heap m !! l with
  | None => (m, Panic "invalid memory address or nil pointer dereference")
  | Some c =>
    if cl_closed c then (m, Err (EMsg "close a closed client"))
    else
      let m := set_mheap (<[l := cl_set_closed c]> (m_heap m)) m in
      match on_client l Transporter_Close m with
      | (m, Ok _) =>
        match cl_onClosed c with
        | Some r => onClosed r l m
        | None => (m, Ok tt)
        end
      | (m, Err e) => (m, Err e)
      | (m, Panic w) => (m, Panic w)
      end
  end.

(** [Tick]: the pending servers in the order [Range] visits them. *)
Definition Tick (env : RelayServer -> ConnEnv) (order : list ServerID) : M unit :=
  gfor order (fun id =>
    m ← mget;
    match m_pending m !! id with
    | None => mret tt
    | Some r =>
      connected ← connect (env r) r;
      gwhen connected (gmodify (fun m => set_pending (delete id (m_pending m)) m))
    end).

(** The goroutines of a client whose context is cancelled: the write loop
    returns, closing the transporter and its queue, and the read loop fails
    on the closed connection. *)
Definition cancel_client : GoM (Client HS) unit :=
  _ ← Writer_turn WriterExit; Reader_turn (Err (EMsg "use of closed network connection")).

(** [AddServer].  The context passed to [connect] also governs the
    goroutines of the new client, and is cancelled on return. *)
Definition AddServer (env : ConnEnv) (relayServer : RelayServer) : M unit :=
  m ← mget;
  match m_clients m !! rs_ID relayServer with
  | Some _ => mret tt
  | None =>
    connected ← connect env relayServer;
    if (connected : bool) then
      (* defer cancel() *)
      m ← mget;
      match m_clients m !! rs_ID relayServer with
      | Some l => on_client l cancel_client
      | None => mret tt
      end
    else
      m ← mget;
      match m_pending m !! rs_ID relayServer with
      | Some _ => mret tt
      | None => gmodify (fun m => set_pending (<[rs_ID relayServer := relayServer]> (m_pending m)) m)
      end
  end.

(** [Update]: connect what is missing, then prune, in the order [Range]
    visits the clients. *)
Definition Update (env : RelayServer -> ConnEnv) (relayServers : list RelayServer) (order : list ServerID)
  : M unit :=
  _ ← gfor relayServers (fun r =>
        connected ← connect (env r) r;
        if (connected : bool) then mret tt
        else gmodify (fun m => set_pending (<[rs_ID r := r]> (m_pending m)) m));
  let existing : gset Z := list_to_set (map rs_ID relayServers) in
  gfor order (fun id =>
    m ← mget;
    match m_clients m !! id with
    | None => mret tt
    | Some l =>
      if decide (id ∈ existing) then mret tt
      else
        _ ← gmodify (fun m => set_clients (delete id (m_clients m)) m);
        _ ← gmodify (fun m => set_pending (delete id (m_pending m)) m);
        gignore (Client_Close l)
    end).

(** [Stop]. *)
Definition Stop (order : list ServerID) : M unit :=
  m ← mget;
  if m_closed m then mret tt
  else
    _ ← gmodify set_mclosed;
    gfor order (fun id =>
      m ← mget;
      match m_clients m !! id with
      | Some l => gignore (Client_Close l)
      | None => mret tt
      end).

End Manager.
Arguments ConnEnv HS : clear implicits.

(** ** What connecting changes *)

Section Facts.
Context `{Proto} {HS : Type} `{Handshake HS}.
Implicit Types m : Manager HS.

(** Connecting leaves the lifecycle fields of the client alone. *)
Definition fresh_client (c : Client HS) : Prop :=
  cl_writer c = WriterSelect /\ cl_closed c = false /\ cl_onClosed c = None /\ cl_trClosed c = false.

Lemma pres_client_Connect env : gpreserves fresh_client (client_Connect env).
Proof.
  assert (forall f : Client HS -> Client HS, (forall c, cl_writer (f c) = cl_writer c) ->
    (forall c, cl_closed (f c) = cl_closed c) -> (forall c, cl_onClosed (f c) = cl_onClosed c) ->
    (forall c, cl_trClosed (f c) = cl_trClosed c) ->
    gpreserves fresh_client (gmodify f)) as Hf.
  { intros f H1 H2 H3 H4 c (?&?&?&?). unfold gstate, gmodify, fresh_client; cbn.
    rewrite H1, H2, H3, H4. done. }
  assert (forall st, gpreserves fresh_client (SetState st)) as Hst.
  { intros st c Hc. unfold gstate, SetState. destruct (_ && _); [destruct (cl_hsSignal c)|]; exact Hc. }
  assert (forall p, gpreserves fresh_client (push p)) as Hpush.
  { intros p c Hc. unfold gstate, push. destruct (st_chWriteClosed _); exact Hc. }
  assert (forall e, gpreserves fresh_client (Connect_wait e)) as Hw.
  { intros e c Hc. unfold gstate, Connect_wait. destruct (cl_hsSignal c); exact Hc. }
  assert (forall t msg, gpreserves fresh_client (onHandshakeAck t msg)) as Hack.
  { intros t msg. unfold onHandshakeAck. gpres; apply Hf; intros ?; reflexivity. }
  assert (forall now t msg, gpreserves fresh_client (onHeartbeat now t msg)) as Hhb.
  { intros now t msg. unfold onHeartbeat. gpres; apply Hf; intros ?; reflexivity. }
  assert (forall now p, gpreserves fresh_client (Handle (NewClientHandler now) p)) as Hh.
  { intros now p. assert (forall t cb, NewClientHandler now t = Some cb ->
      forall t msg, gpreserves fresh_client (cb t msg)) as Hcb.
    { intros t cb. unfold NewClientHandler, On. repeat case_match; intros [= <-]; auto. }
    unfold Handle. gpres; by eapply Hcb. }
  unfold client_Connect, Connect. gpres; apply Hf; intros ?; reflexivity.
Qed.

(** The three outcomes of [connect] on a server without a client. *)
Lemma connect_new env r m : m_clients m !! rs_ID r = None ->
  match connect env r m with
  | (m1, Ok true) => exists l c, m_heap m !! l = None /\ fresh_client c /\
      m_heap m1 = <[l := OnClosed r c]> (m_heap m) /\ m_clients m1 = <[rs_ID r := l]> (m_clients m) /\
      m_pending m1 = m_pending m /\ m_closed m1 = m_closed m
  | (m1, _) => m_clients m1 = m_clients m /\ m_pending m1 = m_pending m /\ m_closed m1 = m_closed m /\
      (m_heap m1 = m_heap m \/
       exists l c, m_heap m !! l = None /\ fresh_client c /\ m_heap m1 = <[l := c]> (m_heap m))
  end.
Proof.
  intros Hn. unfold connect. cbv [mbind gom_bind gget]. rewrite Hn.
  destruct (ce_key env); [|by cbn; auto..]. destruct (m_credential m) as [cred|]; [|by cbn; auto].
  unfold gmodify. set (l := fresh (dom (m_heap m))).
  assert (m_heap m !! l = None) as Hl by (apply not_elem_of_dom, is_fresh).
  set (c0 := SetIsPrimary _ _). unfold gtry, on_client. cbn [m_heap set_mheap].
  rewrite lookup_insert_eq.
  pose proof (pres_client_Connect env c0) as Hc. unfold gstate in Hc.
  destruct (client_Connect env c0) as [c1 r1]. cbn [fst] in Hc. specialize (Hc ltac:(done)).
  cbn [m_clients set_mheap m_heap]. rewrite insert_insert_eq. destruct r1 as [[]|e|w].
  - unfold event, gmodify. cbn [m_heap m_clients set_clients set_mheap]. rewrite lookup_insert_eq.
    cbn [fst m_heap m_clients m_pending m_closed set_clients set_mheap]. rewrite insert_insert_eq.
    exists l, c1. done.
  - cbn. split_and!; [done..|]. right. by exists l, c1.
  - cbn. split_and!; [done..|]. right. by exists l, c1.
Qed.

Lemma connect_known env r m l : m_clients m !! rs_ID r = Some l -> connect env r m = (m, Ok true).
Proof. intros Hl. unfold connect. cbv [mbind gom_bind gget]. by rewrite Hl. Qed.

(** ** Connecting returns *)

(** Outside the process nothing panics: the key's decoding, the dial and the
    handshake state are values or errors. *)
Definition calm (env : ConnEnv HS) : Prop :=
  is_panic (ce_key env) = false /\ is_panic (ce_dial env) = false /\ is_panic (ce_hs env) = false.

Lemma client_Connect_returns `{HPok : !ProtoOk} `{HSafe : !HandshakeSafe HS} env r cred b : calm env ->
  is_panic (gresult (client_Connect env) (SetIsPrimary b (NewClient r cred))) = false.
Proof.
  intros (_ & Hd & Hh). unfold gresult, client_Connect, Connect. cbv [mbind gom_bind gget glift gmodify].
  cbn [cl_state SetIsPrimary NewClient]. rewrite bool_decide_eq_true_2 by done. cbn [negb].
  destruct (ce_dial env) as [[]|e|w]; [|done..]. destruct (ce_hs env) as [st|e|w]; [|done..].
  cbn [cl_credentials cl_set_hs cl_set_state SetIsPrimary NewClient].
  pose proof (write1_no_panic st cred) as Hw. destruct (hs_write1 st cred) as [out|e|w]; [|done..].
  unfold push. cbn -[Deserialize Decrypt]. destruct (ce_ack env) as [p|]; [|done].
  unfold gignore, Handle. cbv [mbind gom_bind gget]. cbn -[Deserialize Decrypt].
  destruct (Z.eqb_spec (rp_Type p) PacketType_HandshakeAck) as [Ht|_]; [|done].
  rewrite Ht. cbn -[Deserialize Decrypt]. cbv [mret gom_ret glift]. pose proof (Deserialize_no_panic PacketType_HandshakeAck (rp_Payload p) ltac:(done)) as Hnp.
  destruct (Deserialize PacketType_HandshakeAck (rp_Payload p)) as [msg|e|w] eqn:Hm; [|done..].
  apply Deserialize_kind in Hm. destruct msg; try done. unfold onHandshakeAck. cbv [mbind gom_bind gget glift]. cbn.
  rewrite andb_false_r. cbn. pose proof (finish_no_panic st (hsa_Message m)) as Hf.
  destruct (hs_finish st (hsa_Message m)) as [[i es]|e|w]; [|done..]. done.
Qed.

(** With the credential there, connecting comes back and keeps it. *)
Lemma connect_returns `{HPok : !ProtoOk} `{HSafe : !HandshakeSafe HS} env r m :
  calm env -> is_Some (m_credential m) ->
  exists m1 b, connect env r m = (m1, Ok b) /\ m_credential m1 = m_credential m /\ m_primary m1 = m_primary m.
Proof.
  intros Hc [cred Hcred]. destruct (m_clients m !! rs_ID r) as [l|] eqn:Hl.
  { exists m, true. split; [|done]. unfold connect. cbv [mbind gom_bind gget]. by rewrite Hl. }
  unfold connect. cbv [mbind gom_bind gget]. rewrite Hl, Hcred. pose proof Hc as (Hk & _ & _).
  destruct (ce_key env) as [k|e|w]; [|by exists m, false|done]. unfold gmodify, gtry, on_client. cbn [m_heap set_mheap].
  rewrite lookup_insert_eq. set (c0 := SetIsPrimary _ _).
  pose proof (client_Connect_returns env r cred (bool_decide (rs_ID r = m_primary m)) Hc) as Hr.
  fold c0 in Hr. unfold gresult in Hr. destruct (client_Connect env c0) as [c1 [[]|e|w]]; [| |done].
  - unfold event, gmodify. cbn [m_heap m_clients set_clients set_mheap]. rewrite lookup_insert_eq. by eexists _, true.
  - by eexists _, false.
Qed.

(** ** The manager invariant *)

(** Every registered client exists, and the closure a client carries was
    made for the server it is registered under. *)
Definition manager_wf m : Prop :=
  forall id l, m_clients m !! id = Some l ->
    exists c, m_heap m !! l = Some c /\ forall r, cl_onClosed c = Some r -> rs_ID r = id.

(** Server [id] is registered with client [l]. *)
Definition registered (id : ServerID) (l : nat) m : Prop := m_clients m !! id = Some l.

Lemma wf_insert_heap m l c :
  (forall id, m_clients m !! id = Some l -> forall r, cl_onClosed c = Some r -> rs_ID r = id) ->
  manager_wf m -> manager_wf (set_mheap (<[l := c]> (m_heap m)) m).
Proof.
  intros Hc Hwf id l' Hl'. cbn in *. destruct (decide (l = l')) as [<-|Hne].
  - exists c. rewrite lookup_insert_eq. split; [done|]. by apply Hc.
  - destruct (Hwf id l' Hl') as (c' & ? & ?). exists c'. by rewrite lookup_insert_ne.
Qed.

Lemma wf_connect env r m : manager_wf m -> manager_wf (gstate (connect env r) m).
Proof.
  intros Hwf. destruct (m_clients m !! rs_ID r) as [l|] eqn:Hl.
  { unfold gstate. by rewrite (connect_known env r m l). }
  pose proof (connect_new env r m Hl) as Hc. unfold gstate.
  assert (forall l', m_heap m !! l' = None -> forall id, m_clients m !! id <> Some l') as Hfr.
  { intros l' Hl' id Hid. destruct (Hwf id l' Hid) as (c & ? & _). congruence. }
  assert (forall m1, m_clients m1 = m_clients m ->
    (m_heap m1 = m_heap m \/
       exists l c, m_heap m !! l = None /\ fresh_client c /\ m_heap m1 = <[l := c]> (m_heap m)) ->
    manager_wf m1) as Hsame.
  { intros m1 Hcl Hh id l' Hid. rewrite Hcl in Hid. destruct (Hwf id l' Hid) as (c & Hc1 & Hc2).
    exists c. split; [|done]. destruct Hh as [->|(l2 & c2 & Hl2 & _ & ->)]; [done|].
    rewrite lookup_insert_ne; [done|]. congruence. }
  destruct (connect env r m) as [m1 [[]|e|w]]; cbn [fst].
  - destruct Hc as (l & c & Hfl & Hfc & Hh & Hcl & _). intros id l'. rewrite Hcl, Hh.
    rewrite lookup_insert_Some. intros [[<- <-]|[Hne Hid]].
    + exists (OnClosed r c). rewrite lookup_insert_eq. split; [done|]. cbn. congruence.
    + destruct (Hwf id l' Hid) as (c' & Hc1 & Hc2). exists c'. rewrite lookup_insert_ne; [done|]. congruence.
  - destruct Hc as (H1 & H2 & H3 & H4). by apply Hsame.
  - destruct Hc as (H1 & H2 & H3 & H4). by apply Hsame.
  - destruct Hc as (H1 & H2 & H3 & H4). by apply Hsame.
Qed.

Lemma clients_connect env r m id l :
  m_clients m !! id = Some l -> m_clients (gstate (connect env r) m) !! id = Some l.
Proof.
  intros Hid. destruct (m_clients m !! rs_ID r) as [l'|] eqn:Hl.
  { unfold gstate. by rewrite (connect_known env r m l'). }
  pose proof (connect_new env r m Hl) as Hc. unfold gstate.
  destruct (connect env r m) as [m1 [[]|e|w]]; cbn [fst].
  - destruct Hc as (l1 & c & _ & _ & _ & -> & _). rewrite lookup_insert_ne; [done|]. congruence.
  - by destruct Hc as [-> _].
  - by destruct Hc as [-> _].
  - by destruct Hc as [-> _].
Qed.

(** A client changed without touching its closure, its transporter staying
    closed if it was. *)
Definition client_le (c c' : Client HS) : Prop :=
  cl_onClosed c' = cl_onClosed c /\ (cl_trClosed c = true -> cl_trClosed c' = true).

(** Closing a client that is no longer registered leaves the maps alone. *)
Lemma close_unregistered l m c :
  m_heap m !! l = Some c ->
  (forall r, cl_onClosed c = Some r -> m_clients m !! rs_ID r = None) ->
  exists c', client_le c c' /\
    gignore (Client_Close l) m = (set_mheap (<[l := c']> (m_heap m)) m, Ok tt).
Proof.
  intros Hl Hc. unfold gignore, Client_Close. rewrite Hl. destruct (cl_closed c) eqn:Hcl.
  { exists c. split; [by split|]. rewrite insert_id by done. by destruct m. }
  unfold on_client. cbn [m_heap set_mheap]. rewrite lookup_insert_eq.
  unfold Transporter_Close. cbn [cl_trClosed cl_set_closed]. destruct (cl_trClosed c) eqn:Ht.
  { eexists. split; [|by rewrite insert_insert_eq]. done. }
  destruct (cl_onClosed c) as [r|] eqn:Hr.
  - unfold onClosed. cbv [mbind gom_bind gget mret gom_ret]. cbn [m_closed set_mheap m_clients m_heap].
    destruct (m_closed m) eqn:Hm; [|rewrite (Hc r) by done].
    all: eexists; split; [|by rewrite insert_insert_eq]; by split.
  - eexists. cbn [m_heap set_mheap]. split; [|by rewrite insert_insert_eq]. by split.
Qed.

(** *** A registered server stays registered *)

(** Server [id] is registered with client [l], whose connection is closed. *)
Definition lost (id : ServerID) (l : nat) m : Prop :=
  manager_wf m /\ registered id l m /\ exists c, m_heap m !! l = Some c /\ cl_trClosed c = true.

Lemma lost_update id l l' c c' m :
  m_heap m !! l' = Some c -> client_le c c' -> lost id l m ->
  lost id l (set_mheap (<[l' := c']> (m_heap m)) m).
Proof.
  intros Hl' [Ho Ht] (Hwf & Hreg & c0 & Hl & Hc0). split; [|split; [done|]].
  - apply wf_insert_heap; [|done]. intros id' Hid' r Hr. rewrite Ho in Hr.
    destruct (Hwf id' l' Hid') as (c2 & Hc2 & Hr2). simplify_eq. auto.
  - cbn. destruct (decide (l' = l)) as [->|Hne].
    + exists c'. rewrite lookup_insert_eq. simplify_eq. auto.
    + exists c0. by rewrite lookup_insert_ne.
Qed.

Lemma lost_on_client {A} id l l' (op : GoM (Client HS) A) :
  (forall c, client_le c (gstate op c)) -> gpreserves (lost id l) (on_client l' op).
Proof.
  intros Hop m Hm. unfold gstate, on_client. destruct (m_heap m !! l') as [c|] eqn:Hc; [|done].
  specialize (Hop c). unfold gstate in Hop. destruct (op c) as [c' r]; cbn in *. by apply (lost_update _ _ _ c).
Qed.

Lemma lost_connect id l env r : gpreserves (lost id l) (connect env r).
Proof.
  intros m (Hwf & Hreg & c & Hc & Ht). split; [by apply wf_connect|]. split; [by apply clients_connect|].
  destruct (m_clients m !! rs_ID r) as [l'|] eqn:Hl.
  { unfold gstate. rewrite (connect_known env r m l') by done. by exists c. }
  pose proof (connect_new env r m Hl) as Hn. unfold gstate.
  destruct (connect env r m) as [m1 [[]|e|w]]; cbn [fst].
  - destruct Hn as (l1 & c1 & Hf & _ & -> & _). exists c. rewrite lookup_insert_ne; [done|]. congruence.
  - destruct Hn as (_ & _ & _ & [->|(l1 & c1 & Hf & _ & ->)]); exists c; [done|].
    rewrite lookup_insert_ne; [done|]. congruence.
  - destruct Hn as (_ & _ & _ & [->|(l1 & c1 & Hf & _ & ->)]); exists c; [done|].
    rewrite lookup_insert_ne; [done|]. congruence.
  - destruct Hn as (_ & _ & _ & [->|(l1 & c1 & Hf & _ & ->)]); exists c; [done|].
    rewrite lookup_insert_ne; [done|]. congruence.
Qed.

Lemma lost_pending id l f : gpreserves (lost id l) (gmodify (fun m => set_pending (f m) m)).
Proof. intros m Hm. exact Hm. Qed.

(** Pruning another server. *)
Lemma lost_prune id l id' l' m :
  id' <> id -> m_clients m !! id' = Some l' -> lost id l m ->
  lost id l (gstate (_ ← gmodify (fun m => set_clients (delete id' (m_clients m)) m);
    _ ← gmodify (fun m => set_pending (delete id' (m_pending m)) m); gignore (Client_Close l')) m).
Proof.
  intros Hne Hl' (Hwf & Hreg & Hc). destruct (Hwf id' l' Hl') as (c & Hcl & Hcr).
  set (m1 := set_pending (delete id' (m_pending m)) (set_clients (delete id' (m_clients m)) m)).
  assert (lost id l m1) as H1.
  { split; [|split; [|done]].
    - intros i k. cbn. rewrite lookup_delete_Some. intros [_ Hi]. by apply Hwf.
    - unfold registered. cbn. by rewrite lookup_delete_ne. }
  destruct (close_unregistered l' m1 c) as (c' & Hle & Hg); [done|..].
  { intros r Hr. cbn. rewrite (Hcr r Hr). apply lookup_delete_eq. }
  change (lost id l (gstate (gignore (Client_Close l')) m1)). unfold gstate. rewrite Hg.
  by apply (lost_update _ _ _ c).
Qed.

Lemma client_le_Reader input c : client_le c (gstate (Reader_turn input) c).
Proof. unfold gstate, Reader_turn. destruct input as [b| |]; [destruct (read_turn _ _) as [? [| |]]|..]; by split. Qed.
Lemma client_le_Writer ev c : client_le c (gstate (Writer_turn ev) c).
Proof.
  unfold gstate, Writer_turn. destruct (cl_writer c); [|by destruct (_ <? _)|done].
  destruct ev; [destruct (write_turn _ _) as [? [| |]]|destruct (negb _); [|destruct (cl_trClosed c)]|]; by split.
Qed.
Lemma client_le_cancel c : client_le c (gstate cancel_client c).
Proof.
  unfold cancel_client, gstate. cbv [mbind gom_bind]. pose proof (client_le_Writer WriterExit c) as [H1 H2].
  unfold gstate in *. destruct (Writer_turn WriterExit c) as [c1 [| |]]; cbn [fst] in *; [|by split..].
  pose proof (client_le_Reader (Err (EMsg "use of closed network connection")) c1) as [H3 H4].
  unfold gstate in *. split; [congruence|auto].
Qed.

Lemma lost_Tick id l env order : gpreserves (lost id l) (Tick env order).
Proof. pose proof (lost_connect id l) as Hc. pose proof (lost_pending id l) as Hp. unfold Tick, gwhen. gpres. Qed.

Lemma lost_AddServer id l env r : gpreserves (lost id l) (AddServer env r).
Proof.
  pose proof (lost_connect id l) as Hc. pose proof (lost_pending id l) as Hp.
  unfold AddServer. gpres. apply lost_on_client. apply client_le_cancel.
Qed.

Lemma lost_Update id l env rs order :
  In id (map rs_ID rs) -> gpreserves (lost id l) (Update env rs order).
Proof.
  intros Hin. pose proof (lost_connect id l) as Hc. pose proof (lost_pending id l) as Hp. unfold Update.
  apply gpres_bind; [gpres|intros _]. apply gpres_for. intros id' m Hm.
  unfold gstate. cbv [mbind gom_bind gget]. destruct (m_clients m !! id') as [l'|] eqn:Hl'; [|done].
  destruct (decide (id' ∈ _)) as [|Hn]; [done|].
  apply (lost_prune id l id' l' m); [|done|done]. intros ->. apply Hn. rewrite elem_of_list_to_set.
  by apply list_elem_of_In.
Qed.


(** *** What [Update] leaves *)

Lemma connect_grows env r m id :
  is_Some (m_clients m !! id) -> is_Some (m_clients (gstate (connect env r) m) !! id).
Proof. intros [l Hl]. exists l. by apply clients_connect. Qed.

Lemma connect_only env r m id :
  is_Some (m_clients (gstate (connect env r) m) !! id) -> is_Some (m_clients m !! id) \/ id = rs_ID r.
Proof.
  destruct (m_clients m !! rs_ID r) as [l'|] eqn:Hl.
  { unfold gstate. rewrite (connect_known env r m l') by done. by left. }
  pose proof (connect_new env r m Hl) as Hn. unfold gstate.
  destruct (connect env r m) as [m1 [[]|e|w]]; cbn [fst]; destruct Hn as (H1 & Hn).
  - destruct Hn as (c1 & _ & _ & _ & -> & _). rewrite lookup_insert_is_Some. intros [->|[_ ?]]; auto.
  - destruct Hn as (Hn & _). rewrite H1. by left.
  - rewrite H1. by left.
  - rewrite H1. by left.
Qed.

Lemma connect_result env r m m1 b :
  connect env r m = (m1, Ok b) -> m_pending m1 = m_pending m /\
    (b = true -> is_Some (m_clients m1 !! rs_ID r)).
Proof.
  intros Hc. destruct (m_clients m !! rs_ID r) as [l'|] eqn:Hl.
  { rewrite (connect_known env r m l') in Hc by done. simplify_eq. split; [done|]. by eexists. }
  pose proof (connect_new env r m Hl) as Hn. rewrite Hc in Hn. destruct b.
  - destruct Hn as (l1 & c1 & _ & _ & _ & -> & -> & _). split; [done|]. rewrite lookup_insert_eq. by eexists.
  - by destruct Hn as (_ & -> & _).
Qed.

(** Connected or pending. *)
Definition covered m (r : RelayServer) : Prop :=
  is_Some (m_clients m !! rs_ID r) \/ is_Some (m_pending m !! rs_ID r).

(** The credential and the primary server stay. *)
Definition same_node m m1 : Prop := m_credential m1 = m_credential m /\ m_primary m1 = m_primary m.

Lemma connect_loop `{HPok : !ProtoOk} `{HSafe : !HandshakeSafe HS} env rs : (forall r, In r rs -> calm (env r)) -> forall m,
  manager_wf m -> is_Some (m_credential m) ->
  exists m1, gfor rs (fun r =>
    connected ← connect (env r) r;
    if (connected : bool) then mret tt
    else gmodify (fun m => set_pending (<[rs_ID r := r]> (m_pending m)) m)) m = (m1, Ok tt) /\
  same_node m m1 /\ manager_wf m1 /\ (forall r, In r rs \/ covered m r -> covered m1 r) /\
  (forall id, is_Some (m_clients m1 !! id) -> is_Some (m_clients m !! id) \/ In id (map rs_ID rs)).
Proof.
  induction rs as [|r rs IH]; intros Henv m Hwf Hcred.
  { exists m. split_and!; [done|done|done| |auto]. by intros r [[]|]. }
  cbn [gfor]. cbv [mbind gom_bind].
  pose proof (connect_grows (env r) r m) as Hgrow. pose proof (connect_only (env r) r m) as Honly.
  pose proof (wf_connect (env r) r m Hwf) as Hwf1. unfold gstate in *.
  destruct (connect_returns (env r) r m) as (m2 & b & Hc & Hsame); [apply Henv; by left|done|].
  rewrite Hc in *. destruct (connect_result _ _ _ _ _ Hc) as [Hp Hb]. cbn [fst] in *.
  set (m3 := if b then m2 else set_pending (<[rs_ID r := r]> (m_pending m2)) m2).
  assert (manager_wf m3 /\ m_clients m3 = m_clients m2 /\ covered m3 r /\
          (forall r', covered m r' -> covered m3 r') /\ same_node m m3) as (Hw3 & Hc3 & Hr3 & Hk3 & Hs3).
  { unfold m3, covered. destruct b; cbn; split_and!; try done.
    - left. by apply Hb.
    - intros r' [Hx|Hx]; [left; by apply Hgrow|right; by rewrite Hp].
    - right. rewrite lookup_insert_eq. by eexists.
    - intros r' [Hx|Hx]; [left; by apply Hgrow|right]. rewrite lookup_insert_is_Some', Hp. by right. }
  destruct (IH ltac:(intros; apply Henv; by right) m3 Hw3) as (m1 & Hm1 & Hs1 & Hw & Hcov & Hcl).
  { by destruct Hs3 as [-> _]. }
  exists m1. split_and!; [unfold m3 in Hm1; by destruct b| |done| |].
  - destruct Hs1, Hs3. split; congruence.
  - intros r' [[<-|Hr']|Hr']; apply Hcov; auto.
  - intros id Hid. destruct (Hcl id Hid) as [Hx|Hx]; [|right; by right]. rewrite Hc3 in Hx.
    destruct (Honly id Hx) as [Hy| ->]; [by left|right; by left].
Qed.

Lemma prune_loop (existing : gset Z) order : forall m, manager_wf m ->
  exists m2, gfor order (fun id =>
    m ← gget;
    match m_clients m !! id with
    | None => mret tt
    | Some l =>
      if decide (id ∈ existing) then mret tt
      else
        _ ← gmodify (fun m => set_clients (delete id (m_clients m)) m);
        _ ← gmodify (fun m => set_pending (delete id (m_pending m)) m);
        gignore (Client_Close l)
    end) m = (m2, Ok tt) /\ same_node m m2 /\ manager_wf m2 /\
  (forall id, id ∈ existing -> m_clients m2 !! id = m_clients m !! id /\ m_pending m2 !! id = m_pending m !! id) /\
  (forall id, is_Some (m_clients m2 !! id) -> is_Some (m_clients m !! id) /\ (In id order -> id ∈ existing)).
Proof.
  induction order as [|id order IH]; intros m Hwf; [by exists m|].
  cbn [gfor]. cbv [mbind gom_bind gget].
  destruct (m_clients m !! id) as [l|] eqn:Hl.
  2:{ destruct (IH m Hwf) as (m2 & H1 & Hs & Hw & H2 & H3). exists m2. split_and!; [done..|].
      intros i Hi. destruct (H3 i Hi) as [Hx Hy]. split; [done|]. intros [<-|Hin]; [|auto].
      destruct Hx as [? Hx]. congruence. }
  destruct (decide (id ∈ existing)) as [Hex|Hex].
  { destruct (IH m Hwf) as (m2 & H1 & Hs & Hw & H2 & H3). exists m2. split_and!; [done..|].
    intros i Hi. destruct (H3 i Hi) as [Hx Hy]. split; [done|]. by intros [<-|Hin]; [|auto]. }
  unfold gmodify. set (m1 := set_pending _ _). destruct (Hwf id l Hl) as (c & Hcl & Hcr).
  destruct (close_unregistered l m1 c) as (c' & [Ho Ht] & ->); [done|..].
  { intros r Hr. cbn. rewrite (Hcr r Hr). apply lookup_delete_eq. }
  destruct (IH (set_mheap (<[l := c']> (m_heap m1)) m1)) as (m2 & H1 & Hs & Hw & H2 & H3).
  { apply wf_insert_heap.
    - intros i Hi r Hr. rewrite Ho in Hr. cbn in Hi. rewrite lookup_delete_Some in Hi.
      destruct Hi as [Hne Hi]. destruct (Hwf i l Hi) as (c2 & Hc2 & Hr2). simplify_eq. auto.
    - intros i k. cbn. rewrite lookup_delete_Some. intros [_ Hi]. by apply Hwf. }
  exists m2. cbn in H2, H3. split_and!; [done..| |].
  - intros i Hi. destruct (H2 i Hi) as [-> ->]. by rewrite !lookup_delete_ne by (intros ->; done).
  - intros i Hi. destruct (H3 i Hi) as [Hx Hy]. rewrite lookup_delete_is_Some in Hx. destruct Hx as [Hne Hx].
    split; [done|]. intros [<-|Hin]; [done|auto].
Qed.

(** What [Update] comes back with. *)
Lemma Update_returns `{HPok : !ProtoOk} `{HSafe : !HandshakeSafe HS} env rs order m :
  (forall r, In r rs -> calm (env r)) -> manager_wf m -> is_Some (m_credential m) ->
  (forall id, is_Some (m_clients m !! id) -> In id order) ->
  exists m', Update env rs order m = (m', Ok tt) /\ same_node m m' /\ manager_wf m' /\
    (forall r, In r rs -> covered m' r) /\
    (forall id, is_Some (m_clients m' !! id) -> In id (map rs_ID rs)).
Proof.
  intros Henv Hwf Hcred Hord.
  destruct (connect_loop env rs Henv m Hwf Hcred) as (m1 & H1 & Hs1 & Hw1 & Hcov & Hcl).
  destruct (prune_loop (list_to_set (map rs_ID rs)) order m1 Hw1) as (m2 & H2 & Hs2 & Hw2 & Hin & Hout).
  exists m2. split_and!; [|destruct Hs1, Hs2; split; congruence|done| |].
  - unfold Update. cbv [mbind gom_bind] in *. by rewrite H1.
  - intros r Hr. assert (rs_ID r ∈ (list_to_set (map rs_ID rs) : gset Z)) as Hrs.
    { rewrite elem_of_list_to_set. apply list_elem_of_In. by apply in_map. }
    destruct (Hin _ Hrs) as [Ha Hb]. destruct (Hcov r) as [Hx|Hx]; [by left| |].
    + left. by rewrite Ha.
    + right. by rewrite Hb.
  - intros id Hid. destruct (Hout id Hid) as [Hx Hy]. destruct (Hcl id Hx) as [Ho|]; [|done].
    specialize (Hy (Hord id Ho)). rewrite elem_of_list_to_set in Hy. by apply list_elem_of_In.
Qed.

End Facts.

(** ** Properties *)

Section Properties.
Context `{HP : Proto} {HS : Type} `{HH : Handshake HS}.
Implicit Types m : Manager HS.

(** One operation on the manager while the portal keeps listing server
    [id], or one turn of a goroutine of one of its clients. *)
Inductive manager_step (id : ServerID) : Manager HS -> Manager HS -> Prop :=
| ms_tick env order m : manager_step id m (gstate (Tick env order) m)
| ms_add env r m : manager_step id m (gstate (AddServer env r) m)
| ms_update env rs order m : In id (map rs_ID rs) -> manager_step id m (gstate (Update env rs order) m)
| ms_read l input m : manager_step id m (gstate (on_client l (Reader_turn input)) m)
| ms_write l ev m : manager_step id m (gstate (on_client l (Writer_turn ev)) m).


(** A connection the reader has lost is never replaced: only
    [Client.Close] runs the closure that schedules a reconnection, and
    nothing calls it when the transporter closes.  As long as the portal
    lists the server, the dead client stays registered through every tick,
    update and added server, so [connect] keeps answering that the server is
    connected. *)
Theorem lost_connection_never_replaced (id : ServerID) (l : nat) (c : Client HS) (e : error) (m m' : Manager HS) :
  manager_wf m -> m_clients m !! id = Some l -> m_heap m !! l = Some c ->
  rtc (manager_step id) (gstate (on_client l (Reader_turn (Err e))) m) m' ->
  m_clients m' !! id = Some l /\ exists c', m_heap m' !! l = Some c' /\ cl_trClosed c' = true.
Proof.
  intros Hwf Hreg Hc Hr.
  assert (lost id l (gstate (on_client l (Reader_turn (Err e))) m)) as H0.
  { unfold gstate, on_client. rewrite Hc. cbn [fst Reader_turn]. split; [|split; [done|]].
    - apply wf_insert_heap; [|done]. intros i Hi r Hr'. destruct (Hwf i l Hi) as (c2 & Hc2 & Hr2).
      simplify_eq. auto.
    - cbn. eexists. split; [apply lookup_insert_eq|done]. }
  clear Hreg Hc Hwf. induction Hr as [m1|m1 m2 m3 Hs _ IH]; [by destruct H0 as (_ & H1 & H2)|].
  apply IH. destruct Hs.
  - by apply lost_Tick.
  - by apply lost_AddServer.
  - by apply lost_Update.
  - apply lost_on_client; [apply client_le_Reader|done].
  - apply lost_on_client; [apply client_le_Writer|done].
Qed.

(** The connection [AddServer] makes does not survive it: the
    context it gives to the client's goroutines is cancelled on return, so
    the server is registered with a client whose connection and write queue
    are closed, and every message sent to it is refused. *)
Theorem added_server_is_unusable (env : ConnEnv HS) (r : RelayServer) (m m1 : Manager HS) :
  m_clients m !! rs_ID r = None -> connect env r m = (m1, Ok true) ->
  exists l c, m_clients (gstate (AddServer env r) m) !! rs_ID r = Some l /\
    m_heap (gstate (AddServer env r) m) !! l = Some c /\ cl_trClosed c = true /\
    forall typ msg, gresult (RelayClient.Send typ msg) c = Err (EMsg "send on closed channel").
Proof.
  intros Hn Hc. pose proof (connect_new env r m Hn) as Hnew. rewrite Hc in Hnew.
  destruct Hnew as (l & c & Hl & (Hw & Hcl & Ho & Ht) & Hh & Hcs & _).
  unfold gstate, AddServer. cbv [mbind gom_bind gget]. rewrite Hn, Hc, Hcs, lookup_insert_eq.
  assert (exists c', cancel_client (OnClosed r c) = (c', Ok tt) /\ cl_trClosed c' = true /\
    cl_closed c' = false /\ st_chWriteClosed (cl_tr c') = true) as (c' & Hcan & Htr & Hclo & Hq).
  { unfold cancel_client. cbv [mbind gom_bind]. unfold Writer_turn. cbn [cl_writer OnClosed]. rewrite Hw.
    by eexists. }
  unfold on_client. rewrite Hh, lookup_insert_eq, Hcan. cbn [fst m_clients set_mheap m_heap].
  rewrite Hcs. exists l, c'. rewrite !lookup_insert_eq. split_and!; [done..|].
  intros typ msg. unfold gresult, RelayClient.Send, try_enqueue. by rewrite Hclo, Hq.
Qed.

End Properties.

(** ** Witnesses *)

Module ManagerWitness.
#[local] Existing Instance Toy.proto.
#[local] Existing Instance Toy.handshake.

Definition server (id : ServerID) : RelayServer := mkRelayServer id "relay" "eu" "host" 4430 3478 "".
Definition ack : RawPacket :=
  mkRawPacket PacketType_HandshakeAck 1 (Toy.ephemeral ++ Duration_String (30 * Second)).
Definition env : ConnEnv unit :=
  mkConnEnv (Ok []) (Ok tt) (Ok tt) (Some ack) (EMsg "context deadline exceeded") 0.
Definition refused : ConnEnv unit :=
  mkConnEnv (Ok []) (Err (EMsg "connection refused")) (Ok tt) None (EMsg "context deadline exceeded") 0.
Definition m0 : Manager unit := SetCredential [Byte.x01] NewManager.
Definition m1 : Manager unit := gstate (connect env (server 1)) m0.
Definition c1 : Client unit :=
  match m_heap m1 !! 0%nat with Some c => c | None => NewClient (server 1) [] end.

Lemma m0_wf : manager_wf m0.
Proof. intros id l. cbn. by rewrite lookup_empty. Qed.
Lemma m1_wf : manager_wf m1.
Proof. apply (wf_connect env (server 1) m0 m0_wf). Qed.

(** From a client of server 1, an update to servers 2 (reachable) and 3
    (not). *)
Definition envs (r : RelayServer) : ConnEnv unit := if rs_ID r =? 3 then refused else env.
Definition m2 : Manager unit := gstate (Update envs [server 2; server 3] [1]) m1.

#[local] Existing Instances Toy.proto_ok Toy.handshake_safe.
Lemma m1_known id : is_Some (m_clients m1 !! id) -> In id [1].
Proof.
  intros [l Hl]. left. unfold m1 in Hl.
  destruct (connect_only env (server 1) m0 id) as [[l' Hl']|Hid]; [by eexists| |done].
  cbn in Hl'. by rewrite lookup_empty in Hl'.
Qed.
Lemma envs_calm r : calm (envs r).
Proof. unfold envs. by case_match. Qed.


(** A server that was never connected stays pending when the list drops it,
    and the next tick connects to it. *)
Example dropped_server_is_connected :
  let m := gstate (Update envs [server 2; server 3] []) m0 in
  let m' := gstate (Update envs [server 2] [2]) m in
  m_pending m' !! 3 = Some (server 3) /\ is_Some (m_clients (gstate (Tick (fun _ => env) [3]) m') !! 3).
Proof. split; [by vm_compute|]. eexists. by vm_compute. Qed.

Lemma lost_connection_never_replaced_witness :
  let m := gstate (on_client 0 (Reader_turn (Err (EMsg "EOF")))) m1 in
  m_clients (gstate (Tick (fun _ => env) [1]) m) !! 1 = Some 0%nat.
Proof.
  cbn zeta. refine (proj1 (lost_connection_never_replaced 1 0 c1 (EMsg "EOF") m1 _ m1_wf _ _ _)).
  - by vm_compute.
  - by vm_compute.
  - apply rtc_once, ms_tick.
Defined.

Lemma added_server_is_unusable_witness :
  exists l c, m_clients (gstate (AddServer env (server 1)) m0) !! 1 = Some l /\
    m_heap (gstate (AddServer env (server 1)) m0) !! l = Some c /\ cl_trClosed c = true /\
    forall typ msg, gresult (RelayClient.Send typ msg) c = Err (EMsg "send on closed channel").
Proof. apply (added_server_is_unusable env (server 1) m0 m1); by vm_compute. Defined.
End ManagerWitness.
