(* ===== verification/RelayHandshake.v ===== *)
(** The connection handshake end to end: the client of [RelayClient], the
    session of [RelaySession] and the byte stream of [RelayTransport]
    composed the way [Connect], the read and write goroutines and the two
    handlers compose them. *)
From S2P Require Import Prelude Wire RelayCodec Noise PeerCodec Credential RelayTransport GoTime.
From S2P Require Import RelaySession RelayServer RelayClient.

Section Handshake.
Context `{HPO : ProtoOk} {HS : Type} `{HHO : HandshakeOk HS}.

(** A message that fits a relay packet. *)
Definition fits (m : Message) (b : bytes) : Prop :=
  Marshal m = Ok b /\ 10 <= zlen b <= MaxMessageSize.

Lemma Decode_frame p : packet_ok 10 p -> exists c', RelayCodec.Decode (frame p) NewCodec = (c', Ok [p]).
Proof using Type.
  intros Hp. destruct (decode_all_sync [frame p] NewCodec [p]) as (c' & Hd & _).
  - by constructor.
  - cbn [concat]. rewrite app_nil_r. pose proof (NewCodec_sync [p]) as Hs. unfold wire in Hs.
    cbn [concat map] in Hs. by rewrite app_nil_r in Hs.
  - done.
  - exists c'. cbn [decode_all] in Hd. cbv [mbind gom_bind mret gom_ret] in Hd.
    destruct (RelayCodec.Decode (frame p) NewCodec) as [c1 [ps| |]]; [|done..].
    rewrite app_nil_r in Hd. congruence.
Qed.

(** *** The first message *)

Definition hello_packet (m1 : bytes) (primary : bool) : Message :=
  MHandshake (mkPacketHandshake m1 primary).

Lemma client_hello (i : HS) srv cred m1 b1 n1 :
  hs_write1 i cred = Ok m1 -> fits (hello_packet m1 false) b1 -> 0 <= n1 < 2 ^ 32 ->
  exists c1 c2, Connect (Ok tt) (Ok i) (NewClient srv cred) = (c1, Ok tt) /\
    Writer_turn (WriterPacket n1) c1 = (c2, Ok (frame (mkRawPacket PacketType_Handshake n1 b1))) /\
    cl_tr c2 = newSecurityTransporter /\ cl_state c2 = ClientTransporterStateConnecting /\
    cl_handshakeState c2 = Some i /\ cl_hsSignal c2 = false.
Proof using HPO.
  intros Hw [Hm Hl] Hn. unfold Connect. cbv [mbind gom_bind gget glift gmodify]. cbn [cl_state NewClient].
  rewrite bool_decide_eq_true_2 by done. cbn [negb cl_credentials NewClient]. rewrite Hw.
  cbn [push cl_tr cl_set_hs cl_set_state NewClient newSecurityTransporter st_chWriteClosed].
  eexists _, _. split; [done|]. unfold Writer_turn. cbn [cl_writer cl_set_tr cl_set_hs cl_set_state NewClient].
  unfold write_turn. cbn [cl_tr st_chWrite set_chWrite st_cipher cl_set_tr app newSecurityTransporter cl_isPrimary NewClient].
  fold (hello_packet m1 false).
  destruct (writePacketHelper_clear None n1 (mkPacket PacketType_Handshake (hello_packet m1 false)) b1) as [-> _];
    [done..|lia|]. by split.
Qed.

(** *** The server's answer *)

Definition server_env (now : Z) (r : HS) : Env HS := mkEnv now (Ok r).

(** A session waiting for the hello. *)
Definition waiting_session (q : list RawPacket) (ses : Session) : Prop :=
  state ses = SessionStateInit /\ ses_cipher ses = None /\ closed ses = false /\
  st_chRead (transporter ses) = q /\ st_chWrite (transporter ses) = [] /\
  st_chWriteClosed (transporter ses) = false.

Lemma server_read_hello l (s : Server) n b1 :
  heap s !! l = Some newSession -> 0 <= n < 2 ^ 32 -> 10 <= zlen b1 <= MaxMessageSize ->
  exists ses, gstate (Read_turn l (Ok (frame (mkRawPacket PacketType_Handshake n b1)))) s =
      set_heap (<[l := ses]> (heap s)) s /\
    waiting_session [mkRawPacket PacketType_Handshake n b1] ses.
Proof using Type.
  intros Hl Hn Hb. destruct (Decode_frame (mkRawPacket PacketType_Handshake n b1)) as [c' Hd].
  { unfold packet_ok, PacketType_Handshake; cbn. lia. }
  unfold gstate, Read_turn. rewrite Hl. unfold read_turn.
  cbn [transporter newSession st_codec newSecurityTransporter]. rewrite Hd. eexists. split; [done|]. by split_and!.
Qed.

Lemma server_answer l (s : Server) ses now r m1 b1 u p ip out ci n :
  heap s !! l = Some ses -> waiting_session [mkRawPacket PacketType_Handshake n b1] ses ->
  srv_closed s = false -> sessions s !! p = None -> p <> 0 ->
  fits (hello_packet m1 false) b1 -> hs_read1 r m1 = Ok out ->
  VerifyCredential (H := publicKey s) now out = Ok (Some (u, p, ip)) ->
  forall m2, hs_write2 r m1 (Duration_String (heartbeatInterval s)) = Ok (m2, ci) ->
  exists ses', gstate (RelaySession.Serve_turn (handler (server_env now r)) l) s =
      set_heap (<[l := ses']> (heap s)) (set_sessions (<[p := l]> (sessions s)) s) /\
    state ses' = SessionStateRunning /\ ses_cipher ses' = Some ci /\
    userID ses' = u /\ peerID ses' = p /\ vaddress ses' = ip /\ closed ses' = false /\
    st_chWrite (transporter ses') =
      [mkPacket PacketType_HandshakeAck (MHandshakeAck (mkPacketHandshakeAck m2))].
Proof using HPO.
  intros Hl (Hst & Hci & Hcl & Hq & Hwq & Hwc) Hopen Hreg Hp [Hm Hb] Hr HV m2 H2.
  set (ses1 := set_transporter (set_chRead [] (transporter ses)) ses).
  set (s1 := set_heap (<[l := ses1]> (heap s)) s).
  set (ses2 := set_identity u p ip false (set_transporter (SetCipher ci (transporter ses1)) ses1)).
  set (s2 := set_heap (<[l := ses2]> (heap s)) s).
  set (ack := MHandshakeAck (mkPacketHandshakeAck m2)).
  assert (RelaySession.Handle (handler (server_env now r)) l (mkRawPacket PacketType_Handshake n b1) s1 =
    (_ ← OnSessionHandshake l; RelaySession.Send l PacketType_HandshakeAck ack) s2) as HH.
  { unfold RelaySession.Handle, deref. cbv [mbind gom_bind]. unfold s1 at 1. cbn [heap set_heap].
    rewrite lookup_insert_eq. cbn [rp_Type rp_Payload rp_Nonce].
    change (state ses1) with (state ses). change (ses_cipher ses1) with (ses_cipher ses). rewrite Hst, Hci.
    rewrite bool_decide_eq_true_2 by done. change (negb (PacketType_Handshake =? PacketType_Handshake)) with false.
    cbn [andb]. change (handler (server_env now r) PacketType_Handshake) with (Some (onHandshake (server_env now r))).
    cbv [mret gom_ret glift].
    rewrite (Deserialize_known (hello_packet m1 false)) by done. unfold onHandshake, hello_packet.
    cbv [mbind gom_bind gget glift]. cbn [env_hs server_env hs_Message hs_IsPrimary env_now]. rewrite Hr.
    change (publicKey s1) with (publicKey s). rewrite HV. change (heartbeatInterval s1) with (heartbeatInterval s).
    rewrite H2. unfold update, gmodify. unfold s1. cbn [heap set_heap].
    rewrite !alter_is_insert, lookup_insert_eq, insert_insert_eq, lookup_insert_eq, insert_insert_eq. done. }
  assert (OnSessionHandshake l s2 = (set_sessions (<[p := l]> (sessions s)) s2, Ok tt)) as HO.
  { unfold OnSessionHandshake, deref. cbv [mbind gom_bind gget]. unfold s2 at 1. cbn [srv_closed set_heap].
    rewrite Hopen. unfold s2 at 1. cbn [heap set_heap]. rewrite lookup_insert_eq. cbn [peerID ses2 set_identity].
    destruct (Z.eqb_spec p 0); [done|]. change (sessions s2) with (sessions s). by rewrite Hreg. }
  assert (RelaySession.Send l PacketType_HandshakeAck ack (set_sessions (<[p := l]> (sessions s)) s2) =
    (set_heap (<[l := enqueued PacketType_HandshakeAck ack ses2]> (heap s))
       (set_sessions (<[p := l]> (sessions s)) s), Ok tt)) as HSd.
  { rewrite (Send_ok l _ ack _ ses2).
    - unfold s2. cbn [heap set_heap set_sessions]. by rewrite insert_insert_eq.
    - unfold s2. cbn. by rewrite lookup_insert_eq.
    - split; [done|]. split; [done|]. unfold ses2. cbn. rewrite Hwq. done. }
  exists (enqueued PacketType_HandshakeAck ack ses2). split.
  - unfold gstate, RelaySession.Serve_turn, deref, update, gmodify. cbv [mbind gom_bind]. rewrite Hl, Hq.
    unfold gguard. rewrite alter_is_insert, Hl. fold ses1 s1. rewrite HH. cbv [mbind gom_bind]. rewrite HO.
    by rewrite HSd.
  - unfold enqueued, ses2. cbn. rewrite Hwq. by split_and!.
Qed.

Lemma server_write_ack l (s : Server) ses m2 b2 n :
  heap s !! l = Some ses ->
  st_chWrite (transporter ses) = [mkPacket PacketType_HandshakeAck (MHandshakeAck (mkPacketHandshakeAck m2))] ->
  fits (MHandshakeAck (mkPacketHandshakeAck m2)) b2 -> 0 <= n < 2 ^ 32 ->
  Write_turn l n s =
    (set_heap (<[l := set_transporter (set_chWrite [] (transporter ses)) ses]> (heap s)) s,
     Ok (frame (mkRawPacket PacketType_HandshakeAck n b2))).
Proof using HPO.
  intros Hl Hq [Hm Hb] Hn. unfold Write_turn. rewrite Hl. unfold write_turn. rewrite Hq.
  destruct (writePacketHelper_clear (st_cipher (transporter ses)) n
    (mkPacket PacketType_HandshakeAck (MHandshakeAck (mkPacketHandshakeAck m2))) b2) as [-> _]; [done..|lia|done].
Qed.

(** *** The client takes the answer *)

Lemma client_finish (i : HS) (c : Client HS) m2 b2 q ci n now :
  cl_tr c = newSecurityTransporter -> cl_state c = ClientTransporterStateConnecting ->
  cl_handshakeState c = Some i -> cl_hsSignal c = false ->
  fits (MHandshakeAck (mkPacketHandshakeAck m2)) b2 -> 0 <= n < 2 ^ 32 ->
  hs_finish i m2 = Ok (q, ci) ->
  let c' := gstate (RelayClient.Serve_turn (NewClientHandler now))
    (gstate (Reader_turn (Ok (frame (mkRawPacket PacketType_HandshakeAck n b2)))) c) in
  cl_state c' = ClientTransporterStateConnected /\ cl_cipher c' = Some ci /\ cl_hsSignal c' = true /\
  cl_heartbeatInterval c' = default HeartbeatInterval (ParseDuration q).
Proof using HPO.
  intros Htr Hst Hhs Hsig [Hm Hb] Hn Hf.
  destruct (Decode_frame (mkRawPacket PacketType_HandshakeAck n b2)) as [cc Hd].
  { unfold packet_ok, PacketType_HandshakeAck; cbn. lia. }
  assert (exists c1, gstate (Reader_turn (Ok (frame (mkRawPacket PacketType_HandshakeAck n b2)))) c = c1 /\
    st_chRead (cl_tr c1) = [mkRawPacket PacketType_HandshakeAck n b2] /\ cl_state c1 = cl_state c /\
    cl_handshakeState c1 = cl_handshakeState c /\ cl_hsSignal c1 = cl_hsSignal c /\ cl_cipher c1 = None)
    as (c1 & -> & Hr1 & Hs1 & Hh1 & Hg1 & Hc1).
  { unfold gstate, Reader_turn, read_turn. rewrite Htr. cbn [st_codec newSecurityTransporter]. rewrite Hd.
    eexists. split; [done|]. by split_and!. }
  cbn zeta. unfold gstate, RelayClient.Serve_turn. rewrite Hr1.
  set (c2 := cl_set_tr _ c1). unfold RelayClient.Handle. cbv [mbind gom_bind gget].
  change (cl_state c2) with (cl_state c1). change (cl_cipher c2) with (cl_cipher c1). rewrite Hs1, Hst, Hc1.
  cbn [rp_Type rp_Payload]. rewrite bool_decide_eq_true_2 by done.
  change (negb (PacketType_HandshakeAck =? PacketType_HandshakeAck)) with false. cbn [andb].
  change (NewClientHandler now PacketType_HandshakeAck) with (Some (onHandshakeAck (HS := HS))).
  cbv [mret gom_ret glift]. rewrite (Deserialize_known (MHandshakeAck (mkPacketHandshakeAck m2))) by done.
  unfold onHandshakeAck. cbv [mbind gom_bind gget glift gmodify].
  change (cl_handshakeState c2) with (cl_handshakeState c1). rewrite Hh1, Hhs. cbn [hsa_Message]. rewrite Hf.
  unfold SetState. cbn [cl_state cl_set_tr c2 cl_hsSignal]. rewrite Hs1, Hst, Hg1, Hsig.
  rewrite !bool_decide_eq_true_2 by done. cbn [andb fst]. split_and!; try done.
Qed.

(** ** Property *)

(** The handshake completes: from a new connection, a client
    whose credential the server's key verifies reaches the connected state,
    the server registers the session under the credential's peer with its
    user and address, and both ends hold the same cipher and the same
    heartbeat interval. *)
Theorem relay_handshake_completes (i r : HS) (srv : RelayServer) (cred m1 b1 : bytes) (s : Server) (l : nat)
    (now now' n1 n2 : Z) (u : UserID) (p : PeerID) (ip : bytes) (e : error) :
  heap s !! l = Some newSession -> srv_closed s = false -> heartbeatInterval s = HeartbeatInterval ->
  VerifyCredential (H := publicKey s) now cred = Ok (Some (u, p, ip)) -> p <> 0 -> sessions s !! p = None ->
  hs_write1 i cred = Ok m1 -> fits (hello_packet m1 false) b1 ->
  (forall m2 c, hs_write2 r m1 (Duration_String HeartbeatInterval) = Ok (m2, c) ->
     exists b2, fits (MHandshakeAck (mkPacketHandshakeAck m2)) b2) ->
  0 <= n1 < 2 ^ 32 -> 0 <= n2 < 2 ^ 32 ->
  exists c1 c2 w1 s1 w2 ci ses,
    Connect (Ok tt) (Ok i) (NewClient srv cred) = (c1, Ok tt) /\
    Writer_turn (WriterPacket n1) c1 = (c2, Ok w1) /\
    Write_turn l n2 (gstate (RelaySession.Serve_turn (handler (server_env now r)) l)
      (gstate (Read_turn l (Ok w1)) s)) = (s1, Ok w2) /\
    let c3 := gstate (RelayClient.Serve_turn (NewClientHandler now')) (gstate (Reader_turn (Ok w2)) c2) in
    gresult (Connect_wait e) c3 = Ok tt /\ cl_state c3 = ClientTransporterStateConnected /\
    cl_cipher c3 = Some ci /\ cl_heartbeatInterval c3 = heartbeatInterval s /\
    sessions s1 !! p = Some l /\ session_running s1 l ses ci /\
    (userID ses, peerID ses, vaddress ses) = (u, p, ip).
Proof using HPO HHO.
  intros Hl Hopen Hint HV Hp Hreg Hw1 Hb1 Hb2 Hn1 Hn2.
  destruct (hs_exchange i r cred (Duration_String HeartbeatInterval) m1 Hw1) as (Hr1 & m2 & ci & Hw2 & Hfin & Hok).
  destruct (Hb2 m2 ci Hw2) as [b2 Hfit2].
  destruct (client_hello i srv cred m1 b1 n1 Hw1 Hb1 Hn1) as (c1 & c2 & Hc1 & Hc2 & Ht2 & Hs2 & Hh2 & Hg2).
  destruct (server_read_hello l s n1 b1 Hl Hn1 ltac:(by destruct Hb1)) as (ses1 & Hread & Hwait).
  destruct (server_answer l (set_heap (<[l := ses1]> (heap s)) s) ses1 now r m1 b1 u p ip cred ci n1)
    with (m2 := m2) as (ses2 & Hserve & Hst & Hci & Hu & Hpe & Hip & _ & Hq); try done.
  { cbn. apply lookup_insert_eq. }
  { cbn. by rewrite Hint. }
  cbn [heap set_heap sessions] in Hserve. rewrite insert_insert_eq in Hserve.
  destruct (client_finish i c2 m2 b2 _ ci n2 now' Ht2 Hs2 Hh2 Hg2 Hfit2 Hn2 Hfin) as (F1 & F2 & F3 & F4).
  eexists c1, c2, _, _, (frame (mkRawPacket PacketType_HandshakeAck n2 b2)), ci, _.
  split; [done|]. split; [done|]. rewrite Hread, Hserve. split.
  { apply (server_write_ack l _ ses2 m2 b2); [|done..]. cbn. apply lookup_insert_eq. }
  split; [unfold gresult, Connect_wait; by rewrite F3|]. split; [done|]. split; [done|]. split.
  { rewrite F4, Hint. by vm_compute. }
  split; [cbn; apply lookup_insert_eq|]. split.
  - split; [cbn; apply lookup_insert_eq|]. by split_and!.
  - cbn. by rewrite Hu, Hpe, Hip.
Qed.

End Handshake.

(** ** Witness *)

Module HandshakeWitness.
#[local] Existing Instance Toy.proto.
#[local] Existing Instance Toy.proto_ok.
#[local] Existing Instance Toy.handshake.
#[local] Existing Instance Toy.handshake_ok.
Import ServerWitness.

Lemma relay_handshake_completes_witness :
  exists c1 c2 w1 s1 w2 ci ses,
    Connect (Ok tt) (Ok tt) (NewClient zero_RelayServer credential) = (c1, Ok tt) /\
    Writer_turn (WriterPacket 7) c1 = (c2, Ok w1) /\
    Write_turn 0 8 (gstate (RelaySession.Serve_turn (handler (server_env (50 * Second) tt)) 0)
      (gstate (Read_turn 0 (Ok w1)) srv1)) = (s1, Ok w2) /\
    let c3 := gstate (RelayClient.Serve_turn (NewClientHandler 0)) (gstate (Reader_turn (Ok w2)) c2) in
    gresult (Connect_wait (EMsg "context deadline exceeded")) c3 = Ok tt /\
    cl_state c3 = ClientTransporterStateConnected /\
    cl_cipher c3 = Some ci /\ cl_heartbeatInterval c3 = heartbeatInterval srv1 /\
    sessions s1 !! 5 = Some 0%nat /\ session_running s1 0 ses ci /\
    (userID ses, peerID ses, vaddress ses) = (3, 5, ip).
Proof.
  apply (relay_handshake_completes tt tt zero_RelayServer credential (Toy.ephemeral ++ credential)
    (Byte.x00 :: Toy.ephemeral ++ credential)); try (by vm_compute); try lia.
  intros m2 c [= <- <-]. eexists. split; [reflexivity|]. split; by vm_compute.
Defined.
End HandshakeWitness.
