(* ===== verification/Tunnel.v ===== *)
(** The peer-to-peer tunnel: [node/mesh/tunnel/tunnel.go] and
    [node/mesh/tunnel/endpoint.go].  Endpoints are shared between the tunnel,
    its discovery goroutine and their own goroutines, so they live in a
    heap. *)
From S2P Require Import Prelude Wire RelayCodec Noise PeerCodec RelayTransport.

(** ** Endpoints *)

(** [Endpoint]: [ep_cancelled] once [cancelFn] ran, after which neither of
    its goroutines serves it. *)
Record Endpoint := mkEndpoint {
  ep_address : string;
  ep_latency : Z;
  ep_lastSeen : Z;
  ep_served : bool;
  ep_cancelled : bool;
  ep_chWrite : list bytes }.

Definition endpointQueue : Z := 128.

Definition newEndpoint (address : string) (latency lastSeen : Z) : Endpoint :=
  mkEndpoint address latency lastSeen false false [].

(** [serve]: the goroutines start once. *)
Definition serve (e : Endpoint) : Endpoint :=
  mkEndpoint (ep_address e) (ep_latency e) (ep_lastSeen e) true (ep_cancelled e) (ep_chWrite e).
Definition cancelFn (e : Endpoint) : Endpoint :=
  mkEndpoint (ep_address e) (ep_latency e) (ep_lastSeen e) (ep_served e) true (ep_chWrite e).
Definition seen (latency now : Z) (e : Endpoint) : Endpoint :=
  mkEndpoint (ep_address e) latency now (ep_served e) (ep_cancelled e) (ep_chWrite e).
Definition queued (data : bytes) (e : Endpoint) : Endpoint :=
  mkEndpoint (ep_address e) (ep_latency e) (ep_lastSeen e) (ep_served e) (ep_cancelled e)
    (ep_chWrite e ++ [data]).

(** One turn of [serveWrite]: what it writes to the socket.  A cancelled
    endpoint has no writer. *)
Definition serveWrite_turn (e : Endpoint) : Endpoint * option bytes :=
  if negb (ep_served e) || ep_cancelled e then (e, None)
  else
    match ep_chWrite e with
    | [] => (e, None)
    | d :: rest =>
      (mkEndpoint (ep_address e) (ep_latency e) (ep_lastSeen e) (ep_served e) (ep_cancelled e) rest, Some d)
    end.

(** ** Tunnels *)

(** [Tunnel].  [t_localEndpoints] and [t_endpoints] are [atomic.Value]s,
    [None] before the first store; [t_current] is the local variable of the
    discovery goroutine; [t_rcServer] is the server the relay client getter
    looks up. *)
Record Tunnel := mkTunnel {
  t_rcServer : ServerID;
  t_localPeerID : PeerID;
  t_peerID : PeerID;
  t_cipher : Cipher;
  t_disco : bool;
  t_closed : bool;
  t_localEndpoints : option (list string);
  t_endpoints : option (list nat);
  t_endpointsCh : list (list string);
  t_current : list string;
  t_eps : gmap nat Endpoint;
  t_pairCounter : Z;
  t_nextPairAt : Z;
  t_lastSendAt : Z;
  t_lastRecvAt : Z }.

Definition New (rcServer : ServerID) (localPeerID peerID : PeerID) (cipher : Cipher) : Tunnel :=
  mkTunnel rcServer localPeerID peerID cipher false false None None [] [] ∅ 0 ZeroTime ZeroTime ZeroTime.

Definition set_eps (m : gmap nat Endpoint) (t : Tunnel) : Tunnel :=
  mkTunnel (t_rcServer t) (t_localPeerID t) (t_peerID t) (t_cipher t) (t_disco t) (t_closed t) (t_localEndpoints t)
    (t_endpoints t) (t_endpointsCh t) (t_current t) m (t_pairCounter t) (t_nextPairAt t)
    (t_lastSendAt t) (t_lastRecvAt t).
Definition set_endpoints (l : list nat) (t : Tunnel) : Tunnel :=
  mkTunnel (t_rcServer t) (t_localPeerID t) (t_peerID t) (t_cipher t) (t_disco t) (t_closed t) (t_localEndpoints t)
    (Some l) (t_endpointsCh t) (t_current t) (t_eps t) (t_pairCounter t) (t_nextPairAt t)
    (t_lastSendAt t) (t_lastRecvAt t).
Definition set_lastSendAt (now : Z) (t : Tunnel) : Tunnel :=
  mkTunnel (t_rcServer t) (t_localPeerID t) (t_peerID t) (t_cipher t) (t_disco t) (t_closed t) (t_localEndpoints t)
    (t_endpoints t) (t_endpointsCh t) (t_current t) (t_eps t) (t_pairCounter t) (t_nextPairAt t)
    now (t_lastRecvAt t).
Definition set_lastRecvAt (now : Z) (t : Tunnel) : Tunnel :=
  mkTunnel (t_rcServer t) (t_localPeerID t) (t_peerID t) (t_cipher t) (t_disco t) (t_closed t) (t_localEndpoints t)
    (t_endpoints t) (t_endpointsCh t) (t_current t) (t_eps t) (t_pairCounter t) (t_nextPairAt t)
    (t_lastSendAt t) now.
Definition set_pair (counter nextAt : Z) (t : Tunnel) : Tunnel :=
  mkTunnel (t_rcServer t) (t_localPeerID t) (t_peerID t) (t_cipher t) (t_disco t) (t_closed t) (t_localEndpoints t)
    (t_endpoints t) (t_endpointsCh t) (t_current t) (t_eps t) counter nextAt
    (t_lastSendAt t) (t_lastRecvAt t).
Definition SetLocalEndpoints (eps : list string) (t : Tunnel) : Tunnel :=
  mkTunnel (t_rcServer t) (t_localPeerID t) (t_peerID t) (t_cipher t) (t_disco t) (t_closed t) (Some eps)
    (t_endpoints t) (t_endpointsCh t) (t_current t) (t_eps t) (t_pairCounter t) (t_nextPairAt t)
    (t_lastSendAt t) (t_lastRecvAt t).
(** The discovery goroutine starts ([disco]) and takes what was sent to
    [endpointsCh]. *)
Definition set_disco (b : bool) (ch : list (list string)) (cur : list string) (t : Tunnel) : Tunnel :=
  mkTunnel (t_rcServer t) (t_localPeerID t) (t_peerID t) (t_cipher t) b (t_closed t) (t_localEndpoints t)
    (t_endpoints t) ch cur (t_eps t) (t_pairCounter t) (t_nextPairAt t)
    (t_lastSendAt t) (t_lastRecvAt t).
Definition set_tclosed (t : Tunnel) : Tunnel :=
  mkTunnel (t_rcServer t) (t_localPeerID t) (t_peerID t) (t_cipher t) (t_disco t) true (t_localEndpoints t)
    (t_endpoints t) (t_endpointsCh t) (t_current t) (t_eps t) (t_pairCounter t) (t_nextPairAt t)
    (t_lastSendAt t) (t_lastRecvAt t).

Definition IsDisco (t : Tunnel) : bool := t_disco t.

(** [ReachableEndpoint]: the first endpoint seen in the last two discovery
    intervals. *)
Definition reachable (now : Z) (e : Endpoint) : bool :=
  time_since now (ep_lastSeen e) <? 2 * DiscoveryDuration.
Fixpoint first_reachable (now : Z) (eps : gmap nat Endpoint) (l : list nat) : option nat :=
  match l with
  | [] => None
  | i :: l' =>
    match eps !! i with
    | Some e => if reachable now e then Some i else first_reachable now eps l'
    | None => first_reachable now eps l'
    end
  end.
Definition ReachableEndpoint (now : Z) (t : Tunnel) : option nat :=
  match t_endpoints t with
  | None => None
  | Some l => first_reachable now (t_eps t) l
  end.

(** [cloneEndpoints]: the endpoints that have not timed out.  A timed-out
    endpoint is dropped, its goroutines and its socket are left alone. *)
Definition cloneEndpoints (now : Z) (t : Tunnel) : list nat :=
  filter (fun i => match t_eps t !! i with
                   | Some e => time_since now (ep_lastSeen e) <=? 2 * DiscoveryDuration
                   | None => false
                   end = true) (default [] (t_endpoints t)).

(** [storeEndpoints]: sorted by latency. *)
Definition ep_le (eps : gmap nat Endpoint) (i j : nat) : Prop :=
  match eps !! i, eps !! j with
  | Some e, Some f => ep_latency e <= ep_latency f
  | _, _ => True
  end.
#[export] Instance ep_le_dec eps i j : Decision (ep_le eps i j).
Proof. unfold ep_le. repeat case_match; apply _. Defined.
Definition storeEndpoints (l : list nat) (t : Tunnel) : Tunnel :=
  set_endpoints (merge_sort (ep_le (t_eps t)) l) t.

(** ** Sending *)

(** What a [Write] did with the data. *)
Inductive WriteOutcome :=
| Direct (ep : nat)                                  (* queued on an endpoint *)
| Blocked (ep : nat)                                 (* waiting for room in its queue *)
| Dropped                                            (* no relay client *)
| Relayed (sent : list (PacketType * Message)).      (* handed to the relay client *)

(** [Write] at [now], with the random nonces of the two encodings.  [relay]
    is what [rcGetter] returns: a relay client, as the outcome of its
    [Send]. *)
Definition Write (now n1 n2 : Z) (relay : option (PacketType -> Message -> result unit)) (data : bytes)
  : GoM Tunnel WriteOutcome := fun t =>
  let t := set_lastSendAt now t in
  match ReachableEndpoint now t with
  | Some i =>
    match t_eps t !! i with
    | None => (t, Panic "invalid memory address or nil pointer dereference")
    | Some e =>
      let encoded := PeerCodec.Encode n1 PacketType_Fragment (t_cipher t) (t_localPeerID t) data in
      if zlen (ep_chWrite e) <? endpointQueue
      then (set_eps (<[i := queued encoded e]> (t_eps t)) t, Ok (Direct i))
      else (t, Ok (Blocked i))
    end
  | None =>
    match relay with
    | None => (t, Ok Dropped)
    | Some send =>
      let packet := MForward (mkPacketForward (t_localPeerID t) (t_peerID t) n2
                                (Encrypt (t_cipher t) n2 data)) in
      match send PacketType_Forward packet with
      | Panic w => (t, Panic w)
      | _ =>
        if negb (t_disco t) && (t_nextPairAt t <? t_lastSendAt t) then
          match t_localEndpoints t with
          | None | Some [] => (t, Ok (Relayed [(PacketType_Forward, packet)]))
          | Some endpoints =>
            let syncPeer := MSyncPeer (mkPacketSyncPeer (t_peerID t) PairRequest
              (Some (mkSyncPeerInfo (t_localPeerID t) 0 "" "" [] None [])) endpoints) in
            let sent := [(PacketType_Forward, packet); (PacketType_SyncPeer, syncPeer)] in
            match send PacketType_SyncPeer syncPeer with
            | Panic w => (t, Panic w)
            | Err _ => (t, Ok (Relayed sent))
            | Ok _ =>
              let counter := t_pairCounter t + 1 in
              let retryInterval := i64 (counter * counter * Second) in
              (set_pair counter (t_lastSendAt t + retryInterval) t, Ok (Relayed sent))
            end
          end
        else (t, Ok (Relayed [(PacketType_Forward, packet)]))
      end
    end
  end.

(** ** Receiving *)

Section Receive.
Context `{Proto}.

(** [onDiscovery] for a packet from [remoteAddr]: the echo it writes back. *)
Definition onDiscovery (now nonce : Z) (remoteAddr : string) (d : PacketDiscovery) : GoM Tunnel (option bytes) :=
  fun t =>
  let echo :=
    if dc_SenderPeerID d =? t_localPeerID t then Ok None
    else match PeerCodec.EncodeMessage nonce PacketType_Discovery (t_cipher t) (t_localPeerID t) (MDiscovery d) with
         | Ok b => Ok (Some b)
         | Err e => Err e
         | Panic w => Panic w
         end in
  match echo with
  | Err _ => (t, Ok None)
  | Panic w => (t, Panic w)
  | Ok out =>
    let endpoints := default [] (t_endpoints t) in
    match endpoints with
    | [] => (t, Ok out)
    | _ =>
      let latency := go_div (time_since now (dc_Timestamp d * 1000)) 2 in
      match list_find (fun i => (ep_address <$> t_eps t !! i) = Some remoteAddr) endpoints with
      | Some (_, i) => (set_eps (alter (seen latency now) i (t_eps t)) t, Ok out)
      | None =>
        let i := fresh (dom (t_eps t)) in
        let t := set_eps (<[i := serve (newEndpoint remoteAddr latency now)]> (t_eps t)) t in
        (storeEndpoints (endpoints ++ [i]) t, Ok out)
      end
    end
  end.

(** What [OnUDPPacket] hands on. *)
Inductive UDPOutcome :=
| Ignored
| Fragment (data : bytes)             (* t.callback.OnFragment *)
| DiscoveryEcho (out : option bytes).

Definition OnUDPPacket (now nonce : Z) (remoteAddr : string) (data : bytes) : GoM Tunnel UDPOutcome :=
  if zlen data <? PacketHeaderSize then mret Ignored
  else
    _ ← gmodify (set_lastRecvAt now);
    match PeerCodec.Decode data with
    | Err _ => mret Ignored
    | Panic w => gpanic w
    | Ok (n, packetType, peerID, payload) =>
      if negb (packetType =? PacketType_Fragment) && negb (packetType =? PacketType_Discovery)
      then mret Ignored
      else
        t ← gget;
        match Decrypt (t_cipher t) n payload with
        | Err _ => mret Ignored
        | Panic w => gpanic w
        | Ok decrypted =>
          if packetType =? PacketType_Discovery then
            match Deserialize PacketType_Discovery decrypted with
            | Err _ => mret Ignored
            | Panic w => gpanic w
            | Ok (MDiscovery d) => (out ← onDiscovery now nonce remoteAddr d; mret (DiscoveryEcho out))
            | Ok _ => gpanic "interface conversion"
            end
          else mret (Fragment decrypted)
        end
    end.

(** ** Discovery *)

(** [SetRemoteEndpoints]. *)
Definition SetRemoteEndpoints (eps : list string) (t : Tunnel) : Tunnel :=
  set_disco true (t_endpointsCh t ++ [eps]) (t_current t) t.

(** The discovery goroutine takes the latest addresses. *)
Definition discovery_receive (t : Tunnel) : Tunnel :=
  match t_endpointsCh t with
  | [] => t
  | eps :: rest => set_disco (t_disco t) rest eps t
  end.

(** [byAddress]: the last endpoint of an address wins. *)
Definition by_address (eps : gmap nat Endpoint) (l : list nat) : gmap string nat :=
  foldl (fun m i => match eps !! i with Some e => <[ep_address e := i]> m | None => m end) ∅ l.

(** The addresses of one round: [acc] is the list of endpoints so far and
    [bya] the endpoints not claimed yet.  [dial] is the outcome of
    [net.Dialer.Dial], the address of the remote end of the socket. *)
Fixpoint discovery_dial (now : Z) (dial : string -> result string) (addrs : list string)
    (acc : list nat) (bya : gmap string nat) (t : Tunnel) : list nat * gmap string nat * Tunnel :=
  match addrs with
  | [] => (acc, bya, t)
  | addr :: rest =>
    match bya !! addr with
    | Some _ => discovery_dial now dial rest acc (delete addr bya) t
    | None =>
      match dial addr with
      | Ok remote =>
        let i := fresh (dom (t_eps t)) in
        let e := serve (newEndpoint remote (time_since now ZeroTime) ZeroTime) in
        discovery_dial now dial rest (acc ++ [i]) (delete addr bya)
          (set_eps (<[i := e]> (t_eps t)) t)
      | _ => discovery_dial now dial rest acc bya t
      end
    end
  end.

(** The endpoints whose [cancelFn] runs. *)
Definition cancel_all (l : list nat) (t : Tunnel) : Tunnel :=
  set_eps (foldl (fun m i => alter cancelFn i m) (t_eps t) l) t.

(** One tick of the discovery goroutine. *)
Definition discovery_tick (now : Z) (dial : string -> result string) (t : Tunnel) : Tunnel :=
  match t_current t with
  | [] => t
  | addrs =>
    let endpoints := cloneEndpoints now t in
    let '(endpoints, bya, t) := discovery_dial now dial addrs endpoints (by_address (t_eps t) endpoints) t in
    cancel_all (map snd (map_to_list bya)) (storeEndpoints endpoints t)
  end.

(** [discoveryEndpoint]: the packet sent to an endpoint. *)
Definition discoveryEndpoint (nowMicro nonce : Z) (t : Tunnel) : result bytes :=
  PeerCodec.EncodeMessage nonce PacketType_Discovery (t_cipher t) (t_localPeerID t)
    (MDiscovery (mkPacketDiscovery (t_localPeerID t) nowMicro)).

(** [Close]. *)
Definition Close : GoM Tunnel unit := fun t =>
  if t_closed t then (t, Ok tt)
  else
    let t := set_tclosed t in
    (match t_endpoints t with Some l => cancel_all l t | None => t end, Ok tt).

End Receive.

(** ** Lemmas *)

Lemma first_reachable_unique now eps l i e :
  i ∈ l -> eps !! i = Some e -> reachable now e = true ->
  (forall j f, j ∈ l -> j <> i -> eps !! j = Some f -> reachable now f = false) ->
  first_reachable now eps l = Some i.
Proof.
  intros Hin He Hr Hothers. induction l as [|j l IH]; [by apply elem_of_nil in Hin|]. cbn.
  destruct (decide (j = i)) as [->|Hne].
  - by rewrite He, Hr.
  - apply elem_of_cons in Hin as [->|Hin]; [done|].
    assert (first_reachable now eps l = Some i) as HI.
    { apply IH; [done|]. intros k g Hk. apply Hothers. by constructor. }
    destruct (eps !! j) as [f|] eqn:Hf; [|done].
    by rewrite (Hothers j f) by (done || constructor).
Qed.

(** An endpoint that was never answered counts as timed out. *)
Lemma never_seen_unreachable now : 0 <= now -> 2 * DiscoveryDuration < time_since now ZeroTime.
Proof.
  intros Hn. unfold time_since, time_sub, ZeroTime, DiscoveryDuration, Second, minInt64, maxInt64. lia.
Qed.

Lemma lookup_cancel_all l t i :
  t_eps (cancel_all l t) !! i = if decide (i ∈ l) then cancelFn <$> t_eps t !! i else t_eps t !! i.
Proof.
  unfold cancel_all; cbn. generalize (t_eps t) as m. induction l as [|j l IH]; intros m; [done|]. cbn [foldl].
  rewrite IH. destruct (decide (j = i)) as [->|Hne].
  - rewrite lookup_alter_eq, (decide_True _ _ (list_elem_of_here i l)).
    case_decide; [|done]. by destruct (m !! i).
  - rewrite lookup_alter_ne by done. destruct (decide (i ∈ l)) as [Hi|Hi].
    + by rewrite decide_True by (by constructor).
    + rewrite decide_False; [done|]. by intros [->|]%elem_of_cons.
Qed.

(** A new, served endpoint nobody answered yet. *)
Definition unanswered (e : Endpoint) : Prop :=
  ep_lastSeen e = ZeroTime /\ ep_served e = true /\ ep_cancelled e = false.

(** One round of dialling: the endpoints that existed are untouched, the new
    ones were never seen and are served, and only addresses of the list
    leave [bya]. *)
Lemma discovery_dial_spec now dial addrs : forall acc bya t acc' bya' t',
  discovery_dial now dial addrs acc bya t = (acc', bya', t') ->
  t_endpoints t' = t_endpoints t /\ t_eps t ⊆ t_eps t' /\ acc ⊆ acc' /\
  (forall i, i ∈ acc' -> i ∈ acc \/
     t_eps t !! i = None /\ exists e, t_eps t' !! i = Some e /\ unanswered e) /\
  bya' ⊆ bya /\ (forall a i, a ∉ addrs -> bya !! a = Some i -> bya' !! a = Some i).
Proof.
  induction addrs as [|a rest IH]; intros acc bya t acc' bya' t' Hd; cbn [discovery_dial] in Hd.
  { simplify_eq. split_and!; auto. }
  destruct (bya !! a) as [k|] eqn:Hk; [|destruct (dial a) as [remote| |]].
  - destruct (IH _ _ _ _ _ _ Hd) as (H1 & H2 & H3 & H4 & H5 & H6). split_and!; try done.
    + transitivity (delete a bya); [done|]. apply delete_subseteq.
    + intros b i [Hb Hr]%not_elem_of_cons Hi. apply H6; [done|]. by rewrite lookup_delete_ne.
  - set (i0 := fresh (dom (t_eps t))) in *.
    assert (t_eps t !! i0 = None) as Hi0 by (apply not_elem_of_dom, is_fresh).
    destruct (IH _ _ _ _ _ _ Hd) as (H1 & H2 & H3 & H4 & H5 & H6). cbn in H1, H2, H4. split_and!; try done.
    + etransitivity; [|exact H2]. by apply insert_subseteq.
    + intros x Hx. apply H3, elem_of_app. by left.
    + intros i [Hx|[Hx Hy]]%H4.
      * apply elem_of_app in Hx as [Hx|Hx]; [by left|]. apply list_elem_of_singleton in Hx as ->. right.
        split; [done|]. eexists. split; [|split_and!; [..|]; cycle 3].
        -- eapply lookup_weaken; [apply lookup_insert_eq|done].
        -- done.
        -- done.
        -- done.
      * right. split; [|done]. by apply lookup_insert_None in Hx as [? _].
    + transitivity (delete a bya); [done|]. apply delete_subseteq.
    + intros b i [Hb Hr]%not_elem_of_cons Hi. apply H6; [done|]. by rewrite lookup_delete_ne.
  - destruct (IH _ _ _ _ _ _ Hd) as (H1 & H2 & H3 & H4 & H5 & H6). split_and!; try done.
    intros b i [Hb Hr]%not_elem_of_cons Hi. by apply H6.
  - destruct (IH _ _ _ _ _ _ Hd) as (H1 & H2 & H3 & H4 & H5 & H6). split_and!; try done.
    intros b i [Hb Hr]%not_elem_of_cons Hi. by apply H6.
Qed.

(** What a write does to the pairing state. *)
Lemma Write_pair now n1 n2 relay data t :
  let t' := gstate (Write now n1 n2 relay data) t in
  t_disco t' = t_disco t /\
  ((t_pairCounter t' = t_pairCounter t /\ t_nextPairAt t' = t_nextPairAt t) \/
   (t_pairCounter t' = t_pairCounter t + 1 /\ t_nextPairAt t < now /\
    t_nextPairAt t' = now + i64 ((t_pairCounter t + 1) * (t_pairCounter t + 1) * Second))).
Proof.
  cbn zeta. unfold gstate, Write. destruct (ReachableEndpoint now _) as [i|].
  { destruct (t_eps _ !! i) as [e|]; [|by split; [|left]]. destruct (_ <? _); by split; [|left]. }
  destruct relay as [send|]; [|by split; [|left]]. destruct (send PacketType_Forward _); [| |by split; [|left]].
  all: destruct (negb (t_disco _)) eqn:Hd; [|by split; [|left]]; cbn [andb t_nextPairAt t_lastSendAt set_lastSendAt];
    destruct (Z.ltb_spec (t_nextPairAt t) now); [|by split; [|left]];
    cbn [t_localEndpoints set_lastSendAt]; destruct (t_localEndpoints t) as [[|ep eps]|]; [by split; [|left]| |by split; [|left]];
    destruct (send PacketType_SyncPeer _); [|by split; [|left]..]; split; [done|right]; done.
Qed.

(** The successful pair requests of a sequence of writes: the instants at
    which they were sent. *)
Record write_call := mkWriteCall {
  wc_now : Z; wc_n1 : Z; wc_n2 : Z;
  wc_relay : option (PacketType -> Message -> result unit); wc_data : bytes }.
Definition do_write (c : write_call) (t : Tunnel) : Tunnel :=
  gstate (Write (wc_now c) (wc_n1 c) (wc_n2 c) (wc_relay c) (wc_data c)) t.
Fixpoint pair_times (ws : list write_call) (t : Tunnel) : list Z :=
  match ws with
  | [] => []
  | c :: ws' =>
    let t' := do_write c t in
    if t_pairCounter t' =? t_pairCounter t then pair_times ws' t' else wc_now c :: pair_times ws' t'
  end.

Definition backoff (k : Z) : Z := k * k * Second.

Lemma backoff_exact k : 0 <= k <= 96000 -> i64 (backoff k) = backoff k.
Proof. intros Hk. apply i64_small. unfold backoff, minInt64, maxInt64, Second. nia. Qed.

Lemma pair_times_head ws : forall t a,
  pair_times ws t !! 0%nat = Some a -> 0 <= t_pairCounter t -> t_nextPairAt t < a.
Proof.
  induction ws as [|c ws IH]; intros t a Ha Hc; [done|]. cbn [pair_times] in Ha.
  destruct (Write_pair (wc_now c) (wc_n1 c) (wc_n2 c) (wc_relay c) (wc_data c) t) as [_ [[H1 H2]|(H1 & H2 & _)]];
    fold (do_write c t) in H1, H2; rewrite ?H1 in Ha.
  - rewrite Z.eqb_refl in Ha. rewrite <- H2. apply IH; [done|lia].
  - destruct (Z.eqb_spec (t_pairCounter t + 1) (t_pairCounter t)); [lia|]. cbn in Ha. congruence.
Qed.

Lemma pair_times_spaced ws : forall t k a b,
  0 <= t_pairCounter t -> t_pairCounter t + Z.of_nat (length ws) <= 96000 ->
  pair_times ws t !! k = Some a -> pair_times ws t !! S k = Some b ->
  a + backoff (t_pairCounter t + Z.of_nat k + 1) < b.
Proof.
  induction ws as [|c ws IH]; intros t k a b Hc Hl Ha Hb; [done|]. cbn [pair_times length] in *.
  destruct (Write_pair (wc_now c) (wc_n1 c) (wc_n2 c) (wc_relay c) (wc_data c) t) as [_ [[H1 H2]|(H1 & H2 & H3)]];
    fold (do_write c t) in H1, H2; rewrite ?H1 in Ha, Hb.
  - rewrite Z.eqb_refl in Ha, Hb. rewrite <- H1. apply (IH _ k); [lia|lia|done..].
  - fold (do_write c t) in H3. fold (backoff (t_pairCounter t + 1)) in H3.
    rewrite backoff_exact in H3 by lia.
    destruct (Z.eqb_spec (t_pairCounter t + 1) (t_pairCounter t)); [lia|]. cbn in Hb. destruct k as [|k].
    + cbn in Ha. simplify_eq. apply pair_times_head in Hb; [|lia].
      rewrite Z.add_0_r. lia.
    + cbn in Ha. pose proof (IH (do_write c t) k a b ltac:(lia) ltac:(lia) Ha Hb) as HH. rewrite H1 in HH.
      replace (t_pairCounter t + Z.of_nat (S k) + 1) with (t_pairCounter t + 1 + Z.of_nat k + 1) by lia. done.
Qed.

(** ** Properties *)

(** C19 (roundtrip).  Data written while an endpoint is reachable is queued
    on it, and what that endpoint then sends is handed, byte for byte, to the
    device by any tunnel that shares the cipher. *)
Theorem tunnel_fragment_roundtrip `{Proto} (a b : Tunnel) (c : Cipher) (now n1 n2 : Z)
    (relay : option (PacketType -> Message -> result unit)) (data : bytes) (i : nat) (e : Endpoint) :
  CipherOk c -> t_cipher a = c -> t_cipher b = c -> 0 <= n1 < 2 ^ 32 -> 0 <= t_localPeerID a < 2 ^ 64 ->
  ReachableEndpoint now a = Some i -> t_eps a !! i = Some e -> zlen (ep_chWrite e) < 128 ->
  exists w, gresult (Write now n1 n2 relay data) a = Ok (Direct i) /\
    t_eps (gstate (Write now n1 n2 relay data) a) !! i = Some (queued w e) /\
    forall now' n' addr, gresult (OnUDPPacket now' n' addr w) b = Ok (Fragment data).
Proof.
  intros Hc Ha Hb Hn Hp Hr He Hq.
  exists (PeerCodec.Encode n1 PacketType_Fragment c (t_localPeerID a) data).
  assert (Write now n1 n2 relay data a =
    (set_eps (<[i := queued (PeerCodec.Encode n1 PacketType_Fragment c (t_localPeerID a) data) e]> (t_eps a))
       (set_lastSendAt now a), Ok (Direct i))) as HW.
  { unfold Write. change (ReachableEndpoint now (set_lastSendAt now a)) with (ReachableEndpoint now a).
    rewrite Hr. cbn [t_eps set_lastSendAt]. rewrite He. unfold endpointQueue.
    destruct (Z.ltb_spec (zlen (ep_chWrite e)) 128); [|lia]. cbn [t_cipher t_localPeerID set_lastSendAt]. by rewrite Ha. }
  unfold gresult, gstate. rewrite HW. split; [done|]. split; [cbn; apply lookup_insert_eq|].
  intros now' n' addr. unfold OnUDPPacket.
  set (w := PeerCodec.Encode _ _ _ _ _).
  assert (zlen w >= 10) as Hw.
  { unfold w, PeerCodec.Encode. rewrite !zlen_app, !zlen_be_put. pose proof (zlen_nonneg (Encrypt c n1 data)). lia. }
  unfold PacketHeaderSize. destruct (Z.ltb_spec (zlen w) 10); [lia|]. cbv [mbind gom_bind gmodify gget].
  unfold w. rewrite Decode_Encode by (done || (unfold PacketType_Fragment; lia)).
  cbn [negb Z.eqb PacketType_Fragment PacketType_Discovery Pos.eqb andb t_cipher set_lastRecvAt].
  rewrite Hb, decrypt_encrypt. done.
Qed.


(** An endpoint the remote peer no longer announces is
    cancelled by the discovery tick but stays in the tunnel: until it times
    out every write is queued on it, although nothing drains that queue any
    more, so the data is lost instead of going through the relay. *)
Theorem pruned_endpoint_keeps_traffic (t : Tunnel) (now : Z) (dial : string -> result string) (i : nat)
    (e : Endpoint) :
  0 <= now -> t_endpoints t = Some [i] -> t_eps t !! i = Some e -> reachable now e = true ->
  t_current t <> [] -> ep_address e ∉ t_current t ->
  let t' := discovery_tick now dial t in
  ReachableEndpoint now t' = Some i /\
  exists e', t_eps t' !! i = Some e' /\ ep_cancelled e' = true /\ serveWrite_turn e' = (e', None) /\
  forall n1 n2 relay data, zlen (ep_chWrite e') < 128 ->
    gresult (Write now n1 n2 relay data) t' = Ok (Direct i).
Proof.
  intros Hnow Hend He Hr Hcur Hnin.
  assert (reachable now (cancelFn e) = true) as Hr' by done.
  assert (t_eps (discovery_tick now dial t) !! i = Some (cancelFn e) /\
    ReachableEndpoint now (discovery_tick now dial t) = Some i) as [He' HR].
  { unfold discovery_tick. destruct (t_current t) as [|a0 addrs] eqn:Hc; [done|]. rewrite <- Hc in *.
    assert (cloneEndpoints now t = [i]) as ->.
    { unfold cloneEndpoints. rewrite Hend. cbn. rewrite He. unfold reachable in Hr. apply Z.ltb_lt in Hr.
      rewrite decide_True; [done|]. apply Z.leb_le. lia. }
    assert (by_address (t_eps t) [i] = {[ep_address e := i]}) as ->.
    { unfold by_address. cbn. by rewrite He. }
    destruct (discovery_dial now dial (t_current t) [i] {[ep_address e := i]} t) as [[eps bya] t1] eqn:Hd.
    destruct (discovery_dial_spec _ _ _ _ _ _ _ _ _ Hd) as (H1 & H2 & H3 & H4 & H5 & H6).
    specialize (H6 (ep_address e) i Hnin (lookup_singleton_eq _ _)).
    assert (i ∈ map snd (map_to_list bya)) as Hib.
    { apply list_elem_of_In, in_map_iff. exists (ep_address e, i). split; [done|].
      by apply list_elem_of_In, elem_of_map_to_list. }
    assert (t_eps t1 !! i = Some e) as He1 by (by eapply lookup_weaken).
    rewrite lookup_cancel_all. cbn [t_eps storeEndpoints set_endpoints].
    rewrite decide_True by done. rewrite He1. split; [done|].
    unfold ReachableEndpoint. change (t_endpoints (cancel_all ?x ?y)) with (t_endpoints y).
    cbn [t_endpoints storeEndpoints set_endpoints].
    assert (merge_sort (ep_le (t_eps t1)) eps ≡ₚ eps) as Hperm by apply merge_sort_Permutation.
    apply (first_reachable_unique _ _ _ _ (cancelFn e)).
    - rewrite Hperm. apply H3. by apply list_elem_of_singleton.
    - rewrite lookup_cancel_all. cbn [t_eps storeEndpoints set_endpoints]. rewrite decide_True by done.
      by rewrite He1.
    - done.
    - intros j f Hj Hne Hf. rewrite Hperm in Hj. destruct (H4 j Hj) as [Hx|[Hx (g & Hg & Hu & _)]].
      { by apply list_elem_of_singleton in Hx. }
      rewrite lookup_cancel_all in Hf. cbn [t_eps storeEndpoints set_endpoints] in Hf. rewrite Hg in Hf.
      assert (ep_lastSeen f = ZeroTime) as Hz by (case_decide; cbn in Hf; by simplify_eq).
      unfold reachable. rewrite Hz. pose proof (never_seen_unreachable now Hnow). apply Z.ltb_ge. lia. }
  split; [done|]. exists (cancelFn e). split; [done|]. split; [done|]. split.
  { unfold serveWrite_turn. cbn. by rewrite orb_true_r. }
  intros n1 n2 relay data Hq. unfold gresult, Write.
  change (ReachableEndpoint now (set_lastSendAt now ?x)) with (ReachableEndpoint now x). rewrite HR.
  cbn [t_eps set_lastSendAt]. rewrite He'. unfold endpointQueue. destruct (Z.ltb_spec (zlen (ep_chWrite (cancelFn e))) 128); [done|lia].
Qed.

(** A first tick on an address nobody answers on. *)
Lemma tick_single now dial addr remote t l :
  t_current t = [addr] -> dial addr = Ok remote -> 0 <= now ->
  t_endpoints t = l -> (forall i, l = Some [i] -> exists e, t_eps t !! i = Some e /\ unanswered e) ->
  l = None \/ (exists i, l = Some [i]) ->
  exists j e, t_eps t !! j = None /\ unanswered e /\
    discovery_tick now dial t = set_endpoints [j] (set_eps (<[j := e]> (t_eps t)) t).
Proof.
  intros Hc Hd Hnow Hl Hi Hlc.
  assert (cloneEndpoints now t = []) as Hclone.
  { unfold cloneEndpoints. rewrite Hl. destruct Hlc as [->|[i ->]]; [done|].
    destruct (Hi i eq_refl) as (e & He & Hz & _). cbn. rewrite He, Hz.
    pose proof (never_seen_unreachable now Hnow). rewrite decide_False; [done|].
    intros Hx%Z.leb_le. lia. }
  set (j := fresh (dom (t_eps t))). set (e := serve (newEndpoint remote (time_since now ZeroTime) ZeroTime)).
  exists j, e. split; [apply not_elem_of_dom, is_fresh|]. split; [done|].
  unfold discovery_tick. rewrite Hc, Hclone. cbn [by_address foldl discovery_dial]. rewrite lookup_empty, Hd.
  fold j e. cbn [discovery_dial app]. rewrite delete_empty, map_to_list_empty. done.
Qed.

(** A peer that does not answer on an announced address makes
    the tunnel open one more socket, with two goroutines, at every discovery
    tick: the previous endpoint has timed out from the start, so it is
    dropped from the tunnel without being cancelled, and not even [Close]
    stops it. *)
Theorem unanswered_endpoints_leak (t : Tunnel) (now now' : Z) (dial : string -> result string) (addr remote : string) :
  0 <= now -> 0 <= now' -> t_current t = [addr] -> t_endpoints t = None -> dial addr = Ok remote ->
  let t2 := discovery_tick now' dial (discovery_tick now dial t) in
  exists i j e, t_endpoints (discovery_tick now dial t) = Some [i] /\ t_endpoints t2 = Some [j] /\ i <> j /\
    t_eps (gstate Close t2) !! i = Some e /\ ep_served e = true /\ ep_cancelled e = false.
Proof.
  intros Hn Hn' Hc Hnone Hd.
  destruct (tick_single now dial addr remote t None) as (i & e & Hi & (Hz & Hs & Hca) & ->); try done; [by left|].
  set (t1 := set_endpoints [i] _).
  destruct (tick_single now' dial addr remote t1 (Some [i])) as (j & e' & Hj & He' & ->); try done.
  - intros i' [= <-]. exists e. split; [cbn; apply lookup_insert_eq|done].
  - right. by exists i.
  - assert (i <> j) as Hne.
    { intros <-. cbn in Hj. by rewrite lookup_insert_eq in Hj. }
    exists i, j, e. split; [done|]. split; [done|]. split; [done|]. split; [|done].
    unfold gstate, Close. destruct (t_closed _); cbn [fst].
    + cbn. rewrite lookup_insert_ne by done. apply lookup_insert_eq.
    + cbn [t_endpoints set_tclosed set_endpoints]. rewrite lookup_cancel_all. rewrite decide_False by (by intros Hx%list_elem_of_singleton).
      cbn. rewrite lookup_insert_ne by done. apply lookup_insert_eq.
Qed.

(** ** Witnesses *)

Module TunnelWitness.
#[local] Existing Instance Toy.proto.

Definition T0 : Z := 1000 * Second.
Definition alive : Endpoint := mkEndpoint "198.51.100.1:4000" 1000 T0 true false [].
Definition near : Tunnel :=
  set_disco true [] ["198.51.100.2:4000"]
    (set_endpoints [0%nat] (set_eps {[0%nat := alive]} (New 1 5 6 Toy.cipher))).
Definition far : Tunnel := New 1 6 5 Toy.cipher.

Lemma tunnel_fragment_roundtrip_witness :
  exists w, gresult (Write T0 1 2 None [Byte.x2a]) near = Ok (Direct 0) /\
    t_eps (gstate (Write T0 1 2 None [Byte.x2a]) near) !! 0%nat = Some (queued w alive) /\
    forall now' n' addr, gresult (OnUDPPacket now' n' addr w) far = Ok (Fragment [Byte.x2a]).
Proof.
  apply (tunnel_fragment_roundtrip near far Toy.cipher T0 1 2 None [Byte.x2a] 0 alive);
    [apply Toy.cipher_ok|try done..]; cbn; lia.
Defined.

Definition ok_relay : option (PacketType -> Message -> result unit) := Some (fun _ _ => Ok tt).
Definition paired : Tunnel := SetLocalEndpoints ["10.0.0.1:4000"] (New 1 5 6 Toy.cipher).

(** The pair counter grows with each successful request. *)
Example pair_request_counts :
  t_pairCounter (do_write (mkWriteCall T0 1 2 ok_relay []) paired) = 1.
Proof. by vm_compute. Qed.

(** Three writes, of which the middle one comes too early to pair again. *)
Definition writes : list write_call :=
  map (fun d => mkWriteCall (T0 + d) 1 2 ok_relay []) [0; Second; 2 * Second].


Definition dial_ok (a : string) : result string := Ok a.

Lemma pruned_endpoint_keeps_traffic_witness :
  ReachableEndpoint T0 (discovery_tick T0 dial_ok near) = Some 0%nat.
Proof.
  refine (proj1 (pruned_endpoint_keeps_traffic near T0 dial_ok 0 alive _ _ _ _ _ _)); try (by vm_compute); try done.
  by intros Hx%list_elem_of_singleton.
Defined.

Lemma unanswered_endpoints_leak_witness :
  let t0 := set_disco true [] ["198.51.100.2:4000"] (New 1 5 6 Toy.cipher) in
  let t2 := discovery_tick T0 dial_ok (discovery_tick T0 dial_ok t0) in
  exists i j e, t_endpoints (discovery_tick T0 dial_ok t0) = Some [i] /\ t_endpoints t2 = Some [j] /\ i <> j /\
    t_eps (gstate Close t2) !! i = Some e /\ ep_served e = true /\ ep_cancelled e = false.
Proof.
  apply (unanswered_endpoints_leak (set_disco true [] ["198.51.100.2:4000"] (New 1 5 6 Toy.cipher)) T0 T0 dial_ok
    "198.51.100.2:4000" "198.51.100.2:4000"); by vm_compute.
Defined.
End TunnelWitness.
