(* ===== verification/Router.v ===== *)
(** The route table of the virtual device: [node/device/router.go] and
    [node/device/set.go].  The platform calls that change the kernel's table
    ([router.add], [router.del]) are the environment; [Router] is what the
    mesh manager relies on. *)
From S2P Require Import Prelude.
#[local] Set Warnings "-clear-no-such-hyp".

Section Router.
Context {IP : Type} `{Countable IP}.

(** [netaddr.IPPrefix]: an address and a length. *)
Abbreviation IPPrefix := (IP * Z)%type.
(** [Set] of [set.go]: a Go map used as a set. *)
Abbreviation PrefixSet := (gset (IP * Z)).

Record Config := mkConfig { cfg_LocalAddress : IP; cfg_Routes : list IPPrefix }.

Definition NewSet (ips : list IPPrefix) : PrefixSet := list_to_set ips.
Definition Has (s : PrefixSet) (ip : IPPrefix) : bool := bool_decide (ip ∈ s).
Definition Add_ (s : PrefixSet) (ip : IPPrefix) : PrefixSet := s ∪ {[ip]}.

(** [router]: the cached routes, [None] before the first store, and the
    kernel's table for the device. *)
Record router := mkRouter { routes : option (list IPPrefix); table : PrefixSet }.
Definition newRouter : router := mkRouter None ∅.

Definition old_set (r : router) : PrefixSet :=
  match routes r with Some o => NewSet o | None => ∅ end.

(** The elements of [a] that are not in [b], collected as the loops do. *)
Definition missing_from (a : list IPPrefix) (b : PrefixSet) : PrefixSet :=
  foldl (fun acc ip => if Has b ip then acc else Add_ acc ip) ∅ a.

(** The platform calls, in the order the map is visited; [ok] says which of
    them succeed.  A failure is logged. *)
Definition del_all (ok : IPPrefix -> bool) (ips : list IPPrefix) (t : PrefixSet) : PrefixSet :=
  foldl (fun t ip => if ok ip then t ∖ {[ip]} else t) t ips.
Definition add_all (ok : IPPrefix -> bool) (ips : list IPPrefix) (t : PrefixSet) : PrefixSet :=
  foldl (fun t ip => if ok ip then t ∪ {[ip]} else t) t ips.

Definition Set_ (add_ok del_ok : IPPrefix -> bool) (cfg : Config) (r : router) : router :=
  let old := old_set r in
  let cur := NewSet (cfg_Routes cfg) in
  let del := missing_from (elements old) cur in
  let add := missing_from (elements cur) old in
  mkRouter (Some (cfg_Routes cfg))
    (add_all add_ok (elements add) (del_all del_ok (elements del) (table r))).

Definition Add (add_ok : IPPrefix -> bool) (cfg : Config) (r : router) : router :=
  let old := old_set r in
  let cur := NewSet (cfg_Routes cfg) in
  let add := missing_from (elements cur) old in
  mkRouter
    (match routes r with
     | Some o => Some (o ++ elements add)
     | None => Some (cfg_Routes cfg)
     end)
    (add_all add_ok (elements add) (table r)).

(** ** Lemmas *)

Lemma elem_of_missing a b ip : ip ∈ missing_from a b <-> ip ∈ a /\ ip ∉ b.
Proof using Type.
  unfold missing_from.
  enough (forall acc, ip ∈ foldl (fun acc ip => if Has b ip then acc else Add_ acc ip) acc a
    <-> ip ∈ acc \/ (ip ∈ a /\ ip ∉ b)) as Hg by (rewrite Hg; set_solver).
  induction a as [|x a IH]; intros acc; cbn; [set_solver|]. rewrite IH. unfold Has, Add_.
  case_bool_decide; set_solver.
Qed.

Lemma elem_of_add_all ips t ip : ip ∈ add_all (fun _ => true) ips t <-> ip ∈ t \/ ip ∈ ips.
Proof using Type.
  unfold add_all. revert t. induction ips as [|x ips IH]; intros t; cbn; [set_solver|]. rewrite IH. set_solver.
Qed.

Lemma elem_of_del_all ips t ip : ip ∈ del_all (fun _ => true) ips t <-> ip ∈ t /\ ip ∉ ips.
Proof using Type.
  unfold del_all. revert t. induction ips as [|x ips IH]; intros t; cbn; [set_solver|]. rewrite IH. set_solver.
Qed.

(** The cache describes the table. *)
Definition synced (r : router) : Prop := table r = old_set r.

End Router.

(** ** What a client of the router relies on *)

(** The [device.Router] interface, with the set of routes it stands for. *)
Class Router (IP : Type) `{Countable IP} (R : Type) := {
  router_Set : @Config IP -> R -> R;
  router_Add : @Config IP -> R -> R;
  router_view : R -> gset (IP * Z) }.

Class RouterOk (IP : Type) `{Countable IP} (R : Type) `{!Router IP R} : Prop := {
  router_Set_view : forall cfg r, router_view (router_Set cfg r) = list_to_set (cfg_Routes cfg);
  router_Add_view : forall cfg r, router_view (router_Add cfg r) = router_view r ∪ list_to_set (cfg_Routes cfg) }.

(** The implementation, when the platform calls succeed. *)
#[export] Instance router_impl (IP : Type) `{Countable IP} : Router IP (@router IP _ _) := {|
  router_Set := Set_ (fun _ => true) (fun _ => true);
  router_Add := Add (fun _ => true);
  router_view := old_set |}.

#[export] Instance router_impl_ok (IP : Type) `{Countable IP} : RouterOk IP (@router IP _ _).
Proof.
  split; [done|]. intros cfg r. cbn. unfold Add, old_set. destruct (routes r) as [o|]; cbn.
  - unfold NewSet. rewrite list_to_set_app_L, list_to_set_elements_L. apply set_eq. intros ip.
    rewrite !elem_of_union, elem_of_missing, elem_of_elements.
    destruct (decide (ip ∈ (list_to_set o : gset (IP * Z)))); tauto.
  - set_solver.
Qed.

(** ** Properties *)

(** C35 (refinement).  When the platform calls succeed, the kernel's table is
    exactly what the configuration asks for: [Set] replaces it by the routes
    given, removing only those that disappeared, and [Add] extends it; both
    keep the cache equal to the table, so the two can be mixed in any
    order. *)
Theorem router_follows_configuration {IP : Type} `{Countable IP} (r : router) (cfg : @Config IP) :
  synced r ->
  (let r' := Set_ (fun _ => true) (fun _ => true) cfg r in
   synced r' /\ table r' = list_to_set (cfg_Routes cfg)) /\
  (let r' := Add (fun _ => true) cfg r in
   synced r' /\ table r' = table r ∪ list_to_set (cfg_Routes cfg)).
Proof.
  intros Hs. unfold synced in *. split; cbn zeta.
  - enough (table (Set_ (fun _ => true) (fun _ => true) cfg r) = list_to_set (cfg_Routes cfg)) as -> by done.
    apply set_eq. intros ip. cbn. rewrite elem_of_add_all, elem_of_del_all, !elem_of_elements, !elem_of_missing,
      !elem_of_elements, Hs. unfold NewSet.
    destruct (decide (ip ∈ old_set r)), (decide (ip ∈ (list_to_set (cfg_Routes cfg) : gset (IP * Z)))); tauto.
  - assert (table (Add (fun _ => true) cfg r) = table r ∪ list_to_set (cfg_Routes cfg)) as HA.
    { apply set_eq. intros ip. cbn. rewrite elem_of_add_all, elem_of_elements, elem_of_missing, elem_of_elements,
        elem_of_union, Hs. unfold NewSet.
      destruct (decide (ip ∈ old_set r)), (decide (ip ∈ (list_to_set (cfg_Routes cfg) : gset (IP * Z)))); tauto. }
    split; [|done]. rewrite HA, Hs. symmetry. exact (@router_Add_view IP _ _ router (router_impl IP) (router_impl_ok IP) cfg r).
Qed.

(** A route whose platform call failed is cached as present all the same:
    setting the same configuration again does not retry it. *)
Example failed_route_not_retried :
  let cfg := mkConfig 0%nat [(7%nat, 32)] in
  let r := Set_ (fun _ => false) (fun _ => true) cfg newRouter in
  table r = ∅ /\ table (Set_ (fun _ => true) (fun _ => true) cfg r) = ∅.
Proof. by vm_compute. Qed.

Lemma router_follows_configuration_witness :
  let r' := Set_ (fun _ => true) (fun _ => true) (mkConfig 0%nat [(7%nat, 32)]) newRouter in
  synced r' /\ table r' = list_to_set [(7%nat, 32)].
Proof. apply (router_follows_configuration newRouter (mkConfig 0%nat [(7%nat, 32)])). by vm_compute. Defined.
