(* ===== verification/MeshManager.v ===== *)
(** The mesh of peers: [node/mesh/peer/peer.go], [node/mesh/manager.go],
    [node/mesh/summary.go] and [node/mesh/types/local_peer.go].  Peers are
    shared by the [peers] and [index] maps, so they live in a heap. *)
From S2P Require Import Prelude Wire RelayCodec Noise PeerCodec RelayTransport Tunnel Router.
#[local] Set Warnings "-clear-no-such-hyp".

(** ** Peers ([peer.go]) *)

Definition probeInterval : Z := 600 * Second.
Definition catchupInterval : Z := 30 * Second.

(** [Peer] with its [ProbeInfo] and [CatchupInfo]. *)
Record PeerObj := mkPeerObj {
  po_info : Peer;
  po_tunnel : option Tunnel;
  po_lastProbeRequestAt : Z;
  po_lastProbeResponseAt : Z;
  po_isOnline : bool;
  po_lastSendCatchupAt : Z;
  po_catchupAt : Z;
  po_isCatchup : bool;
  po_noAckCounter : Z }.

Definition peer_New (info : Peer) : PeerObj :=
  mkPeerObj info None ZeroTime ZeroTime false ZeroTime ZeroTime false 0.

Definition SetProbeStatus (now : Z) (isOnline : bool) (p : PeerObj) : PeerObj :=
  mkPeerObj (po_info p) (po_tunnel p) (po_lastProbeRequestAt p) now isOnline
    (po_lastSendCatchupAt p) (po_catchupAt p) (po_isCatchup p) (po_noAckCounter p).
Definition IsNeedProbe (now : Z) (p : PeerObj) : bool :=
  probeInterval <? time_since now (po_lastProbeRequestAt p).
(** The retry interval is [(NoAckCounter+1)^2 * catchupInterval] on an
    [int64]. *)
Definition retryCatchupInterval (p : PeerObj) : Z :=
  i64 ((po_noAckCounter p + 1) * (po_noAckCounter p + 1) * catchupInterval).
Definition IsNeedCatchup (now : Z) (p : PeerObj) : bool :=
  if po_isCatchup p then false
  else retryCatchupInterval p <? time_since now (po_lastSendCatchupAt p).
Definition SetLastSendCatchupAt (at_ : Z) (p : PeerObj) : PeerObj :=
  mkPeerObj (po_info p) (po_tunnel p) (po_lastProbeRequestAt p) (po_lastProbeResponseAt p) (po_isOnline p)
    at_ (po_catchupAt p) (po_isCatchup p) (po_noAckCounter p + 1).
Definition SetCatchupAt (now : Z) (p : PeerObj) : PeerObj :=
  mkPeerObj (po_info p) (po_tunnel p) (po_lastProbeRequestAt p) (po_lastProbeResponseAt p) (po_isOnline p)
    (po_lastSendCatchupAt p) now true 0.
Definition SetLastProbeRequestAt (at_ : Z) (p : PeerObj) : PeerObj :=
  mkPeerObj (po_info p) (po_tunnel p) at_ (po_lastProbeResponseAt p) (po_isOnline p)
    (po_lastSendCatchupAt p) (po_catchupAt p) (po_isCatchup p) (po_noAckCounter p).
(** [SetTunnel]; the tunnel it replaces is closed first. *)
Definition SetTunnel (t : Tunnel) (p : PeerObj) : PeerObj :=
  mkPeerObj (po_info p) (Some t) (po_lastProbeRequestAt p) (po_lastProbeResponseAt p) (po_isOnline p)
    (po_lastSendCatchupAt p) (po_catchupAt p) (po_isCatchup p) (po_noAckCounter p).
(** [peer.Close]: a method call on a nil tunnel dereferences it. *)
Definition peer_Close : GoM PeerObj unit := fun p =>
  match po_tunnel p with
  | None => (p, Panic "invalid memory address or nil pointer dereference")
  | Some t => (SetTunnel (gstate Tunnel.Close t) p, Ok tt)
  end.

(** ** What the manager uses of other components *)

(** A relay client of [relay.Manager]: its server and the outcome of its
    [Send]. *)
Record RelayHandle := mkRelayHandle {
  rh_server : RelayServer;
  rh_Send : PacketType -> Message -> result unit }.

(** [relay.Manager], as far as the mesh uses it. *)
Class RelayClients := {
  RelayServerClient : ServerID -> option RelayHandle;
  PrimaryRelayServerClient : option RelayHandle }.

(** [netaddr.ParseIP] and [IP.String]; [noise.DH25519.DH] and
    [noise.CipherChaChaPoly.Cipher]. *)
Class NetAddr (IP : Type) := {
  ParseIP : string -> result IP;
  IP_String : IP -> string }.
Class KeyExchange := {
  DH : bytes -> bytes -> result bytes;
  ChaChaPoly : bytes -> Cipher }.

(** [LocalPeer]. *)
Record LocalPeer (IP : Type) := mkLocalPeer {
  lp_Name : string; lp_UserID : UserID; lp_PeerID : PeerID;
  lp_Private : bytes; lp_Public : bytes; lp_VIPv4 : IP;
  lp_Networks : list PacketSyncPeer_Network }.
Arguments mkLocalPeer {IP}. Arguments lp_Name {IP}. Arguments lp_UserID {IP}. Arguments lp_PeerID {IP}.
Arguments lp_Private {IP}. Arguments lp_Public {IP}. Arguments lp_VIPv4 {IP}. Arguments lp_Networks {IP}.

(** ** Summaries ([summary.go]) *)

Inductive State := StatePending | StateRelay | StateP2P.
Record Device := mkDevice { dev_Name : string; dev_IPv4 : string; dev_Status : State }.
Record NetworkSummary := mkNetworkSummary { ns_ID : Z; ns_Name : string; ns_Devices : list Device }.
Record Summary := mkSummary {
  sm_LastChangedAt : Z; sm_MyDevices : list Device; sm_Networks : list NetworkSummary }.

(** ** The manager *)

Section Mesh.
Context {IP : Type} `{HIP : Countable IP} `{HNet : !NetAddr IP} {R : Type} `{HRt : !Router IP R}
  `{HRc : !RelayClients} `{HKx : !KeyExchange}.

(** [Manager].  [mm_locked] is set when [mu] has been left locked;
    [mm_cap] is the capacity of the stored [networks] slice; [mm_sent] logs
    the messages the relay clients accepted. *)
Record Manager := mkManager {
  mm_localPeer : LocalPeer IP;
  mm_router : R;
  mm_networks : option (list Network);
  mm_cap : nat;
  mm_endpoints : option (list string);
  mm_locked : bool;
  mm_peers : gmap Z nat;
  mm_index : gmap string nat;
  mm_heap : gmap nat PeerObj;
  mm_lastChangedAt : Z;
  mm_cachedSummary : option Summary;
  mm_sent : list (ServerID * PacketType * Message) }.

Definition NewManager (lp : LocalPeer IP) (r : R) : Manager :=
  mkManager lp r None 0 None false ∅ ∅ ∅ ZeroTime None [].

Definition set_peers (peers : gmap Z nat) (index : gmap string nat) (m : Manager) : Manager :=
  mkManager (mm_localPeer m) (mm_router m) (mm_networks m) (mm_cap m) (mm_endpoints m) (mm_locked m)
    peers index (mm_heap m) (mm_lastChangedAt m) (mm_cachedSummary m) (mm_sent m).
Definition set_pheap (h : gmap nat PeerObj) (m : Manager) : Manager :=
  mkManager (mm_localPeer m) (mm_router m) (mm_networks m) (mm_cap m) (mm_endpoints m) (mm_locked m)
    (mm_peers m) (mm_index m) h (mm_lastChangedAt m) (mm_cachedSummary m) (mm_sent m).
Definition set_networks (ns : list Network) (cap : nat) (m : Manager) : Manager :=
  mkManager (mm_localPeer m) (mm_router m) (Some ns) cap (mm_endpoints m) (mm_locked m)
    (mm_peers m) (mm_index m) (mm_heap m) (mm_lastChangedAt m) (mm_cachedSummary m) (mm_sent m).
Definition set_localPeer (lp : LocalPeer IP) (m : Manager) : Manager :=
  mkManager lp (mm_router m) (mm_networks m) (mm_cap m) (mm_endpoints m) (mm_locked m)
    (mm_peers m) (mm_index m) (mm_heap m) (mm_lastChangedAt m) (mm_cachedSummary m) (mm_sent m).
Definition set_mendpoints (eps : list string) (m : Manager) : Manager :=
  mkManager (mm_localPeer m) (mm_router m) (mm_networks m) (mm_cap m) (Some eps) (mm_locked m)
    (mm_peers m) (mm_index m) (mm_heap m) (mm_lastChangedAt m) (mm_cachedSummary m) (mm_sent m).
Definition set_locked (b : bool) (m : Manager) : Manager :=
  mkManager (mm_localPeer m) (mm_router m) (mm_networks m) (mm_cap m) (mm_endpoints m) b
    (mm_peers m) (mm_index m) (mm_heap m) (mm_lastChangedAt m) (mm_cachedSummary m) (mm_sent m).
Definition set_router (r : R) (m : Manager) : Manager :=
  mkManager (mm_localPeer m) r (mm_networks m) (mm_cap m) (mm_endpoints m) (mm_locked m)
    (mm_peers m) (mm_index m) (mm_heap m) (mm_lastChangedAt m) (mm_cachedSummary m) (mm_sent m).
Definition markChanged (now : Z) (m : Manager) : Manager :=
  mkManager (mm_localPeer m) (mm_router m) (mm_networks m) (mm_cap m) (mm_endpoints m) (mm_locked m)
    (mm_peers m) (mm_index m) (mm_heap m) now (mm_cachedSummary m) (mm_sent m).
Definition set_cached (s : Summary) (m : Manager) : Manager :=
  mkManager (mm_localPeer m) (mm_router m) (mm_networks m) (mm_cap m) (mm_endpoints m) (mm_locked m)
    (mm_peers m) (mm_index m) (mm_heap m) (mm_lastChangedAt m) (Some s) (mm_sent m).
Definition log_sent (x : ServerID * PacketType * Message) (m : Manager) : Manager :=
  mkManager (mm_localPeer m) (mm_router m) (mm_networks m) (mm_cap m) (mm_endpoints m) (mm_locked m)
    (mm_peers m) (mm_index m) (mm_heap m) (mm_lastChangedAt m) (mm_cachedSummary m) (mm_sent m ++ [x]).

Abbreviation M := (GoM Manager).
Abbreviation mget := (gget : M Manager).

(** A goroutine that waits for a mutex nobody will unlock. *)
Definition deadlock : string := "all goroutines are asleep - deadlock!".
(** [m.mu.Lock()] (or [RLock]) when no other goroutine holds it: it only
    waits when the mutex was left locked. *)
Definition Lock : M unit := fun m =>
  if mm_locked m then (m, Panic deadlock) else (set_locked true m, Ok tt).
Definition Unlock : M unit := gmodify (set_locked false).

Definition deref (l : nat) : M PeerObj := fun m =>
  match mm_heap m !! l with
  | Some p => (m, Ok p)
  | None => (m, Panic "invalid memory address or nil pointer dereference")
  end.
Definition on_peer (l : nat) (f : PeerObj -> PeerObj) : M unit :=
  gmodify (fun m => set_pheap (alter f l (mm_heap m)) m).
(** [client.Send]. *)
Definition send (c : RelayHandle) (typ : PacketType) (msg : Message) : M unit := fun m =>
  match rh_Send c typ msg with
  | Ok _ => (log_sent (rs_ID (rh_server c), typ, msg) m, Ok tt)
  | Err e => (m, Err e)
  | Panic w => (m, Panic w)
  end.

(** [Manager.Tunnel] and [Manager.Peer]. *)
Definition Tunnel_ (dest : string) : M (option Tunnel) :=
  _ ← Lock; m ← mget; _ ← Unlock;
  match mm_index m !! dest with
  | None => mret None
  | Some l => p ← deref l; mret (po_tunnel p)
  end.
Definition Peer_ (peerID : PeerID) : M (option nat) :=
  _ ← Lock; m ← mget; _ ← Unlock; mret (mm_peers m !! peerID).

(** [relayClientGetter]. *)
Definition relayClientGetter (serverID : ServerID) : option RelayHandle :=
  match RelayServerClient serverID with
  | Some c => Some c
  | None => PrimaryRelayServerClient
  end.

(** *** Probing *)

(** [probeGroup[serverID] = append(...)] over the peers in the order the map
    is visited. *)
Definition group_add (sid : ServerID) (pid : Z) (g : list (ServerID * list Z)) : list (ServerID * list Z) :=
  match list_find (fun x => fst x = sid) g with
  | Some (i, (_, l)) => <[i := (sid, l ++ [pid])]> g
  | None => g ++ [(sid, [pid])]
  end.
Definition probe_groups (now : Z) (order : list PeerID) (m : Manager) : list (ServerID * list Z) :=
  foldl (fun g pid =>
    match mm_peers m !! pid with
    | None => g
    | Some l =>
      match mm_heap m !! l with
      | None => g
      | Some p =>
        if pr_ID (po_info p) =? lp_PeerID (mm_localPeer m) then g
        else if IsNeedProbe now p then group_add (pr_ServerID (po_info p)) (pr_ID (po_info p)) g
        else g
      end
    end) [] order.

Definition probePeers (now : Z) (order : list PeerID) : M unit :=
  _ ← Lock; m ← mget; _ ← Unlock;
  gfor (probe_groups now order m) (fun '(serverID, peerIDs) =>
    match RelayServerClient serverID with
    | None => mret tt
    | Some client => fun m =>
      match send client PacketType_ProbeRequest (MProbeRequest (mkPacketProbeRequest peerIDs)) m with
      | (m, Ok _) =>
        (_ ← Lock;
         _ ← gfor peerIDs (fun pid =>
               m ← mget;
               match mm_peers m !! pid with
               | Some l => on_peer l (SetLastProbeRequestAt now)
               | None => gpanic "invalid memory address or nil pointer dereference"
               end);
         Unlock) m
      | (m, Err _) => (m, Ok tt)
      | (m, Panic w) => (m, Panic w)
      end
    end).

(** *** [Update] *)

(** The first loop: the peers of the new map and the routes; [None] for the
    error return, which leaves the mutex locked. *)
Fixpoint update_peers (local : PeerID) (old : gmap Z nat) (latest : list Peer)
    (peers : gmap Z nat) (h : gmap nat PeerObj) (routes : list (IP * Z))
  : gmap nat PeerObj * result (gmap Z nat * list (IP * Z)) :=
  match latest with
  | [] => (h, Ok (peers, routes))
  | lp :: rest =>
    let '(l, h) := match old !! pr_ID lp with
                   | Some l => (l, h)
                   | None => let l := fresh (dom h) in (l, <[l := peer_New lp]> h)
                   end in
    let peers := <[pr_ID lp := l]> peers in
    match h !! l with
    | None => (h, Panic "invalid memory address or nil pointer dereference")
    | Some p =>
      if pr_ID (po_info p) =? local then update_peers local old rest peers h routes
      else
        match ParseIP (pr_IPv4 lp) with
        | Ok addr => update_peers local old rest peers h (routes ++ [(addr, 32)])
        | Err e => (h, Err (EWrap "parse ipv4 address in Update" e))
        | Panic w => (h, Panic w)
        end
    end
  end.

(** [index[p.IPv4()] = p] over the new peers, in the order visited. *)
Definition build_index (order : list PeerID) (peers : gmap Z nat) (h : gmap nat PeerObj) : gmap string nat :=
  foldl (fun idx pid =>
    match peers !! pid with
    | Some l => match h !! l with Some p => <[pr_IPv4 (po_info p) := l]> idx | None => idx end
    | None => idx
    end) ∅ order.

Definition self_networks (ns : list Network) : list PacketSyncPeer_Network :=
  map (fun n => mkSyncNetwork (nw_Name n) (nw_ID n)) ns.

(** [order1] visits the new peers, [order2] the old ones, [order3] is the
    order of the final probe. *)
Definition Update (now : Z) (cap : nat) (order1 order2 order3 : list PeerID)
    (latestNetworks : list Network) (latestPeers : list Peer) : M unit :=
  _ ← gmodify (set_networks latestNetworks cap);
  _ ← gmodify (fun m => let lp := mm_localPeer m in
        set_localPeer (mkLocalPeer (lp_Name lp) (lp_UserID lp) (lp_PeerID lp) (lp_Private lp)
          (lp_Public lp) (lp_VIPv4 lp) (self_networks latestNetworks)) m);
  _ ← Lock;
  m ← mget;
  let '(h, res) := update_peers (lp_PeerID (mm_localPeer m)) (mm_peers m) latestPeers ∅ (mm_heap m) [] in
  _ ← gmodify (set_pheap h);
  match res with
  | Err e => gthrow e
  | Panic w => gpanic w
  | Ok (peers, routes) =>
    let index := build_index order1 peers h in
    _ ← gfor order2 (fun pid =>
          m ← mget;
          match mm_peers m !! pid with
          | None => mret tt
          | Some l =>
            p ← deref l;
            match peers !! pr_ID (po_info p) with
            | Some _ => mret tt
            | None =>
              match peer_Close p with
              | (p', Ok _) => on_peer l (fun _ => p')
              | (_, Err e) => gthrow e
              | (_, Panic w) => gpanic w
              end
            end
          end);
    _ ← gmodify (set_peers peers index);
    _ ← Unlock;
    _ ← gmodify (fun m => set_router (router_Set (mkConfig (lp_VIPv4 (mm_localPeer m)) routes) (mm_router m)) m);
    _ ← gmodify (markChanged now);
    probePeers now order3
  end.

(** *** Probe results *)

Definition ProbeResult (now : Z) (probe : PacketProbeResponse) : M unit :=
  _ ← Lock;
  m0 ← mget;
  _ ← gfor (prs_OnlinePeers probe) (fun pid =>
        match mm_peers m0 !! pid with Some l => on_peer l (SetProbeStatus now true) | None => mret tt end);
  _ ← gfor (prs_OfflinePeers probe) (fun pid =>
        match mm_peers m0 !! pid with Some l => on_peer l (SetProbeStatus now false) | None => mret tt end);
  _ ← Unlock;
  let catchupPeers := omap (fun pid =>
        match mm_peers m0 !! pid with
        | Some l => match mm_heap m0 !! l with
                    | Some p => if IsNeedCatchup now p then Some (l, po_info p) else None
                    | None => None
                    end
        | None => None
        end) (prs_OnlinePeers probe) in
  match catchupPeers, PrimaryRelayServerClient with
  | [], _ => mret tt
  | _, None => mret tt
  | _, Some pc =>
    let rs := rh_server pc in
    let lp := mm_localPeer m0 in
    let peerInfo := mkSyncPeerInfo (lp_PeerID lp) (lp_UserID lp) (lp_Name lp) (IP_String (lp_VIPv4 lp))
      (lp_Public lp)
      (Some (mkSyncRelayServer (rs_ID rs) (rs_Name rs) (rs_Region rs) (rs_Host rs) (u32 (rs_Port rs)) (rs_PublicKey rs)))
      (lp_Networks lp) in
    gfor catchupPeers (fun '(l, info) =>
      match RelayServerClient (pr_ServerID info) with
      | None => mret tt
      | Some client => fun m =>
        match send client PacketType_SyncPeer
                (MSyncPeer (mkPacketSyncPeer (pr_ID info) Catchup (Some peerInfo) [])) m with
        | (m, Ok _) => on_peer l (SetLastSendCatchupAt now) m
        | (m, Err _) => (m, Ok tt)
        | (m, Panic w) => (m, Panic w)
        end
      end)
  end.

(** *** Network topology *)

(** The slices of [updateNetworkTopologyWithPeer]: [tp_old] is the array the
    pointers of [localNwkMap] point into, [tp_cur] the current slice, which
    is still that array while [tp_shared]. *)
Record Topology := mkTopology { tp_old : list Network; tp_cur : list Network; tp_shared : bool }.

Definition add_peer (pid : PeerID) (n : Network) : Network :=
  if decide (pid ∈ nw_Peers n) then n else mkNetwork (nw_ID n) (nw_Name n) (nw_Peers n ++ [pid]).

(** [localNwkMap]: the last element with a given identifier. *)
Definition local_index (id : NetworkID) (ns : list Network) : option nat :=
  foldl (fun acc '(i, n) => if nw_ID n =? id then Some i else acc) None (imap pair ns).

(** One network of the peer: [pin] are the identifiers of the map. *)
Definition topology_join (pid : PeerID) (cap : nat) (orig : list Network) (n : PacketSyncPeer_Network)
    (t : Topology) : Topology :=
  match local_index (sn_ID n) orig with
  | Some i =>
    let old := alter (add_peer pid) i (tp_old t) in
    mkTopology old (if tp_shared t then alter (add_peer pid) i (tp_cur t) else tp_cur t) (tp_shared t)
  | None =>
    let cur := tp_cur t ++ [mkNetwork (sn_ID n) (sn_Name n) [pid]] in
    mkTopology (tp_old t) cur (tp_shared t && (length (tp_cur t) <? cap)%nat)
  end.

Fixpoint remove_first (pid : PeerID) (l : list PeerID) : list PeerID :=
  match l with
  | [] => []
  | x :: l' => if x =? pid then l' else x :: remove_first pid l'
  end.

Definition topology_leave (pid : PeerID) (ids : list NetworkID) (n : Network) : Network :=
  if decide (nw_ID n ∈ ids) then n else mkNetwork (nw_ID n) (nw_Name n) (remove_first pid (nw_Peers n)).

(** [spare] is the room a growing [append] leaves behind the elements. *)
Definition updateNetworkTopologyWithPeer (spare : nat) (peerInfo : PacketSyncPeer_PeerInfo) : M unit := gmodify (fun m =>
  let pid := pi_PeerID peerInfo in
  let orig := default [] (mm_networks m) in
  let t := foldl (fun t n => topology_join pid (mm_cap m) orig n t)
             (mkTopology orig orig true) (pi_Networks peerInfo) in
  let cur := map (topology_leave pid (map sn_ID (pi_Networks peerInfo))) (tp_cur t) in
  set_networks cur (if (length cur <=? mm_cap m)%nat then mm_cap m else (length cur + spare)%nat) m).

(** *** Catching up with a peer *)

Definition fix_key (k : bytes) : bytes := go_copy (go_make 32) k.

(** The tunnel both sides create after exchanging keys. *)
Definition new_tunnel (m : Manager) (server : ServerID) (remote : PeerID) (cipher : Cipher) : Tunnel :=
  let t := Tunnel.New server (lp_PeerID (mm_localPeer m)) remote cipher in
  match mm_endpoints m with Some eps => SetLocalEndpoints eps t | None => t end.

Definition PeerCatchup (now : Z) (spare : nat) (syncPeer : PacketSyncPeer) : M unit :=
  match sp_Peer syncPeer with
  | None => mret tt
  | Some peerInfo =>
    _ ← Lock;
    let peerID := pi_PeerID peerInfo in
    m ← mget;
    '(l, newRoutes) ←
      match mm_peers m !! peerID with
      | Some l => mret (l, [])
      | None =>
        match pi_PrimaryServer peerInfo with
        | None => gpanic "invalid memory address or nil pointer dereference"
        | Some ps =>
          let info := mkPeer (pi_PeerID peerInfo) (pi_UserID peerInfo) (pi_Name peerInfo) (pi_IPv4 peerInfo)
            (sr_ID ps) true in
          addr ← glift (match ParseIP (pi_IPv4 peerInfo) with
                        | Err e => Err (EWrap "parse ipv4 address in PeerCatchup" e)
                        | r => r
                        end);
          let l := fresh (dom (mm_heap m)) in
          _ ← gmodify (set_pheap (<[l := SetProbeStatus now true (peer_New info)]> (mm_heap m)));
          _ ← gmodify (fun m => set_peers (<[peerID := l]> (mm_peers m)) (<[pi_IPv4 peerInfo := l]> (mm_index m)) m);
          mret (l, [(addr, 32)])
        end
      end;
    _ ← Unlock;
    m ← mget;
    sharedKey ← glift (DH (lp_Private (mm_localPeer m)) (pi_PublicKey peerInfo));
    let cipher := ChaChaPoly (fix_key sharedKey) in
    match pi_PrimaryServer peerInfo with
    | None => gpanic "invalid memory address or nil pointer dereference"
    | Some ps =>
      _ ← on_peer l (fun p => SetCatchupAt now (SetTunnel (new_tunnel m (sr_ID ps) peerID cipher) p));
      _ ← gwhen (negb (bool_decide (newRoutes = [])))
            (gmodify (fun m => set_router (router_Add (mkConfig (lp_VIPv4 (mm_localPeer m)) newRoutes) (mm_router m)) m));
      _ ← updateNetworkTopologyWithPeer spare peerInfo;
      match RelayServerClient (sr_ID ps) with
      | None => mret tt
      | Some relayClient =>
        send relayClient PacketType_SyncPeer
          (MSyncPeer (mkPacketSyncPeer peerID CatchupAck
             (Some (mkSyncPeerInfo (lp_PeerID (mm_localPeer m)) 0 "" "" (lp_Public (mm_localPeer m)) None [])) []))
      end
    end
  end.

Definition PeerCatchupAck (now : Z) (syncPeer : PacketSyncPeer) : M unit :=
  match sp_Peer syncPeer with
  | None => mret tt
  | Some peerInfo =>
    _ ← Lock; m ← mget; _ ← Unlock;
    match mm_peers m !! pi_PeerID peerInfo with
    | None => mret tt
    | Some l =>
      match DH (lp_Private (mm_localPeer m)) (pi_PublicKey peerInfo) with
      | Err _ => mret tt
      | Panic w => gpanic w
      | Ok sharedKey =>
        let cipher := ChaChaPoly (fix_key sharedKey) in
        on_peer l (fun p => SetCatchupAt now (SetTunnel (new_tunnel m (pr_ServerID (po_info p)) (pi_PeerID peerInfo) cipher) p))
      end
    end
  end.

(** *** Endpoints *)

Definition PeerEndpoints (syncPeer : PacketSyncPeer) : M unit :=
  match sp_Peer syncPeer with
  | None => mret tt
  | Some peerInfo =>
    _ ← Lock; m ← mget; _ ← Unlock;
    match mm_peers m !! pi_PeerID peerInfo with
    | None => mret tt
    | Some l => on_peer l (fun p =>
        match po_tunnel p with
        | None => p
        | Some t => SetTunnel (SetRemoteEndpoints (sp_Endpoints syncPeer) t) p
        end)
    end
  end.

(** [sort.Strings]. *)
Definition string_leb (a b : string) : bool :=
  match String.compare a b with Gt => false | _ => true end.
Definition string_le (a b : string) : Prop := string_leb a b = true.
#[local] Instance string_le_dec a b : Decision (string_le a b).
Proof using Type. unfold string_le. apply _. Defined.
Definition sort_strings (l : list string) : list string := merge_sort string_le l.

Definition SyncEndpoints (order : list PeerID) (endpoints : list string) : M unit :=
  let endpoints := sort_strings endpoints in
  m ← mget;
  if bool_decide (mm_endpoints m = Some endpoints) then mret tt
  else
    _ ← gmodify (set_mendpoints endpoints);
    _ ← Lock;
    m0 ← mget;
    let live := omap (fun pid =>
      l ← mm_peers m0 !! pid; p ← mm_heap m0 !! l; t ← po_tunnel p; Some (l, p, t)) order in
    _ ← gfor live (fun '(l, p, t) => on_peer l (SetTunnel (SetLocalEndpoints endpoints t)));
    _ ← Unlock;
    gfor (filter (fun '(l, p, t) => IsDisco t = true) live) (fun '(l, p, t) =>
      let client := match RelayServerClient (pr_ServerID (po_info p)) with
                    | Some c => Some c
                    | None => PrimaryRelayServerClient
                    end in
      match client with
      | None => mret tt
      | Some c =>
        gignore (send c PacketType_SyncPeer
          (MSyncPeer (mkPacketSyncPeer (pr_ID (po_info p)) EndpointsChanged
             (Some (mkSyncPeerInfo (lp_PeerID (mm_localPeer m0)) 0 "" "" [] None [])) endpoints)))
      end).

(** *** Summaries *)

Definition device_of (now : Z) (p : PeerObj) : Device :=
  mkDevice (pr_Name (po_info p)) (pr_IPv4 (po_info p))
    (match po_tunnel p with
     | Some t => match ReachableEndpoint now t with Some _ => StateP2P | None => StateRelay end
     | None => StateRelay
     end).

Definition Summarize (now : Z) (order : list PeerID) : M Summary :=
  m ← mget;
  let fresh_cache := s ← mm_cachedSummary m;
    if sm_LastChangedAt s =? mm_lastChangedAt m then Some s else None in
  match fresh_cache with
  | Some s => mret s
  | None =>
    _ ← Lock;
    let peer_of pid := l ← mm_peers m !! pid; mm_heap m !! l in
    let myDevices := omap (fun pid =>
      p ← peer_of pid;
      if pr_UserID (po_info p) =? lp_UserID (mm_localPeer m) then Some (device_of now p) else None) order in
    let networks := map (fun n =>
      mkNetworkSummary (nw_ID n) (nw_Name n)
        (omap (fun pid => p ← peer_of pid; Some (device_of now p)) (nw_Peers n)))
      (default [] (mm_networks m)) in
    let s := mkSummary (mm_lastChangedAt m) myDevices networks in
    _ ← gmodify (set_cached s);
    _ ← Unlock;
    mret s
  end.

Definition Tick (now : Z) (order : list PeerID) : M unit := probePeers now order.

End Mesh.

(** ** Lemmas *)

Section Facts.
Context {IP : Type} `{HIP : Countable IP} `{HNet : !NetAddr IP} {R : Type} `{HRt : !Router IP R}
  `{HRc : !RelayClients} `{HKx : !KeyExchange}.
Implicit Types m : @Manager IP R.

(** Every known peer has an object, which carries the peer's identifier. *)
Definition peers_wf (peers : gmap Z nat) (h : gmap nat PeerObj) : Prop :=
  forall id l, peers !! id = Some l -> exists p, h !! l = Some p /\ pr_ID (po_info p) = id.

(** Nothing but probe bookkeeping and the message log changed. *)
Definition same_mesh m0 m : Prop :=
  mm_peers m = mm_peers m0 /\ mm_index m = mm_index m0 /\ mm_router m = mm_router m0 /\
  mm_localPeer m = mm_localPeer m0 /\
  forall l, po_info <$> mm_heap m !! l = po_info <$> mm_heap m0 !! l.

Lemma same_on_peer m0 l f :
  (forall p, po_info (f p) = po_info p) -> gpreserves (same_mesh m0) (on_peer l f).
Proof.
  intros Hf m (H1 & H2 & H3 & H4 & H5). split_and!; try done. intros l'. rewrite <- H5. cbn.
  destruct (decide (l = l')) as [<-|Hne].
  - rewrite lookup_alter_eq. destruct (mm_heap m !! l); cbn; [by rewrite Hf|done].
  - by rewrite lookup_alter_ne.
Qed.
Lemma same_Lock m0 : gpreserves (same_mesh m0) Lock.
Proof. intros m Hm. unfold gstate, Lock. destruct (mm_locked m); exact Hm. Qed.
Lemma same_Unlock m0 : gpreserves (same_mesh m0) Unlock.
Proof. intros m Hm. exact Hm. Qed.
Lemma same_send m0 c t msg : gpreserves (same_mesh m0) (send c t msg).
Proof. intros m Hm. unfold gstate, send. destruct (rh_Send c t msg); exact Hm. Qed.
#[local] Hint Resolve same_Lock same_Unlock same_send : gpres.

Lemma same_probePeers m0 now order : gpreserves (same_mesh m0) (probePeers now order).
Proof.
  unfold probePeers. gpres. intros m Hm. unfold gstate. pose proof (same_send m0 r) as Hs.
  specialize (Hs PacketType_ProbeRequest (MProbeRequest (mkPacketProbeRequest l)) m Hm). unfold gstate in Hs.
  destruct (send _ _ _ m) as [m1 [| |]]; [|exact Hs..]. cbn [fst] in Hs. revert m1 Hs.
  apply gpres_bind; [auto with gpres|intros _]. apply gpres_bind; [|intros _; auto with gpres].
  apply gpres_for. intros pid. apply gpres_bind; [auto with gpres|intros m2].
  destruct (mm_peers m2 !! pid); [by apply same_on_peer|auto with gpres].
Qed.

(** The routes of a list of peers: a /32 for each but the local one. *)
Definition peer_routes (local : PeerID) (ps : list Peer) : list (IP * Z) :=
  flat_map (fun lp => if pr_ID lp =? local then []
                      else match ParseIP (pr_IPv4 lp) with Ok a => [(a, 32)] | _ => [] end) ps.

Lemma update_peers_spec local old latest : forall peers h routes h' peers' routes',
  peers_wf old h -> peers_wf peers h ->
  update_peers local old latest peers h routes = (h', Ok (peers', routes')) ->
  h ⊆ h' /\ peers_wf peers' h' /\ routes' = routes ++ peer_routes local latest /\
  (forall id, is_Some (peers' !! id) <-> is_Some (peers !! id) \/ In id (map pr_ID latest)).
Proof.
  induction latest as [|lp rest IH]; intros peers h routes h' peers' routes' Ho Hp Hu.
  { cbn in Hu. simplify_eq. split_and!; [done|done|by rewrite app_nil_r|]. intros id. split; [by left|]. by intros [|[]]. }
  cbn [update_peers] in Hu.
  destruct (match old !! pr_ID lp with Some l => (l, h) | None => (fresh (dom h), <[fresh (dom h):=peer_New lp]> h) end)
    as [l h1] eqn:Hl.
  assert (h ⊆ h1 /\ exists p, h1 !! l = Some p /\ pr_ID (po_info p) = pr_ID lp) as [Hsub (p & Hlp & Hid)].
  { destruct (old !! pr_ID lp) as [l0|] eqn:Hold; simplify_eq.
    - split; [done|]. by apply Ho.
    - split; [apply insert_subseteq, not_elem_of_dom, is_fresh|]. eexists. by rewrite lookup_insert_eq. }
  assert (forall ps, peers_wf ps h -> peers_wf ps h1) as Hmono.
  { intros ps Hps id k Hk. destruct (Hps id k Hk) as (q & Hq & ?). exists q. split; [by eapply lookup_weaken|done]. }
  assert (peers_wf (<[pr_ID lp := l]> peers) h1) as Hp1.
  { intros id k. rewrite lookup_insert_Some. intros [[<- <-]|[_ Hk]]; [by exists p|]. by apply (Hmono peers Hp). }
  rewrite Hlp, Hid in Hu.
  assert (forall id, is_Some (<[pr_ID lp := l]> peers !! id) \/ In id (map pr_ID rest) <->
                     is_Some (peers !! id) \/ In id (map pr_ID (lp :: rest))) as Hdom.
  { intros id. cbn. rewrite lookup_insert_is_Some'. tauto. }
  cbn [peer_routes flat_map]. destruct (Z.eqb_spec (pr_ID lp) local) as [Hloc|Hloc].
  - destruct (IH _ _ _ _ _ _ (Hmono _ Ho) Hp1 Hu) as (H1 & H2 & H3 & H4). split_and!; [by etransitivity|done|done|].
    intros id. rewrite H4. apply Hdom.
  - destruct (ParseIP (pr_IPv4 lp)) as [a| |] eqn:Ha; [|done..].
    destruct (IH _ _ _ _ _ _ (Hmono _ Ho) Hp1 Hu) as (H1 & H2 & H3 & H4). split_and!; [by etransitivity|done| |].
    + rewrite H3. by rewrite <- app_assoc.
    + intros id. rewrite H4. apply Hdom.
Qed.

Lemma update_peers_error local old latest e : forall peers h routes,
  peers_wf old h ->
  (exists pre lp post, latest = pre ++ lp :: post /\ pr_ID lp <> local /\ ParseIP (pr_IPv4 lp) = Err e /\
     Forall (fun q => pr_ID q <> local -> exists a, ParseIP (pr_IPv4 q) = Ok a) pre) ->
  snd (update_peers local old latest peers h routes) = Err (EWrap "parse ipv4 address in Update" e).
Proof.
  induction latest as [|lp rest IH]; intros peers h routes Ho (pre & x & post & Heq & Hx & Hpx & Hpre).
  { by destruct pre. }
  cbn [update_peers].
  destruct (match old !! pr_ID lp with Some l => (l, h) | None => (fresh (dom h), <[fresh (dom h):=peer_New lp]> h) end)
    as [l h1] eqn:Hl.
  assert (h ⊆ h1 /\ exists p, h1 !! l = Some p /\ pr_ID (po_info p) = pr_ID lp) as [Hsub (p & Hlp & Hid)].
  { destruct (old !! pr_ID lp) as [l0|] eqn:Hold; simplify_eq.
    - split; [done|]. by apply Ho.
    - split; [apply insert_subseteq, not_elem_of_dom, is_fresh|]. eexists. by rewrite lookup_insert_eq. }
  assert (peers_wf old h1) as Ho1.
  { intros id k Hk. destruct (Ho id k Hk) as (q & Hq & ?). exists q. split; [by eapply lookup_weaken|done]. }
  rewrite Hlp, Hid. destruct pre as [|y pre]; cbn [app] in Heq; injection Heq as -> ->.
  - destruct (Z.eqb_spec (pr_ID x) local); [done|]. by rewrite Hpx.
  - apply Forall_cons in Hpre as [Hy Hpre].
    destruct (Z.eqb_spec (pr_ID y) local); [by apply IH; [|by exists pre, x, post]|].
    destruct (Hy ltac:(done)) as [a ->]. apply IH; [done|by exists pre, x, post].
Qed.

(** The index maps an address to a known peer that has it. *)
Definition index_ok (peers : gmap Z nat) (h : gmap nat PeerObj) (idx : gmap string nat) : Prop :=
  forall a l, idx !! a = Some l -> exists p, h !! l = Some p /\ pr_IPv4 (po_info p) = a /\ peers !! pr_ID (po_info p) = Some l.

Lemma build_index_ok order peers h : peers_wf peers h -> index_ok peers h (build_index order peers h).
Proof.
  intros Hw. unfold build_index.
  enough (forall idx, index_ok peers h idx -> index_ok peers h (foldl (fun idx pid =>
    match peers !! pid with
    | Some l => match h !! l with Some p => <[pr_IPv4 (po_info p) := l]> idx | None => idx end
    | None => idx
    end) idx order)) as Hg by (apply Hg; intros a l; by rewrite lookup_empty).
  induction order as [|pid order IH]; intros idx Hi; [done|]. cbn. apply IH.
  destruct (peers !! pid) as [l|] eqn:Hl; [|done]. destruct (h !! l) as [p|] eqn:Hp; [|done].
  intros a l'. rewrite lookup_insert_Some. intros [[<- <-]|[_ Ha]]; [|by apply Hi].
  exists p. split_and!; [done|done|]. destruct (Hw pid l Hl) as (q & Hq & Hqi). by simplify_eq.
Qed.

Lemma build_index_covers order peers h id l p :
  peers !! id = Some l -> h !! l = Some p -> In id order ->
  is_Some (build_index order peers h !! pr_IPv4 (po_info p)).
Proof.
  intros Hl Hp. unfold build_index.
  set (F := fun idx pid => _). enough (forall idx, In id order \/ is_Some (idx !! pr_IPv4 (po_info p)) ->
    is_Some (foldl F idx order !! pr_IPv4 (po_info p))) as Hg by (intros Hin; apply Hg; by left).
  induction order as [|pid order IH]; intros idx Hi; [by destruct Hi as [[]|]|]. cbn. apply IH.
  destruct Hi as [[->|Hi]|Hi]; [right|by left|right].
  - unfold F. rewrite Hl, Hp, lookup_insert_eq. by eexists.
  - unfold F. destruct (peers !! pid) as [k|]; [|done]. destruct (h !! k) as [q|]; [|done].
    rewrite lookup_insert_is_Some'. by right.
Qed.

(** Closing the peers that disappeared. *)
Definition close_one (peers : gmap Z nat) (pid : PeerID) : GoM (@Manager IP R) unit :=
  m ← gget;
  match mm_peers m !! pid with
  | None => mret tt
  | Some l =>
    p ← deref l;
    match peers !! pr_ID (po_info p) with
    | Some _ => mret tt
    | None =>
      match peer_Close p with
      | (p', Ok _) => on_peer l (fun _ => p')
      | (_, Err e) => gthrow e
      | (_, Panic w) => gpanic w
      end
    end
  end.
Definition close_stale (peers : gmap Z nat) (order : list PeerID) : GoM (@Manager IP R) unit :=
  gfor order (close_one peers).

Lemma close_stale_cons peers pid order m :
  close_stale peers (pid :: order) m =
  match close_one peers pid m with
  | (m', Ok _) => close_stale peers order m'
  | (m', Err e) => (m', Err e)
  | (m', Panic w) => (m', Panic w)
  end.
Proof. done. Qed.

(** One iteration on a peer that is still there, or not known. *)
Lemma close_one_kept peers pid m :
  peers_wf (mm_peers m) (mm_heap m) -> mm_peers m !! pid = None \/ is_Some (peers !! pid) ->
  close_one peers pid m = (m, Ok tt).
Proof.
  intros Hw Hk. unfold close_one, deref. cbv [mbind gom_bind gget].
  destruct (mm_peers m !! pid) as [l|] eqn:Hl; [|done]. destruct (Hw pid l Hl) as (p & -> & ->).
  by destruct Hk as [|[? ->]].
Qed.

(** A peer that is gone and never had a tunnel. *)
Definition gone_unpaired (peers : gmap Z nat) m (id : PeerID) : Prop :=
  peers !! id = None /\ exists l p, mm_peers m !! id = Some l /\ mm_heap m !! l = Some p /\ po_tunnel p = None.

Lemma on_peer_const l p' m p :
  mm_heap m !! l = Some p -> on_peer l (fun _ => p') m = (set_pheap (<[l := p']> (mm_heap m)) m, Ok tt).
Proof.
  intros Hl. unfold on_peer, gmodify. do 3 f_equal. apply map_eq. intros k.
  destruct (decide (l = k)) as [<-|Hne].
  - by rewrite lookup_alter_eq, lookup_insert_eq, Hl.
  - by rewrite lookup_alter_ne, lookup_insert_ne.
Qed.

Lemma close_stale_ok peers order : forall m,
  peers_wf (mm_peers m) (mm_heap m) ->
  (forall id l p, mm_peers m !! id = Some l -> mm_heap m !! l = Some p -> peers !! id = None ->
     exists t, po_tunnel p = Some t) ->
  exists h', close_stale peers order m = (set_pheap h' m, Ok tt) /\
    forall l, po_info <$> h' !! l = po_info <$> mm_heap m !! l.
Proof.
  induction order as [|pid order IH]; intros m Hw Ht.
  { exists (mm_heap m). split; [by destruct m|done]. }
  rewrite close_stale_cons.
  destruct (mm_peers m !! pid) as [l|] eqn:Hl; [|rewrite close_one_kept by auto; by apply IH].
  destruct (peers !! pid) eqn:Hpid; [rewrite close_one_kept by eauto; by apply IH|].
  destruct (Hw pid l Hl) as (p & Hp & Hid). destruct (Ht pid l p Hl Hp Hpid) as [t Htun].
  unfold close_one, deref. cbv [mbind gom_bind gget]. rewrite Hl, Hp, Hid, Hpid. unfold peer_Close. rewrite Htun.
  set (p' := SetTunnel (gstate Tunnel.Close t) p). rewrite (on_peer_const l p' m p) by done.
  assert (forall k, po_info <$> <[l := p']> (mm_heap m) !! k = po_info <$> mm_heap m !! k) as Hinfo.
  { intros k. destruct (decide (l = k)) as [<-|Hne]; [by rewrite lookup_insert_eq, Hp|by rewrite lookup_insert_ne]. }
  destruct (IH (set_pheap (<[l := p']> (mm_heap m)) m)) as (h' & -> & Hh').
  - intros id k Hk. destruct (Hw id k Hk) as (q & Hq & Hqi). cbn.
    destruct (decide (l = k)) as [<-|Hne]; [|exists q; by rewrite lookup_insert_ne].
    exists p'. rewrite lookup_insert_eq. assert (q = p) as -> by congruence. split; [done|exact Hqi].
  - intros id k q Hk Hq Hn. cbn in Hq. destruct (decide (l = k)) as [<-|Hne].
    + rewrite lookup_insert_eq in Hq. simplify_eq. by eexists.
    + rewrite lookup_insert_ne in Hq by done. by eapply Ht.
  - exists h'. split; [done|]. intros k. by rewrite Hh', <- Hinfo.
Qed.

(** *** Probing leaves the manager unlocked *)

(** The clients' [Send] returns: it never panics. *)
Definition sends_return : Prop :=
  forall sid c t msg w, RelayServerClient sid = Some c -> rh_Send c t msg <> Panic w.

Lemma group_add_members (P : Z -> Prop) sid pid g :
  P pid -> Forall (fun x => Forall P (snd x)) g -> Forall (fun x => Forall P (snd x)) (group_add sid pid g).
Proof.
  intros Hp Hg. unfold group_add. destruct (list_find _ g) as [[i [s l]]|] eqn:Hf.
  - apply list_find_Some in Hf as (Hi & _ & _). apply Forall_insert; [done|]. cbn.
    apply Forall_app. split; [|by constructor]. exact (Forall_lookup_1 _ _ _ _ Hg Hi).
  - apply Forall_app. split; [done|]. by repeat constructor.
Qed.

Lemma probe_groups_known now order m :
  peers_wf (mm_peers m) (mm_heap m) ->
  Forall (fun x => Forall (fun pid => is_Some (mm_peers m !! pid)) (snd x)) (probe_groups now order m).
Proof.
  intros Hw. unfold probe_groups. set (F := fun g pid => _).
  enough (forall g, Forall (fun x => Forall (fun pid => is_Some (mm_peers m !! pid)) (snd x)) g ->
    Forall (fun x => Forall (fun pid => is_Some (mm_peers m !! pid)) (snd x)) (foldl F g order)) as Hg by (apply Hg; constructor).
  induction order as [|pid order IH]; intros g Hg; [done|]. cbn. apply IH. unfold F.
  destruct (mm_peers m !! pid) as [l|] eqn:Hl; [|done]. destruct (Hw pid l Hl) as (p & -> & Hid).
  destruct (_ =? _); [done|]. destruct (IsNeedProbe now p); [|done].
  apply group_add_members; [by rewrite Hid; eexists|done].
Qed.

(** Unlocked, with the peers of [m0]. *)
Definition free_with m0 m : Prop := mm_locked m = false /\ mm_peers m = mm_peers m0.

Definition stamp (now : Z) (pid : Z) : GoM (@Manager IP R) unit :=
  m ← gget;
  match mm_peers m !! pid with
  | Some l => on_peer l (SetLastProbeRequestAt now)
  | None => gpanic "invalid memory address or nil pointer dereference"
  end.

Lemma stamp_ok now m0 pids : forall m,
  mm_peers m = mm_peers m0 -> Forall (fun pid => is_Some (mm_peers m0 !! pid)) pids ->
  exists h, gfor pids (stamp now) m = (set_pheap h m, Ok tt).
Proof.
  induction pids as [|pid pids IH]; intros m Hm Hp; [by exists (mm_heap m); destruct m|].
  apply Forall_cons in Hp as [[l Hl] Hp]. cbn [gfor]. cbv [mbind gom_bind].
  assert (stamp now pid m = (set_pheap (alter (SetLastProbeRequestAt now) l (mm_heap m)) m, Ok tt)) as ->.
  { unfold stamp. cbv [mbind gom_bind gget]. by rewrite Hm, Hl. }
  set (m1 := set_pheap _ m). destruct (IH m1 ltac:(done) Hp) as [h ->]. by exists h.
Qed.

(** Probing through one relay server. *)
Definition probe_one (now : Z) (g : ServerID * list Z) : GoM (@Manager IP R) unit :=
  match RelayServerClient (fst g) with
  | None => mret tt
  | Some client => fun m =>
    match send client PacketType_ProbeRequest (MProbeRequest (mkPacketProbeRequest (snd g))) m with
    | (m, Ok _) => (_ ← Lock; _ ← gfor (snd g) (stamp now); Unlock) m
    | (m, Err _) => (m, Ok tt)
    | (m, Panic w) => (m, Panic w)
    end
  end.

Lemma probe_one_free now m0 g m :
  sends_return -> Forall (fun pid => is_Some (mm_peers m0 !! pid)) (snd g) -> free_with m0 m ->
  exists m', probe_one now g m = (m', Ok tt) /\ free_with m0 m'.
Proof.
  intros Hs Hp [Hf1 Hf2]. unfold probe_one.
  destruct (RelayServerClient (fst g)) as [c|] eqn:Hc; [|by exists m]. unfold send.
  destruct (rh_Send c _ _) as [[]|e|w] eqn:Hsend; [|by exists m|by destruct (Hs _ _ _ _ _ Hc Hsend)].
  cbv [mbind gom_bind]. unfold Lock. cbn [log_sent mm_locked]. rewrite Hf1.
  edestruct stamp_ok as [h Hh]; [|exact Hp|]; [|rewrite Hh; eexists; split; [done|]]; done.
Qed.

Lemma probePeers_free now order m :
  sends_return -> peers_wf (mm_peers m) (mm_heap m) -> mm_locked m = false ->
  exists m', probePeers now order m = (m', Ok tt) /\ free_with m m'.
Proof.
  intros Hs Hw Hl. pose proof (probe_groups_known now order _ Hw) as Hg.
  assert (probePeers now order m = gfor (probe_groups now order m) (probe_one now) (set_locked false (set_locked true m))) as ->.
  { unfold probePeers. cbv [mbind gom_bind gget Lock]. rewrite Hl. cbn -[gfor probe_groups].
    apply gfor_ext. by intros [sid pids] t. }
  assert (free_with m (set_locked false (set_locked true m))) as Hf by done. revert Hf.
  generalize (set_locked false (set_locked true m)). revert Hg. generalize (probe_groups now order m). intros gs.
  induction gs as [|g gs IH]; intros Hg m1 Hf; [by exists m1|]. apply Forall_cons in Hg as [Hp Hg].
  destruct (probe_one_free now m g m1 Hs Hp Hf) as (m2 & Heq & Hf2). cbn [gfor]. cbv [mbind gom_bind]. rewrite Heq. by apply IH.
Qed.

(** *** [Update] *)

(** Every address but the local peer's parses. *)
Definition addresses_parse (local : PeerID) (ps : list Peer) : Prop :=
  Forall (fun q => pr_ID q <> local -> exists a, ParseIP (pr_IPv4 q) = Ok a) ps.

Lemma update_peers_ok local old latest : forall peers h routes,
  peers_wf old h -> peers_wf peers h -> addresses_parse local latest ->
  exists h' peers' routes', update_peers local old latest peers h routes = (h', Ok (peers', routes')).
Proof.
  induction latest as [|lp rest IH]; intros peers h routes Ho Hp Ha; [by eexists _, _, _|].
  apply Forall_cons in Ha as [Hlp Ha].
  destruct (update_peers local old [lp] peers h routes) as [h1 r1] eqn:H1.
  assert (exists ps rs, r1 = Ok (ps, rs)) as (ps & rs & ->).
  { cbn [update_peers] in H1.
    destruct (old !! pr_ID lp) as [l|] eqn:Hl.
    - destruct (Ho _ _ Hl) as (p & Hp1 & Hp2). rewrite Hp1, Hp2 in H1.
      destruct (Z.eqb_spec (pr_ID lp) local); [by simplify_eq; eauto|].
      destruct (Hlp ltac:(done)) as [a Hpa]. rewrite Hpa in H1. by simplify_eq; eauto.
    - rewrite lookup_insert_eq in H1. cbn [po_info peer_New] in H1.
      destruct (Z.eqb_spec (pr_ID lp) local); [by simplify_eq; eauto|].
      destruct (Hlp ltac:(done)) as [a Hpa]. rewrite Hpa in H1. by simplify_eq; eauto. }
  destruct (update_peers_spec _ _ _ _ _ _ _ _ _ Ho Hp H1) as (Hsub & Hp1 & _ & _).
  assert (peers_wf old h1) as Ho1.
  { intros id k Hk. destruct (Ho id k Hk) as (q & Hq & ?). exists q. split; [by eapply lookup_weaken|done]. }
  enough (update_peers local old (lp :: rest) peers h routes = update_peers local old rest ps h1 rs) as -> by by apply IH.
  cbn [update_peers] in H1 |- *.
  destruct (match old !! pr_ID lp with Some l => (l, h) | None => _ end) as [l h2].
  destruct (h2 !! l) as [p|]; [|done]. destruct (_ =? _); [by simplify_eq|].
  destruct (ParseIP (pr_IPv4 lp)); by simplify_eq.
Qed.

(** The state in which [Update] closes the stale peers. *)
Definition update_enter (cap : nat) (ns : list Network) m : @Manager IP R :=
  set_locked true (set_localPeer (let lp := mm_localPeer m in mkLocalPeer (lp_Name lp) (lp_UserID lp) (lp_PeerID lp)
    (lp_Private lp) (lp_Public lp) (lp_VIPv4 lp) (self_networks ns)) (set_networks ns cap m)).

Lemma Update_start now cap o1 o2 o3 ns ps m h res :
  mm_locked m = false ->
  update_peers (lp_PeerID (mm_localPeer m)) (mm_peers m) ps ∅ (mm_heap m) [] = (h, res) ->
  Update now cap o1 o2 o3 ns ps m =
  (match res with
   | Err e => gthrow e
   | Panic w => gpanic w
   | Ok (peers, routes) =>
     _ ← close_stale peers o2;
     _ ← gmodify (set_peers peers (build_index o1 peers h));
     _ ← Unlock;
     _ ← gmodify (fun m => set_router (router_Set (mkConfig (lp_VIPv4 (mm_localPeer m)) routes) (mm_router m)) m);
     _ ← gmodify (markChanged now);
     probePeers now o3
   end) (set_pheap h (update_enter cap ns m)).
Proof.
  intros Hl Hu. unfold Update. cbv [mbind gom_bind gmodify gget Lock]. cbn [mm_locked set_localPeer set_networks].
  rewrite Hl. cbn [lp_PeerID mm_localPeer set_locked set_localPeer set_networks mm_peers mm_heap]. rewrite Hu.
  by destruct res as [[peers routes]| |].
Qed.

Lemma peers_wf_same ps h h' :
  (forall l, po_info <$> h' !! l = po_info <$> h !! l) -> peers_wf ps h -> peers_wf ps h'.
Proof.
  intros Hi Hw id l Hl. destruct (Hw id l Hl) as (p & Hp & Hid). specialize (Hi l). rewrite Hp in Hi. cbn in Hi.
  apply fmap_Some in Hi as (q & Hq & Hpq). exists q. split; [done|congruence].
Qed.
Lemma index_ok_same ps h h' idx :
  (forall l, po_info <$> h' !! l = po_info <$> h !! l) -> index_ok ps h idx -> index_ok ps h' idx.
Proof.
  intros Hi Hw a l Hl. destruct (Hw a l Hl) as (p & Hp & Ha & Hid). specialize (Hi l). rewrite Hp in Hi. cbn in Hi.
  apply fmap_Some in Hi as (q & Hq & Hpq). exists q. split_and!; [done|congruence..].
Qed.

(** A peer that is not in [ps] has a tunnel to close. *)
Definition leavers_paired (ps : list Peer) m : Prop :=
  forall id l p, mm_peers m !! id = Some l -> mm_heap m !! l = Some p -> ~ In id (map pr_ID ps) ->
    exists t, po_tunnel p = Some t.

(** What [Update] leaves behind, from the parts that compute it. *)
Lemma Update_done now cap o1 o2 o3 ns ps m :
  mm_locked m = false -> peers_wf (mm_peers m) (mm_heap m) ->
  addresses_parse (lp_PeerID (mm_localPeer m)) ps -> leavers_paired ps m ->
  exists peers h h' m3,
    Update now cap o1 o2 o3 ns ps m = probePeers now o3 m3 /\
    mm_locked m3 = false /\ mm_peers m3 = peers /\ mm_heap m3 = h' /\ mm_networks m3 = Some ns /\
    mm_index m3 = build_index o1 peers h /\
    mm_router m3 = router_Set (mkConfig (lp_VIPv4 (mm_localPeer m)) (peer_routes (lp_PeerID (mm_localPeer m)) ps)) (mm_router m) /\
    (forall id, is_Some (peers !! id) <-> In id (map pr_ID ps)) /\ peers_wf peers h /\
    (forall l, po_info <$> h' !! l = po_info <$> h !! l).
Proof.
  intros Hl Hw Ha Hlv. destruct (update_peers_ok (lp_PeerID (mm_localPeer m)) (mm_peers m) ps ∅ (mm_heap m) [] Hw) as (h & peers & routes & Hu); [|done|].
  { intros id l. by rewrite lookup_empty. }
  destruct (update_peers_spec _ _ _ _ _ _ _ _ _ Hw ltac:(intros id l; by rewrite lookup_empty) Hu) as (Hsub & Hp & Hr & Hd).
  assert (forall id, is_Some (peers !! id) <-> In id (map pr_ID ps)) as Hdom.
  { intros id. rewrite Hd, lookup_empty. split; [by intros [[? ?]|]|by right]. }
  destruct (close_stale_ok peers o2 (set_pheap h (update_enter cap ns m))) as (h' & Hc & Hh').
  - intros id l Hid. destruct (Hw id l Hid) as (q & Hq & ?). exists q. split; [by eapply lookup_weaken|done].
  - intros id l p Hid Hlp Hn. cbn in Hlp. destruct (Hw id l Hid) as (q & Hq & ?).
    assert (p = q) as -> by (pose proof (lookup_weaken _ _ _ _ Hq Hsub); congruence).
    apply (Hlv id l q Hid Hq). intros Hin. apply Hdom in Hin as [? Hin]. congruence.
  - exists peers, h, h'. eexists. rewrite (Update_start _ _ _ _ _ _ _ _ _ _ Hl Hu). cbv [mbind gom_bind]. rewrite Hc.
    split; [done|]. subst routes. by split_and!.
Qed.

(** [Update] on a sound peer list. *)
Lemma Update_installs `{!RouterOk IP R} m now cap o1 o2 o3 ns ps :
  sends_return -> mm_locked m = false -> peers_wf (mm_peers m) (mm_heap m) ->
  addresses_parse (lp_PeerID (mm_localPeer m)) ps -> leavers_paired ps m ->
  (forall id, In id (map pr_ID ps) -> In id o1) ->
  exists m', Update now cap o1 o2 o3 ns ps m = (m', Ok tt) /\ mm_locked m' = false /\
  (forall id, is_Some (mm_peers m' !! id) <-> In id (map pr_ID ps)) /\
  peers_wf (mm_peers m') (mm_heap m') /\ index_ok (mm_peers m') (mm_heap m') (mm_index m') /\
  (forall id l p, mm_peers m' !! id = Some l -> mm_heap m' !! l = Some p ->
     is_Some (mm_index m' !! pr_IPv4 (po_info p))) /\
  router_view (mm_router m') = list_to_set (peer_routes (lp_PeerID (mm_localPeer m)) ps).
Proof.
  intros Hs Hl Hw Ha Hlv Ho. destruct (Update_done now cap o1 o2 o3 ns ps m Hl Hw Ha Hlv)
    as (peers & h & h' & m3 & -> & Hl3 & Hp3 & Hh3 & _ & Hi3 & Hr3 & Hdom & Hpw & Hinfo).
  assert (peers_wf (mm_peers m3) (mm_heap m3)) as Hw3 by (rewrite Hp3, Hh3; by eapply peers_wf_same).
  destruct (probePeers_free now o3 m3 Hs Hw3 Hl3) as (m' & Hpr & Hlk & Hp').
  pose proof (same_probePeers m3 now o3 m3 ltac:(done)) as (_ & Hi' & Hr' & _ & Hinfo').
  unfold gstate in Hi', Hr', Hinfo'. rewrite Hpr in *. cbn [fst] in *. exists m'.
  assert (peers_wf peers (mm_heap m')) as Hw'.
  { eapply (peers_wf_same _ (mm_heap m3)); [done|]. by rewrite <- Hp3. }
  rewrite Hp', Hp3, Hi', Hi3, Hr', Hr3. split_and!; [done|done|done|done| | |by rewrite router_Set_view].
  - eapply index_ok_same; [exact Hinfo'|]. rewrite Hh3. eapply index_ok_same; [done|]. by apply build_index_ok.
  - intros id l p Hid Hp. specialize (Hinfo' l). rewrite Hp, Hh3, Hinfo in Hinfo'. cbn in Hinfo'.
    symmetry in Hinfo'. apply fmap_Some in Hinfo' as (q & Hq & ->). eapply build_index_covers; [done|done|]. apply Ho, Hdom. by eexists.
Qed.

(** C10 (functional).  When the control plane's peers have addresses that
    parse and every peer that disappears has a tunnel, [Update] succeeds and
    releases the mutex; afterwards the manager knows exactly those peers,
    each under its identifier, every known peer's address is indexed to a
    known peer with that address, and the router carries exactly one /32
    route for each peer but the local one.  The probe requests it sends at
    the end change none of this, however the relay servers answer. *)
Theorem update_installs_peers `{!RouterOk IP R} m now cap o1 o2 o3 ns ps :
  sends_return -> mm_locked m = false -> peers_wf (mm_peers m) (mm_heap m) ->
  addresses_parse (lp_PeerID (mm_localPeer m)) ps -> leavers_paired ps m ->
  (forall id, In id (map pr_ID ps) -> In id o1) ->
  exists m', Update now cap o1 o2 o3 ns ps m = (m', Ok tt) /\ mm_locked m' = false /\
  (forall id, is_Some (mm_peers m' !! id) <-> In id (map pr_ID ps)) /\
  peers_wf (mm_peers m') (mm_heap m') /\ index_ok (mm_peers m') (mm_heap m') (mm_index m') /\
  (forall id l p, mm_peers m' !! id = Some l -> mm_heap m' !! l = Some p ->
     is_Some (mm_index m' !! pr_IPv4 (po_info p))) /\
  router_view (mm_router m') = list_to_set (peer_routes (lp_PeerID (mm_localPeer m)) ps).
Proof. intros. by apply Update_installs. Qed.

(** When one of the peers' addresses does not parse, [Update]
    returns the error without releasing the mutex: everything that needs the
    manager afterwards - the periodic probe, the lookup of a peer or of a
    tunnel, the next [Update] - waits forever. *)
Theorem bad_address_locks_manager m now cap o1 o2 o3 ns ps e :
  mm_locked m = false -> peers_wf (mm_peers m) (mm_heap m) ->
  (exists pre lp post, ps = pre ++ lp :: post /\ pr_ID lp <> lp_PeerID (mm_localPeer m) /\
     ParseIP (pr_IPv4 lp) = Err e /\ addresses_parse (lp_PeerID (mm_localPeer m)) pre) ->
  exists m', Update now cap o1 o2 o3 ns ps m = (m', Err (EWrap "parse ipv4 address in Update" e)) /\
  mm_peers m' = mm_peers m /\
  (forall t o, Tick t o m' = (m', Panic deadlock)) /\ (forall id, Peer_ id m' = (m', Panic deadlock)) /\
  (forall d, Tunnel_ d m' = (m', Panic deadlock)) /\
  (forall t c p1 p2 p3 ns' ps', gresult (Update t c p1 p2 p3 ns' ps') m' = Panic deadlock).
Proof.
  intros Hl Hw Hbad. pose proof (update_peers_error (lp_PeerID (mm_localPeer m)) (mm_peers m) ps e ∅ (mm_heap m) [] Hw Hbad) as He.
  destruct (update_peers _ _ _ _ _ _) as [h res] eqn:Hu. cbn in He. subst res.
  rewrite (Update_start _ _ _ _ _ _ _ _ _ _ Hl Hu). eexists. split; [done|].
  split; [done|]. split_and!; by intros.
Qed.

Lemma close_stale_panics peers order : forall m id,
  peers_wf (mm_peers m) (mm_heap m) -> In id order -> gone_unpaired peers m id ->
  exists h, close_stale peers order m = (set_pheap h m, Panic "invalid memory address or nil pointer dereference").
Proof.
  induction order as [|pid order IH]; intros m id Hw Hin Hg; [done|]. rewrite close_stale_cons.
  destruct Hg as (Hgn & l0 & p0 & Hl0 & Hp0 & Ht0).
  destruct (decide (mm_peers m !! pid = None \/ is_Some (peers !! pid))) as [Hk|Hk].
  { rewrite close_one_kept by done. destruct Hin as [->|Hin]; [destruct Hk as [?|[? ?]]; congruence|].
    eapply IH; [done|done|]. by split; [|exists l0, p0]. }
  destruct (mm_peers m !! pid) as [l|] eqn:Hl; [|tauto]. destruct (peers !! pid) eqn:Hpid; [destruct Hk; eauto|].
  destruct (Hw pid l Hl) as (p & Hp & Hid). unfold close_one, deref. cbv [mbind gom_bind gget].
  rewrite Hl, Hp, Hid, Hpid. unfold peer_Close. destruct (po_tunnel p) as [t|] eqn:Ht; [|exists (mm_heap m); by destruct m].
  set (p' := SetTunnel (gstate Tunnel.Close t) p). rewrite (on_peer_const l p' m p) by done.
  assert (l <> l0) as Hne by (intros ->; congruence).
  assert (peers_wf (mm_peers m) (<[l := p']> (mm_heap m))) as Hw'.
  { intros i k Hi. destruct (Hw i k Hi) as (q & Hq & Hqi). destruct (decide (l = k)) as [<-|Hn].
    - exists p'. rewrite lookup_insert_eq. split; [done|]. cbn. congruence.
    - exists q. by rewrite lookup_insert_ne. }
  destruct Hin as [->|Hin]; [congruence|].
  destruct (IH (set_pheap (<[l := p']> (mm_heap m)) m) id Hw' Hin) as [h ->]; [|by exists h].
  split; [done|]. exists l0, p0. cbn. by rewrite lookup_insert_ne.
Qed.

(** When a peer leaves the mesh before the two nodes have
    caught up, it has no tunnel, and the [Update] that removes it calls a
    method of the nil tunnel: the node panics, with the manager's mutex
    held and the old peers still in place. *)
Theorem unpaired_leaver_panics m now cap o1 o2 o3 ns ps id l p :
  mm_locked m = false -> peers_wf (mm_peers m) (mm_heap m) ->
  addresses_parse (lp_PeerID (mm_localPeer m)) ps ->
  mm_peers m !! id = Some l -> mm_heap m !! l = Some p -> po_tunnel p = None ->
  ~ In id (map pr_ID ps) -> In id o2 ->
  exists m', Update now cap o1 o2 o3 ns ps m = (m', Panic "invalid memory address or nil pointer dereference") /\
    mm_locked m' = true /\ mm_peers m' = mm_peers m.
Proof.
  intros Hl Hw Ha Hid Hp Ht Hn Ho.
  assert (forall h, peers_wf ∅ h) as Hemp by (intros h i k; by rewrite lookup_empty).
  destruct (update_peers_ok (lp_PeerID (mm_localPeer m)) (mm_peers m) ps ∅ (mm_heap m) [] Hw (Hemp _) Ha)
    as (h & peers & routes & Hu).
  destruct (update_peers_spec _ _ _ _ _ _ _ _ _ Hw (Hemp _) Hu) as (Hsub & _ & _ & Hd).
  rewrite (Update_start _ _ _ _ _ _ _ _ _ _ Hl Hu). cbv [mbind gom_bind].
  destruct (close_stale_panics peers o2 (set_pheap h (update_enter cap ns m)) id) as [h' ->]; [|done| |].
  - intros i k Hi. destruct (Hw i k Hi) as (q & Hq & ?). exists q. split; [by eapply lookup_weaken|done].
  - split; [|exists l, p; split; [done|split; [by eapply lookup_weaken|done]]].
    apply eq_None_not_Some. rewrite Hd, lookup_empty. by intros [[? ?]|].
  - by eexists.
Qed.

(** *** Network topology *)

(** [localNwkMap]: with distinct identifiers, the element that has it. *)
Lemma local_index_spec id ns :
  match local_index id ns with
  | Some i => exists n, ns !! i = Some n /\ nw_ID n = id
  | None => ~ In id (map nw_ID ns)
  end.
Proof using Type.
  unfold local_index. induction ns as [|n ns IH] using rev_ind; [by intros []|].
  rewrite imap_app. cbn. rewrite foldl_app. cbn. rewrite Nat.add_0_r.
  destruct (Z.eqb_spec (nw_ID n) id) as [<-|Hne].
  - exists n. by rewrite list_lookup_middle.
  - destruct (foldl _ None _) as [i|].
    + destruct IH as (x & Hx & Hid). exists x. split; [by apply lookup_app_l_Some|done].
    + rewrite map_app. intros Hin. apply in_app_iff in Hin as [?|[?|[]]]; done.
Qed.

Lemma elem_of_remove_first pid (l : list Z) q : NoDup l -> q ∈ remove_first pid l <-> q ∈ l /\ q <> pid.
Proof using Type.
  induction l as [|x l IH]; intros Hnd; [cbn; set_solver|]. apply NoDup_cons in Hnd as [Hx Hnd]. cbn.
  destruct (Z.eqb_spec x pid) as [->|Hne].
  - rewrite elem_of_cons. split; [intros Hq; split; [by right|by intros ->]|by intros [[->|?] ?]].
  - rewrite !elem_of_cons, IH by done. split; [intros [->|[? ?]]; auto|intros [[->|?] ?]; auto].
Qed.

(** The networks while the peer's are added: the known ones keep their
    position and identifier, and gain at most the peer. *)
Definition joined (pid : PeerID) (seen : list NetworkID) (orig cur : list Network) : Prop :=
  (forall i n, cur !! i = Some n ->
     NoDup (nw_Peers n) /\ (nw_ID n ∈ seen -> pid ∈ nw_Peers n)) /\
  (forall id, id ∈ seen -> exists n, n ∈ cur /\ nw_ID n = id) /\
  (forall i n, (length orig <= i)%nat -> cur !! i = Some n -> pid ∈ nw_Peers n) /\
  (forall i n, orig !! i = Some n -> exists n', cur !! i = Some n' /\ nw_ID n' = nw_ID n /\
     forall q, q <> pid -> q ∈ nw_Peers n' <-> q ∈ nw_Peers n).

Lemma add_peer_spec pid n :
  nw_ID (add_peer pid n) = nw_ID n /\ (NoDup (nw_Peers n) -> NoDup (nw_Peers (add_peer pid n))) /\
  pid ∈ nw_Peers (add_peer pid n) /\ forall q, q <> pid -> q ∈ nw_Peers (add_peer pid n) <-> q ∈ nw_Peers n.
Proof using Type.
  unfold add_peer. destruct (decide _) as [Hin|Hin]; [done|]. cbn. split_and!; [done| |set_solver|set_solver].
  intros Hnd. apply NoDup_app. split_and!; [done|set_solver|apply NoDup_singleton].
Qed.

(** A network's identifier finds its place among the known ones. *)
Lemma joined_place pid seen orig cur i j x y :
  NoDup (map nw_ID orig) -> joined pid seen orig cur -> orig !! i = Some x -> (j < length orig)%nat ->
  cur !! j = Some y -> nw_ID y = nw_ID x -> i = j.
Proof using Type.
  intros Hnd (_ & _ & _ & H4) Hx Hj Hy Hid. destruct (lookup_lt_is_Some_2 orig j Hj) as [z Hz].
  destruct (H4 j z Hz) as (z' & Hz' & Hzid & _). eapply NoDup_lookup; [exact Hnd| |].
  - rewrite list_lookup_fmap, Hx. done.
  - rewrite list_lookup_fmap, Hz. cbn. f_equal. congruence.
Qed.

Lemma join_known pid seen orig cur i x :
  NoDup (map nw_ID orig) -> joined pid seen orig cur -> orig !! i = Some x ->
  joined pid (seen ++ [nw_ID x]) orig (alter (add_peer pid) i cur).
Proof using Type.
  intros Hnd HJ Hx. pose proof HJ as (H1 & H2 & H3 & H4).
  destruct (H4 i x Hx) as (x' & Hx' & Hid' & Hq'). destruct (add_peer_spec pid x') as (Ha1 & Ha2 & Ha3 & Ha4).
  assert (forall id, (exists w, w ∈ cur /\ nw_ID w = id) ->
     exists w, w ∈ alter (add_peer pid) i cur /\ nw_ID w = id) as Hk.
  { intros id (w & Hm & Hmid). apply list_elem_of_lookup in Hm as [j Hj]. destruct (decide (i = j)) as [<-|Hne].
    - exists (add_peer pid w). split; [apply list_elem_of_lookup; exists i; by rewrite list_lookup_alter_eq, Hj|].
      assert (w = x') as -> by congruence. congruence.
    - exists w. split; [|done]. apply list_elem_of_lookup. exists j. by rewrite list_lookup_alter_ne. }
  split_and!.
  - intros j y. destruct (decide (i = j)) as [<-|Hne].
    { rewrite list_lookup_alter_eq, Hx'. cbn. intros [= <-]. split; [apply Ha2; by eapply H1|done]. }
    rewrite list_lookup_alter_ne by done. intros Hy. destruct (H1 j y Hy) as [Hy1 Hy2]. split; [done|].
    rewrite elem_of_app, list_elem_of_singleton. intros [?|Hyid]; [by apply Hy2|].
    destruct (decide (length orig <= j)%nat) as [|Hj]; [by eapply H3|]. destruct Hne.
    eapply joined_place; [done|done|done| |done|done]. lia.
  - intros id. rewrite elem_of_app, list_elem_of_singleton. intros [Hin| ->]; apply Hk; [by apply H2|].
    exists x'. split; [by eapply list_elem_of_lookup_2|congruence].
  - intros j y Hj. destruct (decide (i = j)) as [<-|Hne]; [|rewrite list_lookup_alter_ne by done; by apply H3].
    apply lookup_lt_Some in Hx. lia.
  - intros j y Hy. destruct (H4 j y Hy) as (y' & Hy' & Hyid & Hyq). destruct (decide (i = j)) as [<-|Hne].
    + exists (add_peer pid x'). rewrite list_lookup_alter_eq, Hx'. assert (y = x) as -> by congruence.
      split_and!; [done|congruence|]. intros q Hq. rewrite Ha4 by done. by apply Hq'.
    + exists y'. by rewrite list_lookup_alter_ne.
Qed.

Lemma join_new pid seen orig cur id name :
  ~ In id (map nw_ID orig) -> joined pid seen orig cur ->
  joined pid (seen ++ [id]) orig (cur ++ [mkNetwork id name [pid]]).
Proof using Type.
  intros Hi HJ. pose proof HJ as (H1 & H2 & H3 & H4). split_and!.
  - intros j y. rewrite lookup_app_Some, list_lookup_singleton_Some.
    intros [Hy|(Hj & _ & <-)]; cbn; [|split; [apply NoDup_singleton|set_solver]].
    destruct (H1 j y Hy) as [Hy1 Hy2]. split; [done|]. rewrite elem_of_app, list_elem_of_singleton.
    intros [?|Hyid]; [by apply Hy2|].
    destruct (decide (length orig <= j)%nat) as [|Hlt]; [by eapply H3|].
    destruct (lookup_lt_is_Some_2 orig j ltac:(lia)) as [z Hz]. destruct (H4 j z Hz) as (z' & Hz' & Hzid & _).
    destruct Hi. rewrite <- Hyid. assert (y = z') as -> by congruence. rewrite Hzid. apply in_map.
    by eapply list_elem_of_In, list_elem_of_lookup_2.
  - intros i. rewrite elem_of_app, list_elem_of_singleton. intros [Hin| ->].
    + destruct (H2 i Hin) as (w & Hm & ?). exists w. split; [set_solver|done].
    + eexists. split; [apply elem_of_app; right; by apply list_elem_of_singleton|done].
  - intros j y Hj. rewrite lookup_app_Some, list_lookup_singleton_Some. intros [Hy|(_ & _ & <-)]; [by eapply H3|set_solver].
  - intros j y Hy. destruct (H4 j y Hy) as (y' & Hy' & ? & ?). exists y'. split; [by apply lookup_app_l_Some|done].
Qed.

(** The networks fit the slice, or none is new. *)
Definition fits (cap : nat) (orig : list Network) (ns : list PacketSyncPeer_Network) : Prop :=
  Forall (fun n => In (sn_ID n) (map nw_ID orig)) ns \/ (length orig + length ns <= cap)%nat.

Lemma joins pid cap orig ns : NoDup (map nw_ID orig) -> forall seen t,
  joined pid seen orig (tp_cur t) -> tp_shared t = true ->
  Forall (fun n => In (sn_ID n) (map nw_ID orig)) ns \/ (length (tp_cur t) + length ns <= cap)%nat ->
  joined pid (seen ++ map sn_ID ns) orig (tp_cur (foldl (fun t n => topology_join pid cap orig n t) t ns)).
Proof using Type.
  intros Hnd. induction ns as [|n ns IH]; intros seen t HJ Hs Hf; [by rewrite app_nil_r|].
  cbn [map foldl]. change (sn_ID n :: map sn_ID ns) with ([sn_ID n] ++ map sn_ID ns). rewrite app_assoc.
  pose proof (local_index_spec (sn_ID n) orig) as Hi. unfold topology_join at 2.
  destruct (local_index (sn_ID n) orig) as [i|].
  - destruct Hi as (x & Hx & <-). rewrite Hs. apply IH; [by apply join_known|done|]. cbn [tp_cur]. rewrite length_alter.
    destruct Hf as [Hf|Hf]; [left; by inversion Hf|right; cbn in Hf; lia].
  - destruct Hf as [Hf|Hf]; [by inversion Hf|]. cbn in Hf. apply IH; [by apply join_new| |].
    + cbn. rewrite Hs. apply Nat.ltb_lt. lia.
    + right. cbn. rewrite length_app. cbn. lia.
Qed.

Definition networks_of m : list Network := default [] (mm_networks m).

(** C23 (functional).  A peer's catch-up brings the local view of the networks
    in line with the networks it announces, as long as the stored slice does
    not have to grow for a network that is new to this node: the peer is a
    member of exactly the announced networks, every announced network is
    present, and nobody else's membership changes. *)
Theorem topology_follows_peer m spare pi :
  NoDup (map nw_ID (networks_of m)) ->
  Forall (fun n => NoDup (nw_Peers n)) (networks_of m) ->
  fits (mm_cap m) (networks_of m) (pi_Networks pi) ->
  let pid := pi_PeerID pi in
  let announced := map sn_ID (pi_Networks pi) in
  let ns := networks_of (gstate (updateNetworkTopologyWithPeer spare pi) m) in
  (forall n, n ∈ ns -> pid ∈ nw_Peers n <-> nw_ID n ∈ announced) /\
  (forall id, id ∈ announced -> exists n, n ∈ ns /\ nw_ID n = id) /\
  (forall i n, networks_of m !! i = Some n -> exists n', ns !! i = Some n' /\ nw_ID n' = nw_ID n /\
     forall q, q <> pid -> q ∈ nw_Peers n' <-> q ∈ nw_Peers n).
Proof.
  intros Hnd Hns Hf pid announced ns.
  assert (joined pid [] (networks_of m) (networks_of m)) as H0.
  { split_and!.
    - intros i n Hi. split; [|by intros ?%elem_of_nil]. exact (Forall_lookup_1 _ _ _ _ Hns Hi).
    - by intros id ?%elem_of_nil.
    - intros i n Hi Hn. apply lookup_lt_Some in Hn. lia.
    - intros i n Hi. by exists n. }
  pose proof (joins pid (mm_cap m) _ (pi_Networks pi) Hnd [] (mkTopology (networks_of m) (networks_of m) true) H0 eq_refl)
    as (H1 & H2 & H3 & H4); [exact Hf|]. cbn [app] in *. fold announced in H1, H2.
  set (t := foldl _ _ _) in *. assert (ns = map (topology_leave pid announced) (tp_cur t)) as -> by done.
  split_and!.
  - intros n (w & -> & Hw)%list_elem_of_fmap. apply list_elem_of_lookup in Hw as [i Hi]. destruct (H1 i w Hi) as [Hn1 Hn2].
    unfold topology_leave. destruct (decide (nw_ID w ∈ announced)) as [Hin|Hout]; [tauto|]. cbn.
    rewrite elem_of_remove_first by done. tauto.
  - intros id Hid. destruct (H2 id Hid) as (w & Hw & <-). exists (topology_leave pid announced w).
    split; [by apply list_elem_of_fmap_2|]. unfold topology_leave. by destruct (decide _).
  - intros i n Hi. destruct (H4 i n Hi) as (w & Hw & Hwid & Hwq). exists (topology_leave pid announced w).
    rewrite list_lookup_fmap, Hw. split; [done|]. unfold topology_leave. destruct (decide _); [done|]. cbn.
    split; [done|]. intros q Hq. destruct (H1 i w Hw) as [Hn1 _]. rewrite elem_of_remove_first by done.
    rewrite Hwq by done. tauto.
Qed.

(** When the stored slice is full and the peer announces a
    network that is new to this node before one that it knows, appending the
    new network moves the slice while the pointers collected before still
    point into the old array: the membership in the known network is written
    there and lost. *)
Theorem topology_loses_membership m spare pi new known i n :
  pi_Networks pi = [new; known] -> mm_cap m = length (networks_of m) ->
  ~ In (sn_ID new) (map nw_ID (networks_of m)) ->
  networks_of m !! i = Some n -> nw_ID n = sn_ID known -> ~ pi_PeerID pi ∈ nw_Peers n ->
  networks_of (gstate (updateNetworkTopologyWithPeer spare pi) m) !! i = Some n.
Proof.
  intros Hpi Hcap Hnew Hi Hid Hn.
  unfold networks_of at 1, gstate, updateNetworkTopologyWithPeer, gmodify. cbn [fst mm_networks set_networks default].
  fold (networks_of m). rewrite Hpi. cbn [foldl]. unfold topology_join at 2.
  pose proof (local_index_spec (sn_ID new) (networks_of m)) as Hs.
  destruct (local_index (sn_ID new) (networks_of m)) as [j|]; [destruct Hs as (x & Hx & Hsx)|].
  { destruct Hnew. rewrite <- Hsx. by eapply in_map, list_elem_of_In, list_elem_of_lookup_2. }
  cbn [tp_cur tp_old tp_shared]. rewrite Hcap, Nat.ltb_irrefl. unfold topology_join.
  assert (nw_ID n ∈ map sn_ID [new; known]) as Hin by (rewrite Hid; cbn; set_solver).
  destruct (local_index (sn_ID known) (networks_of m)) as [k|] eqn:Hk.
  - cbn [tp_cur tp_shared andb]. unfold default, id. rewrite list_lookup_fmap, lookup_app_l by (by eapply lookup_lt_Some).
    rewrite Hi. cbn. unfold topology_leave. by rewrite decide_True.
  - pose proof (local_index_spec (sn_ID known) (networks_of m)) as Hs2. rewrite Hk in Hs2. destruct Hs2.
    rewrite <- Hid. by eapply in_map, list_elem_of_In, list_elem_of_lookup_2.
Qed.

Lemma new_tunnel_spec m sid remote c :
  t_cipher (new_tunnel m sid remote c) = c /\ t_localPeerID (new_tunnel m sid remote c) = lp_PeerID (mm_localPeer m) /\
  t_peerID (new_tunnel m sid remote c) = remote.
Proof using Type. unfold new_tunnel. by destruct (mm_endpoints m). Qed.

(** C18 (functional).  The catch-up handshake between two nodes: the node that
    receives the catch-up message answers it with an acknowledgement for the
    sender, and once the sender has handled that acknowledgement both hold a
    tunnel to each other under the same cipher, with each other's identifiers,
    and neither asks for another catch-up. *)
Theorem catchup_pairs_tunnels m (b : @Manager IP R) now spare now' bi ps c k lb ob :
  mm_locked m = false -> mm_locked b = false -> peers_wf (mm_peers m) (mm_heap m) ->
  pi_PeerID bi = lp_PeerID (mm_localPeer b) -> pi_PublicKey bi = lp_Public (mm_localPeer b) ->
  pi_PrimaryServer bi = Some ps -> RelayServerClient (sr_ID ps) = Some c ->
  (forall msg, rh_Send c PacketType_SyncPeer msg = Ok tt) ->
  is_Some (mm_peers m !! pi_PeerID bi) \/ (exists a, ParseIP (pi_IPv4 bi) = Ok a) ->
  mm_peers b !! lp_PeerID (mm_localPeer m) = Some lb -> mm_heap b !! lb = Some ob ->
  DH (lp_Private (mm_localPeer m)) (lp_Public (mm_localPeer b)) = Ok k ->
  DH (lp_Private (mm_localPeer b)) (lp_Public (mm_localPeer m)) = Ok k ->
  exists m' ack (b' : @Manager IP R) la oa tm tb ob',
    PeerCatchup now spare (mkPacketSyncPeer (lp_PeerID (mm_localPeer m)) Catchup (Some bi) []) m = (m', Ok tt) /\
    mm_sent m' = mm_sent m ++ [(rs_ID (rh_server c), PacketType_SyncPeer, MSyncPeer ack)] /\
    sp_DstPeerID ack = lp_PeerID (mm_localPeer b) /\
    PeerCatchupAck now' ack b = (b', Ok tt) /\
    mm_peers m' !! lp_PeerID (mm_localPeer b) = Some la /\ mm_heap m' !! la = Some oa /\ po_tunnel oa = Some tm /\
    mm_heap b' !! lb = Some ob' /\ po_tunnel ob' = Some tb /\
    t_cipher tm = t_cipher tb /\ t_localPeerID tm = t_peerID tb /\ t_peerID tm = t_localPeerID tb /\
    (forall t, IsNeedCatchup t oa = false) /\ (forall t, IsNeedCatchup t ob' = false).
Proof.
  intros Hm Hb Hw Hpid Hpk Hps Hc Hsend Hknown Hlb Hob Hdh1 Hdh2.
  set (ack := mkPacketSyncPeer (pi_PeerID bi) CatchupAck
     (Some (mkSyncPeerInfo (lp_PeerID (mm_localPeer m)) 0 "" "" (lp_Public (mm_localPeer m)) None [])) []).
  assert (exists m' la oa, PeerCatchup now spare (mkPacketSyncPeer (lp_PeerID (mm_localPeer m)) Catchup (Some bi) []) m = (m', Ok tt) /\
    mm_sent m' = mm_sent m ++ [(rs_ID (rh_server c), PacketType_SyncPeer, MSyncPeer ack)] /\
    mm_peers m' !! pi_PeerID bi = Some la /\ mm_heap m' !! la = Some (SetCatchupAt now
      (SetTunnel (new_tunnel m (sr_ID ps) (pi_PeerID bi) (ChaChaPoly (fix_key k))) oa))) as (m' & la & oa & H1 & H2 & H3 & H4).
  { unfold PeerCatchup. cbn [sp_Peer]. cbv [mbind gom_bind gget]. unfold Lock. rewrite Hm. cbn [mm_peers set_locked].
    destruct (mm_peers m !! pi_PeerID bi) as [la|] eqn:Hla.
    - destruct (Hw _ _ Hla) as (oa & Hoa & _). exists (log_sent (rs_ID (rh_server c), PacketType_SyncPeer, MSyncPeer ack)
        (gstate (updateNetworkTopologyWithPeer spare bi) (gstate (on_peer la (fun p => SetCatchupAt now
           (SetTunnel (new_tunnel m (sr_ID ps) (pi_PeerID bi) (ChaChaPoly (fix_key k))) p))) (set_locked false (set_locked true m))))), la, oa.
      cbv [mret gom_ret glift Unlock gmodify]. cbn -[updateNetworkTopologyWithPeer on_peer]. rewrite Hpk, Hdh1, Hps. cbn -[updateNetworkTopologyWithPeer].
      rewrite Hc. unfold send. rewrite Hsend. split_and!; [done|done|done|]. cbn. by rewrite lookup_alter_eq, Hoa.
    - destruct Hknown as [[? ?]|[a Ha]]; [done|]. rewrite Hps, Ha. cbn. rewrite Hpk, Hdh1. cbn. rewrite Hc. unfold send. rewrite Hsend.
      eexists _, _, _. split_and!; [done|done| |]; cbn; [by rewrite lookup_insert_eq|].
      by rewrite lookup_alter_eq, lookup_insert_eq. }
  assert (PeerCatchupAck now' ack b = (set_pheap (alter (fun p => SetCatchupAt now' (SetTunnel
     (new_tunnel b (pr_ServerID (po_info p)) (lp_PeerID (mm_localPeer m)) (ChaChaPoly (fix_key k))) p)) lb (mm_heap b)) (set_locked false (set_locked true b)), Ok tt)) as Hack.
  { unfold PeerCatchupAck. cbn [ack sp_Peer]. cbv [mbind gom_bind gget]. unfold Lock. rewrite Hb. cbn. by rewrite Hlb, Hdh2. }
  destruct (new_tunnel_spec m (sr_ID ps) (pi_PeerID bi) (ChaChaPoly (fix_key k))) as (Hm1 & Hm2 & Hm3).
  destruct (new_tunnel_spec b (pr_ServerID (po_info ob)) (lp_PeerID (mm_localPeer m)) (ChaChaPoly (fix_key k))) as (Hb1 & Hb2 & Hb3).
  rewrite Hpid in H3. eexists m', ack, _, la, _, _, _, _. split_and!; [exact H1|exact H2|by rewrite <- Hpid|exact Hack|exact H3|exact H4|done| | | | | |done|].
  - cbn. by rewrite lookup_alter_eq, Hob.
  - done.
  - congruence.
  - congruence.
  - congruence.
  - done.
Qed.
End Facts.

(** ** Witnesses *)

Module Example.
#[local] Instance net : NetAddr string := {|
  ParseIP s := if String.eqb s "" then Err (EMsg "ParseIP: unable to parse IP") else Ok s;
  IP_String s := s |}.
#[local] Instance kx : KeyExchange := {|
  DH a b := Ok (zip_with byte_xor a b);
  ChaChaPoly _ := Toy.cipher |}.
Definition server : RelayServer := mkRelayServer 1 "relay" "eu" "relay.example" 7 7 "key".
Definition handle : RelayHandle := mkRelayHandle server (fun _ _ => Ok tt).
#[local] Instance clients : RelayClients := {|
  RelayServerClient sid := if sid =? 1 then Some handle else None;
  PrimaryRelayServerClient := Some handle |}.

Definition node (id : PeerID) (addr : string) (key : Byte.byte) : LocalPeer string :=
  mkLocalPeer "node" 9 id [key] [key] addr [].
Definition start (id : PeerID) (addr : string) (key : Byte.byte) : @Manager string (@router string _ _) :=
  NewManager (node id addr key) newRouter.
Definition peer1 : Peer := mkPeer 1 9 "one" "10.0.0.1" 1 true.
Definition peer2 : Peer := mkPeer 2 9 "two" "10.0.0.2" 1 true.
Definition a1 : @Manager string (@router string _ _) := gstate (Update 0 1 [1; 2] [] [1; 2] [mkNetwork 5 "lan" [1; 2]] [peer1; peer2]) (start 1 "10.0.0.1" Byte.x01).
Definition b2 : @Manager string (@router string _ _) := gstate (Update 0 1 [1; 2] [] [1; 2] [mkNetwork 5 "lan" [1; 2]] [peer1; peer2]) (start 2 "10.0.0.2" Byte.x02).

Definition wf_at (h : gmap nat PeerObj) (id : Z) (l : nat) : bool :=
  match h !! l with Some p => pr_ID (po_info p) =? id | None => false end.
Lemma peers_wf_of ps h : bool_decide (map_Forall (fun id l => wf_at h id l = true) ps) = true -> peers_wf ps h.
Proof.
  intros Hb%bool_decide_eq_true id l Hl. specialize (Hb id l Hl). unfold wf_at in Hb.
  destruct (h !! l) as [p|]; [|done]. exists p. split; [done|]. by apply Z.eqb_eq.
Qed.
Lemma sends_ok : sends_return.
Proof. intros sid c t msg w. cbn. destruct (sid =? 1); [|done]. by intros [= <-]. Qed.

Lemma update_installs_peers_witness :
  let m := start 1 "10.0.0.1" Byte.x01 in
  exists m', Update 0 1 [1; 2] [] [1; 2] [mkNetwork 5 "lan" [1; 2]] [peer1; peer2] m = (m', Ok tt) /\
  mm_locked m' = false /\ is_Some (mm_peers m' !! 2) /\ router_view (mm_router m') = {[("10.0.0.2", 32)]}.
Proof.
  destruct (update_installs_peers (start 1 "10.0.0.1" Byte.x01) 0 1 [1; 2] [] [1; 2] [mkNetwork 5 "lan" [1; 2]] [peer1; peer2]
    sends_ok eq_refl) as (m' & H1 & H2 & H3 & _ & _ & _ & H7).
  - by apply peers_wf_of.
  - repeat constructor; intros; by eexists.
  - intros id l p. cbn. by rewrite lookup_empty.
  - done.
  - exists m'. split_and!; [done|done|apply H3; cbn; tauto|by rewrite H7].
Defined.

Lemma bad_address_locks_manager_witness :
  exists m', Update 0 1 [1] [] [1] [] [mkPeer 3 9 "three" "" 1 true] a1 =
    (m', Err (EWrap "parse ipv4 address in Update" (EMsg "ParseIP: unable to parse IP"))) /\
  Tick 5 [1; 2] m' = (m', Panic deadlock).
Proof.
  destruct (bad_address_locks_manager a1 0 1 [1] [] [1] [] [mkPeer 3 9 "three" "" 1 true] (EMsg "ParseIP: unable to parse IP"))
    as (m' & H1 & _ & H2 & _).
  - by vm_compute.
  - by apply peers_wf_of.
  - exists [], (mkPeer 3 9 "three" "" 1 true), []. by repeat constructor.
  - exists m'. by split.
Defined.

Lemma unpaired_leaver_panics_witness :
  exists m', Update 0 1 [1] [1; 2] [1] [] [peer1] a1 = (m', Panic "invalid memory address or nil pointer dereference") /\
    mm_locked m' = true.
Proof.
  destruct (mm_peers a1 !! 2) as [l|] eqn:Hl; [|by vm_compute in Hl].
  destruct (mm_heap a1 !! l) as [p|] eqn:Hp; [|vm_compute in Hl; injection Hl as <-; by vm_compute in Hp].
  destruct (unpaired_leaver_panics a1 0 1 [1] [1; 2] [1] [] [peer1] 2 l p) as (m' & H1 & H2 & _).
  - by vm_compute.
  - by apply peers_wf_of.
  - repeat constructor; intros; by eexists.
  - done.
  - done.
  - vm_compute in Hl; injection Hl as <-. vm_compute in Hp. by injection Hp as <-.
  - intros Hin. vm_compute in Hin. by destruct Hin.
  - cbn. tauto.
  - by exists m'.
Defined.

Definition info2 (ns : list PacketSyncPeer_Network) : PacketSyncPeer_PeerInfo :=
  mkSyncPeerInfo 2 9 "two" "10.0.0.2" [Byte.x02] (Some (mkSyncRelayServer 1 "relay" "eu" "relay.example" 7 "key")) ns.
Definition lan : @Manager string (@router string _ _) := set_networks [mkNetwork 5 "lan" [1]; mkNetwork 6 "old" [2]] 2 a1.

Lemma topology_follows_peer_witness :
  exists n, n ∈ networks_of (gstate (updateNetworkTopologyWithPeer 0 (info2 [mkSyncNetwork "lan" 5])) lan) /\
    nw_ID n = 5 /\ 2 ∈ nw_Peers n.
Proof.
  destruct (topology_follows_peer lan 0 (info2 [mkSyncNetwork "lan" 5])) as (H1 & H2 & _).
  - cbn. apply (bool_decide_unpack _). by vm_compute.
  - cbn. repeat constructor; cbn; set_solver.
  - left. repeat constructor.
  - destruct (H2 5) as (n & Hn & Hid); [by left|]. exists n. split_and!; [done|done|]. apply (H1 n Hn). rewrite Hid. by left.
Defined.

Lemma topology_loses_membership_witness :
  networks_of (gstate (updateNetworkTopologyWithPeer 0 (info2 [mkSyncNetwork "new" 9; mkSyncNetwork "lan" 5])) lan) !! 0%nat =
    Some (mkNetwork 5 "lan" [1]).
Proof.
  eapply (topology_loses_membership lan 0 _ (mkSyncNetwork "new" 9) (mkSyncNetwork "lan" 5)); try done.
  - cbn. lia.
  - cbn. set_solver.
Defined.

Lemma catchup_pairs_tunnels_witness :
  exists m' la oa tm tb, PeerCatchup 7 0 (mkPacketSyncPeer 1 Catchup (Some (info2 [])) []) a1 = (m', Ok tt) /\
    mm_peers m' !! 2 = Some la /\ mm_heap m' !! la = Some oa /\ po_tunnel oa = Some tm /\
    t_cipher tm = t_cipher tb /\ t_peerID tm = t_localPeerID tb.
Proof.
  destruct (mm_peers b2 !! 1) as [l|] eqn:Hl; [|by vm_compute in Hl].
  destruct (mm_heap b2 !! l) as [p|] eqn:Hp; [|vm_compute in Hl; injection Hl as <-; by vm_compute in Hp].
  destruct (catchup_pairs_tunnels a1 b2 7 0 7 (info2 []) (mkSyncRelayServer 1 "relay" "eu" "relay.example" 7 "key") handle
    [byte_xor Byte.x01 Byte.x02] l p) as (m' & ack & b' & la & oa & tm & tb & ob' & H1 & _ & _ & _ & H2 & H3 & H4 & _ & _ & H5 & _ & H6 & _);
    try by vm_compute.
  - by apply peers_wf_of.
  - right. by eexists.
  - by exists m', la, oa, tm, tb.
Defined.
End Example.
