(* ===== verification/Driver.v ===== *)
(** The node's driver, [node/driver/]: the relay callbacks, the pull of the
    peer graph, the traffic of the virtual device, the local addresses, the
    events of the relay and of the monitor, and the renewal of the
    credential.  Each iteration of a background goroutine is one turn. *)
From stdpp Require Import pretty.
From S2P Require Import Prelude Wire RelayCodec Noise PeerCodec RelayManager Tunnel Router MeshManager.
#[local] Set Warnings "-clear-no-such-hyp".

(** ** Locating the primary server ([pull_peers.go]) *)

(** The binary search of [findServerIDWithPeerID] on [peers[left..right]];
    the fuel is the number of peers. *)
Fixpoint find_loop (fuel : nat) (peers : list Peer) (peerID : PeerID) (left right : Z) : result ServerID :=
  match fuel with
  | O => if left <=? right then Panic "out of fuel" else Ok 0
  | S fuel =>
    if left <=? right then
      let mid := go_div (left + right) 2 in
      match peers !! Z.to_nat mid with
      | None => Panic "index out of range"
      | Some cur =>
        if pr_ID cur <? peerID then find_loop fuel peers peerID (mid + 1) right
        else if peerID <? pr_ID cur then find_loop fuel peers peerID left (mid - 1)
        else Ok (pr_ServerID cur)
      end
    else Ok 0
  end.
Definition findServerIDWithPeerID (peerID : PeerID) (res : PeerGraphResponse) : result ServerID :=
  match pg_Peers res with
  | [] => Ok 0
  | peers => find_loop (length peers) peers peerID 0 (zlen peers - 1)
  end.

(** ** Local addresses ([local_addresses.go]) *)

(** [net.Interface], with the outcome of its [Addrs]: each address is an
    [IPNet]'s bytes, or [None] for another type. *)
Record Interface := mkInterface {
  if_Name : string; if_Up : bool; if_Loopback : bool; if_Addrs : result (list (option bytes)) }.

(** The operations of [netaddr.IP] the scan uses. *)
Class NetAddrScan (IP : Type) := {
  FromStdIP : bytes -> option IP;
  Is6 : IP -> bool;
  Less : IP -> IP -> bool }.

Definition isUp (i : Interface) : bool := if_Up i.
Definition isLoopback (i : Interface) : bool := if_Loopback i.
(** [strings.Contains]. *)
Fixpoint contains (s sub : string) : bool :=
  String.prefix sub s || match s with String _ s' => contains s' sub | EmptyString => false end.
Definition isProblematicInterface (windows : bool) (i : Interface) : bool :=
  String.prefix "zt" (if_Name i) || (windows && contains (if_Name i) "ZeroTier")
  || String.prefix "ts" (if_Name i) || (windows && contains (if_Name i) "TailScale").

Section LocalAddresses.
Context {IP : Type} `{HNet : !NetAddr IP} `{HScan : !NetAddrScan IP}.

Definition scan_address (own : string) (a : option bytes) : option IP :=
  v ← a; ip ← FromStdIP v;
  if Is6 ip then None else if String.eqb (IP_String ip) own then None else Some ip.
Definition scan_interface (windows : bool) (own : string) (i : Interface) : list IP :=
  if negb (isUp i) || isProblematicInterface windows i then []
  else if isLoopback i then []
  else match if_Addrs i with Ok addrs => omap (scan_address own) addrs | _ => [] end.

(** [sort.Slice] with [Less]. *)
Definition ip_le (a b : IP) : Prop := Less b a = false.
#[export] Instance ip_le_dec a b : Decision (ip_le a b).
Proof using Type. unfold ip_le. apply _. Defined.
Definition sort_ips (l : list IP) : list IP := merge_sort ip_le l.

(** The loop that appends an address unless it equals the last one. *)
Definition dedup_step (acc : list string) (a : IP) : list string :=
  let addr := IP_String a in
  match last acc with
  | None => acc ++ [addr]
  | Some x => if String.eqb x addr then acc else acc ++ [addr]
  end.
Definition dedup (l : list IP) : list string := foldl dedup_step [] l.

(** [ifaces] is the outcome of [net.Interfaces]. *)
Definition localAddresses (windows : bool) (own : string) (ifaces : result (list Interface)) : list string :=
  match ifaces with
  | Ok l => dedup (sort_ips (mjoin (map (scan_interface windows own) l)))
  | _ => []
  end.
End LocalAddresses.

(** ** Packets of the device ([serve_device.go]) *)

(** [parseDst]: the destination of an IPv4 header. *)
Definition parseDst (b : bytes) : option (Z * Z * Z * Z) :=
  match drop 16 b with
  | p :: q :: r :: s :: _ =>
    Some (byte.unsigned p, byte.unsigned q, byte.unsigned r, byte.unsigned s)
  | _ => None
  end.
(** [net.IP.String] of an IPv4 address. *)
Definition ipv4_string (a : Z * Z * Z * Z) : string :=
  let '(a, b, c, d) := a in
  (pretty a ++ "." ++ pretty b ++ "." ++ pretty c ++ "." ++ pretty d)%string.
(** The SSDP multicast group. *)
Definition npnp : Z * Z * Z * Z := (239, 255, 255, 250).

(** ** The driver *)

(** [relay.Manager], as the driver uses it: its operations, and the clients it
    has at any time. *)
Class RelayOps (RM : Type) := {
  rm_AddServer : RelayServer -> RM -> RM;
  rm_SetPrimaryServerID : ServerID -> RM -> RM;
  rm_PrimaryServerID : RM -> ServerID;
  rm_Update : list RelayServer -> RM -> RM;
  rm_Tick : RM -> RM;
  rm_SetCredential : bytes -> RM -> RM;
  rm_Stop : RM -> RM;
  rm_clients : RM -> RelayClients }.

(** What the manager promises the driver.  [rm_ready] is its invariant once it
    has the node's credential, [rm_waiting] tells the servers the next tick
    tries. *)
Definition rm_connected `{RelayOps RM} (rm : RM) (id : ServerID) : Prop :=
  is_Some (@RelayServerClient (rm_clients rm) id).
Class RelayOpsOk (RM : Type) `{!RelayOps RM} := {
  rm_sound : RM -> Prop;
  rm_ready : RM -> Prop;
  rm_waiting : RM -> ServerID -> Prop;
  SetCredential_ok : forall cred rm, rm_sound rm -> rm_ready (rm_SetCredential cred rm);
  sends_ok : forall rm, @sends_return (rm_clients rm);
  home_ok : forall rm, @PrimaryRelayServerClient (rm_clients rm) =
    if rm_PrimaryServerID rm =? 0 then None else @RelayServerClient (rm_clients rm) (rm_PrimaryServerID rm);
  SetPrimary_ok : forall id rm, rm_ready rm ->
    rm_ready (rm_SetPrimaryServerID id rm) /\ rm_PrimaryServerID (rm_SetPrimaryServerID id rm) = id;
  Update_ok : forall rs rm, rm_ready rm ->
    rm_ready (rm_Update rs rm) /\ rm_PrimaryServerID (rm_Update rs rm) = rm_PrimaryServerID rm /\
    (forall r, In r rs -> rm_connected (rm_Update rs rm) (rs_ID r) \/ rm_waiting (rm_Update rs rm) (rs_ID r)) /\
    (forall id, rm_connected (rm_Update rs rm) id -> In id (map rs_ID rs));
  AddServer_ok : forall r rm, rm_ready rm ->
    rm_ready (rm_AddServer r rm) /\ rm_PrimaryServerID (rm_AddServer r rm) = rm_PrimaryServerID rm /\
    (rm_connected (rm_AddServer r rm) (rs_ID r) \/ rm_waiting (rm_AddServer r rm) (rs_ID r)) /\
    (forall id, rm_connected rm id -> rm_connected (rm_AddServer r rm) id);
  Tick_ok : forall rm, rm_ready rm ->
    rm_ready (rm_Tick rm) /\ rm_PrimaryServerID (rm_Tick rm) = rm_PrimaryServerID rm /\
    (forall id, rm_connected rm id -> rm_connected (rm_Tick rm) id) }.

(** [credential] of [renew_cred.go]. *)
Record credential := mkCredential {
  cr_address : string; cr_RawBytes : bytes; cr_Base64 : string; cr_RenewedAt : Z; cr_Lease : Z }.

Section Driver.
Context {IP : Type} `{HIP : Countable IP} `{HNet : !NetAddr IP} `{HScan : !NetAddrScan IP}
  {R : Type} `{HRt : !Router IP R} `{HKx : !KeyExchange} {RM : Type} `{HRm : !RelayOps RM}.

(** [NodeDriver].  [d_chDevWrite] is the queue to the virtual device,
    [d_device] what has been written into it, [d_sent] the messages the relay
    clients accepted from the driver, [d_stun] the monitor's server. *)
Record NodeDriver := mkNodeDriver {
  d_peerID : PeerID; d_userID : UserID; d_name : string; d_port : Z;
  d_running : bool; d_termed : bool; d_enable : bool;
  d_primaryServerConnected : bool;
  d_externalAddr : string;
  d_credential : credential;
  d_chDevWrite : list bytes;
  d_device : list bytes;
  d_stun : RelayServer;
  d_sent : list (ServerID * PacketType * Message);
  d_mm : @Manager IP R;
  d_rm : RM }.

Definition set_flags (running termed enable connected : bool) (d : NodeDriver) : NodeDriver :=
  mkNodeDriver (d_peerID d) (d_userID d) (d_name d) (d_port d) running termed enable connected
    (d_externalAddr d) (d_credential d) (d_chDevWrite d) (d_device d) (d_stun d) (d_sent d) (d_mm d) (d_rm d).
Definition set_external (a : string) (d : NodeDriver) : NodeDriver :=
  mkNodeDriver (d_peerID d) (d_userID d) (d_name d) (d_port d) (d_running d) (d_termed d) (d_enable d)
    (d_primaryServerConnected d) a (d_credential d) (d_chDevWrite d) (d_device d) (d_stun d) (d_sent d) (d_mm d) (d_rm d).
Definition set_credential (c : credential) (d : NodeDriver) : NodeDriver :=
  mkNodeDriver (d_peerID d) (d_userID d) (d_name d) (d_port d) (d_running d) (d_termed d) (d_enable d)
    (d_primaryServerConnected d) (d_externalAddr d) c (d_chDevWrite d) (d_device d) (d_stun d) (d_sent d) (d_mm d) (d_rm d).
Definition set_device (q w : list bytes) (d : NodeDriver) : NodeDriver :=
  mkNodeDriver (d_peerID d) (d_userID d) (d_name d) (d_port d) (d_running d) (d_termed d) (d_enable d)
    (d_primaryServerConnected d) (d_externalAddr d) (d_credential d) q w (d_stun d) (d_sent d) (d_mm d) (d_rm d).
Definition set_stun (s : RelayServer) (d : NodeDriver) : NodeDriver :=
  mkNodeDriver (d_peerID d) (d_userID d) (d_name d) (d_port d) (d_running d) (d_termed d) (d_enable d)
    (d_primaryServerConnected d) (d_externalAddr d) (d_credential d) (d_chDevWrite d) (d_device d) s (d_sent d) (d_mm d) (d_rm d).
Definition set_sent (l : list (ServerID * PacketType * Message)) (d : NodeDriver) : NodeDriver :=
  mkNodeDriver (d_peerID d) (d_userID d) (d_name d) (d_port d) (d_running d) (d_termed d) (d_enable d)
    (d_primaryServerConnected d) (d_externalAddr d) (d_credential d) (d_chDevWrite d) (d_device d) (d_stun d) l (d_mm d) (d_rm d).
Definition set_mm (m : @Manager IP R) (d : NodeDriver) : NodeDriver :=
  mkNodeDriver (d_peerID d) (d_userID d) (d_name d) (d_port d) (d_running d) (d_termed d) (d_enable d)
    (d_primaryServerConnected d) (d_externalAddr d) (d_credential d) (d_chDevWrite d) (d_device d) (d_stun d) (d_sent d) m (d_rm d).
Definition set_rm (r : RM) (d : NodeDriver) : NodeDriver :=
  mkNodeDriver (d_peerID d) (d_userID d) (d_name d) (d_port d) (d_running d) (d_termed d) (d_enable d)
    (d_primaryServerConnected d) (d_externalAddr d) (d_credential d) (d_chDevWrite d) (d_device d) (d_stun d) (d_sent d) (d_mm d) r.

Abbreviation D := (GoM NodeDriver).
Abbreviation dget := (gget : D NodeDriver).

(** A call of the mesh manager, with the relay clients of the moment. *)
Definition on_mm {A} (f : RelayClients -> GoM (@Manager IP R) A) : D A := fun d =>
  match f (rm_clients (d_rm d)) (d_mm d) with (m, r) => (set_mm m d, r) end.
Definition on_rm (f : RM -> RM) : D unit := gmodify (fun d => set_rm (f (d_rm d)) d).
(** [d.chDevWrite <- data], once the device goroutine has made room. *)
Definition dev_send (data : bytes) : D unit := gmodify (fun d => set_device (d_chDevWrite d ++ [data]) (d_device d) d).
Definition nil_deref : string := "invalid memory address or nil pointer dereference".
Definition mismatch (id : Z) : error := EMsg ("destination peer id " ++ pretty id ++ " not match")%string.

(** *** Relay callbacks ([relay_callback.go]) *)

Definition OnForward (msg : Message) : D unit :=
  match msg with
  | MForward forward =>
    d ← dget;
    if negb (fw_DstPeerID forward =? d_peerID d) then gthrow (mismatch (fw_DstPeerID forward))
    else
      peer ← on_mm (fun _ => Peer_ (fw_SrcPeerID forward));
      match peer with
      | None => gthrow (EMsg ("peer closed (peerID " ++ pretty (fw_SrcPeerID forward) ++ ")"))
      | Some l =>
        p ← on_mm (fun _ => deref l);
        match po_tunnel p with
        | None => gthrow (EMsg ("no peer catchup ack received (peer id: " ++ pretty (fw_SrcPeerID forward) ++ ")"))
        | Some t =>
          match Decrypt (t_cipher t) (fw_Nonce forward) (fw_Fragment forward) with
          | Err e => gthrow (EWrap "decrypt fragment failed" e)
          | Panic w => gpanic w
          | Ok decrypted => dev_send decrypted
          end
        end
      end
  | _ => gpanic "interface conversion"
  end.

(** The endpoints a node announces: the detected address, then the local
    ones. *)
Definition announce (external : list string) (locals : list string) (port : Z) : list string :=
  external ++ map (fun l => l ++ ":" ++ pretty port)%string locals.

Definition PairRequest_ (locals : list string) (syncPeer : PacketSyncPeer) : D unit :=
  _ ← on_mm (fun _ => PeerEndpoints syncPeer);
  match sp_Peer syncPeer with
  | None => gpanic nil_deref
  | Some info =>
    peer ← on_mm (fun _ => Peer_ (pi_PeerID info));
    match peer with
    | None => gpanic nil_deref
    | Some l =>
      p ← on_mm (fun _ => deref l);
      d ← dget;
      let clients := rm_clients (d_rm d) in
      let relayClient := match @RelayServerClient clients (pr_ServerID (po_info p)) with
                         | Some c => Some c
                         | None => @PrimaryRelayServerClient clients
                         end in
      match relayClient with
      | None => mret tt
      | Some c =>
        let external := if String.eqb (d_externalAddr d) "" then [] else [d_externalAddr d] in
        let endpoints := announce external locals (d_port d) in
        let res := MSyncPeer (mkPacketSyncPeer (pi_PeerID info) PairResponse
          (Some (mkSyncPeerInfo (sp_DstPeerID syncPeer) 0 "" "" [] None [])) endpoints) in
        match rh_Send c PacketType_SyncPeer res with
        | Ok _ => gmodify (fun d => set_sent (d_sent d ++ [(rs_ID (rh_server c), PacketType_SyncPeer, res)]) d)
        | Err _ => mret tt
        | Panic w => gpanic w
        end
      end
    end
  end.

(** [locals] is what [localAddresses] returns at that moment, [spare] the room
    a growing slice gets. *)
Definition OnSyncPeer (now : Z) (spare : nat) (locals : list string) (msg : Message) : D unit :=
  match msg with
  | MSyncPeer syncPeer =>
    d ← dget;
    if negb (sp_DstPeerID syncPeer =? d_peerID d) then gthrow (mismatch (sp_DstPeerID syncPeer))
    else
      match sp_Purpose syncPeer with
      | Catchup =>
        match sp_Peer syncPeer with
        | None => gpanic nil_deref
        | Some info =>
          _ ← match pi_PrimaryServer info with
              | Some ps => on_rm (rm_AddServer (mkRelayServer (sr_ID ps) (sr_Name ps) (sr_Region ps) (sr_Host ps)
                                                 (sr_Port ps) 0 (sr_PublicKey ps)))
              | None => mret tt
              end;
          on_mm (fun _ => PeerCatchup now spare syncPeer)
        end
      | CatchupAck => on_mm (fun _ => PeerCatchupAck now syncPeer)
      | PairRequest => PairRequest_ locals syncPeer
      | PairResponse | EndpointsChanged => on_mm (fun _ => PeerEndpoints syncPeer)
      | _ => mret tt
      end
  | _ => gpanic "interface conversion"
  end.

Definition OnProbeResponse (now : Z) (msg : Message) : D unit :=
  match msg with
  | MProbeResponse probe => on_mm (fun _ => ProbeResult now probe)
  | _ => gpanic "interface conversion"
  end.

(** [OnFragment] of [mesh_callback.go]. *)
Definition OnFragment (data : bytes) : D unit := dev_send data.

(** *** The virtual device ([serve_device.go]) *)

(** What a tunnel's writes go through: the client its getter finds. *)
Definition tunnel_relay (c : RelayClients) (t : Tunnel) : option (PacketType -> Message -> result unit) :=
  rh_Send <$> relayClientGetter (t_rcServer t).

(** [t.Write(data)] on the tunnel of the peer that has the address. *)
Definition tunnel_write (now n1 n2 : Z) (dest : string) (data : bytes) : RelayClients -> GoM (@Manager IP R) (option WriteOutcome) :=
  fun c m =>
  match l ← mm_index m !! dest; p ← mm_heap m !! l; t ← po_tunnel p; Some (l, p, t) with
  | None => (m, Ok None)
  | Some (l, p, t) =>
    match Tunnel.Write now n1 n2 (tunnel_relay c t) data t with
    | (t', Ok o) => (set_pheap (<[l := SetTunnel t' p]> (mm_heap m)) m, Ok (Some o))
    | (t', Err e) => (set_pheap (<[l := SetTunnel t' p]> (mm_heap m)) m, Err e)
    | (t', Panic w) => (set_pheap (<[l := SetTunnel t' p]> (mm_heap m)) m, Panic w)
    end
  end.

(** One packet read from the device; the value says what the tunnel did, if
    it came to that. *)
Definition serveDevRead_turn (now n1 n2 : Z) (data : bytes) : D (option WriteOutcome) :=
  d ← dget;
  if negb (d_enable d) then mret None
  else
    match parseDst data with
    | None => mret None
    | Some dst =>
      if decide (dst = npnp) then mret None
      else
        let destination := ipv4_string dst in
        t ← on_mm (fun _ => Tunnel_ destination);
        match t with
        | None => mret None
        | Some _ =>
          if String.eqb destination (cr_address (d_credential d)) then _ ← dev_send data; mret None
          else on_mm (tunnel_write now n1 n2 destination data)
        end
    end.

(** One packet taken from [chDevWrite]; [debug] is
    [logutil.IsEnableDevice]. *)
Definition serveDevWrite_turn (debug : bool) : D unit := gmodify (fun d =>
  match d_chDevWrite d with
  | [] => d
  | data :: q =>
    if negb (d_enable d) then set_device q (d_device d) d
    else if debug && bool_decide (parseDst data = None) then set_device q (d_device d) d
    else set_device q (d_device d ++ [data]) d
  end).

(** *** The peer graph ([pull_peers.go]) *)

(** The local variables of [pullPeerGraph]. *)
Record Puller := mkPuller { pullInterval : Z; uniqHash : string }.
Definition newPuller : Puller := mkPuller (1800 * Second) "".

(** The visiting orders and the capacity [mesh.Manager.Update] meets. *)
Record Orders := mkOrders { or_cap : nat; or_new : list PeerID; or_old : list PeerID; or_probe : list PeerID }.

Definition find_server (id : ServerID) (rs : list RelayServer) : option RelayServer :=
  snd <$> list_find (fun r => rs_ID r = id) rs.

(** A pull: the response (nil or not) and the error of the API call. *)
Definition pull_turn (now : Z) (o : Orders) (res : option PeerGraphResponse) (err : option error) (p : Puller)
  : D Puller :=
  let p := match res with
           | Some r => if 0 <? pg_UpdateInterval r then mkPuller (i64 (pg_UpdateInterval r * Second)) (uniqHash p) else p
           | None => p
           end in
  match err with
  | Some _ => mret p
  | None =>
    match res with
    | None => gpanic nil_deref
    | Some r =>
      if pg_NotModified r then mret p
      else
        let p := mkPuller (pullInterval p) (pg_UniqueHash r) in
        d ← dget;
        primaryServerID ← glift (findServerIDWithPeerID (d_peerID d) r);
        if primaryServerID =? 0 then mret p
        else
          match find_server primaryServerID (pg_RelayServers r) with
          | None => mret p
          | Some primaryServer =>
            if rs_ID primaryServer =? 0 then mret p
            else
              _ ← gmodify (set_stun primaryServer);
              _ ← on_rm (rm_SetPrimaryServerID primaryServerID);
              _ ← on_rm (rm_Update (pg_RelayServers r));
              _ ← gignore (on_mm (fun _ => Update now (or_cap o) (or_new o) (or_old o) (or_probe o) (pg_Networks r) (pg_Peers r)));
              mret p
          end
    end
  end.

Definition tick_turn (now : Z) (order : list PeerID) : D unit :=
  _ ← on_rm rm_Tick; on_mm (fun _ => Tick now order).

(** *** Events ([events_monitor.go]) *)

Definition relay_event (e : Event) : D unit := gmodify (fun d =>
  match e with
  | EventTypeClientConnected r _ =>
    if rm_PrimaryServerID (d_rm d) =? rs_ID r then set_flags (d_running d) (d_termed d) (d_enable d) true d else d
  | EventTypeClientClosed r _ =>
    if rm_PrimaryServerID (d_rm d) =? rs_ID r then set_flags (d_running d) (d_termed d) (d_enable d) false d else d
  end).

(** [EventTypeExternalAddressChanged]; [order] visits the peers. *)
Definition external_event (order : list PeerID) (locals : list string) (address : string) : D unit :=
  _ ← gmodify (set_external address);
  d ← dget;
  on_mm (fun _ => SyncEndpoints order (announce [address] locals (d_port d))).

(** *** The credential ([renew_cred.go]) *)

(** [nextRenewTime]: the wait, or the process exits. *)
Definition nextRenewTime (now : Z) (c : credential) : result Z :=
  let expirationAt := cr_RenewedAt c + cr_Lease c in
  if expirationAt <? now then Panic "exit: the credential is invalid due to expiration"
  else Ok (go_div (time_sub expirationAt now) 2).

(** [RenewCredential]'s answer: the base64 text, its decoding, the lease in
    seconds.  The result is the next wait. *)
Definition renew_turn (now : Z) (res : result (string * result bytes * Z)) : D Z :=
  _ ← match res with
      | Ok (b64, Ok raw, lease) =>
        _ ← gmodify (fun d => set_credential (mkCredential (cr_address (d_credential d)) raw b64 now (i64 (lease * Second))) d);
        on_rm (rm_SetCredential raw)
      | _ => mret tt
      end;
  d ← dget;
  glift (nextRenewTime now (d_credential d)).

(** *** Control ([driver.go], [summary.go]) *)

Definition Enable : D unit := gmodify (fun d => set_flags (d_running d) (d_termed d) true (d_primaryServerConnected d) d).
Definition Disable : D unit := gmodify (fun d => set_flags (d_running d) (d_termed d) false (d_primaryServerConnected d) d).
(** [Drive]: whether the goroutines were started. *)
Definition Drive : D bool := fun d =>
  if d_running d then (d, Ok false)
  else (set_flags true (d_termed d) (d_enable d) (d_primaryServerConnected d) d, Ok true).
Definition Terminate : D unit := fun d =>
  if negb (d_running d) then (d, Ok tt)
  else if d_termed d then (d, Ok tt)
  else (set_rm (rm_Stop (d_rm d)) (set_flags (d_running d) true (d_enable d) (d_primaryServerConnected d) d), Ok tt).

Record Profile := mkProfile { pf_UserID : Z; pf_Name : string; pf_IPv4 : string }.
Record DriverSummary := mkDriverSummary {
  ds_Enabled : bool; ds_Status : string; ds_Profile : Profile; ds_Mesh : Summary }.

Definition driver_Summarize (now : Z) (order : list PeerID) : D DriverSummary :=
  d ← dget;
  let status := if d_primaryServerConnected d then "connected"%string else "connecting"%string in
  mesh ← (if d_running d then on_mm (fun _ => Summarize now order) else mret (mkSummary ZeroTime [] []));
  mret (mkDriverSummary (d_enable d) status
    (mkProfile (d_userID d) (d_name d) (cr_address (d_credential d))) mesh).
(** [Equal] of two summaries that are not nil. *)
Definition profile_Equal (p q : Profile) : bool :=
  (pf_UserID p =? pf_UserID q) && String.eqb (pf_Name p) (pf_Name q) && String.eqb (pf_IPv4 p) (pf_IPv4 q).
Definition summary_Equal (s r : DriverSummary) : bool :=
  Bool.eqb (ds_Enabled s) (ds_Enabled r) && profile_Equal (ds_Profile s) (ds_Profile r)
  && (sm_LastChangedAt (ds_Mesh s) =? sm_LastChangedAt (ds_Mesh r)).

(** [Preflight], from the portal's answer: [b64] is the decoding of the
    credential, [up] the outcome of bringing the device up, [private] and
    [public] the node's key pair, [rm] the new relay manager, [rt] the
    device's router.  The flags are those of [New]. *)
Definition Preflight (now port : Z) (private public : bytes) (rt : R) (rm : RM)
    (b64 : string -> result bytes) (up : string -> result unit) (res : result PreflightResponse) : result NodeDriver :=
  res ← res;
  cred ← match b64 (pfr_Credential res) with Err e => Err (EWrap "decode base64 credential" e) | r => r end;
  let c := mkCredential (pfr_IPv4 res) cred (pfr_Credential res) now (i64 (pfr_CredentialLease res * Second)) in
  _ ← match up (pfr_IPv4 res) with Err e => Err (EWrap "set device address" e) | r => r end;
  vip ← match ParseIP (pfr_IPv4 res) with Err e => Err (EWrap "parse ipv4 address" e) | r => r end;
  let lp := mkLocalPeer (pfr_Name res) (pfr_UserID res) (pfr_ID res) private public vip [] in
  Ok (mkNodeDriver (pfr_ID res) (pfr_UserID res) (pfr_Name res) port false false true false "" c [] []
    (pfr_PrimaryServer res) [] (NewManager lp rt) (rm_SetCredential cred rm)).
End Driver.

(** ** Lemmas *)

(** Everything before [left] is smaller than the peer, everything after
    [right] larger. *)
Definition narrowed (peers : list Peer) (peerID : PeerID) (left right : Z) : Prop :=
  0 <= left /\ right < zlen peers /\
  forall i p, peers !! i = Some p ->
    (Z.of_nat i < left -> pr_ID p < peerID) /\ (right < Z.of_nat i -> peerID < pr_ID p).

(** The server of the first peer with the identifier, 0 without one. *)
Definition server_of (peers : list Peer) (peerID : PeerID) : ServerID :=
  match list_find (fun p => pr_ID p = peerID) peers with Some (_, p) => pr_ServerID p | None => 0 end.

Definition ids_sorted (peers : list Peer) : Prop := Sorted.StronglySorted Z.lt (map pr_ID peers).

Lemma ids_sorted_lt peers i j p q :
  ids_sorted peers -> (i < j)%nat -> peers !! i = Some p -> peers !! j = Some q -> pr_ID p < pr_ID q.
Proof.
  intros Hs. unfold ids_sorted in Hs. revert i j. induction peers as [|x peers IH]; intros i j Hij Hi Hj; [done|].
  cbn in Hs. inversion Hs as [|? ? Hs' Hall]; subst. destruct i as [|i], j as [|j]; try lia.
  - cbn in Hi, Hj. injection Hi as <-. rewrite List.Forall_forall in Hall. apply Hall, in_map.
    by eapply list_elem_of_In, list_elem_of_lookup_2.
  - cbn in Hi, Hj. eapply (IH Hs' i j); [lia|done|done].
Qed.

Lemma server_of_found peers peerID i p :
  ids_sorted peers -> peers !! i = Some p -> pr_ID p = peerID -> server_of peers peerID = pr_ServerID p.
Proof.
  intros Hs Hi Hid. unfold server_of.
  assert (list_find (fun p => pr_ID p = peerID) peers = Some (i, p)) as ->; [|done].
  apply list_find_Some. split_and!; [done|done|]. intros j q Hj Hlt Hq.
  pose proof (ids_sorted_lt _ _ _ _ _ Hs Hlt Hj Hi). lia.
Qed.

Lemma server_of_missing peers peerID :
  (forall p, p ∈ peers -> pr_ID p <> peerID) -> server_of peers peerID = 0.
Proof.
  intros Hn. unfold server_of. destruct (list_find _ _) as [[i p]|] eqn:Hf; [|done].
  apply list_find_Some in Hf as (Hi & Hid & _). destruct (Hn p); [by eapply list_elem_of_lookup_2|done].
Qed.

Lemma find_loop_ok fuel peers peerID : ids_sorted peers -> forall left right,
  narrowed peers peerID left right -> right - left < Z.of_nat fuel ->
  find_loop fuel peers peerID left right = Ok (server_of peers peerID).
Proof.
  intros Hs. induction fuel as [|fuel IH]; intros left right (Hl & Hr & Hn) Hf; cbn [find_loop].
  all: destruct (Z.leb_spec left right) as [Hle|Hgt]; try lia.
  all: try (assert (server_of peers peerID = 0) as ->; [|done]; unfold server_of;
    destruct (list_find _ peers) as [[i p]|] eqn:Hfind; [|done];
    apply list_find_Some in Hfind as (Hi & Hid & _); destruct (Hn i p Hi) as [H1 H2];
    destruct (decide (Z.of_nat i < left)); lia).
  unfold go_div. rewrite Z.quot_div_nonneg by lia. set (mid := (left + right) / 2).
  assert (left <= mid <= right) as Hmid by (unfold mid; split; [apply Z.div_le_lower_bound|apply Z.div_le_upper_bound]; lia).
  clearbody mid.
  destruct (lookup_lt_is_Some_2 peers (Z.to_nat mid)) as [cur Hcur]; [unfold zlen in Hr; lia|]. rewrite Hcur.
  destruct (Z.ltb_spec (pr_ID cur) peerID) as [Hlt|Hge]; [|destruct (Z.ltb_spec peerID (pr_ID cur)) as [Hlt|Hge']].
  - apply IH; [|lia]. split_and!; [lia|lia|]. intros i p Hi. split; [|by apply (Hn i p Hi)]. intros Him.
    destruct (decide (i = Z.to_nat mid)) as [->|Hne]; [congruence|].
    pose proof (ids_sorted_lt _ i (Z.to_nat mid) _ _ Hs ltac:(lia) Hi Hcur). lia.
  - apply IH; [|lia]. split_and!; [lia|lia|]. intros i p Hi. split; [by apply (Hn i p Hi)|]. intros Him.
    destruct (decide (i = Z.to_nat mid)) as [->|Hne]; [congruence|].
    pose proof (ids_sorted_lt _ (Z.to_nat mid) i _ _ Hs ltac:(lia) Hcur Hi). lia.
  - f_equal. symmetry. eapply server_of_found; [done|exact Hcur|lia].
Qed.

Lemma find_server_ok (peerID : PeerID) (res : PeerGraphResponse) :
  ids_sorted (pg_Peers res) ->
  findServerIDWithPeerID peerID res = Ok (server_of (pg_Peers res) peerID).
Proof.
  intros Hs. unfold findServerIDWithPeerID. destruct (pg_Peers res) as [|p ps] eqn:Hp; [done|]. rewrite <- Hp in *.
  apply find_loop_ok; [done| |unfold zlen; lia]. split_and!; [done|lia|]. intros i q Hi. apply lookup_lt_Some in Hi.
  unfold zlen. lia.
Qed.

(** ** The local addresses *)

(** What [netaddr.IP] promises: the text determines the address and [Less]
    is a strict total order. *)
Class NetAddrLaws (IP : Type) `{!NetAddr IP} `{!NetAddrScan IP} : Prop := {
  IP_String_inj : forall a b : IP, IP_String a = IP_String b -> a = b;
  Less_irrefl : forall a : IP, Less a a = false;
  Less_trans : forall a b c : IP, Less a b = true -> Less b c = true -> Less a c = true;
  Less_total : forall a b : IP, Less a b = true \/ a = b \/ Less b a = true }.

Section LocalFacts.
Context {IP : Type} `{HNet : !NetAddr IP} `{HScan : !NetAddrScan IP} `{HLaws : !NetAddrLaws IP}.

Lemma Less_asym (a b : IP) : Less a b = true -> Less b a = false.
Proof using HLaws.
  intros Hab. destruct (Less b a) eqn:Hba; [|done]. by rewrite <- (Less_trans _ _ _ Hab Hba), Less_irrefl.
Qed.
#[export] Instance ip_le_total : Total (@ip_le IP _).
Proof using HLaws.
  intros a b. unfold ip_le. destruct (Less b a) eqn:Hba; [right; by apply Less_asym|by left].
Qed.
#[export] Instance ip_le_trans : Transitive (@ip_le IP _).
Proof using HLaws.
  intros a b c. unfold ip_le. intros Hba Hcb. destruct (Less c a) eqn:Hca; [|done].
  destruct (Less_total a b) as [Hab|[->|?]]; [|congruence..]. by rewrite <- Hcb, (Less_trans _ _ _ Hca Hab).
Qed.
Lemma ip_le_antisym (a b : IP) : ip_le a b -> ip_le b a -> a = b.
Proof using HLaws. unfold ip_le. intros Hba Hab. destruct (Less_total a b) as [?|[?|?]]; congruence. Qed.

(** The addresses kept so far, which the rest does not precede. *)
Definition kept (ips : list IP) (acc : list string) (l : list IP) : Prop :=
  acc = map IP_String ips /\ NoDup ips /\
  (forall a z, a ∈ ips -> last ips = Some z -> ip_le a z) /\ (forall a b, a ∈ ips -> b ∈ l -> ip_le a b).

Lemma dedup_spec (l : list IP) : Sorted.StronglySorted ip_le l -> forall ips acc, kept ips acc l ->
  exists ips', kept ips' (foldl dedup_step acc l) [] /\ forall a, a ∈ ips' <-> a ∈ ips \/ a ∈ l.
Proof using HLaws.
  induction l as [|x l IH]; intros Hs ips acc (-> & Hnd & Hlast & Hle).
  { exists ips. split; [|set_solver]. by split_and!. }
  apply Sorted.StronglySorted_inv in Hs as [Hs Hx]. rewrite Forall_forall in Hx.
  assert (forall a, ip_le a a) as Hrefl by (intros a; apply Less_irrefl).
  assert (x ∉ ips -> exists ips', kept ips' (foldl dedup_step (map IP_String ips ++ [IP_String x]) l) [] /\ forall a, a ∈ ips' <-> a ∈ ips \/ a ∈ x :: l) as Hadd.
  { intros Hn. destruct (IH Hs (ips ++ [x]) (map IP_String ips ++ [IP_String x])) as (ips' & Hk & Hm).
    - split_and!; [by rewrite map_app| | |].
      + apply NoDup_app. split_and!; [done|set_solver|apply NoDup_singleton].
      + intros a z Ha. rewrite last_snoc. intros [= <-]. apply elem_of_app in Ha as [Ha|Ha]; [apply Hle; [done|by left]|].
        by apply list_elem_of_singleton in Ha as ->.
      + intros a b Ha Hb. apply elem_of_app in Ha as [Ha|Ha]; [apply Hle; [done|by right]|].
        apply list_elem_of_singleton in Ha as ->. by apply Hx.
    - exists ips'. split; [done|]. intros a. rewrite Hm. set_solver. }
  cbn [foldl]. unfold dedup_step at 2. rewrite fmap_last. destruct (last ips) as [z|] eqn:Hz; cbn.
  - destruct (String.eqb_spec (IP_String z) (IP_String x)) as [Heq|Hne].
    + apply IP_String_inj in Heq as ->. assert (x ∈ ips) as Hin by (apply last_Some_elem_of; done).
      destruct (IH Hs ips (map IP_String ips)) as (ips' & Hk & Hm).
      * split_and!; [done|done|by rewrite Hz|]. intros a b Ha Hb. apply Hle; [done|by right].
      * exists ips'. split; [done|]. intros a. rewrite Hm. set_solver.
    + apply Hadd. intros Hin. apply Hne. f_equal. apply ip_le_antisym; [apply Hle; [by apply last_Some_elem_of|by left]|by eapply Hlast].
  - apply Hadd. apply last_None in Hz as ->. set_solver.
Qed.

(** An interface that is scanned, with an address that is announced. *)
Definition announced (windows : bool) (own : string) (ifs : list Interface) (ip : IP) : Prop :=
  exists i addrs v, i ∈ ifs /\ isUp i = true /\ isLoopback i = false /\ isProblematicInterface windows i = false /\
    if_Addrs i = Ok addrs /\ Some v ∈ addrs /\ FromStdIP v = Some ip /\ Is6 ip = false /\ IP_String ip <> own.

Lemma elem_of_scan windows own ifs ip :
  ip ∈ mjoin (map (scan_interface windows own) ifs) <-> announced windows own ifs ip.
Proof using Type.
  rewrite list_elem_of_join. unfold announced. split.
  - intros (l & Hip & Hl). apply list_elem_of_fmap in Hl as (i & -> & Hi). unfold scan_interface in Hip.
    destruct (isUp i) eqn:Hup, (isProblematicInterface windows i) eqn:Hp, (isLoopback i) eqn:Hlo; cbn in Hip;
      try by apply elem_of_nil in Hip.
    destruct (if_Addrs i) as [addrs|e|w] eqn:Ha; [|by apply elem_of_nil in Hip..].
    apply list_elem_of_omap in Hip as (a & Hain & Hs). unfold scan_address in Hs.
    destruct a as [v|]; [|done]. cbn in Hs. destruct (FromStdIP v) as [ip'|] eqn:Hf; [|done]. cbn in Hs.
    destruct (Is6 ip') eqn:H6; [done|]. destruct (String.eqb_spec (IP_String ip') own); [done|]. injection Hs as ->.
    by exists i, addrs, v.
  - intros (i & addrs & v & Hi & Hup & Hlo & Hp & Ha & Hv & Hf & H6 & Hown).
    exists (scan_interface windows own i). split; [|by apply list_elem_of_fmap_2]. unfold scan_interface.
    rewrite Hup, Hp, Hlo, Ha. cbn. apply list_elem_of_omap. exists (Some v). split; [done|]. unfold scan_address. cbn.
    rewrite Hf. cbn. rewrite H6. by destruct (String.eqb_spec (IP_String ip) own).
Qed.

(** The addresses a node announces are, once each, exactly
    the IPv4 addresses of its interfaces that are up, not loopback and not
    another overlay's, without its own virtual address. *)
Theorem local_addresses_exact windows own ifs :
  NoDup (localAddresses windows own (Ok ifs)) /\
  forall s, s ∈ localAddresses windows own (Ok ifs) <-> exists ip, s = IP_String ip /\ announced windows own ifs ip.
Proof using HLaws.
  unfold localAddresses, dedup. set (l := sort_ips _).
  assert (Sorted.StronglySorted ip_le l) as Hs by (apply (StronglySorted_merge_sort _)).
  destruct (dedup_spec l Hs [] []) as (ips & (-> & Hnd & _) & Hm).
  { split_and!; [done|apply NoDup_nil_2|set_solver|set_solver]. }
  split.
  - apply NoDup_fmap_2; [|done]. intros a b. apply IP_String_inj.
  - intros s. rewrite list_elem_of_fmap. split; intros (ip & -> & Hip); exists ip; (split; [done|]).
    + apply elem_of_scan. apply Hm in Hip as [Hip|Hip]; [set_solver|]. unfold l, sort_ips in Hip. by rewrite merge_sort_Permutation in Hip.
    + apply Hm. right. unfold l, sort_ips. rewrite merge_sort_Permutation. by apply elem_of_scan.
Qed.
End LocalFacts.

Section Facts.
Context {IP : Type} `{HIP : Countable IP} `{HNet : !NetAddr IP} `{HScan : !NetAddrScan IP}
  {R : Type} `{HRt : !Router IP R} `{HKx : !KeyExchange} {RM : Type} `{HRm : !RelayOps RM}.
Implicit Types d : @NodeDriver IP R RM.

(** A lookup in an unlocked mesh. *)
Lemma Peer_ok (m : @Manager IP R) id :
  mm_locked m = false -> Peer_ id m = (set_locked false (set_locked true m), Ok (mm_peers m !! id)).
Proof. intros Hl. unfold Peer_, Lock. cbv [mbind gom_bind gget]. by rewrite Hl. Qed.
Lemma Tunnel_ok (m : @Manager IP R) dest :
  mm_locked m = false -> (l ← mm_index m !! dest; p ← mm_heap m !! l; po_tunnel p) = None ->
  gresult (Tunnel_ dest) m = Ok None \/ gresult (Tunnel_ dest) m = Panic nil_deref.
Proof.
  intros Hl Ht. unfold gresult, Tunnel_, Lock, deref. cbv [mbind gom_bind gget option_bind] in *. rewrite Hl. cbn.
  destruct (mm_index m !! dest) as [l|]; [|by left]. cbn. destruct (mm_heap m !! l) as [p|]; [|by right]. cbn. rewrite Ht. by left.
Qed.

(** The message of a write that goes through the relay. *)
Definition forwarded (t : Tunnel) (nonce : Z) (data : bytes) : Message :=
  MForward (mkPacketForward (t_localPeerID t) (t_peerID t) nonce (Encrypt (t_cipher t) nonce data)).
Lemma Write_relays (a : Tunnel) data now n1 n2 (send : PacketType -> Message -> result unit) :
  ReachableEndpoint now a = None -> (forall t m w, send t m <> Panic w) ->
  exists rest, gresult (Tunnel.Write now n1 n2 (Some send) data) a = Ok (Relayed ((PacketType_Forward, forwarded a n2 data) :: rest)).
Proof.
  intros Hr Hs. unfold gresult, Tunnel.Write. change (ReachableEndpoint now (set_lastSendAt now a)) with (ReachableEndpoint now a).
  rewrite Hr. cbn -[negb]. destruct (send _ _) as [[]|e|w] eqn:Hsend; [| |by destruct (Hs _ _ _ Hsend)].
  all: destruct (_ && _); [|by eexists].
  all: destruct (t_localEndpoints a) as [[|ep eps]|]; [by eexists| |by eexists].
  all: destruct (send PacketType_SyncPeer _) as [[]|e'|w] eqn:Hsend2; [by eexists..|by destruct (Hs _ _ _ Hsend2)].
Qed.
Lemma OnForward_delivers d (a b : Tunnel) (data : bytes) n l p :
  CipherOk (t_cipher a) -> t_cipher b = t_cipher a -> d_peerID d = t_peerID a -> mm_locked (d_mm d) = false ->
  mm_peers (d_mm d) !! t_localPeerID a = Some l -> mm_heap (d_mm d) !! l = Some p -> po_tunnel p = Some b ->
  gresult (OnForward (forwarded a n data)) d = Ok tt /\
  d_chDevWrite (gstate (OnForward (forwarded a n data)) d) = d_chDevWrite d ++ [data].
Proof.
  intros Hc Hb Hid Hl Hp Hh Ht.
  assert (OnForward (forwarded a n data) d =
    (set_device (d_chDevWrite d ++ [data]) (d_device d) (set_mm (set_locked false (set_locked true (d_mm d))) d), Ok tt)) as Hf.
  { unfold OnForward, forwarded. cbv [mbind gom_bind gget]. cbn [fw_DstPeerID fw_SrcPeerID fw_Nonce fw_Fragment]. rewrite Hid, Z.eqb_refl. cbn [negb].
    unfold on_mm at 1. rewrite (Peer_ok _ _ Hl), Hp. unfold on_mm, deref. cbn -[Decrypt]. rewrite Hh, Ht, Hb, decrypt_encrypt. done. }
  unfold gresult, gstate. by rewrite Hf.
Qed.

(** Data a node writes to a tunnel without a reachable
    endpoint goes through the relay and ends in the other node's virtual
    device: when the destination of the packet is that node, the node knows
    the sender and their tunnels share the cipher, [OnForward] queues exactly
    the data written. *)
Theorem relayed_fragment_reaches_device d (a b : Tunnel) (data : bytes) now n1 n2 (send : PacketType -> Message -> result unit) l p :
  CipherOk (t_cipher a) -> t_cipher b = t_cipher a ->
  ReachableEndpoint now a = None -> (forall t m w, send t m <> Panic w) ->
  d_peerID d = t_peerID a -> mm_locked (d_mm d) = false ->
  mm_peers (d_mm d) !! t_localPeerID a = Some l -> mm_heap (d_mm d) !! l = Some p -> po_tunnel p = Some b ->
  exists msg rest, gresult (Tunnel.Write now n1 n2 (Some send) data) a = Ok (Relayed ((PacketType_Forward, msg) :: rest)) /\
    gresult (OnForward msg) d = Ok tt /\
    d_chDevWrite (gstate (OnForward msg) d) = d_chDevWrite d ++ [data].
Proof.
  intros. destruct (Write_relays a data now n1 n2 send) as [rest Hw]; [done..|].
  exists (forwarded a n2 data), rest. split; [done|]. by apply (OnForward_delivers d a b data n2 l p).
Qed.

(** A packet for the node's own address is dropped: the node's
    own entry never gets a tunnel, and [serveDevRead] gives up for want of a
    tunnel before it reaches the branch that would write the packet back to
    the device. *)
Theorem loopback_is_unreachable d now n1 n2 data dst :
  parseDst data = Some dst -> ipv4_string dst = cr_address (d_credential d) ->
  mm_locked (d_mm d) = false ->
  (l ← mm_index (d_mm d) !! cr_address (d_credential d); p ← mm_heap (d_mm d) !! l; po_tunnel p) = None ->
  d_chDevWrite (gstate (serveDevRead_turn now n1 n2 data) d) = d_chDevWrite d /\
  gresult (serveDevRead_turn now n1 n2 data) d <> Ok (Some Dropped).
Proof.
  intros Hd Ha Hl Ht. unfold serveDevRead_turn, gstate, gresult. cbv [mbind gom_bind gget].
  destruct (d_enable d); [|done]. cbn [negb]. rewrite Hd. destruct (decide (dst = npnp)); [done|]. rewrite Ha.
  unfold on_mm at 1 3. pose proof (Tunnel_ok (d_mm d) _ Hl Ht) as Hk. unfold gresult in Hk.
  destruct (Tunnel_ _ _) as [m' r]. cbn [snd] in Hk. by destruct Hk as [-> | ->].
Qed.

(** A synchronisation message for this node can crash it: a
    catch-up without the peer's data dereferences the missing data before
    [PeerCatchup], which tolerates it, is called, and a pair request from a
    peer the node does not know dereferences the peer that was not found. *)
Theorem sync_peer_crashes d now spare locals sp :
  sp_DstPeerID sp = d_peerID d -> mm_locked (d_mm d) = false ->
  (sp_Purpose sp = Catchup /\ sp_Peer sp = None) \/
  (sp_Purpose sp = PairRequest /\
   forall info, sp_Peer sp = Some info -> mm_peers (d_mm d) !! pi_PeerID info = None) ->
  gresult (OnSyncPeer now spare locals (MSyncPeer sp)) d = Panic nil_deref /\
  gresult (on_mm (fun _ => PeerCatchup now spare (mkPacketSyncPeer (d_peerID d) Catchup None []))) d = Ok tt.
Proof.
  intros Hd Hl Hc. split; [|done]. unfold OnSyncPeer, gresult. cbv [mbind gom_bind gget]. rewrite Hd, Z.eqb_refl. cbn [negb].
  destruct Hc as [[-> ->]|[-> Hn]]; [done|]. unfold PairRequest_. cbv [mbind gom_bind]. unfold on_mm at 1, PeerEndpoints.
  destruct (sp_Peer sp) as [info|]; [|done]. specialize (Hn info eq_refl). cbv [mbind gom_bind gget]. unfold Lock. rewrite Hl.
  cbn [Unlock gmodify]. cbn [mm_peers set_locked]. rewrite Hn. unfold on_mm. cbn [mret gom_ret set_mm d_mm d_rm].
  rewrite Peer_ok by done. cbn [mm_peers set_locked]. by rewrite Hn.
Qed.

(** A peer graph the node cannot use is never asked for
    again: when the response does not name a server for the node, the pull
    remembers its hash before it looks, changes nothing else, and as long as
    the portal keeps answering that hash with "not modified", no later pull
    changes anything either. *)
Theorem unusable_graph_not_retried d now o r p (api : string -> option PeerGraphResponse * option error) :
  pg_NotModified r = false -> ids_sorted (pg_Peers r) -> server_of (pg_Peers r) (d_peerID d) = 0 ->
  (forall r', fst (api (pg_UniqueHash r)) = Some r' -> pg_NotModified r' = true) ->
  (is_Some (fst (api (pg_UniqueHash r))) \/ is_Some (snd (api (pg_UniqueHash r)))) ->
  exists p', pull_turn now o (Some r) None p d = (d, Ok p') /\ uniqHash p' = pg_UniqueHash r /\
  forall now' o' p'', uniqHash p'' = uniqHash p' ->
    exists p3, pull_turn now' o' (fst (api (uniqHash p''))) (snd (api (uniqHash p''))) p'' d = (d, Ok p3) /\
      uniqHash p3 = uniqHash p''.
Proof.
  intros Hn Hs H0 Hapi Hsome. unfold pull_turn at 1. cbv [mbind gom_bind gget glift]. rewrite Hn.
  assert (findServerIDWithPeerID (d_peerID d) r = Ok 0) as ->.
  { by rewrite find_server_ok, H0. }
  eexists. split; [done|]. split; [done|]. intros now' o' p'' Hh. cbn [uniqHash] in Hh. rewrite Hh.
  destruct (api (pg_UniqueHash r)) as [res err]. cbn [fst snd] in *. unfold pull_turn.
  destruct err as [e|].
  - destruct res as [r'|]; [destruct (0 <? pg_UpdateInterval r')|]; by eexists.
  - destruct res as [r'|]; [|by destruct Hsome as [[? ?]|[? ?]]]. rewrite (Hapi r' eq_refl).
    destruct (0 <? pg_UpdateInterval r'); by eexists.
Qed.
End Facts.

(** ** A pull against the manager's contract *)

Section Pull.
Context {IP : Type} `{HIP : Countable IP} `{HNet : !NetAddr IP} `{HScan : !NetAddrScan IP}
  {R : Type} `{HRt : !Router IP R} `{HRtk : !RouterOk IP R} `{HKx : !KeyExchange}
  {RM : Type} `{HRm : !RelayOps RM} `{HRk : !RelayOpsOk RM}.
Implicit Types d : @NodeDriver IP R RM.

Lemma find_server_listed id rs w : w ∈ rs -> rs_ID w = id -> exists w', find_server id rs = Some w' /\ w' ∈ rs /\ rs_ID w' = id.
Proof using Type.
  intros Hin Hid. unfold find_server. destruct (list_find_elem_of (fun r => rs_ID r = id) rs w) as [[i w'] Hf]; [done..|].
  rewrite Hf. apply list_find_Some in Hf as (Hi & ? & _). exists w'. split_and!; [done|by eapply list_elem_of_lookup_2|done].
Qed.

(** What a node's parts agree on after a pull. *)
Record follows (r : PeerGraphResponse) (home : ServerID) (local : PeerID) d : Prop := {
  fo_stun : d_stun d ∈ pg_RelayServers r /\ rs_ID (d_stun d) = home;
  fo_ready : rm_ready (d_rm d);
  fo_home : rm_PrimaryServerID (d_rm d) = home;
  fo_covered : forall w, In w (pg_RelayServers r) -> rm_connected (d_rm d) (rs_ID w) \/ rm_waiting (d_rm d) (rs_ID w);
  fo_only : forall id, rm_connected (d_rm d) id -> In id (map rs_ID (pg_RelayServers r));
  fo_unlocked : mm_locked (d_mm d) = false;
  fo_peers : forall id, is_Some (mm_peers (d_mm d) !! id) <-> In id (map pr_ID (pg_Peers r));
  fo_wf : peers_wf (mm_peers (d_mm d)) (mm_heap (d_mm d));
  fo_routes : router_view (mm_router (d_mm d)) = list_to_set (peer_routes local (pg_Peers r)) }.

Lemma pull_follows d now o r p home w :
  rm_ready (d_rm d) -> mm_locked (d_mm d) = false -> peers_wf (mm_peers (d_mm d)) (mm_heap (d_mm d)) ->
  pg_NotModified r = false -> ids_sorted (pg_Peers r) -> server_of (pg_Peers r) (d_peerID d) = home -> home <> 0 ->
  w ∈ pg_RelayServers r -> rs_ID w = home ->
  addresses_parse (lp_PeerID (mm_localPeer (d_mm d))) (pg_Peers r) -> leavers_paired (pg_Peers r) (d_mm d) ->
  (forall id, In id (map pr_ID (pg_Peers r)) -> In id (or_new o)) ->
  exists d' p', pull_turn now o (Some r) None p d = (d', Ok p') /\ uniqHash p' = pg_UniqueHash r /\
    follows r home (lp_PeerID (mm_localPeer (d_mm d))) d'.
Proof using HRtk.
  intros Hr Hl Hw Hn Hs Hh H0 Hin Hid Ha Hlv Ho. unfold pull_turn. cbv [mbind gom_bind gget glift]. rewrite Hn, find_server_ok, Hh by done.
  destruct (Z.eqb_spec home 0) as [|_]; [done|]. destruct (find_server_listed home _ w Hin Hid) as (w' & -> & Hin' & Hid').
  rewrite Hid'. destruct (Z.eqb_spec home 0) as [|_]; [done|]. unfold on_rm, gmodify, gignore, on_mm. cbn [d_rm d_mm set_rm set_stun].
  destruct (SetPrimary_ok home (d_rm d) Hr) as [Hr1 Hp1]. set (rm1 := rm_SetPrimaryServerID home (d_rm d)) in *.
  destruct (Update_ok (pg_RelayServers r) rm1 Hr1) as (Hr2 & Hp2 & Hcov & Honly). set (rm2 := rm_Update _ _) in *.
  destruct (Update_installs (HRc := rm_clients rm2) (d_mm d) now (or_cap o) (or_new o) (or_old o) (or_probe o) (pg_Networks r) (pg_Peers r))
    as (m' & Hu & Hl' & Hps & Hwf & _ & _ & Hrt); [apply sends_ok|done..|].
  rewrite Hu. eexists _, _. split; [done|]. split; [done|].
  split; cbn [d_stun d_rm d_mm set_mm set_rm set_stun]; try done. by rewrite Hp2.
Qed.
End Pull.

(** ** Witnesses *)

Module DriverExample.
#[local] Existing Instances Example.net Example.kx Example.clients.
#[local] Instance ops : RelayOps (list RelayServer) := {|
  rm_AddServer s rm := rm ++ [s];
  rm_SetPrimaryServerID _ rm := rm;
  rm_PrimaryServerID _ := 1;
  rm_Update l _ := l;
  rm_Tick rm := rm;
  rm_SetCredential _ rm := rm;
  rm_Stop _ := [];
  rm_clients _ := Example.clients |}.

Definition boot (m : @Manager string (@router string _ _)) : @NodeDriver string (@router string _ _) (list RelayServer) :=
  mkNodeDriver 2 9 "node" 4000 true false true true "" (mkCredential "10.0.0.2" [] "" 0 Second) [] [] Example.server [] m [].
(** Node 2 after a catch-up with node 1. *)
Definition info1 : PacketSyncPeer_PeerInfo :=
  mkSyncPeerInfo 1 9 "one" "10.0.0.1" [Byte.x01] (Some (mkSyncRelayServer 1 "relay" "eu" "relay.example" 7 "key")) [].
Definition paired2 := boot (gstate (PeerCatchup 7 0 (mkPacketSyncPeer 2 Catchup (Some info1) [])) Example.b2).
Definition sender : Tunnel := Tunnel.New 1 1 2 Toy.cipher.

Lemma relayed_fragment_reaches_device_witness :
  exists msg rest, gresult (Tunnel.Write 5 3 4 (Some (fun _ _ => Ok tt)) [Byte.x45]) sender =
      Ok (Relayed ((PacketType_Forward, msg) :: rest)) /\
    d_chDevWrite (gstate (OnForward msg) paired2) = [[Byte.x45]].
Proof.
  destruct (mm_peers (d_mm paired2) !! 1) as [l|] eqn:Hl; [|by vm_compute in Hl].
  assert (exists p b, mm_heap (d_mm paired2) !! l = Some p /\ po_tunnel p = Some b /\ t_cipher b = Toy.cipher) as (p & b & Hp & Hb & Hc).
  { vm_compute in Hl. injection Hl as <-. by eexists _, _. }
  destruct (relayed_fragment_reaches_device paired2 sender b [Byte.x45] 5 3 4 (fun _ _ => Ok tt) l p) as (msg & rest & H1 & _ & H2).
  - apply Toy.cipher_ok.
  - exact Hc.
  - by vm_compute.
  - by intros.
  - reflexivity.
  - by vm_compute.
  - change (t_localPeerID sender) with 1. exact Hl.
  - exact Hp.
  - exact Hb.
  - exists msg, rest. split; [exact H1|]. rewrite H2. by vm_compute.
Defined.

Definition packet : bytes := replicate 16 Byte.x00 ++ [Byte.x0a; Byte.x00; Byte.x00; Byte.x02].
Lemma loopback_is_unreachable_witness :
  d_chDevWrite (gstate (serveDevRead_turn 5 0 0 packet) paired2) = [].
Proof.
  replace [] with (d_chDevWrite paired2) by (by vm_compute).
  by apply (loopback_is_unreachable paired2 5 0 0 packet (10, 0, 0, 2)); vm_compute.
Defined.

Lemma sync_peer_crashes_witness :
  gresult (OnSyncPeer 5 0 [] (MSyncPeer (mkPacketSyncPeer 2 Catchup None []))) paired2 = Panic nil_deref.
Proof. apply (sync_peer_crashes paired2 5 0 [] (mkPacketSyncPeer 2 Catchup None [])); [by vm_compute..|by left]. Defined.

Definition graph (ps : list Peer) : PeerGraphResponse := mkPeerGraphResponse false "hash" 60 [Example.server] ps [].
Definition api (h : string) : option PeerGraphResponse * option error :=
  if String.eqb h "hash" then (Some (mkPeerGraphResponse true "" 0 [] [] []), None) else (Some (graph []), None).
Lemma unusable_graph_not_retried_witness :
  exists p, pull_turn 5 (mkOrders 0 [] [] []) (Some (graph [])) None newPuller paired2 = (paired2, Ok p) /\ uniqHash p = "hash"%string.
Proof.
  destruct (unusable_graph_not_retried paired2 5 (mkOrders 0 [] [] []) (graph []) newPuller api) as (p & H1 & H2 & _).
  - done.
  - constructor.
  - done.
  - cbn. by intros r' [= <-].
  - left. by eexists.
  - exists p. split; [exact H1|exact H2].
Defined.

Example own_entry_found :
  findServerIDWithPeerID 42 (graph [mkPeer 1 9 "a" "10.0.0.1" 101 true; mkPeer 42 9 "b" "10.0.0.2" 142 true;
    mkPeer 50 9 "c" "10.0.0.3" 150 true]) = Ok 142.
Proof. reflexivity. Qed.

(** Addresses as numbers. *)
#[local] Instance zip : NetAddr Z := {| ParseIP _ := Err (EMsg "no"); IP_String ip := pretty ip |}.
#[local] Instance zscan : NetAddrScan Z := {|
  FromStdIP v := Some (be_get v); Is6 ip := 2 ^ 32 <=? ip; Less a b := a <? b |}.
#[local] Instance zlaws : NetAddrLaws Z.
Proof.
  split; cbn.
  - intros a b H. by apply (inj pretty).
  - apply Z.ltb_irrefl.
  - intros a b c. rewrite !Z.ltb_lt. lia.
  - intros a b. rewrite !Z.ltb_lt. lia.
Qed.
Lemma local_addresses_exact_witness :
  "258"%string ∈ localAddresses false "1" (Ok [mkInterface "eth0" true false (Ok [Some [Byte.x01; Byte.x02]])]).
Proof.
  apply (local_addresses_exact false "1" [mkInterface "eth0" true false (Ok [Some [Byte.x01; Byte.x02]])]).
  exists 258. split; [by vm_compute|]. eexists _, _, _. split_and!; [by left|done|done|done|done|by left|done|done|by vm_compute].
Defined.

(** Two summaries that differ in the connection status only are equal. *)
Example equal_ignores_status :
  let s st := mkDriverSummary true st (mkProfile 9 "node" "10.0.0.2") (mkSummary 0 [] []) in
  summary_Equal (s "connecting"%string) (s "connected"%string) = true.
Proof. done. Qed.
End DriverExample.
