(* ===== verification/MeshSafety.v ===== *)
(** What a running node keeps: the turns of the driver's goroutines
    ([node/driver/driver.go], [Drive]) and of its tunnels
    ([node/mesh/tunnel/]) in any order, the invariant of the mesh that every
    turn preserves, and what it means for the packets of the virtual
    device. *)
From S2P Require Import Prelude Wire RelayCodec Noise PeerCodec RelayManager Tunnel Router MeshManager Driver.
#[local] Set Warnings "-clear-no-such-hyp".

(** ** The turns *)

(** What runs inside a tunnel: a packet from one of its sockets, a list of
    addresses taken from the channel, a round of discovery, and the writer of
    an endpoint. *)
Inductive TunnelTurn :=
| TurnUDP (now nonce : Z) (remoteAddr : string) (data : bytes)
| TurnAddresses
| TurnDiscovery (now : Z) (dial : string -> result string)
| TurnWriter (ep : nat).

Section Turns.
Context `{Proto}.

Definition tunnel_turn (x : TunnelTurn) (t : Tunnel) : Tunnel :=
  match x with
  | TurnUDP now nonce remoteAddr data => gstate (OnUDPPacket now nonce remoteAddr data) t
  | TurnAddresses => discovery_receive t
  | TurnDiscovery now dial => discovery_tick now dial t
  | TurnWriter ep => set_eps (alter (fun e => fst (serveWrite_turn e)) ep (t_eps t)) t
  end.

Context {IP : Type} `{HIP : Countable IP} `{HNet : !NetAddr IP} `{HScan : !NetAddrScan IP}
  {R : Type} `{HRt : !Router IP R} `{HKx : !KeyExchange} {RM : Type} `{HRm : !RelayOps RM}.

(** One turn of a goroutine of the node: the callbacks of the relay clients
    and of the tunnels, the two goroutines of the device, the pull of the peer
    graph and its ticker, the events, the renewal of the credential, the
    control interface, and the turn of the tunnel of a known peer. *)
Inductive Turn :=
| TurnForward (msg : Message)
| TurnSyncPeer (now : Z) (spare : nat) (locals : list string) (msg : Message)
| TurnProbeResponse (now : Z) (msg : Message)
| TurnFragment (data : bytes)
| TurnDevRead (now n1 n2 : Z) (data : bytes)
| TurnDevWrite (debug : bool)
| TurnPull (now : Z) (o : Orders) (res : option PeerGraphResponse) (err : option error) (p : Puller)
| TurnTick (now : Z) (order : list PeerID)
| TurnRelayEvent (e : Event)
| TurnExternal (order : list PeerID) (locals : list string) (address : string)
| TurnRenew (now : Z) (res : result (string * result bytes * Z))
| TurnEnable | TurnDisable | TurnDrive | TurnTerminate
| TurnSummarize (now : Z) (order : list PeerID)
| TurnTunnel (peer : PeerID) (x : TunnelTurn).

(** What a turn leaves of the node, however it ends. *)
Definition turn (x : Turn) (d : @NodeDriver IP R RM) : @NodeDriver IP R RM :=
  match x with
  | TurnForward msg => gstate (OnForward msg) d
  | TurnSyncPeer now spare locals msg => gstate (OnSyncPeer now spare locals msg) d
  | TurnProbeResponse now msg => gstate (OnProbeResponse now msg) d
  | TurnFragment data => gstate (OnFragment data) d
  | TurnDevRead now n1 n2 data => gstate (serveDevRead_turn now n1 n2 data) d
  | TurnDevWrite debug => gstate (serveDevWrite_turn debug) d
  | TurnPull now o res err p => gstate (pull_turn now o res err p) d
  | TurnTick now order => gstate (tick_turn now order) d
  | TurnRelayEvent e => gstate (relay_event e) d
  | TurnExternal order locals address => gstate (external_event order locals address) d
  | TurnRenew now res => gstate (renew_turn now res) d
  | TurnEnable => gstate Enable d
  | TurnDisable => gstate Disable d
  | TurnDrive => gstate Drive d
  | TurnTerminate => gstate Terminate d
  | TurnSummarize now order => gstate (driver_Summarize now order) d
  | TurnTunnel peer x =>
    match mm_peers (d_mm d) !! peer with
    | Some l => gstate (on_mm (fun _ => on_peer l (fun p =>
        match po_tunnel p with Some t => SetTunnel (tunnel_turn x t) p | None => p end))) d
    | None => d
    end
  end.
Definition turns (l : list Turn) (d : @NodeDriver IP R RM) : @NodeDriver IP R RM := foldl (fun d x => turn x d) d l.
End Turns.

(** ** Tunnels keep their ends *)

(** The two ends and the cipher of a tunnel. *)
Definition ends (t : Tunnel) : PeerID * PeerID * Cipher := (t_localPeerID t, t_peerID t, t_cipher t).

Section Ends.
Context `{Proto}.

Lemma ends_cancel_all l t : ends (cancel_all l t) = ends t.
Proof using Type. done. Qed.
Lemma ends_Close t : ends (gstate Close t) = ends t.
Proof using Type. unfold gstate, Close. destruct (t_closed t); [done|]. cbn. by destruct (t_endpoints t). Qed.
Lemma ends_discovery_dial now dial addrs : forall acc bya t,
  ends (snd (discovery_dial now dial addrs acc bya t)) = ends t.
Proof using Type.
  induction addrs as [|a addrs IH]; intros acc bya t; cbn; [done|].
  destruct (bya !! a); [apply IH|]. destruct (dial a); [|apply IH..]. by rewrite IH.
Qed.
Lemma ends_discovery_tick now dial t : ends (discovery_tick now dial t) = ends t.
Proof using Type.
  unfold discovery_tick. destruct (t_current t) as [|a l] eqn:Hc; [done|].
  pose proof (ends_discovery_dial now dial (a :: l) (cloneEndpoints now t) (by_address (t_eps t) (cloneEndpoints now t)) t) as He.
  destruct (discovery_dial _ _ _ _ _ _) as [[eps bya] t']. exact He.
Qed.
Lemma ends_onDiscovery E now nonce a d : gpreserves (fun t => ends t = E) (onDiscovery now nonce a d).
Proof using Type.
  intros t Ht. unfold gstate, onDiscovery.
  destruct (if _ =? _ then _ else _); [|done..]. destruct (default [] (t_endpoints t)) as [|i l]; [done|].
  by destruct (list_find _ _) as [[? ?]|].
Qed.
Lemma ends_OnUDPPacket E now nonce a data : gpreserves (fun t => ends t = E) (OnUDPPacket now nonce a data).
Proof using Type.
  pose proof (ends_onDiscovery E) as Hd. unfold OnUDPPacket. gpres; try (by apply gpres_modify); by apply Hd.
Qed.
Lemma ends_tunnel_turn x t : ends (tunnel_turn x t) = ends t.
Proof using Type.
  destruct x; cbn [tunnel_turn].
  - by apply ends_OnUDPPacket.
  - unfold discovery_receive. by destruct (t_endpointsCh t).
  - apply ends_discovery_tick.
  - done.
Qed.
Lemma ends_Write now n1 n2 relay data t : ends (gstate (Tunnel.Write now n1 n2 relay data) t) = ends t.
Proof using Type.
  unfold gstate, Tunnel.Write. destruct (ReachableEndpoint now _) as [i|].
  - destruct (t_eps _ !! i) as [e|]; [|done]. by destruct (_ <? _).
  - destruct relay as [send|]; [|done]. destruct (send _ _); [| |done].
    all: destruct (_ && _); [|done]; destruct (t_localEndpoints _) as [[|ep eps]|]; [done| |done].
    all: by destruct (send PacketType_SyncPeer _).
Qed.
End Ends.

(** ** The invariant of the mesh *)

Section Mesh.
Context {IP : Type} `{HIP : Countable IP} `{HNet : !NetAddr IP} {R : Type} `{HRt : !Router IP R} `{HKx : !KeyExchange}.
Implicit Types m : @Manager IP R.

(** A peer's tunnel runs between the node itself and that peer. *)
Definition tunnel_ok (self : PeerID) (p : PeerObj) : Prop :=
  forall t, po_tunnel p = Some t -> t_localPeerID t = self /\ t_peerID t = pr_ID (po_info p).

(** The node keeps its identifier, every known peer has an object with the
    peer's identifier, the index maps an address to the known peer that has
    it, and the tunnels run between the right nodes. *)
Record mesh_inv (self : PeerID) m : Prop := {
  mi_self : lp_PeerID (mm_localPeer m) = self;
  mi_peers : peers_wf (mm_peers m) (mm_heap m);
  mi_index : index_ok (mm_peers m) (mm_heap m) (mm_index m);
  mi_tunnels : forall l p, mm_heap m !! l = Some p -> tunnel_ok self p }.

(** An invariant that also keeps the peers, their addresses and their order
    as they are in [m0]. *)
Definition inv_from (self : PeerID) m0 m : Prop := mesh_inv self m /\ same_mesh m0 m.

Lemma mesh_inv_heap self m h :
  mesh_inv self m -> (forall l, po_info <$> h !! l = po_info <$> mm_heap m !! l) ->
  (forall l p, h !! l = Some p -> tunnel_ok self p) -> mesh_inv self (set_pheap h m).
Proof using Type.
  intros [H1 H2 H3 H4] Hi Ht. split; [done|by eapply peers_wf_same|by eapply index_ok_same|done].
Qed.

Lemma mesh_inv_alter self m l f :
  mesh_inv self m ->
  (forall p, mm_heap m !! l = Some p -> po_info (f p) = po_info p /\ (tunnel_ok self p -> tunnel_ok self (f p))) ->
  mesh_inv self (gstate (on_peer l f) m).
Proof using Type.
  intros Hm Hf. unfold gstate, on_peer, gmodify. cbn. apply mesh_inv_heap; [done| |].
  - intros k. destruct (decide (l = k)) as [<-|Hne]; [|by rewrite lookup_alter_ne].
    rewrite lookup_alter_eq. destruct (mm_heap m !! l) as [p|] eqn:Hp; [|done]. cbn. by rewrite (proj1 (Hf p eq_refl)).
  - intros k q. destruct (decide (l = k)) as [<-|Hne].
    + rewrite lookup_alter_eq. destruct (mm_heap m !! l) as [p|] eqn:Hp; [|done]. intros [= <-].
      apply (Hf p eq_refl). by eapply mi_tunnels.
    + rewrite lookup_alter_ne by done. by apply (mi_tunnels _ _ Hm).
Qed.

(** A change of one peer that keeps what it is and its tunnel's ends. *)
Definition same_peer (f : PeerObj -> PeerObj) : Prop :=
  forall p, po_info (f p) = po_info p /\ (ends <$> po_tunnel (f p)) = (ends <$> po_tunnel p).

Lemma tunnel_ok_ends self p q :
  po_info q = po_info p -> (ends <$> po_tunnel q) = (ends <$> po_tunnel p) -> tunnel_ok self p -> tunnel_ok self q.
Proof using Type.
  intros Hi He Ht t Hq. rewrite Hq in He. symmetry in He. apply fmap_Some in He as (t' & Hp & He).
  destruct (Ht t' Hp) as [<- Hid]. unfold ends in He. rewrite Hi, <- Hid. by simplify_eq.
Qed.
Lemma inv_on_peer self l f : same_peer f -> gpreserves (mesh_inv self) (on_peer l f).
Proof using Type.
  intros Hf m Hm. apply mesh_inv_alter; [done|]. intros p _. destruct (Hf p). split; [done|]. by apply tunnel_ok_ends.
Qed.

Lemma inv_Lock self : gpreserves (mesh_inv self) Lock.
Proof using Type. intros m [H1 H2 H3 H4]. unfold gstate, Lock. by destruct (mm_locked m). Qed.
Lemma inv_Unlock self : gpreserves (mesh_inv self) Unlock.
Proof using Type. intros m [H1 H2 H3 H4]. done. Qed.
Lemma inv_send self c t msg : gpreserves (mesh_inv self) (send c t msg).
Proof using Type. intros m [H1 H2 H3 H4]. unfold gstate, send. by destruct (rh_Send c t msg). Qed.
Lemma inv_deref self l : gpreserves (mesh_inv self) (deref l).
Proof using Type. intros m Hm. unfold gstate, deref. by destruct (mm_heap m !! l). Qed.
Lemma inv_modify self f :
  (forall m, mm_peers (f m) = mm_peers m /\ mm_index (f m) = mm_index m /\ mm_heap (f m) = mm_heap m /\
     lp_PeerID (mm_localPeer (f m)) = lp_PeerID (mm_localPeer m)) -> gpreserves (mesh_inv self) (gmodify f).
Proof using Type.
  intros Hf m [H1 H2 H3 H4]. destruct (Hf m) as (Hp & Hx & Hh & Hl). unfold gstate, gmodify. cbn.
  split; rewrite ?Hp, ?Hx, ?Hh, ?Hl; done.
Qed.
#[local] Hint Resolve inv_Lock inv_Unlock inv_send inv_deref : gpres.
#[local] Hint Extern 2 (gpreserves (mesh_inv _) (gmodify _)) => apply inv_modify; done : gpres.
#[local] Hint Extern 2 (gpreserves (mesh_inv _) (on_peer _ _)) => apply inv_on_peer; done : gpres.

Lemma inv_Tunnel_ self dest : gpreserves (mesh_inv self) (Tunnel_ dest).
Proof using Type. unfold Tunnel_. gpres. Qed.
Lemma inv_Peer_ self id : gpreserves (mesh_inv self) (Peer_ id).
Proof using Type. unfold Peer_. gpres. Qed.

(** A message sent and, when it was, a step after it. *)
Lemma inv_send_then self c t msg (k : GoM (@Manager IP R) unit) :
  gpreserves (mesh_inv self) k ->
  gpreserves (mesh_inv self) (fun m => match send c t msg m with
    | (m, Ok _) => k m | (m, Err _) => (m, Ok tt) | (m, Panic w) => (m, Panic w) end).
Proof using Type.
  intros Hk m Hm. pose proof (inv_send self c t msg m Hm) as Hs. unfold gstate in *.
  destruct (send c t msg m) as [m' [| |]]; [by apply Hk|done..].
Qed.

Lemma inv_probePeers `{HRc : !RelayClients} self now order : gpreserves (mesh_inv self) (probePeers now order).
Proof using Type. unfold probePeers. gpres. apply inv_send_then. gpres. Qed.

Lemma inv_ProbeResult `{HRc : !RelayClients} self now probe : gpreserves (mesh_inv self) (ProbeResult now probe).
Proof using Type. unfold ProbeResult. gpres. apply inv_send_then. gpres. Qed.

Lemma inv_PeerEndpoints self sp : gpreserves (mesh_inv self) (PeerEndpoints sp).
Proof using Type. unfold PeerEndpoints. gpres. apply inv_on_peer. intros q. by destruct (po_tunnel q) eqn:Hq; cbn; rewrite ?Hq. Qed.

Lemma inv_Summarize self now order : gpreserves (mesh_inv self) (Summarize now order).
Proof using Type. unfold Summarize. gpres. Qed.

(** A binding from a given state, whose first half also establishes [Q]. *)
Lemma gstate_bind_post {S A B} (P : S -> Prop) (Q : A -> S -> Prop) (a : GoM S A) (k : A -> GoM S B) s :
  P (gstate a s) -> (forall s' x, a s = (s', Ok x) -> Q x s') ->
  (forall x s', P s' -> Q x s' -> P (gstate (k x) s')) -> P (gstate (a ≫= k) s).
Proof using Type.
  intros Ha HQ Hk. unfold gstate in *. cbv [mbind gom_bind].
  destruct (a s) as [s' [x| |]] eqn:He; [|done..]. apply Hk; [done|]. by apply HQ.
Qed.
(** After a read the state is the value read; a value already there is
    passed on. *)
Lemma gstate_read {S B} (k : S -> GoM S B) s : gstate (gget ≫= k) s = gstate (k s) s.
Proof using Type. done. Qed.
Lemma gstate_lift {S A B} (a : A) (k : A -> GoM S B) s : gstate (glift (Ok a) ≫= k) s = gstate (k a) s.
Proof using Type. done. Qed.
Lemma gpres_read {S B} (P : S -> Prop) (k : S -> GoM S B) :
  (forall s, P s -> P (gstate (k s) s)) -> gpreserves P (gget ≫= k).
Proof using Type. intros Hk s Hs. by apply Hk. Qed.
(** A goal at one state, from preservation. *)
Local Ltac at_state H :=
  match goal with
  | |- ?P (gstate ?X ?m) => let HX := fresh in enough (gpreserves P X) as HX; [exact (HX m H)|]
  end.

(** The object at [l] is the peer [id]'s. *)
Definition holds_peer (l : nat) (id : PeerID) m : Prop :=
  exists p, mm_heap m !! l = Some p /\ pr_ID (po_info p) = id.

Lemma new_tunnel_ok self m p s id c :
  lp_PeerID (mm_localPeer m) = self -> pr_ID (po_info p) = id ->
  tunnel_ok self (SetTunnel (new_tunnel m s id c) p).
Proof using Type.
  intros Hs Hid t [= <-]. destruct (new_tunnel_spec m s id c) as (_ & -> & ->). by split.
Qed.

(** The tunnel made with the peer's key. *)
Lemma inv_pair self now (s : PeerObj -> ServerID) id c l m m' :
  mesh_inv self m -> holds_peer l id m -> mm_localPeer m' = mm_localPeer m ->
  mesh_inv self (gstate (on_peer l (fun p => SetCatchupAt now (SetTunnel (new_tunnel m' (s p) id c) p))) m).
Proof using Type.
  intros Hm (q & Hq & Hid) Hl. apply mesh_inv_alter; [done|]. intros p Hp. split; [done|]. intros _.
  simplify_eq. apply new_tunnel_ok; [|done]. rewrite Hl. by apply (mi_self _ _ Hm).
Qed.

(** A peer that announces itself becomes known. *)
Lemma inv_new_peer self m id a p l :
  mesh_inv self m -> mm_peers m !! id = None -> mm_heap m !! l = None -> pr_ID (po_info p) = id ->
  pr_IPv4 (po_info p) = a -> po_tunnel p = None ->
  mesh_inv self (set_peers (<[id := l]> (mm_peers m)) (<[a := l]> (mm_index m)) (set_pheap (<[l := p]> (mm_heap m)) m)).
Proof using Type.
  intros [H1 H2 H3 H4] Hid Hl Hp Ha Ht.
  assert (forall k, k <> l -> <[l := p]> (mm_heap m) !! k = mm_heap m !! k) as Hk by (intros k ?; by rewrite lookup_insert_ne).
  split; cbn [mm_localPeer mm_peers mm_heap mm_index set_peers set_pheap]; [done| | |].
  - intros i k. rewrite lookup_insert_Some. intros [[<- <-]|[Hne Hi]]; [exists p; by rewrite lookup_insert_eq|].
    destruct (H2 i k Hi) as (q & Hq & ?). exists q. rewrite Hk; [done|]. intros ->. congruence.
  - intros b k. rewrite lookup_insert_Some. intros [[<- <-]|[Hne Hi]].
    + exists p. rewrite lookup_insert_eq. split_and!; [done|done|]. by rewrite Hp, lookup_insert_eq.
    + destruct (H3 b k Hi) as (q & Hq & ? & Hqi). exists q. rewrite Hk by (intros ->; congruence).
      split_and!; [done|done|]. rewrite lookup_insert_ne; [done|]. intros ->. congruence.
  - intros k q. rewrite lookup_insert_Some. intros [[<- <-]|[Hne Hq]]; [|by apply (H4 k)].
    intros t. by rewrite Ht.
Qed.

Lemma inv_topology self spare pi : gpreserves (mesh_inv self) (updateNetworkTopologyWithPeer spare pi).
Proof using Type. unfold updateNetworkTopologyWithPeer. gpres. Qed.
#[local] Hint Resolve inv_topology : gpres.

Lemma inv_PeerCatchup `{HRc : !RelayClients} self now spare sp : gpreserves (mesh_inv self) (PeerCatchup now spare sp).
Proof using Type.
  unfold PeerCatchup. destruct (sp_Peer sp) as [info|]; [|gpres]. apply gpres_bind; [gpres|intros _]. cbv zeta.
  apply gpres_read. intros m Hm. apply (gstate_bind_post _ (fun x => holds_peer (fst x) (pi_PeerID info))).
  - destruct (mm_peers m !! pi_PeerID info) eqn:Hid; [done|]. destruct (pi_PrimaryServer info) as [ps|]; [|done].
    destruct (ParseIP (pi_IPv4 info)); [|done..].
    refine (inv_new_peer self m (pi_PeerID info) (pi_IPv4 info) _ (fresh (dom (mm_heap m))) Hm Hid _ _ _ _); try done.
    apply not_elem_of_dom, is_fresh.
  - intros m' x. destruct (mm_peers m !! pi_PeerID info) as [l|] eqn:Hid.
    + intros [= <- <-]. by apply (mi_peers _ _ Hm).
    + destruct (pi_PrimaryServer info) as [ps|]; [|done]. destruct (ParseIP (pi_IPv4 info)); [|done..].
      intros [= <- <-]. eexists. split; [apply lookup_insert_eq|done].
  - intros [l routes] m' Hm' Hl. cbn [fst] in Hl. apply (gstate_bind_post _ (fun _ => holds_peer l (pi_PeerID info))); [by apply inv_Unlock|by intros ? ? [= <-]|].
    intros _ m1 H1 Hl1. rewrite gstate_read.
    destruct (DH _ _) as [k| |]; [rewrite gstate_lift; cbv zeta|done..]. destruct (pi_PrimaryServer info) as [ps|]; [|done].
    apply (gstate_bind_post _ (fun _ _ => True)); [by apply inv_pair|done|]. intros _ m2 H2 _. at_state H2. gpres.
    unfold gwhen. gpres.
Qed.

Lemma inv_PeerCatchupAck self now sp : gpreserves (mesh_inv self) (PeerCatchupAck now sp).
Proof using Type.
  unfold PeerCatchupAck. destruct (sp_Peer sp) as [info|]; [|gpres]. apply gpres_bind; [gpres|intros _].
  apply gpres_read. intros m Hm. apply (gstate_bind_post _ (fun _ m1 => mm_peers m1 = mm_peers m /\ mm_localPeer m1 = mm_localPeer m));
    [by apply inv_Unlock|by intros ? ? [= <-]|]. intros _ m1 H1 [Hp Hl].
  destruct (mm_peers m !! pi_PeerID info) as [l|] eqn:Hid; [|done]. destruct (DH _ _) as [k| |]; [|done..].
  rewrite <- Hp in Hid. apply inv_pair; [done|by apply (mi_peers _ _ H1)|done].
Qed.

(** *** Announcing the addresses *)

Lemma inv_from_on_peer self m0 l f :
  (forall p, po_info (f p) = po_info p) ->
  (forall p, po_info <$> mm_heap m0 !! l = Some (po_info p) -> tunnel_ok self p -> tunnel_ok self (f p)) ->
  gpreserves (inv_from self m0) (on_peer l f).
Proof using Type.
  intros Hi Ht m [Hm Hs]. split; [|by apply same_on_peer]. apply mesh_inv_alter; [done|]. intros p Hp.
  split; [apply Hi|]. apply Ht. destruct Hs as (_ & _ & _ & _ & Hs). by rewrite <- Hs, Hp.
Qed.

Lemma inv_SyncEndpoints `{HRc : !RelayClients} self order eps : gpreserves (mesh_inv self) (SyncEndpoints order eps).
Proof using Type.
  unfold SyncEndpoints. cbv zeta. apply gpres_bind; [gpres|intros m1]. destruct (bool_decide _); [gpres|].
  apply gpres_bind; [gpres|intros _]. apply gpres_bind; [gpres|intros _]. apply gpres_read. intros m0 Hm0.
  set (live := omap _ order). apply (gstate_bind_post _ (fun _ _ => True)); [|done|].
  - enough (inv_from self m0 (gstate (gfor live (fun '(l, p, t) => on_peer l (SetTunnel (SetLocalEndpoints (sort_strings eps) t)))) m0))
      as [? _] by done.
    apply gfor_invariant; [|by split]. intros [[l p] t] m Hin. apply inv_from_on_peer; [done|]. intros q Hq _ t' [= <-].
    unfold live in Hin. apply list_elem_of_omap in Hin as (pid & _ & Hin).
    destruct (mm_peers m0 !! pid) as [l'|] eqn:Hl; [|done]. cbn in Hin. destruct (mm_heap m0 !! l') as [p'|] eqn:Hp; [|done]. cbn in Hin.
    destruct (po_tunnel p') as [t'|] eqn:Ht; [|done]. cbn in Hin. simplify_eq. rewrite Hp in Hq. cbn in Hq.
    destruct (mi_tunnels _ _ Hm0 l p Hp t Ht) as [Ht1 Ht2]. cbn. split; [done|]. congruence.
  - intros _ m Hm _. at_state Hm. gpres.
Qed.

(** *** The control plane's peers *)

(** However the first loop of [Update] ends, the objects it adds are new ones
    and have no tunnel. *)
Lemma update_peers_adds self local old latest : forall peers h routes,
  (forall l p, h !! l = Some p -> tunnel_ok self p) ->
  let h' := fst (update_peers local old latest peers h routes) in
  h ⊆ h' /\ forall l p, h' !! l = Some p -> tunnel_ok self p.
Proof using Type.
  induction latest as [|lp rest IH]; intros peers h routes Ht; [done|]. cbn [update_peers].
  destruct (match old !! pr_ID lp with Some l => (l, h) | None => (fresh (dom h), <[fresh (dom h):=peer_New lp]> h) end)
    as [l h1] eqn:Hl.
  assert (h ⊆ h1 /\ forall k q, h1 !! k = Some q -> tunnel_ok self q) as [Hsub Ht1].
  { destruct (old !! pr_ID lp); simplify_eq; [done|]. split; [apply insert_subseteq, not_elem_of_dom, is_fresh|].
    intros k q. rewrite lookup_insert_Some. intros [[<- <-]|[_ Hq]]; [by intros t [=]|by apply (Ht k)]. }
  destruct (h1 !! l) as [p|]; [|done].
  destruct (_ =? local); [|destruct (ParseIP (pr_IPv4 lp)); [|done..]].
  all: match goal with |- context [update_peers _ _ ?r ?ps ?k ?rs] => destruct (IH ps k rs)  as [H1 H2]; [done|] end.
  all: split; [by etrans|done].
Qed.

Lemma inv_close_one self m0 peers pid : gpreserves (inv_from self m0) (close_one peers pid).
Proof using Type.
  intros m [Hm Hs]. unfold gstate, close_one, deref. cbv [mbind gom_bind gget].
  destruct (mm_peers m !! pid) as [l|]; [|done]. destruct (mm_heap m !! l) as [p|] eqn:Hp; [|done].
  destruct (peers !! _); [done|]. unfold peer_Close. destruct (po_tunnel p) as [t|] eqn:Ht; [|done].
  assert (forall q, mm_heap m !! l = Some q -> po_info q = po_info p) as Hq by (intros q ?; congruence). split.
  - apply mesh_inv_alter; [done|]. intros q Hlq. split; [by rewrite (Hq q Hlq)|]. intros _.
    eapply (tunnel_ok_ends self p); [done| |by eapply mi_tunnels]. rewrite Ht. cbn. by rewrite ends_Close.
  - destruct Hs as (H1 & H2 & H3 & H4 & H5). split_and!; [done..|]. intros k. rewrite <- H5. cbn.
    destruct (decide (l = k)) as [<-|Hne]; [by rewrite lookup_alter_eq, Hp|by rewrite lookup_alter_ne].
Qed.

Lemma mesh_inv_more self m h :
  mesh_inv self m -> mm_heap m ⊆ h -> (forall l p, h !! l = Some p -> tunnel_ok self p) -> mesh_inv self (set_pheap h m).
Proof using Type.
  intros [H1 H2 H3 H4] Hs Ht. split; [done| | |done].
  - intros i l Hi. destruct (H2 i l Hi) as (p & Hp & ?). exists p. split; [by eapply lookup_weaken|done].
  - intros a l Ha. destruct (H3 a l Ha) as (p & Hp & ?). exists p. split; [by eapply lookup_weaken|done].
Qed.

Lemma inv_Update `{HRc : !RelayClients} self now cap o1 o2 o3 ns ps :
  gpreserves (mesh_inv self) (Update now cap o1 o2 o3 ns ps).
Proof using Type.
  intros m Hm. assert (forall b, mesh_inv self (set_locked b (update_enter cap ns m))) as He by (intros b; by destruct Hm; split).
  destruct (mm_locked m) eqn:Hl.
  { unfold gstate, Update. cbv [mbind gom_bind gmodify Lock]. cbn [mm_locked set_localPeer set_networks]. rewrite Hl.
    by destruct Hm; split. }
  destruct (update_peers (lp_PeerID (mm_localPeer m)) (mm_peers m) ps ∅ (mm_heap m) []) as [h res] eqn:Hu.
  unfold gstate. rewrite (Update_start _ _ _ _ _ _ _ _ _ _ Hl Hu). fold (gstate (A := unit) (S := @Manager IP R)).
  pose proof (update_peers_adds self (lp_PeerID (mm_localPeer m)) (mm_peers m) ps ∅ (mm_heap m) [] (mi_tunnels _ _ Hm)) as [Hs Ht].
  rewrite Hu in Hs, Ht. cbn [fst] in Hs, Ht.
  assert (mesh_inv self (set_pheap h (update_enter cap ns m))) as H1 by (apply mesh_inv_more; [apply (He true)|done..]).
  destruct res as [[peers routes]| |]; [|done..].
  destruct (update_peers_spec _ _ _ _ _ _ _ _ _ (mi_peers _ _ Hm) ltac:(intros i l; by rewrite lookup_empty) Hu) as (_ & Hp & _).
  set (m1 := set_pheap h _) in *.
  assert (inv_from self m1 (gstate (close_stale peers o2) m1)) as [H2 H2s].
  { apply (gfor_invariant (inv_from self m1)); [intros; by apply inv_close_one|by split]. }
  apply (gstate_bind_post _ (fun _ m2 => same_mesh m1 m2)); [done|intros m2 x Heq; unfold gstate in H2s; by rewrite Heq in H2s|].
  intros _ m2 Hm2 (_ & _ & _ & _ & Hi). apply (gstate_bind_post _ (fun _ _ => True)); [|done|].
  - destruct Hm2 as [G1 G2 G3 G4]. split; [done|by eapply peers_wf_same| |done].
    eapply index_ok_same; [exact Hi|]. by apply build_index_ok.
  - intros _ m3 Hm3 _. at_state Hm3. pose proof inv_probePeers. gpres.
Qed.
End Mesh.

(** ** Every turn preserves the invariant *)

Section Node.
Context `{Proto}.
Context {IP : Type} `{HIP : Countable IP} `{HNet : !NetAddr IP} `{HScan : !NetAddrScan IP}
  {R : Type} `{HRt : !Router IP R} `{HKx : !KeyExchange} {RM : Type} `{HRm : !RelayOps RM}.
Implicit Types d : @NodeDriver IP R RM.

(** The node has the identifier [self] and its mesh is consistent. *)
Definition node_inv (self : PeerID) d : Prop := d_peerID d = self /\ mesh_inv self (d_mm d).

Lemma keep_on_mm {A} self (f : RelayClients -> GoM (@Manager IP R) A) :
  (forall c, gpreserves (mesh_inv self) (f c)) -> gpreserves (node_inv self) (on_mm f).
Proof using Type.
  intros Hf d [H1 H2]. specialize (Hf (rm_clients (d_rm d)) _ H2). unfold gstate, on_mm in *.
  by destruct (f _ (d_mm d)) as [m r].
Qed.
Lemma keep_modify self f :
  (forall d, d_peerID (f d) = d_peerID d /\ d_mm (f d) = d_mm d) -> gpreserves (node_inv self) (gmodify f).
Proof using Type. intros Hf d [H1 H2]. destruct (Hf d) as [Hp Hm]. split; cbn; [by rewrite Hp|by rewrite Hm]. Qed.
#[local] Hint Resolve keep_on_mm inv_Peer_ inv_Tunnel_ inv_deref inv_PeerCatchup inv_PeerCatchupAck inv_PeerEndpoints
  inv_ProbeResult inv_Update inv_SyncEndpoints inv_Summarize inv_probePeers : gpres.
#[local] Hint Extern 2 (gpreserves (node_inv _) (gmodify _)) => apply keep_modify; done : gpres.

Lemma keep_on_rm self f : gpreserves (node_inv self) (on_rm f).
Proof using Type. unfold on_rm. gpres. Qed.
Lemma keep_dev_send self data : gpreserves (node_inv self) (dev_send data).
Proof using Type. unfold dev_send. gpres. Qed.
#[local] Hint Resolve keep_on_rm keep_dev_send : gpres.

Lemma inv_tunnel_write self now n1 n2 dest data c :
  gpreserves (mesh_inv (IP := IP) (R := R) self) (tunnel_write now n1 n2 dest data c).
Proof using Type.
  intros m Hm. unfold gstate, tunnel_write. destruct (mm_index m !! dest) as [l|]; [|done]. cbn.
  destruct (mm_heap m !! l) as [p|] eqn:Hp; [|done]. cbn. destruct (po_tunnel p) as [t|] eqn:Ht; [|done]. cbn.
  pose proof (ends_Write now n1 n2 (tunnel_relay c t) data t) as He. unfold gstate in He.
  assert (mesh_inv self (set_pheap (<[l := SetTunnel (fst (Tunnel.Write now n1 n2 (tunnel_relay c t) data t)) p]> (mm_heap m)) m)) as Hi.
  { apply mesh_inv_heap; [done| |].
    - intros k. destruct (decide (l = k)) as [<-|Hne]; [by rewrite lookup_insert_eq, Hp|by rewrite lookup_insert_ne].
    - intros k q. rewrite lookup_insert_Some. intros [[<- <-]|[_ Hq]]; [|by eapply mi_tunnels].
      eapply (tunnel_ok_ends self p); [done| |by eapply mi_tunnels]. cbn. by rewrite He, Ht. }
  destruct (Tunnel.Write _ _ _ _ _ t) as [t' [| |]]; exact Hi.
Qed.
#[local] Hint Resolve inv_tunnel_write : gpres.

Lemma keep_PairRequest self locals sp : gpreserves (node_inv self) (PairRequest_ locals sp).
Proof using Type. unfold PairRequest_. gpres. Qed.
#[local] Hint Resolve keep_PairRequest : gpres.
Lemma keep_OnForward self msg : gpreserves (node_inv self) (OnForward msg).
Proof using Type. unfold OnForward. gpres. Qed.
Lemma keep_OnSyncPeer self now spare locals msg : gpreserves (node_inv self) (OnSyncPeer now spare locals msg).
Proof using Type. unfold OnSyncPeer. gpres. Qed.
Lemma keep_serveDevRead self now n1 n2 data : gpreserves (node_inv self) (serveDevRead_turn now n1 n2 data).
Proof using Type. unfold serveDevRead_turn. gpres. Qed.
Lemma keep_serveDevWrite self debug : gpreserves (node_inv self) (serveDevWrite_turn debug).
Proof using Type.
  unfold serveDevWrite_turn. apply keep_modify. intros d. destruct (d_chDevWrite d); [done|].
  destruct (negb _); [done|]. by destruct (_ && _).
Qed.
Lemma keep_pull self now o res err p : gpreserves (node_inv self) (pull_turn now o res err p).
Proof using Type. unfold pull_turn. gpres. Qed.
Lemma keep_relay_event self e : gpreserves (node_inv self) (relay_event e).
Proof using Type. unfold relay_event. apply keep_modify. intros d. by destruct e; destruct (_ =? _). Qed.
Lemma keep_renew self now res : gpreserves (node_inv self) (renew_turn now res).
Proof using Type. unfold renew_turn. gpres. Qed.

Lemma same_peer_turn x :
  same_peer (fun p => match po_tunnel p with Some t => SetTunnel (tunnel_turn x t) p | None => p end).
Proof using Type.
  intros p. destruct (po_tunnel p) as [t|] eqn:Ht; cbn; rewrite ?Ht; [|done]. cbn. by rewrite ends_tunnel_turn.
Qed.

Lemma keep_turn self x d : node_inv self d -> node_inv self (turn x d).
Proof using Type.
  intros Hd. destruct x; cbn [turn].
  - by apply keep_OnForward.
  - by apply keep_OnSyncPeer.
  - revert d Hd. change (gpreserves (node_inv self) (OnProbeResponse now msg)). unfold OnProbeResponse. gpres.
  - by apply keep_dev_send.
  - by apply keep_serveDevRead.
  - by apply keep_serveDevWrite.
  - by apply keep_pull.
  - revert d Hd. change (gpreserves (node_inv self) (tick_turn now order)). unfold tick_turn. gpres.
  - by apply keep_relay_event.
  - revert d Hd. change (gpreserves (node_inv self) (external_event order locals address)). unfold external_event. gpres.
  - by apply keep_renew.
  - by destruct Hd.
  - by destruct Hd.
  - unfold gstate, Drive. destruct (d_running d); by destruct Hd.
  - unfold gstate, Terminate. destruct (d_running d), (d_termed d); by destruct Hd.
  - revert d Hd. change (gpreserves (node_inv self) (driver_Summarize now order)). unfold driver_Summarize. gpres.
  - destruct (mm_peers (d_mm d) !! peer) as [l|]; [|done]. apply keep_on_mm; [|done]. intros _. apply inv_on_peer, same_peer_turn.
Qed.
Lemma keep_turns self l : forall d, node_inv self d -> node_inv self (turns l d).
Proof using Type. induction l as [|x l IH]; intros d Hd; [done|]. by apply IH, keep_turn. Qed.

(** A node that has just started. *)
Lemma Preflight_inv now port private public rt rm b64 up res d :
  Preflight now port private public rt rm b64 up res = Ok d -> node_inv (d_peerID d) d.
Proof using Type.
  unfold Preflight. intros Hp. destruct res as [res| |]; [|done..]. cbn in Hp.
  destruct (b64 _); [|done..]. cbn in Hp. destruct (up _); [|done..]. cbn in Hp. destruct (ParseIP _); [|done..]. cbn in Hp. simplify_eq.
  split; [done|]. split; cbn; [done|by intros i l Hi; rewrite lookup_empty in Hi..|by intros l p Hp; rewrite lookup_empty in Hp].
Qed.

(** ** What a write carries *)

(** A message a write hands to the relay: the data sealed for the peer, or a
    request to that peer for its addresses. *)
Definition addressed (t : Tunnel) (nonce : Z) (data : bytes) (x : PacketType * Message) : Prop :=
  match snd x with
  | MForward f => f = mkPacketForward (t_localPeerID t) (t_peerID t) nonce (Encrypt (t_cipher t) nonce data)
  | MSyncPeer s => sp_DstPeerID s = t_peerID t
  | _ => False
  end.
(** What the outcome says of the tunnel before and after the write. *)
Definition carries (n1 n2 : Z) (data : bytes) (t t' : Tunnel) (o : WriteOutcome) : Prop :=
  match o with
  | Direct i => i ∈ default [] (t_endpoints t) /\ exists e, t_eps t !! i = Some e /\
      t_eps t' !! i = Some (queued (PeerCodec.Encode n1 PacketType_Fragment (t_cipher t) (t_localPeerID t) data) e)
  | Blocked i => i ∈ default [] (t_endpoints t)
  | Dropped => True
  | Relayed sent => Forall (addressed t n2 data) sent /\ exists msg rest, sent = (PacketType_Forward, msg) :: rest
  end.

Lemma first_reachable_some now eps l i : first_reachable now eps l = Some i -> i ∈ l /\ is_Some (eps !! i).
Proof using Type.
  induction l as [|j l IH]; [done|]. cbn. destruct (eps !! j) as [e|] eqn:He; [destruct (Tunnel.reachable now e)|].
  - intros [= <-]. split; [by left|by eexists].
  - intros Hi. destruct (IH Hi). split; [by right|done].
  - intros Hi. destruct (IH Hi). split; [by right|done].
Qed.

Lemma Write_carries now n1 n2 relay data t :
  (forall send typ msg w, relay = Some send -> send typ msg <> Panic w) ->
  exists t' o, Tunnel.Write now n1 n2 relay data t = (t', Ok o) /\ carries n1 n2 data t t' o.
Proof using Type.
  intros Hs. unfold Tunnel.Write. destruct (ReachableEndpoint now _) as [i|] eqn:Hr.
  - assert (i ∈ default [] (t_endpoints t) /\ is_Some (t_eps t !! i)) as [Hi [e He]].
    { unfold ReachableEndpoint in Hr. cbn in Hr. destruct (t_endpoints t); [|done]. by apply first_reachable_some in Hr. }
    cbn [t_eps set_lastSendAt]. rewrite He. destruct (_ <? _); eexists _, _; (split; [done|]); [|done].
    split; [done|]. exists e. split; [done|]. cbn [t_eps set_eps]. by rewrite lookup_insert_eq.
  - destruct relay as [send|]; [|by eexists _, _]. specialize (fun typ msg w => Hs send typ msg w eq_refl).
    destruct (send _ _) as [[]|e|w] eqn:Hsend; [| |by destruct (Hs _ _ _ Hsend)].
    all: destruct (_ && _); [|eexists _, _; split; [done|]; split; [by repeat constructor|by eexists _, _]].
    all: cbn [t_localEndpoints set_lastSendAt].
    all: destruct (t_localEndpoints t) as [[|ep eps]|]; try (eexists _, _; split; [done|]; split; [by repeat constructor|by eexists _, _]).
    all: destruct (send PacketType_SyncPeer _) as [[]|e'|w] eqn:Hsend2; [| |by destruct (Hs _ _ _ Hsend2)].
    all: eexists _, _; split; [done|]; split; [by repeat constructor|by eexists _, _].
Qed.

(** The clients a tunnel's getter finds return from [Send]. *)
Lemma tunnel_relay_returns `{HRk : !RelayOpsOk RM} (rm : RM) t send typ msg w :
  tunnel_relay (rm_clients rm) t = Some send -> send typ msg <> Panic w.
Proof using Type.
  unfold tunnel_relay, relayClientGetter. intros Hc%fmap_Some. destruct Hc as (c & Hc & ->).
  destruct (@RelayServerClient (rm_clients rm) (t_rcServer t)) as [c'|] eqn:Hg.
  - simplify_eq. by eapply (sends_ok rm).
  - rewrite home_ok in Hc. destruct (_ =? 0); [done|]. by eapply (sends_ok rm).
Qed.

(** ** Properties *)

(** C8 (invariant).  Whatever turns the goroutines of a started node take, in
    whatever order and however each of them ends - the relay's messages,
    pulls of the peer graph that fail halfway, catch-ups, packets from the
    sockets of the tunnels - the mesh stays consistent: the node keeps its
    identifier, every known peer has an object that carries the peer's
    identifier and whose tunnel, if it has one, runs between this node and
    that peer, and the index maps an address to the known peer that has it. *)
Theorem mesh_stays_consistent now port private public (rt : R) (rm : RM) b64 up res (d : @NodeDriver IP R RM) (l : list Turn) :
  Preflight now port private public rt rm b64 up res = Ok d ->
  let self := d_peerID d in let m := d_mm (turns l d) in
  d_peerID (turns l d) = self /\ lp_PeerID (mm_localPeer m) = self /\
  (forall id k, mm_peers m !! id = Some k -> exists p, mm_heap m !! k = Some p /\ pr_ID (po_info p) = id /\
     forall t, po_tunnel p = Some t -> t_localPeerID t = self /\ t_peerID t = id) /\
  (forall a k, mm_index m !! a = Some k -> exists p, mm_heap m !! k = Some p /\ pr_IPv4 (po_info p) = a /\
     mm_peers m !! pr_ID (po_info p) = Some k).
Proof using Type.
  intros Hp%Preflight_inv self m. destruct (keep_turns self l d Hp) as [H1 [H2 H3 H4 H5]].
  split_and!; [done|done| |exact H4]. intros id k Hk. destruct (H3 id k Hk) as (p & Hpk & <-). exists p. split_and!; [done|done|].
  by apply (H5 k).
Qed.

(** C7 (safety).  A packet the node reads from its virtual device only ever
    leaves for the node that owns its destination address: in every state a
    started node reaches, when a tunnel writes the packet, it is the tunnel of
    a known peer with exactly that address, between this node and that peer,
    and what it queues on a socket or hands to a relay is the packet sealed
    with that tunnel's cipher and addressed to that peer.  A packet for no
    such peer touches no tunnel; and reading a packet never fails, unless an
    earlier failure left the mesh locked. *)
Theorem packets_leave_for_the_addressee `{HRk : !RelayOpsOk RM} now port private public (rt : R) (rm : RM) b64 up res
    (d0 : @NodeDriver IP R RM) (l : list Turn) t0 n1 n2 data dst :
  Preflight now port private public rt rm b64 up res = Ok d0 -> parseDst data = Some dst ->
  let d := turns l d0 in let m := d_mm d in
  match serveDevRead_turn t0 n1 n2 data d with
  | (d', Ok (Some o)) => exists k p t t', let id := pr_ID (po_info p) in
      mm_peers m !! id = Some k /\ mm_heap m !! k = Some p /\ pr_IPv4 (po_info p) = ipv4_string dst /\
      po_tunnel p = Some t /\ t_localPeerID t = d_peerID d0 /\ t_peerID t = id /\
      mm_heap (d_mm d') !! k = Some (SetTunnel t' p) /\ carries n1 n2 data t t' o
  | (d', Ok None) => mm_heap (d_mm d') = mm_heap m
  | (_, Err _) => False
  | (_, Panic _) => mm_locked m = true
  end.
Proof using Type.
  intros Hp%Preflight_inv Hdst d m. pose proof (keep_turns _ l d0 Hp) as [_ Hm]. fold d in Hm. fold m in Hm.
  unfold serveDevRead_turn. cbv [mbind gom_bind gget]. destruct (negb _); [done|]. rewrite Hdst.
  destruct (decide _); [done|]. unfold on_mm at 1. unfold Tunnel_, Lock, deref. cbv [mbind gom_bind gget]. fold m.
  destruct (mm_locked m) eqn:Hl; [done|]. cbn -[tunnel_write].
  destruct (mm_index m !! ipv4_string dst) as [k|] eqn:Hk; [|done]. destruct (mi_index _ _ Hm _ _ Hk) as (p & Hpk & Ha & Hid).
  change (mm_heap (set_locked false (set_locked true m))) with (mm_heap m). rewrite Hpk. cbn -[tunnel_write]. destruct (po_tunnel p) as [t|] eqn:Ht; [|done].
  destruct (String.eqb _ _); [done|]. unfold on_mm, tunnel_write. cbn [d_mm d_rm set_mm mm_index mm_heap set_locked]. rewrite Hk. cbn. rewrite Hpk. cbn. rewrite Ht. cbn.
  destruct (Write_carries t0 n1 n2 (tunnel_relay (rm_clients (d_rm d)) t) data t) as (t' & o & Hw & Hc); [intros; by eapply tunnel_relay_returns|].
  rewrite Hw. exists k, p, t, t'. destruct (mi_tunnels _ _ Hm k p Hpk t Ht) as [H1 H2].
  split_and!; try done. cbn. by rewrite lookup_insert_eq.
Qed.
End Node.

(** ** Witnesses *)

Module SafetyExample.
Import DriverExample.
#[local] Existing Instances Example.net Example.kx Toy.proto.

(** A relay manager as the list of its servers, each answering, and the
    identifier of the primary one. *)
Definition Listed : Type := list ServerID * ServerID.
Definition listed_client (rm : Listed) (id : ServerID) : option RelayHandle :=
  if bool_decide (id ∈ fst rm) then Some Example.handle else None.
#[local] Instance listed_ops : RelayOps Listed := {|
  rm_AddServer s rm := (rs_ID s :: fst rm, snd rm);
  rm_SetPrimaryServerID id rm := (fst rm, id);
  rm_PrimaryServerID rm := snd rm;
  rm_Update l rm := (map rs_ID l, snd rm);
  rm_Tick rm := rm;
  rm_SetCredential _ rm := rm;
  rm_Stop rm := ([], snd rm);
  rm_clients rm := {|
    RelayServerClient := listed_client rm;
    PrimaryRelayServerClient := if snd rm =? 0 then None else listed_client rm (snd rm) |} |}.
Lemma listed_connected (rm : Listed) id : rm_connected rm id <-> id ∈ fst rm.
Proof. unfold rm_connected. cbn. unfold listed_client. destruct (bool_decide_reflect (id ∈ fst rm)); split; (done || by intros [? ?] || by eexists). Qed.
#[local] Instance listed_ok : RelayOpsOk Listed.
Proof.
  refine {| rm_sound _ := True; rm_ready _ := True; rm_waiting _ _ := False |}; try done.
  - intros rm sid c t msg w. cbn. unfold listed_client. case_bool_decide; [by intros [= <-]|done].
  - intros rs rm _. split_and!; [done..| |].
    + intros r Hr. left. apply listed_connected, list_elem_of_In. by apply in_map.
    + intros id. rewrite listed_connected. apply list_elem_of_In.
  - intros r rm _. split_and!; [done..|left; apply listed_connected; by left|].
    intros id. rewrite !listed_connected. by right.
Qed.

(** Node 2 starts, pulls the graph and is greeted by node 1. *)
Definition offline : Listed := ([], 0).
Definition response : PreflightResponse := mkPreflightResponse 2 9 "two" "10.0.0.2" Example.server "" 60.
Definition started : result (@NodeDriver string (@router string _ _) Listed) :=
  Preflight 0 4000 [Byte.x02] [Byte.x02] newRouter offline (fun _ => Ok []) (fun _ => Ok tt) (Ok response).
Definition fresh_node : @NodeDriver string (@router string _ _) Listed :=
  mkNodeDriver 2 9 "two" 4000 false false true false "" (mkCredential "10.0.0.2" [] "" 0 (60 * Second)) [] [] Example.server []
    (NewManager (mkLocalPeer "two" 9 2 [Byte.x02] [Byte.x02] "10.0.0.2"%string []) newRouter) offline.
Lemma started_ok : started = Ok fresh_node.
Proof. reflexivity. Qed.
Definition history : list Turn :=
  [TurnDrive; TurnPull 5 (mkOrders 0 [1; 2] [] [1; 2]) (Some (graph [Example.peer1; Example.peer2])) None newPuller;
   TurnSyncPeer 7 0 [] (MSyncPeer (mkPacketSyncPeer 2 Catchup (Some info1) [])); TurnTick 8 [1; 2]].
Definition to_one : bytes := replicate 16 Byte.x00 ++ [Byte.x0a; Byte.x00; Byte.x00; Byte.x01].

Lemma mesh_stays_consistent_witness :
  exists k p t, mm_peers (d_mm (turns history fresh_node)) !! 1 = Some k /\
    mm_heap (d_mm (turns history fresh_node)) !! k = Some p /\ po_tunnel p = Some t /\ t_localPeerID t = 2 /\ t_peerID t = 1.
Proof.
  destruct (mesh_stays_consistent (HNet := Example.net) (HRm := listed_ops) 0 4000 [Byte.x02] [Byte.x02] newRouter offline (fun _ => Ok []) (fun _ => Ok tt) (Ok response)
    fresh_node history started_ok) as (_ & _ & H & _).
  destruct (mm_peers (d_mm (turns history fresh_node)) !! 1) as [k|] eqn:Hk; [|by vm_compute in Hk].
  destruct (H 1 k Hk) as (p & Hp & _ & Ht). exists k, p.
  destruct (po_tunnel p) as [t|] eqn:Htun; [exists t; split_and!; [done|done|done|by apply Ht..]|].
  exfalso. assert ((mm_heap (d_mm (turns history fresh_node)) !! k ≫= po_tunnel) = None) as Hn by (by rewrite Hp).
  vm_compute in Hk. injection Hk as <-. by vm_compute in Hn.
Defined.

Definition relayed {A} (r : A * result (option WriteOutcome)) : bool :=
  match snd r with Ok (Some (Relayed _)) => true | _ => false end.
Lemma packets_leave_for_the_addressee_witness :
  exists d' sent k p t, serveDevRead_turn 9 3 4 to_one (turns history fresh_node) = (d', Ok (Some (Relayed sent))) /\
    mm_peers (d_mm (turns history fresh_node)) !! pr_ID (po_info p) = Some k /\ pr_IPv4 (po_info p) = "10.0.0.1"%string /\
    po_tunnel p = Some t /\ t_peerID t = pr_ID (po_info p) /\ Forall (addressed t 4 to_one) sent.
Proof.
  pose proof (packets_leave_for_the_addressee (HNet := Example.net) (HRm := listed_ops) 0 4000 [Byte.x02] [Byte.x02] newRouter offline
    (fun _ => Ok []) (fun _ => Ok tt) (Ok response) fresh_node history 9 3 4 to_one (10, 0, 0, 1) started_ok eq_refl) as H.
  assert (relayed (serveDevRead_turn 9 3 4 to_one (turns history fresh_node)) = true) as Hr by (by vm_compute).
  cbv zeta in H. revert H Hr. generalize (serveDevRead_turn 9 3 4 to_one (turns history fresh_node)).
  intros [d' [[[i|i| |sent]|]| |]] H Hr; try discriminate Hr.
  destruct H as (k & p & t & t' & H1 & _ & H2 & H3 & _ & H4 & _ & H5 & _). exists d', sent, k, p, t.
  split_and!; [reflexivity|exact H1|rewrite H2; vm_compute; reflexivity|exact H3|exact H4|exact H5].
Defined.
End SafetyExample.
