(* ===== verification/NodeRelay.v ===== *)
(** The relay manager behind the driver's interface.  The driver's component is
    written against [Driver.RelayOps]; this file runs the manager of
    [RelayManager] there - each call meets the environment of the moment and
    visits its maps in some order - and shows that it implements an abstract
    manager, which only tells the servers that are connected and those that
    wait to be, and so keeps the promises of [Driver.RelayOpsOk]. *)
From S2P Require MeshManager Driver.
From S2P Require Import Prelude Wire RelayCodec Noise PeerCodec Credential RelayTransport GoTime RelayClient RelayManager.
#[local] Set Warnings "-clear-no-such-hyp".

(** What the calls meet: at each call, the outcome of dialling each server,
    and an order in which a map with given keys is visited. *)
Record World (HS : Type) := mkWorld {
  w_env : nat -> RelayServer -> ConnEnv HS;
  w_visit : nat -> gset Z -> list ServerID }.
Arguments mkWorld {HS}. Arguments w_env {HS}. Arguments w_visit {HS}.

(** The manager and the number of calls made. *)
Record Managed (HS : Type) := mkManaged { mg_manager : Manager HS; mg_calls : nat }.
Arguments mkManaged {HS}. Arguments mg_manager {HS}. Arguments mg_calls {HS}.

Section Ops.
Context `{HP : Proto} {HS : Type} `{HH : Handshake HS} (world : World HS).

(** One call, in the environment of the moment. *)
Definition managed_call (f : (RelayServer -> ConnEnv HS) -> (gset Z -> list ServerID) -> GoM (Manager HS) unit)
    (g : Managed HS) : Managed HS :=
  mkManaged (gstate (f (w_env world (mg_calls g)) (w_visit world (mg_calls g))) (mg_manager g)) (S (mg_calls g)).

(** The clients the others see: [Send] is the client's. *)
Definition handle_of (m : Manager HS) (l : nat) : option MeshManager.RelayHandle :=
  c ← m_heap m !! l;
  Some (MeshManager.mkRelayHandle (cl_relayServer c) (fun typ msg => gresult (RelayClient.Send typ msg) c)).
Definition clients_of (m : Manager HS) : MeshManager.RelayClients := {|
  MeshManager.RelayServerClient id := l ← RelayServerClient id m; handle_of m l;
  MeshManager.PrimaryRelayServerClient := l ← PrimaryRelayServerClient m; handle_of m l |}.

#[export] Instance managed_ops : Driver.RelayOps (Managed HS) := {|
  Driver.rm_AddServer r := managed_call (fun env _ => AddServer (env r) r);
  Driver.rm_SetPrimaryServerID id := managed_call (fun _ _ => gmodify (SetPrimaryServerID id));
  Driver.rm_PrimaryServerID g := PrimaryServerID (mg_manager g);
  Driver.rm_Update rs := managed_call (fun env visit m =>
    Update env rs (visit (dom (m_clients m) ∪ list_to_set (map rs_ID rs))) m);
  Driver.rm_Tick := managed_call (fun env visit m => Tick env (visit (dom (m_pending m))) m);
  Driver.rm_SetCredential cred := managed_call (fun _ _ => gmodify (SetCredential cred));
  Driver.rm_Stop := managed_call (fun _ visit m => Stop (visit (dom (m_clients m))) m);
  Driver.rm_clients g := clients_of (mg_manager g) |}.

End Ops.

(** ** The abstract manager *)

(** The servers with a client, those the next tick tries, and the home. *)
Record View := mkView { connected : gset Z; waiting : gset Z; home : ServerID }.

Inductive Call :=
| SetCredential_ (cred : bytes) | SetHome (id : ServerID) | Update_ (rs : list RelayServer) | AddServer_ (r : RelayServer) | Tick_.

(** Some servers are asked for: each is connected or waits, nothing else
    changes. *)
Definition asked_for (ids : gset Z) (v v' : View) : Prop :=
  home v' = home v /\ connected v ⊆ connected v' /\ connected v' ⊆ connected v ∪ ids /\
  waiting v ⊆ waiting v' /\ waiting v' ⊆ waiting v ∪ ids /\ ids ⊆ connected v' ∪ waiting v'.
(** Clients of other servers are dropped; those that only wait stay. *)
Definition pruned (ids : gset Z) (v v' : View) : Prop :=
  home v' = home v /\ connected v' = connected v ∩ ids /\
  waiting v ∖ (connected v ∖ ids) ⊆ waiting v' /\ waiting v' ⊆ waiting v.
(** Some of the waiting servers are connected. *)
Definition retried (v v' : View) : Prop :=
  home v' = home v /\ connected v ⊆ connected v' /\ connected v' ⊆ connected v ∪ waiting v /\
  waiting v' ⊆ waiting v /\ waiting v ⊆ connected v' ∪ waiting v'.
Definition ids_of (rs : list RelayServer) : gset Z := list_to_set (map rs_ID rs).

(** What a call may do. *)
Definition allowed (c : Call) (v v' : View) : Prop :=
  match c with
  | SetCredential_ _ => v' = v
  | SetHome id => v' = mkView (connected v) (waiting v) id
  | Update_ rs => exists v1, asked_for (ids_of rs) v v1 /\ pruned (ids_of rs) v1 v'
  | AddServer_ r => asked_for {[rs_ID r]} v v'
  | Tick_ => retried v v'
  end.
Fixpoint allowed_run (cs : list Call) (v v' : View) : Prop :=
  match cs with [] => v' = v | c :: cs => exists v1, allowed c v v1 /\ allowed_run cs v1 v' end.

Lemma asked_none v : asked_for ∅ v v.
Proof. unfold asked_for. set_solver. Qed.
Lemma asked_more a b v v1 v2 : asked_for a v v1 -> asked_for b v1 v2 -> asked_for (a ∪ b) v v2.
Proof. unfold asked_for. intros (-> & H) (-> & H'). split; [done|]. set_solver. Qed.
Lemma retried_refl v : retried v v.
Proof. unfold retried. set_solver. Qed.
Lemma retried_trans v v1 v2 : retried v v1 -> retried v1 v2 -> retried v v2.
Proof. unfold retried. intros (-> & H) (-> & H'). split; [done|]. set_solver. Qed.

(** The servers a call names. *)
Definition named (c : Call) : gset Z :=
  match c with Update_ rs => ids_of rs | AddServer_ r => {[rs_ID r]} | _ => ∅ end.
Lemma allowed_named c v v' : allowed c v v' -> connected v' ∪ waiting v' ⊆ connected v ∪ waiting v ∪ named c.
Proof.
  destruct c as [cred|id|rs|r|]; cbn -[ids_of].
  - intros ->. set_solver.
  - intros ->. cbn. set_solver.
  - intros (v1 & (_ & _ & H1 & _ & H2 & _) & (_ & -> & _ & H3)). set_solver.
  - intros (_ & _ & H1 & _ & H2 & _). set_solver.
  - intros (_ & _ & H1 & H2 & _). set_solver.
Qed.
Lemma run_named cs : forall v v', allowed_run cs v v' -> connected v' ∪ waiting v' ⊆ connected v ∪ waiting v ∪ ⋃ (map named cs).
Proof.
  induction cs as [|c cs IH]; intros v v'; cbn [allowed_run map union_list]; [intros ->; set_solver|].
  intros (v1 & H1%allowed_named & H2%IH). cbn. set_solver.
Qed.

(** ** The implementation *)

Section Contract.
Context `{HP : Proto} `{HPok : !ProtoOk} {HS : Type} `{HH : Handshake HS} `{HSafe : !HandshakeSafe HS} (world : World HS).
Implicit Types m : Manager HS.

(** Nothing the calls meet panics, and a visit reaches every key. *)
Class WorldOk : Prop := {
  world_calm : forall n r, calm (w_env world n r);
  world_visits : forall n (X : gset Z) id, id ∈ X -> In id (w_visit world n X) }.

Definition view_of m : View := mkView (dom (m_clients m)) (dom (m_pending m)) (m_primary m).
(** What waits is kept under its identifier. *)
Definition sound m : Prop := manager_wf m /\ forall id r, m_pending m !! id = Some r -> rs_ID r = id.
Definition ready m : Prop := sound m /\ is_Some (m_credential m).

Lemma sound_pending p m : (forall id r, p !! id = Some r -> rs_ID r = id) -> sound m -> sound (set_pending p m).
Proof using Type. intros Hp [Hw _]. by split. Qed.
Lemma sound_wait r m : sound m -> sound (set_pending (<[rs_ID r := r]> (m_pending m)) m).
Proof using Type. intros Hs. apply sound_pending; [|done]. intros id q. rewrite lookup_insert_Some. intros [[<- <-]|[_ Hq]]; [done|by apply Hs]. Qed.
Lemma sound_done id m : sound m -> sound (set_pending (delete id (m_pending m)) m).
Proof using Type. intros Hs. apply sound_pending; [|done]. intros i q. rewrite lookup_delete_Some. intros [_ Hq]. by apply Hs. Qed.

(** Connecting in a calm environment. *)
Lemma connect_view env r m : calm env -> ready m ->
  exists m1 b, connect env r m = (m1, Ok b) /\ ready m1 /\ m_pending m1 = m_pending m /\
    view_of m1 = mkView (connected (view_of m) ∪ if b then {[rs_ID r]} else ∅) (waiting (view_of m)) (home (view_of m)).
Proof using HPok HSafe.
  intros Hc [[Hw Hp] Hcred]. destruct (connect_returns env r m Hc Hcred) as (m1 & b & Hm & Hs1 & Hs2). exists m1, b. split; [done|].
  pose proof (wf_connect env r m Hw) as Hw1. unfold gstate in Hw1. rewrite Hm in Hw1. cbn [fst] in Hw1.
  destruct (connect_result env r m m1 b Hm) as [Hpe _]. split; [split; [split; [done|by rewrite Hpe]|by rewrite Hs1]|]. split; [done|].
  unfold view_of. cbn. rewrite Hpe, Hs2. f_equal. destruct (m_clients m !! rs_ID r) as [l|] eqn:Hl.
  - rewrite (connect_known env r m l Hl) in Hm. injection Hm as <- <-. apply elem_of_dom_2 in Hl. set_solver.
  - pose proof (connect_new env r m Hl) as Hn. rewrite Hm in Hn. destruct b.
    + destruct Hn as (l & c & _ & _ & _ & -> & _). rewrite dom_insert_L. set_solver.
    + destruct Hn as (-> & _). set_solver.
Qed.

(** The loop of [Update] and [AddServer] on one server. *)
Lemma ask_view env r m : calm env -> ready m ->
  exists m1 b, connect env r m = (m1, Ok b) /\
    let m2 := if b then m1 else set_pending (<[rs_ID r := r]> (m_pending m1)) m1 in
    ready m2 /\ asked_for {[rs_ID r]} (view_of m) (view_of m2).
Proof using HPok HSafe.
  intros Hc Hr. destruct (connect_view env r m Hc Hr) as (m1 & b & Hm & [Hs1 Hc1] & Hp & Hv). exists m1, b. split; [done|].
  injection Hv as Hv1 Hv2 Hv3. unfold asked_for, view_of. destruct b; cbn in *.
  - split; [done|]. rewrite Hv1, Hv2, Hv3. set_solver.
  - split; [split; [by apply sound_wait|done]|]. rewrite dom_insert_L, Hv1, Hv2, Hv3. set_solver.
Qed.

Lemma connect_loop_view env rs : (forall r, calm (env r)) -> forall m, ready m ->
  exists m1, gfor rs (fun r =>
    connected ← connect (env r) r;
    if (connected : bool) then mret tt
    else gmodify (fun m => set_pending (<[rs_ID r := r]> (m_pending m)) m)) m = (m1, Ok tt) /\
  ready m1 /\ asked_for (ids_of rs) (view_of m) (view_of m1).
Proof using HPok HSafe.
  intros Hc. induction rs as [|r rs IH]; intros m Hr; [exists m; split; [done|]; split; [done|apply asked_none]|].
  cbn [gfor]. cbv [mbind gom_bind]. destruct (ask_view (env r) r m (Hc r) Hr) as (m1 & b & -> & Hr1 & Ha).
  destruct (IH _ Hr1) as (m2 & Hm & Hr2 & Ha2). exists m2. split; [by destruct b|]. split; [done|].
  eapply asked_more; [exact Ha|exact Ha2].
Qed.

Lemma Tick_view env order : (forall r, calm (env r)) -> forall m, ready m ->
  exists m', Tick env order m = (m', Ok tt) /\ ready m' /\ retried (view_of m) (view_of m').
Proof using HPok HSafe.
  intros Hc. unfold Tick. induction order as [|id order IH]; intros m Hr; [exists m; split; [done|]; split; [done|apply retried_refl]|].
  cbn [gfor]. cbv [mbind gom_bind gget]. destruct (m_pending m !! id) as [r|] eqn:Hid; [|by apply IH].
  destruct (connect_view (env r) r m (Hc r) Hr) as (m1 & b & -> & [Hs1 Hc1] & Hp & Hv).
  assert (rs_ID r = id) as Hrid by (by destruct Hr as [[_ Hp0] _]; apply Hp0).
  set (m2 := if b then set_pending (delete id (m_pending m1)) m1 else m1).
  assert (ready m2 /\ retried (view_of m) (view_of m2)) as [Hr2 Hv2].
  { injection Hv as Hv1 Hv2 Hv3. apply elem_of_dom_2 in Hid. unfold m2, retried, view_of. destruct b; cbn in *.
    - split; [split; [by apply sound_done|done]|]. rewrite dom_delete_L, Hv1, Hv2, Hv3, Hrid. split; [done|].
      repeat split; [set_solver..|]. intros i Hi. destruct (decide (i = id)); set_solver.
    - split; [done|]. rewrite Hv1, Hv2, Hv3. set_solver. }
  destruct (IH m2 Hr2) as (m' & Hm & Hr' & Hv'). exists m'. split; [unfold m2 in Hm; by destruct b|]. split; [done|].
  by eapply retried_trans.
Qed.

(** Pruning in some order. *)
Lemma prune_view (ids : gset Z) order : forall m, ready m ->
  exists m2, gfor order (fun id =>
    m ← gget;
    match m_clients m !! id with
    | None => mret tt
    | Some l =>
      if decide (id ∈ ids) then mret tt
      else
        _ ← gmodify (fun m => set_clients (delete id (m_clients m)) m);
        _ ← gmodify (fun m => set_pending (delete id (m_pending m)) m);
        gignore (Client_Close l)
    end) m = (m2, Ok tt) /\ ready m2 /\ m_primary m2 = m_primary m /\
  dom (m_clients m2) = dom (m_clients m) ∖ (list_to_set order ∖ ids) /\
  dom (m_pending m) ∖ (dom (m_clients m) ∖ ids) ⊆ dom (m_pending m2) /\ dom (m_pending m2) ⊆ dom (m_pending m).
Proof using HPok HSafe.
  induction order as [|id order IH]; intros m Hr; [exists m; split; [done|]; split; [done|]; set_solver|].
  cbn [gfor]. cbv [mbind gom_bind gget]. destruct (m_clients m !! id) as [l|] eqn:Hl.
  2:{ apply not_elem_of_dom_2 in Hl. destruct (IH m Hr) as (m2 & H1 & H2 & H3 & H4 & H5 & H6). exists m2. split_and!; [done..| |done|done]. set_solver. }
  destruct (decide (id ∈ ids)) as [Hin|Hin].
  { destruct (IH m Hr) as (m2 & H1 & H2 & H3 & H4 & H5 & H6). exists m2. split_and!; [done..| |done|done]. set_solver. }
  unfold gmodify. set (m1 := set_pending _ _). destruct Hr as [[Hw Hp] Hc]. destruct (Hw id l Hl) as (c & Hcl & Hcr).
  destruct (close_unregistered l m1 c) as (c' & [Ho _] & ->); [done|..].
  { intros r Hr. cbn. rewrite (Hcr r Hr). apply lookup_delete_eq. }
  destruct (IH (set_mheap (<[l := c']> (m_heap m1)) m1)) as (m2 & H1 & H2 & H3 & H4 & H5 & H6).
  { split; [split|done]; [|intros i q; cbn; rewrite lookup_delete_Some; intros [_ Hq]; by apply Hp].
    apply wf_insert_heap.
    - intros i Hi r Hr. rewrite Ho in Hr. cbn in Hi. rewrite lookup_delete_Some in Hi. destruct Hi as [_ Hi].
      destruct (Hw i l Hi) as (c2 & Hc2 & Hr2). simplify_eq. auto.
    - intros i k. cbn. rewrite lookup_delete_Some. intros [_ Hi]. by apply Hw. }
  unfold m1 in *. cbn -[dom] in H3, H4, H5, H6. rewrite ?dom_delete_L in H4, H5, H6. apply elem_of_dom_2 in Hl.
  exists m2. split_and!; [done..| | |set_solver].
  - rewrite H4. set_solver.
  - etransitivity; [|exact H5]. intros i Hi. destruct (decide (i = id)); set_solver.
Qed.

Lemma Update_view env rs order m : (forall r, calm (env r)) -> ready m ->
  (forall id, id ∈ dom (m_clients m) ∪ ids_of rs -> In id order) ->
  exists m', Update env rs order m = (m', Ok tt) /\ ready m' /\ allowed (Update_ rs) (view_of m) (view_of m').
Proof using HPok HSafe.
  intros Hc Hr Hord. destruct (connect_loop_view env rs Hc m Hr) as (m1 & H1 & Hr1 & Ha).
  destruct (prune_view (ids_of rs) order m1 Hr1) as (m2 & H2 & Hr2 & Hh & Hcl & Hw1 & Hw2).
  exists m2. split; [|split; [done|]].
  - unfold Update. cbv [mbind gom_bind] in *. by rewrite H1.
  - exists (view_of m1). split; [done|]. unfold pruned, view_of. cbn. split_and!; [done| |done|done].
    rewrite Hcl. destruct Ha as (_ & _ & Hsub & _). cbn in Hsub. apply set_eq. intros id.
    rewrite elem_of_intersection, elem_of_difference, elem_of_difference, elem_of_list_to_set, list_elem_of_In.
    split; [|by intros [? ?]; split; [|intros []]]. intros [Hid Hn]. split; [done|]. destruct (decide (id ∈ ids_of rs)); [done|].
    destruct Hn. split; [|done]. apply Hord. set_solver.
Qed.

(** The goroutines of a new client are cancelled when [AddServer] returns. *)
Lemma cancel_registered m r l : ready m -> m_clients m !! rs_ID r = Some l ->
  exists m', on_client l cancel_client m = (m', Ok tt) /\ ready m' /\
    m_clients m' = m_clients m /\ m_pending m' = m_pending m /\ m_primary m' = m_primary m.
Proof using Type.
  intros [[Hw Hp] Hc] Hl. destruct (Hw _ _ Hl) as (c & Hcl & Hcr). unfold on_client. rewrite Hcl.
  pose proof (client_le_cancel c) as Hle. unfold gstate in Hle.
  assert (gresult cancel_client c = Ok tt) as Hok.
  { unfold gresult, cancel_client. cbv [mbind gom_bind]. unfold Writer_turn. destruct (cl_writer c); [| |]; try (destruct (_ <? _)); done. }
  unfold gresult in Hok. destruct (cancel_client c) as [c' res]. cbn in Hok, Hle. subst res. destruct Hle as [Ho _].
  eexists. split; [done|]. split; [|done]. split; [split; [|done]|done]. apply wf_insert_heap; [|done].
  intros i Hi x Hx. rewrite Ho in Hx. destruct (Hw i l Hi) as (c2 & Hc2 & Hr2). simplify_eq. auto.
Qed.

Lemma AddServer_view env r m : calm env -> ready m ->
  exists m', AddServer env r m = (m', Ok tt) /\ ready m' /\ allowed (AddServer_ r) (view_of m) (view_of m').
Proof using HPok HSafe.
  intros Hc Hr. unfold AddServer. cbv [mbind gom_bind gget]. destruct (m_clients m !! rs_ID r) as [l|] eqn:Hl.
  { exists m. split; [done|]. split; [done|]. apply elem_of_dom_2 in Hl. unfold allowed, asked_for, view_of. cbn. set_solver. }
  destruct (connect_view env r m Hc Hr) as (m1 & b & -> & Hr1 & Hp & Hv). pose proof Hr1 as [[Hw1 Hp1] Hc1].
  injection Hv as Hv1 Hv2 Hv3. unfold allowed, asked_for, view_of in *. cbn -[dom] in Hv1, Hv2, Hv3 |- *. destruct b.
  - destruct (m_clients m1 !! rs_ID r) as [l1|] eqn:Hl1.
    + destruct (cancel_registered m1 r l1 Hr1 Hl1) as (m2 & -> & Hr2 & Hcl & Hpe & Hpr). exists m2. split; [done|]. split; [done|].
      rewrite Hcl, Hpe, Hpr, Hv1, Hv2, Hv3. set_solver.
    + exists m1. rewrite Hv1, Hv2, Hv3. split; [done|]. split; [done|]. set_solver.
  - destruct (m_pending m1 !! rs_ID r) as [q|] eqn:Hq.
    + apply elem_of_dom_2 in Hq. exists m1. rewrite Hv1, Hv2, Hv3 in *. split; [done|]. split; [done|]. set_solver.
    + eexists. split; [done|]. split; [split; [by apply sound_wait|done]|]. cbn -[dom]. rewrite dom_insert_L, Hv1, Hv2, Hv3. set_solver.
Qed.

(** ** The simulation *)

(** A call through the driver's interface. *)
Definition invoke (c : Call) : Managed HS -> Managed HS :=
  match c with
  | SetCredential_ cred => @Driver.rm_SetCredential _ (managed_ops world) cred
  | SetHome id => @Driver.rm_SetPrimaryServerID _ (managed_ops world) id
  | Update_ rs => @Driver.rm_Update _ (managed_ops world) rs
  | AddServer_ r => @Driver.rm_AddServer _ (managed_ops world) r
  | Tick_ => @Driver.rm_Tick _ (managed_ops world)
  end.
Definition view (g : Managed HS) : View := view_of (mg_manager g).

Lemma invoke_allowed `{!WorldOk} c g : ready (mg_manager g) -> ready (mg_manager (invoke c g)) /\ allowed c (view g) (view (invoke c g)).
Proof using HPok HSafe.
  destruct g as [m n]. unfold view. cbn. intros Hr. destruct c as [cred|id|rs|r|]; cbn -[Update AddServer Tick view_of allowed].
  - split; [split; [apply Hr|by eexists]|done].
  - by split.
  - destruct (Update_view (w_env world n) rs (w_visit world n (dom (m_clients m) ∪ list_to_set (map rs_ID rs))) m (world_calm n) Hr)
      as (m' & Hu & Hr' & Ha); [intros id; apply world_visits|]. unfold gstate. by rewrite Hu.
  - destruct (AddServer_view (w_env world n r) r m (world_calm n r) Hr) as (m' & Hu & Hr' & Ha). unfold gstate. by rewrite Hu.
  - destruct (Tick_view (w_env world n) (w_visit world n (dom (m_pending m))) (world_calm n) m Hr) as (m' & Hu & Hr' & Ha).
    unfold gstate. by rewrite Hu.
Qed.

(** A server is connected for the others exactly when it is in the view. *)
Lemma connected_spec g id : ready (mg_manager g) -> @Driver.rm_connected _ (managed_ops world) g id <-> id ∈ connected (view g).
Proof using Type.
  destruct g as [m n]. intros [[Hw _] _]. unfold view, Driver.rm_connected. cbn -[dom]. rewrite elem_of_dom. cbn in Hw.
  unfold RelayServerClient, handle_of. destruct (m_clients m !! id) as [l|] eqn:Hl; cbn.
  - destruct (Hw id l Hl) as (c & -> & _). cbn. split; intros _; by eexists.
  - split; by intros [? ?].
Qed.

#[export] Instance managed_ok `{!WorldOk} : @Driver.RelayOpsOk (Managed HS) (managed_ops world).
Proof using HPok HSafe.
  refine {| Driver.rm_sound g := sound (mg_manager g); Driver.rm_ready g := ready (mg_manager g);
    Driver.rm_waiting g id := id ∈ waiting (view g) |}.
  - intros cred [m n] Hs. by split; [|eexists].
  - intros [m n] sid c t msg w. cbn. unfold handle_of. destruct (RelayServerClient sid m) as [l|]; [|done]. cbn.
    destruct (m_heap m !! l) as [cl|]; [|done]. intros [= <-]. cbn. unfold gresult, Send.
    destruct (cl_closed cl); [done|]. by destruct (try_enqueue _ _ _) as [? [| |]].
  - intros [m n]. cbn. unfold PrimaryRelayServerClient, RelayServerClient, PrimaryServerID. by destruct (m_primary m =? 0).
  - intros id [m n] Hr. by split.
  - intros rs g Hr. destruct (invoke_allowed (Update_ rs) g Hr) as [Hr' (v1 & (H1 & _ & _ & _ & _ & H2) & (H3 & H4 & H5 & _))].
    split; [exact Hr'|]. split; [exact (eq_trans H3 H1)|]. split.
    + intros r Hin. rewrite connected_spec by exact Hr'.
      assert (rs_ID r ∈ ids_of rs) as Hid by (apply elem_of_list_to_set, list_elem_of_In, in_map, Hin).
      change (@Driver.rm_Update _ _ rs g) with (invoke (Update_ rs) g). rewrite H4.
      destruct (decide (rs_ID r ∈ connected v1)); [left; set_solver|right; apply H5; set_solver].
    + intros id. rewrite connected_spec by exact Hr'. change (@Driver.rm_Update _ _ rs g) with (invoke (Update_ rs) g). rewrite H4.
      intros [_ Hid]%elem_of_intersection. by apply list_elem_of_In, (elem_of_list_to_set (C := gset Z)).
  - intros r g Hr. destruct (invoke_allowed (AddServer_ r) g Hr) as [Hr' (H1 & H2 & _ & _ & _ & H3)].
    split; [exact Hr'|]. split; [exact H1|]. split.
    + rewrite connected_spec by exact Hr'. apply elem_of_union, H3. by apply elem_of_singleton.
    + intros id. rewrite !connected_spec by done. apply H2.
  - intros g Hr. destruct (invoke_allowed Tick_ g Hr) as [Hr' (H1 & H2 & _)]. split; [exact Hr'|]. split; [exact H1|].
    intros id. rewrite !connected_spec by done. apply H2.
Defined.

(** *** Runs *)

Definition invoke_all (cs : list Call) (g : Managed HS) : Managed HS := foldl (fun g c => invoke c g) g cs.
Lemma invoke_all_allowed `{!WorldOk} cs : forall g, ready (mg_manager g) ->
  ready (mg_manager (invoke_all cs g)) /\ allowed_run cs (view g) (view (invoke_all cs g)).
Proof using HPok HSafe.
  induction cs as [|c cs IH]; intros g Hr; [done|]. destruct (invoke_allowed c g Hr) as [Hr1 Ha].
  destruct (IH _ Hr1) as [Hr2 Hrun]. split; [done|]. by exists (view (invoke c g)).
Qed.
End Contract.

(** ** Property *)

Section Property.
Context `{HP : Proto} `{HPok : !ProtoOk} {HS : Type} `{HH : Handshake HS} `{HSafe : !HandshakeSafe HS}.

(** C12 (refinement).  The relay manager implements the abstract manager:
    whatever calls the driver makes, and whichever servers answer in the
    meantime, the servers that are connected and those that wait change as the
    abstract calls allow - an update leaves exactly clients of listed servers,
    each listed one connected or waiting, a tick only connects what waited, and
    nothing is lost on the way - and no server is connected or waits that was
    not before and that no call named. *)
Theorem manager_implements_membership (world : World HS) (cs : list Call) (g : Managed HS) :
  WorldOk world -> ready (mg_manager g) ->
  let g' := invoke_all world cs g in
  ready (mg_manager g') /\ allowed_run cs (view g) (view g') /\
  (forall id, @Driver.rm_connected _ (managed_ops world) g' id <-> id ∈ connected (view g')) /\
  connected (view g') ∪ waiting (view g') ⊆ connected (view g) ∪ waiting (view g) ∪ ⋃ (map named cs).
Proof using HPok HSafe.
  intros HW Hr g'. destruct (invoke_all_allowed world cs g Hr) as [Hr' Hrun]. split_and!; [done..| |by apply run_named].
  intros id. by apply connected_spec.
Qed.
End Property.

(** ** Witness *)

Module ManagedWitness.
Import ManagerWitness.
#[local] Existing Instances Toy.proto Toy.proto_ok Toy.handshake Toy.handshake_safe.

(** Server 3 never answers. *)
Definition world : World unit := mkWorld (fun _ => envs) (fun _ X => elements X).
Lemma world_fine : WorldOk world.
Proof. split; [intros n; apply envs_calm|]. intros n X id Hid. apply list_elem_of_In. cbn. by apply elem_of_elements. Qed.
Definition fresh_manager : Managed unit := mkManaged m0 0.
Definition calls : list Call := [Update_ [server 2; server 3]; AddServer_ (server 4); Tick_; Update_ [server 2]].

(** Server 3 is no longer listed, and still waits. *)
Lemma manager_implements_membership_witness :
  let g := invoke_all world calls fresh_manager in
  allowed_run calls (view fresh_manager) (view g) /\
  elements (connected (view g)) = [2] /\ elements (waiting (view g)) = [3].
Proof.
  assert (ready (mg_manager fresh_manager)) as Hr by (split; [split; [exact m0_wf|intros id r; cbn; by rewrite lookup_empty]|by eexists]).
  destruct (manager_implements_membership world calls fresh_manager world_fine Hr) as (_ & H1 & _).
  split; [exact H1|]. by vm_compute.
Defined.
End ManagedWitness.
