(* ===== verification/Monitor.v ===== *)
(** The external address of a node: [node/monitor/].  The monitoring
    goroutine asks the primary relay server's STUN service; what the UDP
    socket yields is a sequence of read outcomes. *)
From stdpp Require Import pretty.
From S2P Require Import Prelude Wire Stun.
#[local] Set Warnings "-clear-no-such-hyp".

#[export] Instance byte_countable : Countable Byte.byte.
Proof. refine (inj_countable' byte.unsigned byte.of_Z _). intros b. apply byte.of_Z_unsigned. Defined.

Definition ErrNoSTUNServer : error := EMsg "no STUN server found".

(** [Monitor]; [mon_events] are the addresses of the
    [EventTypeExternalAddressChanged] events on the channel. *)
Record Monitor := mkMonitor {
  mon_stunServer : option RelayServer;
  mon_externalAddr : option string;
  mon_events : list string }.

Definition New (s : RelayServer) : Monitor := mkMonitor (Some s) None [].
Definition SetSTUNServer (s : RelayServer) (m : Monitor) : Monitor :=
  mkMonitor (Some s) (mon_externalAddr m) (mon_events m).
Definition ExternalAddress (m : Monitor) : string := default EmptyString (mon_externalAddr m).

(** ** Detection *)

(** [inflight]: the requests waiting for an answer, by transaction. *)
Abbreviation Inflight := (gmap TxID Z).

Definition older (a b : TxID * Z) : Prop := snd a <= snd b.
#[local] Instance older_dec a b : Decision (older a b).
Proof. unfold older. apply _. Defined.
(** [gcInflight]: with more than 20 requests, the records from the middle on,
    in increasing order of time, are deleted. *)
Definition gcInflight (inflight : Inflight) : Inflight :=
  if decide (20 < size inflight)%nat then
    let records := merge_sort older (map_to_list inflight) in
    foldl (fun m r => delete (fst r) m) inflight (drop (length records / 2) records)
  else inflight.

(** What one [ReadFromUDP] and the write that may follow it meet. *)
Inductive ReadOutcome :=
| ReadTimeout (cancelled : option error) (txID : TxID) (now : Z) (write : result unit)
| ReadError (e : error)
| ReadPacket (remote : string) (data : bytes).

Section Detect.
(** [net.IP.String] of an address that is not IPv4. *)
Context (ipv6_string : bytes -> string).

Definition IP_String (ip : bytes) : string :=
  match To4 ip with
  | Some [a; b; c; d] =>
    (pretty (byte.unsigned a) ++ "." ++ pretty (byte.unsigned b) ++ "." ++ pretty (byte.unsigned c) ++ "."
     ++ pretty (byte.unsigned d))%string
  | _ => ipv6_string ip
  end.
Definition host_port (host : string) (port : Z) : string := (host ++ ":" ++ pretty port)%string.

(** One iteration of the loop: the requests in flight afterwards, what was
    written, and the result when the function returns. *)
Definition detect_turn (address : string) (inflight : Inflight) (r : ReadOutcome)
  : Inflight * option bytes * option (result string) :=
  match r with
  | ReadTimeout (Some e) _ _ _ => (inflight, None, Some (Err e))
  | ReadTimeout None txID now write =>
    let inflight := <[txID := now]> (gcInflight inflight) in
    match write with
    | Ok _ => (inflight, Some (Request txID), None)
    | Err e => (inflight, None, Some (Err e))
    | Panic w => (inflight, None, Some (Panic w))
    end
  | ReadError e => (inflight, None, Some (Err e))
  | ReadPacket remote data =>
    if negb (String.eqb remote address) then (inflight, None, None)
    else
      match ParseResponse data with
      | Err _ => (inflight, None, None)
      | Panic w => (inflight, None, Some (Panic w))
      | Ok (txID, addr, port) =>
        match inflight !! txID with
        | None => (inflight, None, None)
        | Some _ => (inflight, None, Some (Ok (host_port (IP_String addr) port)))
        end
      end
  end.

(** The loop over what the socket yields; [None] while it still waits. *)
Fixpoint detect_loop (address : string) (inflight : Inflight) (rs : list ReadOutcome) : option (result string) :=
  match rs with
  | [] => None
  | r :: rs =>
    match detect_turn address inflight r with
    | (_, _, Some res) => Some res
    | (inflight, _, None) => detect_loop address inflight rs
    end
  end.

(** [DetectExternalAddress]; [dial] is the outcome of dialling the server. *)
Definition DetectExternalAddress (dial : string -> result unit) (persistent : bool) (rs : list ReadOutcome)
    (m : Monitor) : Monitor * option (result string) :=
  match mon_stunServer m with
  | None => (m, Some (Err ErrNoSTUNServer))
  | Some s =>
    let address := host_port (rs_Host s) (rs_STUNPort s) in
    match dial address with
    | Err e => (m, Some (Err e))
    | Panic w => (m, Some (Panic w))
    | Ok _ =>
      let res := detect_loop address ∅ rs in
      (match res with
       | Some (Ok a) => if persistent then mkMonitor (mon_stunServer m) (Some a) (mon_events m) else m
       | _ => m
       end, res)
    end
  end.

Definition defaultInterval : Z := 30 * Second.
Definition fastDetectInterval : Z := 2 * Second.

(** One turn of [Monitoring]: the next interval, or [None] while the
    detection waits. *)
Definition Monitoring_turn (dial : string -> result unit) (rs : list ReadOutcome) (m : Monitor) : Monitor * option Z :=
  match DetectExternalAddress dial false rs m with
  | (m, None) => (m, None)
  | (m, Some (Ok externalAddr)) =>
    (if decide (mon_externalAddr m = Some externalAddr) then m
     else mkMonitor (mon_stunServer m) (Some externalAddr) (mon_events m ++ [externalAddr]), Some defaultInterval)
  | (m, Some (Err e)) => (m, Some (if decide (e = ErrNoSTUNServer) then fastDetectInterval else defaultInterval))
  | (m, Some (Panic _)) => (m, None)
  end.

End Detect.

(** ** Lemmas *)

Lemma lookup_deletes (l : list (TxID * Z)) : forall (m : Inflight) k,
  foldl (fun m r => delete (fst r) m) m l !! k = if decide (k ∈ map fst l) then None else m !! k.
Proof.
  induction l as [|[t x] l IH]; intros m k; cbn; [by rewrite decide_False by set_solver|]. rewrite IH.
  destruct (decide (k = t)) as [->|Hne].
  - rewrite lookup_delete_eq. rewrite (decide_True (P := t ∈ t :: _)) by set_solver. by destruct (decide _).
  - rewrite lookup_delete_ne by done. destruct (decide (k ∈ map fst l)), (decide (k ∈ t :: map fst l)); set_solver.
Qed.

(** The transactions that survive the collection are those of the older
    half. *)
Lemma gc_keeps (inflight : Inflight) k :
  (20 < size inflight)%nat ->
  is_Some (gcInflight inflight !! k) <->
  k ∈ map fst (take (size inflight / 2) (merge_sort older (map_to_list inflight))).
Proof.
  intros Hs. unfold gcInflight. rewrite decide_True by done. set (rs := merge_sort older _). rewrite lookup_deletes.
  assert (rs ≡ₚ map_to_list inflight) as Hp by apply merge_sort_Permutation.
  assert (length rs = size inflight) as Hl by (by rewrite Hp, length_map_to_list). rewrite Hl.
  assert (NoDup (map fst rs)) as Hnd by (rewrite Hp; apply NoDup_fst_map_to_list).
  rewrite <- (take_drop (size inflight / 2) rs), map_app in Hnd. apply NoDup_app in Hnd as (_ & Hdisj & _).
  destruct (decide (k ∈ map fst (drop _ rs))) as [Hin|Hout].
  - split; [by intros []|]. intros Hk. by destruct (Hdisj k Hk).
  - assert (is_Some (inflight !! k) <-> k ∈ map fst rs) as ->.
    { rewrite Hp. unfold is_Some. split.
      - intros [x Hx]. apply list_elem_of_fmap. exists (k, x). split; [done|]. by apply elem_of_map_to_list.
      - intros ([k' x] & -> & Hx)%list_elem_of_fmap. exists x. by apply elem_of_map_to_list. }
    rewrite <- (take_drop (size inflight / 2) rs) at 1. rewrite map_app, elem_of_app. tauto.
Qed.

Lemma gc_bounded (inflight : Inflight) : (size inflight <= 21)%nat -> (size (gcInflight inflight) <= 20)%nat.
Proof.
  intros Hs. destruct (decide (20 < size inflight)%nat) as [Hgt|Hle]; [|unfold gcInflight; rewrite decide_False by lia; lia].
  set (l := map fst (take (size inflight / 2) (merge_sort older (map_to_list inflight)))).
  assert (size (gcInflight inflight) <= length l)%nat as Hl.
  { rewrite <- size_dom. unfold size, set_size. cbn. apply submseteq_length, NoDup_submseteq; [apply NoDup_elements|].
    intros k Hk%elem_of_elements%elem_of_dom. by apply gc_keeps. }
  unfold l in Hl. rewrite length_map, length_take in Hl. assert (size inflight = 21)%nat as Hsz by lia. rewrite Hsz in Hl.
  change (21 / 2)%nat with 10%nat in Hl. lia.
Qed.

Section Facts.
Context (ipv6_string : bytes -> string).

(** A datagram from another address, and an outcome after which the loop goes
    on asking. *)
Definition stray (address : string) (r : ReadOutcome) : Prop :=
  exists remote data, r = ReadPacket remote data /\ remote <> address.
Definition retry (r : ReadOutcome) : Prop := exists txID now, r = ReadTimeout None txID now (Ok tt).

Lemma stray_ignored address inflight rs rest :
  Forall (stray address) rs ->
  detect_loop ipv6_string address inflight (rs ++ rest) = detect_loop ipv6_string address inflight rest.
Proof using Type.
  induction 1 as [|r rs (remote & data & -> & Hne) _ IH]; [done|]. cbn. by destruct (String.eqb_spec remote address).
Qed.
Lemma retries_go_on address rs : Forall (fun r => stray address r \/ retry r) rs -> forall inflight rest,
  exists inflight', detect_loop ipv6_string address inflight (rs ++ rest) = detect_loop ipv6_string address inflight' rest.
Proof using Type.
  induction 1 as [|r rs Hr _ IH]; intros inflight rest; [by exists inflight|].
  destruct Hr as [(remote & data & -> & Hne)|(txID & now & ->)]; cbn.
  - destruct (String.eqb_spec remote address); [done|]. apply IH.
  - apply IH.
Qed.

Lemma request_is_answered (tx : TxID) (ip : bytes) (port : Z) :
  txid_wf tx -> (zlen ip = 4 \/ zlen ip = 16) -> 0 <= port < 2 ^ 16 ->
  exists w, serveProtocol (Request tx) ip port = Ok w /\ ParseResponse w = Ok (tx, default ip (To4 ip), port).
Proof using Type.
  intros Htx Hip Hp. destruct (stun_response_roundtrip tx ip port Htx Hip Hp) as (w & Hw & Hparse).
  exists w. split; [|done]. pose proof (stun_request_roundtrip tx Htx) as Hreq. unfold serveProtocol.
  assert (Is (Request tx) = true) as -> by (unfold ParseBindingRequest in Hreq; by destruct (Is (Request tx))).
  cbn [negb]. rewrite Hreq. res_simpl. unfold u16. rewrite Z.mod_small by done. by rewrite Hw.
Qed.

End Facts.

(** The collection keeps the requests sent first and forgets the ones that
    can still be answered: of 21 requests sent one after the other the last
    eleven are dropped. *)
Example newest_requests_forgotten :
  let send m n := <[[byte.of_Z n] := n]> m in
  let inflight : gmap TxID Z := foldl send ∅ (seqZ 1 21) in
  gcInflight inflight !! [byte.of_Z 21] = None /\ gcInflight inflight !! [byte.of_Z 1] = Some 1.
Proof. by vm_compute. Qed.

