(* ===== verification/Jwt.v ===== *)
(** Login tokens: [pkg/jwt/] and the store of [internal/ledis/ledis.go].  The
    token library and the key-value database are outside the repository: the
    classes [JwtLib] and [LedisDB] are what they do. *)
From Stdlib Require Import Ascii.
From S2P Require Import Prelude GoTime GoText Wire.
#[local] Set Warnings "-clear-no-such-hyp".

Definition ErrNotFound : error := EMsg "not found".
Definition ErrUnauthorized : error := EMsg "unauthorized".
Definition ErrTokenExpired : error := EMsg "token expired".
Definition ErrIllegalParameter : error := EMsg "illegal parameter".
Definition ErrInternalServerError : error := EMsg "internal server error".

(** ** Claims *)

(** A value of [stdjwt.MapClaims]; the numbers the program signs are
    integers. *)
Inductive claim := CString (s : string) | CNumber (n : Z) | CBool (b : bool).
#[export] Instance claim_eq_dec : EqDecision claim.
Proof. solve_decision. Defined.
Abbreviation Claims := (gmap string claim).

(** [ValidationErrorExpired] alone. *)
Definition ValidationErrorExpired : error := EExt "token is expired".

(** [SignedString] with HS256, and [Parse] at an instant: the key function is
    told whether the token's method is an HMAC. *)
Class JwtLib := {
  SignedString : string -> Claims -> result string;
  Parse : Z -> string -> (bool -> result string) -> result Claims }.

(** Numbers go through JSON as 64-bit floats. *)
Definition claims_exact (c : Claims) : Prop :=
  forall k n, c !! k = Some (CNumber n) -> Z.abs n <= 2 ^ 53.

Class JwtLibOk `{JwtLib} : Prop := {
  parse_signed : forall now secret claims tok exp keyfunc,
    SignedString secret claims = Ok tok -> claims_exact claims -> claims !! "exp"%string = Some (CNumber exp) ->
    keyfunc true = Ok secret ->
    Parse now tok keyfunc = if unix_of now <=? exp then Ok claims else Err ValidationErrorExpired;
  (** A signed token is one word. *)
  signed_unblank : forall secret claims tok, SignedString secret claims = Ok tok -> unblank tok = true }.

(** ** The store *)

(** [Store]: [Get] returns an [interface{}], here a string or nil. *)
Class Store (St : Type) := {
  store_Set : Z -> string -> string -> Z -> GoM St unit;
  store_Del : list string -> GoM St unit;
  store_Get : Z -> string -> GoM St (option string) }.

(** [memoryStore]: [Get] always returns nil. *)
Module MemoryStore.
Definition Set_ (now : Z) (key value : string) (expiration : Z) : GoM (gmap string string) unit :=
  gmodify (insert key value).
Definition Del (keys : list string) : GoM (gmap string string) unit :=
  gmodify (fun m => foldl (fun m k => delete k m) m keys).
Definition Get (now : Z) (key : string) : GoM (gmap string string) (option string) := mret None.
#[export] Instance store : Store (gmap string string) :=
  {| store_Set := Set_; store_Del := Del; store_Get := Get |}.
End MemoryStore.

(** The database of [ledisStore]; [Get] of a key that is not there is a nil
    slice and no error. *)
Class LedisDB := {
  ldb : Type;
  SetEX : Z -> string -> Z -> string -> ldb -> result ldb;
  LDel : list string -> ldb -> result ldb;
  LGet : Z -> string -> ldb -> result (option string) }.

(** [view] is what a database holds: each value and when it expires. *)
Class LedisOk `{LedisDB} := {
  view : ldb -> gmap string (string * Z);
  setex_view : forall now k n v d d', SetEX now k n v d = Ok d' -> view d' = <[k := (v, now + n * Second)]> (view d);
  del_view : forall ks d d', LDel ks d = Ok d' -> view d' = foldl (fun m k => delete k m) (view d) ks;
  get_view : forall now k d o, LGet now k d = Ok o ->
    o = ('(v, e) ← view d !! k; if now <? e then Some v else None) }.

Module LedisStore.
Section Ops.
Context `{LedisDB}.
(** The expiration in seconds, without the fraction. *)
Definition Set_ (now : Z) (key value : string) (expiration : Z) : GoM ldb unit := fun d =>
  match SetEX now key (go_div expiration Second) value d with
  | Ok d' => (d', Ok tt)
  | Err e => (d, Err e)
  | Panic w => (d, Panic w)
  end.
Definition Del (keys : list string) : GoM ldb unit := fun d =>
  match LDel keys d with Ok d' => (d', Ok tt) | Err e => (d, Err e) | Panic w => (d, Panic w) end.
Definition Get (now : Z) (key : string) : GoM ldb (option string) := fun d =>
  match LGet now key d with
  | Ok o => (d, Ok (Some (default EmptyString o)))
  | Err e => (d, Err e)
  | Panic w => (d, Panic w)
  end.
#[export] Instance store : Store ldb := {| store_Set := Set_; store_Del := Del; store_Get := Get |}.
End Ops.
End LedisStore.

(** ** Options ([option.go]) *)

Record options := mkOptions {
  accessTokenTTL : Z; refreshTokenTTL : Z; accessSecret : string; refreshSecret : string }.
Definition newOptions (opts : list (options -> options)) : options :=
  foldl (fun o f => f o) (mkOptions (1500 * Minute) (24 * Hour * 7) "" "") opts.
Definition AccessTokenTTL (seconds : Z) (o : options) : options :=
  if seconds =? 0 then o
  else mkOptions (i64 (seconds * Second)) (refreshTokenTTL o) (accessSecret o) (refreshSecret o).
Definition RefreshTokenTTL (seconds : Z) (o : options) : options :=
  if seconds =? 0 then o
  else mkOptions (accessTokenTTL o) (i64 (seconds * Second)) (accessSecret o) (refreshSecret o).
Definition Initialize (access refresh : string) (opts : list (options -> options)) : result options :=
  if String.eqb access "" then Err ErrIllegalParameter
  else
    let o := newOptions opts in
    Ok (mkOptions (accessTokenTTL o) (refreshTokenTTL o) access refresh).

(** ** Tokens *)

Record AccessDetails := mkAccessDetails {
  ad_UserID : Z; ad_AccessUUID : string; ad_MachineID : string; ad_AuthKeyID : Z }.
Record TokenDetails := mkTokenDetails {
  td_AccessToken : string; td_RefreshToken : string; td_AccessUUID : string; td_RefreshUUID : string;
  td_AccessExpiry : Z; td_RefreshExpiry : Z }.

(** [2100-01-01 00:00:00 UTC]. *)
Definition noExpiryTimestamp : Z := 4102444800.

(** [fmt.Sprintf("%.f", v)]: a value that is no number shows its type. *)
Definition sprintf_f (v : option claim) : string :=
  match v with
  | None => "%!f(<nil>)"
  | Some (CString s) => "%!f(string=" ++ s ++ ")"
  | Some (CNumber n) => pretty n
  | Some (CBool b) => "%!f(bool=" ++ (if b then "true" else "false") ++ ")"
  end%string.

(** [ExtractToken] of [token.go]; [extractToken] of the portal's plugins
    differs in the error. *)
Definition ExtractToken_ (e : error) (raw : string) : result (string * string) :=
  match split_on space raw with
  | [a; b] => Ok (TrimSpace a, TrimSpace b)
  | _ => Err e
  end.
Definition ExtractToken (raw : string) : result (string * string) := ExtractToken_ ErrNotFound raw.

Section Jwt.
Context `{HJ : JwtLib}.

(** The key functions of [VerifyToken] and [RefreshToken]. *)
Definition hmac_key (secret : string) (hmac : bool) : result string :=
  if hmac then Ok secret else Err (EMsg "unexpected signing method").

Definition refreshUUID (accessUUID : string) (userID : Z) : string := (accessUUID ++ "." ++ pretty userID)%string.

(** [CreateToken]; [uuid] is the identifier drawn.  The key of the last
    assignment goes into the claims of the access token, already signed. *)
Definition CreateToken (s : options) (now : Z) (uuid : string) (userID : Z) (machineID : string) (vendor authKeyID : Z)
    (noExpiry : bool) : result TokenDetails :=
  let AccessExpiry := if noExpiry then noExpiryTimestamp else unix_of (now + accessTokenTTL s) in
  let RefreshExpiry := if noExpiry then noExpiryTimestamp else unix_of (now + refreshTokenTTL s) in
  let RefreshUUID := refreshUUID uuid userID in
  let userIDStr := pretty userID in
  let accessClaims : Claims := <["authorized" := CBool true]> (<["access_uuid" := CString uuid]>
    (<["user_id" := CString userIDStr]> (<["machine_id" := CString machineID]> (<["vendor" := CNumber vendor]>
    (<["exp" := CNumber AccessExpiry]> (<["auth_key_id" := CNumber authKeyID]> ∅)))))) in
  AccessToken ← SignedString (accessSecret s) accessClaims;
  let refreshClaims : Claims := <["refresh_uuid" := CString RefreshUUID]> (<["user_id" := CString userIDStr]>
    (<["exp" := CNumber RefreshExpiry]> (<["machine_id" := CString machineID]> (<["vendor" := CNumber vendor]> ∅)))) in
  RefreshToken ← SignedString (refreshSecret s) refreshClaims;
  Ok (mkTokenDetails AccessToken RefreshToken uuid RefreshUUID AccessExpiry RefreshExpiry).

Definition isTokenExpiredError (e : error) : bool := bool_decide (e = ValidationErrorExpired).
Definition VerifyToken (now : Z) (token secret : string) : result Claims :=
  match Parse now token (hmac_key secret) with
  | Ok c => Ok c
  | Err e => if isTokenExpiredError e then Err ErrTokenExpired else Err ErrUnauthorized
  | Panic w => Panic w
  end.

(** A type assertion without its second result. *)
Definition as_string (v : option claim) : result string :=
  match v with Some (CString s) => Ok s | _ => Panic "interface conversion: interface {} is not string" end.
Definition as_float64 (v : option claim) : result Z :=
  match v with Some (CNumber n) => Ok n | _ => Panic "interface conversion: interface {} is not float64" end.

(** [ExtractTokenMetadata] of a request whose Authorization header is
    [authorization].  [None] is the nil that comes with a nil error when a
    claim is missing. *)
Definition ExtractTokenMetadata (s : options) (now : Z) (authorization : string) : result (option AccessDetails) :=
  match ExtractToken authorization with
  | Err _ => Err ErrUnauthorized
  | Panic w => Panic w
  | Ok (_, tokenStr) =>
    claims ← VerifyToken now tokenStr (accessSecret s);
    match claims !! "access_uuid"%string with
    | Some (CString accessUUID) =>
      id ← as_string (claims !! "user_id"%string);
      match parse_uint id with
      | (_, Some e) => Err e
      | (userID, None) =>
        match claims !! "machine_id"%string with
        | Some (CString machineID) =>
          match claims !! "auth_key_id"%string with
          | None => Ok (Some (mkAccessDetails userID accessUUID machineID 0))
          | v => key ← as_float64 v; Ok (Some (mkAccessDetails userID accessUUID machineID key))
          end
        | _ => Ok None
        end
      end
    | _ => Ok None
    end
  end.

Section WithStore.
Context {St : Type} `{HSt : Store St}.

Definition DeleteAuth (givenUUID : string) : GoM St unit := store_Del [givenUUID].

(** The second [Set], with the deferred deletion when it fails. *)
Definition store_refresh (now : Z) (userID : string) (tok : TokenDetails) : GoM St unit := fun st =>
  match store_Set now (td_RefreshUUID tok) userID (time_sub (td_RefreshExpiry tok * Second) now) st with
  | (st', Err e) =>
    match store_Del [td_AccessUUID tok] st' with
    | (st'', Panic w) => (st'', Panic w)
    | (st'', _) => (st'', Err e)
    end
  | r => r
  end.
Definition CreateAuth (now uid : Z) (tok : TokenDetails) : GoM St unit :=
  let userID := pretty (i64 uid) in
  _ ← store_Set now (td_AccessUUID tok) userID (time_sub (td_AccessExpiry tok * Second) now);
  store_refresh now userID tok.

Definition DeleteTokens (metadata : AccessDetails) : GoM St unit :=
  _ ← store_Del [ad_AccessUUID metadata];
  store_Del [refreshUUID (ad_AccessUUID metadata) (ad_UserID metadata)].
Definition Logout (metadata : AccessDetails) : GoM St unit := DeleteTokens metadata.

(** The error of [ParseUint] is dropped, its value is not. *)
Definition FetchAuth (now : Z) (auth : AccessDetails) : GoM St Z :=
  uid ← store_Get now (ad_AccessUUID auth);
  match uid with
  | None => gpanic "interface conversion: interface {} is nil, not string"
  | Some uid => mret (fst (parse_uint uid))
  end.

Definition CreateTokenPair (s : options) (now : Z) (uuid : string) (userID : Z) (machineID : string)
    (vendor authKeyID : Z) (noExpiry : bool) : GoM St (string * string) :=
  ts ← glift (CreateToken s now uuid userID machineID vendor authKeyID noExpiry);
  _ ← CreateAuth now userID ts;
  mret (td_AccessToken ts, td_RefreshToken ts).

(** [RefreshToken]; JSON numbers are [float64], so the assertion to
    [float32] cannot succeed. *)
Definition or_error {A} (e : error) (m : GoM St A) : GoM St A := fun st =>
  match m st with (st', Err _) => (st', Err e) | r => r end.
Definition RefreshToken (s : options) (now : Z) (uuid refreshToken : string) : GoM St (string * string) :=
  claims ← or_error ErrUnauthorized (glift (Parse now refreshToken (hmac_key (refreshSecret s))));
  match claims !! "refresh_uuid"%string with
  | Some (CString refreshUUID) =>
    match parse_uint (sprintf_f (claims !! "user_id"%string)) with
    | (_, Some _) => gthrow ErrUnauthorized
    | (userID, None) =>
      _ ← or_error ErrUnauthorized (DeleteAuth refreshUUID);
      vendor ← glift (Panic "interface conversion: interface {} is float64, not float32");
      machineID ← glift (as_string (claims !! "machine_id"%string));
      tok ← or_error ErrInternalServerError (glift (CreateToken s now uuid userID machineID vendor 0 false));
      _ ← or_error ErrInternalServerError (CreateAuth now userID tok);
      mret (td_AccessToken tok, td_RefreshToken tok)
    end
  | _ => gthrow ErrUnauthorized
  end.
End WithStore.
End Jwt.

(** ** Lemmas *)

Section Facts.
Context `{HJ : JwtLib} `{HJk : !JwtLibOk} `{HL : LedisDB} `{HLk : !LedisOk}.
#[local] Existing Instance LedisStore.store.

Lemma ExtractToken_two e a b :
  unblank a = true -> unblank b = true -> ExtractToken_ e (a ++ String space b)%string = Ok (a, b).
Proof.
  intros Ha Hb. unfold ExtractToken_. rewrite split_on_two by (by apply unblank_free).
  by rewrite !TrimSpace_unblank.
Qed.

(** The claims of an issued access token come back until it expires. *)
Lemma access_token_verifies s now uuid u m v k ne t tok :
  CreateToken s now uuid u m v k ne = Ok tok ->
  Z.abs v <= 2 ^ 53 -> Z.abs k <= 2 ^ 53 -> Z.abs (td_AccessExpiry tok) <= 2 ^ 53 ->
  unblank (td_AccessToken tok) = true /\
  exists claims : Claims, VerifyToken t (td_AccessToken tok) (accessSecret s) =
      (if unix_of t <=? td_AccessExpiry tok then Ok claims else Err ErrTokenExpired) /\
    claims !! "access_uuid"%string = Some (CString uuid) /\ claims !! "user_id"%string = Some (CString (pretty u)) /\
    claims !! "machine_id"%string = Some (CString m) /\ claims !! "auth_key_id"%string = Some (CNumber k) /\
    td_AccessUUID tok = uuid /\ td_RefreshUUID tok = refreshUUID uuid u.
Proof.
  unfold CreateToken. set (e := if ne then _ else unix_of (now + accessTokenTTL s)).
  set (claims := <["authorized" := CBool true]> _). cbv [mbind result_bind].
  destruct (SignedString (accessSecret s) claims) as [a| |] eqn:Ha; [|done..].
  destruct (SignedString (refreshSecret s) _) as [r| |]; [|done..]. intros [= <-] Hv Hk He. cbn in *.
  split; [by eapply signed_unblank|]. exists claims. split_and!; [|by unfold claims; simplify_map_eq..|done|done].
  unfold VerifyToken. rewrite (parse_signed _ (accessSecret s) claims a e); [|done| |by unfold claims; simplify_map_eq|done].
  - destruct (_ <=? _); [done|]. unfold isTokenExpiredError. by rewrite bool_decide_eq_true_2.
  - intros key n. unfold claims. rewrite !lookup_insert_Some. intros Hl.
      repeat (destruct Hl as [[_ Hl]|[_ Hl]]; [by simplify_eq|]). by rewrite lookup_empty in Hl.
Qed.

Lemma issued_token_extracts s now uuid u m v k ne t tok prefix :
  CreateToken s now uuid u m v k ne = Ok tok -> unblank prefix = true -> 0 <= u < 2 ^ 64 ->
  Z.abs v <= 2 ^ 53 -> Z.abs k <= 2 ^ 53 -> Z.abs (td_AccessExpiry tok) <= 2 ^ 53 ->
  ExtractTokenMetadata s t (prefix ++ String space (td_AccessToken tok))%string =
    if unix_of t <=? td_AccessExpiry tok then Ok (Some (mkAccessDetails u uuid m k)) else Err ErrTokenExpired.
Proof.
  intros Hc Hp Hu Hv Hk He. destruct (access_token_verifies s now uuid u m v k ne t tok Hc Hv Hk He)
    as (Hb & claims & Hver & H1 & H2 & H3 & H4 & _).
  unfold ExtractTokenMetadata, ExtractToken. rewrite ExtractToken_two by done. rewrite Hver.
  destruct (unix_of t <=? td_AccessExpiry tok); [|done]. cbv [mbind result_bind].
  rewrite H1, H2, H3, H4. cbn. by rewrite parse_uint_pretty.
Qed.

(** *** The store *)

Lemma Set_ok now k v d d' e :
  LedisStore.Set_ now k v e d = (d', Ok tt) -> view d' = <[k := (v, now + go_div e Second * Second)]> (view d).
Proof. unfold LedisStore.Set_. destruct (SetEX _ _ _ _ _) eqn:Hs; [|done..]. intros [= <-]. by eapply setex_view. Qed.
Lemma Del_ok ks d d' : LedisStore.Del ks d = (d', Ok tt) -> view d' = foldl (fun m k => delete k m) (view d) ks.
Proof. unfold LedisStore.Del. destruct (LDel _ _) eqn:Hs; [|done..]. intros [= <-]. by eapply del_view. Qed.
Lemma Get_ok now k d d' o : LedisStore.Get now k d = (d', Ok o) ->
  d' = d /\ o = Some (default EmptyString ('(v, e) ← view d !! k; if now <? e then Some v else None)).
Proof.
  unfold LedisStore.Get. destruct (LGet now k d) as [x| |] eqn:Hg; [|done..]. intros [= <- <-]. split; [done|].
  apply get_view in Hg as ->. done.
Qed.

Lemma refreshUUID_ne uuid u : refreshUUID uuid u <> uuid.
Proof.
  intros H%(f_equal String.length). unfold refreshUUID in H. rewrite !String.app_length in H. cbn in H. lia.
Qed.

(** What [CreateAuth] leaves in the store. *)
Lemma CreateAuth_ok now u tok d d' :
  CreateAuth now u tok d = (d', Ok tt) ->
  let entry e := (pretty (i64 u), now + go_div (time_sub (e * Second) now) Second * Second) in
  view d' = <[td_RefreshUUID tok := entry (td_RefreshExpiry tok)]> (<[td_AccessUUID tok := entry (td_AccessExpiry tok)]> (view d)).
Proof.
  unfold CreateAuth, store_refresh. cbv [mbind gom_bind]. cbn [store_Set store_Del LedisStore.store].
  destruct (LedisStore.Set_ now (td_AccessUUID tok) _ _ d) as [d1 [[]|e|w]] eqn:H1; [|done..].
  destruct (LedisStore.Set_ now (td_RefreshUUID tok) _ _ d1) as [d2 [[]|e|w]] eqn:H2; [| |done].
  - intros [= <-]. apply Set_ok in H1, H2. by rewrite H2, H1.
  - destruct (LedisStore.Del _ d2) as [d3 [|e'|w]]; done.
Qed.
End Facts.

(** ** Properties *)

Section Refresh.
Context `{HJ : JwtLib} {St : Type} `{HSt : Store St}.

End Refresh.

(** [memoryStore] never finds anything, so every request with a token
    panics. *)
Example memory_store_panics :
  is_panic (gresult (FetchAuth (HSt := MemoryStore.store) 0 (mkAccessDetails 1 "uuid" "machine" 0)) {["uuid"%string := "1"%string]}) = true.
Proof. by vm_compute. Qed.

(** ** Instances *)

Module ToyJwt.
#[local] Instance claim_countable : Countable claim.
Proof.
  apply (inj_countable'
    (fun c => match c with CString s => inl s | CNumber n => inr (inl n) | CBool b => inr (inr b) end)
    (fun x => match x with inl s => CString s | inr (inl n) => CNumber n | inr (inr b) => CBool b end)).
  by intros [].
Defined.

(** A token is the secret and the claims as a text of bits. *)
Fixpoint bits (p : positive) : string :=
  match p with xH => "." | xO p => String "0"%char (bits p) | xI p => String "1"%char (bits p) end.
Fixpoint unbits (s : string) : option positive :=
  match s with
  | EmptyString => None
  | String c s' =>
    if Ascii.eqb c "."%char then Some xH
    else p ← unbits s'; Some (if Ascii.eqb c "0"%char then xO p else xI p)
  end.
Lemma unbits_bits p : unbits (bits p) = Some p.
Proof. induction p as [p IH|p IH|]; cbn; by rewrite ?IH. Qed.
Lemma unblank_bits p : unblank (bits p) = true.
Proof. by induction p as [p IH|p IH|]; cbn; rewrite ?IH. Qed.

Definition parse (now : Z) (tok : string) (keyfunc : bool -> result string) : result (gmap string claim) :=
  match unbits tok ≫= decode (A := string * gmap string claim) with
  | None => Err (EExt "malformed token")
  | Some (secret, c) =>
    key ← keyfunc true;
    if negb (String.eqb key secret) then Err (EExt "signature is invalid")
    else match c !! "exp"%string with
         | Some (CNumber e) => if unix_of now <=? e then Ok c else Err ValidationErrorExpired
         | _ => Ok c
         end
  end.
#[export] Instance jwtlib : JwtLib :=
  {| SignedString secret c := Ok (bits (encode (secret, c))); Parse := parse |}.
#[export] Instance jwtlib_ok : JwtLibOk.
Proof.
  split.
  - intros now secret c tok e kf [= <-] _ He Hk. cbn. unfold parse. rewrite unbits_bits. cbn [mbind option_bind].
    rewrite decode_encode, Hk. cbv [mbind result_bind]. by rewrite String.eqb_refl, He.
  - intros secret c tok [= <-]. apply unblank_bits.
Qed.

(** Keys with their values and expirations. *)
#[export] Instance ledis : LedisDB := {|
  ldb := gmap string (string * Z);
  SetEX now k n v d := Ok (<[k := (v, now + n * Second)]> d);
  LDel ks d := Ok (foldl (fun m k => delete k m) d ks);
  LGet now k d := Ok ('(v, e) ← d !! k; if now <? e then Some v else None) |}.
#[export] Instance ledis_ok : LedisOk.
Proof. refine {| view := fun d : ldb => d |}; cbn; by intros; simplify_eq. Defined.
End ToyJwt.
