(* ===== verification/PortalDb.v ===== *)
(** The portal's data: the tables of [portal/db/models/models.go], the
    transactions of [portal/db/interface.go] and the queries of
    [portal/db/models/].  The database itself is outside the repository: the
    class [Gorm] holds the statements the query sets issue, [GormOk] what they
    do when they succeed. *)
From S2P Require Import Prelude Wire.
#[local] Set Warnings "-clear-no-such-hyp".

(** [models.ID]. *)
Abbreviation ID := Z (only parsing).

(** ** Rows *)

(** [RoleType] and [KeyType] are strings. *)
Definition RoleTypeOwner : string := "owner".
Definition RoleTypeAdmin : string := "admin".
Definition RoleTypeMember : string := "member".
Definition KeyTypeOneOff : string := "one-off".
Definition KeyTypeReusable : string := "reusable".
Definition KeyTypeEphemeral : string := "ephemeral".
Definition MaxOwnDevice : Z := 10.
Definition AssumeOnlineDuration : Z := 120 * Second.

Module Row.
Record User := mkUser { u_ID : ID; u_CreatedAt : Z; u_Email : string; u_Avatar : string; u_Name : string; u_Origin : string }.
Record Device := mkDevice {
  d_ID : ID; d_CreatedAt : Z; d_UserID : ID; d_RelayServerID : ID; d_Name : string; d_OS : string;
  d_Version : string; d_MachineID : string; d_LastSeen : Z; d_Address : string }.
Record Network := mkNetwork {
  n_ID : ID; n_CreatedAt : Z; n_CreatedByID : ID; n_Name : string; n_Description : string }.
Record NetworkUser := mkNetworkUser {
  nu_ID : ID; nu_CreatedAt : Z; nu_UserID : ID; nu_NetworkID : ID; nu_Role : string }.
Record Invitation := mkInvitation {
  i_ID : ID; i_NetworkID : ID; i_InvitedByID : ID; i_UserID : ID; i_Role : string }.
Record RelayServer := mkRelayServer {
  r_ID : ID; r_Name : string; r_Region : string; r_Host : string; r_Port : Z; r_STUNPort : Z;
  r_PublicKey : string; r_StartedAt : Z; r_KeepaliveAt : Z }.
Record AuthKey := mkAuthKey {
  k_ID : ID; k_CreatedAt : Z; k_DeletedAt : option Z; k_UserID : ID; k_Type : string; k_Key : string;
  k_MachineID : string; k_ExpiredAt : Z; k_Enabled : bool }.
Record GithubUser := mkGithubUser {
  g_ID : ID; g_UserID : ID; g_GithubID : ID; g_Login : string; g_AvatarURL : string; g_Location : string }.
End Row.
Export Row.

(** ** The statements *)

(** gorm's [ErrRecordNotFound]. *)
Definition ErrRecordNotFound : error := EExt "record not found".

(** [Find], [First], [Count], [Create] with an automatic identifier, [Delete]
    and [Updates], each with its [Where] conditions, on one table. *)
Class Gorm := {
  sql_find : forall {Row : Type}, (Row -> bool) -> list Row -> result (list Row);
  sql_first : forall {Row : Type}, (Row -> bool) -> list Row -> result Row;
  sql_count : forall {Row : Type}, (Row -> bool) -> list Row -> result Z;
  sql_create : forall {Row : Type}, (Row -> ID) -> (ID -> Row) -> list Row -> result (ID * list Row);
  sql_delete : forall {Row : Type}, (Row -> bool) -> list Row -> result (list Row);
  sql_update : forall {Row : Type}, (Row -> bool) -> (Row -> Row) -> list Row -> result (list Row);
  (** Whether [tx.Error] holds the error of a preceding [tx.Create(...)]. *)
  tx_error_kept : bool;
  (** Whether [First] into a record that holds a primary key also asks for
      that key. *)
  first_keyed : bool }.

(** Without ORDER BY the order of the rows is unspecified; a new identifier
    is positive and not in use; a count has a row, so it never reports that
    there is none. *)
Class GormOk `{Gorm} : Prop := {
  find_ok : forall Row p (l l' : list Row), sql_find p l = Ok l' -> l' ≡ₚ filter (fun r => p r = true) l;
  first_ok : forall Row p (l : list Row) r, sql_first p l = Ok r -> r ∈ l /\ p r = true;
  first_none : forall Row p (l : list Row), sql_first p l = Err ErrRecordNotFound -> forall r, r ∈ l -> p r = false;
  count_ok : forall Row p (l : list Row) n, sql_count p l = Ok n -> n = zlen (filter (fun r => p r = true) l);
  count_found : forall Row p (l : list Row), sql_count p l <> Err ErrRecordNotFound;
  create_ok : forall Row key mk (l l' : list Row) i, (forall i, key (mk i) = i) ->
    sql_create key mk l = Ok (i, l') -> 0 < i /\ l' ≡ₚ mk i :: l /\ forall r, r ∈ l -> key r <> i;
  delete_ok : forall Row p (l l' : list Row), sql_delete p l = Ok l' -> l' ≡ₚ filter (fun r => p r = false) l;
  update_ok : forall Row p f (l l' : list Row), sql_update p f l = Ok l' ->
    l' ≡ₚ map (fun r => if p r then f r else r) l }.

(** ** The database *)

Record Database := mkDatabase {
  db_users : list User; db_devices : list Device; db_networks : list Network;
  db_networkUsers : list NetworkUser; db_invitations : list Invitation;
  db_relayServers : list RelayServer; db_authKeys : list AuthKey; db_githubUsers : list GithubUser }.

(** A table: its rows, their replacement, and the primary key. *)
Record Table (Row : Type) := mkTable {
  rows : Database -> list Row;
  set_rows : list Row -> Database -> Database;
  row_id : Row -> ID }.
Arguments mkTable {Row}. Arguments rows {Row}. Arguments set_rows {Row}. Arguments row_id {Row}.

Definition users : Table User := mkTable db_users
  (fun l d => mkDatabase l (db_devices d) (db_networks d) (db_networkUsers d) (db_invitations d) (db_relayServers d) (db_authKeys d) (db_githubUsers d)) u_ID.
Definition devices : Table Device := mkTable db_devices
  (fun l d => mkDatabase (db_users d) l (db_networks d) (db_networkUsers d) (db_invitations d) (db_relayServers d) (db_authKeys d) (db_githubUsers d)) d_ID.
Definition networks : Table Network := mkTable db_networks
  (fun l d => mkDatabase (db_users d) (db_devices d) l (db_networkUsers d) (db_invitations d) (db_relayServers d) (db_authKeys d) (db_githubUsers d)) n_ID.
Definition networkUsers : Table NetworkUser := mkTable db_networkUsers
  (fun l d => mkDatabase (db_users d) (db_devices d) (db_networks d) l (db_invitations d) (db_relayServers d) (db_authKeys d) (db_githubUsers d)) nu_ID.
Definition invitations : Table Invitation := mkTable db_invitations
  (fun l d => mkDatabase (db_users d) (db_devices d) (db_networks d) (db_networkUsers d) l (db_relayServers d) (db_authKeys d) (db_githubUsers d)) i_ID.
Definition relayServers : Table RelayServer := mkTable db_relayServers
  (fun l d => mkDatabase (db_users d) (db_devices d) (db_networks d) (db_networkUsers d) (db_invitations d) l (db_authKeys d) (db_githubUsers d)) r_ID.
Definition authKeys : Table AuthKey := mkTable db_authKeys
  (fun l d => mkDatabase (db_users d) (db_devices d) (db_networks d) (db_networkUsers d) (db_invitations d) (db_relayServers d) l (db_githubUsers d)) k_ID.
Definition githubUsers : Table GithubUser := mkTable db_githubUsers
  (fun l d => mkDatabase (db_users d) (db_devices d) (db_networks d) (db_networkUsers d) (db_invitations d) (db_relayServers d) (db_authKeys d) l) g_ID.

Section Queries.
Context `{HG : Gorm}.

Abbreviation Q := (GoM Database).

(** The query sets' [All], [One], [Count], [Delete] and [GetUpdater()...Update],
    and gorm's [Create]. *)
Definition All {Row} (t : Table Row) (p : Row -> bool) : Q (list Row) :=
  d ← gget; glift (sql_find p (rows t d)).
Definition One {Row} (t : Table Row) (p : Row -> bool) : Q Row :=
  d ← gget; glift (sql_first p (rows t d)).
Definition Count {Row} (t : Table Row) (p : Row -> bool) : Q Z :=
  d ← gget; glift (sql_count p (rows t d)).
Definition Create {Row} (t : Table Row) (mk : ID -> Row) : Q ID :=
  d ← gget;
  '(i, l) ← glift (sql_create (row_id t) mk (rows t d));
  _ ← gmodify (set_rows t l); mret i.
Definition Delete {Row} (t : Table Row) (p : Row -> bool) : Q unit :=
  d ← gget; l ← glift (sql_delete p (rows t d)); gmodify (set_rows t l).
Definition Update {Row} (t : Table Row) (p : Row -> bool) (f : Row -> Row) : Q unit :=
  d ← gget; l ← glift (sql_update p f (rows t d)); gmodify (set_rows t l).

(** [tx.Create(bean); if tx.Error != nil { return tx.Error }]: the identifier
    stays zero when an insertion fails unseen. *)
Definition CreateSeen {Row} (t : Table Row) (mk : ID -> Row) : Q ID := fun d =>
  match Create t mk d with
  | (d', Err e) => if tx_error_kept then (d', Err e) else (d', Ok 0)
  | r => r
  end.

(** [db.Tx]: an error, or a panic, rolls the transaction back. *)
Definition Tx {A} (fc : Q A) : Q A := fun d =>
  match fc d with
  | (d', Ok a) => (d', Ok a)
  | (_, r) => (d, r)
  end.

(** [db.Create], a transaction of its own. *)
Definition db_Create {Row} (t : Table Row) (mk : ID -> Row) : Q ID := Tx (CreateSeen t mk).

(** The result of a query as a value, for code that inspects the error. *)
Definition Try {A} (q : Q A) : Q (result A) := fun d =>
  match q d with
  | (d', Ok a) => (d', Ok (Ok a))
  | (d', Err e) => (d', Ok (Err e))
  | (d', Panic w) => (d', Panic w)
  end.

(** *** [models/network.go] *)

(** [tx.Raw(...).Scan(&x)] followed by a look at [tx.Error]: when the error is
    not kept there, [x] stays at its zero value. *)
Definition Scan {A} (zero : A) (q : Q A) : Q A := fun d =>
  match q d with
  | (d', Err e) => if tx_error_kept then (d', Err e) else (d', Ok zero)
  | r => r
  end.

(** The nested SELECTs of [PeerDevices]: the networks of the user, the users
    of those networks, their devices. *)
Definition PeerDevices (userID : ID) : Q (list Device) := Scan [] (
  mine ← All networkUsers (fun nu => nu_UserID nu =? userID);
  let networkIDs := map nu_NetworkID mine in
  members ← All networkUsers (fun nu => bool_decide (nu_NetworkID nu ∈ networkIDs));
  let userIDs := map nu_UserID members in
  All devices (fun d => bool_decide (d_UserID d ∈ userIDs))).

Definition NetworkStats (networkID : ID) : Q (Z * Z) :=
  userCount ← Count networkUsers (fun nu => nu_NetworkID nu =? networkID);
  deviceCount ← Scan 0 (
    members ← All networkUsers (fun nu => nu_NetworkID nu =? networkID);
    let userIDs := map nu_UserID members in
    Count devices (fun d => bool_decide (d_UserID d ∈ userIDs)));
  mret (userCount, deviceCount).

(** *** [models/ip_allocator.go] *)

(** [First] into a record already read. *)
Definition One_into {Row} (t : Table Row) (dest : option Row) (p : Row -> bool) : Q Row :=
  One t (fun r => p r && match dest with Some r0 => negb first_keyed || (row_id t r =? row_id t r0) | None => true end).

(** [NextIP] tries random addresses, at most [maxRetry] of them; [candidates]
    are the texts drawn, [device] the record the loop reads into. *)
Definition maxRetry : nat := 200.
Fixpoint next_ip (device : option Device) (candidates : list string) : Q string :=
  match candidates with
  | [] => gthrow (EMsg "found IP reach max retry count")
  | ip :: rest =>
    r ← Try (One_into devices device (fun d => String.eqb (d_Address d) ip));
    match r with
    | Ok found => next_ip (Some found) rest
    | Err e => if decide (e = ErrRecordNotFound) then mret ip else next_ip device rest
    | Panic w => gpanic w
    end
  end.
Definition NextIP (candidates : list string) : Q string := next_ip None (take maxRetry candidates).
End Queries.

(** ** Lemmas *)

Section Facts.
Context `{HG : Gorm} `{HOk : !GormOk}.

(** Queries leave the database alone. *)
Lemma All_state {Row} (t : Table Row) p d : fst (All t p d) = d.
Proof using Type. done. Qed.
Lemma One_state {Row} (t : Table Row) p d : fst (One t p d) = d.
Proof using Type. done. Qed.
Lemma Count_state {Row} (t : Table Row) p d : fst (Count t p d) = d.
Proof using Type. done. Qed.

Lemma Tx_ok {A} (fc : GoM Database A) d d' a : Tx fc d = (d', Ok a) -> fc d = (d', Ok a).
Proof using Type. unfold Tx. destruct (fc d) as [d1 [| |]]; congruence. Qed.
Lemma Tx_err {A} (fc : GoM Database A) d d' e : Tx fc d = (d', Err e) -> d' = d.
Proof using Type. unfold Tx. destruct (fc d) as [d1 [| |]]; congruence. Qed.

Lemma Tx_panic {A} (fc : GoM Database A) d d' w : Tx fc d = (d', Panic w) -> d' = d.
Proof using Type. unfold Tx. destruct (fc d) as [d1 [| |]]; congruence. Qed.

Lemma One_into_state {Row} (t : Table Row) dest p d d' r : One_into t dest p d = (d', r) -> d' = d.
Proof using Type. unfold One_into, One. cbv [mbind gom_bind gget glift]. by intros [= <- _]. Qed.
Lemma One_into_missing {Row} (t : Table Row) dest p d d' :
  One_into t dest p d = (d', Err ErrRecordNotFound) ->
  d' = d /\ (dest = None \/ first_keyed = false -> forall r, r ∈ rows t d -> p r = false).
Proof.
  unfold One_into, One. cbv [mbind gom_bind gget glift]. intros [= <- Hf]. split; [done|]. intros Hd r Hr.
  pose proof (first_none _ _ _ Hf r Hr) as Hp. destruct Hd as [->|Hk]; [by rewrite andb_true_r in Hp|].
  rewrite Hk in Hp. destruct dest; by rewrite andb_true_r in Hp.
Qed.

(** The address is one of those drawn; nobody has it, when the queries of the
    loop do not ask for the key of the last record as well. *)
Lemma next_ip_free dest candidates d d' ip :
  next_ip dest candidates d = (d', Ok ip) ->
  d' = d /\ ip ∈ candidates /\ (first_keyed = false -> forall v, v ∈ db_devices d -> d_Address v <> ip).
Proof.
  revert d dest. induction candidates as [|c rest IH]; intros d dest; [done|]. cbn. unfold Try. cbv [mbind gom_bind].
  destruct (One_into _ _ _ d) as [d1 [r|e|w]] eqn:Hf; [| |done].
  - apply One_into_state in Hf as ->. intros Hn. destruct (IH _ _ Hn) as (-> & Hin & Hfree). split_and!; [done|by right|done].
  - destruct (decide (e = ErrRecordNotFound)) as [->|Hne].
    + apply One_into_missing in Hf as [-> Hf]. intros [= <- <-]. split_and!; [done|by left|]. intros Hk v Hv Ha.
      specialize (Hf (or_intror Hk) v Hv). cbn in Hf. by destruct (String.eqb_spec (d_Address v) c).
    + apply One_into_state in Hf as ->. intros Hn. destruct (IH _ _ Hn) as (-> & Hin & Hfree). split_and!; [done|by right|done].
Qed.
(** ** What a successful statement did *)

Lemma Create_ok {Row} (t : Table Row) mk d d' i :
  (forall i, row_id t (mk i) = i) -> Create t mk d = (d', Ok i) ->
  exists l, d' = set_rows t l d /\ 0 < i /\ l ≡ₚ mk i :: rows t d /\ forall r, r ∈ rows t d -> row_id t r <> i.
Proof.
  intros Hk. unfold Create. cbv [mbind gom_bind gget glift]. destruct (sql_create _ _ _) as [[j l]| |] eqn:Hc; [|done..].
  cbv [gmodify mret gom_ret]. intros [= <- <-]. exists l. split; [done|]. by eapply create_ok.
Qed.
Lemma CreateSeen_ok {Row} (t : Table Row) mk d d' i :
  tx_error_kept = true -> CreateSeen t mk d = (d', Ok i) -> Create t mk d = (d', Ok i).
Proof using Type. intros Ht. unfold CreateSeen. rewrite Ht. by destruct (Create t mk d) as [d1 [| |]]. Qed.
Lemma Create_err {Row} (t : Table Row) mk d d' e : Create t mk d = (d', Err e) -> d' = d.
Proof using Type.
  unfold Create. cbv [mbind gom_bind gget glift]. destruct (sql_create _ _ _) as [[j l]| |] eqn:Hc; cbv [gmodify mret gom_ret]; congruence.
Qed.
Lemma Delete_ok {Row} (t : Table Row) p d d' :
  Delete t p d = (d', Ok tt) -> exists l, d' = set_rows t l d /\ l ≡ₚ filter (fun r => p r = false) (rows t d).
Proof.
  unfold Delete. cbv [mbind gom_bind gget glift]. destruct (sql_delete _ _) as [l| |] eqn:Hc; [|done..].
  cbv [gmodify]. intros [= <-]. exists l. split; [done|]. by apply delete_ok.
Qed.
Lemma Update_ok {Row} (t : Table Row) p f d d' :
  Update t p f d = (d', Ok tt) -> exists l, d' = set_rows t l d /\ l ≡ₚ map (fun r => if p r then f r else r) (rows t d).
Proof.
  unfold Update. cbv [mbind gom_bind gget glift]. destruct (sql_update _ _ _) as [l| |] eqn:Hc; [|done..].
  cbv [gmodify]. intros [= <-]. exists l. split; [done|]. by apply update_ok.
Qed.
Lemma One_ok {Row} (t : Table Row) p d d' r : One t p d = (d', Ok r) -> d' = d /\ r ∈ rows t d /\ p r = true.
Proof.
  unfold One. cbv [mbind gom_bind gget glift]. destruct (sql_first _ _) as [x| |] eqn:Hc; [|done..].
  intros [= <- <-]. split; [done|]. by apply first_ok.
Qed.
Lemma All_ok {Row} (t : Table Row) p d d' l :
  All t p d = (d', Ok l) -> d' = d /\ l ≡ₚ filter (fun r => p r = true) (rows t d).
Proof.
  unfold All. cbv [mbind gom_bind gget glift]. destruct (sql_find _ _) as [x| |] eqn:Hc; [|done..].
  intros [= <- <-]. split; [done|]. by apply find_ok.
Qed.

(** *** Preservation *)

Lemma gpres_Tx {A} (P : Database -> Prop) (fc : GoM Database A) : gpreserves P fc -> gpreserves P (Tx fc).
Proof using Type.
  intros Hf d Hd. specialize (Hf d Hd). unfold gstate, Tx in *. by destruct (fc d) as [d' [| |]].
Qed.
Lemma gpres_Try {A} (P : Database -> Prop) (fc : GoM Database A) : gpreserves P fc -> gpreserves P (Try fc).
Proof using Type.
  intros Hf d Hd. specialize (Hf d Hd). unfold gstate, Try in *. by destruct (fc d) as [d' [| |]].
Qed.
Lemma gpres_Raw {A} (P : Database -> Prop) (zero : A) (q : GoM Database A) : gpreserves P q -> gpreserves P (Scan zero q).
Proof using Type.
  intros Hf d Hd. specialize (Hf d Hd). unfold gstate, Scan in *. destruct (q d) as [d' [| |]]; [done| |done]. by destruct tx_error_kept.
Qed.
Lemma Scan_ok {A} (zero : A) (q : GoM Database A) d d' a :
  tx_error_kept = true -> Scan zero q d = (d', Ok a) -> q d = (d', Ok a).
Proof using Type. intros Ht. unfold Scan. rewrite Ht. by destruct (q d) as [d1 [| |]]. Qed.
Lemma gpres_All {Row} (P : Database -> Prop) (t : Table Row) p : gpreserves P (All t p).
Proof using Type. intros d Hd. exact Hd. Qed.
Lemma gpres_One {Row} (P : Database -> Prop) (t : Table Row) p : gpreserves P (One t p).
Proof using Type. intros d Hd. exact Hd. Qed.
Lemma gpres_Count {Row} (P : Database -> Prop) (t : Table Row) p : gpreserves P (Count t p).
Proof using Type. intros d Hd. exact Hd. Qed.
Lemma gpres_Delete {Row} (P : Database -> Prop) (t : Table Row) (p : Row -> bool) :
  (forall d l, P d -> l ≡ₚ filter (fun r => p r = false) (rows t d) -> P (set_rows t l d)) -> gpreserves P (Delete t p).
Proof.
  intros Hp d Hd. unfold gstate. destruct (Delete t p d) as [d' [[]|e|w]] eqn:Hr.
  - apply Delete_ok in Hr as (l & -> & Hl). by apply Hp.
  - unfold Delete in Hr. cbv [mbind gom_bind gget glift] in Hr. destruct (sql_delete _ _); cbv [gmodify] in Hr; by simplify_eq.
  - unfold Delete in Hr. cbv [mbind gom_bind gget glift] in Hr. destruct (sql_delete _ _); cbv [gmodify] in Hr; by simplify_eq.
Qed.
Lemma gpres_Update {Row} (P : Database -> Prop) (t : Table Row) (p : Row -> bool) (f : Row -> Row) :
  (forall d l, P d -> l ≡ₚ map (fun r => if p r then f r else r) (rows t d) -> P (set_rows t l d)) -> gpreserves P (Update t p f).
Proof.
  intros Hp d Hd. unfold gstate. destruct (Update t p f d) as [d' [[]|e|w]] eqn:Hr.
  - apply Update_ok in Hr as (l & -> & Hl). by apply Hp.
  - unfold Update in Hr. cbv [mbind gom_bind gget glift] in Hr. destruct (sql_update _ _ _); cbv [gmodify] in Hr; by simplify_eq.
  - unfold Update in Hr. cbv [mbind gom_bind gget glift] in Hr. destruct (sql_update _ _ _); cbv [gmodify] in Hr; by simplify_eq.
Qed.
Lemma gpres_Create {Row} (P : Database -> Prop) (t : Table Row) mk :
  (forall i, row_id t (mk i) = i) ->
  (forall d l i, P d -> l ≡ₚ mk i :: rows t d -> P (set_rows t l d)) -> gpreserves P (CreateSeen t mk).
Proof.
  intros Hk Hp d Hd. unfold gstate, CreateSeen. destruct (Create t mk d) as [d' [i|e|w]] eqn:Hr.
  - apply Create_ok in Hr as (l & -> & _ & Hl & _); [|done]. by eapply Hp.
  - apply Create_err in Hr as ->. by destruct tx_error_kept.
  - unfold Create in Hr. cbv [mbind gom_bind gget glift] in Hr. destruct (sql_create _ _ _) as [[]| |]; cbv [gmodify mret gom_ret] in Hr; by simplify_eq.
Qed.
(** A query whose row the rest relies on. *)
Lemma gpres_One_then {Row B} (P : Database -> Prop) (t : Table Row) (p : Row -> bool) (k : Row -> GoM Database B) :
  (forall r d, P d -> r ∈ rows t d -> p r = true -> P (gstate (k r) d)) -> gpreserves P (One t p ≫= k).
Proof.
  intros Hk d Hd. unfold gstate in *. cbv [mbind gom_bind]. destruct (One t p d) as [d' [r|e|w]] eqn:Hr.
  - apply One_ok in Hr as (-> & Hin & Hp). by apply Hk.
  - pose proof (One_state t p d) as Hs. rewrite Hr in Hs. cbn in *. by subst.
  - pose proof (One_state t p d) as Hs. rewrite Hr in Hs. cbn in *. by subst.
Qed.
End Facts.
#[export] Hint Resolve gpres_Tx gpres_Try gpres_Raw gpres_All gpres_One gpres_Count : gpres.

(** ** An instance: tables in memory *)

Module Memory.
#[export] Instance gorm : Gorm := {|
  sql_find Row p l := Ok (filter (fun r => p r = true) l);
  sql_first Row p l := match filter (fun r => p r = true) l with r :: _ => Ok r | [] => Err ErrRecordNotFound end;
  sql_count Row p l := Ok (zlen (filter (fun r => p r = true) l));
  sql_create Row key mk l := let i := 1 + foldr (fun r n => Z.max (key r) n) 0 l in Ok (i, l ++ [mk i]);
  sql_delete Row p l := Ok (filter (fun r => p r = false) l);
  sql_update Row p f l := Ok (map (fun r => if p r then f r else r) l);
  tx_error_kept := true; first_keyed := true |}.

Lemma above_all {Row} (key : Row -> Z) l :
  0 <= foldr (fun r n => Z.max (key r) n) 0 l /\ forall r, r ∈ l -> key r <= foldr (fun r n => Z.max (key r) n) 0 l.
Proof.
  induction l as [|x l [IH1 IH2]]; cbn; [split; [lia|set_solver]|]. split; [lia|].
  intros r [->|Hr]%elem_of_cons; [lia|]. specialize (IH2 r Hr). lia.
Qed.

#[export] Instance gorm_ok : GormOk.
Proof.
  split; cbn; intros.
  - by simplify_eq.
  - destruct (filter _ l) as [|x k] eqn:Hf; [done|]. simplify_eq.
    assert (r ∈ filter (fun r => p r = true) l) as [? ?]%list_elem_of_filter by (rewrite Hf; by left). done.
  - destruct (filter _ l) as [|x k] eqn:Hf; [|done]. destruct (p r) eqn:Hp; [|done].
    assert (r ∈ filter (fun r => p r = true) l) as Hin by (by apply list_elem_of_filter). rewrite Hf in Hin. by apply elem_of_nil in Hin.
  - by simplify_eq.
  - done.
  - destruct (above_all key l) as [H1 H2]. simplify_eq. split_and!; [lia|by rewrite Permutation_app_comm|].
    intros r Hr Hk. specialize (H2 r Hr). lia.
  - by simplify_eq.
  - by simplify_eq.
Qed.
End Memory.
