(* ===== verification/PortalNetwork.v ===== *)
(** Networks, their members and invitations: [portal/api/api_network.go] and
    [portal/api/api_invitation.go].  Every handler takes the requesting user
    from the request's context and its path variables as [Vars] parses them. *)
From S2P Require Import Prelude GoText Wire PortalDb.
#[local] Set Warnings "-clear-no-such-hyp".

(** ** Path variables ([Vars] of [plugins.go]) *)

Definition Vars : Type := gmap string string.
Definition Vars_Uint64 (v : Vars) (key : string) : Z :=
  match v !! key with
  | None => 0
  | Some val => default 0 (ParseUint val)
  end.
Definition Vars_ModelID (v : Vars) (key : string) : ID := Vars_Uint64 v key.

(** ** Responses *)

Record NetworkItem := mkNetworkItem {
  it_NetworkID : ID; it_Name : string; it_Description : string; it_CreatedAt : Z;
  it_MemberCount : Z; it_DeviceCount : Z; it_Role : string }.
Record NetworkMemberItem := mkNetworkMemberItem {
  me_NetworkID : ID; me_UserID : ID; me_Name : string; me_Email : string; me_JoinTime : Z; me_Role : string }.
Record NetworkMemberResponse := mkNetworkMemberResponse {
  mr_Members : list NetworkMemberItem; mr_Owner : bool; mr_Admin : bool }.
Record InvitationListItem := mkInvitationListItem {
  il_InvitationID : ID; il_NetworkID : ID; il_NetworkName : string; il_InvitedByUserName : string;
  il_InvitedByUserEmail : string; il_InviteUserName : string }.

Section Network.
Context `{HG : Gorm}.

Abbreviation Q := (GoM Database).
Definition nil_deref : string := "invalid memory address or nil pointer dereference".

(** [NetworkIDEq(n).UserIDEq(u)]. *)
Definition member_of (networkID userID : ID) (nu : NetworkUser) : bool :=
  (nu_NetworkID nu =? networkID) && (nu_UserID nu =? userID).
Definition in_network (networkID : ID) (nu : NetworkUser) : bool := nu_NetworkID nu =? networkID.

(** [Preload]: the row an association points to; [None] is the nil pointer
    left when it does not exist. *)
Definition preload {Row} (t : Table Row) (id : ID) : Q (option Row) :=
  l ← All t (fun r => row_id t r =? id); mret (head l).
(** A field of a preloaded association. *)
Definition deref_assoc {Row A} (f : Row -> A) (o : option Row) : Q A :=
  match o with Some r => mret (f r) | None => gpanic nil_deref end.

(** [for _, x := range xs { res = append(res, ...) }]. *)
Fixpoint gmap_list {A B} (f : A -> Q B) (xs : list A) : Q (list B) :=
  match xs with
  | [] => mret []
  | x :: xs' => y ← f x; ys ← gmap_list f xs'; mret (y :: ys)
  end.

(** *** Networks *)

(** [CreateNetwork]: the two insertions are transactions of their own, only
    the count belongs to the enclosing one. *)
Definition CreateNetwork (now : Z) (userID : ID) (name description : string) : Q NetworkItem :=
  networkID ← db_Create networks (fun i => mkNetwork i now userID name description);
  _ ← db_Create networkUsers (fun i => mkNetworkUser i now userID networkID RoleTypeOwner);
  uc ← Count devices (fun d => d_UserID d =? userID);
  mret (mkNetworkItem networkID name description (unix_of now) 1 uc RoleTypeOwner).

Definition networkUserOperationCheck (userID networkID : ID) (allowRole : string) : Q unit := Tx (
  nu ← One networkUsers (member_of networkID userID);
  if String.eqb allowRole RoleTypeOwner && negb (String.eqb (nu_Role nu) RoleTypeOwner) then gthrow ErrIllegalOperation
  else if String.eqb allowRole RoleTypeAdmin
          && (negb (String.eqb (nu_Role nu) RoleTypeOwner) && negb (String.eqb (nu_Role nu) RoleTypeAdmin))
  then gthrow ErrIllegalOperation
  else mret tt).

Definition UpdateNetwork (userID networkID : ID) (name description : string) : Q NetworkItem :=
  if networkID =? 0 then gthrow ErrIllegalRequest
  else Tx (
    _ ← networkUserOperationCheck userID networkID RoleTypeAdmin;
    _ ← Update networks (fun n => n_ID n =? networkID)
          (fun n => mkNetwork (n_ID n) (n_CreatedAt n) (n_CreatedByID n) name description);
    mret (mkNetworkItem networkID name description 0 0 0 "")).

Definition NetworkList (userID : ID) : Q (list NetworkItem) := Tx (
  nus ← All networkUsers (fun nu => nu_UserID nu =? userID);
  gmap_list (fun nu =>
    n ← preload networks (nu_NetworkID nu);
    '(uc, dc) ← NetworkStats (nu_NetworkID nu);
    name ← deref_assoc n_Name n;
    description ← deref_assoc n_Description n;
    mret (mkNetworkItem (nu_NetworkID nu) name description (go_div (nu_CreatedAt nu) 1000000) uc dc (nu_Role nu))) nus).

Definition NetworkMembers (userID networkID : ID) : Q NetworkMemberResponse :=
  if networkID =? 0 then gthrow ErrIllegalRequest
  else Tx (
    cur ← Try (One networkUsers (member_of networkID userID));
    match cur with
    | Err _ => gthrow ErrIllegalOperation
    | Panic w => gpanic w
    | Ok cur =>
      nus ← All networkUsers (in_network networkID);
      members ← gmap_list (fun nu =>
        u ← preload users (nu_UserID nu);
        name ← deref_assoc u_Name u;
        email ← deref_assoc u_Email u;
        mret (mkNetworkMemberItem networkID (nu_UserID nu) name email (unix_of (nu_CreatedAt nu)) (nu_Role nu))) nus;
      mret (mkNetworkMemberResponse members (String.eqb (nu_Role cur) RoleTypeOwner)
        (String.eqb (nu_Role cur) RoleTypeAdmin || String.eqb (nu_Role cur) RoleTypeOwner))
    end).

Definition DeleteNetwork (userID networkID : ID) : Q bool :=
  if networkID =? 0 then gthrow ErrIllegalRequest
  else Tx (
    network ← One networks (fun n => n_ID n =? networkID);
    if negb (n_CreatedByID network =? userID) then gthrow ErrIllegalOperation
    else
      _ ← Delete networkUsers (in_network networkID);
      _ ← Delete invitations (fun i => i_NetworkID i =? networkID);
      _ ← Delete networks (fun n => n_ID n =? networkID);
      mret true).

(** *** Members *)

Definition set_role (role : string) (nu : NetworkUser) : NetworkUser :=
  mkNetworkUser (nu_ID nu) (nu_CreatedAt nu) (nu_UserID nu) (nu_NetworkID nu) role.

(** [requester] is the user of the context, [userID] the one of the path. *)
Definition ChangeNetworkMemberRole (requester userID networkID : ID) (role : string) : Q string :=
  if (userID =? 0) || (networkID =? 0) then gthrow ErrIllegalRequest
  else if negb (String.eqb role "admin") && negb (String.eqb role "member") then gthrow ErrIllegalRequest
  else Tx (
    _ ← networkUserOperationCheck requester networkID RoleTypeOwner;
    let role := if String.eqb role "admin" then RoleTypeAdmin else RoleTypeMember in
    _ ← Update networkUsers (member_of networkID userID) (set_role role);
    mret role).

(** [tx.Raw(`select role ...`).Scan(&role)]: an empty result leaves [role]
    as it was. *)
Definition scan_role (networkID userID : ID) (role : string) : Q string :=
  l ← All networkUsers (member_of networkID userID);
  mret (match l with nu :: _ => nu_Role nu | [] => role end).

Definition DeleteNetworkUser (requester userID networkID : ID) : Q ID :=
  if (userID =? 0) || (networkID =? 0) then gthrow ErrIllegalRequest
  else Tx (
    role ← scan_role networkID userID "";
    let requestUserRole := role in
    _ ← (if userID =? requester then
           if String.eqb requestUserRole RoleTypeOwner then gthrow (EMsg "owner can not delete self from the network")
           else mret tt
         else if String.eqb requestUserRole RoleTypeMember then gthrow (EMsg "member can only delete self")
         else
           targetUserRole ← scan_role networkID userID role;
           if String.eqb targetUserRole RoleTypeOwner then gthrow (EMsg "owner can not be delete")
           else if String.eqb targetUserRole RoleTypeAdmin && negb (String.eqb requestUserRole RoleTypeOwner)
           then gthrow (EMsg "admin can only be delete by owner")
           else mret tt);
    _ ← Delete networkUsers (member_of networkID userID);
    mret userID).

(** *** Invitations *)

Definition invitation_for (networkID userID : ID) (i : Invitation) : bool :=
  (i_NetworkID i =? networkID) && (i_UserID i =? userID).

(** [InviteMember].  The column's default makes a role other than admin a
    member; the updater of an existing invitation is built but its [Update]
    is not called. *)
Definition InviteMember (userID networkID : ID) (email role : string) : Q ID :=
  if networkID =? 0 then gthrow ErrIllegalRequest
  else if String.eqb email "" then gthrow ErrIllegalRequest
  else Tx (
    inviter ← One networkUsers (member_of networkID userID);
    if String.eqb (nu_Role inviter) RoleTypeMember then gthrow (EMsg "network member can not invite user")
    else if String.eqb role RoleTypeAdmin && negb (String.eqb (nu_Role inviter) RoleTypeOwner)
    then gthrow (EMsg "only network owner can invite admin")
    else
      user ← Try (One users (fun u => String.eqb (u_Email u) email));
      match user with
      | Err _ => gthrow (EMsg ("cannot find user " ++ email)%string)
      | Panic w => gpanic w
      | Ok user =>
        old ← Try (One invitations (invitation_for networkID (u_ID user)));
        match old with
        | Ok old => mret (i_ID old)
        | Panic w => gpanic w
        | Err e =>
          if decide (e = ErrRecordNotFound) then
            let role := if String.eqb role RoleTypeAdmin then role else RoleTypeMember in
            CreateSeen invitations (fun i => mkInvitation i networkID userID (u_ID user) role)
          else gthrow e
        end
      end).

(** [Invitations]: the associations are read after the transaction. *)
Definition Invitations (userID : ID) : Q (list InvitationListItem) :=
  l ← Tx (All invitations (fun i => i_UserID i =? userID));
  gmap_list (fun i =>
    n ← preload networks (i_NetworkID i); by_ ← preload users (i_InvitedByID i); u ← preload users (i_UserID i);
    network ← deref_assoc n_Name n; byName ← deref_assoc u_Name by_; byEmail ← deref_assoc u_Email by_;
    name ← deref_assoc u_Name u;
    mret (mkInvitationListItem (i_ID i) (i_NetworkID i) network byName byEmail name)) l.

(** [HandleInvitation]; [invitationID] is the parsed path variable. *)
Definition HandleInvitation (now : Z) (userID : ID) (invitationID : result Z) (action : string) : Q ID :=
  match invitationID with
  | Err e => gthrow e
  | Panic w => gpanic w
  | Ok invitationID =>
    if invitationID <=? 0 then gthrow ErrIllegalRequest
    else if negb (String.eqb action "join") && negb (String.eqb action "decline") then gthrow ErrIllegalRequest
    else Tx (
      invitation ← One invitations (fun i => i_ID i =? invitationID);
      if negb (userID =? i_UserID invitation) then gthrow ErrIllegalRequest
      else
        _ ← Delete invitations (fun i => i_ID i =? invitationID);
        _ ← (if String.eqb action "join"
             then CreateSeen networkUsers (fun i => mkNetworkUser i now userID (i_NetworkID invitation) (i_Role invitation))
             else mret 0);
        mret invitationID)
  end.
End Network.

(** ** Lemmas *)

Section Preserving.
Context `{HG : Gorm}.

Lemma gpres_gmap_list {A B} (P : Database -> Prop) (f : A -> GoM Database B) xs :
  (forall x, gpreserves P (f x)) -> gpreserves P (gmap_list f xs).
Proof using Type. intros Hf. induction xs as [|x xs IH]; cbn; gpres; auto. Qed.
Lemma gpres_preload {Row} (P : Database -> Prop) (t : Table Row) id : gpreserves P (preload t id).
Proof using Type. unfold preload. gpres. Qed.
Lemma gpres_deref {Row A} (P : Database -> Prop) (f : Row -> A) o : gpreserves P (deref_assoc f o).
Proof using Type. unfold deref_assoc. gpres. Qed.
Lemma gpres_scan (P : Database -> Prop) n u r : gpreserves P (scan_role n u r).
Proof using Type. unfold scan_role. gpres. Qed.
Lemma gpres_check (P : Database -> Prop) u n r : gpreserves P (networkUserOperationCheck u n r).
Proof using Type. unfold networkUserOperationCheck. gpres. apply gpres_Tx. gpres. Qed.
Lemma Tx_inv {A} (P : Database -> Prop) (fc : GoM Database A) d :
  P d -> (forall d' a, fc d = (d', Ok a) -> P d') -> P (gstate (Tx fc) d).
Proof using Type. intros Hd Hf. unfold gstate, Tx. destruct (fc d) as [d' [a|e|w]]; cbn; [by eapply Hf|done..]. Qed.
End Preserving.
#[export] Hint Resolve gpres_gmap_list gpres_preload gpres_deref gpres_scan gpres_check : gpres.

(** [gpres] under transactions and loops. *)
Ltac gquery := repeat (gpres; first [apply gpres_Tx | apply gpres_Raw | apply gpres_gmap_list; intros ?]); gpres.

Section Facts.
Context `{HG : Gorm} `{HOk : !GormOk}.

(** Memberships and invitations are of networks that exist. *)
Definition refs_ok (d : Database) : Prop :=
  (forall nu, nu ∈ db_networkUsers d -> exists n, n ∈ db_networks d /\ n_ID n = nu_NetworkID nu) /\
  (forall i, i ∈ db_invitations d -> exists n, n ∈ db_networks d /\ n_ID n = i_NetworkID i).
Definition exists_network (id : ID) (d : Database) : Prop := exists n, n ∈ db_networks d /\ n_ID n = id.

(** Reading handlers change nothing. *)
Lemma gpres_reads (P : Database -> Prop) u n :
  gpreserves P (NetworkList u) /\ gpreserves P (NetworkMembers u n) /\ gpreserves P (Invitations u).
Proof using Type.
  split_and!.
  - unfold NetworkList, NetworkStats. gquery.
  - unfold NetworkMembers. gquery.
  - unfold Invitations. gquery.
Qed.

Lemma refs_shrink d d' :
  db_networks d' = db_networks d -> (forall x, x ∈ db_networkUsers d' -> exists y, y ∈ db_networkUsers d /\ nu_NetworkID y = nu_NetworkID x) ->
  (forall x, x ∈ db_invitations d' -> x ∈ db_invitations d) -> refs_ok d -> refs_ok d'.
Proof using Type.
  intros Hn Hm Hi [H1 H2]. split; rewrite Hn.
  - intros x Hx. destruct (Hm x Hx) as (y & Hy & <-). by apply H1.
  - intros x Hx. by apply H2, Hi.
Qed.

Lemma refs_delete_members p : gpreserves refs_ok (Delete networkUsers p).
Proof.
  apply gpres_Delete. intros d l Hd Hl. apply (refs_shrink d); [done| |by intros|exact Hd]. cbn. intros x Hx. exists x.
  rewrite Hl in Hx. by apply list_elem_of_filter in Hx as [_ Hx].
Qed.
Lemma refs_delete_invitations p : gpreserves refs_ok (Delete invitations p).
Proof.
  apply gpres_Delete. intros d l Hd Hl. apply (refs_shrink d); [done| |intros x Hx|exact Hd].
  - intros x Hx. by exists x.
  - cbn in Hx. rewrite Hl in Hx. by apply list_elem_of_filter in Hx as [_ Hx].
Qed.
Lemma refs_update_members p f : (forall x, nu_NetworkID (f x) = nu_NetworkID x) -> gpreserves refs_ok (Update networkUsers p f).
Proof.
  intros Hf. apply gpres_Update. intros d l Hd Hl. apply (refs_shrink d); [done| |by intros|exact Hd]. cbn. intros x Hx.
  rewrite Hl in Hx. apply list_elem_of_fmap in Hx as (y & -> & Hy). exists y. split; [done|]. by destruct (p y).
Qed.
Lemma refs_update_networks p f : (forall n, n_ID (f n) = n_ID n) -> gpreserves refs_ok (Update networks p f).
Proof.
  intros Hf. apply gpres_Update. intros d l [H1 H2] Hl.
  assert (forall id, exists_network id d -> exists_network id (set_rows networks l d)) as Hk.
  { intros id (n & Hn & <-). exists (if p n then f n else n). split; [|by destruct (p n)]. cbn. rewrite Hl.
    apply list_elem_of_fmap. by exists n. }
  split; intros x Hx; apply Hk; [by apply H1|by apply H2].
Qed.
(** Insertions for a network that exists. *)
Lemma refs_create_member id mk : (forall i, nu_ID (mk i) = i) -> (forall i, nu_NetworkID (mk i) = id) ->
  gpreserves (fun d => refs_ok d /\ exists_network id d) (CreateSeen networkUsers mk).
Proof.
  intros Hid Hn. apply gpres_Create; [done|]. intros d l i ([H1 H2] & He) Hl. split; [|done]. split; [|done].
  cbn. intros x Hx. rewrite Hl in Hx. apply elem_of_cons in Hx as [->|Hx]; [by rewrite Hn|by apply H1].
Qed.
Lemma refs_create_invitation id mk : (forall i, i_ID (mk i) = i) -> (forall i, i_NetworkID (mk i) = id) ->
  gpreserves (fun d => refs_ok d /\ exists_network id d) (CreateSeen invitations mk).
Proof.
  intros Hid Hn. apply gpres_Create; [done|]. intros d l i ([H1 H2] & He) Hl. split; [|done]. split; [done|].
  cbn. intros x Hx. rewrite Hl in Hx. apply elem_of_cons in Hx as [->|Hx]; [by rewrite Hn|by apply H2].
Qed.
#[local] Hint Resolve refs_delete_members refs_delete_invitations refs_update_members refs_update_networks : gpres.

Lemma refs_UpdateNetwork u n name desc : gpreserves refs_ok (UpdateNetwork u n name desc).
Proof. unfold UpdateNetwork. gquery. Qed.
Lemma refs_ChangeRole r u n role : gpreserves refs_ok (ChangeNetworkMemberRole r u n role).
Proof. unfold ChangeNetworkMemberRole. gquery. Qed.
Lemma refs_DeleteUser r u n : gpreserves refs_ok (DeleteNetworkUser r u n).
Proof. unfold DeleteNetworkUser. gquery. Qed.

Lemma refs_at {A} id (m : GoM Database A) d :
  gpreserves (fun d => refs_ok d /\ exists_network id d) m -> refs_ok d -> exists_network id d -> refs_ok (gstate m d).
Proof using Type. intros Hm H1 H2. by apply Hm. Qed.
Lemma refs_exists_delete_invitations id p :
  gpreserves (fun d => refs_ok d /\ exists_network id d) (Delete invitations p).
Proof.
  intros d [Hd He]. split; [by apply refs_delete_invitations|].
  assert (gpreserves (exists_network id) (Delete invitations p)) as Hp by (apply gpres_Delete; intros d0 l He0 _; exact He0).
  by apply Hp.
Qed.
Lemma refs_Invite u n email role : gpreserves refs_ok (InviteMember u n email role).
Proof.
  unfold InviteMember. gpres. apply gpres_Tx, gpres_One_then. intros inviter d Hd Hin Hp.
  apply andb_true_iff in Hp as [Hn _]. apply Z.eqb_eq in Hn.
  apply (refs_at n); [|done|rewrite <- Hn; by apply Hd]. gpres. by apply refs_create_invitation.
Qed.

Lemma refs_Handle now u id action : gpreserves refs_ok (HandleInvitation now u id action).
Proof.
  unfold HandleInvitation. gpres. apply gpres_Tx, gpres_One_then. intros inv d Hd Hin Hp.
  apply (refs_at (i_NetworkID inv)); [|done|by apply Hd].
  gpres; first [apply refs_exists_delete_invitations | by apply refs_create_member].
Qed.

Lemma refs_Create now u name desc : tx_error_kept = true -> gpreserves refs_ok (CreateNetwork now u name desc).
Proof.
  intros Ht d Hd. unfold gstate, CreateNetwork. set (mk := fun i => mkNetwork i now u name desc).
  assert (db_Create networks mk d = match CreateSeen networks mk d with (d', Ok a) => (d', Ok a) | (_, r) => (d, r) end) as Hdb by done.
  cbv [mbind gom_bind]. rewrite Hdb. destruct (CreateSeen networks mk d) as [d1 [id|e|w]] eqn:Hc; [|done..].
  apply CreateSeen_ok in Hc; [|done]. apply Create_ok in Hc as (l & -> & _ & Hl & _); [|done].
  assert (exists_network id (set_rows networks l d)) as He.
  { eexists. split; [cbn; rewrite Hl; by left|done]. }
  assert (refs_ok (set_rows networks l d)) as Hr.
  { destruct Hd as [H1 H2]. split; intros x Hx.
    - destruct (H1 x Hx) as (n & Hn & ?). exists n. split; [cbn; rewrite Hl; by right|done].
    - destruct (H2 x Hx) as (n & Hn & ?). exists n. split; [cbn; rewrite Hl; by right|done]. }
  assert (gpreserves (fun d => refs_ok d /\ exists_network id d)
    (_ ← db_Create networkUsers (fun i => mkNetworkUser i now u id RoleTypeOwner);
     uc ← Count devices (fun d => d_UserID d =? u); mret (mkNetworkItem id name desc (unix_of now) 1 uc RoleTypeOwner))) as Hm.
  { unfold db_Create. gpres. apply gpres_Tx. by apply refs_create_member. }
  exact (refs_at id _ _ Hm Hr He).
Qed.

(** Everything a successful [DeleteNetwork] did. *)
Lemma DeleteNetwork_ok u n d d' b :
  DeleteNetwork u n d = (d', Ok b) ->
  b = true /\ (exists net, net ∈ db_networks d /\ n_ID net = n /\ n_CreatedByID net = u) /\
  db_networkUsers d' ≡ₚ filter (fun x => in_network n x = false) (db_networkUsers d) /\
  db_invitations d' ≡ₚ filter (fun i => (i_NetworkID i =? n) = false) (db_invitations d) /\
  db_networks d' ≡ₚ filter (fun x => (n_ID x =? n) = false) (db_networks d) /\
  db_users d' = db_users d /\ db_devices d' = db_devices d.
Proof.
  unfold DeleteNetwork. destruct (n =? 0); [done|]. intros Hr%Tx_ok. revert Hr. cbv [mbind gom_bind].
  destruct (One networks _ d) as [d0 [net|e|w]] eqn:H1; [|done..]. apply One_ok in H1 as (-> & Hin & Hid%Z.eqb_eq).
  destruct (Z.eqb_spec (n_CreatedByID net) u) as [Hu|]; [cbn [negb]|done].
  destruct (Delete networkUsers _ d) as [d1 [[]|e|w]] eqn:H2; [|done..]. apply Delete_ok in H2 as (l1 & -> & Hl1).
  destruct (Delete invitations _ _) as [d2 [[]|e|w]] eqn:H3; [|done..]. apply Delete_ok in H3 as (l2 & -> & Hl2).
  destruct (Delete networks _ _) as [d3 [[]|e|w]] eqn:H4; [|done..]. apply Delete_ok in H4 as (l3 & -> & Hl3).
  intros [= <- <-]. split_and!; try done. by exists net.
Qed.

Lemma refs_Delete u n : gpreserves refs_ok (DeleteNetwork u n).
Proof.
  intros d Hd. unfold gstate. destruct (DeleteNetwork u n d) as [d' [b|e|w]] eqn:Hr.
  - apply DeleteNetwork_ok in Hr as (_ & _ & Hm & Hi & Hn & _). destruct Hd as [H1 H2].
    assert (forall id, id <> n -> exists_network id d -> exists_network id d') as Hk.
    { intros id Hne (x & Hx & Hxid). exists x. split; [|done]. rewrite Hn. apply list_elem_of_filter. split; [|done].
      apply Z.eqb_neq. congruence. }
    split; intros x Hx.
    + rewrite Hm in Hx. apply list_elem_of_filter in Hx as [Hne Hx]. apply Z.eqb_neq in Hne. apply Hk; [done|by apply H1].
    + rewrite Hi in Hx. apply list_elem_of_filter in Hx as [Hne Hx]. apply Z.eqb_neq in Hne. apply Hk; [done|by apply H2].
  - unfold DeleteNetwork in Hr. destruct (n =? 0); [by injection Hr as <-|]. by apply Tx_err in Hr as ->.
  - unfold DeleteNetwork in Hr. destruct (n =? 0); [done|]. by apply Tx_panic in Hr as ->.
Qed.

(** ** Properties *)

(** One request to the portal; other requests do not touch these tables. *)
Inductive portal_step : Database -> Database -> Prop :=
| ps_create now u name desc d : portal_step d (gstate (CreateNetwork now u name desc) d)
| ps_update u n name desc d : portal_step d (gstate (UpdateNetwork u n name desc) d)
| ps_list u d : portal_step d (gstate (NetworkList u) d)
| ps_members u n d : portal_step d (gstate (NetworkMembers u n) d)
| ps_delete u n d : portal_step d (gstate (DeleteNetwork u n) d)
| ps_role r u n role d : portal_step d (gstate (ChangeNetworkMemberRole r u n role) d)
| ps_remove r u n d : portal_step d (gstate (DeleteNetworkUser r u n) d)
| ps_invite u n email role d : portal_step d (gstate (InviteMember u n email role) d)
| ps_invitations u d : portal_step d (gstate (Invitations u) d)
| ps_handle now u id action d : portal_step d (gstate (HandleInvitation now u id action) d)
| ps_other d d' : db_networks d' = db_networks d -> db_networkUsers d' = db_networkUsers d ->
    db_invitations d' = db_invitations d -> portal_step d d'.

Inductive portal_reachable (d0 : Database) : Database -> Prop :=
| pr_start : portal_reachable d0 d0
| pr_step d d' : portal_reachable d0 d -> portal_step d d' -> portal_reachable d0 d'.

(** Starting from an empty portal, whatever requests arrive
    and whatever the database answers to each statement, every membership
    and every invitation is of a network that exists, provided a failed
    insertion is reported: the handlers keep the references between the
    tables by the order of their statements and their transactions. *)
Theorem network_references_valid d0 d :
  tx_error_kept = true -> db_networkUsers d0 = [] -> db_invitations d0 = [] -> portal_reachable d0 d ->
  (forall nu, nu ∈ db_networkUsers d -> exists n, n ∈ db_networks d /\ n_ID n = nu_NetworkID nu) /\
  (forall i, i ∈ db_invitations d -> exists n, n ∈ db_networks d /\ n_ID n = i_NetworkID i).
Proof.
  intros Ht Hm Hi Hr. change (refs_ok d). induction Hr as [|d d' _ IH Hs].
  { split; [rewrite Hm|rewrite Hi]; by intros ? ?%elem_of_nil. }
  destruct Hs as [| | | | | | | | | |d d' E1 E2 E3]; try by apply gpres_reads.
  - by apply refs_Create.
  - by apply refs_UpdateNetwork.
  - by apply refs_Delete.
  - by apply refs_ChangeRole.
  - by apply refs_DeleteUser.
  - by apply refs_Invite.
  - by apply refs_Handle.
  - destruct IH as [Ha Hb]. split; rewrite E1; [rewrite E2; exact Ha|rewrite E3; exact Hb].
Qed.

(** C33 (safety).  Only the creator of a network can delete it, and the
    deletion is complete: its memberships and invitations go with it, those
    of other networks stay; any other outcome leaves the database as it
    was. *)
Theorem delete_network_complete u n d d' r :
  DeleteNetwork u n d = (d', r) ->
  match r with
  | Ok _ =>
    (exists net, net ∈ db_networks d /\ n_ID net = n /\ n_CreatedByID net = u) /\
    (forall nu, nu ∈ db_networkUsers d' <-> nu ∈ db_networkUsers d /\ nu_NetworkID nu <> n) /\
    (forall i, i ∈ db_invitations d' <-> i ∈ db_invitations d /\ i_NetworkID i <> n) /\
    (forall net, net ∈ db_networks d' <-> net ∈ db_networks d /\ n_ID net <> n)
  | _ => d' = d
  end.
Proof.
  intros Hr. destruct r as [b|e|w].
  - apply DeleteNetwork_ok in Hr as (_ & Hc & Hm & Hi & Hn & _). split; [done|]. unfold in_network in Hm.
    split_and!; intros x; [rewrite Hm|rewrite Hi|rewrite Hn]; rewrite list_elem_of_filter, Z.eqb_neq; tauto.
  - unfold DeleteNetwork in Hr. destruct (n =? 0); [by injection Hr as <- _|]. by apply Tx_err in Hr.
  - unfold DeleteNetwork in Hr. destruct (n =? 0); [done|]. by apply Tx_panic in Hr.
Qed.

(** Nobody can remove another member: the role the handler
    checks as the requester's is the target's, so the request of an owner to
    remove a member is refused as a member's, and that to remove an admin as
    an admin's. *)
Theorem nobody_removes_others requester u n d nu :
  requester <> u -> filter (fun x => member_of n u x = true) (db_networkUsers d) = [nu] ->
  nu_Role nu = RoleTypeOwner \/ nu_Role nu = RoleTypeAdmin \/ nu_Role nu = RoleTypeMember ->
  forall d' x, DeleteNetworkUser requester u n d <> (d', Ok x).
Proof.
  intros Hne Hf Hrole d' x Hr. unfold DeleteNetworkUser in Hr. destruct (_ || _); [done|]. apply Tx_ok in Hr.
  assert (forall role d1 role', scan_role n u role d = (d1, Ok role') -> d1 = d /\ role' = nu_Role nu) as Hscan.
  { intros role d1 role'. unfold scan_role. cbv [mbind gom_bind]. destruct (All _ _ d) as [d2 [l|e|w]] eqn:Hl; [|done..].
    apply All_ok in Hl as (-> & Hl). cbn [rows networkUsers] in Hl. rewrite Hf in Hl. apply Permutation_singleton_r in Hl as ->.
    by intros [= <- <-]. }
  revert Hr. cbv [mbind gom_bind]. destruct (scan_role n u "" d) as [d1 [role|e|w]] eqn:H1; [|done..].
  destruct (Hscan _ _ _ H1) as [-> ->]. destruct (Z.eqb_spec u requester); [congruence|].
  destruct Hrole as [Hx|[Hx|Hx]]; rewrite Hx; cbn; [| |done].
  - destruct (scan_role n u RoleTypeOwner d) as [d2 [role2|e|w]] eqn:H2; [|done..]. destruct (Hscan _ _ _ H2) as [-> ->]. by rewrite Hx.
  - destruct (scan_role n u RoleTypeAdmin d) as [d2 [role2|e|w]] eqn:H2; [|done..]. destruct (Hscan _ _ _ H2) as [-> ->]. by rewrite Hx.
Qed.


(** C38 (safety).  Only an owner of the network changes roles, and only to
    admin or member: the rows of other members are untouched.  Nothing keeps
    the owner from being the target, so an owner can leave the network
    without one ([owner_demotes_himself]). *)
Theorem role_changes_need_owner requester u n role d d' r :
  ChangeNetworkMemberRole requester u n role d = (d', Ok r) ->
  (exists nu, nu ∈ db_networkUsers d /\ nu_NetworkID nu = n /\ nu_UserID nu = requester /\ nu_Role nu = RoleTypeOwner) /\
  (r = RoleTypeAdmin \/ r = RoleTypeMember) /\
  db_networkUsers d' ≡ₚ map (fun nu => if member_of n u nu then set_role r nu else nu) (db_networkUsers d) /\
  db_networks d' = db_networks d /\ db_invitations d' = db_invitations d.
Proof.
  unfold ChangeNetworkMemberRole. destruct (_ || _); [done|]. destruct (_ && _); [done|]. intros Hr%Tx_ok. revert Hr.
  cbv [mbind gom_bind]. destruct (networkUserOperationCheck requester n RoleTypeOwner d) as [d0 [[]|e|w]] eqn:H1; [|done..].
  apply Tx_ok in H1. revert H1. cbv [mbind gom_bind].
  destruct (One networkUsers _ d) as [d1 [nu|e|w]] eqn:H2; [|done..]. apply One_ok in H2 as (-> & Hin & Hp).
  apply andb_true_iff in Hp as [Hn%Z.eqb_eq Hu%Z.eqb_eq]. cbn [RoleTypeOwner]. rewrite String.eqb_refl. cbn [andb].
  destruct (String.eqb_spec (nu_Role nu) RoleTypeOwner) as [Ho|]; [cbn [negb]|done]. cbn. intros [= <-].
  set (r0 := if String.eqb role "admin" then _ else _).
  destruct (Update networkUsers _ _ d) as [d2 [[]|e|w]] eqn:H3; [|done..]. apply Update_ok in H3 as (l & -> & Hl).
  intros [= <- <-]. split_and!; try done; [by exists nu|]. unfold r0. destruct (String.eqb role "admin"); [by left|by right].
Qed.

(** Inviting somebody who has an open invitation changes nothing: the new
    role is not stored. *)
Lemma reinvitation_keeps_role u n email role d d' id inv :
  InviteMember u n email role d = (d', Ok id) ->
  (forall user, user ∈ db_users d -> u_Email user = email -> u_ID user = i_UserID inv) ->
  inv ∈ db_invitations d -> i_NetworkID inv = n -> d' = d.
Proof.
  intros Hr Hemail Hinv Hn. unfold InviteMember in Hr. destruct (n =? 0); [done|]. destruct (String.eqb email ""); [done|].
  apply Tx_ok in Hr. revert Hr. cbv [mbind gom_bind].
  destruct (One networkUsers _ d) as [d0 [nu|e|w]] eqn:H1; [|done..]. apply One_ok in H1 as (-> & _ & _).
  destruct (String.eqb _ RoleTypeMember); [done|]. destruct (_ && _); [done|]. unfold Try.
  destruct (One users _ d) as [d0 [usr|e|w]] eqn:H2; [|done..]. apply One_ok in H2 as (-> & Hus & He%String.eqb_eq).
  destruct (One invitations _ d) as [d0 [old|e|w]] eqn:H3; [|..|done].
  - apply One_ok in H3 as (-> & _). by intros [= <- <-].
  - pose proof (One_state invitations (invitation_for n (u_ID usr)) d) as Hs. rewrite H3 in Hs. cbn in Hs. subst d0.
    destruct (decide (e = ErrRecordNotFound)) as [->|]; [|done]. exfalso.
    unfold One in H3. cbv [mbind gom_bind gget glift] in H3. injection H3 as H3.
    pose proof (first_none _ _ _ H3 inv Hinv) as Hf. unfold invitation_for in Hf.
    rewrite Hn, Z.eqb_refl, (Hemail usr Hus He), Z.eqb_refl in Hf. done.
Qed.
End Facts.

(** ** Witnesses *)

Module PortalExample.
#[local] Existing Instances Memory.gorm Memory.gorm_ok.

Definition alice : User := mkUser 1 0 "alice@example.org" "" "alice" "pairmesh".
Definition bob : User := mkUser 2 0 "bob@example.org" "" "bob" "pairmesh".
Definition empty : Database := mkDatabase [alice; bob] [] [] [] [] [] [] [].
Definition after {A} (m : GoM Database A) (d : Database) : Database := gstate m d.
(** Alice creates a network and invites Bob, who joins. *)
Definition created : Database := after (CreateNetwork 5 1 "lan" "") empty.
Definition invited : Database := after (InviteMember 1 1 "bob@example.org" "admin") created.
Definition joined_ : Database := after (HandleInvitation 6 2 (Ok 1) "join") invited.

Lemma reachable_joined : portal_reachable empty joined_.
Proof.
  unfold joined_, invited, created, after. eapply pr_step; [|apply ps_handle].
  eapply pr_step; [|apply ps_invite]. eapply pr_step; [apply pr_start|apply ps_create].
Qed.
Lemma network_references_valid_witness :
  exists n, n ∈ db_networks joined_ /\ n_ID n = 1.
Proof.
  destruct (network_references_valid (HG := Memory.gorm) empty joined_ (eq_refl true) eq_refl eq_refl reachable_joined) as [Hm _].
  destruct (Hm (mkNetworkUser 2 6 2 1 "admin")) as (n & Hn & Hid); [vm_compute; right; by left|].
  exists n. split; [exact Hn|exact Hid].
Defined.

Lemma delete_network_complete_witness :
  gresult (DeleteNetwork 1 1) joined_ = Ok true /\
  forall nu, nu ∈ db_networkUsers (after (DeleteNetwork 1 1) joined_) <-> nu ∈ db_networkUsers joined_ /\ nu_NetworkID nu <> 1.
Proof.
  split; [by vm_compute|].
  exact (proj1 (proj2 (delete_network_complete 1 1 joined_ (after (DeleteNetwork 1 1) joined_) (Ok true) eq_refl))).
Defined.

Lemma nobody_removes_others_witness :
  length (db_networkUsers joined_) = 2%nat /\ gresult (DeleteNetworkUser 1 2 1) joined_ <> Ok 2.
Proof.
  split; [by vm_compute|]. intros Hr. unfold gresult in Hr. destruct (DeleteNetworkUser 1 2 1 joined_) as [d' r] eqn:Hd.
  cbn [snd] in Hr. subst r. revert Hd.
  apply (nobody_removes_others 1 2 1 joined_ (mkNetworkUser 2 6 2 1 "admin")); [done|by vm_compute|right; by left].
Defined.


Lemma role_changes_need_owner_witness :
  exists nu, nu ∈ db_networkUsers joined_ /\ nu_UserID nu = 1 /\ nu_Role nu = RoleTypeOwner.
Proof.
  destruct (role_changes_need_owner 1 2 1 "member" joined_ (after (ChangeNetworkMemberRole 1 2 1 "member") joined_) "member")
    as ((nu & H1 & _ & H2 & H3) & _); [by vm_compute|]. by exists nu.
Defined.

(** The only owner makes himself a member: nobody can manage the network any
    more. *)
Example owner_demotes_himself :
  gresult (ChangeNetworkMemberRole 1 1 1 "member") created = Ok "member"%string /\
  filter (fun nu => nu_Role nu = RoleTypeOwner) (db_networkUsers (after (ChangeNetworkMemberRole 1 1 1 "member") created)) = [].
Proof. by vm_compute. Qed.

(** A member can be invited and join again: two memberships. *)
Example member_joins_twice :
  let d := after (InviteMember 1 1 "bob@example.org" "member") joined_ in
  let d := after (HandleInvitation 7 2 (Ok 1) "join") d in
  length (filter (fun nu => member_of 1 2 nu = true) (db_networkUsers d)) = 2%nat.
Proof. by vm_compute. Qed.

(** An error after the insertions leaves the network behind: they are
    transactions of their own. *)
Example create_network_not_atomic :
  let gorm_failing := {| sql_find := @sql_find Memory.gorm; sql_first := @sql_first Memory.gorm;
    sql_count := fun _ _ _ => Err (EExt "lost connection"); sql_create := @sql_create Memory.gorm;
    sql_delete := @sql_delete Memory.gorm; sql_update := @sql_update Memory.gorm; tx_error_kept := true; first_keyed := true |} in
  let r := CreateNetwork (HG := gorm_failing) 5 1 "lan" "" empty in
  snd r = Err (EExt "lost connection") /\ length (db_networks (fst r)) = 1%nat /\ length (db_networkUsers (fst r)) = 1%nat.
Proof. by vm_compute. Qed.
End PortalExample.
