(* ===== verification/PortalInternal.v ===== *)
(** The portal's interface to nodes and relay servers:
    [portal/api/api_internal.go], the server's state and [preload] of
    [portal/api/server.go], and the device handlers of
    [portal/api/api_device.go].  The relay servers' records are shared by two
    maps, so they live in a heap. *)
From stdpp Require Import pretty.
From S2P Require Import Prelude Wire Noise Credential PortalDb PortalNetwork.
#[local] Set Warnings "-clear-no-such-hyp".

Definition credentialLease : Z := 3600 * Second.

(** [server].  [sv_heap] holds the records the maps point to; [sv_publicKey]
    is the cached text of the public key. *)
Record server := mkServer {
  sv_db : Database;
  sv_byAddr : gmap string nat;
  sv_byID : gmap Z nat;
  sv_heap : gmap nat Row.RelayServer;
  sv_publicKey : string }.

Definition sv_set_db (d : Database) (s : server) : server :=
  mkServer d (sv_byAddr s) (sv_byID s) (sv_heap s) (sv_publicKey s).
Definition sv_set_relays (a : gmap string nat) (i : gmap Z nat) (h : gmap nat Row.RelayServer) (s : server) : server :=
  mkServer (sv_db s) a i h (sv_publicKey s).

(** base64, [net.ParseIP] and the version of the request's context. *)
Class Encoding := {
  b64_encode : bytes -> string;
  b64_decode : string -> result bytes;
  net_ParseIP : string -> bytes }.

Definition address_of (host : string) (port : Z) : string := (host ++ ":" ++ pretty port)%string.

Section Internal.
Context `{HG : Gorm} `{HS : Signature} `{HE : Encoding}.

Abbreviation S := (GoM server).

(** A query or transaction of the handlers. *)
Definition on_db {A} (q : GoM Database A) : S A := fun s =>
  match q (sv_db s) with (d, r) => (sv_set_db d s, r) end.
(** The record behind an entry of [relayServers.byID]. *)
Definition relay_by_id (s : server) (id : ID) : option Row.RelayServer :=
  l ← sv_byID s !! id; sv_heap s !! l.

Definition wire_relay (r : Row.RelayServer) : Wire.RelayServer :=
  Wire.mkRelayServer (r_ID r) (r_Name r) (r_Region r) (r_Host r) (r_Port r) (r_STUNPort r) (r_PublicKey r).

(** [preload] after [server] was made.  The loop variable is one object: every
    entry points to it, and it holds the row of the last iteration. *)
Definition preload_loop (l : nat) (s : server) (r : Row.RelayServer) : server :=
  sv_set_relays (<[address_of (r_Host r) (r_Port r) := l]> (sv_byAddr s)) (<[r_ID r := l]> (sv_byID s))
    (<[l := r]> (sv_heap s)) s.
Definition preload_ : S unit := fun s =>
  match on_db (Tx (All relayServers (fun _ => true))) s with
  | (s, Ok rs) => (foldl (preload_loop (fresh (dom (sv_heap s)))) s rs, Ok tt)
  | (s, Err e) => (s, Err e)
  | (s, Panic w) => (s, Panic w)
  end.

(** *** The peer graph *)

Definition set_lastSeen (now : Z) (d : Device) : Device :=
  mkDevice (d_ID d) (d_CreatedAt d) (d_UserID d) (d_RelayServerID d) (d_Name d) (d_OS d) (d_Version d)
    (d_MachineID d) now (d_Address d).
Definition device_at (userID : ID) (machineID : string) (d : Device) : bool :=
  (d_UserID d =? userID) && String.eqb (d_MachineID d) machineID.
Definition peer_of (now : Z) (d : Device) : Peer :=
  mkPeer (d_ID d) (d_UserID d) (d_Name d) (d_Address d) (d_RelayServerID d) (now - 600 * Second <? d_LastSeen d).

(** [networsByID] over the memberships of the user; the name comes from the
    preloaded network. *)
Fixpoint networks_by_id (nus : list NetworkUser) (m : gmap Z Wire.Network) : GoM Database (gmap Z Wire.Network) :=
  match nus with
  | [] => mret m
  | nu :: nus =>
    n ← preload networks (nu_NetworkID nu);
    name ← deref_assoc n_Name n;
    networks_by_id nus (<[nu_NetworkID nu := Wire.mkNetwork (nu_ID nu) name []]> m)
  end.
(** The identifiers of a user's devices among the peers. *)
Definition user_devices (ds : list Device) (userID : ID) : list PeerID :=
  map d_ID (filter (fun d => d_UserID d = userID) ds).
Fixpoint add_members (ds : list Device) (topology : list NetworkUser) (m : gmap Z Wire.Network)
  : GoM Database (gmap Z Wire.Network) :=
  match topology with
  | [] => mret m
  | nu :: topology =>
    match m !! nu_NetworkID nu with
    | None => gpanic nil_deref
    | Some n =>
      let n' := Wire.mkNetwork (nw_ID n) (nw_Name n) (nw_Peers n ++ user_devices ds (nu_UserID nu)) in
      add_members ds topology (<[nu_NetworkID nu := n']> m)
    end
  end.

Definition graph_query (now : Z) (userID : ID) (machineID : string) (nets : list ID)
  : GoM Database (list Device * list Wire.Network) := Tx (
  _ ← Try (Update devices (device_at userID machineID) (set_lastSeen now));
  ds ← PeerDevices userID;
  ds ← match ds with
       | [] => All devices (fun d => d_UserID d =? userID)
       | _ => mret ds
       end;
  mine ← All networkUsers (fun nu => nu_UserID nu =? userID);
  byID ← networks_by_id mine ∅;
  let networkIDs := map nu_NetworkID mine in
  match networkIDs with
  | [] => mret (ds, [])
  | _ =>
    topology ← All networkUsers (fun nu => bool_decide (nu_NetworkID nu ∈ networkIDs));
    byID ← add_members ds topology byID;
    mret (ds, omap (fun id => byID !! id) nets)
  end).

(** [PeerGraph]; [relays] and [nets] are the orders in which the maps of relay
    servers and networks are visited. *)
Definition PeerGraph (now : Z) (userID : ID) (machineID : string) (relays nets : list ID) : S PeerGraphResponse :=
  '(ds, networks) ← on_db (graph_query now userID machineID nets);
  s ← gget;
  let ids := filter (fun id => id ∈ map d_RelayServerID ds) relays in
  let relayServers := omap (fun id => wire_relay <$> relay_by_id s id) ids in
  mret (mkPeerGraphResponse false "" 0 relayServers (map (peer_of now) ds) networks).

(** *** Preflight *)

(** [randomRelayServerID]: the record of the entry the map yields first. *)
Definition randomRelayServerID (pick : option ID) (s : server) : ID :=
  match pick with
  | Some id => match relay_by_id s id with Some r => r_ID r | None => 0 end
  | None => 0
  end.

Definition set_relay (id : ID) (now : Z) (d : Device) : Device :=
  mkDevice (d_ID d) (d_CreatedAt d) (d_UserID d) id (d_Name d) (d_OS d) (d_Version d) (d_MachineID d) now (d_Address d).

(** The device of the request: found, moved to another relay server, or
    created with a free address. *)
Definition preflight_device (now : Z) (userID : ID) (machineID version : string) (req : PreflightRequest)
    (alive : ID -> bool) (random : ID) (candidates : list string) : GoM Database Device := Tx (
  r ← Try (One devices (device_at userID machineID));
  match r with
  | Panic w => gpanic w
  | Err e =>
    if decide (e = ErrRecordNotFound) then
      counted ← Try (Count devices (fun d => d_UserID d =? userID));
      count ← match counted with
              | Ok n => mret n
              | Err e => if decide (e = ErrRecordNotFound) then mret 0 else gthrow e
              | Panic w => gpanic w
              end;
      if MaxOwnDevice <=? count then gthrow ErrDeviceExceed
      else
        address ← NextIP candidates;
        let mk i := mkDevice i now userID random (pf_Host req) (pf_OS req) version machineID now address in
        i ← Create devices mk;
        mret (mk i)
    else gthrow e
  | Ok device =>
    if alive (d_RelayServerID device) then mret device
    else
      _ ← Update devices (fun d => d_ID d =? d_ID device) (set_relay random now);
      mret (set_relay random (d_LastSeen device) device)
  end).

Definition Preflight (now : Z) (userID : ID) (machineID version : string) (req : PreflightRequest)
    (pick : option ID) (candidates : list string) : S PreflightResponse :=
  s ← gget;
  device ← on_db (preflight_device now userID machineID version req
    (fun id => bool_decide (is_Some (sv_byID s !! id))) (randomRelayServerID pick s) candidates);
  s ← gget;
  match relay_by_id s (d_RelayServerID device) with
  | None => gthrow (EMsg ("relay server " ++ pretty (d_RelayServerID device) ++ " not found")%string)
  | Some relay =>
    credential ← glift (Credential now userID (d_ID device) (net_ParseIP (d_Address device)) credentialLease);
    mret (mkPreflightResponse (d_ID device) (d_UserID device) (d_Name device) (d_Address device) (wire_relay relay)
      (b64_encode credential) (go_div credentialLease Second))
  end.

(** [RenewCredential]. *)
Definition RenewCredential (now : Z) (credential : string) : result (string * Z) :=
  raw ← b64_decode credential;
  v ← VerifyCredential now raw;
  match v with
  | None => Err (EMsg ("invalid credential: " ++ credential)%string)
  | Some (userID, peerID, ip) =>
    newCredential ← Credential now userID peerID ip credentialLease;
    Ok (b64_encode newCredential, go_div credentialLease Second)
  end.

(** *** Relay servers *)

(** The changed fields of a record on a keepalive. *)
Definition keepalive_row (now : Z) (req : RelayKeepaliveRequest) (r : Row.RelayServer) : Row.RelayServer :=
  mkRelayServer (r_ID r) (r_Name r) (r_Region r) (r_Host r) (r_Port r)
    (if r_STUNPort r =? rk_STUNPort req then r_STUNPort r else rk_STUNPort req)
    (if String.eqb (r_PublicKey r) (rk_PublicKey req) then r_PublicKey r else rk_PublicKey req)
    (if unix_of (r_StartedAt r) =? rk_StartedAt req then r_StartedAt r
     else time_unix (go_div (rk_StartedAt req) Second) (go_rem (rk_StartedAt req) Second))
    now.
Definition new_row (now : Z) (req : RelayKeepaliveRequest) (i : ID) : Row.RelayServer :=
  mkRelayServer i (rk_Name req) (rk_Region req) (rk_Host req) (rk_Port req) (rk_STUNPort req) (rk_PublicKey req)
    (time_unix (go_div (rk_StartedAt req) Second) (go_rem (rk_StartedAt req) Second)) now.

Definition RelayKeepalive (now : Z) (req : RelayKeepaliveRequest) : S RelayKeepaliveResponse :=
  if (rk_STUNPort req =? 0) || (rk_Port req =? 0) || String.eqb (rk_Host req) "" then gthrow ErrIllegalRequest
  else
    s ← gget;
    let addr := address_of (rk_Host req) (rk_Port req) in
    _ ← match sv_byAddr s !! addr with
        | None =>
          i ← on_db (Tx (Create relayServers (new_row now req)));
          gmodify (fun s =>
            let l := fresh (dom (sv_heap s)) in
            sv_set_relays (<[addr := l]> (sv_byAddr s)) (<[i := l]> (sv_byID s)) (<[l := new_row now req i]> (sv_heap s)) s)
        | Some l =>
          match sv_heap s !! l with
          | None => gpanic nil_deref
          | Some r =>
            let r' := keepalive_row now req r in
            _ ← gmodify (fun s => sv_set_relays (sv_byAddr s) (sv_byID s) (<[l := r']> (sv_heap s)) s);
            on_db (Tx (Update relayServers (fun x => r_ID x =? r_ID r)
              (fun x => mkRelayServer (r_ID x) (r_Name x) (r_Region x) (r_Host x) (r_Port x)
                (if r_STUNPort r =? rk_STUNPort req then r_STUNPort x else rk_STUNPort req)
                (if String.eqb (r_PublicKey r) (rk_PublicKey req) then r_PublicKey x else rk_PublicKey req)
                (if unix_of (r_StartedAt r) =? rk_StartedAt req then r_StartedAt x else r_StartedAt r') now)))
          end
        end;
    s ← gget;
    synced ← on_db (Try (Tx (
      match rk_Peers req with
      | [] => gthrow (EMsg "must at least pass one ID in IDIn")
      | peers => Update devices (fun d => bool_decide (d_ID d ∈ peers)) (set_lastSeen now)
      end)));
    mret (mkRelayKeepaliveResponse (sv_publicKey s) (negb (is_ok synced))).

(** *** Devices *)

Record DeviceListItem := mkDeviceListItem {
  dl_DeviceID : ID; dl_Name : string; dl_OS : string; dl_Version : string; dl_Address : string;
  dl_LastSeen : Z; dl_Online : bool }.
(** [OrderDescByCreatedAt]. *)
Definition newest_first (a b : Device) : Prop := d_CreatedAt b <= d_CreatedAt a.
#[local] Instance newest_first_dec a b : Decision (newest_first a b).
Proof using Type. unfold newest_first. apply _. Defined.
Definition deviceList (now : Z) (userID : ID) : GoM Database (list DeviceListItem) := Tx (
  ds ← All devices (fun d => d_UserID d =? userID);
  let ds := merge_sort newest_first ds in
  mret (map (fun d => mkDeviceListItem (d_ID d) (d_Name d) (d_OS d) (d_Version d) (d_Address d) (d_LastSeen d)
    (now - AssumeOnlineDuration <? d_LastSeen d)) ds)).
Definition UserDeviceList (now : Z) (memberID : ID) : GoM Database (list DeviceListItem) :=
  if memberID =? 0 then gthrow ErrIllegalRequest else deviceList now memberID.
Definition DeviceList (now : Z) (userID : ID) : GoM Database (list DeviceListItem) := deviceList now userID.
Definition DeviceUpdate (userID deviceID : ID) (name : string) : GoM Database bool :=
  if deviceID =? 0 then gthrow ErrIllegalRequest
  else
    _ ← Tx (Update devices (fun d => (d_UserID d =? userID) && (d_ID d =? deviceID))
      (fun d => mkDevice (d_ID d) (d_CreatedAt d) (d_UserID d) (d_RelayServerID d) name (d_OS d) (d_Version d)
        (d_MachineID d) (d_LastSeen d) (d_Address d)));
    mret true.
End Internal.

(** What [net/base64] and [net] promise. *)
Class EncodingOk `{Encoding} : Prop := {
  b64_roundtrip : forall b, b64_decode (b64_encode b) = Ok b;
  parse_ip_length : forall s, zlen (net_ParseIP s) <= 16 }.

(** ** Lemmas *)

Section Facts.
Context `{HG : Gorm} `{HGk : !GormOk} `{HS : Signature} `{HE : Encoding}.

(** What identifies a device: its address, and its owner with the machine. *)
Record Ident := mkIdent { id_of : ID; owner_of : ID; machine_of : string; at_address : string }.
Definition ident (x : Device) : Ident := mkIdent (d_ID x) (d_UserID x) (d_MachineID x) (d_Address x).
Definition idents (d : Database) : list Ident := map ident (db_devices d).
Definition machine (i : Ident) : ID * string := (owner_of i, machine_of i).
Definition owned (u : ID) (l : list Ident) : Z := zlen (filter (fun i => owner_of i = u) l).
Definition registry_ok (l : list Ident) : Prop :=
  (first_keyed = false -> NoDup (map at_address l)) /\ NoDup (map machine l) /\ forall u, owned u l <= MaxOwnDevice.
(** The invariant, with devices that are there to stay. *)
Definition registry (stay : list Ident) (d : Database) : Prop := registry_ok (idents d) /\ stay ⊆ idents d.

Lemma registry_same stay d d' : idents d' ≡ₚ idents d -> registry stay d -> registry stay d'.
Proof.
  intros Hi [(H1 & H2 & H3) Hs]. split; [|by rewrite Hi]. unfold registry_ok, owned, zlen in *. setoid_rewrite Hi. done.
Qed.

Section Stay.
Context (stay : list Ident).

Lemma registry_update (p : Device -> bool) (f : Device -> Device) :
  (forall x, ident (f x) = ident x) -> gpreserves (registry stay) (Update devices p f).
Proof.
  intros Hf. apply gpres_Update. intros d l Hd Hl. apply (registry_same stay d); [|done]. unfold idents. cbn in *. rewrite Hl, map_map.
  erewrite map_ext; [done|]. intros x. by destruct (p x).
Qed.
#[local] Hint Resolve registry_update : gpres.

Lemma registry_networks nus m : gpreserves (registry stay) (networks_by_id nus m).
Proof. revert m. induction nus as [|nu nus IH]; intros m; cbn; gpres; apply IH. Qed.
Lemma registry_members ds nus m : gpreserves (registry stay) (add_members ds nus m).
Proof. revert m. induction nus as [|nu nus IH]; intros m; cbn; gpres; apply IH. Qed.
#[local] Hint Resolve registry_networks registry_members : gpres.

Lemma registry_graph now u mid nets : gpreserves (registry stay) (graph_query now u mid nets).
Proof. unfold graph_query, PeerDevices. gquery. Qed.
Lemma registry_device_update u id name : gpreserves (registry stay) (DeviceUpdate u id name).
Proof. unfold DeviceUpdate. gquery. Qed.

(** A device is created only when the user's machine has none, the user has
    fewer than ten, and nobody has the address. *)
Lemma registry_create d (mk : ID -> Device) i l :
  registry stay d -> l ≡ₚ mk i :: db_devices d ->
  (first_keyed = false -> forall v, v ∈ db_devices d -> d_Address v <> d_Address (mk i)) ->
  (forall v, v ∈ db_devices d -> machine (ident v) <> machine (ident (mk i))) ->
  owned (d_UserID (mk i)) (idents d) < MaxOwnDevice -> registry stay (set_rows devices l d).
Proof.
  intros [(H1 & H2 & H3) Hs] Hl Ha Hm Ho. assert (idents (set_rows devices l d) ≡ₚ ident (mk i) :: idents d) as Hi.
  { unfold idents. cbn. by rewrite Hl. }
  split; [|rewrite Hi; set_solver]. unfold registry_ok, owned, zlen in *. setoid_rewrite Hi. split_and!.
  - intros Hk. cbn. apply NoDup_cons. split; [|auto]. intros (j & He & (v & -> & Hv)%list_elem_of_fmap)%list_elem_of_fmap. by apply (Ha Hk v).
  - cbn. apply NoDup_cons. split; [|done]. intros (j & He & (v & -> & Hv)%list_elem_of_fmap)%list_elem_of_fmap. by apply (Hm v).
  - intros u. rewrite filter_cons. cbn [owner_of ident]. destruct (decide _) as [<-|Hne]; cbn; [|apply H3]. unfold MaxOwnDevice in *. lia.
Qed.

Lemma owned_count u d : zlen (filter (fun x : Device => (d_UserID x =? u) = true) (db_devices d)) = owned u (idents d).
Proof.
  unfold owned, idents, zlen. f_equal. induction (db_devices d) as [|x l IH]; [done|]. rewrite map_cons, !filter_cons. cbn [owner_of ident].
  destruct (Z.eqb_spec (d_UserID x) u); [rewrite !decide_True by done; cbn [length]; by rewrite IH|].
  by rewrite !decide_False by done.
Qed.
Lemma device_at_spec u mid x : device_at u mid x = true <-> machine (ident x) = (u, mid).
Proof.
  unfold device_at, machine, ident. cbn. rewrite andb_true_iff, Z.eqb_eq, String.eqb_eq. split; [by intros [-> ->]|by intros [= -> ->]].
Qed.
End Stay.
#[local] Hint Resolve registry_update : gpres.

(** What a successful device lookup of [Preflight] did: the device is the
    user's machine's, before and after. *)
Lemma preflight_device_ok now u mid ver req alive random cands d d' dev :
  preflight_device now u mid ver req alive random cands d = (d', Ok dev) ->
  machine (ident dev) = (u, mid) /\
  ((exists x, x ∈ db_devices d /\ ident x = ident dev /\
      (d' = d \/ Update devices (fun y => d_ID y =? d_ID x) (set_relay random now) d = (d', Ok tt))) \/
   (exists l, d' = set_rows devices l d /\ l ≡ₚ dev :: db_devices d /\
      (first_keyed = false -> forall v, v ∈ db_devices d -> d_Address v <> d_Address dev) /\
      (forall v, v ∈ db_devices d -> machine (ident v) <> (u, mid)) /\ owned u (idents d) < MaxOwnDevice)).
Proof.
  intros Hp%Tx_ok. revert Hp. unfold Try. cbv [mbind gom_bind].
  destruct (One devices (device_at u mid) d) as [d0 [x|e|w]] eqn:H1; [| |done].
  - apply One_ok in H1 as (-> & Hx & Hat%device_at_spec). destruct (alive _).
    + intros [= <- <-]. split; [done|]. left. exists x. split_and!; auto.
    + destruct (Update devices _ _ d) as [d2 [[]|e|w]] eqn:H2; [|done..]. intros [= <- <-]. split; [done|].
      left. exists x. split_and!; auto.
  - pose proof (One_state devices (device_at u mid) d) as Hs. rewrite H1 in Hs. cbn in Hs. subst d0.
    destruct (decide (e = ErrRecordNotFound)) as [->|]; [|done].
    unfold Count. cbv [mbind gom_bind gget glift]. cbn [rows devices].
    destruct (sql_count _ _) as [n|e|w] eqn:H2; [|destruct (decide _) as [->|]; [by apply count_found in H2|done]|done].
    apply count_ok in H2. rewrite owned_count in H2. cbv [mret gom_ret]. destruct (Z.leb_spec MaxOwnDevice n) as [|Hn]; [done|].
    destruct (NextIP cands d) as [d0 [ip|e|w]] eqn:H3; [|done..]. apply next_ip_free in H3 as (-> & _ & Hfree).
    destruct (Create devices _ d) as [d0 [i|e|w]] eqn:H4; [|done..]. apply Create_ok in H4 as (l & -> & _ & Hl & _); [|done].
    intros [= <- <-]. split; [done|]. right. exists l. split_and!; [done..| |lia].
    intros v Hv Hat%device_at_spec. unfold One in H1. cbv [mbind gom_bind gget glift] in H1. injection H1 as H1.
    pose proof (first_none _ _ _ H1 v Hv). congruence.
Qed.

Lemma registry_preflight stay now u mid ver req alive random cands :
  gpreserves (registry stay) (preflight_device now u mid ver req alive random cands).
Proof.
  intros d Hd. unfold gstate. destruct (preflight_device _ _ _ _ _ _ _ _ d) as [d' [dev|e|w]] eqn:Hp.
  - apply preflight_device_ok in Hp as (Hm & [(x & Hx & Hi & [->|Hu])|(l & -> & Hl & Ha & Hv & Ho)]); [done| |].
    + assert (gpreserves (registry stay) (Update devices (fun y => d_ID y =? d_ID x) (set_relay random now))) as Hk by by apply registry_update.
      specialize (Hk d Hd). unfold gstate in Hk. by rewrite Hu in Hk.
    + pose proof (f_equal fst Hm) as Hu. apply (registry_create stay d (fun _ => dev) 0); try done; [|by cbn in *; rewrite Hu].
      intros v Hin. rewrite Hm. by apply Hv.
  - apply Tx_err in Hp. by subst.
  - apply Tx_panic in Hp. by subst.
Qed.

(** *** The handlers *)

Lemma gpres_on_db {A} (P : Database -> Prop) (q : GoM Database A) :
  gpreserves P q -> gpreserves (fun s => P (sv_db s)) (on_db q).
Proof. intros Hq s Hs. specialize (Hq _ Hs). unfold gstate, on_db in *. by destruct (q (sv_db s)). Qed.

Lemma registry_Preflight stay now u mid ver req pick cands :
  gpreserves (fun s => registry stay (sv_db s)) (Preflight now u mid ver req pick cands).
Proof. unfold Preflight. gpres. apply (gpres_on_db (registry stay)), registry_preflight. Qed.
Lemma registry_PeerGraph stay now u mid relays nets :
  gpreserves (fun s => registry stay (sv_db s)) (PeerGraph now u mid relays nets).
Proof. unfold PeerGraph. gpres. apply (gpres_on_db (registry stay)), registry_graph. Qed.
Lemma registry_Keepalive stay now req : gpreserves (fun s => registry stay (sv_db s)) (RelayKeepalive now req).
Proof.
  assert (forall p f, gpreserves (registry stay) (Update relayServers p f)) as Hu by (intros p f; apply gpres_Update; by intros).
  assert (forall mk, gpreserves (registry stay) (Create relayServers mk)) as Hc.
  { intros mk d Hd. unfold gstate, Create. cbv [mbind gom_bind gget glift]. by destruct (sql_create _ _ _) as [[]| |]. }
  unfold RelayKeepalive. gpres; try (apply gpres_modify; done);
    apply (gpres_on_db (registry stay)); gquery.
  apply gpres_Try, gpres_Tx. gquery.
Qed.

Lemma Preflight_ok now u mid ver req pick cands s s' r :
  Preflight now u mid ver req pick cands s = (s', Ok r) ->
  exists dev relay cred alive random,
    preflight_device now u mid ver req alive random cands (sv_db s) = (sv_db s', Ok dev) /\
    relay_by_id s' (d_RelayServerID dev) = Some relay /\
    Credential now u (d_ID dev) (net_ParseIP (d_Address dev)) credentialLease = Ok cred /\
    r = mkPreflightResponse (d_ID dev) (d_UserID dev) (d_Name dev) (d_Address dev) (wire_relay relay) (b64_encode cred)
      (go_div credentialLease Second).
Proof.
  unfold Preflight, on_db. cbv [mbind gom_bind gget]. destruct (preflight_device _ _ _ _ _ _ _ _ _) as [d' [dev|e|w]] eqn:Hp; [|done..].
  destruct (relay_by_id _ _) as [relay|] eqn:Hr; [|done]. unfold glift. destruct (Credential _ _ _ _ _) as [cred|e|w] eqn:Hc; [|done..].
  intros [= <- <-]. eexists dev, relay, cred, _, _. split_and!; [exact Hp|exact Hr|exact Hc|done].
Qed.

Lemma preflight_ident stay now u mid ver req alive random cands d d' dev :
  registry stay d -> preflight_device now u mid ver req alive random cands d = (d', Ok dev) ->
  machine (ident dev) = (u, mid) /\ ident dev ∈ idents d'.
Proof.
  intros [Hok _] Hp. pose proof (preflight_device_ok _ _ _ _ _ _ _ _ _ _ _ Hp) as (Hm & Hc). split; [done|].
  destruct Hc as [(x & Hx & Hi & _)|(l & -> & Hl & _)].
  - assert (registry [ident dev] d) as Hk.
    { split; [done|]. intros j Hj%list_elem_of_singleton. rewrite Hj, <- Hi. by apply list_elem_of_fmap_2. }
    pose proof (registry_preflight [ident dev] now u mid ver req alive random cands d Hk) as [_ Hs].
    unfold gstate in Hs. rewrite Hp in Hs. apply Hs. by left.
  - unfold idents. cbn. rewrite Hl. by left.
Qed.

Lemma machine_unique (l : list Ident) i j :
  NoDup (map machine l) -> i ∈ l -> j ∈ l -> machine i = machine j -> i = j.
Proof.
  induction l as [|k l IH]; [by intros _ ?%elem_of_nil|]. cbn. intros [Hk Hn]%NoDup_cons Hi Hj He.
  apply elem_of_cons in Hi as [->|Hi]; apply elem_of_cons in Hj as [->|Hj]; [done| | |by apply IH].
  - exfalso. apply Hk. rewrite He. by apply list_elem_of_fmap_2.
  - exfalso. apply Hk. rewrite <- He. by apply list_elem_of_fmap_2.
Qed.

(** ** Properties *)

(** One request to the portal; the others leave the devices alone. *)
Inductive registry_step : server -> server -> Prop :=
| rs_preflight now u mid ver req pick cands s : registry_step s (gstate (Preflight now u mid ver req pick cands) s)
| rs_graph now u mid relays nets s : registry_step s (gstate (PeerGraph now u mid relays nets) s)
| rs_keepalive now req s : registry_step s (gstate (RelayKeepalive now req) s)
| rs_update u id name s : registry_step s (gstate (on_db (DeviceUpdate u id name)) s)
| rs_other s s' : db_devices (sv_db s') = db_devices (sv_db s) -> registry_step s s'.

Lemma registry_steps stay s s' :
  rtc registry_step s s' -> registry stay (sv_db s) -> registry stay (sv_db s').
Proof.
  induction 1 as [|s s1 s' Hs _ IH]; [done|]. intros Hr. apply IH. destruct Hs as [| | | |s s1 He].
  - by apply (registry_Preflight stay).
  - by apply (registry_PeerGraph stay).
  - by apply (registry_Keepalive stay).
  - by apply (gpres_on_db (registry stay)), Hr; apply registry_device_update.
  - apply (registry_same stay (sv_db s)); [|done]. unfold idents. by rewrite He.
Qed.

(** Whatever requests arrive and whatever the database
    answers, no machine of a user is registered twice, no user owns more than
    ten devices, and a device that is registered keeps its identifier, owner,
    machine and address.  No two devices share an address either, provided
    the allocator's queries ask for the address alone
    ([address_given_twice] is what happens when they do not). *)
Theorem device_registry_invariant s s' :
  registry_ok (idents (sv_db s)) -> rtc registry_step s s' ->
  (first_keyed = false -> NoDup (map d_Address (db_devices (sv_db s')))) /\
  NoDup (map (fun x => (d_UserID x, d_MachineID x)) (db_devices (sv_db s'))) /\
  (forall u, zlen (filter (fun x : Device => (d_UserID x =? u) = true) (db_devices (sv_db s'))) <= MaxOwnDevice) /\
  idents (sv_db s) ⊆ idents (sv_db s').
Proof.
  intros Hok Hs. destruct (registry_steps (idents (sv_db s)) s s' Hs) as [(H1 & H2 & H3) Hi]; [by split|].
  unfold idents in H1, H2. rewrite map_map in H1, H2. split_and!; [exact H1|exact H2| |done].
  intros u. rewrite owned_count. apply H3.
Qed.

(** C24 (functional).  A machine that runs the preflight again, however many
    requests later, is given the device identifier and the address it had:
    nothing in between can take them from it. *)
Theorem preflight_is_stable s s1 s2 s3 u mid now1 ver1 req1 pick1 cands1 r1 now2 ver2 req2 pick2 cands2 r2 :
  registry_ok (idents (sv_db s)) ->
  Preflight now1 u mid ver1 req1 pick1 cands1 s = (s1, Ok r1) -> rtc registry_step s1 s2 ->
  Preflight now2 u mid ver2 req2 pick2 cands2 s2 = (s3, Ok r2) ->
  pfr_ID r2 = pfr_ID r1 /\ pfr_IPv4 r2 = pfr_IPv4 r1 /\ pfr_UserID r1 = u /\ pfr_UserID r2 = u.
Proof.
  intros Hok H1 Hs H2.
  assert (registry [] (sv_db s)) as Hr by (split; [done|set_solver]).
  pose proof (registry_Preflight [] now1 u mid ver1 req1 pick1 cands1 s Hr) as Hr1. unfold gstate in Hr1. rewrite H1 in Hr1. cbn in Hr1.
  apply Preflight_ok in H1 as (dev1 & ? & ? & ? & ? & Hd1 & _ & _ & ->).
  apply (preflight_ident []) in Hd1 as [Hm1 Hi1]; [|done].
  pose proof (registry_steps [ident dev1] s1 s2 Hs) as Hr2. destruct Hr2 as [Hr2 Hi2].
  { split; [apply Hr1|]. by intros j ->%list_elem_of_singleton. }
  assert (registry [ident dev1] (sv_db s2)) as Hr2' by done.
  pose proof (registry_Preflight [ident dev1] now2 u mid ver2 req2 pick2 cands2 s2 Hr2') as Hr3. unfold gstate in Hr3. rewrite H2 in Hr3. cbn in Hr3.
  apply Preflight_ok in H2 as (dev2 & ? & ? & ? & ? & Hd2 & _ & _ & ->).
  apply (preflight_ident [ident dev1]) in Hd2 as [Hm2 Hi3]; [|done].
  destruct Hr3 as [(_ & Hn & _) Hi4].
  assert (ident dev1 = ident dev2) as He.
  { apply (machine_unique (idents (sv_db s3))); [done|apply Hi4; by left|done|congruence]. }
  cbn. unfold ident in He. injection He as E1 E2 E3 E4. unfold machine in Hm1. cbn in Hm1. split_and!; congruence.
Qed.

(** *** The peer graph *)

(** [u] and [v] are members of a network both belong to. *)
Definition shares (d : Database) (u v : ID) : Prop :=
  exists nu nu', nu ∈ db_networkUsers d /\ nu' ∈ db_networkUsers d /\ nu_UserID nu = u /\ nu_UserID nu' = v /\
    nu_NetworkID nu = nu_NetworkID nu'.

(** A device of a member of the user's networks; the user's own when there is
    none. *)
Definition neighbour (d : Database) (u : ID) (x : Device) : Prop :=
  x ∈ db_devices d /\
  (shares d u (d_UserID x) \/ (d_UserID x = u /\ forall y, y ∈ db_devices d -> ~ shares d u (d_UserID y))).

(** The identifiers of the table stay distinct in the selection. *)
Definition distinct_devices (d : Database) (l : list Device) : Prop :=
  NoDup (map d_ID (db_devices d)) -> NoDup (map d_ID l).
Lemma selected_distinct d p (l : list Device) : l ≡ₚ filter (fun x => p x = true) (rows devices d) -> distinct_devices d l.
Proof using Type.
  intros Hl Hn. rewrite Hl. cbn in *. eapply sublist_NoDup; [exact Hn|]. apply fmap_sublist, sublist_filter.
Qed.

Lemma PeerDevices_ok u d d' l :
  tx_error_kept = true -> PeerDevices u d = (d', Ok l) ->
  d' = d /\ (forall x, x ∈ l <-> x ∈ db_devices d /\ shares d u (d_UserID x)) /\ distinct_devices d l.
Proof.
  intros Ht Hp. apply Scan_ok in Hp; [|done]. revert Hp. cbv [mbind gom_bind].
  destruct (All networkUsers _ d) as [d0 [mine|e|w]] eqn:H1; [|done..]. apply All_ok in H1 as (-> & H1).
  destruct (All networkUsers _ d) as [d0 [members|e|w]] eqn:H2; [|done..]. apply All_ok in H2 as (-> & H2).
  intros (-> & H3)%All_ok. split; [done|]. split; [|exact (selected_distinct _ _ _ H3)]. intros x.
  rewrite H3, list_elem_of_filter, bool_decide_eq_true, list_elem_of_fmap. cbn [rows devices networkUsers] in *. unfold shares. split.
  - intros [(nu' & Hu & Hm) Hx]. split; [done|]. rewrite H2, list_elem_of_filter, bool_decide_eq_true, list_elem_of_fmap in Hm.
    destruct Hm as [(nu & Hn & Hi) Hm]. rewrite H1, list_elem_of_filter in Hi. destruct Hi as [Hi%Z.eqb_eq Hin].
    by exists nu, nu'.
  - intros [Hx (nu & nu' & Hin & Hin' & Hu & Hv & Hn)]. split; [|done]. exists nu'. split; [done|].
    rewrite H2, list_elem_of_filter, bool_decide_eq_true. split; [|done]. rewrite list_elem_of_fmap. exists nu.
    split; [done|]. rewrite H1, list_elem_of_filter, Z.eqb_eq. done.
Qed.

(** The networks of the response carry the identifier of the membership. *)
Definition from_memberships (nus : list NetworkUser) (m : gmap Z Wire.Network) : Prop :=
  forall k n, m !! k = Some n -> exists nu, nu ∈ nus /\ nu_NetworkID nu = k /\ nw_ID n = nu_ID nu.

Lemma networks_by_id_ok all nus m d d' m' :
  (forall nu, nu ∈ nus -> nu ∈ all) -> from_memberships all m -> networks_by_id nus m d = (d', Ok m') ->
  d' = d /\ from_memberships all m'.
Proof.
  revert m. induction nus as [|nu nus IH]; intros m Hin Hm; cbn; [by intros [= <- <-]|]. cbv [mbind gom_bind].
  destruct (preload networks _ d) as [d1 [o|e|w]] eqn:H1; [|done..].
  assert (d1 = d) as ->.
  { revert H1. unfold preload. cbv [mbind gom_bind]. destruct (All _ _ d) as [d2 [l|e|w]] eqn:H2; [|done..].
    apply All_ok in H2 as (-> & _). by intros [= <- _]. }
  destruct o as [n|]; cbn; [|done]. apply IH; [intros; apply Hin; by right|].
  intros k n' Hk. destruct (decide (nu_NetworkID nu = k)) as [<-|Hne].
  - rewrite lookup_insert_eq in Hk. injection Hk as <-. exists nu. split; [apply Hin; by left|done].
  - rewrite lookup_insert_ne in Hk by done. by apply Hm.
Qed.
Lemma add_members_ok all ds nus m d d' m' :
  from_memberships all m -> add_members ds nus m d = (d', Ok m') -> d' = d /\ from_memberships all m'.
Proof.
  revert m. induction nus as [|nu nus IH]; intros m Hm; cbn; [by intros [= <- <-]|].
  destruct (m !! nu_NetworkID nu) as [n|] eqn:Hn; [|done]. apply IH. intros k n' Hk.
  destruct (decide (nu_NetworkID nu = k)) as [<-|Hne].
  - rewrite lookup_insert_eq in Hk. injection Hk as <-. destruct (Hm _ _ Hn) as (x & ? & ? & ?). by exists x.
  - rewrite lookup_insert_ne in Hk by done. by apply Hm.
Qed.

Lemma graph_query_ok now u mid nets d d' ds nws :
  tx_error_kept = true -> graph_query now u mid nets d = (d', Ok (ds, nws)) ->
  (forall x, x ∈ ds <-> neighbour d' u x) /\ distinct_devices d' ds /\
  (forall n, n ∈ nws -> exists nu, nu ∈ db_networkUsers d' /\ nu_UserID nu = u /\ nw_ID n = nu_ID nu).
Proof.
  intros Ht Hq%Tx_ok. revert Hq. cbv [mbind gom_bind]. destruct (Try _ d) as [d1 [x|e|w]]; [|done..]. clear x.
  destruct (PeerDevices u d1) as [d2 [ds0|e|w]] eqn:H1; [|done..]. apply PeerDevices_ok in H1 as (-> & H1 & Hn0); [|done].
  set (q := match ds0 with [] => _ | _ => _ end). destruct (q d1) as [d3 [ds1|e|w]] eqn:H2; [|done..].
  assert (d3 = d1 /\ (forall x, x ∈ ds1 <-> neighbour d1 u x) /\ distinct_devices d1 ds1) as (-> & Hds & Hdist).
  { unfold q in H2. unfold neighbour. destruct ds0 as [|x0 ds0].
    - apply All_ok in H2 as (-> & H2). split_and!; [done| |exact (selected_distinct _ _ _ H2)].
      assert (forall y, y ∈ db_devices d1 -> ~ shares d1 u (d_UserID y)) as Hno by (intros y Hy Hs; apply (not_elem_of_nil y), H1; done).
      intros x. rewrite H2, list_elem_of_filter. cbn. rewrite Z.eqb_eq. split; [tauto|]. intros [Hx [Hs|[? _]]]; [by destruct (Hno x)|done].
    - injection H2 as <- <-. split_and!; [done| |done]. intros x. rewrite H1. split; [tauto|]. intros [Hx [Hs|[_ Hno]]]; [done|].
      destruct (proj1 (H1 x0)) as [Hx0 Hs0]; [by left|]. by destruct (Hno x0). }
  destruct (All networkUsers _ d1) as [d4 [mine|e|w]] eqn:H3; [|done..]. apply All_ok in H3 as (-> & H3).
  destruct (networks_by_id mine ∅ d1) as [d5 [m|e|w]] eqn:H4; [|done..].
  eapply (networks_by_id_ok mine) in H4 as [-> Hm]; [|done|done].
  assert (forall m' : gmap Z Wire.Network, from_memberships mine m' -> forall n, n ∈ omap (fun id => m' !! id) nets ->
    exists nu, nu ∈ db_networkUsers d1 /\ nu_UserID nu = u /\ nw_ID n = nu_ID nu) as Hnet.
  { intros m' Hm' n (k & _ & Hk)%list_elem_of_omap. destruct (Hm' k n Hk) as (nu & Hnu & _ & Hid).
    rewrite H3, list_elem_of_filter, Z.eqb_eq in Hnu. exists nu. tauto. }
  set (q2 := match map nu_NetworkID mine with [] => _ | _ => _ end). intros H5.
  assert (d' = d1 /\ ds = ds1 /\ forall n, n ∈ nws -> exists nu, nu ∈ db_networkUsers d1 /\ nu_UserID nu = u /\ nw_ID n = nu_ID nu)
    as (-> & -> & Hn); [|by split_and!].
  unfold q2 in H5. destruct (map nu_NetworkID mine).
  { injection H5 as <- <- <-. split_and!; [done..|]. by intros n ?%elem_of_nil. }
  revert H5. destruct (All networkUsers _ d1) as [d6 [topology|e|w]] eqn:H6; [|done..]. apply All_ok in H6 as (-> & _).
  destruct (add_members _ _ _ d1) as [d7 [m'|e|w]] eqn:H7; [|done..]. eapply (add_members_ok mine) in H7 as [-> Hm']; [|done].
  intros [= <- <- <-]. split_and!; [done..|]. by apply Hnet.
Qed.

(** What [PeerGraph] answers. *)
Lemma PeerGraph_ok now u mid relays nets s s' resp :
  tx_error_kept = true -> PeerGraph now u mid relays nets s = (s', Ok resp) ->
  pg_NotModified resp = false /\
  (forall p, p ∈ pg_Peers resp <-> exists x, neighbour (sv_db s') u x /\ p = peer_of now x) /\
  (NoDup (map d_ID (db_devices (sv_db s'))) -> NoDup (map pr_ID (pg_Peers resp))) /\
  (forall w, w ∈ pg_RelayServers resp <-> exists p r, p ∈ pg_Peers resp /\ pr_ServerID p ∈ relays /\
     relay_by_id s' (pr_ServerID p) = Some r /\ w = wire_relay r) /\
  (forall n, n ∈ pg_Networks resp -> exists nu, nu ∈ db_networkUsers (sv_db s') /\ nu_UserID nu = u /\ nw_ID n = nu_ID nu).
Proof.
  intros Ht. unfold PeerGraph, on_db. cbv [mbind gom_bind gget mret gom_ret].
  destruct (graph_query now u mid nets (sv_db s)) as [d' [[ds nws]|e|w]] eqn:Hq; [|done..].
  apply graph_query_ok in Hq as (H1 & H2 & H3); [|done]. intros [= <- <-].
  cbn [pg_NotModified pg_Peers pg_RelayServers pg_Networks sv_db sv_set_db]. split_and!; [done| | | |exact H3].
  - intros p. rewrite list_elem_of_fmap. setoid_rewrite H1. split; intros (x & ? & ?); by exists x.
  - intros Hn. rewrite map_map. by apply H2.
  - intros w. rewrite list_elem_of_omap. split.
    + intros (id & [(x & -> & Hx)%list_elem_of_fmap Hid]%list_elem_of_filter & (r & Hr & ->)%fmap_Some).
      exists (peer_of now x), r. split_and!; [by apply list_elem_of_fmap_2|done|done|done].
    + intros (p & r & (x & -> & Hx)%list_elem_of_fmap & Hrel & Hr & ->). exists (d_RelayServerID x). split.
      * apply list_elem_of_filter. split; [by apply list_elem_of_fmap_2|exact Hrel].
      * apply fmap_Some. by exists r.
Qed.


(** *** Preloading *)

Lemma filter_all (l : list Row.RelayServer) : filter (fun _ => true = true) l = l.
Proof. induction l as [|x l IH]; [done|]. rewrite filter_cons, decide_True by done. by rewrite IH. Qed.
Lemma preload_loop_fold l rs s :
  let s' := foldl (preload_loop l) s rs in
  (sv_heap s' !! l = match rs with [] => sv_heap s !! l | _ => last rs end) /\
  (forall id, sv_byID s !! id = Some l \/ id ∈ map r_ID rs -> sv_byID s' !! id = Some l).
Proof.
  revert s. induction rs as [|r rs IH]; intros s; cbn; [split; [done|]; by intros id [?|?%elem_of_nil]|].
  destruct (IH (preload_loop l s r)) as [H1 H2]. split.
  - rewrite H1. destruct rs; [|done]. cbn. by rewrite lookup_insert_eq.
  - intros id Hid. apply H2. cbn. destruct (decide (r_ID r = id)) as [<-|Hne]; [left; by rewrite lookup_insert_eq|].
    destruct Hid as [Hid|Hid]; [left; by rewrite lookup_insert_ne by done|]. apply elem_of_cons in Hid as [->|Hid]; [done|by right].
Qed.

(** After a restart the portal takes every relay server for
    one and the same: each identifier of the database leads to the record the
    loop visited last, so every node is told to use that server and peers of
    other servers are unreachable through theirs. *)
Theorem preload_aliases_relays s s' :
  db_relayServers (sv_db s) <> [] -> preload_ s = (s', Ok tt) ->
  exists last, last ∈ db_relayServers (sv_db s) /\
    forall r, r ∈ db_relayServers (sv_db s) -> relay_by_id s' (r_ID r) = Some last.
Proof.
  intros Hne. unfold preload_, on_db. destruct (Tx _ (sv_db s)) as [d' [rs|e|w]] eqn:Hq; [|done..].
  apply Tx_ok, All_ok in Hq as (-> & Hrs). cbn in Hrs. rewrite filter_all in Hrs. intros [= <-].
  set (l := fresh _). destruct (preload_loop_fold l rs (sv_set_db (sv_db s) s)) as [H1 H2].
  destruct rs as [|r rs]; [by apply Permutation_nil_l in Hrs|].
  destruct (last (r :: rs)) as [x|] eqn:Hx; [|by apply last_None in Hx].
  exists x. split; [rewrite <- Hrs; by apply last_Some_elem_of|]. intros r' Hr'. rewrite <- Hrs in Hr'.
  unfold relay_by_id, mbind, option_bind. rewrite H2 by (right; by apply list_elem_of_fmap_2). by rewrite H1.
Qed.

(** *** Credentials *)

Context `{HSk : !SignatureOk} `{HEk : !EncodingOk}.

(** A credential for an address of the registry, until its lease is over. *)
Lemma credential_verifies t u dev addr c : 0 <= u < 2 ^ 64 -> 0 <= dev < 2 ^ 64 ->
  minInt64 <= unix_of (t + credentialLease) <= maxInt64 -> Credential t u dev (net_ParseIP addr) credentialLease = Ok c ->
  forall t', VerifyCredential t' c = if unix_of t' <=? unix_of (t + credentialLease) then Ok (Some (u, dev, net_ParseIP addr)) else Ok None.
Proof.
  intros Hu Hi Hb HC t'. apply (credential_roundtrip t); try done. pose proof (parse_ip_length addr). lia.
Qed.
(** The credential of an answer to the preflight. *)
Lemma preflight_credential now u mid ver req pick cands s s' r :
  Preflight now u mid ver req pick cands s = (s', Ok r) ->
  0 <= u < 2 ^ 64 -> 0 <= pfr_ID r < 2 ^ 64 -> minInt64 <= unix_of (now + credentialLease) <= maxInt64 ->
  exists raw, b64_decode (pfr_Credential r) = Ok raw /\ forall t', VerifyCredential t' raw =
    if unix_of t' <=? unix_of (now + credentialLease) then Ok (Some (u, pfr_ID r, net_ParseIP (pfr_IPv4 r))) else Ok None.
Proof.
  intros (dev & relay & raw & ? & ? & _ & _ & Hc & ->)%Preflight_ok Hu Hi Ht. cbn [pfr_ID pfr_Credential pfr_IPv4] in *.
  exists raw. split; [apply b64_roundtrip|by apply credential_verifies].
Qed.

(** C13 (roundtrip).  The credential a node gets from the preflight decodes
    and verifies, for its user, its device and the address it was told, until
    the lease is over; renewing it works only until then, and gives a credential
    for the same identity whose lease starts at the renewal. *)
Theorem credential_lifecycle now u mid ver req pick cands s s' r :
  Preflight now u mid ver req pick cands s = (s', Ok r) ->
  0 <= u < 2 ^ 64 -> 0 <= pfr_ID r < 2 ^ 64 -> minInt64 <= unix_of (now + credentialLease) <= maxInt64 ->
  let good t cred := exists raw, b64_decode cred = Ok raw /\ forall t', VerifyCredential t' raw =
    if unix_of t' <=? unix_of (t + credentialLease) then Ok (Some (u, pfr_ID r, net_ParseIP (pfr_IPv4 r))) else Ok None in
  good now (pfr_Credential r) /\
  forall t cred n, minInt64 <= unix_of (t + credentialLease) <= maxInt64 ->
    RenewCredential t (pfr_Credential r) = Ok (cred, n) -> unix_of t <= unix_of (now + credentialLease) /\ good t cred.
Proof.
  intros Hp Hu Hi Ht. pose proof (preflight_credential _ _ _ _ _ _ _ _ _ _ Hp Hu Hi Ht) as (raw & Hraw & Hv).
  split; [by exists raw|]. apply Preflight_ok in Hp as (dev & relay & raw0 & ? & ? & _ & _ & _ & ->).
  cbn [pfr_ID pfr_Credential pfr_IPv4] in *.
  intros t cred n Hb. unfold RenewCredential. rewrite Hraw. cbv [mbind result_bind]. rewrite (Hv t).
  destruct (Z.leb_spec (unix_of t) (unix_of (now + credentialLease))) as [Hle|]; [|done].
  destruct (Credential t u (d_ID dev) _ _) as [c|e|w] eqn:Hn; [|done..]. intros [= <- _]. split; [done|].
  exists c. split; [apply b64_roundtrip|by apply credential_verifies].
Qed.
End Facts.

(** ** Witnesses *)

Module InternalExample.
#[local] Existing Instances Memory.gorm Memory.gorm_ok Toy.signature Toy.signature_ok.
(** Texts that are their own bytes, and addresses that are their first
    sixteen. *)
#[local] Instance encoding : Encoding := {|
  b64_encode := String.string_of_list_byte;
  b64_decode s := Ok (String.list_byte_of_string s);
  net_ParseIP s := take 16 (String.list_byte_of_string s) |}.
#[local] Instance encoding_ok : EncodingOk.
Proof.
  split; [intros b; unfold b64_decode, b64_encode, encoding; by rewrite String.list_byte_of_string_of_list_byte|].
  intros s. cbn. unfold zlen. rewrite length_take. lia.
Qed.

Definition relay_a : Row.RelayServer := mkRelayServer 1 "a" "eu" "a.example.org" 2020 3478 "keyA" 0 0.
Definition relay_b : Row.RelayServer := mkRelayServer 2 "b" "us" "b.example.org" 2020 3478 "keyB" 0 0.
(** Alice and Bob share a network whose identifier is 7. *)
Definition tables : Database := mkDatabase [mkUser 1 0 "alice@x" "" "alice" ""; mkUser 2 0 "bob@x" "" "bob" ""] []
  [mkNetwork 7 0 1 "lan" ""] [mkNetworkUser 1 0 1 7 "owner"; mkNetworkUser 2 0 2 7 "member"] [] [relay_a; relay_b] [] [].
Definition fresh_server : server := mkServer tables ∅ ∅ ∅ "portal".
Definition started : server := gstate preload_ fresh_server.
Definition hello : PreflightRequest := mkPreflightRequest "linux" "laptop".
Definition first_preflight : server * result PreflightResponse :=
  Preflight 0 1 "m1" "v1" hello (Some 1) ["10.0.0.2"] started.
Definition bob_preflight : server * result PreflightResponse :=
  Preflight 0 2 "m2" "v1" hello (Some 2) ["10.0.0.2"; "10.0.0.3"] (fst first_preflight).
Definition again : server * result PreflightResponse :=
  Preflight Second 1 "m1" "v2" hello (Some 2) ["10.0.0.9"] (fst bob_preflight).
Definition answer (r : server * result PreflightResponse) : PreflightResponse :=
  match snd r with Ok r => r | _ => mkPreflightResponse 0 0 "" "" (Wire.mkRelayServer 0 "" "" "" 0 0 "") "" 0 end.

Lemma no_devices (d : Database) : db_devices d = [] -> registry_ok (idents d).
Proof.
  intros Hd. unfold registry_ok, idents, owned. rewrite Hd. split_and!; [intros _; apply NoDup_nil_2|apply NoDup_nil_2|]. intros u. by vm_compute.
Qed.

Lemma device_registry_invariant_witness :
  NoDup (map (fun x => (d_UserID x, d_MachineID x)) (db_devices (sv_db (fst bob_preflight)))) /\ length (db_devices (sv_db (fst bob_preflight))) = 2%nat.
Proof.
  split; [|by vm_compute].
  apply (device_registry_invariant started (fst bob_preflight)); [by apply no_devices|].
  eapply rtc_l; [apply rs_preflight|]. eapply rtc_l; [apply rs_preflight|]. apply rtc_refl.
Defined.

Lemma preflight_is_stable_witness : pfr_ID (answer again) = pfr_ID (answer first_preflight) /\ pfr_IPv4 (answer again) = "10.0.0.2"%string.
Proof.
  destruct (preflight_is_stable started (fst first_preflight) (fst bob_preflight) (fst again) 1 "m1" 0 "v1" hello (Some 1) ["10.0.0.2"]
    (answer first_preflight) Second "v2" hello (Some 2) ["10.0.0.9"] (answer again)) as (H1 & H2 & _).
  - by apply no_devices.
  - by vm_compute.
  - eapply rtc_l; [apply rs_preflight|]. apply rtc_refl.
  - by vm_compute.
  - split; [exact H1|]. rewrite H2. by vm_compute.
Defined.


(** The first address drawn is in use, so the second is given away without
    looking: the query asks for the device that has the first one. *)
Example address_given_twice :
  let carol := fst (Preflight 2 1 "m3" "v1" hello (Some 1) ["10.0.0.2"; "10.0.0.3"] (fst bob_preflight)) in
  map (fun x => (d_ID x, d_Address x)) (db_devices (sv_db carol)) =
    [(1, "10.0.0.2"); (2, "10.0.0.3"); (3, "10.0.0.3")]%string.
Proof. by vm_compute. Qed.

(** The network of identifier 7 is announced under that of Alice's membership. *)
Example announced_under_membership :
  map (fun n => (nw_ID n, nw_Peers n)) (match snd (PeerGraph Second 1 "m1" [2; 1] [7] (fst bob_preflight)) with
    | Ok r => pg_Networks r | _ => [] end) = [(1, [1; 2])].
Proof. by vm_compute. Qed.

Lemma preload_aliases_relays_witness :
  exists last, forall r, r ∈ [relay_a; relay_b] -> relay_by_id started (r_ID r) = Some last.
Proof.
  destruct (preload_aliases_relays fresh_server started) as (x & _ & Hx); [done|by vm_compute|]. by exists x.
Defined.

(** The node of relay server [a] is told to connect to [b]. *)
Example told_the_wrong_server : rs_Name (pfr_PrimaryServer (answer first_preflight)) = "b"%string.
Proof. by vm_compute. Qed.

Lemma credential_lifecycle_witness :
  let good t cred := exists raw, b64_decode cred = Ok raw /\ forall t', VerifyCredential t' raw =
    if unix_of t' <=? unix_of (t + credentialLease)
    then Ok (Some (1, pfr_ID (answer first_preflight), net_ParseIP (pfr_IPv4 (answer first_preflight)))) else Ok None in
  good 0 (pfr_Credential (answer first_preflight)).
Proof.
  apply (credential_lifecycle 0 1 "m1" "v1" hello (Some 1) ["10.0.0.2"] started (fst first_preflight)); by vm_compute.
Defined.

(** A keepalive of a relay server without peers always reports a failed
    synchronisation, and always replaces the start time: nanoseconds are compared
    with seconds. *)
Definition beat : RelayKeepaliveRequest := mkRelayKeepaliveRequest "c" "eu" "c.example.org" 2020 3478 "keyC" [] (5 * Second).
Example idle_relay_never_synced :
  match snd (RelayKeepalive 0 beat started) with Ok r => rkr_SyncFailed r = true | _ => False end.
Proof. by vm_compute. Qed.
Example start_time_always_replaced :
  let s := fst (RelayKeepalive 0 beat started) in
  match relay_by_id s 3 with
  | Some r => r_StartedAt r = 5 * Second /\ (unix_of (r_StartedAt r) =? rk_StartedAt beat) = false
  | None => False
  end.
Proof. by vm_compute. Qed.
End InternalExample.
