(* ===== verification/PortalAuth.v ===== *)
(** Who a request to the portal comes from: the validators of
    [portal/api/plugins.go], the keys of [portal/api/api_key.go], the profile
    handlers of [api_user.go] and [api_setting.go], and signing in through
    GitHub ([portal/api/api_sso.go], [portal/sso/], [models/write_query.go]).
    The database and the key-value store are one state. *)
From S2P Require Import Prelude GoText Jwt Wire PortalDb.
#[local] Set Warnings "-clear-no-such-hyp".

(** ** Requests and contexts *)

(** The headers of an [http.Request] the validators read. *)
Record Request := mkRequest { rq_Authorization : string; rq_MachineID : string; rq_ClientVersion : string }.
(** The values of a [context.Context]; absent ones read as zero. *)
Record Ctx := mkCtx { cx_UserID : ID; cx_MachineID : string; cx_AuthKeyID : ID; cx_Version : string }.
Definition Background : Ctx := mkCtx 0 "" 0 "".
Definition ContextWithUserID (c : Ctx) (u : ID) : Ctx := mkCtx u (cx_MachineID c) (cx_AuthKeyID c) (cx_Version c).
Definition ContextWithMachineID (c : Ctx) (m : string) : Ctx := mkCtx (cx_UserID c) m (cx_AuthKeyID c) (cx_Version c).
Definition ContextWithAuthKeyID (c : Ctx) (k : ID) : Ctx := mkCtx (cx_UserID c) (cx_MachineID c) k (cx_Version c).
Definition withVersion (c : Ctx) (v : string) : Ctx := mkCtx (cx_UserID c) (cx_MachineID c) (cx_AuthKeyID c) v.

(** [extractToken]. *)
Definition extractToken (raw : string) : result (string * string) := ExtractToken_ ErrInvalidToken raw.

(** [version.MajorVersion]. *)
Definition MajorVersion : Z := 0.

Section Auth.
Context `{HG : Gorm} `{HJ : JwtLib} `{HL : LedisDB}.
#[local] Existing Instance LedisStore.store.

Record State := mkState { st_db : Database; st_store : ldb }.
Abbreviation S := (GoM State).
Definition on_tables {A} (q : GoM Database A) : S A := fun s =>
  match q (st_db s) with (d, r) => (mkState d (st_store s), r) end.
Definition on_store {A} (m : GoM ldb A) : S A := fun s =>
  match m (st_store s) with (l, r) => (mkState (st_db s) l, r) end.
(** A call whose error the code replaces by its own. *)
Definition replace_error {A} (e : error) (m : S A) : S A := fun s =>
  match m s with (s', Err _) => (s', Err e) | r => r end.

(** ** Validators *)

Definition key_is (key : string) (k : AuthKey) : bool := String.eqb (k_Key k) key.
Definition peerAuthKeyValidator (ctx : Ctx) (key machineID : string) : S Ctx :=
  r ← on_tables (Try (Tx (One authKeys (key_is key))));
  match r with
  | Panic w => gpanic w
  | Err e => if decide (e = ErrRecordNotFound) then gthrow ErrNotFound else gthrow ErrServerInternal
  | Ok authKey =>
    if bool_decide (is_Some (k_DeletedAt authKey)) then gthrow ErrInvalidToken
    else if String.eqb (k_Type authKey) KeyTypeOneOff && negb (String.eqb (k_MachineID authKey) machineID)
            && negb (String.eqb (k_MachineID authKey) "") then gthrow ErrInvalidToken
    else mret (ContextWithAuthKeyID (ContextWithMachineID (ContextWithUserID ctx (k_UserID authKey)) machineID) (k_ID authKey))
  end.

Definition peerOneoffValidator (now : Z) (ctx : Ctx) (key machineID : string) : S Ctx :=
  val ← replace_error ErrInvalidToken (on_store (store_Get now key));
  match val with
  | None => gpanic "interface conversion: interface {} is nil, not string"
  | Some val =>
    match parse_uint val with
    | (_, Some _) => gthrow ErrInvalidToken
    | (userID, None) => mret (ContextWithMachineID (ContextWithUserID ctx userID) machineID)
    end
  end.

Definition tokenValidator (o : options) (now : Z) (ctx : Ctx) (r : Request) : S Ctx :=
  '(prefix, token) ← glift (extractToken (rq_Authorization r));
  if negb (String.eqb prefix PrefixAuthKey) && negb (String.eqb prefix PrefixJwtToken)
     && negb (String.eqb prefix PrefixFastKey) then gthrow ErrInvalidToken
  else
    let machineID := rq_MachineID r in
    if String.eqb prefix PrefixAuthKey then peerAuthKeyValidator ctx token machineID
    else if String.eqb prefix PrefixFastKey then peerOneoffValidator now ctx token machineID
    else
      a ← replace_error ErrInvalidToken (glift (ExtractTokenMetadata o now (rq_Authorization r)));
      match a with
      | None => gpanic "invalid memory address or nil pointer dereference"
      | Some a =>
        if negb (String.eqb (ad_MachineID a) machineID) then gthrow ErrInvalidToken
        else
          userID ← replace_error ErrInvalidToken (on_store (FetchAuth now a));
          mret (ContextWithAuthKeyID (ContextWithMachineID (ContextWithUserID ctx userID) machineID) (ad_AuthKeyID a))
      end.

(** [peerTokenValidator]; [semver] gives the major version of a text. *)
Definition peerTokenValidator (semver : string -> result Z) (o : options) (now : Z) (ctx : Ctx) (r : Request) : S Ctx :=
  let v := rq_ClientVersion r in
  if String.eqb v "" then gthrow ErrIllegalRequest
  else
    major ← glift (semver v);
    if major <? MajorVersion then gthrow ErrIllegalRequest
    else tokenValidator o now (withVersion ctx v) r.

Definition relayAuthKeyValidator (relayAuthKey : string) (ctx : Ctx) (r : Request) : result Ctx :=
  if negb (String.eqb (rq_Authorization r) relayAuthKey) then Err ErrInvalidAuthKey else Ok ctx.

(** ** Keys ([api_key.go]) *)

Record KeyListItem := mkKeyListItem {
  kl_KeyID : ID; kl_Type : string; kl_Key : string; kl_Created : Z; kl_Expiry : Z; kl_Enabled : bool }.
Definition key_newest (a b : AuthKey) : Prop := k_CreatedAt b <= k_CreatedAt a.
#[local] Instance key_newest_dec a b : Decision (key_newest a b).
Proof using Type. unfold key_newest. apply _. Defined.

(** [key.Key[:12] + "..."]. *)
Definition abridged (key : string) : result string :=
  if Nat.ltb (String.length key) 12 then Panic "slice bounds out of range"
  else Ok (String.substring 0 12 key ++ "...")%string.
Fixpoint key_items (keys : list AuthKey) : result (list KeyListItem) :=
  match keys with
  | [] => Ok []
  | k :: keys =>
    key ← abridged (k_Key k);
    rest ← key_items keys;
    Ok (mkKeyListItem (k_ID k) (k_Type k) key (k_CreatedAt k) (k_ExpiredAt k) (k_Enabled k) :: rest)
  end.
Definition KeyList (userID : ID) : S (list KeyListItem) :=
  keys ← on_tables (Tx (All authKeys (fun k => k_UserID k =? userID)));
  glift (key_items (merge_sort key_newest keys)).

(** [newKey] is the hexadecimal text of the identifier drawn; the column
    [Enabled] is true by default. *)
Definition CreateKey (now : Z) (newKey : string) (userID : ID) (typ : string) : S KeyListItem :=
  if negb (String.eqb typ KeyTypeOneOff) && negb (String.eqb typ KeyTypeReusable) then gthrow ErrIllegalRequest
  else
    let key := ("pmkey-" ++ newKey)%string in
    let expiry := now + 90 * 24 * 3600 * Second in
    i ← on_tables (db_Create authKeys (fun i => mkAuthKey i now None userID typ key "" expiry true));
    mret (mkKeyListItem i typ key now expiry true).

(** [None] is the nil response without an error. *)
Definition set_enabled (b : bool) (k : AuthKey) : AuthKey :=
  mkAuthKey (k_ID k) (k_CreatedAt k) (k_DeletedAt k) (k_UserID k) (k_Type k) (k_Key k) (k_MachineID k) (k_ExpiredAt k) b.
Definition ChangeKey (userID keyID : ID) (op : string) : S (option unit) :=
  if negb (String.eqb op "enable") && negb (String.eqb op "disable") then gthrow ErrIllegalRequest
  else if keyID =? 0 then mret None
  else
    _ ← on_tables (Tx (Update authKeys (fun k => (k_UserID k =? userID) && (k_ID k =? keyID))
      (set_enabled (String.eqb op "enable"))));
    mret (Some tt).
Definition DeleteKey (userID keyID : ID) : S (option unit) :=
  if keyID =? 0 then mret None
  else
    _ ← on_tables (Tx (Delete authKeys (fun k => (k_UserID k =? userID) && (k_ID k =? keyID))));
    mret (Some tt).

Definition set_machine (m : string) (k : AuthKey) : AuthKey :=
  mkAuthKey (k_ID k) (k_CreatedAt k) (k_DeletedAt k) (k_UserID k) (k_Type k) (k_Key k) m (k_ExpiredAt k) (k_Enabled k).
(** [ExchangeKey]: the access and the refresh token. *)
Definition ExchangeKey (o : options) (now : Z) (uuid : string) (ctx : Ctx) : S (string * string) :=
  let machineID := cx_MachineID ctx in
  let keyID := cx_AuthKeyID ctx in
  if keyID =? 0 then on_store (CreateTokenPair o now uuid (cx_UserID ctx) machineID 0 keyID true)
  else
    authKey ← on_tables (Tx (One authKeys (fun k => k_ID k =? keyID)));
    tokens ← on_store (CreateTokenPair o now uuid (k_UserID authKey) machineID 0 keyID true);
    _ ← (if String.eqb (k_Type authKey) KeyTypeOneOff && String.eqb (k_MachineID authKey) "" then
           on_tables (Tx (Update authKeys (fun k => k_ID k =? keyID) (set_machine machineID)))
         else mret tt);
    mret tokens.

(** The route of key exchange: the validator of peers, then the handler. *)
Definition peer_exchange (semver : string -> result Z) (o : options) (now : Z) (uuid : string) (r : Request) : S (string * string) :=
  ctx ← peerTokenValidator semver o now Background r; ExchangeKey o now uuid ctx.

(** ** Profiles *)

Record UserProfileResponse := mkUserProfileResponse {
  up_UserID : ID; up_Name : string; up_Email : string; up_Avatar : string; up_Origin : string; up_CreateDate : Z }.
Definition UserProfile (userID : ID) : S UserProfileResponse := on_tables (Tx (
  user ← One users (fun u => u_ID u =? userID);
  mret (mkUserProfileResponse userID (u_Name user) (u_Email user) (u_Avatar user) (u_Origin user)
    (go_div (u_CreatedAt user) 1000000)))).

(** The response is the name and the email; only what is given and differs is
    written. *)
Definition UserProfileSetting (userID : ID) (name email : string) : S (string * string) :=
  if String.eqb name "" && String.eqb email "" then gthrow ErrIllegalRequest
  else on_tables (Tx (
    user ← One users (fun u => u_ID u =? userID);
    if String.eqb name (u_Name user) && String.eqb email (u_Email user) then mret (u_Name user, u_Email user)
    else
      let name' := if String.eqb name "" then u_Name user else name in
      let email' := if String.eqb email "" then u_Email user else email in
      _ ← Update users (fun u => u_ID u =? userID)
        (fun u => mkUser (u_ID u) (u_CreatedAt u)
          (if negb (String.eqb email "") && negb (String.eqb email (u_Email user)) then email else u_Email u) (u_Avatar u)
          (if negb (String.eqb name "") && negb (String.eqb name (u_Name user)) then name else u_Name u) (u_Origin u));
      mret (name', email'))).

(** ** Signing in with GitHub *)

(** The answer of GitHub's user request. *)
Record GithubAnswer := mkGithubAnswer {
  ga_ID : Z; ga_Login : string; ga_AvatarURL : string; ga_Location : string; ga_Email : string }.
Definition zero_user : User := mkUser 0 0 "" "" "" "".

(** [CreateUser]: the account and its link to the user. *)
Definition CreateUser (user : ID -> User) (ssoUser : ID -> ID -> GithubUser) : GoM Database unit :=
  userID ← Create users user;
  _ ← Create githubUsers (ssoUser userID);
  mret tt.

(** [UserInfo] after the answer was decoded; [build] is the outcome of
    [BuildUser], whose secrets are not modelled.  The variable of the new
    user hides the one that is returned. *)
Definition github_user (now : Z) (build : result unit) (gh : GithubAnswer) : GoM Database (User * bool) := Tx (
  r ← Try (One githubUsers (fun g => g_GithubID g =? u64 (ga_ID gh)));
  match r with
  | Panic w => gpanic w
  | Err e =>
    if decide (e = ErrRecordNotFound) then
      _ ← glift build;
      _ ← CreateUser (fun i => mkUser i now (ga_Email gh) (ga_AvatarURL gh) (ga_Login gh) "github")
        (fun userID i => mkGithubUser i userID (u64 (ga_ID gh)) (ga_Login gh) (ga_AvatarURL gh) (ga_Location gh));
      mret (zero_user, true)
    else gthrow e
  | Ok githubUser =>
    user ← One users (fun u => u_ID u =? g_UserID githubUser);
    if String.eqb (u_Name user) (ga_Login gh) && String.eqb (u_Avatar user) (ga_AvatarURL gh) then mret (user, false)
    else
      _ ← Update users (fun u => u_ID u =? g_UserID githubUser)
        (fun u => mkUser (u_ID u) (u_CreatedAt u) (u_Email u)
          (if String.eqb (u_Avatar user) (ga_AvatarURL gh) then u_Avatar u else ga_AvatarURL gh)
          (if String.eqb (u_Name user) (ga_Login gh) then u_Name u else ga_Login gh) (u_Origin u));
      mret (user, false)
  end).

(** [GithubAuthCallback]: [token] and [answer] are the outcomes of the
    provider's requests, [client] of decoding the client's information. *)
Record CallbackResponse := mkCallbackResponse {
  cb_NotifyClient : Z; cb_AccessToken : string; cb_ID : ID; cb_Name : string; cb_Avatar : string; cb_Origin : string }.
Definition GithubAuthCallback (o : options) (now : Z) (uuid code client : string) (token : result unit)
    (answer : result GithubAnswer) (build : result unit) (decoded : result (Z * string)) : S CallbackResponse :=
  if String.eqb code "" then gthrow (EMsg "illegal parameter, no code")
  else
    _ ← glift token;
    gh ← glift answer;
    '(user, _) ← on_tables (github_user now build gh);
    '(port, machine) ← glift (if String.eqb client "" then Ok (0, ""%string) else decoded);
    ts ← glift (CreateToken o now uuid (u_ID user) machine 0 0 false);
    _ ← on_store (CreateAuth now (u_ID user) ts);
    mret (mkCallbackResponse port (td_AccessToken ts) (u_ID user) (u_Name user) (u_Avatar user) (u_Origin user)).

(** [AuthCodeURL]: the state stored is not the one in the address; [url] is
    the provider's. *)
Definition AuthCodeURL (url : string -> string -> string) (now : Z) (redirect client state1 state2 : string) : S string :=
  _ ← gignore (on_store (store_Set now state1 client (30 * Second)));
  mret (url (redirect ++ "/login/auth/callback/github?client=" ++ client)%string state2).
Definition SSOMethods (url : string -> string -> string) (now : Z) (redirect client state1 state2 : string)
  : S (list (string * string)) :=
  link ← AuthCodeURL url now redirect client state1 state2; mret [("GitHub"%string, link)].

(** [Logout]: every error is only logged. *)
Definition mark_deleted (now : Z) (k : AuthKey) : AuthKey :=
  mkAuthKey (k_ID k) (k_CreatedAt k) (Some now) (k_UserID k) (k_Type k) (k_Key k) (k_MachineID k) (k_ExpiredAt k) (k_Enabled k).
Definition Logout_ (o : options) (now : Z) (r : Request) : S unit :=
  match ExtractTokenMetadata o now (rq_Authorization r) with
  | Err _ => mret tt
  | Panic w => gpanic w
  | Ok None => gpanic "invalid memory address or nil pointer dereference"
  | Ok (Some metadata) => gignore (
    _ ← on_store (Logout metadata);
    if ad_AuthKeyID metadata =? 0 then mret tt
    else on_tables (Tx (
      authKey ← One authKeys (fun k => k_ID k =? ad_AuthKeyID metadata);
      if negb (String.eqb (k_Type authKey) KeyTypeEphemeral) then mret tt
      else Update authKeys (fun k => k_ID k =? ad_AuthKeyID metadata) (mark_deleted now))))
  end.
End Auth.

(** ** Lemmas *)

Section Facts.
Context `{HG : Gorm} `{HGk : !GormOk} `{HJ : JwtLib} `{HL : LedisDB} `{HLk : !LedisOk}.
#[local] Existing Instance LedisStore.store.

(** What the store answers at an instant: the value, or no text at all. *)
Definition stored (now : Z) (k : string) (s : State) : string :=
  default EmptyString ('(v, e) ← view (st_store s) !! k; if now <? e then Some v else None).

Lemma FetchAuth_ok now a s s' u :
  on_store (FetchAuth now a) s = (s', Ok u) -> s' = s /\ u = fst (parse_uint (stored now (ad_AccessUUID a) s)).
Proof.
  unfold on_store, FetchAuth. cbv [mbind gom_bind]. cbn [store_Get LedisStore.store].
  destruct (LedisStore.Get now _ (st_store s)) as [d [o|e|w]] eqn:Hg; [|done..].
  apply Get_ok in Hg as [-> ->]. intros [= <- <-]. split; [by destruct s|done].
Qed.

Lemma on_tables_ok {A} (q : GoM Database A) s s' a :
  on_tables q s = (s', Ok a) -> q (st_db s) = (st_db s', Ok a) /\ st_store s' = st_store s.
Proof. unfold on_tables. destruct (q (st_db s)) as [d r]. intros [= <- ->]. done. Qed.

Lemma authkey_ok ctx key m s s' ctx' :
  peerAuthKeyValidator ctx key m s = (s', Ok ctx') ->
  s' = s /\ exists k, k ∈ db_authKeys (st_db s) /\ k_Key k = key /\ k_DeletedAt k = None /\
    (k_Type k = KeyTypeOneOff -> k_MachineID k = m \/ k_MachineID k = ""%string) /\
    ctx' = ContextWithAuthKeyID (ContextWithMachineID (ContextWithUserID ctx (k_UserID k)) m) (k_ID k).
Proof.
  unfold peerAuthKeyValidator, on_tables, Try, Tx. cbv [mbind gom_bind].
  destruct (One authKeys (key_is key) (st_db s)) as [d [k|e|w]] eqn:H1; [|by destruct (decide _)|done].
  apply One_ok in H1 as (-> & Hin & Hk%String.eqb_eq). case_bool_decide as Hdel; [done|].
  destruct (String.eqb_spec (k_Type k) KeyTypeOneOff) as [Ht|Ht]; cbn [andb].
  - destruct (String.eqb_spec (k_MachineID k) m) as [Hm|Hm]; cbn [andb negb];
      [|destruct (String.eqb_spec (k_MachineID k) "") as [He|He]; [|done]];
      intros [= <- <-]; (split; [by destruct s|]); exists k; split_and!; auto; destruct (k_DeletedAt k); auto; exfalso; eauto.
  - intros [= <- <-]. split; [by destruct s|]. exists k. split_and!; auto; [|done]. destruct (k_DeletedAt k); auto. exfalso; eauto.
Qed.

(** What lets a request pass as the user, the key and the machine of a
    context. *)
Definition entitled (o : options) (now : Z) (r : Request) (s : State) (ctx' : Ctx) : Prop :=
  cx_MachineID ctx' = rq_MachineID r /\
  exists prefix token, extractToken (rq_Authorization r) = Ok (prefix, token) /\
  ((prefix = PrefixAuthKey /\ exists k, k ∈ db_authKeys (st_db s) /\ k_Key k = token /\ k_DeletedAt k = None /\
      (k_Type k = KeyTypeOneOff -> k_MachineID k = rq_MachineID r \/ k_MachineID k = ""%string) /\
      cx_UserID ctx' = k_UserID k /\ cx_AuthKeyID ctx' = k_ID k) \/
   (prefix = PrefixFastKey /\ parse_uint (stored now token s) = (cx_UserID ctx', None)) \/
   (prefix = PrefixJwtToken /\ exists claims uuid u, VerifyToken now token (accessSecret o) = Ok claims /\
      claims !! "access_uuid"%string = Some (CString uuid) /\ claims !! "user_id"%string = Some (CString u) /\
      claims !! "machine_id"%string = Some (CString (rq_MachineID r)) /\
      cx_UserID ctx' = fst (parse_uint (stored now uuid s)))).

Lemma tokenValidator_ok o now ctx r s s' ctx' :
  tokenValidator o now ctx r s = (s', Ok ctx') -> s' = s /\ entitled o now r s ctx'.
Proof.
  unfold entitled, tokenValidator. cbv [mbind gom_bind glift]. destruct (extractToken _) as [[prefix token]|e|w] eqn:Hx; [|done..].
  destruct (String.eqb_spec prefix PrefixAuthKey) as [Hp|Hp]; [|destruct (String.eqb_spec prefix PrefixFastKey) as [Hf|Hf]].
  - cbn [negb andb]. intros Ha. apply authkey_ok in Ha as (-> & k & H1 & H2 & H3 & H4 & ->).
    split_and!; [done..|]. exists prefix, token. split; [done|]. left. split; [done|]. by exists k.
  - rewrite andb_false_r. unfold peerOneoffValidator, replace_error, on_store. cbv [mbind gom_bind].
    cbn [store_Get LedisStore.store]. destruct (LedisStore.Get now token _) as [d [v|e|w]] eqn:Hg; [|done..].
    apply Get_ok in Hg as [-> ->]. fold (stored now token s). destruct (parse_uint _) as [u [e|]] eqn:Hu; [done|].
    intros [= <- <-]. split_and!; [by destruct s|done|]. exists prefix, token. split; [done|]. right; left. done.
  - destruct (String.eqb_spec prefix PrefixJwtToken) as [Hj|]; [|done]. cbn [negb andb].
    unfold replace_error at 1. unfold ExtractTokenMetadata.
    assert (ExtractToken (rq_Authorization r) = Ok (prefix, token)) as ->.
    { unfold extractToken, ExtractToken, ExtractToken_ in *. by destruct (split_on space _) as [|a [|b [|]]]. }
    cbv [mbind result_bind]. destruct (VerifyToken now token _) as [claims|e|w] eqn:Hv; [|done..].
    destruct (claims !! "access_uuid"%string) as [[uuid| |]|] eqn:H1; try done.
    destruct (claims !! "user_id"%string) as [[u| |]|] eqn:H2; try done. cbn [as_string].
    destruct (parse_uint u) as [id [e|]]; [done|].
    destruct (claims !! "machine_id"%string) as [[m| |]|] eqn:H3; try done.
    set (key := match claims !! "auth_key_id"%string with None => _ | _ => _ end).
    destruct key as [[a|]|e|w] eqn:Hkey; [|done..].
    assert (ad_AccessUUID a = uuid /\ ad_MachineID a = m) as [Ha Hm].
    { unfold key in Hkey. destruct (claims !! "auth_key_id"%string) as [[| |]|]; cbn in Hkey; by simplify_eq. }
    destruct (String.eqb_spec (ad_MachineID a) (rq_MachineID r)) as [He|]; [|done]. cbn [negb]. unfold replace_error.
    destruct (on_store (FetchAuth now a) s) as [s1 [x|e|w]] eqn:Hg; [|done..]. apply FetchAuth_ok in Hg as [-> ->].
    intros [= <- <-]. split_and!; [done..|]. exists prefix, token. split; [done|]. right; right. split; [done|].
    exists claims, uuid, u. rewrite Ha. split_and!; auto. congruence.
Qed.

(** Whoever gets past [tokenValidator] held one of three
    things: an authentication key of the user that is still there and, if it
    is one-off, not bound to another machine; the key of an entry of the
    store whose text is the user's identifier; or a token signed with the
    access secret for the very machine of the request, the user being the one
    the store has for that token. *)
Theorem accepted_requests_are_owned o now ctx r s s' ctx' :
  tokenValidator o now ctx r s = (s', Ok ctx') -> s' = s /\ cx_MachineID ctx' = rq_MachineID r /\
  exists prefix token, extractToken (rq_Authorization r) = Ok (prefix, token) /\
  ((prefix = PrefixAuthKey /\ exists k, k ∈ db_authKeys (st_db s) /\ k_Key k = token /\ k_DeletedAt k = None /\
      (k_Type k = KeyTypeOneOff -> k_MachineID k = rq_MachineID r \/ k_MachineID k = ""%string) /\
      cx_UserID ctx' = k_UserID k /\ cx_AuthKeyID ctx' = k_ID k) \/
   (prefix = PrefixFastKey /\ parse_uint (stored now token s) = (cx_UserID ctx', None)) \/
   (prefix = PrefixJwtToken /\ exists claims uuid u, VerifyToken now token (accessSecret o) = Ok claims /\
      claims !! "access_uuid"%string = Some (CString uuid) /\ claims !! "user_id"%string = Some (CString u) /\
      claims !! "machine_id"%string = Some (CString (rq_MachineID r)) /\
      cx_UserID ctx' = fst (parse_uint (stored now uuid s)))).
Proof. apply tokenValidator_ok. Qed.

(** *** Issued tokens *)

Context `{HJk : !JwtLibOk}.

Definition bearer (tok : string) : string := (PrefixJwtToken ++ String space tok)%string.

(** What happens to an issued access token depends on the clock, the machine
    and what the store has for it. *)
Lemma issued_token_outcome o now uuid u m v k ne tok t ctx r s :
  CreateToken o now uuid u m v k ne = Ok tok -> 0 <= u < 2 ^ 64 ->
  Z.abs v <= 2 ^ 53 -> Z.abs k <= 2 ^ 53 -> Z.abs (td_AccessExpiry tok) <= 2 ^ 53 ->
  rq_Authorization r = bearer (td_AccessToken tok) ->
  tokenValidator o t ctx r s =
    if (unix_of t <=? td_AccessExpiry tok) && String.eqb m (rq_MachineID r) then
      match LGet t uuid (st_store s) with
      | Ok _ => (s, Ok (mkCtx (fst (parse_uint (stored t uuid s))) m k (cx_Version ctx)))
      | Err _ => (s, Err ErrInvalidToken)
      | Panic w => (s, Panic w)
      end
    else (s, Err ErrInvalidToken).
Proof.
  intros Hc Hu Hv Hk He Hr.
  destruct (access_token_verifies o now uuid u m v k ne t tok Hc Hv Hk He) as (Hb & _).
  pose proof (issued_token_extracts o now uuid u m v k ne t tok PrefixJwtToken Hc eq_refl Hu Hv Hk He) as Hx.
  fold (bearer (td_AccessToken tok)) in Hx. unfold tokenValidator. rewrite Hr.
  assert (extractToken (bearer (td_AccessToken tok)) = Ok (PrefixJwtToken, td_AccessToken tok)) as ->.
  { unfold extractToken, bearer. by rewrite ExtractToken_two. }
  cbv [mbind gom_bind glift].
  change (String.eqb PrefixJwtToken PrefixAuthKey) with false. change (String.eqb PrefixJwtToken PrefixFastKey) with false.
  change (String.eqb PrefixJwtToken PrefixJwtToken) with true. cbn [negb andb]. unfold replace_error at 1. rewrite Hx.
  destruct (unix_of t <=? td_AccessExpiry tok); [|done]. cbn [ad_MachineID andb].
  destruct (String.eqb_spec m (rq_MachineID r)) as [Hm|]; [|done]. cbn [negb].
  unfold replace_error, on_store, FetchAuth, stored. cbv [mbind gom_bind]. cbn [store_Get LedisStore.store ad_AccessUUID].
  unfold LedisStore.Get. destruct (LGet t uuid (st_store s)) as [x|e|w] eqn:Hg; [|by destruct s..].
  apply get_view in Hg as ->. destruct s. cbn. by rewrite Hm.
Qed.

(** What an issued pair leaves: the token it came with, its expiration, and
    the entry of the store with the instant it disappears. *)
Definition pair_expiry (o : options) (now : Z) (ne : bool) : Z := if ne then noExpiryTimestamp else unix_of (now + accessTokenTTL o).
Definition entry_gone (now exp : Z) : Z := now + go_div (time_sub (exp * Second) now) Second * Second.
Lemma issued_pair o now uuid u m v k ne s s' access refresh :
  on_store (CreateTokenPair o now uuid u m v k ne) s = (s', Ok (access, refresh)) ->
  0 <= u < 2 ^ 63 -> Z.abs v <= 2 ^ 53 -> Z.abs k <= 2 ^ 53 -> Z.abs (pair_expiry o now ne) <= 2 ^ 53 ->
  exists tok, CreateToken o now uuid u m v k ne = Ok tok /\ td_AccessToken tok = access /\
    td_AccessExpiry tok = pair_expiry o now ne /\ st_db s' = st_db s /\
    forall t, fst (parse_uint (stored t uuid s')) = if t <? entry_gone now (pair_expiry o now ne) then u else 0.
Proof.
  intros Hp Hu Hv Hk He. revert Hp. unfold on_store, CreateTokenPair. cbv [mbind gom_bind glift].
  destruct (CreateToken o now uuid u m v k ne) as [tok|e|w] eqn:Hc; [|done..].
  destruct (CreateAuth now u tok (st_store s)) as [d [[]|e|w]] eqn:Ha; [|done..]. intros [= <- <- <-].
  assert (td_AccessExpiry tok = pair_expiry o now ne) as Hexp.
  { unfold CreateToken in Hc. cbv [mbind result_bind] in Hc. destruct (SignedString _ _); [|done..].
    destruct (SignedString _ _); [|done..]. by injection Hc as <-. }
  destruct (access_token_verifies o now uuid u m v k ne now tok Hc Hv Hk) as (_ & _ & _ & _ & _ & _ & _ & Hid & Hrid); [by rewrite Hexp|].
  exists tok. split_and!; [done..|]. intros t. unfold stored. cbn [st_store]. apply CreateAuth_ok in Ha. cbn zeta in Ha.
  rewrite Ha, Hid, Hrid, Hexp, lookup_insert_ne by apply refreshUUID_ne. rewrite lookup_insert_eq. cbn [mbind option_bind].
  fold (entry_gone now (pair_expiry o now ne)). destruct (t <? _); [|done]. cbn [from_option id].
  by rewrite i64_small, parse_uint_pretty by (unfold minInt64, maxInt64; lia).
Qed.

(** C27 (roundtrip).  A token the portal issued is good for its user, its
    key and its machine and no other, as long as neither its own expiration
    nor that of the store's entry has passed.  The entry goes first: from
    then until the end of the expiration's second the token is taken for one
    of user zero. *)
Theorem issued_token_authenticates o now uuid u m v k ne s s' access refresh t ctx r :
  on_store (CreateTokenPair o now uuid u m v k ne) s = (s', Ok (access, refresh)) ->
  let exp := pair_expiry o now ne in
  0 <= u < 2 ^ 63 -> Z.abs v <= 2 ^ 53 -> Z.abs k <= 2 ^ 53 -> Z.abs exp <= 2 ^ 53 ->
  (forall t k d, exists o, LGet t k d = Ok o) -> rq_Authorization r = bearer access ->
  tokenValidator o t ctx r s' =
    if (unix_of t <=? exp) && String.eqb m (rq_MachineID r)
    then (s', Ok (mkCtx (if t <? entry_gone now exp then u else 0) m k (cx_Version ctx)))
    else (s', Err ErrInvalidToken).
Proof.
  intros Hp exp Hu Hv Hk He Hget Hr. destruct (issued_pair _ _ _ _ _ _ _ _ _ _ _ _ Hp Hu Hv Hk He) as (tok & Hc & <- & Hexp & _ & Hst).
  fold exp in Hexp, Hst. rewrite (issued_token_outcome o now uuid u m v k ne tok) by (try done; rewrite ?Hexp; lia || done).
  rewrite Hexp. destruct (_ && _); [|done]. destruct (Hget t uuid (st_store s')) as [x ->]. by rewrite Hst.
Qed.

(** Signing out does not end the use of the token: the
    requests that still carry it are not refused but go on as those of user
    zero, with the machine and the key of the token, until it expires. *)
Theorem signed_out_token_is_user_zero o now uuid u m v k ne tok t1 t2 ctx r s s' :
  CreateToken o now uuid u m v k ne = Ok tok -> 0 <= u < 2 ^ 64 ->
  Z.abs v <= 2 ^ 53 -> Z.abs k <= 2 ^ 53 -> Z.abs (td_AccessExpiry tok) <= 2 ^ 53 ->
  (forall ks d, exists d', LDel ks d = Ok d') -> (forall t k d, exists o, LGet t k d = Ok o) ->
  rq_Authorization r = bearer (td_AccessToken tok) -> rq_MachineID r = m ->
  unix_of t1 <= td_AccessExpiry tok -> unix_of t2 <= td_AccessExpiry tok ->
  Logout_ o t1 r s = (s', Ok tt) ->
  tokenValidator o t2 ctx r s' = (s', Ok (mkCtx 0 m k (cx_Version ctx))).
Proof.
  intros Hc Hu Hv Hk He Hdel Hget Hr Hm H1 H2 Hl.
  rewrite (issued_token_outcome o now uuid u m v k ne tok) by done.
  destruct (Z.leb_spec (unix_of t2) (td_AccessExpiry tok)); [|lia]. rewrite Hm, String.eqb_refl. cbn [andb].
  destruct (Hget t2 uuid (st_store s')) as [x ->]. do 3 f_equal. unfold stored.
  enough (view (st_store s') !! uuid = None) as -> by done. revert Hl. unfold Logout_. rewrite Hr.
  unfold bearer. rewrite (issued_token_extracts o now uuid u m v k ne t1 tok) by done.
  destruct (Z.leb_spec (unix_of t1) (td_AccessExpiry tok)); [|lia].
  unfold gignore, on_store, Logout, DeleteTokens. cbv [mbind gom_bind]. cbn [store_Del LedisStore.store ad_AccessUUID ad_UserID ad_AuthKeyID].
  unfold LedisStore.Del. destruct (Hdel [uuid] (st_store s)) as [d1 Hd1]. rewrite Hd1.
  destruct (Hdel [refreshUUID uuid u] d1) as [d2 Hd2]. rewrite Hd2.
  assert (view d2 !! uuid = None) as Hn.
  { rewrite (del_view _ _ _ Hd2), (del_view _ _ _ Hd1). cbn. rewrite lookup_delete_ne by apply refreshUUID_ne. by rewrite lookup_delete_eq. }
  destruct (k =? 0); [by intros [= <-]|]. unfold on_tables. set (q := Tx _ _). destruct q as [d3 [[]|e|w]]; [by intros [= <-]|by intros [= <-]|done].
Qed.

(** *** One-off keys *)

Lemma gpres_on_tables {A} (P : Database -> Prop) (q : GoM Database A) :
  gpreserves P q -> gpreserves (fun s => P (st_db s)) (on_tables q).
Proof. intros Hq s Hs. specialize (Hq _ Hs). unfold gstate, on_tables in *. by destruct (q (st_db s)). Qed.
Lemma gpres_on_store {A} (P : Database -> Prop) (m : GoM ldb A) : gpreserves (fun s => P (st_db s)) (on_store m).
Proof. intros s Hs. unfold gstate, on_store. by destruct (m (st_store s)). Qed.
Lemma gpres_replace {A} (P : State -> Prop) e (m : GoM State A) : gpreserves P m -> gpreserves P (replace_error e m).
Proof. intros Hm s Hs. specialize (Hm s Hs). unfold gstate, replace_error in *. by destruct (m s) as [s' [| |]]. Qed.
#[local] Hint Resolve gpres_on_store gpres_replace : gpres.

(** The key of an identifier is one-off and bound to a machine. *)
Definition bound (i : ID) (m : string) (d : Database) : Prop :=
  NoDup (map k_ID (db_authKeys d)) /\
  exists k, k ∈ db_authKeys d /\ k_ID k = i /\ k_Type k = KeyTypeOneOff /\ k_MachineID k = m.
Lemma bound_unique i m d k :
  bound i m d -> k ∈ db_authKeys d -> k_ID k = i -> k_Type k = KeyTypeOneOff /\ k_MachineID k = m.
Proof.
  intros (Hn & k0 & Hin & Hid & Ht & Hm) Hk Hi. enough (k = k0) as -> by done.
  eapply NoDup_map_inj; [exact Hn|done..|congruence].
Qed.

Lemma bound_update i m (p : AuthKey -> bool) (f : AuthKey -> AuthKey) :
  (forall k, k_ID (f k) = k_ID k /\ k_Type (f k) = k_Type k) ->
  (forall k, p k = true -> k_ID k = i -> k_MachineID (f k) = k_MachineID k) ->
  gpreserves (bound i m) (Update authKeys p f).
Proof.
  intros Hf Hm. apply gpres_Update. intros d l (Hn & k & Hin & Hid & Ht & Hk) Hl. cbn in Hl. split; cbn.
  - rewrite Hl, map_map. erewrite map_ext; [exact Hn|]. intros x. destruct (p x); [apply Hf|done].
  - exists (if p k then f k else k). split; [rewrite Hl; by apply (list_elem_of_fmap_2 (fun k => if p k then f k else k))|].
    destruct (p k) eqn:Hp; [|done]. destruct (Hf k) as [-> ->]. by rewrite Hm.
Qed.
Lemma bound_delete i m (p : AuthKey -> bool) :
  (forall k, p k = true -> k_ID k <> i) -> gpreserves (bound i m) (Delete authKeys p).
Proof.
  intros Hp. apply gpres_Delete. intros d l (Hn & k & Hin & Hid & Ht & Hk) Hl. cbn in Hl. split; cbn.
  - rewrite Hl. clear -Hn. induction (db_authKeys d) as [|x xs IH]; [apply NoDup_nil_2|]. cbn in Hn. apply NoDup_cons in Hn as [Hx Hn].
    rewrite filter_cons. destruct (decide _); [|by apply IH]. cbn. apply NoDup_cons. split; [|by apply IH].
    intros (y & Hy & Hiny)%list_elem_of_fmap. apply list_elem_of_filter in Hiny as [_ Hiny]. apply Hx. rewrite Hy. by apply list_elem_of_fmap_2.
  - exists k. split; [|done]. rewrite Hl. apply list_elem_of_filter. split; [|done]. destruct (p k) eqn:Hpk; [|done]. by apply Hp in Hpk.
Qed.
Lemma bound_create i m mk : (forall i, k_ID (mk i) = i) -> gpreserves (bound i m) (CreateSeen authKeys mk).
Proof.
  intros Hid d Hd. unfold gstate, CreateSeen. destruct (Create authKeys mk d) as [d' [j|e|w]] eqn:Hc.
  - apply Create_ok in Hc as (l & -> & _ & Hl & Hfresh); [|done]. destruct Hd as (Hn & k & Hin & Hk). cbn in *. split.
    + cbn. rewrite Hl. cbn. apply NoDup_cons. split; [|done]. rewrite Hid. intros (x & Hx & Hix)%list_elem_of_fmap. by apply (Hfresh x).
    + exists k. split; [|done]. cbn. rewrite Hl. by right.
  - apply Create_err in Hc as ->. by destruct tx_error_kept.
  - unfold Create in Hc. cbv [mbind gom_bind gget glift] in Hc. destruct (sql_create _ _ _) as [[]| |]; cbv [gmodify mret gom_ret] in Hc; by simplify_eq.
Qed.
#[local] Hint Resolve bound_create : gpres.

Lemma bound_validator P semver o now ctx r : gpreserves (fun s => P (st_db s)) (peerTokenValidator semver o now ctx r).
Proof.
  unfold peerTokenValidator, tokenValidator, peerAuthKeyValidator, peerOneoffValidator. gpres.
  apply (gpres_on_tables P), gpres_Try, gpres_Tx, gpres_One.
Qed.

Lemma bound_ExchangeKey i m o now uuid ctx :
  m <> ""%string -> gpreserves (fun s => bound i m (st_db s)) (ExchangeKey o now uuid ctx).
Proof.
  intros Hm s Hs. unfold ExchangeKey. destruct (cx_AuthKeyID ctx =? 0); [by apply gpres_on_store|].
  unfold gstate. cbv [mbind gom_bind]. destruct (on_tables (Tx (One authKeys _)) s) as [s1 [k|e|w]] eqn:H1.
  - apply on_tables_ok in H1 as [H1 _]. apply Tx_ok, One_ok in H1 as (Hd & Hin & Hid%Z.eqb_eq). rewrite <- Hd in Hs, Hin.
    pose proof (gpres_on_store (bound i m) (CreateTokenPair o now uuid (k_UserID k) (cx_MachineID ctx) 0 (cx_AuthKeyID ctx) true) s1 Hs) as Hp.
    unfold gstate in Hp. destruct (on_store _ s1) as [s2 [p|e|w]] eqn:H2; [|done..]. cbn in Hp.
    destruct (String.eqb (k_Type k) KeyTypeOneOff && String.eqb (k_MachineID k) "") eqn:Hb; [|done].
    apply andb_true_iff in Hb as [_ He%String.eqb_eq].
    assert (gpreserves (fun s => bound i m (st_db s)) (on_tables (Tx (Update authKeys (fun k => k_ID k =? cx_AuthKeyID ctx)
      (set_machine (cx_MachineID ctx)))))) as Hu.
    { apply (gpres_on_tables (bound i m)), gpres_Tx, bound_update; [done|]. intros k0 Hk0%Z.eqb_eq Hi.
      destruct (bound_unique i m _ k Hs Hin) as [_ Hk]; congruence. }
    specialize (Hu s2 Hp). unfold gstate in Hu. by destruct (on_tables _ s2) as [s3 [[]|e|w]].
  - unfold on_tables, Tx in H1. pose proof (One_state authKeys (fun k => k_ID k =? cx_AuthKeyID ctx) (st_db s)).
    destruct (One authKeys _ _) as [? [| |]]; by simplify_eq/=.
  - unfold on_tables, Tx in H1. destruct (One authKeys _ _) as [? [| |]]; by simplify_eq/=.
Qed.

Lemma bound_Logout i m o now r : gpreserves (fun s => bound i m (st_db s)) (Logout_ o now r).
Proof.
  unfold Logout_. destruct (ExtractTokenMetadata _ _ _) as [[a|]|e|w]; gpres.
  apply (gpres_on_tables (bound i m)), gpres_Tx. gpres. by apply bound_update.
Qed.

(** One request to the portal that can touch the keys; [i] is not deleted. *)
Inductive key_step (i : ID) : State -> State -> Prop :=
| ks_exchange semver o now uuid r s : key_step i s (gstate (peer_exchange semver o now uuid r) s)
| ks_create now newKey u typ s : key_step i s (gstate (CreateKey now newKey u typ) s)
| ks_change u id op s : key_step i s (gstate (ChangeKey u id op) s)
| ks_delete u id s : id <> i -> key_step i s (gstate (DeleteKey u id) s)
| ks_logout o now r s : key_step i s (gstate (Logout_ o now r) s)
| ks_other s s' : db_authKeys (st_db s') = db_authKeys (st_db s) -> key_step i s s'.

Lemma bound_step i m s s' : m <> ""%string -> key_step i s s' -> bound i m (st_db s) -> bound i m (st_db s').
Proof.
  intros Hm Hs Hb. destruct Hs as [semver o now uuid r s|now newKey u typ s|u id op s|u id s Hne|o now r s|s s' He].
  - assert (gpreserves (fun s => bound i m (st_db s)) (peer_exchange semver o now uuid r)) as Hp; [|by apply Hp].
    unfold peer_exchange. apply gpres_bind; [apply bound_validator|]. intros ctx. by apply bound_ExchangeKey.
  - assert (gpreserves (fun s => bound i m (st_db s)) (CreateKey now newKey u typ)) as Hp; [|by apply Hp].
    unfold CreateKey, db_Create. gpres. apply (gpres_on_tables (bound i m)), gpres_Tx. by apply bound_create.
  - assert (gpreserves (fun s => bound i m (st_db s)) (ChangeKey u id op)) as Hp; [|by apply Hp].
    unfold ChangeKey. gpres. apply (gpres_on_tables (bound i m)), gpres_Tx. by apply bound_update.
  - assert (gpreserves (fun s => bound i m (st_db s)) (DeleteKey u id)) as Hp; [|by apply Hp].
    unfold DeleteKey. gpres. apply (gpres_on_tables (bound i m)), gpres_Tx. apply bound_delete.
    intros k [_ ->%Z.eqb_eq]%andb_true_iff. done.
  - by apply bound_Logout.
  - unfold bound in *. by rewrite He.
Qed.

(** C20 (invariant).  Once a one-off key is bound to a machine it stays
    bound, whatever requests follow, as long as it is not deleted, and nobody
    gets past the validator with it from another machine.  The binding is made
    by the exchange, in a transaction of its own, after the validator, so two
    machines can use a fresh key at once ([one_off_key_used_twice]). *)
Theorem one_off_key_stays_bound i m k s s' :
  NoDup (map k_ID (db_authKeys (st_db s))) -> k ∈ db_authKeys (st_db s) -> k_ID k = i ->
  k_Type k = KeyTypeOneOff -> k_MachineID k = m -> m <> ""%string -> rtc (key_step i) s s' ->
  (forall k', k' ∈ db_authKeys (st_db s') -> k_ID k' = i -> k_MachineID k' = m) /\
  forall ctx key machine s2 ctx', peerAuthKeyValidator ctx key machine s' = (s2, Ok ctx') ->
    cx_AuthKeyID ctx' = i -> machine = m.
Proof.
  intros Hn Hk Hi Ht Hm Hne Hs. assert (bound i m (st_db s')) as Hb.
  { assert (bound i m (st_db s)) as Hb by (split; [done|by exists k]). clear -Hb Hs Hne HGk.
    induction Hs as [|s s1 s' Hstep _ IH]; [done|]. apply IH. by eapply bound_step. }
  split; [intros k' Hk' Hi'; by apply (bound_unique i m (st_db s') k')|].
  intros ctx key machine s2 ctx' Hv Hid. apply authkey_ok in Hv as (_ & k' & Hin & _ & _ & Hmach & ->). cbn in Hid.
  destruct (bound_unique i m (st_db s') k' Hb Hin Hid) as [Ht' Hm']. destruct (Hmach Ht') as [He|He]; congruence.
Qed.

(** *** Signing in *)

(** The first sign-in with a GitHub account creates its user
    and signs somebody else in: the answer and the token are of user zero,
    because the new user is built in a variable that hides the one
    returned. *)
Theorem first_login_is_user_zero o now uuid code client token answer gh build decoded s s' r :
  answer = Ok gh -> (forall g, g ∈ db_githubUsers (st_db s) -> g_GithubID g <> u64 (ga_ID gh)) ->
  GithubAuthCallback o now uuid code client token answer build decoded s = (s', Ok r) ->
  cb_ID r = 0 /\
  (exists u, u ∈ db_users (st_db s') /\ u_Name u = ga_Login gh /\ u_Email u = ga_Email gh /\ 0 < u_ID u) /\
  exists m tok, CreateToken o now uuid 0 m 0 0 false = Ok tok /\ cb_AccessToken r = td_AccessToken tok.
Proof.
  intros -> Hnew. unfold GithubAuthCallback. destruct (String.eqb code ""); [done|]. cbv [mbind gom_bind glift].
  destruct token as [[]|e|w]; [|done..]. unfold on_tables.
  destruct (github_user now build gh (st_db s)) as [d [[u b]|e|w]] eqn:Hg; [|done..].
  assert (u = zero_user /\ exists u, u ∈ db_users d /\ u_Name u = ga_Login gh /\ u_Email u = ga_Email gh /\ 0 < u_ID u) as [-> Hu].
  { apply Tx_ok in Hg. revert Hg. unfold Try. cbv [mbind gom_bind].
    destruct (One githubUsers _ (st_db s)) as [d1 [g|e|w]] eqn:H1; [| |done].
    - apply One_ok in H1 as (_ & Hin & Hid%Z.eqb_eq). by destruct (Hnew g).
    - destruct (decide _) as [->|]; [|done]. unfold glift. destruct build as [[]|e|w]; [|done..].
      unfold CreateUser. cbv [mbind gom_bind]. destruct (Create users _ d1) as [d2 [i|e|w]] eqn:H2; [|done..].
      apply Create_ok in H2 as (l & -> & Hpos & Hl & _); [|done].
      destruct (Create githubUsers _ _) as [d3 [j|e|w]] eqn:H3; [|done..]. apply Create_ok in H3 as (l3 & -> & _); [|done].
      intros [= <- <- <-]. split; [done|]. eexists. split; [cbn; rewrite Hl; by left|]. done. }
  destruct (if String.eqb client "" then _ else _) as [[port m]|e|w]; [|done..].
  destruct (CreateToken o now uuid _ m 0 0 false) as [ts|e|w] eqn:Hc; [|done..].
  unfold on_store. cbn [st_store]. destruct (CreateAuth now _ ts _) as [d' [[]|e|w]]; [|done..].
  intros [= <- <-]. split_and!; [done|exact Hu|]. by exists m, ts.
Qed.

(** Asking for the sign-in links plants a fast key: the text
    the asker gives as client information is stored under a fresh state,
    which the validator of fast keys takes for a user identifier.  Whoever
    can guess the state is then that user, on any machine. *)
Theorem sign_in_state_is_a_fast_key url o now redirect state1 state2 u t ctx r s s' links :
  0 <= u < 2 ^ 64 -> unblank state1 = true ->
  SSOMethods url now redirect (pretty u) state1 state2 s = (s', Ok links) ->
  (forall k v d, exists d', SetEX now k 30 v d = Ok d') -> (forall t k d, exists o, LGet t k d = Ok o) ->
  t < now + 30 * Second -> rq_Authorization r = (PrefixFastKey ++ String space state1)%string ->
  tokenValidator o t ctx r s' = (s', Ok (mkCtx u (rq_MachineID r) (cx_AuthKeyID ctx) (cx_Version ctx))).
Proof.
  intros Hu Hst Hs Hset Hget Ht Hr. unfold tokenValidator. rewrite Hr.
  assert (extractToken (PrefixFastKey ++ String space state1)%string = Ok (PrefixFastKey, state1)) as ->.
  { unfold extractToken. by rewrite ExtractToken_two. }
  cbv [mbind gom_bind glift]. change (String.eqb PrefixFastKey PrefixAuthKey) with false.
  change (String.eqb PrefixFastKey PrefixFastKey) with true. rewrite andb_false_r.
  unfold peerOneoffValidator, replace_error, on_store. cbv [mbind gom_bind]. cbn [store_Get LedisStore.store].
  unfold LedisStore.Get. destruct (Hget t state1 (st_store s')) as [x Hx]. rewrite Hx. apply get_view in Hx.
  assert (x = Some (pretty u)) as ->.
  { revert Hs. unfold SSOMethods, AuthCodeURL, gignore, on_store. cbv [mbind gom_bind]. cbn [store_Set LedisStore.store].
    unfold LedisStore.Set_. change (go_div (30 * Second) Second) with 30.
    destruct (Hset state1 (pretty u) (st_store s)) as [d Hd]. rewrite Hd. intros [= <- _]. cbn [st_store] in Hx.
    rewrite (setex_view _ _ _ _ _ _ Hd), lookup_insert_eq in Hx. cbn [mbind option_bind] in Hx.
    destruct (Z.ltb_spec t (now + 30 * Second)); [done|lia]. }
  cbn [from_option id]. rewrite parse_uint_pretty by done. by destruct s'.
Qed.
End Facts.

(** ** Witnesses *)

Module AuthExample.
#[local] Existing Instances Memory.gorm Memory.gorm_ok ToyJwt.jwtlib ToyJwt.jwtlib_ok ToyJwt.ledis ToyJwt.ledis_ok LedisStore.store.

Definition opts : options := mkOptions (1500 * GoTime.Minute) (24 * GoTime.Hour * 7) "access" "refresh".
Definition alice : User := mkUser 1 0 "alice@example.org" "" "alice" "github".
Definition start : State :=
  mkState (mkDatabase [alice] [] [] [] [] [] [] [mkGithubUser 1 1 77 "alice" "" ""]) ∅.
Definition request (auth machine : string) : Request := mkRequest auth machine "0.1.0".
Definition semver (v : string) : result Z := Ok 0.
Definition word : string := "0123456789abcdef0123456789abcdef".

(** Alice makes a one-off key and exchanges it from machine [m1]. *)
Definition with_key : State := gstate (CreateKey 0 word 1 "one-off") start.
Definition key_request (machine : string) : Request := request ("AuthKey pmkey-" ++ word) machine.
Definition exchanged : State := gstate (peer_exchange semver opts 0 "uuid1" (key_request "m1")) with_key.

Lemma one_off_key_stays_bound_witness :
  length (db_authKeys (st_db exchanged)) = 1%nat /\
  snd (peer_exchange semver opts 1 "uuid2" (key_request "m2") exchanged) = Err ErrInvalidToken /\
  forall k', k' ∈ db_authKeys (st_db (gstate (ChangeKey 1 1 "disable") exchanged)) -> k_ID k' = 1 -> k_MachineID k' = "m1"%string.
Proof.
  split_and!; [by vm_compute|by vm_compute|].
  refine (proj1 (one_off_key_stays_bound 1 "m1" (mkAuthKey 1 0 None 1 "one-off" ("pmkey-" ++ word) "m1" (90 * 24 * 3600 * Second) true)
    exchanged (gstate (ChangeKey 1 1 "disable") exchanged) _ _ _ _ _ _ _)).
  - vm_compute. apply NoDup_singleton.
  - vm_compute. by left.
  - done.
  - done.
  - done.
  - done.
  - eapply rtc_l; [apply ks_change|apply rtc_refl].
Defined.

(** Both machines are let in before either exchanges the key. *)
Example one_off_key_used_twice :
  let c1 := gresult (peerTokenValidator semver opts 0 Background (key_request "m1")) with_key in
  let c2 := gresult (peerTokenValidator semver opts 0 Background (key_request "m2")) with_key in
  match c1, c2 with
  | Ok c1, Ok c2 =>
    let s1 := gstate (ExchangeKey opts 0 "uuid1" c1) with_key in
    is_ok (gresult (ExchangeKey opts 0 "uuid1" c1) with_key) = true /\ is_ok (gresult (ExchangeKey opts 0 "uuid2" c2) s1) = true
  | _, _ => False
  end.
Proof. by vm_compute. Qed.

(** A key that was disabled, long after its expiration. *)
Example disabled_key_accepted :
  let s := gstate (ChangeKey 1 1 "disable") with_key in
  map k_Enabled (db_authKeys (st_db s)) = [false] /\
  is_ok (gresult (tokenValidator opts (365 * 24 * 3600 * Second) Background (key_request "m1")) s) = true.
Proof. by vm_compute. Qed.

Definition pair_of (s : State) : State * string :=
  match on_store (CreateTokenPair opts 0 "uuid1" 1 "m1" 0 0 false) s with
  | (s', Ok (a, _)) => (s', a)
  | (s', _) => (s', ""%string)
  end.
Definition signed_in : State := fst (pair_of start).
Definition access : string := snd (pair_of start).

Lemma accepted_requests_are_owned_witness :
  snd (tokenValidator opts 5 Background (request (bearer access) "m1") signed_in) = Ok (mkCtx 1 "m1" 0 "") /\
  exists prefix token, extractToken (bearer access) = Ok (prefix, token).
Proof.
  assert (tokenValidator opts 5 Background (request (bearer access) "m1") signed_in = (signed_in, Ok (mkCtx 1 "m1" 0 ""))) as Hv
    by (vm_compute; reflexivity).
  split; [rewrite Hv; reflexivity|].
  pose proof (accepted_requests_are_owned opts 5 Background (request (bearer access) "m1") signed_in signed_in (mkCtx 1 "m1" 0 "") Hv)
    as (_ & _ & prefix & token & Hx & _).
  exists prefix, token. exact Hx.
Defined.

Lemma pair_issued : exists refresh,
  on_store (CreateTokenPair opts 0 "uuid1" 1 "m1" 0 0 false) start = (signed_in, Ok (access, refresh)).
Proof. eexists. vm_compute. reflexivity. Qed.

Lemma issued_token_authenticates_witness :
  tokenValidator opts 5 Background (request (bearer access) "m1") signed_in = (signed_in, Ok (mkCtx 1 "m1" 0 "")) /\
  tokenValidator opts 5 Background (request (bearer access) "m2") signed_in = (signed_in, Err ErrInvalidToken).
Proof.
  destruct pair_issued as [refresh Hp].
  split; (refine (eq_trans (issued_token_authenticates opts 0 "uuid1" 1 "m1" 0 0 false start signed_in access refresh 5 Background
    (request (bearer access) _) Hp _ _ _ _ _ eq_refl) _);
    [lia|lia|lia|vm_compute; discriminate|intros t k d; eexists; reflexivity|vm_compute; reflexivity]).
Defined.

(** The last second of the token. *)
Example outlives_its_entry :
  snd (tokenValidator opts (90000 * Second) Background (request (bearer access) "m1") signed_in) = Ok (mkCtx 0 "m1" 0 "").
Proof. by vm_compute. Qed.

Definition tok : TokenDetails :=
  match CreateToken opts 0 "uuid1" 1 "m1" 0 0 false with Ok t => t | _ => mkTokenDetails "" "" "" "" 0 0 end.
Lemma tok_created : CreateToken opts 0 "uuid1" 1 "m1" 0 0 false = Ok tok.
Proof. vm_compute. reflexivity. Qed.
Definition with_token : Request := request (bearer (td_AccessToken tok)) "m1".
Definition signed_out : State := gstate (Logout_ opts 5 with_token) signed_in.
Lemma logged_out : Logout_ opts 5 with_token signed_in = (signed_out, Ok tt).
Proof. vm_compute. reflexivity. Qed.
Lemma tok_expiry : td_AccessExpiry tok = 90000.
Proof. vm_compute. reflexivity. Qed.

Lemma signed_out_token_is_user_zero_witness :
  tokenValidator opts 6 Background with_token signed_out = (signed_out, Ok (mkCtx 0 "m1" 0 "")).
Proof.
  refine (signed_out_token_is_user_zero opts 0 "uuid1" 1 "m1" 0 0 false tok 5 6 Background with_token signed_in signed_out
    tok_created _ _ _ _ _ _ eq_refl eq_refl _ _ logged_out); rewrite ?tok_expiry; try lia.
  - intros ks d. eexists. reflexivity.
  - intros t k d. eexists. reflexivity.
  - vm_compute. discriminate.
  - vm_compute. discriminate.
Defined.

(** Bob has never signed in. *)
Definition bob : GithubAnswer := mkGithubAnswer 99 "bob" "" "" "bob@example.org".
Definition first_login : State * result CallbackResponse :=
  GithubAuthCallback opts 0 "uuid3" "code" "" (Ok tt) (Ok bob) (Ok tt) (Ok (0, ""%string)) start.
Definition after_login : State := fst first_login.
Definition answered : CallbackResponse :=
  match snd first_login with Ok r => r | _ => mkCallbackResponse 0 "" 1 "" "" "" end.
Lemma logged_in : first_login = (after_login, Ok answered).
Proof. vm_compute. reflexivity. Qed.
Lemma no_bob g : g ∈ db_githubUsers (st_db start) -> g_GithubID g <> u64 (ga_ID bob).
Proof. intros Hg. vm_compute in Hg. apply list_elem_of_singleton in Hg as ->. vm_compute. discriminate. Qed.
Lemma first_login_is_user_zero_witness : cb_ID answered = 0.
Proof.
  exact (proj1 (first_login_is_user_zero opts 0 "uuid3" "code" "" (Ok tt) (Ok bob) bob (Ok tt) (Ok (0, ""%string)) start after_login
    answered eq_refl no_bob logged_in)).
Defined.

Definition links : list (string * string) := [("GitHub", "http://portal/login/auth/callback/github?client=1")%string].
Definition planted : State := gstate (SSOMethods (fun a b => a) 0 "http://portal" "1" "ABCDEFGH" "IJKLMNOP") start.
Lemma links_asked : SSOMethods (fun a b => a) 0 "http://portal" (pretty 1) "ABCDEFGH" "IJKLMNOP" start = (planted, Ok links).
Proof. vm_compute. reflexivity. Qed.
Definition fast_request : Request := request (PrefixFastKey ++ String space "ABCDEFGH") "thief".
Lemma sign_in_state_is_a_fast_key_witness :
  tokenValidator opts 5 Background fast_request planted = (planted, Ok (mkCtx 1 "thief" 0 "")).
Proof.
  refine (sign_in_state_is_a_fast_key (fun a b => a) opts 0 "http://portal" "ABCDEFGH" "IJKLMNOP" 1 5 Background fast_request start planted
    links _ eq_refl links_asked _ _ _ eq_refl).
  - lia.
  - intros k v d. eexists. reflexivity.
  - intros t k d. eexists. reflexivity.
  - vm_compute. reflexivity.
Defined.
End AuthExample.
