(* ===== verification/Portal.v ===== *)
(** The portal as one program: the routes of [portal/api/server.go], the
    validators in front of them and every handler behind them, on one state.
    The JSON bodies, the clock and the values drawn at random are the
    environment, and so is the router: [gorilla/mux] is the class [Mux], and
    [MuxOk] what its documentation says - it redirects to the clean path and
    matches a route by its method and its path, [{name}] standing for one
    non-empty segment. *)
From Stdlib Require Import Ascii.
From S2P Require Import Prelude GoText Wire Noise Jwt PortalDb PortalNetwork PortalInternal PortalAuth.
#[local] Set Warnings "-clear-no-such-hyp".

(** ** Routing *)

(** The plugin of the group a route belongs to. *)
Inductive Guard := Public | RelayKey | PeerToken | UserToken.
#[export] Instance Guard_eq_dec : EqDecision Guard.
Proof. solve_decision. Defined.

Inductive Handler :=
| HVersionCheck | HSSOMethods | HGithubAuthCallback | HLogout
| HRelayKeepalive
| HPeerGraph | HPreflight | HRenewCredential | HExchangeKey
| HUserProfileSetting | HKeyList | HCreateKey | HChangeKey | HDeleteKey | HUserProfile
| HUserDeviceList | HDeviceList | HDeviceUpdate
| HNetworkList | HCreateNetwork | HUpdateNetwork | HDeleteNetwork | HNetworkMembers
| HInviteMember | HDeleteNetworkUser | HChangeNetworkMemberRole | HInvitations | HHandleInvitation.
#[export] Instance Handler_eq_dec : EqDecision Handler.
Proof. solve_decision. Defined.

Record Route := mkRoute { ro_Method : string; ro_Path : string; ro_Guard : Guard; ro_Handler : Handler }.

(** [route]. *)
Definition routes : list Route := [
  mkRoute "GET" "/api/v1/version/check" Public HVersionCheck;
  mkRoute "GET" "/api/v1/login/sso-methods" Public HSSOMethods;
  mkRoute "POST" "/api/v1/login/auth/callback/github" Public HGithubAuthCallback;
  mkRoute "GET" "/api/v1/logout" Public HLogout;
  mkRoute "POST" "/api/v1/relay" RelayKey HRelayKeepalive;
  mkRoute "GET" "/api/v1/device/peers" PeerToken HPeerGraph;
  mkRoute "POST" "/api/v1/device/preflight" PeerToken HPreflight;
  mkRoute "POST" "/api/v1/credential/renew" PeerToken HRenewCredential;
  mkRoute "POST" "/api/v1/key/exchange" PeerToken HExchangeKey;
  mkRoute "PUT" "/api/v1/settings/user/profile" UserToken HUserProfileSetting;
  mkRoute "GET" "/api/v1/keys" UserToken HKeyList;
  mkRoute "POST" "/api/v1/key" UserToken HCreateKey;
  mkRoute "PUT" "/api/v1/key/{key_id}" UserToken HChangeKey;
  mkRoute "DELETE" "/api/v1/key/{key_id}" UserToken HDeleteKey;
  mkRoute "GET" "/api/v1/user/profile" UserToken HUserProfile;
  mkRoute "GET" "/api/v1/user/{user_id}/devices" UserToken HUserDeviceList;
  mkRoute "GET" "/api/v1/devices" UserToken HDeviceList;
  mkRoute "PUT" "/api/v1/device/{device_id}" UserToken HDeviceUpdate;
  mkRoute "GET" "/api/v1/networks" UserToken HNetworkList;
  mkRoute "POST" "/api/v1/network" UserToken HCreateNetwork;
  mkRoute "PUT" "/api/v1/network/{network_id}" UserToken HUpdateNetwork;
  mkRoute "DELETE" "/api/v1/network/{network_id}" UserToken HDeleteNetwork;
  mkRoute "GET" "/api/v1/network/{network_id}/members" UserToken HNetworkMembers;
  mkRoute "POST" "/api/v1/network/{network_id}/member/invite" UserToken HInviteMember;
  mkRoute "DELETE" "/api/v1/network/{network_id}/member/{user_id}" UserToken HDeleteNetworkUser;
  mkRoute "PUT" "/api/v1/network/{network_id}/member/{user_id}/role" UserToken HChangeNetworkMemberRole;
  mkRoute "GET" "/api/v1/invitations" UserToken HInvitations;
  mkRoute "PUT" "/api/v1/invitation/{invitation_id}" UserToken HHandleInvitation ]%string.

(** *** Matching *)

Inductive Seg := Literal (s : string) | Variable_ (name : string).
Definition slash : ascii := ascii_of_nat 47.
Definition seg_of (s : string) : Seg :=
  if HasPrefix s "{" && HasSuffix s "}" then Variable_ (TrimSuffix (TrimPrefix s "{") "}") else Literal s.
Definition template (path : string) : list Seg := map seg_of (split_on slash path).
Fixpoint match_path (t : list Seg) (path : list string) : option Vars :=
  match t, path with
  | [], [] => Some ∅
  | Literal s :: t, x :: path => if String.eqb s x then match_path t path else None
  | Variable_ n :: t, x :: path =>
    if String.eqb x "" then None else vars ← match_path t path; Some (<[n := x]> vars)
  | _, _ => None
  end.

(** A path as [path.Clean] leaves it: no empty segment but a last one, no dots. *)
Fixpoint clean_segments (path : list string) : bool :=
  match path with
  | [] => true
  | s :: path => negb (String.eqb s "." || String.eqb s "..") && (negb (String.eqb s "") || bool_decide (path = [])) && clean_segments path
  end.
Definition clean (path : list string) : bool :=
  match path with "" :: path => clean_segments path | _ => false end%string.

(** The router of [gorilla/mux]: it redirects to the clean path, and finds a
    route by its path and its method. *)
Inductive Match := Matched (r : Route) (vars : Vars) | MethodMismatch | NoRoute | Redirected.
Class Mux := { Find : list Route -> string -> list string -> Match }.

(** [path] is for the template of [r]. *)
Definition on_path (path : list string) (r : Route) : bool := bool_decide (is_Some (match_path (template (ro_Path r)) path)).
Definition serves (rs : list Route) (method : string) (path : list string) (r : Route) (vars : Vars) : Prop :=
  r ∈ rs /\ ro_Method r = method /\ match_path (template (ro_Path r)) path = Some vars.
Class MuxOk `{Mux} : Prop := {
  mux_cleans : forall rs method path, clean path = false -> Find rs method path = Redirected;
  mux_finds : forall rs method path, clean path = true ->
    match Find rs method path with
    | Matched r vars => serves rs method path r vars
    | MethodMismatch => (forall r vars, ~ serves rs method path r vars) /\ existsb (on_path path) rs = true
    | NoRoute => existsb (on_path path) rs = false
    | Redirected => False
    end }.

(** ** The portal *)

(** A request: the fields the portal reads. *)
Record Incoming := mkIncoming {
  in_Method : string; in_Path : string; in_Form : gmap string string; in_Headers : Request; in_Body : string }.
Definition Form_Get (key : string) (r : Incoming) : string := default ""%string (in_Form r !! key).

(** What decoding a body gives, by the type of the request. *)
Class Bodies := {
  NetworkRequest : string -> result (string * string);
  ChangeMemberPermissionRequest : string -> result string;
  InviteMemberRequest : string -> result (string * string);
  HandleInvitationRequest : string -> result string;
  CreateKeyRequest : string -> result string;
  ChangeKeyRequest : string -> result string;
  UserProfileSettingRequest : string -> result (string * string);
  DeviceUpdateRequest : string -> result string;
  RelayKeepaliveRequest_ : string -> result RelayKeepaliveRequest;
  PreflightRequest_ : string -> result PreflightRequest;
  RenewCredentialRequest : string -> result string }.

(** What a request meets: the clock, the identifiers and texts drawn, the
    orders in which maps are visited, and GitHub's answers. *)
Record Draws := mkDraws {
  dr_now : Z; dr_uuid : string; dr_key : string; dr_pick : option ID; dr_candidates : list string;
  dr_relays : list ID; dr_nets : list ID; dr_state1 : string; dr_state2 : string;
  dr_token : result unit; dr_github : result GithubAnswer; dr_build : result unit; dr_decoded : result (Z * string) }.

(** The configuration: the options of the tokens, the key of relay servers, the
    address SSO redirects to, the provider's link and the version parser. *)
Record Settings := mkSettings {
  se_options : options; se_relayAuthKey : string; se_redirect : string;
  se_url : string -> string -> string; se_semver : string -> result Z }.

Inductive Answer :=
| AVersion | ASSOMethods (l : list (string * string)) | ACallback (r : CallbackResponse) | ALogout
| AKeepalive (r : RelayKeepaliveResponse) | APeerGraph (r : PeerGraphResponse) | APreflight (r : PreflightResponse)
| ACredential (r : string * Z) | ATokens (r : string * string)
| ASetting (r : string * string) | AKeys (l : list KeyListItem) | AKey (k : KeyListItem) | AOptional (r : option unit)
| AProfile (r : UserProfileResponse) | ADevices (l : list DeviceListItem) | ADone (b : bool)
| ANetworks (l : list NetworkItem) | ANetwork (n : NetworkItem) | AMembers (r : NetworkMemberResponse)
| AIdentifier (i : ID) | ARole (r : string) | AInvitations (l : list InvitationListItem).

(** [VersionCheck]. *)
Definition VersionCheck (version platform : string) : result (option unit) :=
  if String.eqb version "" || String.eqb platform "" then Err ErrIllegalRequest else Ok None.

(** [strconv.ParseInt(s, 10, 64)]. *)
Definition ParseInt (s : string) : result Z :=
  let '(neg, digits) := match s with
    | String c s' => if Ascii.eqb c "-" then (true, s') else if Ascii.eqb c "+" then (false, s') else (false, s)
    | EmptyString => (false, s)
    end in
  match parse_uint digits with
  | (_, Some e) => Err e
  | (n, None) => if neg then (if 2 ^ 63 <? n then Err ErrRange else Ok (- n)) else if 2 ^ 63 <=? n then Err ErrRange else Ok n
  end.
(** The path variable of [HandleInvitation]. *)
Definition invitation_id (vars : Vars) : result Z :=
  match vars !! "invitation_id"%string with None => Err ErrIllegalRequest | Some s => ParseInt s end.

Section Portal.
Context `{HG : Gorm} `{HS : Signature} `{HE : Encoding} `{HJ : JwtLib} `{HL : LedisDB} `{HB : Bodies} `{HX : Mux} (se : Settings).

(** The server and the token store. *)
Record Portal := mkPortal { pt_server : server; pt_store : ldb }.
Abbreviation P := (GoM Portal).
Definition in_server {A} (m : GoM server A) : P A := fun p =>
  match m (pt_server p) with (s, r) => (mkPortal s (pt_store p), r) end.
Definition in_state {A} (m : GoM State A) : P A := fun p =>
  match m (mkState (sv_db (pt_server p)) (pt_store p)) with
  | (s, r) => (mkPortal (sv_set_db (st_db s) (pt_server p)) (st_store s), r)
  end.
Definition in_db {A} (q : GoM Database A) : P A := in_server (on_db q).
Definition body {A} (f : string -> result A) (r : Incoming) : P A := glift (f (in_Body r)).

(** The plugin of the route's group. *)
Definition validate (g : Guard) (now : Z) (r : Incoming) : P Ctx :=
  match g with
  | Public => mret Background
  | RelayKey => glift (relayAuthKeyValidator (se_relayAuthKey se) Background (in_Headers r))
  | PeerToken => in_state (peerTokenValidator (se_semver se) (se_options se) now Background (in_Headers r))
  | UserToken => in_state (tokenValidator (se_options se) now Background (in_Headers r))
  end.

Definition handle (h : Handler) (ctx : Ctx) (vars : Vars) (d : Draws) (r : Incoming) : P Answer :=
  let o := se_options se in
  let now := dr_now d in
  let user := cx_UserID ctx in
  let network_id := Vars_ModelID vars "network_id" in
  match h with
  | HVersionCheck => _ ← glift (VersionCheck (Form_Get "version" r) (Form_Get "platform" r)); mret AVersion
  | HSSOMethods => l ← in_state (SSOMethods (se_url se) now (se_redirect se) (Form_Get "client" r) (dr_state1 d) (dr_state2 d)); mret (ASSOMethods l)
  | HGithubAuthCallback =>
    a ← in_state (GithubAuthCallback o now (dr_uuid d) (Form_Get "code" r) (Form_Get "client" r) (dr_token d) (dr_github d) (dr_build d) (dr_decoded d));
    mret (ACallback a)
  | HLogout => _ ← in_state (Logout_ o now (in_Headers r)); mret ALogout
  | HRelayKeepalive => req ← body RelayKeepaliveRequest_ r; a ← in_server (RelayKeepalive now req); mret (AKeepalive a)
  | HPeerGraph => a ← in_server (PeerGraph now user (cx_MachineID ctx) (dr_relays d) (dr_nets d)); mret (APeerGraph a)
  | HPreflight =>
    req ← body PreflightRequest_ r;
    a ← in_server (Preflight now user (cx_MachineID ctx) (cx_Version ctx) req (dr_pick d) (dr_candidates d));
    mret (APreflight a)
  | HRenewCredential => c ← body RenewCredentialRequest r; a ← glift (RenewCredential now c); mret (ACredential a)
  | HExchangeKey => a ← in_state (ExchangeKey o now (dr_uuid d) ctx); mret (ATokens a)
  | HUserProfileSetting => '(name, email) ← body UserProfileSettingRequest r; a ← in_state (UserProfileSetting user name email); mret (ASetting a)
  | HKeyList => l ← in_state (KeyList user); mret (AKeys l)
  | HCreateKey => typ ← body CreateKeyRequest r; k ← in_state (CreateKey now (dr_key d) user typ); mret (AKey k)
  | HChangeKey => op ← body ChangeKeyRequest r; a ← in_state (ChangeKey user (Vars_ModelID vars "key_id") op); mret (AOptional a)
  | HDeleteKey => a ← in_state (DeleteKey user (Vars_ModelID vars "key_id")); mret (AOptional a)
  | HUserProfile => a ← in_state (UserProfile user); mret (AProfile a)
  | HUserDeviceList => l ← in_db (UserDeviceList now (Vars_ModelID vars "user_id")); mret (ADevices l)
  | HDeviceList => l ← in_db (DeviceList now user); mret (ADevices l)
  | HDeviceUpdate => name ← body DeviceUpdateRequest r; a ← in_db (DeviceUpdate user (Vars_ModelID vars "device_id") name); mret (ADone a)
  | HNetworkList => l ← in_db (NetworkList user); mret (ANetworks l)
  | HCreateNetwork => '(name, desc) ← body NetworkRequest r; n ← in_db (CreateNetwork now user name desc); mret (ANetwork n)
  | HUpdateNetwork => '(name, desc) ← body NetworkRequest r; n ← in_db (UpdateNetwork user network_id name desc); mret (ANetwork n)
  | HDeleteNetwork => b ← in_db (DeleteNetwork user network_id); mret (ADone b)
  | HNetworkMembers => a ← in_db (NetworkMembers user network_id); mret (AMembers a)
  | HInviteMember => '(email, role) ← body InviteMemberRequest r; i ← in_db (InviteMember user network_id email role); mret (AIdentifier i)
  | HDeleteNetworkUser => i ← in_db (DeleteNetworkUser user (Vars_ModelID vars "user_id") network_id); mret (AIdentifier i)
  | HChangeNetworkMemberRole =>
    role ← body ChangeMemberPermissionRequest r;
    a ← in_db (ChangeNetworkMemberRole user (Vars_ModelID vars "user_id") network_id role); mret (ARole a)
  | HInvitations => l ← in_db (Invitations user); mret (AInvitations l)
  | HHandleInvitation => action ← body HandleInvitationRequest r; i ← in_db (HandleInvitation now user (invitation_id vars) action); mret (AIdentifier i)
  end.

(** One request, answered. *)
Definition answer_at (m : Match) (d : Draws) (r : Incoming) : P Answer :=
  match m with
  | Matched ro vars => ctx ← validate (ro_Guard ro) (dr_now d) r; handle (ro_Handler ro) ctx vars d r
  | MethodMismatch => gthrow (EMsg "405 method not allowed")
  | NoRoute => gthrow (EMsg "404 page not found")
  | Redirected => gthrow (EMsg "301 moved permanently")
  end.
Definition serve (d : Draws) (r : Incoming) : P Answer :=
  answer_at (Find routes (in_Method r) (split_on slash (in_Path r))) d r.
End Portal.

(** ** Lemmas: routing *)

(** Two templates some path matches. *)
Fixpoint overlap (t1 t2 : list Seg) : bool :=
  match t1, t2 with
  | [], [] => true
  | Literal a :: t1, Literal b :: t2 => String.eqb a b && overlap t1 t2
  | Literal a :: t1, Variable_ _ :: t2 | Variable_ _ :: t1, Literal a :: t2 => negb (String.eqb a "") && overlap t1 t2
  | Variable_ _ :: t1, Variable_ _ :: t2 => overlap t1 t2
  | _, _ => false
  end.
Lemma overlap_sound t1 t2 path : is_Some (match_path t1 path) -> is_Some (match_path t2 path) -> overlap t1 t2 = true.
Proof.
  revert t2 path. induction t1 as [|[a|n] t1 IH]; intros [|[b|k] t2] [|x path] [v1 H1] [v2 H2]; try done; cbn in *;
    repeat match goal with H : context [String.eqb ?u ?v] |- _ => destruct (String.eqb_spec u v); [subst|]; try done end;
    repeat match goal with H : _ ≫= _ = Some _ |- _ => apply bind_Some in H as (? & ? & _) end;
    rewrite ?String.eqb_refl; try (apply andb_true_iff; split; [|by eauto]); try done; try (by eapply IH; eauto).
  all: by destruct (String.eqb_spec x "").
Qed.

Definition clash (r1 r2 : Route) : bool :=
  String.eqb (ro_Method r1) (ro_Method r2) && overlap (template (ro_Path r1)) (template (ro_Path r2)).
#[export] Instance Route_eq_dec : EqDecision Route.
Proof. solve_decision. Defined.
Lemma routes_apart : forall r1 r2, r1 ∈ routes -> r2 ∈ routes -> clash r1 r2 = true -> r1 = r2.
Proof.
  assert (forallb (fun r1 => forallb (fun r2 => negb (clash r1 r2) || bool_decide (r1 = r2)) routes) routes = true) as Hall by (by vm_compute).
  intros r1 r2 H1 H2 Hc. rewrite forallb_forall in Hall. specialize (Hall r1 (proj1 (list_elem_of_In _ _) H1)).
  rewrite forallb_forall in Hall. specialize (Hall r2 (proj1 (list_elem_of_In _ _) H2)). rewrite Hc in Hall. cbn in Hall.
  by apply bool_decide_eq_true in Hall.
Qed.

(** The route a request is for: its method, and a path its template matches. *)
Definition is_for (method : string) (path : list string) (r : Route) (vars : Vars) : Prop :=
  clean path = true /\ serves routes method path r vars.
Lemma is_for_unique method path r1 v1 r2 v2 : is_for method path r1 v1 -> is_for method path r2 v2 -> r1 = r2 /\ v1 = v2.
Proof.
  intros (_ & H1 & M1 & P1) (_ & H2 & M2 & P2). assert (r1 = r2) as ->; [|split; congruence].
  apply routes_apart; [done..|]. unfold clash. rewrite M1, M2, String.eqb_refl. cbn.
  apply (overlap_sound _ _ path); by eexists.
Qed.

Lemma existsb_perm {A} (f : A -> bool) l l' : l ≡ₚ l' -> existsb f l = existsb f l'.
Proof. intros Hp. apply eq_true_iff_eq. rewrite !existsb_exists. setoid_rewrite <- list_elem_of_In. by setoid_rewrite Hp. Qed.
Lemma serves_on_path rs method path r vars : serves rs method path r vars -> existsb (on_path path) rs = true.
Proof.
  intros (Hin & _ & Hm). apply existsb_exists. exists r. split; [by apply list_elem_of_In|].
  apply bool_decide_eq_true. by eexists.
Qed.

Section Router.
Context `{HX : Mux} `{HXk : !MuxOk}.

(** What the router finds in any arrangement of the routes. *)
Definition unserved (path : list string) : Match :=
  if clean path then if existsb (on_path path) routes then MethodMismatch else NoRoute else Redirected.
Lemma Find_spec rs method path : rs ≡ₚ routes ->
  (exists r vars, Find rs method path = Matched r vars /\ is_for method path r vars) \/
  (forall r vars, ~ is_for method path r vars) /\ Find rs method path = unserved path.
Proof using HXk.
  intros Hp. unfold unserved, is_for. destruct (clean path) eqn:Hc; [|right; split; [by intros ? ? []|by apply mux_cleans]].
  pose proof (mux_finds rs method path Hc) as Hf. rewrite (existsb_perm _ _ _ Hp) in Hf.
  assert (forall r vars, serves rs method path r vars <-> serves routes method path r vars) as Hs
    by (intros; unfold serves; by rewrite Hp).
  destruct (Find rs method path) as [r vars| | |]; [apply Hs in Hf; left; eauto|right..|done].
  - destruct Hf as [Hn ->]. split; [by intros ? ? [_ ?%Hs%Hn]|done].
  - rewrite Hf. split; [|done]. intros r vars [_ Hv%serves_on_path]. congruence.
Qed.
Lemma Find_is_for rs method path r vars : rs ≡ₚ routes -> is_for method path r vars -> Find rs method path = Matched r vars.
Proof using HXk.
  intros Hp Hi. destruct (Find_spec rs method path Hp) as [(r' & v' & -> & Hi')|[Hn _]]; [|by destruct (Hn r vars)].
  by destruct (is_for_unique _ _ _ _ _ _ Hi Hi') as [-> ->].
Qed.
Lemma Find_matched method path r vars : Find routes method path = Matched r vars -> is_for method path r vars.
Proof using HXk.
  intros Hf. destruct (Find_spec routes method path ltac:(done)) as [(r' & v' & Hm & Hi)|[_ Hm]]; rewrite Hf in Hm; [by simplify_eq|].
  revert Hm. unfold unserved. by destruct (clean path), (existsb (on_path path) routes).
Qed.
End Router.

(** The routes one after the other, as [mux] tests them. *)
Module InOrder.
Fixpoint find_route (rs : list Route) (method : string) (path : list string) (mismatch : bool) : Match :=
  match rs with
  | [] => if mismatch then MethodMismatch else NoRoute
  | r :: rs =>
    match match_path (template (ro_Path r)) path with
    | None => find_route rs method path mismatch
    | Some vars => if String.eqb method (ro_Method r) then Matched r vars else find_route rs method path true
    end
  end.
#[export] Instance mux : Mux := {|
  Find rs method path := if clean path then find_route rs method path false else Redirected |}.

Lemma serves_cons x rs method path r vars : serves (x :: rs) method path r vars <->
  (r = x /\ ro_Method x = method /\ match_path (template (ro_Path x)) path = Some vars) \/ serves rs method path r vars.
Proof. unfold serves. rewrite elem_of_cons. naive_solver. Qed.
Lemma find_route_ok rs method path b :
  match find_route rs method path b with
  | Matched r vars => serves rs method path r vars
  | MethodMismatch => (forall r vars, ~ serves rs method path r vars) /\ b || existsb (on_path path) rs = true
  | NoRoute => b || existsb (on_path path) rs = false
  | Redirected => False
  end.
Proof.
  revert b. induction rs as [|x rs IH]; intros b; cbn.
  { destruct b; [|done]. split; [|done]. intros r vars (Hin & _). by apply elem_of_nil in Hin. }
  destruct (match_path (template (ro_Path x)) path) as [v|] eqn:Hm; unfold on_path at 1 3; rewrite Hm.
  - rewrite bool_decide_eq_true_2, orb_true_r by done. destruct (String.eqb_spec method (ro_Method x)) as [->|Hne]; [apply serves_cons; by left|].
    specialize (IH true). destruct (find_route rs method path true); [apply serves_cons; by right| |done..]. destruct IH as [Hn _]. split; [|done].
    intros r vars [(-> & ? & _)|Hs]%serves_cons; [done|by eapply Hn].
  - rewrite bool_decide_eq_false_2 by (by intros []). cbn [orb]. specialize (IH b).
    destruct (find_route rs method path b); [apply serves_cons; by right| |done..]. destruct IH as [Hn ?]. split; [|done].
    intros r vars [(-> & _ & ?)|Hs]%serves_cons; [congruence|by eapply Hn].
Qed.
#[export] Instance mux_ok : MuxOk.
Proof.
  split; intros rs method path Hc; cbn; rewrite Hc; [done|]. exact (find_route_ok rs method path false).
Qed.
End InOrder.

(** ** Lemmas: the state *)

Section Frames.
Context `{HG : Gorm}.

(** [P] does not depend on the table. *)
Definition frame {Row} (P : Database -> Prop) (t : Table Row) : Prop := forall l d, P d -> P (set_rows t l d).

Lemma gpres_frame_Update {Row} P (t : Table Row) p f : frame P t -> gpreserves P (Update t p f).
Proof using Type.
  intros Hf d Hd. unfold gstate, Update. cbv [mbind gom_bind gget glift gmodify]. destruct (sql_update _ _ _); [|done..]. by apply Hf.
Qed.
Lemma gpres_frame_Delete {Row} P (t : Table Row) p : frame P t -> gpreserves P (Delete t p).
Proof using Type.
  intros Hf d Hd. unfold gstate, Delete. cbv [mbind gom_bind gget glift gmodify]. destruct (sql_delete _ _); [|done..]. by apply Hf.
Qed.
Lemma gpres_frame_Create {Row} P (t : Table Row) mk : frame P t -> gpreserves P (Create t mk).
Proof using Type.
  intros Hf d Hd. unfold gstate, Create. cbv [mbind gom_bind gget glift gmodify]. destruct (sql_create _ _ _) as [[i l]| |]; [|done..]. by apply Hf.
Qed.
Lemma gpres_frame_CreateSeen {Row} P (t : Table Row) mk : frame P t -> gpreserves P (CreateSeen t mk).
Proof using Type.
  intros Hf d Hd. pose proof (gpres_frame_Create P t mk Hf d Hd) as Hc. unfold gstate, CreateSeen in *.
  destruct (Create t mk d) as [d' [i|e|w]]; [done| |done]. by destruct tx_error_kept.
Qed.
Lemma gpres_frame_db_Create {Row} P (t : Table Row) mk : frame P t -> gpreserves P (db_Create t mk).
Proof using Type. intros Hf. by apply gpres_Tx, gpres_frame_CreateSeen. Qed.
End Frames.
#[export] Hint Resolve gpres_frame_Update gpres_frame_Delete gpres_frame_Create gpres_frame_CreateSeen gpres_frame_db_Create : gpres.

(** What a component promises about a predicate of the tables: its handlers
    keep it.  [ok] tells the keys that may be deleted. *)
Section Promises.
Context `{HG : Gorm} `{HS : Signature} `{HE : Encoding} `{HJ : JwtLib} `{HL : LedisDB}.

Class UserHandlers (P : Database -> Prop) : Prop := {
  uh_Setting : forall u name email, gpreserves (fun s => P (st_db s)) (UserProfileSetting u name email);
  uh_Callback : forall o now uuid code client token answer build decoded,
    gpreserves (fun s => P (st_db s)) (GithubAuthCallback o now uuid code client token answer build decoded) }.
Class KeyHandlers (P : Database -> Prop) (ok : ID -> Prop) : Prop := {
  kh_Exchange : forall o now uuid ctx, gpreserves (fun s => P (st_db s)) (ExchangeKey o now uuid ctx);
  kh_Create : forall now key u typ, gpreserves (fun s => P (st_db s)) (CreateKey now key u typ);
  kh_Change : forall u id op, gpreserves (fun s => P (st_db s)) (ChangeKey u id op);
  kh_Delete : forall u id, ok id -> gpreserves (fun s => P (st_db s)) (DeleteKey u id);
  kh_Logout : forall o now r, gpreserves (fun s => P (st_db s)) (Logout_ o now r) }.
Class DeviceHandlers (P : Database -> Prop) : Prop := {
  dh_Preflight : forall now u mid ver req pick cands, gpreserves (fun s => P (sv_db s)) (Preflight now u mid ver req pick cands);
  dh_PeerGraph : forall now u mid relays nets, gpreserves (fun s => P (sv_db s)) (PeerGraph now u mid relays nets);
  dh_Keepalive : forall now req, gpreserves (fun s => P (sv_db s)) (RelayKeepalive now req);
  dh_Update : forall u id name, gpreserves P (DeviceUpdate u id name) }.
Class NetworkHandlers (P : Database -> Prop) : Prop := {
  nh_Create : forall now u name desc, gpreserves P (CreateNetwork now u name desc);
  nh_Update : forall u n name desc, gpreserves P (UpdateNetwork u n name desc);
  nh_Delete : forall u n, gpreserves P (DeleteNetwork u n);
  nh_Role : forall r u n role, gpreserves P (ChangeNetworkMemberRole r u n role);
  nh_Remove : forall r u n, gpreserves P (DeleteNetworkUser r u n);
  nh_Invite : forall u n email role, gpreserves P (InviteMember u n email role);
  nh_Handle : forall now u id action, gpreserves P (HandleInvitation now u id action) }.
End Promises.

(** ** The promises of the components *)

(** A handler on tables it may write: what the state predicates need. *)
Section Framed.
Context `{HG : Gorm} `{HS : Signature} `{HE : Encoding} `{HJ : JwtLib} `{HL : LedisDB}.
Context (P : Database -> Prop).

Lemma gpres_tables {A} (q : GoM Database A) : gpreserves P q -> gpreserves (fun s => P (st_db s)) (on_tables q).
Proof using Type. apply gpres_on_tables. Qed.
Lemma gpres_store {A} (m : GoM ldb A) : gpreserves (fun s => P (st_db s)) (on_store m).
Proof using Type. apply gpres_on_store. Qed.
#[local] Hint Resolve gpres_store gpres_tables gpres_replace : gpres.
Lemma gpres_ondb {A} (q : GoM Database A) : gpreserves P q -> gpreserves (fun s => P (sv_db s)) (on_db q).
Proof using Type. apply gpres_on_db. Qed.
#[local] Hint Resolve gpres_ondb : gpres.

Lemma framed_users : frame P users -> frame P githubUsers -> UserHandlers P.
Proof using Type.
  intros Hu Hg. split.
  - intros u name email. unfold UserProfileSetting. gpres. apply gpres_tables. gquery.
  - intros o now uuid code client token answer build decoded. unfold GithubAuthCallback. gpres. apply gpres_tables.
    unfold github_user, CreateUser. gquery.
Qed.
Lemma framed_keys : frame P authKeys -> KeyHandlers P (fun _ => True).
Proof using Type.
  intros Hk. split.
  - intros o now uuid ctx. unfold ExchangeKey. gpres; apply gpres_tables; gquery.
  - intros now key u typ. unfold CreateKey. gpres; apply gpres_tables; gquery.
  - intros u id op. unfold ChangeKey. gpres; apply gpres_tables; gquery.
  - intros u id _. unfold DeleteKey. gpres; apply gpres_tables; gquery.
  - intros o now r. unfold Logout_. destruct (ExtractTokenMetadata _ _ _) as [[a|]|e|w]; gpres; apply gpres_tables; gquery.
Qed.
Lemma framed_networks : frame P networks -> frame P networkUsers -> frame P invitations -> NetworkHandlers P.
Proof using Type.
  intros H1 H2 H3. split.
  - intros. unfold CreateNetwork. gquery.
  - intros. unfold UpdateNetwork. gquery.
  - intros. unfold DeleteNetwork. gquery.
  - intros. unfold ChangeNetworkMemberRole. gquery.
  - intros. unfold DeleteNetworkUser. gquery.
  - intros. unfold InviteMember. gquery.
  - intros. unfold HandleInvitation. gquery.
Qed.

Lemma framed_networks_by_id nus m : gpreserves P (networks_by_id nus m).
Proof using Type. revert m. induction nus as [|nu nus IH]; intros m; cbn; gpres; apply IH. Qed.
Lemma framed_members ds nus m : gpreserves P (add_members ds nus m).
Proof using Type. revert m. induction nus as [|nu nus IH]; intros m; cbn; gpres; apply IH. Qed.
#[local] Hint Resolve framed_networks_by_id framed_members : gpres.
Lemma framed_next_ip dest cands : gpreserves P (next_ip dest cands).
Proof using Type. revert dest. induction cands as [|c cands IH]; intros dest; cbn; gpres; unfold One_into; gpres. Qed.
#[local] Hint Resolve framed_next_ip : gpres.
Lemma framed_devices : frame P devices -> frame P relayServers -> DeviceHandlers P.
Proof using Type.
  intros Hd Hr. split.
  - intros. unfold Preflight. gpres. apply gpres_ondb. unfold preflight_device, NextIP. gquery.
  - intros. unfold PeerGraph. gpres. apply gpres_ondb. unfold graph_query, PeerDevices. gquery.
  - intros. unfold RelayKeepalive. gpres; apply gpres_ondb, gpres_Try; gquery.
  - intros. unfold DeviceUpdate. gquery.
Qed.
End Framed.

(** References between tables, the registry of devices, and the binding of
    one-off keys: each is kept by the handlers of its own tables and does not
    depend on the others. *)
Section Kept.
Context `{HG : Gorm} `{HGk : !GormOk} `{HS : Signature} `{HE : Encoding} `{HJ : JwtLib} `{HL : LedisDB}.

Lemma refs_networks : tx_error_kept = true -> NetworkHandlers refs_ok.
Proof.
  intros Ht. split; intros.
  - by apply refs_Create.
  - apply refs_UpdateNetwork.
  - apply refs_Delete.
  - apply refs_ChangeRole.
  - apply refs_DeleteUser.
  - apply refs_Invite.
  - apply refs_Handle.
Qed.
Lemma refs_others : UserHandlers refs_ok /\ KeyHandlers refs_ok (fun _ => True) /\ DeviceHandlers refs_ok.
Proof using Type. split_and!; [apply framed_users|apply framed_keys|apply framed_devices]; by intros l d. Qed.

Lemma registry_devices stay : DeviceHandlers (registry stay).
Proof.
  split; intros.
  - apply registry_Preflight.
  - apply registry_PeerGraph.
  - apply registry_Keepalive.
  - apply registry_device_update.
Qed.
Lemma registry_others stay :
  UserHandlers (registry stay) /\ KeyHandlers (registry stay) (fun _ => True) /\ NetworkHandlers (registry stay).
Proof using Type. split_and!; [apply framed_users|apply framed_keys|apply framed_networks]; by intros l d. Qed.

Lemma bound_keys i m : m <> ""%string -> KeyHandlers (bound i m) (fun id => id <> i).
Proof.
  intros Hm. split.
  - intros. by apply bound_ExchangeKey.
  - intros now key u typ s Hs. by apply (bound_step i m s); [|apply ks_create|].
  - intros u id op s Hs. by apply (bound_step i m s); [|apply ks_change|].
  - intros u id Hid s Hs. by apply (bound_step i m s); [|apply ks_delete|].
  - intros o now r s Hs. by apply (bound_step i m s); [|apply ks_logout|].
Qed.
Lemma bound_others i m : UserHandlers (bound i m) /\ DeviceHandlers (bound i m) /\ NetworkHandlers (bound i m).
Proof using Type. split_and!; [apply framed_users|apply framed_devices|apply framed_networks]; by intros l d. Qed.
End Kept.

(** ** The portal keeps what its components keep *)

Section Whole.
Context `{HG : Gorm} `{HGk : !GormOk} `{HS : Signature} `{HE : Encoding} `{HJ : JwtLib} `{HL : LedisDB} `{HB : Bodies} `{HX : Mux} `{HXk : !MuxOk} (se : Settings).
#[local] Existing Instance LedisStore.store.

Definition pt_db (p : Portal) : Database := sv_db (pt_server p).

Lemma gpres_in_server {A} (Q : server -> Prop) (m : GoM server A) :
  gpreserves Q m -> gpreserves (fun p : Portal => Q (pt_server p)) (in_server m).
Proof using Type. intros Hm p Hp. specialize (Hm _ Hp). unfold gstate, in_server in *. by destruct (m (pt_server p)). Qed.
Lemma gpres_in_db {A} (P : Database -> Prop) (q : GoM Database A) : gpreserves P q -> gpreserves (fun p => P (pt_db p)) (in_db q).
Proof using Type. intros Hq. by apply (gpres_in_server (fun s => P (sv_db s))), gpres_on_db. Qed.
Lemma gpres_in_state {A} (P : Database -> Prop) (m : GoM State A) :
  gpreserves (fun s => P (st_db s)) m -> gpreserves (fun p => P (pt_db p)) (in_state m).
Proof using Type.
  intros Hm p Hp. specialize (Hm (mkState (sv_db (pt_server p)) (pt_store p)) Hp). unfold gstate, in_state in *.
  by destruct (m _).
Qed.

(** Validators only look. *)
Lemma validator_looks (Q : State -> Prop) g now ctx r :
  gpreserves Q (peerTokenValidator g (se_options se) now ctx r) /\ gpreserves Q (tokenValidator (se_options se) now ctx r).
Proof using Type.
  assert (forall ctx, gpreserves Q (tokenValidator (se_options se) now ctx r)) as Ht.
  { assert (forall A e (m : GoM State A), gpreserves Q m -> gpreserves Q (replace_error e m)) as Hr.
    { intros A e m Hm s Hs. specialize (Hm s Hs). unfold gstate, replace_error in *. by destruct (m s) as [s' [| |]]. }
    assert (forall k, gpreserves Q (on_store (store_Get now k))) as Hg.
    { intros k s Hs. unfold gstate, on_store. cbn [store_Get LedisStore.store]. unfold LedisStore.Get. by destruct (LGet _ _ _), s. }
    assert (forall key, gpreserves Q (on_tables (Try (Tx (One authKeys (key_is key)))))) as Ho.
    { intros key s Hs. unfold gstate, on_tables, Try, Tx. pose proof (One_state authKeys (key_is key) (st_db s)) as Hst.
      destruct (One authKeys _ _) as [d' [| |]]; cbn in *; subst; by destruct s. }
    assert (forall a, gpreserves Q (on_store (FetchAuth now a))) as Hf.
    { intros a s Hs. unfold gstate, on_store, FetchAuth. cbv [mbind gom_bind]. cbn [store_Get LedisStore.store]. unfold LedisStore.Get.
      by destruct (LGet _ _ _), s. }
    intros ctx'. unfold tokenValidator, peerAuthKeyValidator, peerOneoffValidator. gpres; auto; apply Hr; auto with gpres. }
  split; [|done]. unfold peerTokenValidator. gpres; apply Ht.
Qed.
Lemma validate_looks (Q : Portal -> Prop) g now r : gpreserves Q (validate se g now r).
Proof using Type.
  intros p Hp.
  assert (forall A (m : GoM State A), (forall s : State, gstate m s = s) -> gstate (in_state m) p = p) as Hsame.
  { intros A m Hm. unfold gstate, in_state in *. specialize (Hm (mkState (sv_db (pt_server p)) (pt_store p))).
    destruct (m _) as [s res]. cbn in *. subst s. destruct p as [sv st]. by destruct sv. }
  destruct g; cbn; [done|done|rewrite Hsame; [done|]..]; intros s.
  - by apply (proj1 (validator_looks (fun x => x = s) _ _ _ _)).
  - by apply (proj2 (validator_looks (fun x => x = s) (se_semver se) _ _ _)).
Qed.

Section Handlers.
Context (P : Database -> Prop) (ok : ID -> Prop).
Context `{HU : !UserHandlers P} `{HK : !KeyHandlers P ok} `{HD : !DeviceHandlers P} `{HN : !NetworkHandlers P}.

Lemma gpres_on_server {A} (m : GoM server A) : gpreserves (fun s => P (sv_db s)) m -> gpreserves (fun p => P (pt_db p)) (in_server m).
Proof using Type. apply (gpres_in_server (fun s => P (sv_db s))). Qed.

(** Handlers that only read the tables. *)
Lemma reads_state :
  (forall url now redirect client s1 s2, gpreserves (fun s => P (st_db s)) (SSOMethods url now redirect client s1 s2)) /\
  (forall u, gpreserves (fun s => P (st_db s)) (KeyList u)) /\ (forall u, gpreserves (fun s => P (st_db s)) (UserProfile u)).
Proof using Type.
  split_and!; intros.
  - unfold SSOMethods, AuthCodeURL. gpres; apply gpres_store.
  - unfold KeyList. gpres. apply gpres_tables. gquery.
  - unfold UserProfile. apply gpres_tables. gquery.
Qed.
Lemma reads_devices now u : gpreserves P (UserDeviceList now u) /\ gpreserves P (DeviceList now u).
Proof using Type. unfold UserDeviceList, DeviceList, deviceList. split; gquery. Qed.

#[local] Hint Resolve gpres_in_state gpres_in_db gpres_on_server
  uh_Setting uh_Callback kh_Exchange kh_Create kh_Change kh_Logout dh_Preflight dh_PeerGraph dh_Keepalive dh_Update
  nh_Create nh_Update nh_Delete nh_Role nh_Remove nh_Invite nh_Handle : gpres.
Lemma handle_keeps h ctx vars d r : (h = HDeleteKey -> ok (Vars_ModelID vars "key_id")) ->
  gpreserves (fun p => P (pt_db p)) (handle se h ctx vars d r).
Proof using HU HK HD HN.
  intros Hok. destruct reads_state as (R1 & R2 & R3). pose proof (fun u n => gpres_reads P u n) as R4.
  destruct (decide (h = HDeleteKey)) as [->|Hne].
  { unfold handle. apply gpres_bind; [|intros; auto with gpres]. apply gpres_in_state, kh_Delete. by apply Hok. }
  clear Hok. destruct h; try done; unfold handle, body; gpres; apply gpres_in_db; first [apply reads_devices|apply (R4 _ 0)|apply R4].
Qed.
End Handlers.

(** A request that deletes key [i]. *)
Definition deletes (i : ID) (r : Incoming) : Prop :=
  exists ro vars, is_for (in_Method r) (split_on slash (in_Path r)) ro vars /\ ro_Handler ro = HDeleteKey /\
    Vars_ModelID vars "key_id" = i.

Lemma serve_keeps P ok d r : UserHandlers P -> KeyHandlers P ok -> DeviceHandlers P -> NetworkHandlers P ->
  (forall i, deletes i r -> ok i) -> gpreserves (fun p => P (pt_db p)) (serve se d r).
Proof using HXk.
  intros HU HK HD HN Hok. unfold serve.
  destruct (Find routes _ _) as [ro vars| | |] eqn:Hs; cbn [answer_at]; [|by gpres..].
  apply Find_matched in Hs. apply gpres_bind; [apply validate_looks|]. intros ctx.
  eapply handle_keeps; [done..|]. intros Hh. apply Hok. by exists ro, vars.
Qed.

(** Requests one after the other. *)
Definition run (l : list (Draws * Incoming)) (p : Portal) : Portal := foldl (fun p x => gstate (serve se x.1 x.2) p) p l.
Lemma run_keeps P ok l p : UserHandlers P -> KeyHandlers P ok -> DeviceHandlers P -> NetworkHandlers P ->
  Forall (fun x => forall i, deletes i x.2 -> ok i) l -> P (pt_db p) -> P (pt_db (run l p)).
Proof using HXk.
  intros HU HK HD HN Hl. revert p. induction Hl as [|x l Hx _ IH]; intros p Hp; [exact Hp|].
  unfold run. cbn [foldl]. apply IH. pose proof (serve_keeps P ok x.1 x.2 HU HK HD HN Hx) as Hk. exact (Hk p Hp).
Qed.
End Whole.

(** ** Properties *)

Section Properties.
Context `{HG : Gorm} `{HGk : !GormOk} `{HS : Signature} `{HE : Encoding} `{HJ : JwtLib} `{HL : LedisDB} `{HLk : !LedisOk} `{HB : Bodies} `{HX : Mux} `{HXk : !MuxOk}.

(** C32 (equivalence).  It does not matter in which order the portal registers
    its routes: no request is for two of them, and every arrangement sends each
    request to the one it is for, or answers that there is none, or none with
    that method. *)
Theorem routing_ignores_order rs method path :
  rs ≡ₚ routes -> Find rs method path = Find routes method path /\
  forall r1 v1 r2 v2, is_for method path r1 v1 -> is_for method path r2 v2 -> r1 = r2 /\ v1 = v2.
Proof using HXk.
  intros Hp. split; [|intros; by eapply is_for_unique].
  destruct (Find_spec routes method path ltac:(done)) as [(r & v & -> & Hi)|[Hn ->]]; [by apply Find_is_for|].
  destruct (Find_spec rs method path Hp) as [(r & v & _ & Hi)|[_ ->]]; [by destruct (Hn r v)|done].
Qed.

(** What the plugin of a group lets through, and as whom. *)
Definition passes (se : Settings) (g : Guard) (now : Z) (r : Incoming) (p : Portal) (ctx : Ctx) : Prop :=
  let s := mkState (pt_db p) (pt_store p) in
  match g with
  | Public => ctx = Background
  | RelayKey => rq_Authorization (in_Headers r) = se_relayAuthKey se /\ ctx = Background
  | PeerToken =>
    (exists major, se_semver se (rq_ClientVersion (in_Headers r)) = Ok major /\ MajorVersion <= major) /\
    entitled (se_options se) now (in_Headers r) s ctx
  | UserToken => entitled (se_options se) now (in_Headers r) s ctx
  end.

Lemma public_routes ro : ro ∈ routes -> ro_Guard ro = Public ->
  ro_Handler ro ∈ [HVersionCheck; HSSOMethods; HGithubAuthCallback; HLogout].
Proof using Type.
  intros Hin Hg. assert (forallb (fun ro => negb (bool_decide (ro_Guard ro = Public)) ||
    bool_decide (ro_Handler ro ∈ [HVersionCheck; HSSOMethods; HGithubAuthCallback; HLogout])) routes = true) as Hall by (by vm_compute).
  rewrite forallb_forall in Hall. specialize (Hall ro (proj1 (list_elem_of_In _ _) Hin)).
  rewrite (bool_decide_eq_true_2 _ Hg) in Hall. by apply bool_decide_eq_true in Hall.
Qed.
Lemma in_state_ok {A} (m : GoM State A) p p' a : in_state m p = (p', Ok a) ->
  exists s', m (mkState (pt_db p) (pt_store p)) = (s', Ok a).
Proof using Type. unfold in_state, pt_db. destruct (m _) as [s' [b| |]]; try done. intros [= _ <-]. by exists s'. Qed.
Lemma validate_ok se g now r p p' ctx : validate se g now r p = (p', Ok ctx) -> p' = p /\ passes se g now r p ctx.
Proof.
  intros Hv. assert (p' = p) as ->.
  { pose proof (validate_looks se (fun x => x = p) g now r p eq_refl) as Hl. unfold gstate in Hl. by rewrite Hv in Hl. }
  split; [done|]. destruct g; cbn in *.
  - unfold mret, gom_ret in Hv. by injection Hv as <-.
  - unfold glift, relayAuthKeyValidator in Hv. destruct (String.eqb_spec (rq_Authorization (in_Headers r)) (se_relayAuthKey se)); [|done].
    by injection Hv as <-.
  - apply in_state_ok in Hv as [s' Hv]. unfold peerTokenValidator in Hv.
    destruct (String.eqb (rq_ClientVersion (in_Headers r)) ""); [done|]. cbv [mbind gom_bind glift] in Hv.
    destruct (se_semver se _) as [major|e|w] eqn:Hs; [|done..]. destruct (Z.ltb_spec major MajorVersion); [done|].
    apply tokenValidator_ok in Hv as [_ Hv]. split; [by exists major|done].
  - apply in_state_ok in Hv as [s' Hv]. by apply tokenValidator_ok in Hv as [_ Hv].
Qed.

(** C16 (safety).  A request that is answered with a value, or changes anything,
    is for a route of the portal and went past its guard: it carried the relay
    servers' key, or a credential that makes it the user's it acts for - an
    authentication key, an entry of the store, or a signed token for the
    request's machine - or the route is one of the four public ones.  What is
    done is what that route's handler does for that user. *)
Theorem requests_pass_their_guard se d r p :
  gstate (serve se d r) p <> p \/ is_ok (gresult (serve se d r) p) = true ->
  exists ro vars ctx, is_for (in_Method r) (split_on slash (in_Path r)) ro vars /\
    passes se (ro_Guard ro) (dr_now d) r p ctx /\
    serve se d r p = handle se (ro_Handler ro) ctx vars d r p /\
    (ro_Guard ro = Public -> ro_Handler ro ∈ [HVersionCheck; HSSOMethods; HGithubAuthCallback; HLogout]).
Proof.
  unfold serve. destruct (Find routes _ _) as [ro vars| | |] eqn:Hf; cbn [answer_at]; [|by intros []..]. apply Find_matched in Hf. intros Hd.
  assert (ro_Guard ro = Public -> ro_Handler ro ∈ [HVersionCheck; HSSOMethods; HGithubAuthCallback; HLogout]) as Hpub
    by (apply public_routes; by destruct Hf as [_ []]).
  cbv [mbind gom_bind] in *. pose proof (validate_looks se (fun x => x = p) (ro_Guard ro) (dr_now d) r p eq_refl) as Hl.
  unfold gstate, gresult in *. destruct (validate se _ _ r p) as [p1 [ctx|e|w]] eqn:Hv; cbn in Hl; subst p1; [|by destruct Hd..].
  apply validate_ok in Hv as [_ Hv]. by exists ro, vars, ctx.
Qed.

(** Whoever is signed in is shown anyone's devices: the answer does not depend
    on who asks. *)
Example devices_shown_to_anyone se ctx1 ctx2 vars d r :
  handle se HUserDeviceList ctx1 vars d r = handle se HUserDeviceList ctx2 vars d r.
Proof using Type. done. Qed.

End Properties.

(** ** Witnesses *)

Module PortalExample.
#[local] Existing Instances Memory.gorm Memory.gorm_ok Toy.signature InternalExample.encoding
  ToyJwt.jwtlib ToyJwt.ledis ToyJwt.ledis_ok LedisStore.store InOrder.mux InOrder.mux_ok.

(** Bodies that are one text, given to every field. *)
#[local] Instance bodies : Bodies := {|
  NetworkRequest s := Ok (s, s); ChangeMemberPermissionRequest s := Ok s; InviteMemberRequest s := Ok (s, "member"%string);
  HandleInvitationRequest s := Ok s; CreateKeyRequest s := Ok s; ChangeKeyRequest s := Ok s;
  UserProfileSettingRequest s := Ok (s, s); DeviceUpdateRequest s := Ok s;
  RelayKeepaliveRequest_ s := Ok (mkRelayKeepaliveRequest s "eu" s 2020 3478 s [] 1); PreflightRequest_ s := Ok (mkPreflightRequest "linux" s);
  RenewCredentialRequest s := Ok s |}.

Definition settings : Settings := mkSettings AuthExample.opts "relay-key" "https://portal" (fun a b => (a ++ b)%string) AuthExample.semver.
Definition draws (now : Z) (uuid : string) : Draws :=
  mkDraws now uuid AuthExample.word (Some 1) ["10.0.0.2"%string] [1] [1] "1" "2" (Err (EExt "offline")) (Err (EExt "offline")) (Err (EExt "offline")) (Err (EExt "offline")).
Definition incoming (method path auth machine body : string) : Incoming :=
  mkIncoming method path ∅ (AuthExample.request auth machine) body.

Definition alice : string := bearer AuthExample.access.
Definition key : string := ("AuthKey pmkey-" ++ AuthExample.word)%string.
Definition tables : Database := mkDatabase [AuthExample.alice] [] [] [] [] [InternalExample.relay_a] [] [].
Definition start : Portal := mkPortal (gstate preload_ (mkServer tables ∅ ∅ ∅ "portal")) (st_store AuthExample.signed_in).

(** Alice makes a one-off key and a network, and a machine takes the key. *)
Definition morning : list (Draws * Incoming) := [
  (draws 1 "u1", incoming "POST" "/api/v1/key" alice "m1" "one-off");
  (draws 2 "u2", incoming "POST" "/api/v1/network" alice "m1" "lan");
  (draws 3 "u3", incoming "POST" "/api/v1/key/exchange" key "m2" "")]%string.
Definition noon : Portal := run settings morning start.
(** Her laptop announces itself; another machine tries the key; she disables it. *)
Definition afternoon : list (Draws * Incoming) := [
  (draws 4 "u4", incoming "POST" "/api/v1/device/preflight" alice "m1" "laptop");
  (draws 5 "u5", incoming "POST" "/api/v1/key/exchange" key "m3" "");
  (draws 6 "u6", incoming "PUT" "/api/v1/key/1" alice "m1" "disable")]%string.
Definition evening : Portal := run settings afternoon noon.

Lemma routing_ignores_order_witness :
  Find (rev routes) "GET" ["";"api";"v1";"keys"]%string = Matched (mkRoute "GET" "/api/v1/keys" UserToken HKeyList) ∅ /\
  Find (rev routes) "PUT" ["";"api";"v1";"keys"]%string = MethodMismatch.
Proof.
  assert (rev routes ≡ₚ routes) as Hp by (symmetry; apply Permutation_rev).
  split.
  - refine (eq_trans (proj1 (routing_ignores_order (rev routes) "GET" ["";"api";"v1";"keys"]%string Hp)) _). by vm_compute.
  - refine (eq_trans (proj1 (routing_ignores_order (rev routes) "PUT" ["";"api";"v1";"keys"]%string Hp)) _). by vm_compute.
Defined.

Lemma requests_pass_their_guard_witness :
  let x := (draws 1 "u1", incoming "POST" "/api/v1/key" alice "m1" "one-off") in
  exists ro vars ctx, is_for "POST" ["";"api";"v1";"key"]%string ro vars /\
    passes settings (ro_Guard ro) 1 x.2 start ctx /\
    serve settings x.1 x.2 start = handle settings (ro_Handler ro) ctx vars x.1 x.2 start.
Proof.
  intros x. assert (is_ok (gresult (serve settings x.1 x.2) start) = true) as Hok by (vm_compute; reflexivity).
  destruct (requests_pass_their_guard settings x.1 x.2 start (or_intror Hok)) as (ro & vars & ctx & H1 & H2 & H3 & _).
  exists ro, vars, ctx. split_and!; [exact H1|exact H2|exact H3].
Defined.

(** The version check knows of no version. *)
Example version_check_says_nothing version platform : version <> ""%string -> platform <> ""%string ->
  VersionCheck version platform = Ok None.
Proof. intros Hv Hp. unfold VersionCheck. by rewrite (proj2 (String.eqb_neq _ _) Hv), (proj2 (String.eqb_neq _ _) Hp). Qed.

Lemma noon_holds : refs_ok (pt_db noon) /\ registry_ok (idents (pt_db noon)) /\ bound 1 "m2" (pt_db noon).
Proof.
  split_and!.
  - split; vm_compute.
    + intros nu [->|[]%elem_of_nil]%elem_of_cons. eexists. split; [by left|done].
    + intros i []%elem_of_nil.
  - apply InternalExample.no_devices. by vm_compute.
  - split; vm_compute; [apply NoDup_singleton|]. eexists. split; [by left|done].
Qed.
Lemma no_deletion : Forall (fun x => ~ deletes 1 x.2) afternoon.
Proof.
  unfold afternoon. rewrite !Forall_cons. split_and!; [..|by apply Forall_nil]; intros (ro & vars & Hi & Hh & _);
    apply (Find_is_for routes _ _ _ _ ltac:(done)) in Hi; vm_compute in Hi; by injection Hi as <- <-.
Qed.
End PortalExample.
