(* ===== verification/QueryGen.v ===== *)
(** The generator of the portal's query sets: [tools/qs/].  A generated method
    is kept as its parts; [GetBody] is the text the template prints, and
    [QuerySet] says what it does.  Loading a package, gorm's naming strategy
    and the formatter are the environment. *)
From Stdlib Require Import Ascii.
From S2P Require Import Prelude GoText.
#[local] Set Warnings "-clear-no-such-hyp".
#[local] Open Scope string_scope.

(** ** Types and structs ([internal/parser/parser.go]) *)

(** A struct tag as [reflect.StructTag] reads it; [Get] of a missing key is
    empty. *)
Abbreviation StructTag := (list (string * string)).
Definition tag_Get (key : string) (tag : StructTag) : string :=
  match list_find (fun kv => kv.1 = key) tag with Some (_, kv) => kv.2 | None => "" end.

(** [go/types]: a named type has the path and the name of its package; a
    struct's variables come with what the parser asks of them. *)
Record Var := mkVar { v_Name : string; v_Anonymous : bool; v_Exported : bool; v_Tag : StructTag }.
#[warnings="-register-all"]
Inductive GoType :=
| Basic (name : string) (isString isNumeric : bool)
| Slice (elem : GoType)
| Named (path pkg name : string) (underlying : GoType)
| Struct (text : string) (vars : list (Var * GoType))
| Pointer (elem : GoType)
| Interface (text : string)
| Other (text : string).
Fixpoint Underlying (t : GoType) : GoType :=
  match t with Named _ _ _ u => Underlying u | _ => t end.
Fixpoint type_String (t : GoType) : string :=
  match t with
  | Basic n _ _ => n
  | Slice e => "[]" ++ type_String e
  | Named path _ n _ => if String.eqb path "" then n else path ++ "." ++ n
  | Pointer e => "*" ++ type_String e
  | Struct text _ | Interface text | Other text => text
  end.

Record StructField := mkStructField { sf_name : string; sf_typ : GoType; sf_tag : StructTag }.
Definition newStructField (v : Var) (t : GoType) : StructField := mkStructField (v_Name v) t (v_Tag v).
Definition is_interface (t : GoType) : bool := match Underlying t with Interface _ => true | _ => false end.

(** [parseStructFields] of a type whose underlying type is a struct: the
    fields of embedded structs stand in their place. *)
Fixpoint struct_fields (t : GoType) : option (list StructField) :=
  match t with
  | Named _ _ _ u => struct_fields u
  | Struct _ vars =>
    Some (flat_map (fun '(v, t) =>
      if is_interface t then []
      else if v_Anonymous v then match struct_fields t with Some pf => pf | None => [] end
      else if negb (v_Exported v) then []
      else [newStructField v t]) vars)
  | _ => None
  end.

(** A struct's type name, its fields, and the comments above the group of its
    declaration. *)
Record ParsedStruct := mkParsedStruct { ps_TypeName : string; ps_Fields : list StructField; ps_Doc : option (list string) }.
Definition parseStruct (name : string) (t : GoType) (doc : option (list string)) : option ParsedStruct :=
  match struct_fields t with
  | Some ((_ :: _) as fields) => Some (mkParsedStruct name fields doc)
  | _ => None
  end.

(** [getStructNamesInFile]: the file's declarations in the order of the walk,
    each with its comment and its types - a name and whether it is a struct. *)
Record GenDecl := mkGenDecl { gd_Doc : option (list string); gd_Specs : list (string * bool) }.
Definition visit_spec (d : GenDecl) (names : gmap string GenDecl) (spec : string * bool) : gmap string GenDecl :=
  if spec.2 then <[spec.1 := d]> names else names.
Definition getStructNamesInFile (decls : list GenDecl) : gmap string GenDecl :=
  foldl (fun names d => foldl (visit_spec d) names (gd_Specs d)) ∅ decls.

(** [buildParsedStructs]: the objects of the package's scope with their types;
    both type assertions panic. *)
Fixpoint buildParsedStructs (scope : list (string * GoType)) (needed : gmap string GenDecl) : result (list ParsedStruct) :=
  match scope with
  | [] => Ok []
  | (name, t) :: scope =>
    match needed !! name with
    | None => buildParsedStructs scope needed
    | Some d =>
      match t, Underlying t with
      | Named _ _ _ _, Struct _ _ =>
        rest ← buildParsedStructs scope needed;
        Ok (match parseStruct name t (gd_Doc d) with Some s => s :: rest | None => rest end)
      | _, _ => Panic "interface conversion"
      end
    end
  end.

(** ** Fields ([internal/queryset/field/field.go]) *)

Record BaseInfo := mkBaseInfo {
  fi_Name : string; fi_DBName : string; fi_TypeName : string;
  fi_IsStruct : bool; fi_IsNumeric : bool; fi_IsTime : bool; fi_IsString : bool }.
Record Info := mkInfo { fi_pointed : option BaseInfo; fi_base : BaseInfo; fi_IsPointer : bool }.
Definition set_TypeName (n : string) (i : Info) : Info :=
  let b := fi_base i in
  mkInfo (fi_pointed i) (mkBaseInfo (fi_Name b) (fi_DBName b) n (fi_IsStruct b) (fi_IsNumeric b) (fi_IsTime b) (fi_IsString b)) (fi_IsPointer i).

(** [parseTagSetting]. *)
Definition tag_value (setting : gmap string string) (value : string) : gmap string string :=
  match split_on ":" value with
  | [] => setting
  | k :: v =>
    let k := TrimSpace (ToUpper k) in
    <[k := match v with [] => k | _ => Join v ":" end]> setting
  end.
Definition parseTagSetting (tags : StructTag) : gmap string string :=
  foldl (fun setting str => foldl tag_value setting (split_on ";" str)) ∅ [tag_Get "sql" tags; tag_Get "gorm" tags].
Definition tagSetting (k : string) (tags : StructTag) : string := default "" (parseTagSetting tags !! k).

Section Fields.
(** The package that is generated for, and [schema.NamingStrategy]. *)
Context (package : string) (ColumnName : string -> string).

Definition getOriginalTypeName (path pkg name : string) : string :=
  if String.eqb path package then name else pkg ++ "." ++ name.

(** [GenFieldInfo]: no information means that the field is left out. *)
Fixpoint GenFieldInfo (name : string) (tag : StructTag) (t : GoType) : result (option Info) :=
  if negb (String.eqb (tagSetting "-" tag) "") then Ok None
  else
    let dbColName := tagSetting "COLUMN" tag in
    let dbName := if negb (String.eqb dbColName "") then dbColName else ColumnName name in
    let bi := mkBaseInfo name dbName (type_String t) in
    if String.eqb (type_String t) "time.Time" then Ok (Some (mkInfo None (bi false true true false) false))
    else
      match t with
      | Basic _ isString isNumeric => Ok (Some (mkInfo None (bi false isNumeric false isString) false))
      | Slice e => if String.eqb (type_String e) "byte" then Ok (Some (mkInfo None (bi false false false false) false)) else Ok None
      | Named path pkg n u => r ← GenFieldInfo name tag u; Ok (option_map (set_TypeName (getOriginalTypeName path pkg n)) r)
      | Struct _ _ => Ok (Some (mkInfo None (bi true false false false) false))
      | Pointer e =>
        pf ← GenFieldInfo name tag e;
        match pf with
        | None => Panic "invalid memory address or nil pointer dereference"
        | Some pf => Ok (Some (mkInfo (Some (fi_base pf)) (bi false false false false) true))
        end
      | Interface _ | Other _ => Ok None
      end.

(** [genStructFieldInfos]. *)
Fixpoint genStructFieldInfos (fields : list StructField) : result (list Info) :=
  match fields with
  | [] => Ok []
  | f :: fields =>
    fi ← GenFieldInfo (sf_name f) (sf_tag f) (sf_typ f);
    rest ← genStructFieldInfos fields;
    Ok (match fi with Some i => i :: rest | None => rest end)
  end.
End Fields.

(** ** Methods ([internal/queryset/methods/]) *)

(** [field_utils.go]; a field's name is not empty, and is ASCII. *)
Definition commonInitialisms : list string :=
  ["ACL"; "API"; "ASCII"; "CPU"; "CSS"; "DNS"; "EOF"; "GUID"; "HTML"; "HTTP"; "HTTPS"; "ID"; "IP"; "JSON"; "LHS"; "QPS"; "RAM";
   "RHS"; "RPC"; "SLA"; "SMTP"; "SQL"; "SSH"; "TCP"; "TLS"; "TTL"; "UDP"; "UI"; "UID"; "UUID"; "URI"; "URL"; "UTF8"; "VM"; "XML";
   "XMPP"; "XSRF"; "XSS"].
Definition keywords : list string :=
  ["break"; "case"; "chan"; "const"; "continue"; "default"; "defer"; "else"; "fallthrough"; "for"; "func"; "go"; "goto"; "if";
   "import"; "interface"; "map"; "package"; "range"; "return"; "select"; "struct"; "switch"; "type"; "var"].
Definition LowercaseFirstRune (s : string) : string :=
  match s with EmptyString => EmptyString | String c s' => String (lower c) s' end.
Definition Title (s : string) : string :=
  match s with EmptyString => EmptyString | String c s' => String (upper c) s' end.
Definition fieldNameToArgName (fieldName : string) : string :=
  if bool_decide (fieldName ∈ commonInitialisms) then fieldName
  else
    let argName := LowercaseFirstRune fieldName in
    if bool_decide (argName ∈ keywords) then argName ++ "Value" else argName.

(** A call of gorm ([gorm.go]); its arguments are a text, a text and a
    variable, or an expression. *)
Inductive GormArgs :=
| SqlText (sql : string)
| SqlArg (sql arg : string)
| Expr (e : string).
Definition print_args (a : GormArgs) : string :=
  match a with SqlText s => quoted s | SqlArg s a => quoted s ++ ", " ++ a | Expr e => e end.
Record callGormMethod := newCallGormMethod { gormMethodName : string; gormMethodArgs : GormArgs; gormVarName : string }.
Definition call_text (c : callGormMethod) : string :=
  gormVarName c ++ "." ++ gormMethodName c ++ "(" ++ print_args (gormMethodArgs c) ++ ")".
Definition wrapToGormScope (code : string) : string := "return qs.w(" ++ code ++ ")".

(** The bodies: a wrapped call, the same behind the check of [InFilterMethod],
    a call whose error is returned, and the constant ones. *)
Inductive Body :=
| Wrapped (c : callGormMethod)
| Checked (arg method : string) (c : callGormMethod)
| Errored (c : callGormMethod)
| BodyGetDB
| BodyGetUpdater (updater : string)
| BodyDeleteNum (unscoped : bool) (structTypeName : string)
| BodyCount
| BodySet (schema field arg : string)
| BodyUpdate
| BodyUpdateNum.
Definition nl : string := String (ascii_of_nat 10) EmptyString.
Definition body_text (b : Body) : string :=
  match b with
  | Wrapped c => wrapToGormScope (call_text c)
  | Checked a m c =>
    "if len(" ++ a ++ ") == 0 {" ++ nl ++
    "qs.db.AddError(errors.New(" ++ quoted ("must at least pass one " ++ a ++ " in " ++ m) ++ "))" ++ nl ++
    "return qs.w(qs.db)" ++ nl ++ "}" ++ nl ++ wrapToGormScope (call_text c)
  | Errored c => "return " ++ call_text c ++ ".Error"
  | BodyGetDB => "return qs.db"
  | BodyGetUpdater u => "return New" ++ u ++ "(qs.db)"
  | BodyDeleteNum unscoped s =>
    "db := qs.db." ++ (if unscoped : bool then "Unscoped()." else "") ++ "Delete(" ++ s ++ "{})" ++ nl ++ "return db.RowsAffected, db.Error"
  | BodyCount => "var count int64" ++ nl ++ "err := qs.db.Count(&count).Error" ++ nl ++ "return count, err"
  | BodySet schema field arg => "u.fields[string(" ++ schema ++ "." ++ field ++ ")] = " ++ arg ++ nl ++ "return u"
  | BodyUpdate => "return u.db.Updates(u.fields).Error"
  | BodyUpdateNum => "db := u.db.Updates(u.fields)" ++ nl ++ "return db.RowsAffected, db.Error"
  end.

(** A method: its receiver, its name, a comment of its own, its arguments with
    their types, what it returns and its body. *)
Record Method := mkMethod {
  me_receiver : string * string; me_name : string; me_doc : option string;
  me_args : list (string * string); me_ret : string; me_body : Body }.
Definition GetReceiverDeclaration (m : Method) : string := (me_receiver m).1 ++ " " ++ (me_receiver m).2.
Definition GetMethodName (m : Method) : string := me_name m.
Definition GetArgsDeclaration (m : Method) : string := Join (map (fun a => a.1 ++ " " ++ a.2) (me_args m)) ",".
Definition GetBody (m : Method) : string := body_text (me_body m).
Definition GetDoc (m : Method) : string :=
  match me_doc m with
  | Some d => d
  | None => "// " ++ me_name m ++ " is an autogenerated method" ++ nl ++ "// nolint: dupl"
  end.

(** The operations of the binary filters: their names and [getWhereCondition]. *)
Inductive FilterOp := OpEq | OpNe | OpLt | OpLte | OpGt | OpGte | OpLike | OpNotLike.
Definition operationName (o : FilterOp) : string :=
  match o with OpEq => "eq" | OpNe => "ne" | OpLt => "lt" | OpLte => "lte" | OpGt => "gt" | OpGte => "gte" | OpLike => "like" | OpNotLike => "notlike" end.
Definition getWhereCondition (o : FilterOp) : string :=
  match o with OpEq => "=" | OpNe => "!=" | OpLt => "<" | OpLte => "<=" | OpGt => ">" | OpGte => ">=" | OpLike => "LIKE" | OpNotLike => "NOT LIKE" end
  ++ " ?".

Section Methods.
(** The struct's type name and the name of its query set. *)
Context (TypeName : string).
Definition qsTypeName : string := TypeName ++ "QuerySet".
Definition getUpdaterTypeName : string := TypeName ++ "Updater".
Definition backquote : string := String (ascii_of_nat 96) EmptyString.

Definition chained (name : string) (args : list (string * string)) (b : Body) : Method :=
  mkMethod ("qs", qsTypeName) name None args qsTypeName b.
Definition where_call (sql arg : string) : callGormMethod := newCallGormMethod "Where" (SqlArg sql arg) "qs.db".

Definition NewBinaryFilterMethod (o : FilterOp) (f : BaseInfo) : Method :=
  let argName := fieldNameToArgName (fi_Name f) in
  chained (fi_Name f ++ Title (operationName o)) [(argName, fi_TypeName f)]
    (Wrapped (where_call (backquote ++ fi_DBName f ++ backquote ++ " " ++ getWhereCondition o) argName)).
Definition newInFilterMethodImpl (operationName sql : string) (f : BaseInfo) : Method :=
  let argName := fieldNameToArgName (fi_Name f) in
  let name := fi_Name f ++ Title operationName in
  chained name [(argName, "..." ++ fi_TypeName f)]
    (Checked argName name (where_call (fi_DBName f ++ " " ++ sql ++ " (?)") argName)).
Definition NewInFilterMethod : BaseInfo -> Method := newInFilterMethodImpl "In" "IN".
Definition NewNotInFilterMethod : BaseInfo -> Method := newInFilterMethodImpl "NotIn" "NOT IN".
Definition newUnaryFilterMethod (operationName op : string) (f : BaseInfo) : Method :=
  chained (fi_Name f ++ Title operationName) []
    (Wrapped (newCallGormMethod "Where" (SqlText (fi_DBName f ++ " " ++ op)) "qs.db")).
Definition NewIsNullMethod : BaseInfo -> Method := newUnaryFilterMethod "IsNull" "IS NULL".
Definition NewIsNotNullMethod : BaseInfo -> Method := newUnaryFilterMethod "IsNotNull" "IS NOT NULL".
Definition NewPreloadMethod (f : BaseInfo) : Method :=
  chained (Title "Preload" ++ fi_Name f) [] (Wrapped (newCallGormMethod "Preload" (SqlText (fi_Name f)) "qs.db")).
Definition order_method (operationName dir : string) (f : BaseInfo) : Method :=
  chained (Title operationName ++ fi_Name f) [] (Wrapped (newCallGormMethod "Order" (SqlText (fi_DBName f ++ " " ++ dir)) "qs.db")).
Definition NewOrderAscByMethod : BaseInfo -> Method := order_method "OrderAscBy" "ASC".
Definition NewOrderDescByMethod : BaseInfo -> Method := order_method "OrderDescBy" "DESC".

Definition newStructOperationOneArgMethod (name argTypeName : string) : Method :=
  let argName := ToLower name in
  chained name [(argName, argTypeName)] (Wrapped (newCallGormMethod name (Expr argName) "qs.db")).
Definition NewLimitMethod : Method := newStructOperationOneArgMethod "Limit" "int".
Definition NewOffsetMethod : Method := newStructOperationOneArgMethod "Offset" "int".

Definition on_qs (name : string) (doc : option string) (args : list (string * string)) (ret : string) (b : Body) : Method :=
  mkMethod ("qs", qsTypeName) name doc args ret b.
Definition newSelectMethod (name gormName argTypeName : string) (doc : option string) : Method :=
  on_qs name doc [("ret", argTypeName)] "error" (Errored (newCallGormMethod gormName (Expr "ret") "qs.db")).
Definition NewAllMethod : Method := newSelectMethod "All" "Find" ("*[]" ++ TypeName) None.
Definition one_doc : string :=
  "// One is used to retrieve one result. It returns gorm.ErrRecordNotFound" ++ nl ++ "// if nothing was fetched".
Definition NewOneMethod : Method := newSelectMethod "One" "First" ("*" ++ TypeName) (Some one_doc).
Definition NewCountMethod : Method := on_qs "Count" None [] "(int64, error)" BodyCount.
Definition NewGetUpdaterMethod : Method := on_qs "GetUpdater" None [] getUpdaterTypeName (BodyGetUpdater getUpdaterTypeName).
Definition NewDeleteMethod : Method :=
  on_qs "Delete" None [] "error" (Errored (newCallGormMethod "Delete" (Expr (TypeName ++ "{}")) "qs.db")).
Definition NewDeleteNumMethod : Method := on_qs "DeleteNum" None [] "(int64, error)" (BodyDeleteNum false TypeName).
Definition NewDeleteNumUnscopedMethod : Method := on_qs "DeleteNumUnscoped" None [] "(int64, error)" (BodyDeleteNum true TypeName).
Definition NewGetDBMethod : Method := on_qs "GetDB" None [] "*gorm.DB" BodyGetDB.

(** [struct.go] and [updater.go]. *)
Definition NewStructModifierMethod (name : string) : Method :=
  mkMethod ("o", "*" ++ TypeName) name None [("db", "*gorm.DB")] "error" (Errored (newCallGormMethod name (Expr "o") "db")).
Definition NewUpdaterSetMethod (fieldName fieldTypeName dbSchemaTypeName : string) : Method :=
  let argName := fieldNameToArgName fieldName in
  mkMethod ("u", getUpdaterTypeName) (Title "Set" ++ fieldName) None [(argName, fieldTypeName)] getUpdaterTypeName
    (BodySet dbSchemaTypeName fieldName argName).
Definition NewUpdaterUpdateMethod : Method := mkMethod ("u", getUpdaterTypeName) "Update" None [] "error" BodyUpdate.
Definition NewUpdaterUpdateNumMethod : Method := mkMethod ("u", getUpdaterTypeName) "UpdateNum" None [] "(int64, error)" BodyUpdateNum.

(** ** The builder ([generator/methodsbuilder.go]) *)

(** [getQuerySetMethodsForField]; [pointed] are the methods of the field a
    pointer leads to. *)
Definition field_methods (b : BaseInfo) (isPointer : bool) (pointed : list Method) : list Method :=
  let basicTypeMethods :=
    ([NewBinaryFilterMethod OpEq b; NewBinaryFilterMethod OpNe b; NewOrderAscByMethod b; NewOrderDescByMethod b]
     ++ (if fi_IsTime b then [] else [NewInFilterMethod b; NewNotInFilterMethod b]))%list in
  let numericMethods :=
    [NewBinaryFilterMethod OpLt b; NewBinaryFilterMethod OpGt b; NewBinaryFilterMethod OpLte b; NewBinaryFilterMethod OpGte b] in
  if fi_IsString b then
    (basicTypeMethods ++ [NewBinaryFilterMethod OpLike b; NewBinaryFilterMethod OpNotLike b] ++ numericMethods)%list
  else if fi_IsNumeric b then (basicTypeMethods ++ numericMethods)%list
  else if fi_IsStruct b then [NewPreloadMethod b]
  else if isPointer then (pointed ++ [NewIsNullMethod b; NewIsNotNullMethod b])%list
  else basicTypeMethods.
Definition getQuerySetMethodsForField (f : Info) : list Method :=
  field_methods (fi_base f) (fi_IsPointer f) match fi_pointed f with Some p => field_methods p false [] | None => [] end.
Definition buildUpdaterFieldMethods (f : Info) : list Method :=
  match fi_pointed f with
  | Some p => if fi_IsStruct p then []
              else [NewUpdaterSetMethod (fi_Name (fi_base f)) (fi_TypeName (fi_base f)) (TypeName ++ "DBSchema")]
  | None => [NewUpdaterSetMethod (fi_Name (fi_base f)) (fi_TypeName (fi_base f)) (TypeName ++ "DBSchema")]
  end.
Definition buildStructMethods : list Method :=
  [NewAllMethod; NewOneMethod; NewLimitMethod; NewOffsetMethod; NewCountMethod; NewGetUpdaterMethod; NewDeleteMethod;
   NewStructModifierMethod "Create"; NewStructModifierMethod "Delete"; NewDeleteNumMethod; NewDeleteNumUnscopedMethod; NewGetDBMethod;
   NewUpdaterUpdateMethod; NewUpdaterUpdateNumMethod].
Definition Build (fields : list Info) : list Method :=
  (buildStructMethods ++ flat_map (fun f => getQuerySetMethodsForField f ++ buildUpdaterFieldMethods f) fields)%list.
End Methods.

(** ** Query sets ([generator/queryset.go]) *)

Record querySetStructConfig := mkConfig { qc_StructName : string; qc_Name : string; qc_Methods : list Method; qc_Fields : list Info }.

(** The orders of the two [sort.Sort]: [Less] is the strict part. *)
Definition method_key (m : Method) : string * string := (GetReceiverDeclaration m, GetMethodName m).
Definition key_le (p q : string * string) : Prop := p.1 = q.1 /\ String.le p.2 q.2 \/ p.1 <> q.1 /\ String.le p.1 q.1.
Definition methods_le (m n : Method) : Prop := key_le (method_key m) (method_key n).
Definition configs_le (c d : querySetStructConfig) : Prop := String.le (qc_Name c) (qc_Name d).
#[export] Instance methods_le_dec m n : Decision (methods_le m n).
Proof. unfold methods_le, key_le. apply _. Defined.
#[export] Instance configs_le_dec c d : Decision (configs_le c d).
Proof. unfold configs_le. apply _. Defined.

(** [doesNeedToGenerateQuerySet]: a comment [gen:qs]. *)
Definition asks_for_query_set (comment : string) : bool :=
  match split_on ":" (TrimSpace comment) with
  | [a; b] => String.eqb (TrimSpace (TrimPrefix a "//")) "gen" && String.eqb (TrimSpace b) "qs"
  | _ => false
  end.
Definition doesNeedToGenerateQuerySet (doc : option (list string)) : bool :=
  match doc with None => false | Some cs => existsb asks_for_query_set cs end.

Section Generate.
Context (package : string) (ColumnName : string -> string).

Definition generateQuerySetConfig (s : ParsedStruct) : result querySetStructConfig :=
  fields ← genStructFieldInfos package ColumnName (ps_Fields s);
  Ok (mkConfig (ps_TypeName s) (qsTypeName (ps_TypeName s)) (merge_sort methods_le (Build (ps_TypeName s) fields)) fields).
(** [generateQuerySetConfigs], for the order in which the map is ranged over. *)
Fixpoint generateQuerySetConfigs (structs : list ParsedStruct) : result (list querySetStructConfig) :=
  match structs with
  | [] => Ok []
  | s :: structs =>
    if negb (doesNeedToGenerateQuerySet (ps_Doc s)) then generateQuerySetConfigs structs
    else c ← generateQuerySetConfig s; rest ← generateQuerySetConfigs structs; Ok (c :: rest)
  end.

(** *** The template ([generator/template.go]), line by line; the blank space
    is the formatter's. *)
Definition lines (l : list string) : string := String.concat nl l.
Definition method_text (m : Method) : string := lines
  [GetDoc m;
   "func (" ++ GetReceiverDeclaration m ++ ") " ++ GetMethodName m ++ "(" ++ GetArgsDeclaration m ++ ")" ++ me_ret m ++ " {";
   GetBody m; "}"].
Definition queryset_text (c : querySetStructConfig) : string :=
  let name := qc_Name c in
  let ft := qc_StructName c ++ "DBSchemaField" in
  lines (concat [[
    "// ===== BEGIN of query set " ++ name;
    "// " ++ name ++ " is an queryset type for " ++ qc_StructName c;
    "type " ++ name ++ " struct {"; "db *gorm.DB"; "}";
    "// New" ++ name ++ " constructs new " ++ name;
    "func New" ++ name ++ "(db *gorm.DB) " ++ name ++ " {";
    "return " ++ name ++ "{"; "db: db.Model(&" ++ qc_StructName c ++ "{}),"; "}"; "}";
    "func (qs " ++ name ++ ") w(db *gorm.DB) " ++ name ++ " {"; "return New" ++ name ++ "(db)"; "}";
    "func (qs " ++ name ++ ") Preload(query string, args ...interface{}) " ++ name ++ " {";
    "return New" ++ name ++ "(qs.db.Preload(query, args...))"; "}";
    "// Preload preload associations with given conditions";
    "//    db.Preload(" ++ quoted "Orders" ++ ", " ++ quoted "state NOT IN (?)" ++ ", " ++ quoted "cancelled" ++ ").Find(&users)";
    "func (qs " ++ name ++ ") Select(fields ..." ++ ft ++ ") " ++ name ++ " {";
    "names := []string{}"; "for _, f := range fields {"; "names = append(names, f.String())"; "}";
    "return qs.w(qs.db.Select(strings.Join(names, " ++ quoted "," ++ ")))"; "}"];
    map method_text (qc_Methods c);
    ["// ===== END of query set " ++ name]]).
Definition modifiers_text (c : querySetStructConfig) : string :=
  let s := qc_StructName c in
  let ft := s ++ "DBSchemaField" in
  lines (concat [[
    "// ===== BEGIN of " ++ s ++ " modifiers";
    "// " ++ ft ++ " describes database schema field. It requires for method 'Update'";
    "type " ++ ft ++ " string";
    "// String method returns string representation of field."; "// nolint: dupl";
    "func (f " ++ ft ++ ") String() string {"; "return string(f)"; "}";
    "// " ++ s ++ "DBSchema stores db field names of " ++ s;
    "var " ++ s ++ "DBSchema = struct {"];
    map (fun f => fi_Name (fi_base f) ++ " " ++ ft) (qc_Fields c); ["}{"];
    map (fun f => fi_Name (fi_base f) ++ ": " ++ ft ++ "(" ++ quoted (fi_DBName (fi_base f)) ++ "),") (qc_Fields c); ["}";
    "// Update updates " ++ s ++ " fields by primary key"; "// nolint: dupl";
    "func (o *" ++ s ++ ") Update(db *gorm.DB, fields ..." ++ ft ++ ") error {";
    "dbNameToFieldName := map[string]interface{}{"];
    map (fun f => quoted (fi_DBName (fi_base f)) ++ ": o." ++ fi_Name (fi_base f) ++ ",") (qc_Fields c); ["}";
    "u := map[string]interface{}{}"; "for _, f := range fields {"; "fs := f.String()"; "u[fs] = dbNameToFieldName[fs]"; "}";
    "if err := db.Model(o).Updates(u).Error; err != nil {";
    "if err == gorm.ErrRecordNotFound {"; "return err"; "}";
    "return fmt.Errorf(" ++ quoted ("can't update " ++ s ++ " %v fields %v: %s") ++ ","; "o, fields, err)"; "}"; "return nil"; "}";
    "// " ++ s ++ "Updater is an " ++ s ++ " updates manager";
    "type " ++ s ++ "Updater struct {"; "fields map[string]interface{}"; "db *gorm.DB"; "}";
    "// New" ++ s ++ "Updater creates new " ++ s ++ " updater"; "// nolint: dupl";
    "func New" ++ s ++ "Updater(db *gorm.DB) " ++ s ++ "Updater {";
    "return " ++ s ++ "Updater{"; "fields: map[string]interface{}{},"; "db: db.Model(&" ++ s ++ "{}),"; "}"; "}";
    "// ===== END of " ++ s ++ " modifiers"]]).
Definition qsCode (configs : list querySetStructConfig) : string :=
  lines (concat [["// ===== BEGIN of all query sets"]; flat_map (fun c => [queryset_text c; modifiers_text c]) configs;
    ["// ===== END of all query sets"]]).

(** [GenerateQuerySetsForStructs]: nothing when no struct asks for a query
    set. *)
Definition GenerateQuerySetsForStructs (structs : list ParsedStruct) : result (option string) :=
  configs ← generateQuerySetConfigs structs;
  match configs with
  | [] => Ok None
  | _ => Ok (Some (qsCode (merge_sort configs_le configs)))
  end.

(** *** The file ([generator/generator.go]) *)

(** [writeQuerySetsToOutput] up to the file; [process] is the formatter, and
    [debug] whether its errors are ignored. *)
Definition genHdr : string := "// Code generated by go-queryset. DO NOT EDIT.".
Definition header (packageName : string) : string := lines
  [genHdr; "package " ++ packageName; "import ("; quoted "errors"; quoted "fmt"; quoted "strings"; quoted "time"; quoted "gorm.io/gorm"; ")"; ""].
Definition writeQuerySetsToOutput (process : string -> result string) (debug : bool) (r packageName : string) : result string :=
  let text := header packageName ++ r in
  match process text with
  | Err e => if debug then Ok text else Err (EWrap "can't format generated file" e)
  | r => r
  end.
(** [Generate]: what it writes for a file's declarations and the scope of its
    package. *)
Definition Generate (process : string -> result string) (debug : bool) (decls : list GenDecl) (scope : list (string * GoType))
    (packageName inFilePath outFilePath : string) : result string :=
  structs ← buildParsedStructs scope (getStructNamesInFile decls);
  r ← match GenerateQuerySetsForStructs structs with Err e => Err (EWrap "can't generate query sets" e) | r => r end;
  match r with
  | None => Err (EMsg ("no structs to generate query set in " ++ inFilePath))
  | Some r =>
    match writeQuerySetsToOutput process debug r packageName with
    | Err e => Err (EWrap ("can't save query sets to out file " ++ outFilePath) e)
    | r => r
    end
  end.
End Generate.

(** ** Facts *)

Lemma append_inj_suffix c : forall a b, a ++ c = b ++ c -> a = b.
Proof.
  induction a as [|x a IH]; intros [|y b] H; [done|..].
  1, 2: apply (f_equal String.length) in H; rewrite !length_append in H; cbn in H; lia.
  change (String x (a ++ c) = String y (b ++ c)) in H. injection H as -> H. f_equal. by apply IH.
Qed.
#[export] Instance configs_le_total : Total configs_le.
Proof. intros c d. unfold configs_le. apply String.le_total. Qed.
#[export] Instance configs_le_trans : Transitive configs_le.
Proof. intros c d e. unfold configs_le. apply transitivity. Qed.

Section Facts.
Context (package : string) (ColumnName : string -> string).
Abbreviation configs_of := (generateQuerySetConfigs package ColumnName).

Lemma configs_permutation xs ys : xs ≡ₚ ys -> forall cs, configs_of xs = Ok cs -> exists cs', configs_of ys = Ok cs' /\ cs ≡ₚ cs'.
Proof.
  induction 1 as [|x xs ys _ IH|x y xs|xs ys zs _ IH1 _ IH2]; intros cs; cbn [generateQuerySetConfigs]; [by intros [= <-]; exists []|..].
  - destruct (negb _); [apply IH|]. res_simpl. destruct (generateQuerySetConfig _ _ x) as [c|e|w]; [|done..].
    destruct (configs_of xs) as [rest|e|w]; [|done..]. intros [= <-]. destruct (IH rest eq_refl) as (cs' & -> & Hp).
    exists (c :: cs'). by rewrite Hp.
  - res_simpl. destruct (negb (doesNeedToGenerateQuerySet (ps_Doc x))), (negb (doesNeedToGenerateQuerySet (ps_Doc y)));
      destruct (generateQuerySetConfig package ColumnName x) as [c|e|w], (generateQuerySetConfig package ColumnName y) as [d|e'|w'], (configs_of xs) as [rest|e''|w'']; try done;
      intros [= <-]; eexists; (split; [reflexivity|]); done || apply Permutation_swap.
  - intros Hx. destruct (IH1 cs Hx) as (cs1 & Hy & H1). destruct (IH2 cs1 Hy) as (cs2 & Hz & H2). exists cs2. split; [done|]. by rewrite H1.
Qed.
Lemma configs_names xs : forall cs, configs_of xs = Ok cs -> map qc_Name cs `sublist_of` map qsTypeName (map ps_TypeName xs).
Proof.
  induction xs as [|x xs IH]; intros cs; cbn [generateQuerySetConfigs]; [by intros [= <-]|].
  destruct (negb _); [intros H; apply sublist_cons, IH, H|]. res_simpl. unfold generateQuerySetConfig. res_simpl.
  destruct (genStructFieldInfos _ _ _) as [fields|e|w]; [|done..]. destruct (configs_of xs) as [rest|e|w]; [|done..].
  intros [= <-]. cbn. apply sublist_skip, IH, eq_refl.
Qed.
End Facts.

(** ** Properties *)

(** The generated text does not depend on the order in
    which the map of the package's structs is ranged over: whenever generation
    succeeds in one order it gives the same text in every other. *)
Theorem generation_is_deterministic (package : string) (ColumnName : string -> string) (xs ys : list ParsedStruct) :
  xs ≡ₚ ys -> NoDup (map ps_TypeName xs) -> is_ok (GenerateQuerySetsForStructs package ColumnName xs) = true ->
  GenerateQuerySetsForStructs package ColumnName ys = GenerateQuerySetsForStructs package ColumnName xs.
Proof.
  intros Hp Hn Hok. unfold GenerateQuerySetsForStructs in *. res_simpl.
  destruct (generateQuerySetConfigs package ColumnName xs) as [cs|e|w] eqn:Hc; [|done..].
  destruct (configs_permutation package ColumnName xs ys Hp cs Hc) as (cs' & -> & Hcs).
  assert (NoDup (map qc_Name cs)) as Hnames.
  { eapply sublist_NoDup; [|by apply (configs_names package ColumnName xs)]. apply NoDup_fmap_2_strong; [|done].
    intros a b _ _. apply append_inj_suffix. }
  assert (merge_sort configs_le cs' = merge_sort configs_le cs) as Heq.
  { apply (StronglySorted_unique_strong configs_le); [|apply (StronglySorted_merge_sort _)..|by rewrite !merge_sort_Permutation].
    intros c d Hc1 Hd1 Hle Hge. rewrite merge_sort_Permutation in Hc1. rewrite merge_sort_Permutation in Hd1.
    apply (NoDup_map_inj qc_Name cs); [done|by rewrite Hcs|done|]. by apply (anti_symm String.le). }
  rewrite Heq. destruct cs as [|c cs], cs' as [|c' cs']; [done|..|done].
  - by apply Permutation_nil_cons in Hcs.
  - symmetry in Hcs. by apply Permutation_nil_cons in Hcs.
Qed.

Module QueryGenExample.
Definition named (name : string) : ParsedStruct :=
  mkParsedStruct name [mkStructField "Enabled" (Basic "bool" false false) []] (Some ["// gen:qs"]).
Lemma swapped : [named "A"; named "B"] ≡ₚ [named "B"; named "A"].
Proof. apply perm_swap. Qed.
Lemma two_names : NoDup (map ps_TypeName [named "A"; named "B"]).
Proof. apply (bool_decide_unpack _). vm_compute. exact I. Qed.
Lemma two_generated : is_ok (GenerateQuerySetsForStructs "models" (fun s => s) [named "A"; named "B"]) = true.
Proof. vm_compute. reflexivity. Qed.
Lemma generation_is_deterministic_witness :
  GenerateQuerySetsForStructs "models" (fun s => s) [named "B"; named "A"] =
  GenerateQuerySetsForStructs "models" (fun s => s) [named "A"; named "B"].
Proof. exact (generation_is_deterministic "models" (fun s => s) _ _ swapped two_names two_generated). Defined.
End QueryGenExample.
