(* ===== verification/QuerySet.v ===== *)
(** The portal's query sets, [portal/db/models/autogen_query.go]: the structs of
    [models.go] as the generator of [QueryGen] sees them, the methods it makes
    of them, and what these methods do to a statement and to the rows of a
    table. *)
From Stdlib Require Import Ascii.
From S2P Require Import Prelude GoText Jwt PortalDb PortalAuth QueryGen.
#[local] Set Warnings "-clear-no-such-hyp".
#[local] Open Scope string_scope.

(** ** The structs ([models.go], [constant.go]) *)

Definition models : string := "github.com/pairmesh/pairmesh/portal/db/models".
Definition model_type (name : string) (t : GoType) : GoType := Named models "models" name t.
Definition string_t : GoType := Basic "string" true false.
Definition int_t : GoType := Basic "int" false true.
Definition bool_t : GoType := Basic "bool" false false.
(** [time.Time] has no exported field. *)
Definition Time : GoType := Named "time" "time" "Time" (Struct "struct{wall uint64; ext int64; loc *time.Location}" []).
Definition ID_t : GoType := model_type "ID" (Basic "uint64" false true).
Definition RoleType_t : GoType := model_type "RoleType" string_t.
Definition KeyType_t : GoType := model_type "KeyType" string_t.

Definition var (name tag : string) (t : GoType) : Var * GoType := (mkVar name false true [("gorm", tag)], t).
Definition embedded (name : string) (t : GoType) : Var * GoType := (mkVar name true true [], t).
Definition struct (name : string) (vars : list (Var * GoType)) : GoType := model_type name (Struct ("struct of " ++ name) vars).

Definition Base : GoType := struct "Base" [var "ID" "not null" ID_t; var "CreatedAt" "not null" Time].
Definition Updatable : GoType := struct "Updatable" [embedded "Base" Base; var "UpdatedAt" "" (Pointer Time)].
Definition Deletable : GoType := struct "Deletable" [embedded "Updatable" Updatable; var "DeletedAt" "" (Pointer Time)].

Module Model.
Definition User : GoType := struct "User" [embedded "Deletable" Deletable;
  var "Email" "type:varchar(64)" string_t; var "Avatar" "type:varchar(512)" string_t; var "Name" "type:varchar(64);not null" string_t;
  var "Salt" "type:varchar(64);not null" string_t; var "Hash" "type:varchar(64);not null" string_t;
  var "SecretKey" "type:varchar(64);not null" string_t;
  var "Origin" "type:enum('pairmesh','github','wechat');default:'pairmesh'" string_t].
Definition Device : GoType := struct "Device" [embedded "Deletable" Deletable;
  var "UserID" "not null;index" ID_t; var "User" "foreignkey:UserID" (Pointer User); var "RelayServerID" "not null" ID_t;
  var "Name" "type:varchar(128)" string_t; var "OS" "type:varchar(32);not null" string_t; var "Version" "type:varchar(32);not null" string_t;
  var "MachineID" "type:varchar(128);not null" string_t; var "LastSeen" "not null" Time; var "Address" "type:varchar(32);not null" string_t].
Definition Network : GoType := struct "Network" [embedded "Deletable" Deletable;
  var "CreatedByID" "not null" ID_t; var "CreatedBy" "foreignkey:CreatedByID" (Pointer User);
  var "Name" "type:varchar(64);not null" string_t; var "Description" "type:varchar(256);not null" string_t].
Definition NetworkUser : GoType := struct "NetworkUser" [embedded "Deletable" Deletable;
  var "UserID" "not null;index" ID_t; var "User" "foreignkey:UserID" (Pointer User); var "NetworkID" "not null" ID_t;
  var "Network" "foreignkey:NetworkID" (Pointer Network); var "Role" "type:enum('owner','admin', 'member');default:'member'" RoleType_t].
Definition Invitation : GoType := struct "Invitation" [embedded "Deletable" Deletable;
  var "NetworkID" "not null" ID_t; var "Network" "foreignkey:NetworkID" (Pointer Network); var "InvitedByID" "not null" ID_t;
  var "InvitedBy" "foreignkey:InvitedByID" (Pointer User); var "UserID" "not null" ID_t; var "User" "foreignkey:UserID" (Pointer User);
  var "Role" "type:enum('admin', 'member');default:'member'" RoleType_t].
Definition RelayServer : GoType := struct "RelayServer" [embedded "Deletable" Deletable;
  var "Name" "type:varchar(128);not null;unique" string_t; var "Region" "type:varchar(32);not null" string_t;
  var "Host" "type:varchar(64);not null" string_t; var "Port" "not null;default:0" int_t; var "STUNPort" "not null;default:0" int_t;
  var "PublicKey" "type:varchar(64);not null" string_t; var "StartedAt" "not null" Time; var "KeepaliveAt" "not null" Time].
Definition GithubUser : GoType := struct "GithubUser" [embedded "Deletable" Deletable;
  var "UserID" "not null;unique" ID_t; var "User" "foreignkey:UserID" (Pointer User); var "GithubID" "not null;unique" ID_t;
  var "Login" "type:varchar(128);not null;unique" string_t; var "AvatarURL" "type:varchar(512)" string_t; var "Location" "type:varchar(128)" string_t].
Definition WechatUser : GoType := struct "WechatUser" [embedded "Deletable" Deletable;
  var "UserID" "not null;unique" ID_t; var "User" "foreignkey:UserID" (Pointer User); var "UnionID" "type:varchar(128);not null;unique" string_t;
  var "Nickname" "type:varchar(64);not null;unique" string_t; var "HeadImgURL" "type:varchar(512)" string_t; var "City" "type:varchar(128)" string_t].
Definition AuthKey : GoType := struct "AuthKey" [embedded "Deletable" Deletable;
  var "UserID" "not null" ID_t; var "User" "foreignkey:UserID" (Pointer User); var "Type" "not null" KeyType_t;
  var "Role" "type:enum('one-off','reusable');default:'reusable'" KeyType_t; var "Key" "not null;unique" string_t;
  var "MachineID" "type:varchar(128);" string_t; var "ExpiredAt" "not null" Time; var "Enabled" "not null;default:TRUE" bool_t].
End Model.

(** The file's two groups of types, and the scope of its package. *)
Definition file : list GenDecl := [
  mkGenDecl None [("ID", false); ("Base", true); ("Updatable", true); ("Deletable", true)];
  mkGenDecl (Some ["// gen:qs"]) [("User", true); ("Device", true); ("Network", true); ("NetworkUser", true); ("Invitation", true);
    ("RelayServer", true); ("GithubUser", true); ("WechatUser", true); ("AuthKey", true)]].
Definition scope : list (string * GoType) := [
  ("AuthKey", Model.AuthKey); ("Base", Base); ("Deletable", Deletable); ("Device", Model.Device); ("GithubUser", Model.GithubUser);
  ("ID", ID_t); ("Invitation", Model.Invitation); ("KeyType", KeyType_t); ("Network", Model.Network); ("NetworkUser", Model.NetworkUser);
  ("RelayServer", Model.RelayServer); ("RoleType", RoleType_t); ("Updatable", Updatable); ("User", Model.User); ("WechatUser", Model.WechatUser)].

(** gorm's naming of these fields: a word starts at a capital that follows a
    small letter or is followed by one. *)
Definition is_upper (c : ascii) : bool := negb (Ascii.eqb (lower c) c).
Definition word_starts (prev : option ascii) (c : ascii) (rest : string) : bool :=
  match prev with
  | None => false
  | Some p => is_upper c && (negb (is_upper p) || match rest with String d _ => negb (is_upper d) | EmptyString => false end)
  end.
Fixpoint snake (prev : option ascii) (s : string) : string :=
  match s with
  | EmptyString => EmptyString
  | String c s' =>
    let w := String (lower c) (snake (Some c) s') in
    if word_starts prev c s' then String "_" w else w
  end.
Definition ColumnName (s : string) : string := snake None s.

Definition autogen : result string := Generate models ColumnName Ok false file scope "models" "models.go" "autogen_query.go".

(** ** What the methods do *)

(** Values, and the statement a [*gorm.DB] has collected: its model, its
    clauses in order, and the errors added to it. *)
Inductive Value := VInt (n : Z) | VText (s : string) | VTime (t : Z) | VBool (b : bool) | VNull.
#[export] Instance Value_eq_dec : EqDecision Value.
Proof. solve_decision. Defined.
Inductive Clause :=
| Where (sql : string) (args : list Value)
| Order (by_ : string)
| Limit (n : Z)
| Offset (n : Z)
| Preload (association : string)
| Select (columns : string).
Record DB := mkDB { db_model : string; db_clauses : list Clause; db_errors : list error }.
Definition Model_ (name : string) (db : DB) : DB := mkDB name (db_clauses db) (db_errors db).
Definition add_clause (c : Clause) (db : DB) : DB := mkDB (db_model db) (db_clauses db ++ [c])%list (db_errors db).
Definition AddError (e : error) (db : DB) : DB := mkDB (db_model db) (db_clauses db) (db_errors db ++ [e])%list.

(** [NewXQuerySet] and [w]: the statement of the given model. *)
Definition NewQuerySet (TypeName : string) (db : DB) : DB := Model_ TypeName db.
(** The template's [Preload] and [Select]. *)
Definition qs_Preload (TypeName query : string) (db : DB) : DB := NewQuerySet TypeName (add_clause (Preload query) db).
Definition qs_Select (TypeName : string) (fields : list string) (db : DB) : DB :=
  NewQuerySet TypeName (add_clause (Select (Join fields ",")) db).

(** A call of gorm with the method's arguments, by name. *)
Definition argument (args : list (string * list Value)) (a : string) : list Value :=
  match list_find (fun x => x.1 = a) args with Some (_, x) => x.2 | None => [] end.
Definition undefined : string := "undefined method or argument".
Definition run_call (args : list (string * list Value)) (c : callGormMethod) (db : DB) : result DB :=
  match gormMethodArgs c with
  | SqlText s =>
    if String.eqb (gormMethodName c) "Where" then Ok (add_clause (Where s []) db)
    else if String.eqb (gormMethodName c) "Order" then Ok (add_clause (Order s) db)
    else if String.eqb (gormMethodName c) "Preload" then Ok (add_clause (Preload s) db)
    else Panic undefined
  | SqlArg s a => if String.eqb (gormMethodName c) "Where" then Ok (add_clause (Where s (argument args a)) db) else Panic undefined
  | Expr e =>
    match argument args e with
    | [VInt n] =>
      if String.eqb (gormMethodName c) "Limit" then Ok (add_clause (Limit n) db)
      else if String.eqb (gormMethodName c) "Offset" then Ok (add_clause (Offset n) db)
      else Panic undefined
    | _ => Panic undefined
    end
  end.
(** The methods that give a query set again. *)
Definition exec (TypeName : string) (m : Method) (values : list (list Value)) (db : DB) : result DB :=
  let args := zip (map fst (me_args m)) values in
  match me_body m with
  | Wrapped c => db ← run_call args c db; Ok (NewQuerySet TypeName db)
  | Checked a name c =>
    match argument args a with
    | [] => Ok (NewQuerySet TypeName (AddError (EMsg ("must at least pass one " ++ a ++ " in " ++ name)) db))
    | _ => db ← run_call args c db; Ok (NewQuerySet TypeName db)
    end
  | _ => Panic undefined
  end.

(** An updater: the map of the fields to write, which every [Set] shares. *)
Record Updater := mkUpdater { up_fields : gmap string Value; up_db : DB }.
Definition GetUpdater (TypeName : string) (db : DB) : Updater := mkUpdater ∅ (Model_ TypeName db).
Definition schema_field (c : querySetStructConfig) (field : string) : option string :=
  match list_find (fun f => fi_Name (fi_base f) = field) (qc_Fields c) with
  | Some (_, f) => Some (fi_DBName (fi_base f))
  | None => None
  end.
Definition exec_set (c : querySetStructConfig) (m : Method) (v : Value) (u : Updater) : result Updater :=
  match me_body m with
  | BodySet _ field _ =>
    match schema_field c field with
    | Some column => Ok (mkUpdater (<[column := v]> (up_fields u)) (up_db u))
    | None => Panic undefined
    end
  | _ => Panic undefined
  end.

(** Calls by name, on the methods generated for a struct. *)
Definition config_of (name : string) (t : GoType) : result querySetStructConfig :=
  match parseStruct name t None with
  | Some s => generateQuerySetConfig models ColumnName s
  | None => Panic undefined
  end.
Definition find_method (receiver name : string) (c : querySetStructConfig) : option Method :=
  snd <$> list_find (fun m => (me_receiver m).1 = receiver /\ me_name m = name) (qc_Methods c).
Fixpoint chain (c : querySetStructConfig) (calls : list (string * list (list Value))) (db : DB) : result DB :=
  match calls with
  | [] => Ok db
  | (name, values) :: calls =>
    match find_method "qs" name c with
    | Some m => db ← exec (qc_StructName c) m values db; chain c calls db
    | None => Panic undefined
    end
  end.
Fixpoint set_chain (c : querySetStructConfig) (sets : list (string * Value)) (u : Updater) : result Updater :=
  match sets with
  | [] => Ok u
  | (name, v) :: sets =>
    match find_method "u" name c with
    | Some m => u ← exec_set c m v u; set_chain c sets u
    | None => Panic undefined
    end
  end.
(** A transaction's statement without clauses, and the chain of a query. *)
Definition no_clauses : DB := mkDB "" [] [].
Definition query (qs : result querySetStructConfig) (calls : list (string * list (list Value))) : result DB :=
  c ← qs; chain c calls (NewQuerySet (qc_StructName c) no_clauses).
(** The [Update] of a struct: the values to write, from those of the struct by
    column; a name that is no column writes nil. *)
Definition struct_Update (c : querySetStructConfig) (o : string -> Value) (fields : list string) : gmap string Value :=
  let dbNameToFieldName : gmap string Value := list_to_map (map (fun f => (fi_DBName (fi_base f), o (fi_Name (fi_base f)))) (qc_Fields c)) in
  foldl (fun u fs => <[fs := default VNull (dbNameToFieldName !! fs)]> u) ∅ fields.
(** The text of a struct's modifiers. *)
Definition modifiers (qs : result querySetStructConfig) : result string := c ← qs; Ok (modifiers_text c).

(** The query sets of the file and the modifiers that follow each. *)
Definition AuthKeyQuerySet : result querySetStructConfig := config_of "AuthKey" Model.AuthKey.
Definition AuthKeyModifiers : result string := modifiers AuthKeyQuerySet.
Definition DeviceQuerySet : result querySetStructConfig := config_of "Device" Model.Device.
Definition DeviceModifiers : result string := modifiers DeviceQuerySet.
Definition GithubUserQuerySet : result querySetStructConfig := config_of "GithubUser" Model.GithubUser.
Definition GithubUserModifiers : result string := modifiers GithubUserQuerySet.
Definition InvitationQuerySet : result querySetStructConfig := config_of "Invitation" Model.Invitation.
Definition InvitationModifiers : result string := modifiers InvitationQuerySet.
Definition NetworkQuerySet : result querySetStructConfig := config_of "Network" Model.Network.
Definition NetworkModifiers : result string := modifiers NetworkQuerySet.
Definition NetworkUserQuerySet : result querySetStructConfig := config_of "NetworkUser" Model.NetworkUser.
Definition NetworkUserModifiers : result string := modifiers NetworkUserQuerySet.
Definition RelayServerQuerySet : result querySetStructConfig := config_of "RelayServer" Model.RelayServer.
Definition RelayServerModifiers : result string := modifiers RelayServerQuerySet.
Definition UserQuerySet : result querySetStructConfig := config_of "User" Model.User.
Definition UserModifiers : result string := modifiers UserQuerySet.
Definition WechatUserQuerySet : result querySetStructConfig := config_of "WechatUser" Model.WechatUser.
Definition WechatUserModifiers : result string := modifiers WechatUserQuerySet.

(** *** On the rows of a table *)

(** The order of texts and their patterns: the database's collation. *)
Class Collation := { text_compare : string -> string -> comparison; text_like : string -> string -> bool }.
Section Values.
Context `{HCo : Collation}.
(** Values of different kinds, and NULL, compare as unknown. *)
Definition compare (v w : Value) : option comparison :=
  match v, w with
  | VInt m, VInt n => Some (Z.compare m n)
  | VText a, VText b => Some (text_compare a b)
  | VTime s, VTime t => Some (Z.compare s t)
  | VBool a, VBool b => Some (Bool.compare a b)
  | _, _ => None
  end.
Definition op_holds (o : FilterOp) (v w : Value) : bool :=
  match o with
  | OpLike => match v, w with VText a, VText p => text_like a p | _, _ => false end
  | OpNotLike => match v, w with VText a, VText p => negb (text_like a p) | _, _ => false end
  | _ =>
    match compare v w with
    | None => false
    | Some c =>
      match o, c with
      | OpEq, Eq | OpNe, (Lt | Gt) | OpLt, Lt | OpLte, (Lt | Eq) | OpGt, Gt | OpGte, (Gt | Eq) => true
      | _, _ => false
      end
    end
  end.
Definition in_holds (vs : list Value) (v : Value) : bool := existsb (op_holds OpEq v) vs.
Definition not_in_holds (vs : list Value) (v : Value) : bool := forallb (op_holds OpNe v) vs.
End Values.

(** What the database makes of a condition: the columns of a row, and which
    rows satisfy a condition. *)
Class Sql (Row : Type) := { column : string -> Row -> Value; holds : string -> list Value -> Row -> bool }.

Section Rows.
Context {Row : Type} `{HS : Sql Row}.
(** The rows a statement selects. *)
Definition clause_holds (c : Clause) (r : Row) : bool := match c with Where sql args => holds sql args r | _ => true end.
Definition selects (db : DB) (r : Row) : bool := forallb (fun c => clause_holds c r) (db_clauses db).
End Rows.

(** The conditions the query sets write, as SQL has them; [columns] are those
    of the table. *)
Class SqlOk `{Collation} (Row : Type) `{Sql Row} (columns : list string) : Prop := {
  holds_binary : forall c o v (r : Row), c ∈ columns ->
    holds (backquote ++ c ++ backquote ++ " " ++ getWhereCondition o) [v] r = op_holds o (column c r) v;
  holds_in : forall c vs (r : Row), c ∈ columns -> vs <> [] -> holds (c ++ " IN (?)") vs r = in_holds vs (column c r);
  holds_not_in : forall c vs (r : Row), c ∈ columns -> vs <> [] -> holds (c ++ " NOT IN (?)") vs r = not_in_holds vs (column c r);
  holds_null : forall c (r : Row), c ∈ columns -> holds (c ++ " IS NULL") [] r = bool_decide (column c r = VNull);
  holds_not_null : forall c (r : Row), c ∈ columns -> holds (c ++ " IS NOT NULL") [] r = negb (bool_decide (column c r = VNull)) }.

(** *** The portal's tables *)

(** The columns that the rows of [PortalDb] keep. *)
Class TableColumns (Row : Type) := { table_columns : list string; value_of : string -> Row -> Value }.
Definition value_in {Row} (cols : list (string * (Row -> Value))) (c : string) (r : Row) : Value :=
  match list_find (fun x => x.1 = c) cols with Some (_, x) => x.2 r | None => VNull end.
Definition table {Row} (cols : list (string * (Row -> Value))) : TableColumns Row :=
  {| table_columns := map fst cols; value_of := value_in cols |}.
Definition maybe_time (t : option Z) : Value := match t with Some t => VTime t | None => VNull end.
#[export] Instance authKey_columns : TableColumns AuthKey := table [
  ("id", fun k => VInt (k_ID k)); ("created_at", fun k => VTime (k_CreatedAt k)); ("deleted_at", fun k => maybe_time (k_DeletedAt k));
  ("user_id", fun k => VInt (k_UserID k)); ("type", fun k => VText (k_Type k)); ("key", fun k => VText (k_Key k));
  ("machine_id", fun k => VText (k_MachineID k)); ("expired_at", fun k => VTime (k_ExpiredAt k)); ("enabled", fun k => VBool (k_Enabled k))].
#[export] Instance device_columns : TableColumns Device := table [
  ("id", fun d => VInt (d_ID d)); ("created_at", fun d => VTime (d_CreatedAt d)); ("user_id", fun d => VInt (d_UserID d));
  ("relay_server_id", fun d => VInt (d_RelayServerID d)); ("name", fun d => VText (d_Name d)); ("os", fun d => VText (d_OS d));
  ("version", fun d => VText (d_Version d)); ("machine_id", fun d => VText (d_MachineID d)); ("last_seen", fun d => VTime (d_LastSeen d));
  ("address", fun d => VText (d_Address d))].
#[export] Instance network_columns : TableColumns Network := table [
  ("id", fun n => VInt (n_ID n)); ("created_at", fun n => VTime (n_CreatedAt n)); ("created_by_id", fun n => VInt (n_CreatedByID n));
  ("name", fun n => VText (n_Name n)); ("description", fun n => VText (n_Description n))].
#[export] Instance networkUser_columns : TableColumns NetworkUser := table [
  ("id", fun n => VInt (nu_ID n)); ("created_at", fun n => VTime (nu_CreatedAt n)); ("user_id", fun n => VInt (nu_UserID n));
  ("network_id", fun n => VInt (nu_NetworkID n)); ("role", fun n => VText (nu_Role n))].
#[export] Instance invitation_columns : TableColumns Invitation := table [
  ("id", fun i => VInt (i_ID i)); ("network_id", fun i => VInt (i_NetworkID i)); ("invited_by_id", fun i => VInt (i_InvitedByID i));
  ("user_id", fun i => VInt (i_UserID i)); ("role", fun i => VText (i_Role i))].
#[export] Instance user_columns : TableColumns User := table [
  ("id", fun u => VInt (u_ID u)); ("created_at", fun u => VTime (u_CreatedAt u)); ("email", fun u => VText (u_Email u));
  ("avatar", fun u => VText (u_Avatar u)); ("name", fun u => VText (u_Name u)); ("origin", fun u => VText (u_Origin u))].
#[export] Instance githubUser_columns : TableColumns GithubUser := table [
  ("id", fun g => VInt (g_ID g)); ("user_id", fun g => VInt (g_UserID g)); ("github_id", fun g => VInt (g_GithubID g));
  ("login", fun g => VText (g_Login g)); ("avatar_url", fun g => VText (g_AvatarURL g)); ("location", fun g => VText (g_Location g))].
#[export] Instance relayServer_columns : TableColumns RelayServer := table [
  ("id", fun r => VInt (r_ID r)); ("name", fun r => VText (r_Name r)); ("region", fun r => VText (r_Region r)); ("host", fun r => VText (r_Host r));
  ("port", fun r => VInt (r_Port r)); ("stun_port", fun r => VInt (r_STUNPort r)); ("public_key", fun r => VText (r_PublicKey r));
  ("started_at", fun r => VTime (r_StartedAt r)); ("keepalive_at", fun r => VTime (r_KeepaliveAt r))].

(** A database that keeps these columns and whose collation tells different
    texts apart. *)
Class SqlTable `{HCo : Collation} (Row : Type) `{HC : TableColumns Row} `{HS : Sql Row} : Prop := {
  table_ok :: SqlOk Row table_columns;
  column_value : forall c (r : Row), c ∈ table_columns -> column c r = value_of c r;
  text_exact : forall a b, text_compare a b = Eq <-> a = b }.

(** ** Facts *)

Lemma argument_of m a t vs : me_args m = [(a, t)] -> argument (zip (map fst (me_args m)) [vs]) a = vs.
Proof. intros ->. unfold argument. cbn. by destruct (decide (a = a)). Qed.

Section Facts.
Context `{HCo : Collation} {Row : Type} `{HS : Sql Row} (columns : list string) `{HO : !SqlOk Row columns}.

Lemma selects_add c db (r : Row) : selects (add_clause c db) r = selects db r && clause_holds c r.
Proof. unfold selects, add_clause. cbn [db_clauses]. rewrite forallb_app. cbn. by rewrite andb_true_r. Qed.

(** A method of a field that adds a condition on the field's value. *)
Definition filters_by (T : string) (m : Method) (values : list (list Value)) (c : string) (p : Value -> bool) : Prop :=
  forall db, exists db', exec T m values db = Ok db' /\ db_errors db' = db_errors db /\
    forall r : Row, selects db' r = selects db r && p (column c r).

Lemma binary_filters T o f v : fi_DBName f ∈ columns ->
  filters_by T (NewBinaryFilterMethod T o f) [[v]] (fi_DBName f) (fun w => op_holds o w v).
Proof using HO.
  intros Hc db. unfold exec. cbn [NewBinaryFilterMethod me_body chained]. eexists. split; [reflexivity|]. split; [done|].
  intros r. rewrite (argument_of _ _ (fi_TypeName f)) by done. change (selects (NewQuerySet _ ?d) r) with (selects d r). rewrite selects_add. f_equal. by apply holds_binary.
Qed.
Lemma null_filters T f : fi_DBName f ∈ columns ->
  filters_by T (NewIsNullMethod T f) [] (fi_DBName f) (fun w => bool_decide (w = VNull)) /\
  filters_by T (NewIsNotNullMethod T f) [] (fi_DBName f) (fun w => negb (bool_decide (w = VNull))).
Proof using HO.
  intros Hc. split; intros db; (eexists; split; [reflexivity|]; split; [done|]); intros r;
    change (selects (NewQuerySet _ ?d) r) with (selects d r); rewrite selects_add; f_equal; [by apply holds_null|by apply holds_not_null].
Qed.
Lemma in_filters T f v vs : fi_DBName f ∈ columns ->
  filters_by T (NewInFilterMethod T f) [v :: vs] (fi_DBName f) (in_holds (v :: vs)) /\
  filters_by T (NewNotInFilterMethod T f) [v :: vs] (fi_DBName f) (not_in_holds (v :: vs)).
Proof using HO.
  intros Hc. split; intros db; (eexists; split; [unfold exec; cbn [NewInFilterMethod NewNotInFilterMethod newInFilterMethodImpl me_body chained];
    rewrite (argument_of _ _ ("..." ++ fi_TypeName f)) by done; unfold run_call; cbn [gormMethodArgs where_call gormMethodName];
    rewrite (argument_of _ _ ("..." ++ fi_TypeName f)) by done; reflexivity|]); (split; [done|]); intros r;
    change (selects (NewQuerySet _ ?d) r) with (selects d r); rewrite selects_add; f_equal; [by apply holds_in|by apply holds_not_in].
Qed.
(** Without a value an error is added and no condition. *)
Lemma in_nothing T f m db : m = NewInFilterMethod T f \/ m = NewNotInFilterMethod T f ->
  exists e db', exec T m [[]] db = Ok db' /\ db_errors db' = (db_errors db ++ [e])%list /\ db_clauses db' = db_clauses db.
Proof.
  intros [-> | ->]; do 2 eexists; (split; [unfold exec; cbn [NewInFilterMethod NewNotInFilterMethod newInFilterMethodImpl me_body chained];
    by rewrite (argument_of _ _ ("..." ++ fi_TypeName f))|done]).
Qed.
(** What is neither a condition nor an error. *)
Lemma neutral_methods T f m values db : m ∈ [NewOrderAscByMethod T f; NewOrderDescByMethod T f; NewPreloadMethod T f] ->
  exists db', exec T m values db = Ok db' /\ db_errors db' = db_errors db /\ forall r : Row, selects db' r = selects db r.
Proof.
  intros Hm. repeat (apply elem_of_cons in Hm as [->|Hm]; [eexists; split; [reflexivity|]; split; [done|]; intros r;
    change (selects (NewQuerySet _ ?d) r) with (selects d r); rewrite selects_add; apply andb_true_r|]). by apply elem_of_nil in Hm.
Qed.
End Facts.

(** *** Conditions on the portal's tables *)

Section Tables.
Context `{HCo : Collation} {Row : Type} `{HC : TableColumns Row} `{HS : Sql Row} `{HT : !SqlTable Row}.

(** A query is built without an error and selects the rows of a predicate. *)
Definition answers (q : result DB) (p : Row -> bool) : Prop :=
  exists db, q = Ok db /\ db_errors db = [] /\ forall r : Row, selects db r = p r.

Lemma eq_int m n : op_holds OpEq (VInt m) (VInt n) = Z.eqb m n.
Proof. cbn. rewrite Z.eqb_compare. by destruct (Z.compare m n). Qed.
Lemma eq_text a b : op_holds OpEq (VText a) (VText b) = String.eqb a b.
Proof using HT.
  cbn. destruct (String.eqb_spec a b) as [->|Hn]; [by rewrite (proj2 (text_exact b b) eq_refl)|].
  destruct (text_compare a b) eqn:Hc; [by apply text_exact in Hc|done..].
Qed.
Lemma in_ints vs n : in_holds (map VInt vs) (VInt n) = bool_decide (n ∈ vs).
Proof.
  unfold in_holds. induction vs as [|m vs IH]; [done|]. cbn [map existsb]. rewrite IH, eq_int.
  destruct (Z.eqb_spec n m) as [->|Hn]; cbn [orb]; symmetry; [apply bool_decide_eq_true_2; by left|].
  apply bool_decide_ext. rewrite elem_of_cons. by split; [intros [|]|right].
Qed.
(** Statements with conditions on columns of the table. *)
Definition eq_clause (c : string) (v : Value) : Clause := Where (backquote ++ c ++ backquote ++ " " ++ getWhereCondition OpEq) [v].
Definition in_clause (c : string) (vs : list Value) : Clause := Where (c ++ " IN (?)") vs.
Lemma answers_clauses T cs (p : Row -> bool) : (forall r, forallb (fun c => clause_holds c r) cs = p r) -> answers (Ok (mkDB T cs [])) p.
Proof. intros Hp. by eexists. Qed.
Lemma eq_clause_holds c v (r : Row) : c ∈ table_columns -> clause_holds (eq_clause c v) r = op_holds OpEq (value_of c r) v.
Proof using HT. intros Hc. unfold eq_clause, clause_holds. rewrite holds_binary by done. by rewrite column_value. Qed.
Lemma answers_one T c v (p : Row -> bool) : c ∈ table_columns -> (forall r, op_holds OpEq (value_of c r) v = p r) ->
  answers (Ok (mkDB T [eq_clause c v] [])) p.
Proof using HT. intros Hc Hp. apply answers_clauses. intros r. cbn [forallb]. rewrite andb_true_r, eq_clause_holds by done. apply Hp. Qed.
Lemma answers_two T c1 v1 c2 v2 (p : Row -> bool) : c1 ∈ table_columns -> c2 ∈ table_columns ->
  (forall r, op_holds OpEq (value_of c1 r) v1 && op_holds OpEq (value_of c2 r) v2 = p r) ->
  answers (Ok (mkDB T [eq_clause c1 v1; eq_clause c2 v2] [])) p.
Proof using HT.
  intros H1 H2 Hp. apply answers_clauses. intros r. cbn [forallb]. rewrite andb_true_r, !eq_clause_holds by done. apply Hp.
Qed.
Lemma answers_in T c vs (p : Row -> bool) : c ∈ table_columns -> vs <> [] -> (forall r, in_holds vs (value_of c r) = p r) ->
  answers (Ok (mkDB T [in_clause c vs] [])) p.
Proof using HT.
  intros Hc Hv Hp. apply answers_clauses. intros r. cbn [forallb in_clause clause_holds]. rewrite andb_true_r, holds_in by done.
  by rewrite column_value.
Qed.
(** Preloads before the conditions, and an order after them. *)
Lemma answers_preload T a cs (p : Row -> bool) : answers (Ok (mkDB T cs [])) p -> answers (Ok (mkDB T (Preload a :: cs) [])) p.
Proof. intros (db & [= <-] & _ & Hp). apply answers_clauses, Hp. Qed.
Lemma answers_order T o cs (p : Row -> bool) : answers (Ok (mkDB T cs [])) p -> answers (Ok (mkDB T (cs ++ [Order o])%list [])) p.
Proof. intros (db & [= <-] & _ & Hp). apply answers_clauses. intros r. rewrite forallb_app. cbn. rewrite andb_true_r. apply Hp. Qed.
End Tables.

(** The statement a chain of calls comes to, and its columns. *)
Ltac asked T cs := lazymatch goal with |- answers ?q ?p => assert (q = Ok (mkDB T cs [])) as -> by (vm_compute; reflexivity) end.
Ltac column_there := apply (bool_decide_unpack _); vm_compute; exact I.

(** *** The methods of a field *)

Section Meaning.
Context `{HCo : Collation} {Row : Type} `{HS : Sql Row} (columns : list string) `{HO : !SqlOk Row columns}.
(** The methods that leave the selected rows alone. *)
Definition is_neutral (T : string) (m : Method) : Prop :=
  forall values db, exists db', exec T m values db = Ok db' /\ db_errors db' = db_errors db /\ forall r : Row, selects db' r = selects db r.
(** The methods of a list of values: without one the statement fails and
    nothing is asked. *)
Definition filters_list (T : string) (m : Method) (c : string) (p : list Value -> Value -> bool) : Prop :=
  (forall v vs, filters_by T m [v :: vs] c (p (v :: vs))) /\
  (forall db, exists e db', exec T m [[]] db = Ok db' /\ db_errors db' = (db_errors db ++ [e])%list /\ db_clauses db' = db_clauses db).
(** What the name of a method of the field [b] says. *)
Definition as_named (T : string) (b : BaseInfo) (m : Method) : Prop :=
  (exists o, me_name m = fi_Name b ++ Title (operationName o) /\
     forall v, filters_by T m [[v]] (fi_DBName b) (fun w => op_holds o w v)) \/
  me_name m = fi_Name b ++ "In" /\ filters_list T m (fi_DBName b) in_holds \/
  me_name m = fi_Name b ++ "NotIn" /\ filters_list T m (fi_DBName b) not_in_holds \/
  me_name m = fi_Name b ++ "IsNull" /\ filters_by T m [] (fi_DBName b) (fun w => bool_decide (w = VNull)) \/
  me_name m = fi_Name b ++ "IsNotNull" /\ filters_by T m [] (fi_DBName b) (fun w => negb (bool_decide (w = VNull))) \/
  me_name m ∈ ["OrderAscBy" ++ fi_Name b; "OrderDescBy" ++ fi_Name b; "Preload" ++ fi_Name b] /\ is_neutral T m.

Lemma binary_named T b o : fi_DBName b ∈ columns -> as_named T b (NewBinaryFilterMethod T o b).
Proof using HO. intros Hc. left. exists o. split; [done|]. intros v. by apply (binary_filters columns). Qed.
Lemma in_named T b : fi_DBName b ∈ columns -> as_named T b (NewInFilterMethod T b).
Proof using HO.
  intros Hc. right; left. split; [done|]. split; [intros v vs; by apply (in_filters columns)|]. intros db. apply (in_nothing T b). by left.
Qed.
Lemma not_in_named T b : fi_DBName b ∈ columns -> as_named T b (NewNotInFilterMethod T b).
Proof using HO.
  intros Hc. do 2 right; left. split; [done|]. split; [intros v vs; by apply (in_filters columns)|]. intros db. apply (in_nothing T b). by right.
Qed.
Lemma null_named T b : fi_DBName b ∈ columns -> as_named T b (NewIsNullMethod T b) /\ as_named T b (NewIsNotNullMethod T b).
Proof using HO. intros Hc. split; [do 3 right; left|do 4 right; left]; (split; [done|by apply (null_filters columns)]). Qed.
Lemma neutral_named T b m : m ∈ [NewOrderAscByMethod T b; NewOrderDescByMethod T b; NewPreloadMethod T b] -> as_named T b m.
Proof.
  intros Hm. do 5 right. split; [|intros values db; by apply (neutral_methods T b)].
  repeat (apply elem_of_cons in Hm as [->|Hm]; [cbn; set_solver|]). by apply elem_of_nil in Hm.
Qed.
Lemma field_methods_named T b isPointer pointed m : fi_DBName b ∈ columns -> m ∈ field_methods T b isPointer pointed ->
  m ∈ pointed \/ as_named T b m.
Proof using HO.
  intros Hc Hm. destruct (null_named T b Hc) as [Hn1 Hn2].
  assert (forall o, as_named T b (NewBinaryFilterMethod T o b)) as Hb by (intros o; by apply binary_named).
  assert (as_named T b (NewInFilterMethod T b) /\ as_named T b (NewNotInFilterMethod T b)) as [Hi1 Hi2] by (split; [by apply in_named|by apply not_in_named]).
  assert (as_named T b (NewOrderAscByMethod T b) /\ as_named T b (NewOrderDescByMethod T b) /\ as_named T b (NewPreloadMethod T b))
    as (Ho1 & Ho2 & Ho3) by (split_and!; apply neutral_named; set_solver).
  unfold field_methods in Hm.
  destruct (fi_IsString b), (fi_IsNumeric b), (fi_IsStruct b), isPointer, (fi_IsTime b); cbn [app] in Hm;
    try (apply elem_of_app in Hm as [Hm|Hm]; [by left|]); right;
    repeat (apply elem_of_cons in Hm as [->|Hm]; [done|]); by apply elem_of_nil in Hm.
Qed.
End Meaning.

(** ** Properties *)


Section PortalQueries.
Context `{HCo : Collation}.
Context `{SA : Sql AuthKey} `{!SqlTable AuthKey} `{SD : Sql Device} `{!SqlTable Device} `{SN : Sql Network} `{!SqlTable Network}.
Context `{SM : Sql NetworkUser} `{!SqlTable NetworkUser} `{SI : Sql Invitation} `{!SqlTable Invitation} `{SU : Sql User} `{!SqlTable User}.
Context `{SG : Sql GithubUser} `{!SqlTable GithubUser} `{SR : Sql RelayServer} `{!SqlTable RelayServer}.

(** C30 (refinement).  The queries of the portal's handlers, as chains of calls
    on the generated query sets, select exactly the rows of the predicates that
    the models of the handlers use - keys by their text, devices of a user on a
    machine or at an address, members of a network, invitations of a user,
    users by their email and accounts by their GitHub number - with every
    preload and order in place, when the database keeps the columns and its
    collation tells different texts apart. *)
Theorem portal_queries_select_their_rows :
  (forall key, answers (query AuthKeyQuerySet [("KeyEq", [[VText key]])]) (key_is key)) /\
  (forall u k, answers (query AuthKeyQuerySet [("UserIDEq", [[VInt u]]); ("IDEq", [[VInt k]])])
    (fun r => (k_UserID r =? u)%Z && (k_ID r =? k)%Z)) /\
  (forall u m, answers (query DeviceQuerySet [("UserIDEq", [[VInt u]]); ("MachineIDEq", [[VText m]])])
    (fun d => (d_UserID d =? u)%Z && String.eqb (d_MachineID d) m)) /\
  (forall a, answers (query DeviceQuerySet [("AddressEq", [[VText a]])]) (fun d => String.eqb (d_Address d) a)) /\
  (forall u us, answers (query DeviceQuerySet [("UserIDIn", [map VInt (u :: us)])]) (fun d => bool_decide (d_UserID d ∈ u :: us))) /\
  (forall i is_, answers (query DeviceQuerySet [("IDIn", [map VInt (i :: is_)])]) (fun d => bool_decide (d_ID d ∈ i :: is_))) /\
  (forall n, answers (query NetworkQuerySet [("IDEq", [[VInt n]])]) (fun r => (n_ID r =? n)%Z)) /\
  (forall n u, answers (query NetworkUserQuerySet [("PreloadNetwork", []); ("NetworkIDEq", [[VInt n]]); ("UserIDEq", [[VInt u]])])
    (fun m => (nu_NetworkID m =? n)%Z && (nu_UserID m =? u)%Z)) /\
  (forall n ns, answers (query NetworkUserQuerySet [("NetworkIDIn", [map VInt (n :: ns)])])
    (fun m => bool_decide (nu_NetworkID m ∈ n :: ns))) /\
  (forall n u, answers (query InvitationQuerySet [("NetworkIDEq", [[VInt n]]); ("UserIDEq", [[VInt u]])])
    (fun i => (i_NetworkID i =? n)%Z && (i_UserID i =? u)%Z)) /\
  (forall u, answers (query InvitationQuerySet [("PreloadNetwork", []); ("PreloadInvitedBy", []); ("PreloadUser", []); ("UserIDEq", [[VInt u]])])
    (fun i => (i_UserID i =? u)%Z)) /\
  (forall e, answers (query UserQuerySet [("EmailEq", [[VText e]])]) (fun u => String.eqb (u_Email u) e)) /\
  (forall g, answers (query GithubUserQuerySet [("GithubIDEq", [[VInt g]])]) (fun r => (g_GithubID r =? g)%Z)) /\
  (forall i, answers (query RelayServerQuerySet [("IDEq", [[VInt i]])]) (fun r => (r_ID r =? i)%Z)) /\
  (forall u, answers (query AuthKeyQuerySet [("UserIDEq", [[VInt u]]); ("OrderDescByCreatedAt", [])]) (fun r => (k_UserID r =? u)%Z)).
Proof.
  split_and!.
  - intros key. asked "AuthKey" [eq_clause "key" (VText key)]. apply answers_one; [column_there|]. intros r. exact (eq_text (k_Key r) key).
  - intros u k. asked "AuthKey" [eq_clause "user_id" (VInt u); eq_clause "id" (VInt k)]. apply answers_two; [column_there..|].
    intros r. exact (f_equal2 andb (eq_int (k_UserID r) u) (eq_int (k_ID r) k)).
  - intros u m. asked "Device" [eq_clause "user_id" (VInt u); eq_clause "machine_id" (VText m)]. apply answers_two; [column_there..|].
    intros r. exact (f_equal2 andb (eq_int (d_UserID r) u) (eq_text (d_MachineID r) m)).
  - intros a. asked "Device" [eq_clause "address" (VText a)]. apply answers_one; [column_there|]. intros r. exact (eq_text (d_Address r) a).
  - intros u us. asked "Device" [in_clause "user_id" (map VInt (u :: us))]. apply answers_in; [column_there|done|].
    intros r. exact (in_ints (u :: us) (d_UserID r)).
  - intros i is_. asked "Device" [in_clause "id" (map VInt (i :: is_))]. apply answers_in; [column_there|done|].
    intros r. exact (in_ints (i :: is_) (d_ID r)).
  - intros n. asked "Network" [eq_clause "id" (VInt n)]. apply answers_one; [column_there|]. intros r. exact (eq_int (n_ID r) n).
  - intros n u. asked "NetworkUser" [Preload "Network"; eq_clause "network_id" (VInt n); eq_clause "user_id" (VInt u)].
    apply answers_preload, answers_two; [column_there..|]. intros r. exact (f_equal2 andb (eq_int (nu_NetworkID r) n) (eq_int (nu_UserID r) u)).
  - intros n ns. asked "NetworkUser" [in_clause "network_id" (map VInt (n :: ns))]. apply answers_in; [column_there|done|].
    intros r. exact (in_ints (n :: ns) (nu_NetworkID r)).
  - intros n u. asked "Invitation" [eq_clause "network_id" (VInt n); eq_clause "user_id" (VInt u)]. apply answers_two; [column_there..|].
    intros r. exact (f_equal2 andb (eq_int (i_NetworkID r) n) (eq_int (i_UserID r) u)).
  - intros u. asked "Invitation" [Preload "Network"; Preload "InvitedBy"; Preload "User"; eq_clause "user_id" (VInt u)].
    do 3 apply answers_preload. apply answers_one; [column_there|]. intros r. exact (eq_int (i_UserID r) u).
  - intros e. asked "User" [eq_clause "email" (VText e)]. apply answers_one; [column_there|]. intros r. exact (eq_text (u_Email r) e).
  - intros g. asked "GithubUser" [eq_clause "github_id" (VInt g)]. apply answers_one; [column_there|]. intros r. exact (eq_int (g_GithubID r) g).
  - intros i. asked "RelayServer" [eq_clause "id" (VInt i)]. apply answers_one; [column_there|]. intros r. exact (eq_int (r_ID r) i).
  - intros u. asked "AuthKey" ([eq_clause "user_id" (VInt u)] ++ [Order "created_at DESC"])%list. apply answers_order, answers_one; [column_there|].
    intros r. exact (eq_int (k_UserID r) u).
Qed.
End PortalQueries.

(** ** Examples *)

(** A database that knows the conditions by their texts. *)
Module TableSql.
#[export] Instance collation : Collation := {| text_compare := String.compare; text_like := String.eqb |}.
Definition ops : list FilterOp := [OpEq; OpNe; OpLt; OpLte; OpGt; OpGte; OpLike; OpNotLike].
Definition meanings (c : string) : list (string * (list Value -> Value -> bool)) :=
  app (map (fun o => (backquote ++ c ++ backquote ++ " " ++ getWhereCondition o,
                      fun vs w => match vs with [v] => op_holds o w v | _ => false end)) ops)
    [(c ++ " IN (?)", in_holds); (c ++ " NOT IN (?)", not_in_holds); (c ++ " IS NULL", fun _ w => bool_decide (w = VNull));
     (c ++ " IS NOT NULL", fun _ w => negb (bool_decide (w = VNull)))].
Definition entries (cols : list string) : list (string * (string * (list Value -> Value -> bool))) :=
  flat_map (fun c => map (fun m => (m.1, (c, m.2))) (meanings c)) cols.
Definition read_sql (cols : list string) (sql : string) : option (string * (list Value -> Value -> bool)) :=
  match list_find (fun e => e.1 = sql) (entries cols) with Some (_, e) => Some e.2 | None => None end.

Lemma compare_eq a b : String.compare a b = Eq <-> a = b.
Proof.
  split; [apply String.compare_eq_iff|]. intros ->. induction b as [|c b IH]; [done|]. cbn.
  unfold Ascii.compare. by rewrite N.compare_refl.
Qed.

Section Instance_.
Context {Row : Type} `{HC : TableColumns Row}.
Definition table_sql : Sql Row := {|
  column := value_of;
  holds sql vs r := match read_sql table_columns sql with Some (c, m) => m vs (value_of c r) | None => false end |}.

Lemma read_entry cols t c m : NoDup (map fst (entries cols)) -> c ∈ cols -> (t, m) ∈ meanings c -> read_sql cols t = Some (c, m).
Proof.
  intros Hn Hc Hm. assert ((t, (c, m)) ∈ entries cols) as Hin.
  { apply list_elem_of_In, in_flat_map. exists c. split; [by apply list_elem_of_In|].
    apply list_elem_of_In, list_elem_of_fmap. by exists (t, m). }
  unfold read_sql. destruct (list_find _ (entries cols)) as [[i e]|] eqn:Hf.
  - apply list_find_Some in Hf as (Hi & He & _). apply list_elem_of_lookup_2 in Hi.
    by rewrite (NoDup_map_inj fst _ e (t, (c, m)) Hn Hi Hin He).
  - apply list_find_None in Hf. rewrite Forall_forall in Hf. by destruct (Hf _ Hin).
Qed.

Lemma table_sql_ok : NoDup (map fst (entries table_columns)) -> SqlTable Row (HS := table_sql).
Proof.
  intros Hn. split; [split|done|intros a b; exact (compare_eq a b)]; intros; cbn [holds column table_sql].
  - erewrite read_entry; [|done|done|apply elem_of_app; left; apply list_elem_of_fmap; exists o; split; [reflexivity|destruct o; set_solver]]. done.
  - erewrite read_entry; [|done|done|apply elem_of_app; right; by left]. done.
  - erewrite read_entry; [|done|done|apply elem_of_app; right; right; by left]. done.
  - erewrite read_entry; [|done|done|apply elem_of_app; right; do 2 right; by left]. done.
  - erewrite read_entry; [|done|done|apply elem_of_app; right; do 3 right; by left]. done.
Qed.
End Instance_.
End TableSql.

Module QuerySetExample.
#[local] Existing Instance TableSql.collation.
(** The length and a sum of a text without its blank space. *)
Fixpoint checksum (s : string) (n h : N) : N * N :=
  match s with
  | EmptyString => (n, h)
  | String c s' => if is_space c then checksum s' n h else checksum s' (n + 1) ((h * 31 + N_of_ascii c) mod 4294967296)
  end%N.
(** What is generated for networks has those of the lines from 3929 to 4662 of
    the committed file. *)
Example network_queries_are_the_committed_ones :
  match NetworkQuerySet with
  | Ok c => checksum (queryset_text c ++ modifiers_text c) 0 0
  | _ => (0, 0)%N
  end = (18612, 1192403305)%N.
Proof. vm_compute. reflexivity. Qed.

(** No two methods of a struct have a receiver and a name in common. *)
Definition distinct_methods (qs : result querySetStructConfig) : bool :=
  match qs with Ok c => bool_decide (NoDup (map method_key (qc_Methods c))) | _ => false end.
Example methods_are_distinct :
  distinct_methods AuthKeyQuerySet = true /\ distinct_methods DeviceQuerySet = true.
Proof. by vm_compute. Qed.

(** [SetName(...)] and [SetDescription(...)] write their two columns. *)
Example network_updater :
  match NetworkQuerySet with
  | Ok c => match set_chain c [("SetName", VText "home"); ("SetDescription", VText "at home")] (GetUpdater "Network" no_clauses) with
            | Ok u => map_to_list (up_fields u)
            | _ => []
            end
  | _ => []
  end ≡ₚ [("name", VText "home"); ("description", VText "at home")].
Proof. vm_compute. reflexivity. Qed.

(** A field whose type the generator cannot handle is left out; a pointer to
    such a type ends it. *)
Example pointer_to_slice_panics :
  GenFieldInfo models ColumnName "Tags" [] (Slice string_t) = Ok None /\
  is_panic (GenFieldInfo models ColumnName "Tags" [] (Pointer (Slice string_t))) = true.
Proof. by vm_compute. Qed.
(** So does an alias of a struct. *)
Example alias_panics :
  is_panic (buildParsedStructs [("Alias", Struct "struct" [var "Name" "" string_t])] (getStructNamesInFile [mkGenDecl None [("Alias", true)]])) = true.
Proof. by vm_compute. Qed.

(** The portal's tables in the database of [TableSql]. *)
Ltac texts_distinct := apply TableSql.table_sql_ok, (bool_decide_unpack _); vm_compute; exact I.
Lemma authKey_ok : SqlTable AuthKey (HS := TableSql.table_sql). Proof. texts_distinct. Qed.
Lemma device_ok : SqlTable Device (HS := TableSql.table_sql). Proof. texts_distinct. Qed.
Lemma network_ok : SqlTable Network (HS := TableSql.table_sql). Proof. texts_distinct. Qed.
Lemma networkUser_ok : SqlTable NetworkUser (HS := TableSql.table_sql). Proof. texts_distinct. Qed.
Lemma invitation_ok : SqlTable Invitation (HS := TableSql.table_sql). Proof. texts_distinct. Qed.
Lemma user_ok : SqlTable User (HS := TableSql.table_sql). Proof. texts_distinct. Qed.
Lemma githubUser_ok : SqlTable GithubUser (HS := TableSql.table_sql). Proof. texts_distinct. Qed.
Lemma relayServer_ok : SqlTable RelayServer (HS := TableSql.table_sql). Proof. texts_distinct. Qed.

Definition keys : list AuthKey := [
  mkAuthKey 1 0 None 7 KeyTypeReusable "pmkey-a" "" 9 true; mkAuthKey 2 0 None 7 KeyTypeOneOff "pmkey-b" "m1" 9 true].
Lemma portal_queries_select_their_rows_witness : exists db,
  query AuthKeyQuerySet [("KeyEq", [[VText "pmkey-b"]])] = Ok db /\
  map k_ID (base.filter (fun r => selects (HS := TableSql.table_sql) db r = true) keys) = [2%Z].
Proof.
  destruct (@portal_queries_select_their_rows TableSql.collation _ authKey_ok _ device_ok _ network_ok _ networkUser_ok
    _ invitation_ok _ user_ok _ githubUser_ok _ relayServer_ok) as (H & _).
  destruct (H "pmkey-b") as (db & Hq & _ & Hs). exists db. split; [exact Hq|].
  unfold keys. rewrite !filter_cons, !Hs. vm_compute. reflexivity.
Defined.

Definition key_field : Info := mkInfo None (mkBaseInfo "Key" "key" "string" false false false true) false.
Lemma key_column : forall b, b = fi_base key_field \/ fi_pointed key_field = Some b -> fi_DBName b ∈ @table_columns AuthKey _.
Proof. intros b [-> | [=]]. column_there. Qed.
End QuerySetExample.
