(* ===== verification/ApiClient.v ===== *)
(** The HTTP clients of the portal: [internal/jsonapi/client.go],
    [node/api/api_client.go] and [relay/api/api_client.go].  The transport and
    what the JSON decoder makes of a body are the server's answer. *)
From S2P Require Import Prelude GoText Wire.
#[local] Set Warnings "-clear-no-such-hyp".

Definition URIDevicePeerGraph : string := "/api/v1/device/peers".
Definition URIDevicePreflight : string := "/api/v1/device/preflight".
Definition URIRelay : string := "/api/v1/relay".
Definition URILogout : string := "/api/v1/logout".
Definition URLKeyExchange : string := "/api/v1/key/exchange".
Definition URIRenewCredential : string := "/api/v1/credential/renew".

(** [version.NewVersion().SemVer()]. *)
Record Version := mkVersion { ver_major : Z; ver_minor : Z; ver_patch : Z }.
Definition NewVersion : Version := mkVersion 0 1 0.
Definition SemVer (v : Version) : string :=
  (pretty (ver_major v) ++ "." ++ pretty (ver_minor v) ++ "." ++ pretty (ver_patch v))%string.

(** ** [jsonapi] *)

Record Client := mkClient { cl_server : string; cl_token : string; cl_machineid : string }.
Definition NewClient (server token machineid : string) : Client := mkClient server token machineid.
Definition SetToken (token : string) (c : Client) : Client := mkClient (cl_server c) token (cl_machineid c).

(** An [http.Request] with the value its JSON body encodes. *)
Record HttpRequest (B : Type) := mkHttpRequest {
  hr_Method : string; hr_URL : string; hr_ContentType : string; hr_ClientVersion : string;
  hr_Authorization : string; hr_MachineID : string; hr_Body : option B }.
Arguments mkHttpRequest {B}. Arguments hr_Method {B}. Arguments hr_URL {B}. Arguments hr_ContentType {B}.
Arguments hr_ClientVersion {B}. Arguments hr_Authorization {B}. Arguments hr_MachineID {B}. Arguments hr_Body {B}.

(** An answer: the status, and what decoding the body as the result and as a
    failure (its code and message) gives. *)
Record HttpResponse (A : Type) := mkHttpResponse {
  hp_StatusCode : Z; hp_Result : result A; hp_Failure : result (Z * string) }.
Arguments mkHttpResponse {A}. Arguments hp_StatusCode {A}. Arguments hp_Result {A}. Arguments hp_Failure {A}.

Definition StatusOK : Z := 200.

Section Do.
(** The world the transport acts on. *)
Context {W A B : Type} (send : HttpRequest B -> GoM W (HttpResponse A)).

Definition request_of (c : Client) (method api : string) (body : option B) : HttpRequest B :=
  mkHttpRequest method (TrimSuffix (cl_server c) "/" ++ "/" ++ TrimPrefix api "/")%string
    "application/json; charset=utf-8" (SemVer NewVersion) (cl_token c) (cl_machineid c) body.

Definition do_ (c : Client) (method api : string) (body : option B) : GoM W A :=
  resp ← send (request_of c method api body);
  if hp_StatusCode resp =? StatusOK then glift (hp_Result resp)
  else
    '(code, msg) ← glift (hp_Failure resp);
    gthrow (EMsg (pretty code ++ ": " ++ msg)).
Definition Get (c : Client) (api : string) : GoM W A := do_ c "GET" api None.
(** [encoded] is the outcome of encoding the request. *)
Definition Post (c : Client) (api : string) (encoded : result B) : GoM W A :=
  body ← glift encoded; do_ c "POST" api (Some body).
Definition Put (c : Client) (api : string) (encoded : result B) : GoM W A :=
  body ← glift encoded; do_ c "PUT" api (Some body).
End Do.

(** ** The node's requests *)

Section Node.
Context {W : Type}.

(** A failed logout is logged. *)
Definition Logout (send : HttpRequest unit -> GoM W (HttpResponse unit)) (c : Client) : GoM W unit :=
  gignore (Get send c URILogout).

Definition Preflight (send : HttpRequest PreflightRequest -> GoM W (HttpResponse PreflightResponse)) (c : Client)
    (os hostname : string) : GoM W PreflightResponse :=
  Post send c URIDevicePreflight (Ok (mkPreflightRequest os hostname)).

(** The order of [sort.Slice]. *)
Definition peer_before (p q : Peer) : Prop := pr_ID p <= pr_ID q.
#[local] Instance peer_before_dec p q : Decision (peer_before p q).
Proof using Type. unfold peer_before. apply _. Defined.
Definition sort_peers (r : PeerGraphResponse) : PeerGraphResponse :=
  mkPeerGraphResponse (pg_NotModified r) (pg_UniqueHash r) (pg_UpdateInterval r) (pg_RelayServers r)
    (merge_sort peer_before (pg_Peers r)) (pg_Networks r).
Definition PeerGraph (send : HttpRequest unit -> GoM W (HttpResponse PeerGraphResponse)) (c : Client)
    (uniqueHash : string) : GoM W PeerGraphResponse :=
  resp ← Get send c (URIDevicePeerGraph ++ "?hash=" ++ uniqueHash)%string;
  mret (sort_peers resp).

(** The access and the refresh token; the body is a JSON null. *)
Definition KeyExchange (send : HttpRequest unit -> GoM W (HttpResponse (string * string))) (c : Client)
  : GoM W (string * string) := Post send c URLKeyExchange (Ok tt).

(** The body is the credential. *)
Definition RenewCredential (send : HttpRequest string -> GoM W (HttpResponse (string * Z))) (c : Client)
    (credential : string) : GoM W (string * Z) := Post send c URIRenewCredential (Ok credential).

(** The relay server's only request; [key] is the text of its public key. *)
Definition Keepalive (send : HttpRequest RelayKeepaliveRequest -> GoM W (HttpResponse RelayKeepaliveResponse)) (c : Client)
    (name region host : string) (port stunPort : Z) (key : string) (peers : list PeerID) (startedAt : Z)
  : GoM W RelayKeepaliveResponse :=
  Post send c URIRelay (Ok (mkRelayKeepaliveRequest name region host port stunPort key peers startedAt)).
End Node.

(** ** Lemmas *)

Section Facts.
#[local] Existing Instance peer_before_dec.

#[local] Instance peer_before_total : Total peer_before.
Proof. intros p q. unfold peer_before. lia. Qed.
#[local] Instance peer_before_trans : Transitive peer_before.
Proof. intros p q r. unfold peer_before. lia. Qed.

(** Sorting keeps the peers; distinct identifiers come out increasing. *)
Lemma sort_peers_perm r : pg_Peers (sort_peers r) ≡ₚ pg_Peers r.
Proof. apply merge_sort_Permutation. Qed.

Lemma sorted_distinct (l : list Peer) :
  Sorted.StronglySorted peer_before l -> NoDup (map pr_ID l) -> Sorted.StronglySorted Z.lt (map pr_ID l).
Proof.
  induction l as [|p l IH]; cbn; [constructor|]. intros Hs [Hp Hn]%NoDup_cons. inversion Hs as [|? ? Hs' Hall]; subst.
  constructor; [by apply IH|]. apply List.Forall_forall. intros x (q & <- & Hq)%in_map_iff.
  rewrite List.Forall_forall in Hall. specialize (Hall q Hq). unfold peer_before in Hall.
  enough (pr_ID p <> pr_ID q) by lia. intros He. apply Hp. rewrite He. apply list_elem_of_fmap_2. by apply list_elem_of_In.
Qed.

Lemma sort_peers_increasing r :
  NoDup (map pr_ID (pg_Peers r)) -> Sorted.StronglySorted Z.lt (map pr_ID (pg_Peers (sort_peers r))).
Proof.
  intros Hn. apply sorted_distinct; [apply (StronglySorted_merge_sort peer_before)|]. cbn.
  by rewrite (merge_sort_Permutation peer_before).
Qed.
End Facts.
