(* ===== verification/Config.v ===== *)
(** The configuration files: [node/config/config.go] and [global.go],
    [relay/config/config.go], [portal/config/config.go], and
    [node/entry/exchange.go].  The file system and the JSON and YAML texts are
    classes; what is written is what [Load] finds. *)
From Stdlib Require Import Ascii.
From S2P Require Import Prelude GoText Jwt Noise Credential Wire ApiClient.
#[local] Set Warnings "-clear-no-such-hyp".

(** ** The file of the configuration *)

(** [os.Open] gives the text, or nothing for [ErrNotExist]; [os.Create]
    empties the file and gives [false] for [ErrNotExist]; [Write] writes to the
    file just emptied. *)
Class FileSystem := {
  fs : Type;
  Open : fs -> result (option string);
  Create : GoM fs bool;
  MkdirAll : GoM fs unit;
  Truncate : GoM fs unit;
  Write : string -> GoM fs unit }.

Class FileSystemOk `{FileSystem} := {
  content : fs -> option string;
  open_content : forall f o, Open f = Ok o -> o = content f;
  create_content : forall f, match Create f with
    | (f', Ok true) => content f' = Some EmptyString
    | (f', _) => content f' = content f
    end;
  mkdir_content : forall f, content (gstate MkdirAll f) = content f;
  truncate_content : forall f, match Truncate f with
    | (f', Ok _) => content f' = Some EmptyString
    | (f', _) => content f' = content f
    end;
  write_content : forall s f f', content f = Some EmptyString -> Write s f = (f', Ok tt) -> content f' = Some s;
  fs_no_panic : forall f s, is_panic (Open f) = false /\ is_panic (gresult Create f) = false /\
    is_panic (gresult MkdirAll f) = false /\ is_panic (gresult Truncate f) = false /\ is_panic (gresult (Write s) f) = false }.

Definition ErrNotExist : error := EMsg "file does not exist".

(** 7-bit text, which JSON and YAML carry as it is. *)
Fixpoint plain (s : string) : bool :=
  match s with EmptyString => true | String c s' => Nat.ltb (nat_of_ascii c) 128 && plain s' end.

Definition DHLen : Z := 32.
Class Curve := { GenerateKeypair : result NoiseDHKey }.
Class CurveOk `{Curve} : Prop := {
  keypair_length : forall k, GenerateKeypair = Ok k -> zlen (nPublic k) = DHLen /\ zlen (nPrivate k) = DHLen;
  keypair_no_panic : is_panic GenerateKeypair = false }.

(** ** The node ([node/config]) *)

Module NodeCfg.

Record Config := mkConfig {
  Token : string; FastKey : string; DHKey : NoiseDHKey; Port : Z; MachineID : string; OnceAlert : bool; LocaleName : string }.
Definition empty : Config := mkConfig "" "" (mkNoiseDHKey [] []) 0 "" false "".

Definition set_Token (t : string) (c : Config) : Config :=
  mkConfig t (FastKey c) (DHKey c) (Port c) (MachineID c) (OnceAlert c) (LocaleName c).
Definition set_Port (p : Z) (c : Config) : Config :=
  mkConfig (Token c) (FastKey c) (DHKey c) p (MachineID c) (OnceAlert c) (LocaleName c).
Definition set_DHKey (k : NoiseDHKey) (c : Config) : Config :=
  mkConfig (Token c) (FastKey c) k (Port c) (MachineID c) (OnceAlert c) (LocaleName c).
Definition set_MachineID (m : string) (c : Config) : Config :=
  mkConfig (Token c) (FastKey c) (DHKey c) (Port c) m (OnceAlert c) (LocaleName c).
Definition set_LocaleName (l : string) (c : Config) : Config :=
  mkConfig (Token c) (FastKey c) (DHKey c) (Port c) (MachineID c) (OnceAlert c) l.

(** [json.Encoder] and [json.Decoder]: decoding reads into a configuration and
    may fail after some of its fields. *)
Class Json := { encode : Config -> string; decode : string -> Config -> Config * option error }.
Definition carried (c : Config) : Prop :=
  plain (Token c) = true /\ plain (FastKey c) = true /\ plain (MachineID c) = true /\ plain (LocaleName c) = true /\
  minInt64 <= Port c <= maxInt64.
Class JsonOk `{Json} : Prop := {
  decode_encode : forall c c0, carried c -> decode (encode c) c0 = (c, None);
  decode_empty : forall c0, exists e, decode EmptyString c0 = (c0, Some e) }.

(** The address of the gateways: an environment variable, or the default. *)
Definition DefaultAPIGateway : string := "https://api.pairmesh.com".
Definition DefaultMyGateway : string := "https://my.pairmesh.com".
Definition APIGateway (lookup : string -> option string) : string :=
  match lookup "PAIRMESH_GATEWAY_API"%string with Some g => g | None => DefaultAPIGateway end.
Definition MyGateway (lookup : string -> option string) : string :=
  match lookup "PAIRMESH_GATEWAY_MY"%string with Some g => g | None => DefaultMyGateway end.

(** What [Load] asks of the machine: whether a UDP port can be bound, the port
    the system picks, and the protected machine identifier. *)
Record Machine := mkMachine { free : Z -> bool; pick : result Z; machineid : result string }.
Definition machine_ok (m : Machine) : Prop :=
  (forall p, free m p = true -> 0 <= p < 2 ^ 16) /\ (forall p, pick m = Ok p -> 0 < p < 2 ^ 16) /\
  is_panic (pick m) = false /\ is_panic (machineid m) = false.

Section Ops.
Context `{HF : FileSystem} `{HC : Curve} `{HJ : Json}.

(** [Save]. *)
Definition Save (c : Config) : GoM fs unit :=
  created ← Create;
  _ ← (if (created : bool) then mret tt else MkdirAll);
  again ← Create;
  if (again : bool) then Write (encode c) else gthrow ErrNotExist.

(** The configuration in memory and the disk. *)
Record Cfg := mkCfg { cf_config : Config; cf_disk : fs }.
Abbreviation C := (GoM Cfg).
Definition edit (f : Config -> Config) : C unit := gmodify (fun s => mkCfg (f (cf_config s)) (cf_disk s)).
Definition save : C unit := fun s =>
  match Save (cf_config s) (cf_disk s) with (d, r) => (mkCfg (cf_config s) d, r) end.

(** The steps of [Load]; each says whether it changed the configuration. *)
Definition read (opened : option string) : C bool := fun s =>
  match opened with
  | None => (s, Ok true)
  | Some text =>
    match decode text (cf_config s) with (c, e) => (mkCfg c (cf_disk s), Ok (bool_decide (is_Some e))) end
  end.
Definition choose_port (m : Machine) : C bool :=
  s ← gget;
  let p := Port (cf_config s) in
  if negb (p =? 0) && free m p then mret false
  else
    port ← glift (pick m);
    _ ← edit (set_Port port);
    mret true.
Definition choose_key : C bool :=
  s ← gget;
  if zlen (nPublic (DHKey (cf_config s))) =? DHLen then mret false
  else
    k ← glift GenerateKeypair;
    _ ← edit (set_DHKey k);
    mret true.
Definition choose_machine (m : Machine) : C unit :=
  s ← gget;
  if String.eqb (MachineID (cf_config s)) "" then
    match machineid m with
    | Ok id => edit (set_MachineID id)
    | Err _ => edit (set_MachineID "")
    | Panic w => gpanic w
    end
  else mret tt.
Definition Load (m : Machine) : C unit :=
  s ← gget;
  opened ← glift (Open (cf_disk s));
  c1 ← read opened;
  c2 ← choose_port m;
  c3 ← choose_key;
  _ ← choose_machine m;
  if c1 || c2 || c3 then gignore save else mret tt.

(** The copy leaves the fast key out. *)
Definition Clone (c : Config) : Config :=
  mkConfig (Token c) "" (mkNoiseDHKey (go_copy (go_make (zlen (nPrivate (DHKey c)))) (nPrivate (DHKey c)))
    (go_copy (go_make (zlen (nPublic (DHKey c)))) (nPublic (DHKey c)))) (Port c) (MachineID c) (OnceAlert c) (LocaleName c).
Definition IsGuest (c : Config) : bool := String.eqb (Token c) "".
Definition IsAuthKey (c : Config) : bool := HasPrefix (Token c) PrefixAuthKey.
Definition IsBearer (c : Config) : bool := HasPrefix (Token c) PrefixJwtToken.
Definition SetJWTToken (tok : string) : C unit :=
  _ ← edit (set_Token (PrefixJwtToken ++ " " ++ tok)%string); save.
Definition SetLocaleName (name : string) : C unit := _ ← edit (set_LocaleName name); save.

(** [exchangeAuthKeyIfNeed]: the client afterwards; [resp] is the answer of
    the key exchange. *)
Definition exchangeAuthKeyIfNeed (resp : result (string * string)) (apiClient : Client) : C Client :=
  s ← gget;
  if negb (IsAuthKey (cf_config s)) then mret apiClient
  else
    '(access, _) ← glift resp;
    _ ← SetJWTToken access;
    s' ← gget;
    mret (SetToken (Token (cf_config s')) apiClient).
End Ops.
End NodeCfg.

(** ** The relay server ([relay/config]) *)

Module RelayCfg.

Record Portal := mkPortal { Key : string; URL : string; KeepaliveInterval : Z; SyncInterval : Z }.
(** The pointers are nil when the file says [null]. *)
Record Config := mkConfig {
  Name : string; Region : string; Host : string; Port : Z; STUNPort : Z; DHKey : option Credential.DHKey;
  portal : option Portal }.

Definition Minute : Z := 60 * Second.
Definition New : Config := mkConfig "1a" "testing" "" 2328 3478 None
  (Some (mkPortal "testing-relay-server" "http://127.0.0.1:2823" (5 * Minute) (5 * Minute))).
Definition set_DHKey (k : Credential.DHKey) (c : Config) : Config :=
  mkConfig (Name c) (Region c) (Host c) (Port c) (STUNPort c) (Some k) (portal c).

(** [yaml.Encoder] and [yaml.Decoder]; a field marked [omitempty] is not
    written when it is zero, and keeps its value when it is not read. *)
Class Yaml := { encode : Config -> result string; decode : string -> Config -> result Config }.
Definition given (n d : Z) : Z := if n =? 0 then d else n.
Definition over (c d : Config) : Config :=
  mkConfig (Name c) (Region c) (if String.eqb (Host c) "" then Host d else Host c) (given (Port c) (Port d))
    (given (STUNPort c) (STUNPort d)) (DHKey c)
    match portal c, portal d with
    | Some p, Some q => Some (mkPortal (Key p) (URL p) (given (KeepaliveInterval p) (KeepaliveInterval q))
                               (given (SyncInterval p) (SyncInterval q)))
    | p, _ => p
    end.
Definition carried (c : Config) : Prop :=
  plain (Name c) = true /\ plain (Region c) = true /\ plain (Host c) = true /\
  (forall k, DHKey c = Some k -> key_wf (Public k) /\ key_wf (Private k)) /\
  match portal c with Some p => plain (Key p) = true /\ plain (URL p) = true | None => True end.
Class YamlOk `{Yaml} : Prop := {
  decode_encode : forall c d s, carried c -> encode c = Ok s -> decode s d = Ok (over c d) }.

Section Ops.
Context `{HF : FileSystem} `{HC : Curve} `{HY : Yaml}.

Definition FromBytes (data : string) : result Config := decode data New.
(** Whether the public key has the length of a key: an array always has. *)
Definition keyless (c : Config) : bool :=
  match DHKey c with None => true | Some k => negb (Len (Public k) =? DHLen) end.
Definition FromPath : GoM fs Config :=
  f ← gget;
  data ← glift (match Open f with Ok None => Err ErrNotExist | Ok (Some s) => Ok s | Err e => Err e | Panic w => Panic w end);
  cfg ← glift (FromBytes data);
  if keyless cfg then
    staticKey ← glift GenerateKeypair;
    let cfg := set_DHKey (FromNoiseDHKey staticKey) cfg in
    _ ← Truncate;
    text ← glift (encode cfg);
    _ ← Write text;
    mret cfg
  else mret cfg.
End Ops.
End RelayCfg.

(** ** The portal ([portal/config]) *)

Module PortalCfg.

Record GitHub := mkGitHub { ClientID : string; ClientSecret : string }.
Record SSO := mkSSO { Redirect : string; github : GitHub }.
Record MySQL := mkMySQL { m_Host : string; m_Port : Z; m_User : string; m_Password : string; m_DB : string }.
Record JWT := mkJWT { AccessSecret : string; RefreshSecret : string; AccessTokenTTL : Z; RefreshTokenTTL : Z }.
Record Relay := mkRelay { AuthKey : string }.
Record Config := mkConfig {
  Host : string; Port : Z; TLSKey : string; TLSCert : string; PrivateKey : string; DataDir : string;
  relay : option Relay; mysql : option MySQL; jwt : option JWT; sso : option SSO }.

Definition New : Config := mkConfig "0.0.0.0" 2823 "" "" "" "./cache/" None
  (Some (mkMySQL "127.0.0.1" 3306 "root" "" "pairportal"))
  (Some (mkJWT "the_access_secret" "the_refresh_secret" 1000000 1000000))
  (Some (mkSSO "http://127.0.0.1:2823" (mkGitHub "" ""))).
Definition FromBytes (decode : string -> Config -> result Config) (data : string) : result Config := decode data New.
Definition FromPath `{FileSystem} (decode : string -> Config -> result Config) (f : fs) : result Config :=
  match Open f with
  | Ok None => Err ErrNotExist
  | Ok (Some data) => FromBytes decode data
  | Err e => Err e
  | Panic w => Panic w
  end.
End PortalCfg.

(** ** Lemmas *)

Section Facts.
Context `{HF : FileSystem} `{HFk : !FileSystemOk} `{HC : Curve} `{HCk : !CurveOk}.

Lemma copy_make (l : bytes) : go_copy (go_make (zlen l)) l = l.
Proof. apply go_copy_same. unfold go_make, zlen. rewrite length_replicate. lia. Qed.

Section Node.
Import NodeCfg.
Context `{HJ : Json}.

Lemma Clone_drops_fast_key c :
  Clone c = mkConfig (Token c) "" (DHKey c) (Port c) (MachineID c) (OnceAlert c) (LocaleName c).
Proof. unfold Clone. rewrite !copy_make. by destruct (DHKey c). Qed.

(** A successful [Save] leaves the text of the configuration; no [Save]
    panics. *)
Lemma Save_content c d :
  match Save c d with
  | (d', Ok _) => content d' = Some (encode c)
  | (_, Err _) => True
  | (_, Panic _) => False
  end.
Proof.
  assert (forall d1, content d1 = Some EmptyString -> match Write (encode c) d1 with
    | (d', Ok _) => content d' = Some (encode c) | (_, Err _) => True | (_, Panic _) => False end) as Hw.
  { intros d1 Hd. pose proof (fs_no_panic d1 (encode c)) as (_ & _ & _ & _ & Hn). unfold gresult in Hn.
    destruct (Write (encode c) d1) as [d2 [[]| |]] eqn:Hx; [by eapply write_content|done|done]. }
  assert (forall d1, match (again ← Create; if (again : bool) then Write (encode c) else gthrow ErrNotExist) d1 with
    | (d', Ok _) => content d' = Some (encode c) | (_, Err _) => True | (_, Panic _) => False end) as Ha.
  { intros d1. res_simpl. pose proof (create_content d1) as Hc. pose proof (fs_no_panic d1 EmptyString) as (_ & Hn & _).
    unfold gresult in Hn. destruct (Create d1) as [d2 [[]| |]]; [by apply Hw|done..]. }
  unfold Save. revert Ha. res_simpl. intros Ha. pose proof (fs_no_panic d EmptyString) as (_ & Hn & _). unfold gresult in Hn.
  destruct (Create d) as [d1 [[]| |]]; [apply Ha| |done..].
  pose proof (fs_no_panic d1 EmptyString) as (_ & _ & Hm & _). unfold gresult in Hm.
  destruct (MkdirAll d1) as [d2 [[]| |]]; [apply Ha|done..].
Qed.

Lemma choose_port_spec m c d : machine_ok m ->
  match choose_port m (mkCfg c d) with
  | (s', Ok b) => exists p, s' = mkCfg (set_Port p c) d /\ 0 < p < 2 ^ 16 /\
      (if b then pick m = Ok p /\ (Port c = 0 \/ free m (Port c) = false) else (p = Port c /\ free m p = true))
  | (s', Err e) => pick m = Err e /\ (Port c = 0 \/ free m (Port c) = false)
  | (s', Panic w) => False
  end.
Proof.
  intros (Hf & Hp & Hn & _). unfold choose_port, edit, gget, gmodify, glift. res_simpl. destruct c as [t f k p i o l]. cbn.
  destruct (Z.eqb_spec p 0) as [->|Hz]; cbn [negb andb].
  { destruct (pick m) as [q| |]; [|naive_solver|done]. exists q. by auto. }
  destruct (free m p) eqn:Hx; cbn.
  - exists p. split_and!; [done| | |done|done]; specialize (Hf p Hx); lia.
  - destruct (pick m) as [q| |]; [|naive_solver|done]. exists q. by auto.
Qed.

Lemma choose_key_spec c d :
  match choose_key (mkCfg c d) with
  | (s', Ok b) => exists k, s' = mkCfg (set_DHKey k c) d /\ zlen (nPublic k) = DHLen /\
      (if b then GenerateKeypair = Ok k /\ zlen (nPublic (DHKey c)) <> DHLen else (k = DHKey c))
  | (s', Err e) => GenerateKeypair = Err e /\ zlen (nPublic (DHKey c)) <> DHLen
  | (s', Panic w) => False
  end.
Proof using HCk.
  unfold choose_key, edit, gget, gmodify, glift. res_simpl. destruct c as [t f k p i o l]. cbn.
  destruct (Z.eqb_spec (zlen (nPublic k)) DHLen) as [Hp|Hp]; [by exists k|].
  pose proof keypair_no_panic as Hn. destruct GenerateKeypair as [k'| |] eqn:Hg; [|done..].
  exists k'. by destruct (keypair_length _ Hg).
Qed.

Lemma choose_machine_spec m c d : machine_ok m ->
  exists id, choose_machine m (mkCfg c d) = (mkCfg (set_MachineID id c) d, Ok tt) /\
      (if String.eqb (MachineID c) "" then id = match machineid m with Ok x => x | _ => "" end else (id = MachineID c))%string.
Proof.
  intros (_ & _ & _ & Hn). unfold choose_machine, edit, gget, gmodify. res_simpl. destruct c as [t f k p i o l]. cbn.
  destruct (String.eqb i ""); [|by exists i]. destruct (machineid m) as [x| |]; [by exists x|by exists ""%string|done].
Qed.

Lemma gignore_save c d : exists d', gignore save (mkCfg c d) = (mkCfg c d', Ok tt).
Proof using HFk.
  unfold gignore, save. pose proof (Save_content c d) as Hs. cbn. destruct (Save c d) as [d' [| |]]; [eauto..|done].
Qed.

(** What the file gave, before anything is completed. *)
Definition decoded (text : option string) (c : Config) : Config :=
  match text with Some t => fst (decode t c) | None => c end.

(** [Load] as a whole: the configuration decoded, a port, a key and a machine
    identifier. *)
Lemma Load_spec m c d text : machine_ok m -> Open d = Ok text ->
  let r := decoded text c in
  match Load m (mkCfg c d) with
  | (s', Ok _) => exists p k id, cf_config s' = set_MachineID id (set_DHKey k (set_Port p r)) /\
      (0 < p < 2 ^ 16 /\ if decide (Port r <> 0 /\ free m (Port r) = true) then p = Port r else (pick m = Ok p)) /\
      (zlen (nPublic k) = DHLen /\ if decide (zlen (nPublic (DHKey r)) = DHLen) then k = DHKey r else (GenerateKeypair = Ok k)) /\
      (if String.eqb (MachineID r) "" then id = match machineid m with Ok x => x | _ => "" end else (id = MachineID r))%string /\
      (text = Some (encode r) -> decode (encode r) c = (r, None) -> Port r <> 0 -> free m (Port r) = true ->
       zlen (nPublic (DHKey r)) = DHLen -> cf_disk s' = d)
  | (_, Err e) => pick m = Err e /\ (Port r = 0 \/ free m (Port r) = false) \/
                  GenerateKeypair = Err e /\ zlen (nPublic (DHKey r)) <> DHLen
  | (_, Panic _) => False
  end.
Proof using HFk HCk.
  intros Hm Ho r. unfold Load, gget. res_simpl. unfold glift at 1. cbn [cf_disk]. rewrite Ho.
  assert (exists b, read text (mkCfg c d) = (mkCfg r d, Ok b) /\ forall t, text = Some t -> decode t c = (r, None) -> b = false) as (b1 & -> & Hb1).
  { unfold read, r, decoded. destruct text as [t|]; [|by exists true]. cbn. destruct (decode t c) as [c' e] eqn:Hd. cbn.
    eexists. split; [done|]. intros t' [= <-]. rewrite Hd. intros [= ->]. apply bool_decide_eq_false_2. by intros [? ?]. }
  clearbody r. pose proof (choose_port_spec m r d Hm) as Hp. destruct (choose_port m _) as [s2 [b2|e|w]]; [|by left|done].
  destruct Hp as (p & -> & Hp & Hb2).
  pose proof (choose_key_spec (set_Port p r) d) as Hk. destruct (choose_key _) as [s3 [b3|e|w]]; [|by right|done].
  destruct Hk as (k & -> & Hk & Hb3).
  destruct (choose_machine_spec m (set_DHKey k (set_Port p r)) d Hm) as (id & -> & Hid).
  assert (forall d', (b1 || b2 || b3 = false -> d' = d) -> exists p' k' id',
    set_MachineID id (set_DHKey k (set_Port p r)) = set_MachineID id' (set_DHKey k' (set_Port p' r)) /\
      (0 < p' < 2 ^ 16 /\ if decide (Port r <> 0 /\ free m (Port r) = true) then p' = Port r else (pick m = Ok p')) /\
      (zlen (nPublic k') = DHLen /\ if decide (zlen (nPublic (DHKey r)) = DHLen) then k' = DHKey r else (GenerateKeypair = Ok k')) /\
      (if String.eqb (MachineID r) "" then id' = match machineid m with Ok x => x | _ => "" end else (id' = MachineID r))%string /\
      (text = Some (encode r) -> decode (encode r) c = (r, None) -> Port r <> 0 -> free m (Port r) = true ->
       zlen (nPublic (DHKey r)) = DHLen -> d' = d)) as Hg.
  { intros d' Hd. exists p, k, id. split; [done|]. split_and!; [lia|lia| |done| |done|].
    - destruct b2; destruct Hb2 as [Hb2 Hf].
      + rewrite decide_False; [done|]. intros [? ?]. destruct Hf; congruence.
      + subst p. rewrite decide_True; [done|]. split; [lia|done].
    - cbn in Hb3. destruct b3; [|subst k; by rewrite decide_True]. destruct Hb3 as [? Hne]. by rewrite decide_False.
    - intros Ht Hd' Hz Hf Hl. apply Hd. rewrite (Hb1 _ Ht Hd'). destruct b2; [destruct Hb2 as [_ [?|?]]; congruence|].
      destruct b3; [|done]. by destruct Hb3. }
  destruct (b1 || b2 || b3); [|by apply Hg].
  destruct (gignore_save (set_MachineID id (set_DHKey k (set_Port p r))) d) as [d' ->]. by apply Hg.
Qed.
End Node.
End Facts.

(** ** Properties *)

Section Theorems.
Context `{HF : FileSystem} `{HFk : !FileSystemOk} `{HC : Curve} `{HCk : !CurveOk}.

(** C29 (type).  Whatever the file holds - nothing, damaged text or an old
    configuration - a load that reports no error leaves a configuration the
    node can run with: a UDP port that could be bound, and a public key of the
    right length; the tokens and settings that were decoded are kept.  It only
    fails when the machine has no port or no key to give. *)
Theorem load_yields_usable_config `{HJ : NodeCfg.Json} (m : NodeCfg.Machine) (c : NodeCfg.Config) (d : fs) (text : option string) :
  NodeCfg.machine_ok m -> Open d = Ok text ->
  match NodeCfg.Load m (NodeCfg.mkCfg c d) with
  | (s', Ok _) =>
    let c' := NodeCfg.cf_config s' in
    0 < NodeCfg.Port c' < 2 ^ 16 /\ (NodeCfg.free m (NodeCfg.Port c') = true \/ NodeCfg.pick m = Ok (NodeCfg.Port c')) /\
    zlen (nPublic (NodeCfg.DHKey c')) = DHLen /\
    NodeCfg.Token c' = NodeCfg.Token (decoded text c) /\ NodeCfg.FastKey c' = NodeCfg.FastKey (decoded text c) /\
    NodeCfg.OnceAlert c' = NodeCfg.OnceAlert (decoded text c) /\ NodeCfg.LocaleName c' = NodeCfg.LocaleName (decoded text c)
  | (_, Err e) => NodeCfg.pick m = Err e \/ GenerateKeypair = Err e
  | (_, Panic _) => False
  end.
Proof using HFk HCk.
  intros Hm Ho. pose proof (Load_spec m c d text Hm Ho) as Hl. destruct (NodeCfg.Load m _) as [s' [[]|e|w]]; [|naive_solver|done].
  destruct Hl as (p & k & id & Hc & [Hp Hp'] & [Hk _] & _). rewrite Hc. cbn. split_and!; try done; try lia.
  case_decide as Hd; [|by right]. left. subst p. apply Hd.
Qed.

(** C28 (roundtrip).  The configuration a node saved is the one its next start
    loads: the tokens, the key pair and the machine identifier always, and the
    port while it can be bound; in that case the file is left as it is. *)
Theorem saved_config_is_loaded `{HJ : NodeCfg.Json} `{HJk : !NodeCfg.JsonOk} (m : NodeCfg.Machine) (c c0 : NodeCfg.Config)
    (d d' : fs) (text : option string) :
  NodeCfg.machine_ok m -> NodeCfg.carried c -> zlen (nPublic (NodeCfg.DHKey c)) = DHLen -> NodeCfg.MachineID c <> EmptyString ->
  NodeCfg.Save c d = (d', Ok tt) -> Open d' = Ok text ->
  match NodeCfg.Load m (NodeCfg.mkCfg c0 d') with
  | (s', Ok _) =>
    NodeCfg.cf_config s' = NodeCfg.set_Port (NodeCfg.Port (NodeCfg.cf_config s')) c /\
    (NodeCfg.Port c <> 0 -> NodeCfg.free m (NodeCfg.Port c) = true -> s' = NodeCfg.mkCfg c d')
  | (_, Err e) => NodeCfg.pick m = Err e /\ (NodeCfg.Port c = 0 \/ NodeCfg.free m (NodeCfg.Port c) = false)
  | (_, Panic _) => False
  end.
Proof using HFk HCk.
  intros Hm Hc Hk Hid Hs Ho. pose proof (Save_content c d) as Ht. rewrite Hs in Ht.
  pose proof (open_content _ _ Ho) as Hx. rewrite Ht in Hx. subst text.
  pose proof (Load_spec m c0 d' _ Hm Ho) as Hl. cbn [decoded] in Hl. rewrite NodeCfg.decode_encode in Hl by done. cbn [fst] in Hl.
  destruct (NodeCfg.Load m _) as [s' [[]|e|w]]; [|naive_solver|done].
  destruct Hl as (p & k & id & Hc' & [_ Hp] & [_ Hk'] & Hi & Hd). rewrite decide_True in Hk' by done. subst k.
  destruct (String.eqb_spec (NodeCfg.MachineID c) ""); [done|]. subst id.
  assert (NodeCfg.cf_config s' = NodeCfg.set_Port p c) as He by (rewrite Hc'; by destruct c). clear Hc'.
  rewrite He. split; [done|]. intros Hz Hf. rewrite decide_True in Hp by done. subst p.
  destruct s' as [c' d1]. cbn in *. rewrite (Hd eq_refl (NodeCfg.decode_encode _ _ Hc) Hz Hf Hk), He. by destruct c.
Qed.

(** A relay server keeps its identity across restarts: once
    [FromPath] has succeeded, running it again gives the same key pair - also
    the one it generated and saved - without touching the file, and the same
    name, region and portal; fields of [omitempty] that were zero come back
    with their defaults. *)
Theorem relay_identity_survives_restart `{HY : RelayCfg.Yaml} `{HYk : !RelayCfg.YamlOk} (d d' : fs) (c : RelayCfg.Config)
    (text : option string) :
  RelayCfg.FromPath d = (d', Ok c) -> RelayCfg.carried c -> Open d' = Ok text ->
  exists c', RelayCfg.FromPath d' = (d', Ok c') /\ (c' = c \/ c' = RelayCfg.over c RelayCfg.New) /\
    RelayCfg.DHKey c' = RelayCfg.DHKey c /\ is_Some (RelayCfg.DHKey c') /\ RelayCfg.Name c' = RelayCfg.Name c.
Proof using HFk HCk.
  unfold RelayCfg.FromPath at 1, gget. res_simpl. intros Hf Hc Ho. unfold glift in Hf at 1.
  destruct (Open d) as [[s|]| |] eqn:Hod; [|done..]. unfold glift in Hf at 1.
  destruct (RelayCfg.FromBytes s) as [cfg| |] eqn:Hy; [|done..].
  destruct (RelayCfg.keyless cfg) eqn:Hk.
  - unfold glift in Hf at 1. destruct GenerateKeypair as [key| |]; [|done..].
    pose proof (truncate_content d) as Ht. destruct (Truncate d) as [d1 [| |]]; [|done..]. unfold glift in Hf at 1.
    destruct (RelayCfg.encode _) as [t| |] eqn:He; [|done..].
    destruct (Write t d1) as [d2 [[]| |]] eqn:Hw; [|done..]. simplify_eq.
    pose proof (write_content _ _ _ Ht Hw) as Hx. pose proof (open_content _ _ Ho) as Hx'. rewrite Hx in Hx'. subst text.
    unfold RelayCfg.FromPath, gget. res_simpl. unfold glift. rewrite Ho. unfold RelayCfg.FromBytes.
    rewrite (RelayCfg.decode_encode _ RelayCfg.New t Hc He). eexists. split; [done|]. by eauto.
  - simplify_eq. unfold RelayCfg.FromPath, gget. res_simpl. unfold glift. rewrite Hod, Hy, Hk. eexists. split; [done|].
    split_and!; [by left|done| |done]. unfold RelayCfg.keyless in Hk. destruct (RelayCfg.DHKey c); [by eexists|done].
Qed.
End Theorems.

(** ** Instances and examples *)

Module ToyFiles.
#[local] Instance byte_countable : Countable Byte.byte.
Proof. apply (inj_countable' byte.unsigned byte.of_Z). intros b. apply byte.of_Z_unsigned. Defined.
#[local] Instance noise_key_eq_dec : EqDecision NoiseDHKey.
Proof. solve_decision. Defined.
#[local] Instance noise_key_countable : Countable NoiseDHKey.
Proof. apply (inj_countable' (fun k => (nPrivate k, nPublic k)) (fun p => mkNoiseDHKey p.1 p.2)). by intros []. Defined.
#[local] Instance node_eq_dec : EqDecision NodeCfg.Config.
Proof. solve_decision. Defined.
#[local] Instance node_countable : Countable NodeCfg.Config.
Proof.
  apply (inj_countable'
    (fun c : NodeCfg.Config => (NodeCfg.Token c, NodeCfg.FastKey c, NodeCfg.DHKey c, NodeCfg.Port c, NodeCfg.MachineID c,
                                NodeCfg.OnceAlert c, NodeCfg.LocaleName c))
    (fun '(t, f, k, p, i, o, l) => NodeCfg.mkConfig t f k p i o l)). by intros [].
Defined.

(** One file; a full disk lets it be emptied but not written. *)
Definition files (full : bool) : FileSystem := {|
  fs := option string;
  Open := fun f => Ok f;
  Create := fun _ => (Some EmptyString, Ok true);
  MkdirAll := fun f => (f, Ok tt);
  Truncate := fun _ => (Some EmptyString, Ok tt);
  Write := fun s f => if full then (f, Err (EExt "no space left on device")) else (Some s, Ok tt) |}.
#[export] Instance files_ok full : @FileSystemOk (files full).
Proof. refine (Build_FileSystemOk (files full) (fun f : option string => f) _ _ _ _ _ _); by destruct full; cbn; intros; simplify_eq. Defined.

Definition key : NoiseDHKey := mkNoiseDHKey (replicate 32 Byte.x01) (replicate 32 Byte.x02).
#[export] Instance curve : Curve := {| GenerateKeypair := Ok key |}.
#[export] Instance curve_ok : CurveOk.
Proof. split; cbn; [|done]. by intros k [= <-]. Qed.

#[export] Instance json : NodeCfg.Json := {|
  NodeCfg.encode := fun c => ToyJwt.bits (encode c);
  NodeCfg.decode := fun s c0 => match ToyJwt.unbits s ≫= decode (A := NodeCfg.Config) with
    | Some c => (c, None) | None => (c0, Some (EExt "unexpected end of JSON input")) end |}.
#[export] Instance json_ok : NodeCfg.JsonOk.
Proof.
  split; cbn.
  - intros c c0 _. rewrite ToyJwt.unbits_bits. cbn. by rewrite decode_encode.
  - eauto.
Qed.

#[local] Instance keybytes_countable : Countable DHKeyBytes.
Proof. apply (inj_countable' key_bytes mkDHKeyBytes). by intros []. Defined.
#[local] Instance relay_key_eq_dec : EqDecision Credential.DHKey.
Proof. solve_decision. Defined.
#[local] Instance relay_key_countable : Countable Credential.DHKey.
Proof. apply (inj_countable' (fun k => (Public k, Private k)) (fun p => mkDHKey p.1 p.2)). by intros []. Defined.
#[local] Instance portal_eq_dec : EqDecision RelayCfg.Portal.
Proof. solve_decision. Defined.
#[local] Instance portal_countable : Countable RelayCfg.Portal.
Proof.
  apply (inj_countable' (fun p => (RelayCfg.Key p, RelayCfg.URL p, RelayCfg.KeepaliveInterval p, RelayCfg.SyncInterval p))
    (fun '(k, u, i, s) => RelayCfg.mkPortal k u i s)). by intros [].
Defined.
#[local] Instance relay_eq_dec : EqDecision RelayCfg.Config.
Proof. solve_decision. Defined.
#[local] Instance relay_countable : Countable RelayCfg.Config.
Proof.
  apply (inj_countable'
    (fun c : RelayCfg.Config => (RelayCfg.Name c, RelayCfg.Region c, RelayCfg.Host c, RelayCfg.Port c, RelayCfg.STUNPort c,
                                 RelayCfg.DHKey c, RelayCfg.portal c))
    (fun '(n, r, h, p, st, k, po) => RelayCfg.mkConfig n r h p st k po)). by intros [].
Defined.
(** The text holds every field; zero ones are not used. *)
#[export] Instance yaml : RelayCfg.Yaml := {|
  RelayCfg.encode := fun c => Ok (ToyJwt.bits (encode c));
  RelayCfg.decode := fun s d => match ToyJwt.unbits s ≫= decode (A := RelayCfg.Config) with
    | Some c => Ok (RelayCfg.over c d) | None => Err (EExt "yaml: EOF") end |}.
#[export] Instance yaml_ok : RelayCfg.YamlOk.
Proof. split. intros c d s _ [= <-]. cbn. rewrite ToyJwt.unbits_bits. cbn. by rewrite decode_encode. Qed.
Definition machine : NodeCfg.Machine := NodeCfg.mkMachine (fun p => (0 <? p) && (p <? 2 ^ 16)) (Ok 40000) (Ok "m1"%string).
Lemma machine_fine : NodeCfg.machine_ok machine.
Proof. split_and!; cbn; [lia|intros p [= <-]; lia|done..]. Qed.
End ToyFiles.

Module ConfigExample.
#[local] Existing Instance ToyFiles.curve.
#[local] Existing Instance ToyFiles.curve_ok.
#[local] Existing Instance ToyFiles.json.
#[local] Existing Instance ToyFiles.json_ok.
#[local] Instance files : FileSystem := ToyFiles.files false.
#[local] Instance files_ok : FileSystemOk := ToyFiles.files_ok false.

Definition blank : fs := None.

(** The first start of a node. *)
Lemma load_yields_usable_config_witness :
  match NodeCfg.Load ToyFiles.machine (NodeCfg.mkCfg NodeCfg.empty blank) with
  | (s', Ok _) => 0 < NodeCfg.Port (NodeCfg.cf_config s') < 2 ^ 16 /\ zlen (nPublic (NodeCfg.DHKey (NodeCfg.cf_config s'))) = DHLen
  | _ => False
  end.
Proof.
  pose proof (load_yields_usable_config ToyFiles.machine NodeCfg.empty blank None ToyFiles.machine_fine eq_refl) as H.
  revert H. assert (is_ok (snd (NodeCfg.Load ToyFiles.machine (NodeCfg.mkCfg NodeCfg.empty blank))) = true) as Hok
    by (vm_compute; reflexivity). revert Hok.
  destruct (NodeCfg.Load ToyFiles.machine (NodeCfg.mkCfg NodeCfg.empty blank)) as [s' [u|e|w]]; intros Hok H; [|discriminate..].
  split; apply H.
Defined.

Definition config : NodeCfg.Config := NodeCfg.mkConfig "Bearer x" "fast" ToyFiles.key 41000 "m1" true "en_US".
Definition saved : fs := gstate (NodeCfg.Save config) blank.
Lemma config_saved : NodeCfg.Save config blank = (saved, Ok tt).
Proof. vm_compute. reflexivity. Qed.
Lemma config_carried : NodeCfg.carried config.
Proof. split_and!; vm_compute; done. Qed.
Lemma saved_opened : Open saved = Ok saved.
Proof. done. Qed.
Lemma saved_config_is_loaded_witness : exists s',
  NodeCfg.Load ToyFiles.machine (NodeCfg.mkCfg NodeCfg.empty saved) = (s', Ok tt) /\ s' = NodeCfg.mkCfg config saved.
Proof.
  pose proof (saved_config_is_loaded ToyFiles.machine config NodeCfg.empty blank saved saved ToyFiles.machine_fine
    config_carried eq_refl ltac:(discriminate) config_saved saved_opened) as H.
  revert H. destruct (NodeCfg.Load ToyFiles.machine _) as [s' [[]|e|w]]; intros H; [|destruct H as [H _]; discriminate|destruct H].
  exists s'. split; [reflexivity|]. apply H; [discriminate|reflexivity].
Defined.

(** A disk that fills up while the configuration is saved: the next start has
    a new identity. *)
Example full_disk_loses_identity :
  let d : fs := gstate (@NodeCfg.Save (ToyFiles.files true) _ (NodeCfg.set_DHKey (mkNoiseDHKey [] (replicate 32 Byte.x07)) config)) saved in
  d = Some EmptyString /\
  NodeCfg.DHKey (NodeCfg.cf_config (gstate (NodeCfg.Load ToyFiles.machine) (NodeCfg.mkCfg NodeCfg.empty d))) = ToyFiles.key.
Proof. by vm_compute. Qed.

(** A relay server whose file asks for any free port. *)
#[local] Existing Instance ToyFiles.yaml.
#[local] Existing Instance ToyFiles.yaml_ok.
Definition relay_text (k : option Credential.DHKey) : string :=
  default EmptyString match RelayCfg.encode (RelayCfg.mkConfig "1b" "eu" "h" 2329 3478 k (RelayCfg.portal RelayCfg.New)) with
  | Ok s => Some s | _ => None end.
Definition relay_disk : fs := Some (relay_text None).
Definition relay_started : fs := gstate RelayCfg.FromPath relay_disk.
Definition relay_config : RelayCfg.Config :=
  match gresult RelayCfg.FromPath relay_disk with Ok c => c | _ => RelayCfg.New end.
Lemma relay_first_start : RelayCfg.FromPath relay_disk = (relay_started, Ok relay_config).
Proof. vm_compute. reflexivity. Qed.
Lemma relay_carried : RelayCfg.carried relay_config.
Proof. vm_compute. split_and!; try done. by intros k [= <-]. Qed.
Lemma relay_opened : Open relay_started = Ok relay_started.
Proof. done. Qed.
Lemma relay_identity_survives_restart_witness : exists c',
  RelayCfg.FromPath relay_started = (relay_started, Ok c') /\ RelayCfg.DHKey c' = RelayCfg.DHKey relay_config.
Proof.
  destruct (relay_identity_survives_restart relay_disk relay_started relay_config relay_started
    relay_first_start relay_carried relay_opened) as (c' & H1 & _ & H2 & _).
  exists c'. split; [exact H1|exact H2].
Defined.

(** A key of zeros has the length of a key. *)
Definition zero_key : Credential.DHKey := mkDHKey DHKeyBytes_zero DHKeyBytes_zero.
Example zero_key_is_kept :
  let c := gresult RelayCfg.FromPath (Some (relay_text (Some zero_key)) : fs) in
  match c with Ok c => RelayCfg.DHKey c = Some zero_key | _ => False end.
Proof. by vm_compute. Qed.

(** Port zero is any free port until the key is saved, 2328 afterwards. *)
Example zero_port_is_lost :
  let c := RelayCfg.mkConfig "1b" "eu" "h" 0 3478 None None in
  RelayCfg.Port (RelayCfg.over c RelayCfg.New) = 2328.
Proof. done. Qed.
End ConfigExample.
