(* ===== verification/Entry.v ===== *)
(** The node's entries: the command line of [node/entry/entry_cli.go], the
    application of [node/entry/entry_gui.go] and the translations of
    [i18n/i18n.go].  The application is the configuration on disk, the portal
    client and the driver, with the contexts its goroutines run under. *)
From Stdlib Require Import Ascii.
From S2P Require Import Prelude GoText ApiClient Config.
From S2P Require Import Noise Credential Wire Tunnel Router MeshManager Driver.
#[local] Set Warnings "-clear-no-such-hyp".

(** ** Translations ([i18n.go]) *)

Module I18n.
Record Locale := mkLocale { name : string; data : gmap string string }.
Record State := mkState { localesData : gmap string Locale; currentLocale : option Locale }.

(** One embedded file: its name and what flattening its YAML gives; a value
    that is no text is [None]. *)
Fixpoint texts (l : list (string * option string)) (c : gmap string string) : result (gmap string string) :=
  match l with
  | [] => Ok c
  | (k, None) :: _ => Err (EMsg ("invalid value of key " ++ k)%string)
  | (k, Some v) :: l => texts l (<[k := v]> c)
  end.
Definition load_locale (st : State) (f : string * result (list (string * option string))) : result State :=
  r ← f.2;
  c ← texts r ∅;
  let n := TrimSuffix f.1 ".yaml" in
  Ok (mkState (<[n := mkLocale n c]> (localesData st)) (currentLocale st)).
Fixpoint loadLocales (files : list (string * result (list (string * option string)))) (st : State) : result State :=
  match files with [] => Ok st | f :: files => st' ← load_locale st f; loadLocales files st' end.

Definition SetLocale (n : string) : GoM State unit := fun st =>
  match localesData st !! n with
  | None => (st, Err (EMsg ("locale configuration file " ++ n ++ " not found")%string))
  | Some l => (mkState (localesData st) (Some l), Ok tt)
  end.
(** [init]: an error is a panic. *)
Definition defaultLocale : string := "en_US".
Definition init (files : list (string * result (list (string * option string)))) : result State :=
  match loadLocales files (mkState ∅ None) with
  | Err _ => Panic "load locales"
  | Panic w => Panic w
  | Ok st => match SetLocale defaultLocale st with (st', Ok _) => Ok st' | _ => Panic "default locale" end
  end.

(** The locales come in the order of a map, [order]. *)
Definition Locales (order : list string) (st : State) : list string :=
  omap (fun n => name <$> localesData st !! n) order.
Definition GetLocaleDesc (st : State) (n : string) : string :=
  match localesData st !! n with None => EmptyString | Some l => default EmptyString (data l !! "desc"%string) end.
Definition nil_deref : string := "invalid memory address or nil pointer dereference".
Definition GetCurrentLocaleName (st : State) : result string :=
  match currentLocale st with Some l => Ok (name l) | None => Panic nil_deref end.
(** [L] with its arguments given to [sprintf]. *)
Definition L (sprintf : string -> string) (st : State) (key : string) : result string :=
  match currentLocale st with
  | None => Panic nil_deref
  | Some l =>
    match data l !! key with
    | None => Ok (name l ++ ":NOT_DEFINE(" ++ key ++ ")")%string
    | Some v => Ok (sprintf v)
    end
  end.
End I18n.

(** ** The gateway ([precheck]) *)

(** [parse] is [url.Parse]: the scheme and the path. *)
Definition check_gateway (parse : string -> result (string * string)) (gateway : string) : result unit :=
  '(scheme, path) ← parse gateway;
  if negb (String.eqb scheme "http") && negb (String.eqb scheme "https") then Err (EMsg ("unknown gateway scheme " ++ scheme)%string)
  else if negb (String.eqb path "") then Err (EMsg ("incorrect gateway address " ++ gateway)%string)
  else Ok tt.
Definition precheck (parse : string -> result (string * string)) (lookup : string -> option string) : result unit :=
  check_gateway parse (NodeCfg.APIGateway lookup).

(** ** The driver, as the application sees it *)

(** The contexts are numbered in the order [context.WithCancel] makes them. *)
Abbreviation Context := nat.
(** The flags of [NodeDriver], whether its managers were built, and the
    context its goroutines run under. *)
Record Handle := mkHandle { h_running : bool; h_termed : bool; h_enable : bool; h_ready : bool; h_ctx : option Context }.
Definition driver_New : Handle := mkHandle false false true false None.
Definition driver_Preflight (res : result unit) (h : Handle) : Handle :=
  mkHandle (h_running h) (h_termed h) (h_enable h) (h_ready h || is_ok res) (h_ctx h).
Definition driver_Drive (ctx : Context) (h : Handle) : Handle :=
  if h_running h then h else mkHandle true (h_termed h) (h_enable h) (h_ready h) (Some ctx).
Definition driver_set_enable (b : bool) (h : Handle) : Handle :=
  mkHandle (h_running h) (h_termed h) b (h_ready h) (h_ctx h).
Definition driver_stopped (h : Handle) : Handle := mkHandle (h_running h) true (h_enable h) (h_ready h) (h_ctx h).

(** The handle of a driver of [Driver.v], which exists once it is ready. *)
Section Handles.
Context {IP : Type} {R : Type} {RM : Type}.
Definition handle_of (ctx : option Context) (d : @NodeDriver IP R RM) : Handle :=
  mkHandle (d_running d) (d_termed d) (d_enable d) true ctx.
End Handles.

(** ** The application ([baseApp]) *)

Section App.
Context `{HF : FileSystem} `{HC : Curve} `{HJ : NodeCfg.Json}.

(** [ap_cancel] is the context [app.cancel] cancels, [ap_done] the cancelled
    ones, [ap_next] the number of contexts made; [ap_closed] and [ap_down] are
    the device's; [ap_refresh] counts the refreshes asked for. *)
Record App := mkApp {
  ap_cfg : NodeCfg.Cfg; ap_api : Client; ap_driver : Handle; ap_cancel : option Context; ap_done : list Context;
  ap_next : Context; ap_closed : bool; ap_down : bool; ap_auto : bool; ap_refresh : nat; ap_disposed : bool }.
Abbreviation A := (GoM App).

Definition set_cfg (c : NodeCfg.Cfg) (a : App) : App :=
  mkApp c (ap_api a) (ap_driver a) (ap_cancel a) (ap_done a) (ap_next a) (ap_closed a) (ap_down a) (ap_auto a) (ap_refresh a) (ap_disposed a).
Definition set_api (c : Client) (a : App) : App :=
  mkApp (ap_cfg a) c (ap_driver a) (ap_cancel a) (ap_done a) (ap_next a) (ap_closed a) (ap_down a) (ap_auto a) (ap_refresh a) (ap_disposed a).
Definition set_driver (h : Handle) (a : App) : App :=
  mkApp (ap_cfg a) (ap_api a) h (ap_cancel a) (ap_done a) (ap_next a) (ap_closed a) (ap_down a) (ap_auto a) (ap_refresh a) (ap_disposed a).
Definition set_contexts (c : option Context) (d : list Context) (n : Context) (a : App) : App :=
  mkApp (ap_cfg a) (ap_api a) (ap_driver a) c d n (ap_closed a) (ap_down a) (ap_auto a) (ap_refresh a) (ap_disposed a).
Definition set_machine_state (closed down auto disposed : bool) (a : App) : App :=
  mkApp (ap_cfg a) (ap_api a) (ap_driver a) (ap_cancel a) (ap_done a) (ap_next a) closed down auto (ap_refresh a) disposed.

Definition refreshEvent : A unit := gmodify (fun a =>
  mkApp (ap_cfg a) (ap_api a) (ap_driver a) (ap_cancel a) (ap_done a) (ap_next a) (ap_closed a) (ap_down a) (ap_auto a)
    (S (ap_refresh a)) (ap_disposed a)).
Definition WithCancel : A Context := fun a =>
  (set_contexts (ap_cancel a) (ap_done a) (S (ap_next a)) a, Ok (ap_next a)).
Definition on_driver (f : Handle -> Handle) : A unit := gmodify (fun a => set_driver (f (ap_driver a)) a).
Definition on_config {T} (m : GoM NodeCfg.Cfg T) : A T := fun a =>
  match m (ap_cfg a) with (c, r) => (set_cfg c a, r) end.

(** [app.cancel()]. *)
Definition cancel : A unit := fun a =>
  match ap_cancel a with
  | None => (a, Panic I18n.nil_deref)
  | Some c => (set_contexts (ap_cancel a) (c :: ap_done a) (ap_next a) a, Ok tt)
  end.
(** [Terminate]: it waits for the goroutines, which end when their context is
    cancelled; the one that reads the device ends after its read, [packet]
    saying that another one comes. *)
Definition wait_forever : string := "all goroutines are asleep - deadlock!".
Definition Terminate_ (packet : bool) : A unit := fun a =>
  let h := ap_driver a in
  if negb (h_running h) || h_termed h then (a, Ok tt)
  else
    let a' := set_driver (driver_stopped h) a in
    let cancelled := match h_ctx h with Some c => bool_decide (c ∈ ap_done a) | None => false end in
    if cancelled && (ap_closed a || packet) then (a', Ok tt) else (a', Panic wait_forever).

(** [Run] of the application; [device] and [preflight] are the outcomes of
    [NewDevice] and [Preflight]. *)
Definition app_Run (device preflight : result unit) : A unit :=
  _ ← match device with
      | Err e => gthrow (EWrap "preflight device failed. error message: " e)
      | _ => glift device
      end;
  a ← gget;
  ctx ← WithCancel;
  d ← (if NodeCfg.IsGuest (NodeCfg.cf_config (ap_cfg a)) then mret driver_New
       else match preflight with
       | Panic w => gpanic w
       | Err _ =>
         _ ← on_config (NodeCfg.edit (NodeCfg.set_Token ""));
         _ ← gignore (on_config NodeCfg.save);
         mret driver_New
       | Ok _ => mret (driver_Drive ctx (driver_Preflight preflight driver_New))
       end);
  gmodify (fun a => set_driver d (set_contexts (Some ctx) (ap_done a) (ap_next a) a)).

(** [onQuit]: closing and lowering the device is only logged when it fails. *)
Definition onQuit (closed down : result unit) (packet : bool) : A unit :=
  a ← gget;
  _ ← (if bool_decide (is_Some (ap_cancel a)) then cancel else mret tt);
  _ ← gmodify (fun a => set_machine_state (ap_closed a || is_ok closed) (ap_down a || is_ok down) (ap_auto a) (ap_disposed a) a);
  _ ← Terminate_ packet;
  gmodify (fun a => set_machine_state (ap_closed a) (ap_down a) (ap_auto a) true a).

(** The address of [onOpenLoginWeb]; [info] is the node's information. *)
Definition login_address (lookup : string -> option string) (info : string) : string :=
  (NodeCfg.MyGateway lookup ++ "/login?client=" ++ info)%string.

Definition onAutoStart (switched : result unit) : A unit :=
  match switched with
  | Err _ => mret tt
  | Panic w => gpanic w
  | Ok _ =>
    _ ← gmodify (fun a => set_machine_state (ap_closed a) (ap_down a) (negb (ap_auto a)) (ap_disposed a) a);
    refreshEvent
  end.
Definition switchDriverEnable (currentEnabled : bool) : A unit :=
  _ ← on_driver (driver_set_enable (negb currentEnabled)); refreshEvent.

(** [onLogout]: the copy that is saved is not the application's. *)
Definition onLogout (packet : bool) : A unit :=
  a ← gget;
  let cloned := NodeCfg.set_Token "" (NodeCfg.Clone (NodeCfg.cf_config (ap_cfg a))) in
  match NodeCfg.Save cloned (NodeCfg.cf_disk (ap_cfg a)) with
  | (d, Err _) => gmodify (set_cfg (NodeCfg.mkCfg (NodeCfg.cf_config (ap_cfg a)) d))
  | (d, Panic w) => gpanic w
  | (d, Ok _) =>
    _ ← gmodify (set_cfg (NodeCfg.mkCfg (NodeCfg.set_Token "" (NodeCfg.cf_config (ap_cfg a))) d));
    _ ← cancel;
    _ ← Terminate_ packet;
    _ ← on_driver (fun _ => driver_New);
    refreshEvent
  end.

(** [onLoginCallback]: whether the answer is the redirection. *)
Definition onLoginCallback (token : string) (preflight : result unit) : A bool :=
  _ ← gignore (on_config (NodeCfg.SetJWTToken token));
  _ ← gmodify (fun a => set_api (SetToken (NodeCfg.Token (NodeCfg.cf_config (ap_cfg a))) (ap_api a)) a);
  _ ← on_driver (driver_Preflight preflight);
  match preflight with
  | Panic w => gpanic w
  | Err _ => mret false
  | Ok _ =>
    ctx ← WithCancel;
    _ ← gmodify (fun a => set_contexts (Some ctx) (ap_done a) (ap_next a) a);
    _ ← on_driver (driver_Drive ctx);
    _ ← refreshEvent;
    mret true
  end.
End App.

(** ** Starting ([Run] of the two entries) *)

Section Start.
Context `{HF : FileSystem} `{HC : Curve} `{HJ : NodeCfg.Json}.

(** The command line up to the wait for a signal: the client and the driver,
    which runs under the context 0.  [exchange], [preflight] are the portal's
    answers to a client. *)
Definition cli_Run (m : NodeCfg.Machine) (authKey apiEndpoint : string) (lookup : string -> option string)
    (parse : string -> result (string * string)) (exchange : Client -> result (string * string)) (device : result unit)
    (preflight : Client -> result unit) : GoM NodeCfg.Cfg (Client * Handle) :=
  _ ← NodeCfg.Load m;
  _ ← (if String.eqb authKey "" then mret tt
       else NodeCfg.edit (NodeCfg.set_Token (PrefixAuthKey ++ " " ++ authKey)%string));
  s ← gget;
  let cfg := NodeCfg.cf_config s in
  if NodeCfg.IsGuest cfg then gthrow (EMsg "please use `-k <AUTH_KEY>` to specify the pre-authentication key")
  else
    let gateway := if String.eqb apiEndpoint "" then NodeCfg.APIGateway lookup else apiEndpoint in
    _ ← glift (check_gateway parse gateway);
    let apiClient := NewClient gateway (NodeCfg.Token cfg) (NodeCfg.MachineID cfg) in
    apiClient ← gwrap "exchange key failed" (NodeCfg.exchangeAuthKeyIfNeed (exchange apiClient) apiClient);
    _ ← glift device;
    _ ← glift (preflight apiClient);
    mret (apiClient, driver_Drive 0 (driver_Preflight (Ok tt) driver_New)).

(** The locale asked for: the configured one, or the system's with
    underscores. *)
Fixpoint underscores (s : string) : string :=
  match s with
  | EmptyString => EmptyString
  | String c s' => String (if Ascii.eqb c "-"%char then "_"%char else c) (underscores s')
  end.
Definition locale_name (configured : string) (detected : result string) : string :=
  if String.eqb configured "" then match detected with Ok tag => underscores tag | _ => EmptyString end else configured.

(** The application made from the configuration and the client, and run. *)
Definition start_app (device preflight : result unit) (apiClient : Client) : GoM NodeCfg.Cfg App := fun s =>
  match app_Run device preflight (mkApp s apiClient driver_New None [] O false false false O false) with
  | (a, Ok _) => (ap_cfg a, Ok a)
  | (a, Err e) => (ap_cfg a, Err (EWrap "Run application failed" e))
  | (a, Panic w) => (ap_cfg a, Panic w)
  end.

(** The desktop application up to its event loop; every failure ends the
    process with a message. *)
Definition gui_Run (m : NodeCfg.Machine) (lookup : string -> option string) (parse : string -> result (string * string))
    (listener : result unit) (exchange : Client -> result (string * string)) (device : result unit)
    (preflight : Client -> result unit) : GoM NodeCfg.Cfg App :=
  _ ← gwrap "Precheck failed" (glift (precheck parse lookup));
  _ ← gwrap "Load configuration failed" (NodeCfg.Load m);
  _ ← gwrap "Listen HTTP failed" (glift listener);
  s ← gget;
  let cfg := NodeCfg.cf_config s in
  let apiClient := NewClient (NodeCfg.APIGateway lookup) (NodeCfg.Token cfg) (NodeCfg.MachineID cfg) in
  apiClient ← gwrap "Exchange auth key failed" (NodeCfg.exchangeAuthKeyIfNeed (exchange apiClient) apiClient);
  start_app device (preflight apiClient) apiClient.
End Start.

(** ** Lemmas *)

Section Handles_facts.
Context {IP : Type} `{HIP : Countable IP} `{HNet : !NetAddr IP} `{HScan : !NetAddrScan IP}
  {R : Type} `{HRt : !Router IP R} `{HKx : !MeshManager.KeyExchange} {RM : Type} `{HOps : !RelayOps RM}.

(** The operations of the driver act on its handle as the application
    assumes. *)
Lemma handle_Drive ctx c (d : @NodeDriver IP R RM) :
  handle_of (if d_running d then c else Some ctx) (gstate Drive d) = driver_Drive ctx (handle_of c d).
Proof. unfold Drive, driver_Drive, gstate, handle_of. destruct d as [? ? ? ? [] ? ? ? ? ? ? ? ? ? ? ?]; done. Qed.
Lemma handle_Enable c (d : @NodeDriver IP R RM) :
  handle_of c (gstate Enable d) = driver_set_enable true (handle_of c d).
Proof. by destruct d. Qed.
Lemma handle_Disable c (d : @NodeDriver IP R RM) :
  handle_of c (gstate Disable d) = driver_set_enable false (handle_of c d).
Proof. by destruct d. Qed.
Lemma handle_Terminate c (d : @NodeDriver IP R RM) :
  handle_of c (gstate Terminate d) =
    if negb (h_running (handle_of c d)) || h_termed (handle_of c d) then handle_of c d else driver_stopped (handle_of c d).
Proof. by destruct d as [? ? ? ? [] [] ? ? ? ? ? ? ? ? ? ?]. Qed.
End Handles_facts.

Section Facts.
Context `{HF : FileSystem} `{HFk : !FileSystemOk} `{HJ : NodeCfg.Json}.

(** What holds between the steps of an application with one session at a
    time: a driver that runs is ready, has not been terminated, and runs under
    the context [app.cancel] cancels. *)
Record app_ok (a : App) : Prop := {
  ok_cancel : is_Some (ap_cancel a);
  ok_fresh : forall c, ap_cancel a = Some c \/ c ∈ ap_done a -> (c < ap_next a)%nat;
  ok_termed : h_termed (ap_driver a) = false;
  ok_running : h_running (ap_driver a) = true ->
    h_ready (ap_driver a) = true /\ h_ctx (ap_driver a) = ap_cancel a /\ forall c, ap_cancel a = Some c -> c ∉ ap_done a }.

(** The steps of such an application: a login callback only comes when the
    driver does not run. *)
Inductive app_step : App -> App -> Prop :=
| as_logout a p b : onLogout p a = (b, Ok tt) -> app_step a b
| as_login a t res : h_running (ap_driver a) = false -> app_step a (gstate (onLoginCallback t res) a)
| as_enable a b : app_step a (gstate (switchDriverEnable b) a)
| as_auto a res : app_step a (gstate (onAutoStart res) a).

(** Saving acts on the disk alone. *)
Lemma on_config_save (a : App) : exists d,
  gignore (on_config NodeCfg.save) a = (set_cfg (NodeCfg.mkCfg (NodeCfg.cf_config (ap_cfg a)) d) a, Ok tt).
Proof using HFk.
  unfold gignore, on_config, NodeCfg.save. pose proof (Save_content (NodeCfg.cf_config (ap_cfg a)) (NodeCfg.cf_disk (ap_cfg a))) as H.
  destruct (NodeCfg.Save _ _) as [d [[]| |]]; [by exists d..|done].
Qed.
Lemma on_config_jwt (a : App) t : exists d,
  gignore (on_config (NodeCfg.SetJWTToken t)) a =
  (set_cfg (NodeCfg.mkCfg (NodeCfg.set_Token (PrefixJwtToken ++ " " ++ t)%string (NodeCfg.cf_config (ap_cfg a))) d) a, Ok tt).
Proof using HFk.
  unfold gignore, on_config, NodeCfg.SetJWTToken, NodeCfg.edit, gmodify, NodeCfg.save. res_simpl. cbn [NodeCfg.cf_config NodeCfg.cf_disk].
  pose proof (Save_content (NodeCfg.set_Token (PrefixJwtToken ++ " " ++ t)%string (NodeCfg.cf_config (ap_cfg a))) (NodeCfg.cf_disk (ap_cfg a))) as H.
  destruct (NodeCfg.Save _ _) as [d [[]| |]]; [by exists d..|done].
Qed.

Lemma app_ok_Run dev pre s c : app_ok (gstate (app_Run dev pre) (mkApp s c driver_New None [] O false false false O false)) \/
  is_ok (gresult (app_Run dev pre) (mkApp s c driver_New None [] O false false false O false)) = false.
Proof using HFk.
  unfold gstate, gresult. set (a := mkApp _ _ _ _ _ _ _ _ _ _ _). unfold app_Run. res_simpl.
  destruct dev as [[]|e|w]; [|by right..]. unfold glift, gget, WithCancel. cbn [ap_cfg a].
  destruct (NodeCfg.IsGuest _).
  { left. split; cbn; [by eexists| |done|done]. intros x [[= <-]|Hx]; [lia|by apply elem_of_nil in Hx]. }
  destruct pre as [[]|e|w]; [| |by right].
  - left. split; cbn; [by eexists| |done|]; [intros x [[= <-]|Hx]; [lia|by apply elem_of_nil in Hx]|].
    intros _. split_and!; [done|done|]. intros x _. apply not_elem_of_nil.
  - left. unfold on_config at 1, NodeCfg.edit, gmodify. cbn.
    match goal with |- context [gignore (on_config NodeCfg.save) ?b] => destruct (on_config_save b) as [d ->] end.
    split; cbn; [by eexists| |done|done]. intros x [[= <-]|Hx]; [lia|by apply elem_of_nil in Hx].
Qed.

(** The callback of a good login. *)
Lemma onLoginCallback_ok (a : App) t : exists d,
  let cfg := NodeCfg.set_Token (PrefixJwtToken ++ " " ++ t)%string (NodeCfg.cf_config (ap_cfg a)) in
  onLoginCallback t (Ok tt) a =
  (mkApp (NodeCfg.mkCfg cfg d) (SetToken (NodeCfg.Token cfg) (ap_api a))
     (driver_Drive (ap_next a) (driver_Preflight (Ok tt) (ap_driver a))) (Some (ap_next a)) (ap_done a) (S (ap_next a))
     (ap_closed a) (ap_down a) (ap_auto a) (S (ap_refresh a)) (ap_disposed a), Ok true).
Proof using HFk.
  destruct (on_config_jwt a t) as [d Hd]. exists d. unfold onLoginCallback. cbv [mbind gom_bind]. by rewrite Hd.
Qed.

Lemma app_ok_login a t res : app_ok a -> h_running (ap_driver a) = false -> app_ok (gstate (onLoginCallback t res) a).
Proof using HFk.
  intros [Hc Hf Ht Hr] Hn. unfold gstate. destruct res as [[]|e|w].
  - destruct (onLoginCallback_ok a t) as [d ->]. split; cbn; [by eexists| | |].
    + intros x [[= <-]|Hx]; [lia|]. pose proof (Hf x (or_intror Hx)). lia.
    + unfold driver_Drive, driver_Preflight. cbn. by rewrite Hn.
    + intros _. unfold driver_Drive, driver_Preflight. cbn. rewrite Hn. cbn. split_and!; [by rewrite orb_true_r|done|].
      intros x [= <-] Hx. pose proof (Hf _ (or_intror Hx)). lia.
  - unfold onLoginCallback. cbv [mbind gom_bind]. destruct (on_config_jwt a t) as [d ->]. cbn.
    split; cbn; [done..|]. by rewrite Hn.
  - unfold onLoginCallback. cbv [mbind gom_bind]. destruct (on_config_jwt a t) as [d ->]. cbn.
    split; cbn; [done..|]. by rewrite Hn.
Qed.

(** What a logout leaves. *)
Definition logged_out (c : NodeCfg.Config) : NodeCfg.Config := NodeCfg.set_Token "" (NodeCfg.Clone c).
Lemma onLogout_spec a packet : app_ok a ->
  match NodeCfg.Save (logged_out (NodeCfg.cf_config (ap_cfg a))) (NodeCfg.cf_disk (ap_cfg a)) with
  | (d, Ok _) => exists c, ap_cancel a = Some c /\
      let cfg := NodeCfg.mkCfg (NodeCfg.set_Token "" (NodeCfg.cf_config (ap_cfg a))) d in
      let done := c :: ap_done a in
      onLogout packet a =
        if negb (h_running (ap_driver a)) || ap_closed a || packet then
          (mkApp cfg (ap_api a) driver_New (Some c) done (ap_next a) (ap_closed a) (ap_down a) (ap_auto a)
             (S (ap_refresh a)) (ap_disposed a), Ok tt)
        else (mkApp cfg (ap_api a) (driver_stopped (ap_driver a)) (Some c) done (ap_next a) (ap_closed a)
                (ap_down a) (ap_auto a) (ap_refresh a) (ap_disposed a), Panic wait_forever)
  | (d, Err _) => onLogout packet a = (set_cfg (NodeCfg.mkCfg (NodeCfg.cf_config (ap_cfg a)) d) a, Ok tt)
  | (d, Panic _) => False
  end.
Proof using HFk.
  intros [[c Hc] Hf Ht Hr]. pose proof (Save_content (logged_out (NodeCfg.cf_config (ap_cfg a))) (NodeCfg.cf_disk (ap_cfg a))) as Hs.
  unfold onLogout. cbv [mbind gom_bind gget]. fold (logged_out (NodeCfg.cf_config (ap_cfg a))).
  destruct (NodeCfg.Save _ _) as [d [[]|e|w]]; [|done..]. exists c. split; [done|].
  unfold gmodify at 1, cancel. cbn [set_cfg ap_cancel]. rewrite Hc. unfold Terminate_, on_driver, refreshEvent, gmodify.
  cbn [ap_driver set_contexts set_cfg]. rewrite Ht. destruct (h_running (ap_driver a)) eqn:Hrun; cbn [negb orb]; [|done].
  destruct (Hr eq_refl) as (_ & Hctx & _). rewrite Hctx, Hc. cbn [ap_done]. rewrite bool_decide_eq_true_2 by left.
  cbn [andb ap_closed set_contexts set_cfg]. by destruct (ap_closed a || packet) .
Qed.

Lemma app_ok_driver_flags a f : app_ok a -> (forall h, h_termed (f h) = h_termed h /\ h_running (f h) = h_running h /\
    h_ready (f h) = h_ready h /\ h_ctx (f h) = h_ctx h) -> app_ok (gstate (on_driver f) a).
Proof.
  intros [Hc Hf Ht Hr] Hh. destruct (Hh (ap_driver a)) as (H1 & H2 & H3 & H4).
  split; cbn; [done|done|by rewrite H1|]. by rewrite H2, H3, H4.
Qed.

Lemma app_ok_step a b : app_ok a -> app_step a b -> app_ok b.
Proof using HFk.
  intros Hok Hs. destruct Hs as [a p b Hlo|a t res Hn|a b|a res].
  - pose proof (onLogout_spec a p Hok) as Hl. destruct Hok as [Hc Hf Ht Hr].
    destruct (NodeCfg.Save _ _) as [d [[]|e|w]]; [|by rewrite Hl in Hlo; injection Hlo as <-; split|done].
    destruct Hl as (c & Hcc & Hl). rewrite Hl in Hlo. destruct (negb _ || _ || p); [|done]. injection Hlo as <-.
    split; cbn; [by eexists| |done|done].
    intros x Hx. apply Hf. destruct Hx as [[= ->]|[->|Hx]%elem_of_cons]; by auto.
  - by apply app_ok_login.
  - destruct (app_ok_driver_flags a (driver_set_enable (negb b)) Hok ltac:(by intros [])) as [? ? ? ?]. by split.
  - destruct Hok. unfold onAutoStart. by destruct res as [[]| |]; split.
Qed.
End Facts.

(** ** Properties *)

Section Theorems.
Context `{HF : FileSystem} `{HFk : !FileSystemOk} `{HJ : NodeCfg.Json}.


(** A login callback that comes while the driver runs - the
    browser page opened twice is enough - puts a new cancel function in the
    place of the running one and starts nothing, so the next logout waits
    for goroutines that nobody can stop any more. *)
Theorem second_login_hangs_logout (a a1 : App) (t : string) (packet : bool) (d : fs) :
  app_ok a -> h_running (ap_driver a) = true ->
  onLoginCallback t (Ok tt) a = (a1, Ok true) ->
  NodeCfg.Save (logged_out (NodeCfg.cf_config (ap_cfg a1))) (NodeCfg.cf_disk (ap_cfg a1)) = (d, Ok tt) ->
  ap_driver a1 = ap_driver a /\ gresult (onLogout packet) a1 = Panic wait_forever.
Proof using HFk.
  intros [[c Hc] Hf Ht Hr] Hrun Hl Hs. destruct (onLoginCallback_ok a t) as [d' He]. cbv zeta in He. rewrite He in Hl.
  destruct (Hr Hrun) as (Hready & Hctx & Hnd). injection Hl as <-.
  assert (driver_Drive (ap_next a) (driver_Preflight (Ok tt) (ap_driver a)) = ap_driver a) as Hdrv.
  { unfold driver_Drive, driver_Preflight. cbn. rewrite Hrun, Hready. cbn. by destruct (ap_driver a); cbn in *; subst. }
  cbn [ap_driver]. split; [done|]. unfold gresult, onLogout. cbv [mbind gom_bind gget]. fold (logged_out (NodeCfg.cf_config (ap_cfg a))) in *.
  cbn [ap_cfg NodeCfg.cf_config NodeCfg.cf_disk] in *. unfold logged_out in Hs. rewrite Hs. cbn [set_cfg gmodify cancel ap_cancel].
  unfold Terminate_, gmodify, cancel. cbn [ap_driver ap_cancel set_cfg set_contexts ap_done]. rewrite Hdrv, Hrun, Ht, Hctx, Hc. cbn [negb orb].
  rewrite bool_decide_eq_false_2; [done|].
  intros [Hx|Hx]%elem_of_cons; [|by apply (Hnd c)]. pose proof (Hf c (or_introl Hc)). lia.
Qed.
End Theorems.

(** ** Examples *)

Module EntryExample.
#[local] Existing Instance ToyFiles.curve.
#[local] Existing Instance ToyFiles.json.
#[local] Instance files : FileSystem := ToyFiles.files false.
#[local] Instance files_ok : FileSystemOk := ToyFiles.files_ok false.

Definition start : App :=
  mkApp (NodeCfg.mkCfg ConfigExample.config (None : fs)) (NewClient "https://api.pairmesh.com" "Bearer x" "m1") driver_New None [] O
    false false false O false.
(** Signed in at the start; then paused, logged out and signed in again. *)
Definition running : App := gstate (app_Run (Ok tt) (Ok tt)) start.
Definition resumed : App := gstate (onLoginCallback "y" (Ok tt)) (gstate (onLogout true) (gstate (switchDriverEnable true) running)).
Lemma app_started : app_Run (Ok tt) (Ok tt) start = (running, Ok tt).
Proof. vm_compute. reflexivity. Qed.
Definition resumed_saved : fs := gstate (NodeCfg.Save (logged_out (NodeCfg.cf_config (ap_cfg resumed)))) (NodeCfg.cf_disk (ap_cfg resumed)).
Lemma resumed_saves :
  NodeCfg.Save (logged_out (NodeCfg.cf_config (ap_cfg resumed))) (NodeCfg.cf_disk (ap_cfg resumed)) = (resumed_saved, Ok tt).
Proof. vm_compute. reflexivity. Qed.
Lemma resumed_reached : rtc app_step running resumed.
Proof.
  eapply rtc_l; [apply (as_enable running true)|].
  eapply rtc_l; [apply (as_logout _ true (gstate (onLogout true) (gstate (switchDriverEnable true) running))); vm_compute; reflexivity|].
  eapply rtc_l; [apply (as_login _ "y" (Ok tt)); vm_compute; reflexivity|]. apply rtc_refl.
Qed.

Definition twice : App := gstate (onLoginCallback "y" (Ok tt)) running.
Definition twice_saved : fs := gstate (NodeCfg.Save (logged_out (NodeCfg.cf_config (ap_cfg twice)))) (NodeCfg.cf_disk (ap_cfg twice)).
Lemma running_ok : app_ok running.
Proof.
  pose proof (app_ok_Run (Ok tt) (Ok tt) (ap_cfg start) (ap_api start)) as [H|H]; [exact H|]. exfalso. revert H. vm_compute. discriminate.
Qed.
Lemma logged_in_twice : onLoginCallback "y" (Ok tt) running = (twice, Ok true).
Proof. vm_compute. reflexivity. Qed.
Lemma twice_saves : NodeCfg.Save (logged_out (NodeCfg.cf_config (ap_cfg twice))) (NodeCfg.cf_disk (ap_cfg twice)) = (twice_saved, Ok tt).
Proof. vm_compute. reflexivity. Qed.
Lemma second_login_hangs_logout_witness : gresult (onLogout true) twice = Panic wait_forever.
Proof.
  exact (proj2 (second_login_hangs_logout running twice "y" true twice_saved running_ok eq_refl logged_in_twice twice_saves)).
Defined.

(** A portal that cannot be reached at the start costs the node its token. *)
Example unreachable_portal_signs_out :
  let a := gstate (app_Run (Ok tt) (Err (EExt "connection refused"))) start in
  NodeCfg.IsGuest (NodeCfg.cf_config (ap_cfg a)) = true /\
  match Open (NodeCfg.cf_disk (ap_cfg a)) with
  | Ok (Some t) => NodeCfg.IsGuest (fst (NodeCfg.decode t NodeCfg.empty)) = true
  | _ => False
  end.
Proof. by vm_compute. Qed.

(** A gateway with a trailing slash has the path of the root. *)
Example trailing_slash_refused :
  check_gateway (fun _ => Ok ("https"%string, "/"%string)) "https://api.pairmesh.com/" =
    Err (EMsg "incorrect gateway address https://api.pairmesh.com/").
Proof. done. Qed.
End EntryExample.
