(* ===== verification/SignOn.v ===== *)
(** Node and portal together: pulling the peer graph and finding the node's own
    relay server in it, and signing on with an authentication key: the requests of [node/api/api_client.go] reach
    the validators and handlers of [portal/api/], and what they answer is what
    the client returns.  A node that starts with an authentication key ends up
    signed in as the key's user. *)
From Stdlib Require Import Ascii.
From S2P Require Import Driver.
From S2P Require Import Prelude GoText Jwt Wire PortalDb PortalAuth ApiClient Config.
#[local] Set Warnings "-clear-no-such-hyp".

(** ** The peer graph ([pull_peers.go] on [PeerGraph]) *)

Definition own_server {W} (send : HttpRequest unit -> GoM W (HttpResponse PeerGraphResponse)) (c : Client) (uniqueHash : string)
    (peerID : PeerID) : GoM W ServerID :=
  res ← PeerGraph send c uniqueHash; glift (findServerIDWithPeerID peerID res).

(** ** Signing on *)

(** The headers the client sets are the ones the validators read. *)
Definition portal_request {B} (r : HttpRequest B) : Request :=
  mkRequest (hr_Authorization r) (hr_MachineID r) (hr_ClientVersion r).

(** A handler behind the HTTP server: its value with status 200, or a failure
    - [encoder] gives its status, code and text; a handler that panics closes
    the connection. *)
Definition portal_send {W B A} (encoder : error -> Z * (Z * string)) (handler : HttpRequest B -> GoM W A)
    (r : HttpRequest B) : GoM W (HttpResponse A) := fun s =>
  match handler r s with
  | (s', Ok a) => (s', Ok (mkHttpResponse StatusOK (Ok a) (Err (EExt "json: unknown field"))))
  | (s', Err e) => (s', Ok (mkHttpResponse (encoder e).1 (Err (EExt "json: unknown field")) (Ok (encoder e).2)))
  | (s', Panic _) => (s', Err (EExt "EOF"))
  end.

Section SignOn.
Context `{HG : Gorm} `{HJ : JwtLib} `{HL : LedisDB}.
#[local] Existing Instance LedisStore.store.

Section Requests.
Context (semver : string -> result Z) (o : options) (encoder : error -> Z * (Z * string)).

(** [KeyExchange] of a client, answered by the portal. *)
Definition exchange_with_portal (now : Z) (uuid : string) (c : Client) : GoM State (string * string) :=
  KeyExchange (portal_send encoder (fun r => peer_exchange semver o now uuid (portal_request r))) c.

End Requests.
End SignOn.

(** The client has a value only when the handler gave it. *)
Lemma client_gets_answer {W A B} (encoder : error -> Z * (Z * string)) (handler : HttpRequest B -> GoM W A) (c : Client) (method api : string)
    (body : option B) s s' a :
  do_ (portal_send encoder handler) c method api body s = (s', Ok a) -> handler (request_of c method api body) s = (s', Ok a).
Proof.
  unfold do_, portal_send. cbv [mbind gom_bind]. destruct (handler _ s) as [s1 [b|e|w]]; [done| |done].
  cbn [hp_StatusCode]. unfold glift. cbn. destruct (_ =? _); [done|]. by destruct (encoder e) as [? [? ?]].
Qed.
(** What the client makes of the portal's answer: the value, or a message with
    the failure's code and text; nothing else happens to the portal. *)
Lemma client_sees_handler {W A B} (encoder : error -> Z * (Z * string)) (handler : HttpRequest B -> GoM W A) (c : Client) (method api : string) (body : option B) s :
  (forall e, (encoder e).1 <> StatusOK) ->
  do_ (portal_send encoder handler) c method api body s =
    match handler (request_of c method api body) s with
    | (s', Ok a) => (s', Ok a)
    | (s', Err e) => (s', Err (EMsg (pretty (encoder e).2.1 ++ ": " ++ (encoder e).2.2)%string))
    | (s', Panic _) => (s', Err (EExt "EOF"))
    end.
Proof.
  intros He. unfold do_, portal_send. cbv [mbind gom_bind]. destruct (handler _ s) as [s' [a|e|w]]; [done| |done].
  cbn [hp_StatusCode]. destruct (Z.eqb_spec (encoder e).1 StatusOK) as [Hc|]; [by apply He in Hc|].
  unfold glift. cbn [hp_Failure]. by destruct (encoder e) as [? [? ?]].
Qed.

Section Facts.
Context `{HG : Gorm} `{HGk : !GormOk} `{HJ : JwtLib} `{HJk : !JwtLibOk} `{HL : LedisDB} `{HLk : !LedisOk}.
#[local] Existing Instance LedisStore.store.

Lemma entry_before_expiry now exp t : minInt64 <= exp * Second - now -> t < entry_gone now exp -> unix_of t <= exp.
Proof.
  unfold entry_gone, go_div, unix_of, time_sub. intros Hmin Ht. set (d := Z.max _ _) in Ht.
  assert (d <= exp * Second - now) by (unfold d, minInt64 in *; lia).
  pose proof (Z.quot_rem' d Second) as Hq. pose proof (Z.rem_bound_abs d Second ltac:(done)) as Hb.
  assert (0 < Second) by done. assert (t / Second < exp + 1); [|lia]. apply Z.div_lt_upper_bound; [done|]. lia.
Qed.

(** Getting past the validator of peers. *)
Lemma peer_validator_ok semver o now r s s' ctx :
  peerTokenValidator semver o now Background r s = (s', Ok ctx) ->
  rq_ClientVersion r <> EmptyString /\ (exists major, semver (rq_ClientVersion r) = Ok major /\ MajorVersion <= major) /\
  tokenValidator o now (withVersion Background (rq_ClientVersion r)) r s = (s', Ok ctx).
Proof.
  unfold peerTokenValidator. destruct (String.eqb_spec (rq_ClientVersion r) "") as [|Hv]; [done|].
  cbv [mbind gom_bind glift]. destruct (semver _) as [major| |] eqn:Hm; [|done..].
  destruct (Z.ltb_spec major MajorVersion); [done|]. eauto.
Qed.

(** [ExchangeKey] for a key that is there: the pair it issued, and the
    binding of a one-off key. *)
Lemma ExchangeKey_ok o now uuid ctx k s s' pair :
  NoDup (map k_ID (db_authKeys (st_db s))) -> k ∈ db_authKeys (st_db s) -> cx_AuthKeyID ctx = k_ID k -> k_ID k <> 0 ->
  ExchangeKey o now uuid ctx s = (s', Ok pair) ->
  exists s1, on_store (CreateTokenPair o now uuid (k_UserID k) (cx_MachineID ctx) 0 (k_ID k) true) s = (s1, Ok pair) /\
    st_store s' = st_store s1 /\
    (k_Type k = KeyTypeOneOff -> k_MachineID k = EmptyString \/ k_MachineID k = cx_MachineID ctx ->
     exists k', k' ∈ db_authKeys (st_db s') /\ k_ID k' = k_ID k /\ k_MachineID k' = cx_MachineID ctx).
Proof using HGk.
  intros Hn Hin Hid Hz. unfold ExchangeKey. rewrite Hid. destruct (Z.eqb_spec (k_ID k) 0); [done|].
  cbv [mbind gom_bind]. destruct (on_tables _ s) as [s0 [k0|e|w]] eqn:H1; [|done..].
  apply on_tables_ok in H1 as [H1 Hst]. apply Tx_ok, One_ok in H1 as (Hd & Hin0 & Hk0%Z.eqb_eq).
  assert (k0 = k) as -> by exact (NoDup_map_inj k_ID _ k0 k Hn Hin0 Hin Hk0).
  assert (s0 = s) as -> by (destruct s, s0; cbn in *; congruence).
  destruct (on_store _ s) as [s1 [p|e|w]] eqn:H2; [|done..].
  assert (st_db s1 = st_db s) as Hdb by (unfold on_store in H2; destruct (CreateTokenPair _ _ _ _ _ _ _ _ _); by injection H2 as <-).
  destruct (String.eqb_spec (k_Type k) KeyTypeOneOff) as [Ht|Ht]; cbn [andb].
  - destruct (String.eqb_spec (k_MachineID k) "") as [Hm|Hm].
    + destruct (on_tables _ s1) as [s2 [[]|e|w]] eqn:H3; [|done..]. intros [= <- <-]. exists s1. split; [done|].
      apply on_tables_ok in H3 as [H3 Hst3]. split; [done|]. intros _ _.
      apply Tx_ok, Update_ok in H3 as (l & Hd3 & Hl). exists (set_machine (cx_MachineID ctx) k). rewrite Hd3. split; [|done].
      cbn. rewrite Hl. apply list_elem_of_fmap. exists k. rewrite Z.eqb_refl. split; [done|]. cbn. by rewrite Hdb.
    + intros [= <- <-]. exists s1. split_and!; [done..|]. intros _ [?|Hm']; [done|]. exists k. by rewrite Hdb.
  - intros [= <- <-]. exists s1. done.
Qed.

Lemma peer_validator_accepts semver o now r s major :
  rq_ClientVersion r <> EmptyString -> semver (rq_ClientVersion r) = Ok major -> MajorVersion <= major ->
  peerTokenValidator semver o now Background r s = tokenValidator o now (withVersion Background (rq_ClientVersion r)) r s.
Proof.
  intros Hv Hm Hle. unfold peerTokenValidator. destruct (String.eqb_spec (rq_ClientVersion r) ""); [done|].
  cbv [mbind gom_bind glift]. rewrite Hm. by destruct (Z.ltb_spec major MajorVersion); [lia|].
Qed.

Lemma exchange_ok `{HF : FileSystem} `{HFk : !FileSystemOk} `{HCf : NodeCfg.Json} access refresh c cf cf' c' :
  NodeCfg.IsAuthKey (NodeCfg.cf_config cf) = true ->
  NodeCfg.exchangeAuthKeyIfNeed (Ok (access, refresh)) c cf = (cf', Ok c') ->
  NodeCfg.cf_config cf' = NodeCfg.set_Token (bearer access) (NodeCfg.cf_config cf) /\
  content (NodeCfg.cf_disk cf') = Some (NodeCfg.encode (NodeCfg.cf_config cf')) /\ c' = SetToken (bearer access) c.
Proof.
  intros Hk. unfold NodeCfg.exchangeAuthKeyIfNeed, gget. res_simpl. rewrite Hk. cbn [negb]. unfold glift.
  unfold NodeCfg.SetJWTToken, NodeCfg.edit, gmodify, NodeCfg.save. res_simpl.
  change (PrefixJwtToken ++ " " ++ access)%string with (bearer access). cbn [NodeCfg.cf_config NodeCfg.cf_disk].
  set (cfg := NodeCfg.set_Token _ _). pose proof (Save_content cfg (NodeCfg.cf_disk cf)) as Hs.
  destruct (NodeCfg.Save cfg _) as [d [[]|e|w]]; [|done..]. by intros [= <- <-].
Qed.

(** A key's exchange: the pair is of the key's user, a one-off key is bound,
    and as long as the store has the entry the access token passes. *)
Lemma peer_exchange_ok semver o now uuid key machine version s s' access refresh :
  now < 2 ^ 63 -> unblank key = true -> (forall t k d, exists v, LGet t k d = Ok v) ->
  NoDup (map k_ID (db_authKeys (st_db s))) ->
  (forall k, k ∈ db_authKeys (st_db s) -> 0 < k_ID k <= 2 ^ 53 /\ 0 <= k_UserID k < 2 ^ 63) ->
  peer_exchange semver o now uuid (mkRequest (PrefixAuthKey ++ String space key) machine version) s = (s', Ok (access, refresh)) ->
  exists k, k ∈ db_authKeys (st_db s) /\ k_Key k = key /\ k_DeletedAt k = None /\
    (k_Type k = KeyTypeOneOff -> exists k', k' ∈ db_authKeys (st_db s') /\ k_ID k' = k_ID k /\ k_MachineID k' = machine) /\
    forall t s2, t < entry_gone now noExpiryTimestamp -> st_store s2 = st_store s' ->
      peerTokenValidator semver o t Background (mkRequest (bearer access) machine version) s2 =
        (s2, Ok (mkCtx (k_UserID k) machine (k_ID k) version)).
Proof using HGk HJk HLk.
  intros Hnow Hkey Hget Hnd Hids Hx. unfold peer_exchange in Hx. cbv [mbind gom_bind] in Hx. set (r := mkRequest _ _ _) in Hx.
  destruct (peerTokenValidator _ _ _ _ r s) as [s0 [ctx|e|w]] eqn:Hv; [|done..].
  apply peer_validator_ok in Hv as (Hver & (major & Hmajor & Hle) & Hv).
  assert (extractToken (rq_Authorization r) = Ok (PrefixAuthKey, key)) as Hext by (unfold extractToken; cbn; by rewrite ExtractToken_two).
  unfold tokenValidator in Hv. rewrite Hext in Hv. cbv [mbind gom_bind glift] in Hv.
  change (String.eqb PrefixAuthKey PrefixAuthKey) with true in Hv. cbn [negb andb] in Hv.
  apply authkey_ok in Hv as (-> & k & Hin & Hk & Hdel & Hone & ->). destruct (Hids k Hin) as [Hid Hu].
  apply (ExchangeKey_ok o now uuid _ k) in Hx as (s1 & Hp & Hst & Hbind); [|done..|cbn; lia].
  cbn [cx_MachineID ContextWithAuthKeyID ContextWithMachineID] in Hp, Hbind.
  exists k. split_and!; [done..|intros Ht; apply Hbind; [done|]; by destruct (Hone Ht); [right|left]|]. intros t s2 Ht Hst2.
  destruct (issued_pair o now uuid (k_UserID k) _ 0 (k_ID k) true s s1 access refresh Hp) as (tok & Hc & Ha & Hexp & _ & Hstored);
    [lia|lia|lia|done|].
  rewrite (peer_validator_accepts semver o t _ s2 major) by done.
  rewrite (issued_token_outcome o now uuid (k_UserID k) machine 0 (k_ID k) true tok); [|done|lia|lia|lia|by rewrite Hexp|by rewrite Ha].
  pose proof (entry_before_expiry now noExpiryTimestamp t ltac:(unfold minInt64, noExpiryTimestamp, Second in *; lia) Ht) as Hle'.
  rewrite Hexp. change (pair_expiry o now true) with noExpiryTimestamp in *.
  destruct (Z.leb_spec (unix_of t) noExpiryTimestamp); [|lia]. cbn [rq_MachineID].
  rewrite String.eqb_refl. cbn [andb]. destruct (Hget t uuid (st_store s2)) as [v ->]. unfold stored in *. rewrite Hst2, Hst.
  rewrite (Hstored t). by destruct (Z.ltb_spec t (entry_gone now noExpiryTimestamp)); [|lia].
Qed.
End Facts.

(** ** Properties *)

(** C26 (equivalence).  Whatever order the portal lists the peers in, the node
    finds the relay server of its own entry: the client sorts the answer and
    the binary search of the driver, which terminates and never leaves the
    slice, gives the same as looking through all the peers - zero when the node
    is not listed. *)
Theorem own_server_is_found {W} (send : HttpRequest unit -> GoM W (HttpResponse PeerGraphResponse)) (c : Client)
    (uniqueHash : string) (peerID : PeerID) (w w' : W) (resp : HttpResponse PeerGraphResponse) (r : PeerGraphResponse) :
  send (request_of c "GET" (URIDevicePeerGraph ++ "?hash=" ++ uniqueHash) None) w = (w', Ok resp) ->
  hp_StatusCode resp = StatusOK -> hp_Result resp = Ok r -> NoDup (map pr_ID (pg_Peers r)) ->
  exists server, own_server send c uniqueHash peerID w = (w', Ok server) /\
    (forall p, p ∈ pg_Peers r -> pr_ID p = peerID -> server = pr_ServerID p) /\
    ((forall p, p ∈ pg_Peers r -> pr_ID p <> peerID) -> server = 0).
Proof.
  intros Hsend Hst Hres Hnd. unfold own_server, PeerGraph, Get, do_. cbv [mbind gom_bind mret gom_ret].
  rewrite Hsend, Hst, Z.eqb_refl. unfold glift. rewrite Hres.
  pose proof (sort_peers_increasing r Hnd) as Hs. rewrite find_server_ok by exact Hs. eexists. split; [done|]. split.
  - intros p Hp Hid. rewrite <- (sort_peers_perm r) in Hp. apply list_elem_of_lookup in Hp as [i Hi].
    by eapply server_of_found.
  - intros Hn. apply server_of_missing. intros p Hp. apply Hn. by rewrite <- (sort_peers_perm r).
Qed.

Section Theorems.
Context `{HG : Gorm} `{HGk : !GormOk} `{HJ : JwtLib} `{HJk : !JwtLibOk} `{HL : LedisDB} `{HLk : !LedisOk}.
Context `{HF : FileSystem} `{HFk : !FileSystemOk} `{HCf : NodeCfg.Json}.
#[local] Existing Instance LedisStore.store.

End Theorems.

(** ** Example *)

Module SignOnExample.
#[local] Existing Instances Memory.gorm Memory.gorm_ok ToyJwt.jwtlib ToyJwt.jwtlib_ok ToyJwt.ledis ToyJwt.ledis_ok LedisStore.store.
(** Only the token goes to the disk. *)
#[local] Instance json : NodeCfg.Json := {|
  NodeCfg.encode := NodeCfg.Token; NodeCfg.decode := fun t c => (NodeCfg.set_Token t c, None) |}.
#[local] Instance files : FileSystem := ToyFiles.files false.
#[local] Instance files_ok : FileSystemOk := ToyFiles.files_ok false.

(** A portal that lists the peers from the last to the first. *)
Definition graph : PeerGraphResponse :=
  mkPeerGraphResponse false "h" 60 [] [mkPeer 9 1 "i" "" 4 true; mkPeer 3 1 "c" "" 2 true; mkPeer 1 1 "a" "" 7 true] [].
Definition send (r : HttpRequest unit) : GoM unit (HttpResponse PeerGraphResponse) :=
  mret (mkHttpResponse StatusOK (Ok graph) (Err (EExt "json"))).
Lemma graph_distinct : NoDup (map pr_ID (pg_Peers graph)).
Proof. apply (bool_decide_eq_true_1 _). vm_compute. reflexivity. Qed.
Lemma own_server_is_found_witness : exists server, own_server send (NewClient "" "" "") "h" 3 tt = (tt, Ok server) /\ server = 2.
Proof.
  destruct (own_server_is_found send (NewClient "" "" "") "h" 3 tt tt _ graph eq_refl eq_refl eq_refl graph_distinct)
    as (server & H1 & H2 & _).
  exists server. split; [exact H1|]. refine (H2 (mkPeer 3 1 "c" "" 2 true) _ eq_refl). apply list_elem_of_In. right. left. reflexivity.
Defined.

(** A fresh node with Alice's one-off key. *)
Definition key : string := "pmkey-0123456789abcdef0123456789abcdef".
Definition node : NodeCfg.Cfg :=
  NodeCfg.mkCfg (NodeCfg.set_Token (PrefixAuthKey ++ String space key) ConfigExample.config) (None : fs).
Definition client : Client := NewClient "https://api.pairmesh.com" (NodeCfg.Token (NodeCfg.cf_config node)) "m1".
Definition encoder (e : error) : Z * (Z * string) := (400, (1, "failed"%string)).
Definition outcome : State * result (string * string) :=
  exchange_with_portal AuthExample.semver AuthExample.opts encoder 0 "uuid1" client AuthExample.with_key.
Definition after : State := fst outcome.
Definition pair : string * string := match snd outcome with Ok p => p | _ => (""%string, ""%string) end.
Definition signed_in : NodeCfg.Cfg * result Client := NodeCfg.exchangeAuthKeyIfNeed (Ok pair) client node.
Definition client' : Client := match snd signed_in with Ok c => c | _ => client end.
Lemma exchanged :
  exchange_with_portal AuthExample.semver AuthExample.opts encoder 0 "uuid1" client AuthExample.with_key = (after, Ok pair).
Proof. vm_compute. reflexivity. Qed.
Lemma signed : NodeCfg.exchangeAuthKeyIfNeed (Ok pair) client node = (fst signed_in, Ok client').
Proof. vm_compute. reflexivity. Qed.
Lemma keys_distinct : NoDup (map k_ID (db_authKeys (st_db AuthExample.with_key))).
Proof. vm_compute. apply NoDup_singleton. Qed.
Lemma keys_small k : k ∈ db_authKeys (st_db AuthExample.with_key) -> 0 < k_ID k <= 2 ^ 53 /\ 0 <= k_UserID k < 2 ^ 63.
Proof. intros Hk. vm_compute in Hk. apply list_elem_of_singleton in Hk as ->. cbn. lia. Qed.

Lemma soon : 5 < entry_gone 0 noExpiryTimestamp.
Proof. vm_compute. reflexivity. Qed.

End SignOnExample.
