(* ===== verification/Calling.v ===== *)
(** The clients' requests as the portal receives them: the address a client of
    [ApiClient] builds is taken apart the way [net/url] does, the headers are
    the ones the validators of [PortalAuth] read, and the whole portal of
    [Portal] answers.  What the JSON encoder writes is the environment's. *)
From Stdlib Require Import Ascii.
From S2P Require Import Prelude GoText Wire Noise Jwt PortalDb PortalNetwork PortalInternal PortalAuth Portal ApiClient SignOn.
#[local] Set Warnings "-clear-no-such-hyp".

(** ** Addresses *)

(** [strings.Cut] at a separator of one byte. *)
Fixpoint Cut (sep : ascii) (s : string) : string * string :=
  match s with
  | EmptyString => (EmptyString, EmptyString)
  | String c s' => if Ascii.eqb c sep then (EmptyString, s') else let '(a, b) := Cut sep s' in (String c a, b)
  end.
(** The path of [url.Parse]: without the fragment, the scheme, the query and
    the host, for a path without escapes. *)
Definition URL_Path (url : string) : string :=
  let rest := TrimPrefix (Cut "?" (Cut ":" (Cut "#" url).1).2).1 "//" in
  String "/" (Cut "/" rest).2.

(** [c] does not occur. *)
Fixpoint without (c : ascii) (s : string) : bool :=
  match s with EmptyString => true | String x s => negb (Ascii.eqb x c) && without c s end.
Lemma app_cons x (a b : string) : (String x a ++ b)%string = String x (a ++ b).
Proof. done. Qed.
Lemma app_nil (b : string) : ("" ++ b)%string = b.
Proof. done. Qed.
Lemma app_empty_r (a : string) : (a ++ "")%string = a.
Proof. induction a as [|x a IH]; [done|]. by rewrite app_cons, IH. Qed.
Lemma app_assoc_ (a b c : string) : (a ++ b ++ c)%string = ((a ++ b) ++ c)%string.
Proof. induction a as [|x a IH]; [done|]. by rewrite !app_cons, IH. Qed.
Lemma without_app c a b : without c (a ++ b)%string = without c a && without c b.
Proof. induction a as [|x a IH]; [done|]. rewrite app_cons. cbn. by rewrite IH, andb_assoc. Qed.
Lemma Cut_app c a b : without c a = true -> Cut c (a ++ b)%string = ((a ++ (Cut c b).1)%string, (Cut c b).2).
Proof.
  induction a as [|x a IH]; rewrite ?app_cons, ?app_nil; cbn; [by destruct (Cut c b)|].
  intros [Hx%negb_true_iff Ha]%andb_true_iff. by rewrite Hx, IH.
Qed.
Lemma Cut_at c a b : without c a = true -> Cut c (a ++ String c b)%string = (a, b).
Proof. intros Ha. rewrite Cut_app by done. simpl. rewrite Ascii.eqb_refl. cbn. by rewrite app_empty_r. Qed.
Lemma Cut_without c a : without c a = true -> Cut c a = (a, ""%string).
Proof. intros Ha. rewrite <- (app_empty_r a) at 1. rewrite Cut_app by done. cbn. by rewrite app_empty_r. Qed.
Lemma TrimPrefix_app p s : TrimPrefix (p ++ s)%string p = s.
Proof.
  assert (HasPrefix (p ++ s)%string p = true) as Hp.
  { unfold HasPrefix. induction p as [|x p IH]; [by destruct s|]. rewrite app_cons. cbn. by destruct (ascii_dec x x). }
  unfold TrimPrefix. rewrite Hp. clear Hp. rewrite length_append, Nat.add_comm, Nat.add_sub.
  induction p as [|x p IH]; [|by rewrite app_cons]. rewrite app_nil. cbn [String.length].
  induction s as [|x s IH]; cbn; [done|by rewrite IH].
Qed.

(** A gateway that is a scheme and a host, with or without a final slash. *)
Definition origin (gateway : string) : Prop := exists scheme host,
  TrimSuffix gateway "/" = (scheme ++ "://" ++ host)%string /\ without "#" scheme && without ":" scheme = true /\
  without "#" host && without "?" host && without "/" host = true.

(** The path of a client's request. *)
Lemma request_path {B} (c : Client) method api (body : option B) : origin (cl_server c) -> without "#" (TrimPrefix api "/") = true ->
  URL_Path (hr_URL (request_of c method api body)) = String "/" (Cut "?" (TrimPrefix api "/")).1.
Proof.
  intros (scheme & host & Hg & [Hs1 Hs2]%andb_true_iff & [[Hh1 Hh2]%andb_true_iff Hh3]%andb_true_iff) Ha.
  cbn [hr_URL request_of]. rewrite Hg. set (rest := TrimPrefix api "/") in *. unfold URL_Path.
  rewrite (Cut_without "#") by (rewrite !without_app, Hs1, Hh1; cbn; by rewrite Ha). cbn [fst].
  rewrite <- !app_assoc_. change ("://" ++ ?x)%string with (String ":" ("//" ++ x)). rewrite (Cut_at ":") by done. cbn [snd].
  change (String "/" (String "/" (host ++ String "/" rest)))%string with ("//" ++ (host ++ String "/" rest))%string.
  rewrite (Cut_app "?") by done. cbn [fst]. rewrite (Cut_app "?") by done. cbn [fst]. rewrite TrimPrefix_app. cbn [fst].
  change ("/" ++ rest)%string with (String "/" rest). cbn [Cut Ascii.eqb Bool.eqb andb].
  destruct (Cut "?" rest) as [path query]. cbn [fst]. by rewrite (Cut_at "/").
Qed.

(** ** Requests *)

Section Calls.
Context `{HG : Gorm} `{HS : Signature} `{HE : Encoding} `{HJ : JwtLib} `{HL : LedisDB} `{HB : Bodies} `{HX : Mux} (se : Settings).
(** The status and the body of a failure, and the parameters of an address. *)
Context (encoder : error -> Z * (Z * string)) (query : string -> gmap string string).

(** A client's request as the portal reads it; [text] is what its body is
    encoded as. *)
Definition received {B} (text : B -> string) (r : HttpRequest B) : Incoming :=
  mkIncoming (hr_Method r) (URL_Path (hr_URL r)) (query (hr_URL r)) (portal_request r) (from_option text ""%string (hr_Body r)).

(** The portal behind a client that reads the answers [want] accepts. *)
Definition portal_answers {A B} (text : B -> string) (want : Answer -> option A) (d : Draws) : HttpRequest B -> GoM Portal (HttpResponse A) :=
  portal_send encoder (fun r =>
    a ← serve se d (received text r);
    glift (from_option Ok (Err (EExt "json: cannot unmarshal")) (want a))).
End Calls.

Definition a_keepalive (a : Answer) : option RelayKeepaliveResponse := match a with AKeepalive r => Some r | _ => None end.
Definition a_graph (a : Answer) : option PeerGraphResponse := match a with APeerGraph r => Some r | _ => None end.
Definition a_preflight (a : Answer) : option PreflightResponse := match a with APreflight r => Some r | _ => None end.
Definition a_tokens (a : Answer) : option (string * string) := match a with ATokens r => Some r | _ => None end.
Definition a_credential (a : Answer) : option (string * Z) := match a with ACredential r => Some r | _ => None end.
Definition a_logout (a : Answer) : option unit := match a with ALogout => Some tt | _ => None end.

(** *** What the clients ask for *)

Create HintDb portal.

(** The request of [method] for [api] is for the route of [h] behind [g]. *)
Definition asks_for (method api : string) (g : Guard) (h : Handler) : Prop :=
  without "#" (TrimPrefix api "/") = true /\
  exists ro, is_for method (split_on slash (String "/" (Cut "?" (TrimPrefix api "/")).1)) ro ∅ /\ ro_Guard ro = g /\ ro_Handler ro = h.
Ltac routed i := split; [by vm_compute|]; eexists (nth i routes (mkRoute "" "" Public HVersionCheck));
  split; [|by vm_compute]; split; [by vm_compute|]; split; [apply (list_elem_of_lookup_2 _ i)|split]; by vm_compute.
Lemma asks_logout : asks_for "GET" URILogout Public HLogout.
Proof. routed 3%nat. Qed.
Lemma asks_keepalive : asks_for "POST" URIRelay RelayKey HRelayKeepalive.
Proof. routed 4%nat. Qed.
Lemma asks_preflight : asks_for "POST" URIDevicePreflight PeerToken HPreflight.
Proof. routed 6%nat. Qed.
Lemma asks_renewal : asks_for "POST" URIRenewCredential PeerToken HRenewCredential.
Proof. routed 7%nat. Qed.
Lemma asks_exchange : asks_for "POST" URLKeyExchange PeerToken HExchangeKey.
Proof. routed 8%nat. Qed.
Lemma asks_graph hash : without "#" hash = true -> asks_for "GET" (URIDevicePeerGraph ++ "?hash=" ++ hash) PeerToken HPeerGraph.
Proof.
  intros Hh. set (rest := ("api/v1/device/peers" ++ String "?" ("hash=" ++ hash))%string).
  change (URIDevicePeerGraph ++ "?hash=" ++ hash)%string with ("/" ++ rest)%string. unfold asks_for. rewrite TrimPrefix_app.
  unfold rest. rewrite (Cut_at "?") by done. split; [rewrite without_app; cbn; by rewrite without_app|].
  apply (proj2 (ltac:(routed 5%nat) : asks_for "GET" URIDevicePeerGraph PeerToken HPeerGraph)).
Qed.
#[export] Hint Resolve asks_logout asks_keepalive asks_preflight asks_renewal asks_exchange asks_graph : portal.

(** *** The answers *)

Section Answers.
Context `{HG : Gorm} `{HGk : !GormOk} `{HS : Signature} `{HE : Encoding} `{HJ : JwtLib} `{HL : LedisDB} `{HLk : !LedisOk} `{HB : Bodies} `{HX : Mux} `{HXk : !MuxOk}.
Context (se : Settings) (encoder : error -> Z * (Z * string)) (query : string -> gmap string string).
#[local] Existing Instance LedisStore.store.

(** A client of the portal's origin has an answer only from the handler it
    asks for, past its guard. *)
Lemma client_answered {A B} (text : B -> string) (want : Answer -> option A) d c method api body g h p p' a :
  origin (cl_server c) -> asks_for method api g h ->
  do_ (portal_answers se encoder query text want d) c method api body p = (p', Ok a) ->
  let r := received query text (request_of c method api body) in
  exists ctx ans, validate se g (dr_now d) r p = (p, Ok ctx) /\ handle se h ctx ∅ d r p = (p', Ok ans) /\ want ans = Some a.
Proof.
  intros Ho (Hs & ro & Hi & <- & <-) Ha%client_gets_answer r. revert Ha. fold r. unfold serve. cbv [mbind gom_bind].
  assert (in_Path r = String "/" (Cut "?" (TrimPrefix api "/")).1) as -> by (by apply request_path).
  change (in_Method r) with method. rewrite (Find_is_for routes _ _ _ _ ltac:(done) Hi). cbn [answer_at]. cbv [mbind gom_bind].
  destruct (validate se _ _ r p) as [p1 [ctx|e|w]] eqn:Hv; [|done..]. destruct (validate_ok _ _ _ _ _ _ _ Hv) as [-> _].
  destruct (handle se _ ctx ∅ d r p) as [p2 [ans|e|w]] eqn:Hh; [|done..]. unfold glift.
  destruct (want ans) as [b|] eqn:Hw; [|done]. intros [= -> ->]. by exists ctx, ans.
Qed.

(** The state the handlers of accounts and keys see. *)
Definition state_of (p : Portal) : State := mkState (pt_db p) (pt_store p).
Lemma in_state_at {A} (m : GoM State A) p p' r : in_state m p = (p', r) ->
  m (state_of p) = (state_of p', r) /\ sv_publicKey (pt_server p') = sv_publicKey (pt_server p).
Proof using Type. unfold in_state, state_of, pt_db. destruct (m _) as [[d l] x]. intros [= <- <-]. done. Qed.
Lemma in_server_at {A} (m : GoM server A) p p' r : in_server m p = (p', r) -> m (pt_server p) = (pt_server p', r) /\ pt_store p' = pt_store p.
Proof using Type. unfold in_server. destruct (m _) as [s x]. intros [= <- <-]. done. Qed.


(** From what the client returns to what the handler did. *)
Ltac from_client Ho asks Ha ctx Hv Hw :=
  let H := fresh in destruct (client_answered _ _ _ _ _ _ _ _ _ _ _ _ Ho asks Ha) as (ctx & ? & Hv & H & Hw); clear Ha; revert H;
  cbn [handle]; unfold body, glift; cbv [mbind gom_bind].
Ltac from_handler Hw := match goal with
  | |- (let (_, _) := in_state _ ?p in _) = _ -> _ =>
    let H := fresh in destruct (in_state _ p) as [? [?|?|?]] eqn:H; [apply in_state_at in H as [H _]|done..]
  | |- (let (_, _) := in_server _ ?p in _) = _ -> _ =>
    let H := fresh in destruct (in_server _ p) as [? [?|?|?]] eqn:H; [apply in_server_at in H as [H _]|done..]
  end; intros [= -> <-]; injection Hw as ->.

Lemma keepalive_answered text d c name region host port stun key peers startedAt p p' resp : origin (cl_server c) ->
  Keepalive (portal_answers se encoder query text a_keepalive d) c name region host port stun key peers startedAt p = (p', Ok resp) ->
  cl_token c = se_relayAuthKey se /\ exists req, RelayKeepalive (dr_now d) req (pt_server p) = (pt_server p', Ok resp).
Proof.
  intros Ho Ha. from_client Ho asks_keepalive Ha ctx Hv Hw. apply validate_ok in Hv as [_ [Hk _]].
  destruct (RelayKeepaliveRequest_ _) as [req|e|w]; [|done..]. from_handler Hw. split; [exact Hk|by exists req].
Qed.

(** What the validator of peers is given by client [c]. *)
Definition headers_of (c : Client) : Request := mkRequest (cl_token c) (cl_machineid c) (SemVer NewVersion).
Definition peer_passes (d : Draws) (c : Client) (p : Portal) (ctx : Ctx) : Prop :=
  peerTokenValidator (se_semver se) (se_options se) (dr_now d) Background (headers_of c) (state_of p) = (state_of p, Ok ctx).
Lemma peer_validated {B} (text : B -> string) d c method api body p p' ctx :
  validate se PeerToken (dr_now d) (received query text (request_of c method api body)) p = (p', Ok ctx) ->
  p' = p /\ peer_passes d c p ctx.
Proof.
  intros Hv. pose proof (proj1 (validate_ok _ _ _ _ _ _ _ Hv)) as ->. split; [done|]. by apply in_state_at in Hv as [Hv _].
Qed.

Lemma exchange_answered text d c p p' pair : origin (cl_server c) ->
  KeyExchange (portal_answers se encoder query text a_tokens d) c p = (p', Ok pair) ->
  peer_exchange (se_semver se) (se_options se) (dr_now d) (dr_uuid d) (headers_of c) (state_of p) = (state_of p', Ok pair).
Proof.
  intros Ho Ha. from_client Ho asks_exchange Ha ctx Hv Hw. apply peer_validated in Hv as [_ Hv]. from_handler Hw.
  unfold peer_exchange. cbv [mbind gom_bind]. by rewrite Hv.
Qed.
Lemma preflight_answered text d c os hostname p p' r : origin (cl_server c) ->
  Preflight (portal_answers se encoder query text a_preflight d) c os hostname p = (p', Ok r) ->
  exists ctx req, peer_passes d c p ctx /\
    PortalInternal.Preflight (dr_now d) (cx_UserID ctx) (cx_MachineID ctx) (cx_Version ctx) req (dr_pick d) (dr_candidates d) (pt_server p) =
      (pt_server p', Ok r).
Proof.
  intros Ho Ha. from_client Ho asks_preflight Ha ctx Hv Hw. apply peer_validated in Hv as [_ Hv].
  destruct (PreflightRequest_ _) as [req|e|w]; [|done..]. from_handler Hw. by exists ctx, req.
Qed.
Lemma graph_answered (text : unit -> string) d c hash p p' r : origin (cl_server c) -> without "#" hash = true ->
  PeerGraph (portal_answers se encoder query text a_graph d) c hash p = (p', Ok r) ->
  exists ctx resp, peer_passes d c p ctx /\ r = sort_peers resp /\
    PortalInternal.PeerGraph (dr_now d) (cx_UserID ctx) (cx_MachineID ctx) (dr_relays d) (dr_nets d) (pt_server p) = (pt_server p', Ok resp).
Proof.
  intros Ho Hs. unfold PeerGraph. cbv [mbind gom_bind mret gom_ret].
  destruct (Get _ _ _ p) as [p1 [resp|e|w]] eqn:Ha; [|done..]. intros [= -> <-].
  from_client Ho (asks_graph _ Hs) Ha ctx Hv Hw. apply peer_validated in Hv as [_ Hv]. from_handler Hw. by exists ctx, resp.
Qed.
End Answers.
