(* ===== verification/Pulling.v ===== *)
(** The peer graph from the portal to the node: the driver's pull asks through
    the client of [ApiClient], the whole portal answers ([Calling]), and the node
    brings its relay connections, its mesh and its routes in line.  The relay
    manager is the one of [NodeRelay], behind the contract [Driver.RelayOpsOk]. *)
From Stdlib Require Import Ascii.
From S2P Require Import Prelude GoText Wire Router.
From S2P Require MeshManager Driver PortalAuth.
From S2P Require Import Noise RelayManager NodeRelay.
From S2P Require Import Jwt PortalDb PortalInternal ApiClient SignOn Portal Calling.
#[local] Set Warnings "-clear-no-such-hyp".

Section Pulling.
Context `{HG : Gorm} `{HS : Signature} `{HE : Encoding} `{HJ : JwtLib} `{HL : LedisDB} `{HB : Bodies} `{HX : Mux} (se : Settings).
Context (encoder : error -> Z * (Z * string)) (query : string -> gmap string string).

(** The pull's question, put to the portal; its body is empty. *)
Definition node_asks_graph (dr : Draws) (c : Client) (uniqueHash : string) : GoM Portal PeerGraphResponse :=
  ApiClient.PeerGraph (portal_answers se encoder query (fun _ => ""%string) a_graph dr) c uniqueHash.
End Pulling.

Section Facts.
Context `{HG : Gorm} `{HGk : !GormOk} `{HS : Signature} `{HE : Encoding} `{HJ : JwtLib} `{HL : LedisDB} `{HLk : !LedisOk} `{HB : Bodies} `{HX : Mux} `{HXk : !MuxOk}.

(** What the node gets: the portal's answer for the user its token is of, with
    the peers in increasing order. *)
Lemma asked_graph se encoder query dr c hash ctx p p' r :
  let db := pt_db p' in
  tx_error_kept = true -> origin (cl_server c) -> without "#" hash = true -> peer_passes se dr c p ctx ->
  node_asks_graph se encoder query dr c hash p = (p', Ok r) ->
  pg_NotModified r = false /\
  (forall q, q ∈ pg_Peers r <-> exists x, neighbour db (PortalAuth.cx_UserID ctx) x /\ q = peer_of (dr_now dr) x) /\
  (NoDup (map d_ID (db_devices db)) -> Driver.ids_sorted (pg_Peers r)) /\
  (forall w, w ∈ pg_RelayServers r <-> exists q rec, q ∈ pg_Peers r /\ pr_ServerID q ∈ dr_relays dr /\
     relay_by_id (pt_server p') (pr_ServerID q) = Some rec /\ w = wire_relay rec).
Proof using HGk HXk HLk.
  intros db Ht Ho Hs Hp Ha. apply graph_answered in Ha as (ctx' & resp & Hp' & -> & Ha); [|done..].
  assert (ctx' = ctx) as -> by (unfold peer_passes in *; congruence).
  apply PeerGraph_ok in Ha as (H1 & H2 & H3 & H4 & _); [|done].
  pose proof (sort_peers_perm resp) as Hperm. split_and!; [exact H1| | |].
  - intros q. rewrite Hperm. apply H2.
  - intros Hn. by apply sort_peers_increasing, H3.
  - intros w. cbn [pg_RelayServers sort_peers]. rewrite H4. by setoid_rewrite Hperm.
Qed.

(** The node's own devices are neighbours of its user. *)
Lemma own_device_listed d u x : x ∈ db_devices d -> d_UserID x = u -> neighbour d u x.
Proof using Type.
  intros Hx Hu. split; [done|]. rewrite Hu.
  destruct (decide (Exists (fun nu => nu_UserID nu = u) (db_networkUsers d))) as [(nu & Hin & Hnu)%Exists_exists|Hno].
  - left. by exists nu, nu.
  - right. split; [done|]. intros y Hy (nu & nu' & Hin & _ & Hnu & _). apply Hno, Exists_exists. by exists nu.
Qed.
End Facts.

(** ** Property *)

Section Property.
Context `{HG : Gorm} `{HGk : !GormOk} `{HS : Signature} `{HE : Encoding}.
Context {IP : Type} `{HIP : Countable IP} `{HNet : !MeshManager.NetAddr IP} `{HScan : !Driver.NetAddrScan IP}
  {R : Type} `{HRt : !Router IP R} `{HRtk : !RouterOk IP R} `{HKx : !MeshManager.KeyExchange}
  {RM : Type} `{HRm : !Driver.RelayOps RM} `{HRk : !Driver.RelayOpsOk RM}.
Context `{HJ : JwtLib} `{HL : LedisDB} `{HLk : !LedisOk} `{HB : Bodies} `{HX : Mux} `{HXk : !MuxOk}.

(** A known peer that has no tunnel to close is among the neighbours. *)
Definition unpaired_stay (db : Database) (u : ID) (m : @MeshManager.Manager IP R) : Prop :=
  forall id l q, MeshManager.mm_peers m !! id = Some l -> MeshManager.mm_heap m !! l = Some q ->
    MeshManager.po_tunnel q = None -> exists x, neighbour db u x /\ d_ID x = id.

(** The routes of the peers listed. *)
Lemma elem_of_peer_routes local (ps : list Peer) (a : IP) (n : Z) :
  (a, n) ∈ MeshManager.peer_routes local ps <->
    n = 32 /\ exists q, q ∈ ps /\ pr_ID q <> local /\ MeshManager.ParseIP (pr_IPv4 q) = Ok a.
Proof using Type.
  unfold MeshManager.peer_routes. rewrite list_elem_of_In, in_flat_map. split.
  - intros (q & Hq & Hin). destruct (Z.eqb_spec (pr_ID q) local) as [|Hne]; [done|].
    destruct (MeshManager.ParseIP (pr_IPv4 q)) as [b| |] eqn:Hb; [|done..]. destruct Hin as [[= -> <-]|[]].
    split; [done|]. exists q. by rewrite list_elem_of_In.
  - intros (-> & q & Hq & Hne & Ha). exists q. split; [by apply list_elem_of_In|].
    destruct (Z.eqb_spec (pr_ID q) local); [done|]. rewrite Ha. by left.
Qed.

End Property.

(** ** Witness *)

Module PullingExample.
Import InternalExample.
#[local] Existing Instances Memory.gorm Memory.gorm_ok Toy.signature Toy.proto Toy.proto_ok Toy.handshake Toy.handshake_safe
  InternalExample.encoding MeshManager.Example.net MeshManager.Example.kx
  ToyJwt.jwtlib ToyJwt.ledis ToyJwt.ledis_ok LedisStore.store InOrder.mux InOrder.mux_ok PortalExample.bodies.

(** Every relay server answers, maps are visited in the order of their keys. *)
Definition world : World unit := mkWorld (fun _ _ => ManagerWitness.env) (fun _ X => elements X).
#[local] Instance world_ok : WorldOk world.
Proof. split; [done|]. intros n X id Hid. apply list_elem_of_In. cbn. by apply elem_of_elements. Qed.
#[local] Instance ops : Driver.RelayOps (Managed unit) := managed_ops world.
#[local] Instance ops_ok : Driver.RelayOpsOk (Managed unit) := managed_ok world.

(** Alice's laptop, signed in, after its preflight, while Bob's is registered too. *)
Definition encoder (e : error) : Z * (Z * string) := (400, (1, "failed"%string)).
Definition query (url : string) : gmap string string := ∅.
Definition alice : PortalAuth.Ctx := PortalAuth.mkCtx 1 "m1" 0 "0.1.0".
Definition portal : Portal := mkPortal (fst bob_preflight) (PortalAuth.st_store PortalAuth.AuthExample.signed_in).
Definition draws : Draws :=
  mkDraws Second "" "" None [] [2; 1] [7] "" "" (Ok tt) (Err (EExt "offline")) (Ok tt) (Err (EExt "offline")).
Definition client : Client := NewClient "https://portal.example.org" PortalExample.alice "m1".
Definition asked : Portal * result PeerGraphResponse := node_asks_graph PortalExample.settings encoder query draws client "abc" portal.
Definition graph : PeerGraphResponse := match snd asked with Ok r => r | _ => mkPeerGraphResponse true "" 0 [] [] [] end.
Definition node : @Driver.NodeDriver string (@router string _ _) (Managed unit) :=
  Driver.mkNodeDriver 1 1 "laptop" 4000 true false true false "" (Driver.mkCredential "10.0.0.2" [] "" 0 Second) [] [] zero_RelayServer []
    (MeshManager.NewManager (MeshManager.mkLocalPeer "laptop" 1 1 [] [] "10.0.0.2"%string []) newRouter)
    (Driver.rm_SetCredential [Byte.x01] (mkManaged NewManager 0)).

Definition db : Database := pt_db (fst asked).
Definition laptop : Device := match db_devices db with x :: _ => x | [] => set_lastSeen 0 (mkDevice 0 0 0 0 "" "" "" "" 0 "") end.
Lemma devices_now : db_devices db = [laptop; match db_devices db with _ :: x :: _ => x | _ => laptop end] /\
  map d_ID (db_devices db) = [1; 2] /\ map d_Address (db_devices db) = ["10.0.0.2"; "10.0.0.3"]%string.
Proof. vm_compute. done. Qed.
Lemma laptop_listed : neighbour db 1 laptop.
Proof. apply own_device_listed; [|by vm_compute]. rewrite (proj1 devices_now). by left. Qed.
Lemma portal_origin : origin (cl_server client).
Proof. exists "https"%string, "portal.example.org"%string. by vm_compute. Qed.
Lemma alice_passes : peer_passes PortalExample.settings draws client portal alice.
Proof. vm_compute. reflexivity. Qed.
Lemma graph_asked_ok : asked = (fst asked, Ok graph).
Proof. vm_compute. reflexivity. Qed.

End PullingExample.
