(* ===== verification/Services.v ===== *)
(** How the portal and the relay server start: [portal/api/portal.go] with the
    providers of [portal/sso/provider.go], [pkg/fsutil/fsutil.go], and
    [relay/server/serve.go].  What the databases and the network answer is an
    argument; the key file is on the disk of [Config.v]. *)
From Stdlib Require Import Ascii.
From S2P Require Import RelaySession RelayServer.
From S2P Require Import Prelude GoText Noise Credential Wire Jwt ApiClient Config.
#[local] Set Warnings "-clear-no-such-hyp".

(** ** Sign-on providers ([provider.go]) *)

Module Sso.
(** A [Vendor] is a number; only GitHub has a name. *)
Definition GitHub : Z := 0.
Definition vendorName (v : Z) : option string := if v =? GitHub then Some "GitHub"%string else None.
Definition Vendor_String (v : Z) : string :=
  match vendorName v with None => ("unknown(" ++ pretty v ++ ")")%string | Some n => ToLower n end.

Section Manager.
(** The providers, of a type [P]; [setup] is [Setup] on the configuration. *)
Context {P : Type}.
Abbreviation providerMgr := (gmap Z P).
Fixpoint init (setup : P -> result unit) (order : list Z) (pm : providerMgr) : result unit :=
  match order with
  | [] => Ok tt
  | v :: order =>
    match pm !! v with
    | None => init setup order pm
    | Some p => _ ← setup p; init setup order pm
    end
  end.
(** [None] is a nil provider; the first registration stays. *)
Definition register (name : Z) (h : option P) : GoM providerMgr unit := fun pm =>
  match h with
  | None => (pm, Err (EMsg "the sso is nil"))
  | Some p => if bool_decide (is_Some (pm !! name)) then (pm, Ok tt) else (<[name := p]> pm, Ok tt)
  end.
Definition provider (name : Z) (pm : providerMgr) : option P := pm !! name.
Definition Register (name : Z) (p : option P) : GoM providerMgr unit := gignore (register name p).
(** [Initialize] of a configuration that may be nil. *)
Definition Initialize {C} (setup : C -> P -> result unit) (sso : option C) (order : list Z) (pm : providerMgr) : result unit :=
  match sso with None => Err (EMsg "illegal parameter(s)") | Some c => init (setup c) order pm end.
(** [AuthCodeLinks]: [url] is the provider's [AuthCodeURL]. *)
Definition AuthCodeLinks (url : P -> result string) (pm : providerMgr) : result (list (string * string)) :=
  match provider GitHub pm with
  | None => Panic "invalid memory address or nil pointer dereference"
  | Some p => l ← url p; Ok [(default EmptyString (vendorName GitHub), l)]
  end.
End Manager.

(** [randString]: capital letters, from the numbers below 26 drawn. *)
Definition randString (draws : list Z) : string :=
  fold_right (fun n s => String (ascii_of_nat (Z.to_nat (n + 65))) s) EmptyString draws.
(** [Setup] of GitHub: whether the proxy of the environment is used, from the
    outcome of [url.Parse], which gives an address or an error. *)
Definition Setup_uses_proxy (proxy : option string) (parse : string -> option string * option error) : bool :=
  match proxy with
  | Some p => negb (String.eqb p "") && match parse p with (None, None) => true | _ => false end
  | None => false
  end.
End Sso.

(** ** The portal ([portal.go]) *)

(** [fsutil.IsExists], from the error of [os.Stat]. *)
Definition IsExists (stat : option error) : bool :=
  match stat with Some e => negb (bool_decide (e = ErrNotExist)) | None => true end.

(** [strings.TrimRight(s, "/")]. *)
Fixpoint TrimRight (cut : ascii) (s : string) : string :=
  match s with
  | EmptyString => EmptyString
  | String c s' =>
    match TrimRight cut s' with
    | EmptyString => if Ascii.eqb c cut then EmptyString else String c EmptyString
    | r => String c r
    end
  end.

(** RSA keys and their PKCS #1 encoding. *)
Class RsaKey (K : Type) := { ParseKey : string -> result K; GenerateKey : result K; MarshalKey : K -> string }.
Class RsaKeyOk (K : Type) `{RsaKey K} : Prop := { parse_marshal : forall k, ParseKey (MarshalKey k) = Ok k }.

Section Portal.
Context {K : Type} `{HK : RsaKey K} `{HF : FileSystem}.

(** [ioutil.WriteFile]. *)
Definition WriteFile (data : string) : GoM fs unit :=
  created ← Create; if (created : bool) then Write data else gthrow ErrNotExist.

(** The private key, when a path is not configured, from the default file:
    the key may be nil, and the configuration gets the path. *)
Definition default_key_path : string := "pairportal.private.pem".
Definition load_key (cfg : PortalCfg.Config) : GoM fs (option K * PortalCfg.Config) :=
  if String.eqb (PortalCfg.PrivateKey cfg) "" then
    f ← gget;
    data ← gwrap "read private key is failed" (glift (Open f));
    key ← match data with
      | Some data => gwrap "parse private key is failed" (glift (ParseKey data))
      | None =>
        priv ← gwrap "generate private key is failed" (glift GenerateKey);
        _ ← gwrap "save private key is failed" (WriteFile (MarshalKey priv));
        mret priv
      end;
    mret (Some key, PortalCfg.mkConfig (PortalCfg.Host cfg) (PortalCfg.Port cfg) (PortalCfg.TLSKey cfg) (PortalCfg.TLSCert cfg)
      default_key_path (PortalCfg.DataDir cfg) (PortalCfg.relay cfg) (PortalCfg.mysql cfg) (PortalCfg.jwt cfg) (PortalCfg.sso cfg))
  else mret (None, cfg).

(** What the server runs with. *)
Record Serving := mkServing {
  sv_authKey : string; sv_key : K; sv_jwt : options; sv_redirect : string; sv_address : string; sv_tls : bool }.
Definition nil_pointer : string := "invalid memory address or nil pointer dereference".
Definition deref_ {A} (o : option A) : result A := match o with Some a => Ok a | None => Panic nil_pointer end.

(** [newServer] takes the address of a field of the private key. *)
Definition newServer_key (key : option K) : result K := deref_ key.

(** [serveHTTP] until the server listens: [setup], [gorm], [cache] and
    [preload] are the outcomes of the providers' setup, of opening the database
    and the cache and of [preload]. *)
Definition serveHTTP (cfg : PortalCfg.Config) (setup gorm cache preload : result unit) : GoM fs Serving :=
  _ ← gwrap "initialize sso is failed" (glift (match PortalCfg.sso cfg with None => Err (EMsg "illegal parameter(s)") | Some _ => setup end));
  _ ← gwrap "initialize mysql is failed" (glift (_ ← deref_ (PortalCfg.mysql cfg); gorm));
  _ ← gwrap "initialize redis is failed" (glift cache);
  j ← glift (deref_ (PortalCfg.jwt cfg));
  opts ← gwrap "initialize jwt is failed" (glift (Jwt.Initialize (PortalCfg.AccessSecret j) (PortalCfg.RefreshSecret j)
    [Jwt.AccessTokenTTL (PortalCfg.AccessTokenTTL j); Jwt.RefreshTokenTTL (PortalCfg.RefreshTokenTTL j)]));
  '(key, cfg) ← load_key cfg;
  sso ← glift (deref_ (PortalCfg.sso cfg));
  relay ← glift (deref_ (PortalCfg.relay cfg));
  key ← glift (newServer_key key);
  _ ← gwrap "preload data is failed" (glift preload);
  mret (mkServing (PortalCfg.AuthKey relay) key opts (TrimRight "/"%char (PortalCfg.Redirect sso))
    (PortalCfg.Host cfg ++ ":" ++ pretty (PortalCfg.Port cfg))%string (negb (String.eqb (PortalCfg.TLSCert cfg) ""))).
End Portal.

(** ** The relay server ([serve.go]) *)

Section Relay.
Context {W : Type}.

(** The message of a keepalive, from the configuration. *)
Definition relay_Keepalive (send : HttpRequest RelayKeepaliveRequest -> GoM W (HttpResponse RelayKeepaliveResponse)) (c : Client)
    (key_text : DHKeyBytes -> string) (cfg : RelayCfg.Config) (peers : list PeerID) (startedAt : Z) : GoM W RelayKeepaliveResponse :=
  key ← glift (deref_ (RelayCfg.DHKey cfg));
  Keepalive send c (RelayCfg.Name cfg) (RelayCfg.Region cfg) (RelayCfg.Host cfg) (RelayCfg.Port cfg) (RelayCfg.STUNPort cfg)
    (key_text (Public key)) peers startedAt.

(** [Serve] until the listener: the server with the portal's key, and the
    address; the ticker of the keepalive goroutine refuses an interval that is
    not positive. *)
Definition relay_Serve (send : HttpRequest RelayKeepaliveRequest -> GoM W (HttpResponse RelayKeepaliveResponse))
    (key_text : DHKeyBytes -> string) (parse : string -> result Signature) (cfg : RelayCfg.Config) (startedAt : Z)
  : GoM W (Server * string) :=
  portal ← glift (deref_ (RelayCfg.portal cfg));
  let apiClient := NewClient (RelayCfg.URL portal) (RelayCfg.Key portal) "" in
  resp ← relay_Keepalive send apiClient key_text cfg [] startedAt;
  '(publicKey, _) ← glift (keepaliveWithPortal parse (Ok resp));
  if RelayCfg.KeepaliveInterval portal <=? 0 then gpanic "non-positive interval for NewTicker"
  else mret (NewServer HeartbeatInterval publicKey, (":" ++ pretty (RelayCfg.Port cfg))%string).
End Relay.

(** ** Properties *)

Section Theorems.
Context {K : Type} `{HK : RsaKey K} `{HKk : !RsaKeyOk K} `{HF : FileSystem} `{HFk : !FileSystemOk}.

(** What a start that succeeded found. *)
Lemma serveHTTP_ok cfg setup gorm cache preload f f' sv :
  serveHTTP (K := K) cfg setup gorm cache preload f = (f', Ok sv) ->
  exists m j r s o key cfg', PortalCfg.mysql cfg = Some m /\ PortalCfg.jwt cfg = Some j /\ PortalCfg.relay cfg = Some r /\
    PortalCfg.sso cfg = Some s /\ PortalCfg.PrivateKey cfg = EmptyString /\
    Jwt.Initialize (PortalCfg.AccessSecret j) (PortalCfg.RefreshSecret j)
      [Jwt.AccessTokenTTL (PortalCfg.AccessTokenTTL j); Jwt.RefreshTokenTTL (PortalCfg.RefreshTokenTTL j)] = Ok o /\
    load_key cfg f = (f', Ok (Some key, cfg')) /\
    sv = mkServing (PortalCfg.AuthKey r) key o (TrimRight "/"%char (PortalCfg.Redirect s))
      (PortalCfg.Host cfg ++ ":" ++ pretty (PortalCfg.Port cfg))%string (negb (String.eqb (PortalCfg.TLSCert cfg) "")).
Proof.
  unfold serveHTTP, gwrap, glift. res_simpl.
  destruct (PortalCfg.sso cfg) as [s|] eqn:Hs; [|done]. destruct setup as [[]| |]; [|done..].
  destruct (PortalCfg.mysql cfg) as [m|]; [|done]. cbn [deref_]. destruct gorm as [[]| |]; [|done..].
  destruct cache as [[]| |]; [|done..]. destruct (PortalCfg.jwt cfg) as [j|]; [|done]. cbn [deref_].
  destruct (Jwt.Initialize _ _ _) as [o| |] eqn:Ho; [|done..].
  destruct (load_key cfg f) as [f1 [[key cfg1]| |]] eqn:Hl; [|done..].
  assert (PortalCfg.relay cfg1 = PortalCfg.relay cfg /\ PortalCfg.sso cfg1 = PortalCfg.sso cfg /\ PortalCfg.Host cfg1 = PortalCfg.Host cfg /\
    PortalCfg.Port cfg1 = PortalCfg.Port cfg /\ PortalCfg.TLSCert cfg1 = PortalCfg.TLSCert cfg /\
    (key <> None -> PortalCfg.PrivateKey cfg = EmptyString)) as (H1 & H2 & H3 & H4 & H5 & H6).
  { revert Hl. unfold load_key. destruct (String.eqb_spec (PortalCfg.PrivateKey cfg) ""); [|by intros [= _ <- <-]].
    res_simpl. destruct (gget f) as [f2 [g| |]]; [|done..]. destruct (gwrap _ _ f2) as [f3 [data| |]]; [|done..].
    match goal with |- (let (_, _) := ?q in _) = _ -> _ => destruct q as [f4 [k| |]] end; [|done..]. by intros [= _ <- <-]. }
  rewrite H1, H2, H3, H4, H5, Hs. cbn [deref_].
  destruct (PortalCfg.relay cfg) as [r|]; [|done]. cbn [deref_]. unfold newServer_key. destruct key as [key|]; [|done]. cbn [deref_].
  destruct preload as [[]| |]; [|done..]. intros [= <- <-]. exists m, j, r, s, o, key, cfg1. split_and!; try done. by apply H6.
Qed.

(** The portal does not start with a private key of its own: it
    only loads one when the configuration names none, so a configured path -
    like a configuration without a relay section, which the default one is -
    ends in a nil pointer when everything else is in order, and never in a
    server. *)
Theorem configured_key_stops_the_portal (cfg : PortalCfg.Config) (setup gorm cache preload : result unit) (f : fs) :
  PortalCfg.PrivateKey cfg <> EmptyString \/ PortalCfg.relay cfg = None ->
  is_ok (gresult (serveHTTP (K := K) cfg setup gorm cache preload) f) = false /\
  (PortalCfg.PrivateKey cfg <> EmptyString -> is_Some (PortalCfg.mysql cfg) -> is_Some (PortalCfg.sso cfg) ->
   (exists j, PortalCfg.jwt cfg = Some j /\ PortalCfg.AccessSecret j <> EmptyString) ->
   serveHTTP (K := K) cfg (Ok tt) (Ok tt) (Ok tt) (Ok tt) f = (f, Panic nil_pointer)).
Proof.
  intros Hc. split.
  - unfold gresult. destruct (serveHTTP _ _ _ _ _ f) as [f' [sv| |]] eqn:Hs; [|done..].
    apply serveHTTP_ok in Hs as (? & ? & ? & ? & ? & ? & ? & ? & ? & ? & ? & ? & _). destruct Hc; congruence.
  - intros Hp [m Hm] [s Hs] (j & Hj & Ha). unfold serveHTTP, gwrap, glift. res_simpl. rewrite Hs, Hm. cbn [deref_].
    rewrite Hj. cbn [deref_]. unfold Jwt.Initialize. destruct (String.eqb_spec (PortalCfg.AccessSecret j) ""); [done|].
    unfold load_key. destruct (String.eqb_spec (PortalCfg.PrivateKey cfg) ""); [done|]. res_simpl. rewrite Hs. cbn [deref_].
    by destruct (PortalCfg.relay cfg).
Qed.

(** The key a portal starts with, generated the first time,
    is the key of every later start with the same configuration, so the
    credentials it signed stay valid; the later start serves the same and
    leaves the key file alone. *)
Theorem portal_key_survives_restart (cfg : PortalCfg.Config) (setup gorm cache preload : result unit) (f f' : fs)
    (sv : Serving (K := K)) (text : option string) :
  serveHTTP cfg setup gorm cache preload f = (f', Ok sv) -> Open f' = Ok text ->
  serveHTTP cfg (Ok tt) (Ok tt) (Ok tt) (Ok tt) f' = (f', Ok sv).
Proof.
  intros Hs Ho. apply serveHTTP_ok in Hs as (m & j & r & s & o & key & cfg' & Hm & Hj & Hr & Hso & Hp & Hi & Hl & ->).
  assert (exists data, Open f' = Ok (Some data) /\ ParseKey data = Ok key) as (data & Ho' & Hk).
  { revert Hl. unfold load_key. rewrite Hp. cbn [String.eqb]. unfold gwrap, glift, gget. res_simpl.
    destruct (Open f) as [[data|]| |] eqn:Hof; [| |done..].
    - destruct (ParseKey data) as [k| |] eqn:Hk; [|done..]. intros [= <- <- _]. eauto.
    - destruct GenerateKey as [k| |]; [|done..]. unfold WriteFile. res_simpl.
      pose proof (create_content f) as Hc. destruct (Create f) as [f1 [[]| |]]; [|done..].
      destruct (Write (MarshalKey k) f1) as [f2 [[]| |]] eqn:Hw; [|done..]. intros [= <- <- _].
      exists (MarshalKey k). rewrite parse_marshal. split; [|done]. rewrite Ho. f_equal.
      rewrite (open_content _ _ Ho). by eapply write_content. }
  unfold serveHTTP, gwrap, glift. res_simpl. rewrite Hso, Hm, Hj. cbn [deref_]. rewrite Hi.
  unfold load_key, gwrap, glift, gget. rewrite Hp. cbn [String.eqb]. res_simpl. rewrite Ho', Hk. cbn. by rewrite Hso, Hr.
Qed.
End Theorems.

(** ** Examples *)

Module ServicesExample.
#[local] Instance files : FileSystem := ToyFiles.files false.
#[local] Instance files_ok : FileSystemOk := ToyFiles.files_ok false.
(** A key is its encoding. *)
#[local] Instance rsa : RsaKey string := {| ParseKey := fun s => Ok s; GenerateKey := Ok "k1"%string; MarshalKey := fun k => k |}.
#[local] Instance rsa_ok : RsaKeyOk string.
Proof. by split. Qed.

Definition with_relay (path : string) : PortalCfg.Config :=
  PortalCfg.mkConfig "0.0.0.0" 2823 "" "" path "./cache/" (Some (PortalCfg.mkRelay "my-testing-relay"))
    (PortalCfg.mysql PortalCfg.New) (PortalCfg.jwt PortalCfg.New) (PortalCfg.sso PortalCfg.New).
Definition blank : fs := None.
Definition started : fs * result (Serving (K := string)) := serveHTTP (with_relay "") (Ok tt) (Ok tt) (Ok tt) (Ok tt) blank.
Definition serving : Serving (K := string) :=
  match snd started with Ok sv => sv | _ => mkServing "" ""%string (mkOptions 0 0 "" "") "" "" false end.
Lemma first_start : serveHTTP (with_relay "") (Ok tt) (Ok tt) (Ok tt) (Ok tt) blank = (fst started, Ok serving).
Proof. vm_compute. reflexivity. Qed.
Lemma portal_key_survives_restart_witness :
  serveHTTP (with_relay "") (Ok tt) (Ok tt) (Ok tt) (Ok tt) (fst started) = (fst started, Ok serving) /\ sv_key serving = "k1"%string.
Proof.
  split; [|reflexivity].
  exact (portal_key_survives_restart (with_relay "") (Ok tt) (Ok tt) (Ok tt) (Ok tt) blank (fst started) serving (Some "k1"%string)
    first_start eq_refl).
Defined.
Lemma configured_key_stops_the_portal_witness :
  serveHTTP (K := string) (with_relay "my.pem") (Ok tt) (Ok tt) (Ok tt) (Ok tt) blank = (blank, Panic nil_pointer).
Proof.
  refine (proj2 (configured_key_stops_the_portal (K := string) (with_relay "my.pem") (Ok tt) (Ok tt) (Ok tt) (Ok tt) blank
    (or_introl _)) _ _ _ _); try discriminate; try (eexists; reflexivity).
  eexists. split; [reflexivity|discriminate].
Defined.

(** The proxy of the environment is never used: parsing gives an address or an
    error, and the code asks for neither. *)
Example proxy_never_used :
  Sso.Setup_uses_proxy (Some "http://proxy:3128"%string) (fun p => (Some p, None)) = false /\
  Sso.Setup_uses_proxy (Some "::"%string) (fun p => (None, Some (EMsg "missing protocol scheme"))) = false.
Proof. done. Qed.
Example redirect_trimmed : TrimRight "/"%char "http://127.0.0.1:8080//" = "http://127.0.0.1:8080"%string.
Proof. done. Qed.
End ServicesExample.
