(* ===== verification/Admission.v ===== *)
(** A node's way into the mesh across the three programs: the relay server
    fetches the portal's key with its first keepalive, the node exchanges its
    authentication key for a token, gets its credential from the portal's
    preflight, and the relay server admits it.  The requests go
    through the clients of [ApiClient] to the whole portal ([Calling]), the
    connection through [RelayHandshake]. *)
From S2P Require Import Prelude GoText GoTime Wire RelayCodec Noise PeerCodec Credential RelayTransport.
From S2P Require Import RelaySession RelayServer RelayClient RelayHandshake.
From S2P Require PortalAuth Driver.
From S2P Require Import Jwt PortalDb PortalInternal ApiClient Config SignOn Services Portal Calling.
#[local] Set Warnings "-clear-no-such-hyp".

(** ** Relay servers and nodes in front of the portal *)

Section Asking.
Context `{HG : Gorm} `{HS : Signature} `{HE : Encoding} `{HJ : JwtLib} `{HL : LedisDB} `{HB : Bodies} `{HX : Mux} (se : Settings).
Context (encoder : error -> Z * (Z * string)) (query : string -> gmap string string).

(** A relay server's start, a node's exchange of its key, its preflight. *)
Definition relay_starts (text : RelayKeepaliveRequest -> string) (d : Draws) (key_text : DHKeyBytes -> string)
    (parse : string -> result Signature) (cfg : RelayCfg.Config) (startedAt : Z) : GoM Portal (Server * string) :=
  relay_Serve (portal_answers se encoder query text a_keepalive d) key_text parse cfg startedAt.
Definition node_exchanges (text : unit -> string) (d : Draws) (c : Client) : GoM Portal (string * string) :=
  KeyExchange (portal_answers se encoder query text a_tokens d) c.
Definition node_asks (text : PreflightRequest -> string) (d : Draws) (c : Client) (os hostname : string) : GoM Portal PreflightResponse :=
  ApiClient.Preflight (portal_answers se encoder query text a_preflight d) c os hostname.
End Asking.

(** ** Lemmas *)

Section Facts.
Context `{HG : Gorm} `{HGk : !GormOk} `{HS : Signature} `{HE : Encoding} `{HJ : JwtLib} `{HL : LedisDB} `{HLk : !LedisOk} `{HB : Bodies} `{HX : Mux} `{HXk : !MuxOk}.
Context (se : Settings) (encoder : error -> Z * (Z * string)) (query : string -> gmap string string).

Lemma on_db_key {A} (q : GoM Database A) s s' r : on_db q s = (s', r) -> sv_publicKey s' = sv_publicKey s.
Proof. unfold on_db. destruct (q _) as [d x]. by intros [= <- _]. Qed.
(** A keepalive is answered with the portal's key. *)
Lemma keepalive_gives_key now req s s' resp : RelayKeepalive now req s = (s', Ok resp) -> rkr_PublicKey resp = sv_publicKey s.
Proof.
  unfold RelayKeepalive. destruct (_ || _); [done|]. cbv [mbind gom_bind gget].
  match goal with |- (let (_, _) := ?q in _) = _ -> _ => destruct q as [s1 [[]|e|w]] eqn:H1 end; [|done..].
  assert (sv_publicKey s1 = sv_publicKey s) as <-.
  { destruct (sv_byAddr s !! _) as [l|].
    - destruct (sv_heap s !! l) as [r|]; [|done]. unfold gmodify in H1. by apply on_db_key in H1.
    - destruct (on_db _ s) as [s2 [i|e|w]] eqn:H2; [|done..]. apply on_db_key in H2. by injection H1 as <-. }
  destruct (on_db _ s1) as [s2 r] eqn:H2. destruct r; [|done..]. by intros [= _ <-].
Qed.
Definition gateway_of (cfg : RelayCfg.Config) : string := match RelayCfg.portal cfg with Some p => RelayCfg.URL p | None => "" end.
Lemma relay_starts_ok text d key_text parse cfg startedAt p p' srv addr key : origin (gateway_of cfg) ->
  relay_starts se encoder query text d key_text parse cfg startedAt p = (p', Ok (srv, addr)) ->
  parse (sv_publicKey (pt_server p)) = Ok key -> srv = NewServer HeartbeatInterval key.
Proof.
  unfold gateway_of, relay_starts, relay_Serve, relay_Keepalive, glift, deref_. cbv [mbind gom_bind].
  destruct (RelayCfg.portal cfg) as [c|]; [|done]. destruct (RelayCfg.DHKey cfg) as [k|]; [|done]. intros Ho.
  match goal with |- (let (_, _) := ?q in _) = _ -> _ => destruct q as [p1 [resp|e|w]] eqn:H1 end; [|done..].
  apply keepalive_answered in H1 as (_ & req & H1%keepalive_gives_key); [|done]. intros H2 Hp. revert H2.
  unfold keepaliveWithPortal. cbv [mbind result_bind]. rewrite H1, Hp. cbn [mret result_ret].
  destruct (_ <=? 0); [done|]. by intros [= _ <- _].
Qed.
End Facts.

(** ** Property *)

Section Admission.
Context `{HG : Gorm} `{HS : Signature} `{HSk : !SignatureOk} `{HE : Encoding} `{HEk : !EncodingOk}.
Context `{HGk : !GormOk} `{HJ : JwtLib} `{HJk : !JwtLibOk} `{HL : LedisDB} `{HLk : !LedisOk} `{HB : Bodies} `{HX : Mux} `{HXk : !MuxOk}.
Context `{HF : FileSystem} `{HFk : !FileSystemOk} `{HCf : NodeCfg.Json}.
Context `{HP : Proto} `{HPk : !ProtoOk} {HN : Type} `{HH : !Handshake HN} `{HHk : !HandshakeOk HN}.
Context {IP : Type} `{HIP : Countable IP} `{HNet : !MeshManager.NetAddr IP} `{HScan : !Driver.NetAddrScan IP}
  {R : Type} `{HRt : !Router.Router IP R} {RM : Type} `{HRm : !Driver.RelayOps RM}.

(** What the node has after its preflight. *)
Lemma driver_credential now port private public (rt : R) (rm : RM) up r d raw :
  Driver.Preflight now port private public rt rm b64_decode up (Ok r) = Ok d -> b64_decode (pfr_Credential r) = Ok raw ->
  Driver.d_peerID d = pfr_ID r /\ Driver.cr_RawBytes (Driver.d_credential d) = raw /\
  Driver.cr_address (Driver.d_credential d) = pfr_IPv4 r /\ Driver.d_rm d = Driver.rm_SetCredential raw rm.
Proof.
  intros Hd Hraw. revert Hd. unfold Driver.Preflight. cbv [mbind result_bind]. rewrite Hraw.
  destruct (up _); [|done..]. destruct (MeshManager.ParseIP _); [|done..]. by intros [= <-].
Qed.

(** The portal's part: the node that holds a key has, after exchange and
    preflight, a device of the key's user and a credential for it. *)
Lemma key_holder_gets_credential (se : Settings) encoder query text1 text2 d1 d2 gateway key machine p1 p2 p3 p4 access refresh os hostname r :
  let c := NewClient gateway (PrefixAuthKey ++ String space key) machine in
  origin gateway -> unblank key = true -> dr_now d1 < 2 ^ 63 -> (forall t k d, exists v, LGet t k d = Ok v) ->
  NoDup (map k_ID (db_authKeys (pt_db p1))) ->
  (forall k, k ∈ db_authKeys (pt_db p1) -> 0 < k_ID k <= 2 ^ 53 /\ 0 <= k_UserID k < 2 ^ 63) ->
  node_exchanges se encoder query text1 d1 c p1 = (p2, Ok (access, refresh)) ->
  pt_store p3 = pt_store p2 -> registry_ok (idents (pt_db p3)) -> dr_now d2 < PortalAuth.entry_gone (dr_now d1) noExpiryTimestamp ->
  node_asks se encoder query text2 d2 (SetToken (PortalAuth.bearer access) c) os hostname p3 = (p4, Ok r) ->
  0 < pfr_ID r < 2 ^ 64 -> minInt64 <= unix_of (dr_now d2 + credentialLease) <= maxInt64 ->
  exists k raw, k ∈ db_authKeys (pt_db p1) /\ k_Key k = key /\ k_DeletedAt k = None /\ 0 <= k_UserID k < 2 ^ 64 /\
    (exists v, v ∈ db_devices (pt_db p4) /\ d_ID v = pfr_ID r /\ d_UserID v = k_UserID k /\ d_MachineID v = machine /\ d_Address v = pfr_IPv4 r) /\
    b64_decode (pfr_Credential r) = Ok raw /\
    forall t, unix_of t <= unix_of (dr_now d2 + credentialLease) ->
      VerifyCredential t raw = Ok (Some (k_UserID k, pfr_ID r, net_ParseIP (pfr_IPv4 r))).
Proof using HEk HGk HJk HLk HSk HXk.
  intros c Ho Hkey Hnow Hget Hnd Hids Hx Hstore Hreg Hsoon Ha Hi Ht. apply exchange_answered in Hx; [|done].
  change (headers_of c) with (PortalAuth.mkRequest (PrefixAuthKey ++ String space key) machine (SemVer NewVersion)) in Hx.
  apply peer_exchange_ok in Hx as (k & Hin & Hk & Hdel & _ & Hpass); [|done..]. destruct (Hids k Hin) as [_ Hu].
  apply preflight_answered in Ha as (ctx & req & Hp & Hpre); [|done]. unfold peer_passes in Hp.
  change (headers_of (SetToken (PortalAuth.bearer access) c)) with (PortalAuth.mkRequest (PortalAuth.bearer access) machine (SemVer NewVersion)) in Hp.
  rewrite (Hpass (dr_now d2) (state_of p3)) in Hp by done. injection Hp as <-. cbn [PortalAuth.cx_UserID PortalAuth.cx_MachineID PortalAuth.cx_Version] in Hpre.
  destruct (preflight_credential _ _ _ _ _ _ _ _ _ _ Hpre ltac:(lia) ltac:(lia) Ht) as (raw & Hraw & Hv).
  exists k, raw. split_and!; [done..|lia|lia| |done|].
  - apply Preflight_ok in Hpre as (dev & relay & cred & alive & random & Hd & _ & _ & ->).
    apply (preflight_ident []) in Hd as [Hm Hd]; [|split; [done|by intros ? ?%elem_of_nil]].
    apply list_elem_of_fmap in Hd as (v & Hv1 & Hv2). exists v. unfold PortalInternal.machine, ident in *. cbn in *. injection Hv1 as ? ? ? ?. injection Hm as ? ?.
    split_and!; [done|congruence..].
  - intros t Hle. rewrite Hv. by destruct (Z.leb_spec (unix_of t) (unix_of (dr_now d2 + credentialLease))); [|lia].
Qed.

End Admission.

(** ** Witness *)

Module AdmissionExample.
#[local] Existing Instances Memory.gorm Memory.gorm_ok Toy.signature Toy.signature_ok InternalExample.encoding InternalExample.encoding_ok
  ToyJwt.jwtlib ToyJwt.jwtlib_ok ToyJwt.ledis ToyJwt.ledis_ok LedisStore.store InOrder.mux InOrder.mux_ok PortalExample.bodies
  SignOnExample.json SignOnExample.files SignOnExample.files_ok
  Toy.proto Toy.proto_ok Toy.handshake Toy.handshake_ok MeshManager.Example.net MeshManager.Example.kx Driver.DriverExample.ops.

Definition encoder (e : error) : Z * (Z * string) := (400, (1, "failed"%string)).
Definition query (url : string) : gmap string string := ∅.
Definition gateway : string := "https://portal.example.org/".
Definition relay_cfg : RelayCfg.Config :=
  RelayCfg.mkConfig "c" "eu" "c.example.org" 2328 3478 (Some (mkDHKey (mkDHKeyBytes [Byte.x01]) (mkDHKeyBytes [Byte.x02])))
    (Some (RelayCfg.mkPortal "relay-key" gateway RelayCfg.Minute RelayCfg.Minute)).
Definition parse (s : string) : result Signature :=
  if String.eqb s "portal" then Ok Toy.signature else Err (EExt "illegal base64 data").

(** The relay server starts, Alice makes a key, and her laptop takes it. *)
Definition relay_run : Portal * result (Server * string) :=
  relay_starts PortalExample.settings encoder query (fun _ => "relay-c"%string) (PortalExample.draws 1 "u0") (fun _ => "key"%string) parse relay_cfg 7
    PortalExample.start.
Definition srv : Server := match snd relay_run with Ok (v, _) => v | _ => NewServer 0 Toy.signature end.
Definition with_key : Portal := run PortalExample.settings (take 1 PortalExample.morning) (fst relay_run).
Definition node : NodeCfg.Cfg := SignOnExample.node.
Definition client : Client := NewClient gateway (NodeCfg.Token (NodeCfg.cf_config node)) (NodeCfg.MachineID (NodeCfg.cf_config node)).
Definition exchange_run : Portal * result (string * string) :=
  node_exchanges PortalExample.settings encoder query (fun _ => "null"%string) (PortalExample.draws 2 "u1") client with_key.
Definition pair : string * string := match snd exchange_run with Ok p => p | _ => (""%string, ""%string) end.
Definition saved : NodeCfg.Cfg * result Client := NodeCfg.exchangeAuthKeyIfNeed (Ok pair) client node.
Definition client' : Client := match snd saved with Ok c => c | _ => client end.
(** Before it asks, Alice makes a network. *)
Definition later : Portal := run PortalExample.settings (take 1 (drop 1 PortalExample.morning)) (fst exchange_run).
Definition ask_run : Portal * result PreflightResponse :=
  node_asks PortalExample.settings encoder query pf_Host (PortalExample.draws 4 "u2") client' "linux" "laptop" later.
Definition told : PreflightResponse := InternalExample.answer (pt_server (fst ask_run), snd ask_run).
Definition driver_run : result (@Driver.NodeDriver string (@Router.router string _ _) (list Wire.RelayServer)) :=
  Driver.Preflight 0 4000 [] [] Router.newRouter [] b64_decode (fun _ => Ok tt) (Ok told).
Definition d : @Driver.NodeDriver string (@Router.router string _ _) (list Wire.RelayServer) :=
  match driver_run with Ok d => d | _ => Driver.DriverExample.boot MeshManager.Example.b2 end.
Definition accepted : Server := gstate accept srv.
Definition first_bytes : bytes := Toy.ephemeral ++ Driver.cr_RawBytes (Driver.d_credential d).

Lemma relay_up : relay_run = (fst relay_run, Ok (srv, ":2328"%string)).
Proof. vm_compute. reflexivity. Qed.
Lemma key_exchanged : exchange_run = (fst exchange_run, Ok pair).
Proof. vm_compute. reflexivity. Qed.
Lemma kept : NodeCfg.exchangeAuthKeyIfNeed (Ok pair) client node = (fst saved, Ok client').
Proof. vm_compute. reflexivity. Qed.
Lemma asked_ok : ask_run = (fst ask_run, Ok told).
Proof. vm_compute. reflexivity. Qed.
Lemma d_ready : driver_run = Ok d.
Proof. vm_compute. reflexivity. Qed.
Lemma peer_one : Driver.d_peerID d = 1.
Proof. vm_compute. reflexivity. Qed.
Lemma gateway_plain : origin gateway.
Proof. exists "https"%string, "portal.example.org"%string. by vm_compute. Qed.
Lemma portal_keys_distinct : NoDup (map k_ID (db_authKeys (pt_db with_key))).
Proof. vm_compute. apply NoDup_singleton. Qed.
Lemma portal_keys_small k : k ∈ db_authKeys (pt_db with_key) -> 0 < k_ID k <= 2 ^ 53 /\ 0 <= k_UserID k < 2 ^ 63.
Proof. intros Hk. vm_compute in Hk. apply list_elem_of_singleton in Hk as ->. cbn. lia. Qed.
Lemma no_device_yet : registry_ok (idents (pt_db later)).
Proof. apply InternalExample.no_devices. vm_compute. reflexivity. Qed.

End AdmissionExample.
