(* ===== verification/Relaying.v ===== *)
(** A fragment on its way through the relay, from one node's tunnel to the
    other's virtual device: the tunnel ([Tunnel]), the sender's relay client
    ([RelayClient]), the relay server's two sessions ([RelaySession],
    [RelayServer]), the receiver's client and its driver ([Driver]), with the bytes
    of both connections in between, read in any pieces. *)
From S2P Require Import Prelude Wire RelayCodec Noise PeerCodec RelayTransport.
From S2P Require Import RelaySession RelayServer RelayClient.
From S2P Require Import Tunnel Router MeshManager Driver.
#[local] Set Warnings "-clear-no-such-hyp".

(** ** Connections between two packets *)

(** A transport with the cipher, nothing queued and no packet half read. *)
Definition resting (c : Cipher) (t : securityTransporter) : Prop :=
  st_cipher t = Some c /\ idle (st_codec t) /\ st_chRead t = [] /\ st_chWrite t = [] /\ st_chWriteClosed t = false.
(** A client that is connected and a session that completed the handshake. *)
Definition resting_client {HS} (ci : Cipher) (c : RelayClient.Client HS) : Prop :=
  CipherOk ci /\ resting ci (cl_tr c) /\ cl_state c = ClientTransporterStateConnected /\ cl_closed c = false /\ cl_writer c = WriterSelect.
Definition resting_session (ci : Cipher) (s : Server) (l : nat) (ses : Session) : Prop :=
  session_running s l ses ci /\ resting ci (transporter ses) /\ closed ses = false.

(** The pieces in which a connection gives the bytes of a packet. *)
Definition session_gets (l : nat) (chunks : list bytes) (s : Server) : Server :=
  foldl (fun s ch => gstate (Read_turn l (Ok ch)) s) s chunks.
Definition client_gets {HS} (chunks : list bytes) (c : RelayClient.Client HS) : RelayClient.Client HS :=
  foldl (fun c ch => gstate (Reader_turn (Ok ch)) c) c chunks.

(** What the reading goroutines leave when the pieces decode. *)
Definition taken (c' : RelayCodec) (ps : list RawPacket) (t : securityTransporter) : securityTransporter :=
  set_chRead (st_chRead t ++ ps) (set_codec c' t).

Section Pieces.
Lemma taken_nil t : taken (st_codec t) [] t = t.
Proof. unfold taken. rewrite app_nil_r. by destruct t. Qed.
Lemma taken_taken c1 c2 ps1 ps2 t : taken c2 ps2 (taken c1 ps1 t) = taken c2 (ps1 ++ ps2) t.
Proof. unfold taken. cbn. unfold set_chRead, set_codec. cbn. by rewrite app_assoc. Qed.
(** One piece, and the rest of them. *)
Lemma decode_cons ch chunks c c' ps : decode_all (ch :: chunks) c = (c', Ok ps) ->
  exists c1 ps1 ps2, RelayCodec.Decode ch c = (c1, Ok ps1) /\ decode_all chunks c1 = (c', Ok ps2) /\ ps = ps1 ++ ps2.
Proof.
  cbn [decode_all]. cbv [mbind gom_bind mret gom_ret]. destruct (RelayCodec.Decode ch c) as [c1 [ps1| |]]; [|done..].
  destruct (decode_all chunks c1) as [c2 [ps2| |]] eqn:H2; [|done..]. intros [= <- <-]. by eexists c1, ps1, ps2.
Qed.

Lemma session_gets_ok l chunks : forall s ses c' ps, heap s !! l = Some ses ->
  decode_all chunks (st_codec (transporter ses)) = (c', Ok ps) ->
  session_gets l chunks s = set_heap (<[l := set_transporter (taken c' ps (transporter ses)) ses]> (heap s)) s.
Proof.
  unfold session_gets. induction chunks as [|ch chunks IH]; intros s ses c' ps Hl Hd.
  - injection Hd as <- <-. cbn [foldl]. rewrite taken_nil. destruct ses, s. cbn in *. unfold set_transporter, set_heap. cbn. by rewrite insert_id.
  - apply decode_cons in Hd as (c1 & ps1 & ps2 & H1 & H2 & ->). cbn [foldl].
    assert (gstate (Read_turn l (Ok ch)) s = set_heap (<[l := set_transporter (taken c1 ps1 (transporter ses)) ses]> (heap s)) s) as ->.
    { unfold gstate, Read_turn, read_turn. by rewrite Hl, H1. }
    rewrite (IH _ (set_transporter (taken c1 ps1 (transporter ses)) ses) c' ps2); [|by cbn; rewrite lookup_insert_eq|done].
    cbn [heap set_heap transporter set_transporter]. by rewrite insert_insert_eq, taken_taken.
Qed.
Lemma client_gets_ok {HS} chunks : forall (c : RelayClient.Client HS) c' ps,
  decode_all chunks (st_codec (cl_tr c)) = (c', Ok ps) -> client_gets chunks c = cl_set_tr (taken c' ps (cl_tr c)) c.
Proof.
  unfold client_gets. induction chunks as [|ch chunks IH]; intros c c' ps Hd.
  - injection Hd as <- <-. cbn [foldl]. rewrite taken_nil. by destruct c.
  - apply decode_cons in Hd as (c1 & ps1 & ps2 & H1 & H2 & ->). cbn [foldl].
    assert (gstate (Reader_turn (Ok ch)) c = cl_set_tr (taken c1 ps1 (cl_tr c)) c) as ->.
    { unfold gstate, Reader_turn, read_turn. by rewrite H1. }
    rewrite (IH _ c' ps2); [|done]. cbn [cl_tr cl_set_tr]. by rewrite taken_taken.
Qed.
End Pieces.

(** ** The hops *)

Section Hops.
Context `{HP : Proto} `{HPk : !ProtoOk} {HS : Type} `{HH : !Handshake HS}.

(** A message that is encrypted and fits a relay packet with its tag. *)
Definition sealable (t : PacketType) (m : Message) (bs : bytes) : Prop :=
  sharedProtos t = Some (kind_of m) /\ is_handshake t = false /\ Marshal m = Ok bs /\ zlen bs + 16 <= MaxMessageSize.
Definition sealed (ci : Cipher) (t : PacketType) (n : Z) (bs : bytes) : RawPacket := mkRawPacket t n (Encrypt ci n bs).

(** The client sends and its write goroutine writes one packet. *)
Lemma client_sends (c : RelayClient.Client HS) ci t m bs n : resting_client ci c -> sealable t m bs -> 0 <= n < 2 ^ 32 ->
  gresult (RelayClient.Send t m) c = Ok tt /\
  gresult (Writer_turn (WriterPacket n)) (gstate (RelayClient.Send t m) c) = Ok (frame (sealed ci t n bs)).
Proof.
  intros (Hc & (Hci & _ & _ & Hq & Hqc) & _ & Hcl & Hw) (Ht & Hh & Hm & Hl) Hn.
  destruct (writePacketHelper_sealed ci n t m bs Hc Hn Ht Hh Hm Hl) as [_ Hframe].
  assert (RelayClient.Send t m c = (cl_set_tr (set_chWrite [mkPacket t m] (cl_tr c)) c, Ok tt)) as Hs.
  { unfold RelayClient.Send. rewrite Hcl. unfold try_enqueue. by rewrite Hqc, Hq. }
  unfold gstate, gresult. rewrite Hs. split; [done|]. cbn [fst]. unfold Writer_turn. cbn [cl_writer cl_set_tr]. rewrite Hw.
  unfold write_turn. cbn [cl_tr cl_set_tr set_chWrite st_chWrite st_cipher]. by rewrite Hci, Hframe.
Qed.

(** The session reads the packet in pieces and forwards its message to the
    session of the destination, whose write goroutine writes it. *)
Lemma server_forwards (env : Env HS) (s : Server) la lb sa sb ca cb f bs k1 k2 chunks :
  resting_session ca s la sa -> resting_session cb s lb sb -> sessions s !! fw_DstPeerID f = Some lb -> la <> lb ->
  sealable PacketType_Forward (MForward f) bs -> 0 <= k1 < 2 ^ 32 -> 0 <= k2 < 2 ^ 32 ->
  concat chunks = frame (sealed ca PacketType_Forward k1 bs) ->
  gresult (Write_turn lb k2) (gstate (RelaySession.Serve_turn (handler env) la) (session_gets la chunks s)) =
    Ok (frame (sealed cb PacketType_Forward k2 bs)).
Proof.
  intros ((Hla & Hsta & Hcia & Hca) & (Hta & Hida & Hra & _) & Hcla) ((Hlb & Hstb & _ & Hcb) & (Htb & _ & _ & Hqb & Hqcb) & Hclb)
    Hdst Hne Hseal Hk1 Hk2 Hch.
  pose proof Hseal as (Ht & Hh & Hm & Hl).
  destruct (writePacketHelper_sealed ca k1 _ _ _ Hca Hk1 Ht Hh Hm Hl) as [Hok _].
  destruct (writePacketHelper_sealed cb k2 _ _ _ Hcb Hk2 Ht Hh Hm Hl) as [_ Hframe].
  destruct (decode_frame_pieces _ _ _ Hida Hok Hch) as (c' & Hd & _).
  rewrite (session_gets_ok la chunks s sa c' _ Hla Hd).
  set (sa0 := set_transporter (taken c' _ (transporter sa)) sa). set (s0 := set_heap (<[la := sa0]> (heap s)) s).
  set (sa1 := set_transporter (set_chRead [] (transporter sa0)) sa0). set (s1 := set_heap (<[la := sa1]> (heap s)) s).
  assert (RelaySession.Handle (handler env) la (sealed ca PacketType_Forward k1 bs) s1 =
    (set_heap (<[lb := enqueued PacketType_Forward (MForward f) sb]> (heap s1)) s1, Ok tt)) as HHd.
  { unfold sealed. rewrite (Handle_running (handler env) la s1 sa1 ca k1 PacketType_Forward (MForward f) bs onForward); [|..|done|done|done].
    - unfold onForward, Session_. cbv [mbind gom_bind gget]. change (sessions s1) with (sessions s). rewrite Hdst.
      apply Send_ok; [by cbn; rewrite lookup_insert_ne|]. split; [done|]. split; [done|]. by rewrite Hqb.
    - split; [by cbn; rewrite lookup_insert_eq|]. by split_and!. }
  assert (gstate (RelaySession.Serve_turn (handler env) la) s0 =
    set_heap (<[lb := enqueued PacketType_Forward (MForward f) sb]> (heap s1)) s1) as ->.
  { unfold gstate, RelaySession.Serve_turn, RelaySession.deref, RelaySession.update, gmodify. cbv [mbind gom_bind].
    assert (heap s0 !! la = Some sa0) as Hl0 by (cbn; by rewrite lookup_insert_eq). rewrite Hl0.
    assert (st_chRead (transporter sa0) = [sealed ca PacketType_Forward k1 bs]) as ->.
    { unfold sa0, taken. cbn [transporter set_transporter st_chRead set_chRead]. by rewrite Hra. }
    unfold gguard. rewrite alter_is_insert, Hl0. fold sa1.
    assert (set_heap (<[la := sa1]> (heap s0)) s0 = s1) as -> by (unfold s0, s1; cbn; by rewrite insert_insert_eq).
    by rewrite HHd. }
  unfold gresult, Write_turn. cbn [heap set_heap]. rewrite lookup_insert_eq. unfold write_turn, enqueued.
  cbn [transporter set_transporter st_chWrite set_chWrite st_cipher]. rewrite Hqb, Htb. cbn [app]. by rewrite Hframe.
Qed.

(** The client reads the packet in pieces and gives its message to the
    callback that is registered for it. *)
Lemma client_receives (c : RelayClient.Client HS) ci t m bs n chunks : resting_client ci c -> sealable t m bs -> 0 <= n < 2 ^ 32 ->
  concat chunks = frame (sealed ci t n bs) ->
  exists c1, forall (h : @RelayClient.ClientCallbacks HS) cb, h t = Some cb ->
    RelayClient.Serve_turn h (client_gets chunks c) =
      match cb t m c1 with (c', Panic w) => (c', Panic w) | (c', _) => (c', Ok true) end.
Proof.
  intros (Hc & (Hci & Hid & Hr & _) & Hst & _ & _) (Ht & Hh & Hm & Hl) Hn Hch.
  destruct (writePacketHelper_sealed ci n t m bs Hc Hn Ht Hh Hm Hl) as [Hok _].
  destruct (decode_frame_pieces _ _ _ Hid Hok Hch) as (c' & Hd & _). rewrite (client_gets_ok chunks c c' _ Hd).
  exists (cl_set_tr (set_chRead [] (taken c' [sealed ci t n bs] (cl_tr c))) c). intros h cb Hcb.
  unfold RelayClient.Serve_turn. cbn [cl_tr cl_set_tr taken set_chRead st_chRead set_codec]. rewrite Hr. cbn [app].
  unfold RelayClient.Handle. cbv [mbind gom_bind gget]. cbn [rp_Type sealed cl_state cl_set_tr]. rewrite Hst.
  rewrite bool_decide_eq_false_2 by done. cbn [andb]. rewrite Hcb. unfold cl_cipher. cbn [cl_tr cl_set_tr set_chRead st_cipher taken set_codec].
  rewrite Hci. cbv [glift]. cbn [rp_Nonce rp_Payload sealed]. rewrite decrypt_encrypt. by rewrite (Deserialize_known m t bs).
Qed.
End Hops.

(** ** Property *)

Section Relaying.
Context `{HP : Proto} `{HPk : !ProtoOk} {HS : Type} `{HH : !Handshake HS}.
Context {IP : Type} `{HIP : Countable IP} `{HNet : !NetAddr IP} `{HScan : !NetAddrScan IP}
  {R : Type} `{HRt : !Router.Router IP R} `{HKx : !KeyExchange} {RM : Type} `{HRm : !RelayOps RM}.

(** C5 (roundtrip).  A fragment crosses the relay.  Two nodes are connected to a
    relay server, each under a cipher of its own, and have paired tunnels; nothing
    is under way.  What the first writes to its tunnel, with no endpoint in reach,
    its client puts on the connection as one packet; the server, which reads it in
    whatever pieces, writes one packet to the other node's connection; and that
    node's client, whatever the pieces again, calls what is registered for forwards
    with exactly the message that was sent.  The driver's callback then queues for
    the device exactly the data that was written. *)
Theorem fragment_crosses_the_relay (a b : Tunnel) (data bs : bytes) (now n1 n2 k1 k2 : Z) (cA cB : RelayClient.Client HS)
    (ciA ciB : Cipher) (env : Env HS) (s : Server) (la lb : nat) (sa sb : Session) (d : @NodeDriver IP R RM) (l : nat) (p : PeerObj) :
  CipherOk (t_cipher a) -> t_cipher b = t_cipher a -> ReachableEndpoint now a = None ->
  Marshal (forwarded a n2 data) = Ok bs -> zlen bs + 16 <= MaxMessageSize -> 0 <= k1 < 2 ^ 32 -> 0 <= k2 < 2 ^ 32 ->
  resting_client ciA cA -> resting_session ciA s la sa -> sessions s !! t_peerID a = Some lb -> la <> lb ->
  resting_session ciB s lb sb -> resting_client ciB cB ->
  d_peerID d = t_peerID a -> mm_locked (d_mm d) = false ->
  mm_peers (d_mm d) !! t_localPeerID a = Some l -> mm_heap (d_mm d) !! l = Some p -> po_tunnel p = Some b ->
  exists msg rest w1 w2,
    gresult (Tunnel.Write now n1 n2 (Some (fun t m => gresult (RelayClient.Send t m) cA)) data) a =
      Ok (Relayed ((PacketType_Forward, msg) :: rest)) /\
    gresult (Writer_turn (WriterPacket k1)) (gstate (RelayClient.Send PacketType_Forward msg) cA) = Ok w1 /\
    (forall chunks, concat chunks = w1 ->
       gresult (Write_turn lb k2) (gstate (RelaySession.Serve_turn (handler env) la) (session_gets la chunks s)) = Ok w2) /\
    (forall chunks, concat chunks = w2 -> exists c1, forall (h : @RelayClient.ClientCallbacks HS) cb, h PacketType_Forward = Some cb ->
       RelayClient.Serve_turn h (client_gets chunks cB) =
         match cb PacketType_Forward msg c1 with (c', Panic w) => (c', Panic w) | (c', _) => (c', Ok true) end) /\
    gresult (OnForward msg) d = Ok tt /\ d_chDevWrite (gstate (OnForward msg) d) = d_chDevWrite d ++ [data].
Proof.
  intros Hc Hb Hr Hm Hlen Hk1 Hk2 HcA HsA Hdst Hne HsB HcB Hid Hl Hp Hh Ht.
  assert (sealable PacketType_Forward (forwarded a n2 data) bs) as Hseal by done.
  destruct (Write_relays a data now n1 n2 (fun t m => gresult (RelayClient.Send t m) cA)) as [rest Hw]; [done| |].
  { intros t m w. unfold gresult, RelayClient.Send. destruct (cl_closed cA); [done|]. by destruct (try_enqueue _ _ _) as [? [| |]]. }
  destruct (client_sends cA ciA _ _ bs k1 HcA Hseal Hk1) as [_ Hw1].
  exists (forwarded a n2 data), rest, (frame (sealed ciA PacketType_Forward k1 bs)), (frame (sealed ciB PacketType_Forward k2 bs)).
  split; [done|]. split; [done|]. split; [|split].
  - intros chunks Hch.
    by apply (server_forwards env s la lb sa sb ciA ciB (mkPacketForward (t_localPeerID a) (t_peerID a) n2 (Encrypt (t_cipher a) n2 data)) bs k1).
  - intros chunks Hch. by eapply client_receives.
  - by apply (OnForward_delivers d a b data n2 l p).
Qed.
End Relaying.

(** ** Witness *)

Module RelayingExample.
Import DriverExample.
#[local] Existing Instances Toy.proto Toy.proto_ok Toy.handshake MeshManager.Example.net MeshManager.Example.kx MeshManager.Example.clients
  DriverExample.ops.
Definition transport : securityTransporter := SetCipher Toy.cipher newSecurityTransporter.
Definition client : RelayClient.Client unit :=
  cl_set_state ClientTransporterStateConnected true (cl_set_tr transport (NewClient zero_RelayServer [])).
Definition session (p : PeerID) : Session := set_identity 9 p [] true (set_transporter transport newSession).
(** The nodes 1 and 2 in the sessions 0 and 1. *)
Definition relay : Server :=
  set_sessions (<[1 := 0%nat]> (<[2 := 1%nat]> ∅)) (set_heap (<[0%nat := session 1]> (<[1%nat := session 2]> ∅)) (NewServer HeartbeatInterval Toy.signature)).
Definition fragment : bytes := [Byte.x45].
Definition sealed_bytes : bytes := match Marshal (forwarded sender 4 fragment) with Ok bs => bs | _ => [] end.

Lemma client_rests : resting_client Toy.cipher client.
Proof. split; [apply Toy.cipher_ok|]. by split_and!. Qed.
Lemma session_rests l p : heap relay !! l = Some (session p) -> resting_session Toy.cipher relay l (session p).
Proof. intros H. split; [|by split_and!]. split_and!; [done..|apply Toy.cipher_ok]. Qed.

Lemma fragment_crosses_the_relay_witness : exists msg rest,
  gresult (Tunnel.Write 5 3 4 (Some (fun t m => gresult (RelayClient.Send t m) client)) fragment) sender =
    Ok (Relayed ((PacketType_Forward, msg) :: rest)) /\ d_chDevWrite (gstate (OnForward msg) paired2) = [fragment].
Proof.
  destruct (mm_peers (d_mm paired2) !! 1) as [l|] eqn:Hl; [|by vm_compute in Hl].
  assert (exists p b, mm_heap (d_mm paired2) !! l = Some p /\ po_tunnel p = Some b /\ t_cipher b = Toy.cipher) as (p & b & Hp & Hb & Hc).
  { vm_compute in Hl. injection Hl as <-. by eexists _, _. }
  destruct (fragment_crosses_the_relay sender b fragment sealed_bytes 5 3 4 7 8 client client Toy.cipher Toy.cipher (mkEnv 0 (Ok tt)) relay
    0%nat 1%nat (session 1) (session 2) paired2 l p) as (msg & rest & w1 & w2 & H1 & _ & _ & _ & _ & H2).
  - apply Toy.cipher_ok.
  - exact Hc.
  - by vm_compute.
  - by vm_compute.
  - by vm_compute.
  - lia.
  - lia.
  - apply client_rests.
  - by apply session_rests.
  - by vm_compute.
  - done.
  - by apply session_rests.
  - apply client_rests.
  - by vm_compute.
  - by vm_compute.
  - change (t_localPeerID sender) with 1. exact Hl.
  - exact Hp.
  - exact Hb.
  - exists msg, rest. split; [exact H1|]. rewrite H2. by vm_compute.
Defined.
End RelayingExample.
