(* ===== verification/Device.v ===== *)
(** The virtual network device on each platform: the packet framing of
    [node/device/tun/tun_darwin.go], the read loop and the rate of
    [tun_windows.go], the names of [tun_linux.go], and the commands of
    [device_*.go], [router_*.go], [runner/] and [firewall/].  The kernel behind
    a file descriptor, a Wintun session or a command is the environment. *)
From S2P Require Import Prelude GoText.
#[local] Set Warnings "-clear-no-such-hyp".

Definition DefaultMTU : Z := 1420.

(** ** The utun device of macOS *)

Module Darwin.
Definition AF_INET : Z := 2.
Definition AF_INET6 : Z := 30.

(** [tunReadCloser] with its file: the arrays behind [rBuf] and [wBuf], the
    frames the kernel has for the node or its errors, and those written. *)
Record tunReadCloser := mkTun {
  t_rBuf : bytes; t_wBuf : bytes; t_in : list (result bytes); t_out : list bytes; t_write_error : option error }.
Definition new_tun (incoming : list (result bytes)) : tunReadCloser := mkTun [] [] incoming [] None.

(** The array of a buffer for [n] bytes: a new one when it is too small. *)
Definition grow (buf : bytes) (n : Z) : bytes := if zlen buf <? n then go_make n else buf.

(** [f.Read(window)]: one frame, cut at the window. *)
Definition file_Read (window : bytes) (t : tunReadCloser) : tunReadCloser * bytes * Z * option error :=
  match t_in t with
  | Ok frame :: rest =>
    (mkTun (t_rBuf t) (t_wBuf t) rest (t_out t) (t_write_error t), go_copy window frame, Z.min (zlen frame) (zlen window), None)
  | Err e :: rest => (mkTun (t_rBuf t) (t_wBuf t) rest (t_out t) (t_write_error t), window, 0, Some e)
  | _ => (t, window, 0, Some (EExt "EOF"))
  end.

(** [Read(to)]: the buffer afterwards, the count and the error. *)
Definition Read (to_ : bytes) (t : tunReadCloser) : tunReadCloser * (bytes * Z * option error) :=
  let need := zlen to_ + 4 in
  let arr := grow (t_rBuf t) need in
  match file_Read (ztake need arr) t with
  | (t', window, n, err) =>
    (mkTun (window ++ zdrop need arr) (t_wBuf t') (t_in t') (t_out t') (t_write_error t'), (go_copy to_ (zdrop 4 window), n - 4, err))
  end.

(** The address family of a packet, by its IP version. *)
Definition family (from : bytes) : option Z :=
  match from with
  | [] => None
  | b :: _ =>
    let ipVer := Z.shiftr (byte.unsigned b) 4 in
    if ipVer =? 4 then Some AF_INET else if ipVer =? 6 then Some AF_INET6 else None
  end.
Definition Write (from : bytes) (t : tunReadCloser) : tunReadCloser * (Z * option error) :=
  if zlen from =? 0 then (t, (0, Some (EExt "input/output error")))
  else
    let need := zlen from + 4 in
    let arr := grow (t_wBuf t) need in
    match family from with
    | None => (mkTun (t_rBuf t) arr (t_in t) (t_out t) (t_write_error t), (0, Some (EMsg "Unable to determine IP version from packet")))
    | Some af =>
      let arr := <[3%nat := byte.of_Z af]> arr in
      let window := take 4 arr ++ from in
      let arr := window ++ zdrop need arr in
      match t_write_error t with
      | Some e => (mkTun (t_rBuf t) arr (t_in t) (t_out t) (Some e), (- 4, Some e))
      | None => (mkTun (t_rBuf t) arr (t_in t) (t_out t ++ [window]) None, (zlen window - 4, None))
      end
    end.

(** The frame of a packet: the family in four bytes, in network order. *)
Definition frame_of (af : Z) (p : bytes) : bytes := [Byte.x00; Byte.x00; Byte.x00; byte.of_Z af] ++ p.

(** A device in use. *)
Inductive used : tunReadCloser -> Prop :=
| used_new incoming : used (new_tun incoming)
| used_read t buf : used t -> used (Read buf t).1
| used_write t p : used t -> used (Write p t).1
| used_error t e : used t -> used (mkTun (t_rBuf t) (t_wBuf t) (t_in t) (t_out t) e).
End Darwin.

(** ** The Wintun device of Windows *)

Module Windows.
Definition rateMeasurementGranularity : Z := 500000000.
Definition spinloopRateThreshold : Z := 100000000.
Definition spinloopDuration : Z := 12500.

(** [rateJuggler]: unsigned 64-bit counters; [changing] is a lock that is
    free between the turns. *)
Record rateJuggler := mkRate { current : Z; nextByteCount : Z; nextStartTime : Z }.
Definition update (now packetLen : Z) (r : rateJuggler) : rateJuggler :=
  let total := u64 (nextByteCount r + packetLen) in
  let period := u64 (now - nextStartTime r) in
  if rateMeasurementGranularity <=? period then mkRate (u64 (total * 1000000000) / period) 0 now
  else mkRate (current r) total (nextStartTime r).

(** What [ReceivePacket] gives. *)
Inductive receive := Packet (p : bytes) | NoMoreItems | HandleEOF | InvalidData | Failed (e : error).
(** One pass of the read loop: the clock before and after it receives, whether
    the device was closed, and what is received. *)
Record pass := mkPass { ps_start : Z; ps_now : Z; ps_closed : bool; ps_recv : receive }.
Definition ErrClosed : error := EMsg "file already closed".

Definition shouldSpin (r : rateJuggler) (start : Z) : bool :=
  (spinloopRateThreshold <=? current r) && (u64 (start - nextStartTime r) <=? rateMeasurementGranularity * 2).

(** The loop of [Read]; without a start time it is at [retry].  It gives the
    packet and the rate, or nothing while it still waits. *)
Fixpoint read_loop (passes : list pass) (start : option (Z * bool)) (r : rateJuggler) : option (result bytes * rateJuggler) :=
  match passes with
  | [] => None
  | p :: passes =>
    let '(t0, spin) := match start with Some s => s | None => (ps_start p, shouldSpin r (ps_start p)) end in
    if ps_closed p then Some (Err ErrClosed, r)
    else match ps_recv p with
         | Packet b => Some (Ok b, update (ps_now p) (zlen b) r)
         | NoMoreItems =>
           if negb spin || (spinloopDuration <=? u64 (ps_now p - t0)) then read_loop passes None r
           else read_loop passes (Some (t0, spin)) r
         | HandleEOF => Some (Err ErrClosed, r)
         | InvalidData => Some (Err (EMsg "Send ring corrupt"), r)
         | Failed e => Some (Err (EWrap "Read failed" e), r)
         end
  end.
(** [Read] into a buffer: the buffer and the size of the packet, which may be
    larger than the buffer. *)
Definition Read (buff : bytes) (passes : list pass) (r : rateJuggler) : option (result (bytes * Z) * rateJuggler) :=
  match read_loop passes None r with
  | Some (Ok b, r') => Some (Ok (go_copy buff b, zlen b), r')
  | Some (Err e, r') => Some (Err e, r')
  | Some (Panic w, r') => Some (Panic w, r')
  | None => None
  end.

(** What [AllocateSendPacket] gives. *)
Inductive allocate := Allocated | SendEOF | BufferOverflow | SendFailed (e : error).
(** [Write]: the packet sent, the count or the error, and the rate. *)
Definition Write (now : Z) (closed : bool) (a : allocate) (buff : bytes) (r : rateJuggler) : option bytes * result Z * rateJuggler :=
  if closed then (None, Err ErrClosed, r)
  else
    let r' := update now (zlen buff) r in
    match a with
    | Allocated => (Some buff, Ok (zlen buff), r')
    | SendEOF => (None, Err ErrClosed, r')
    | BufferOverflow => (None, Ok 0, r')
    | SendFailed e => (None, Err (EWrap "Write failed" e), r')
    end.

(** The first thing received that is not the empty ring, unless the device
    is closed before. *)
Fixpoint first_outcome (passes : list pass) : option (result bytes) :=
  match passes with
  | [] => None
  | p :: passes =>
    if ps_closed p then Some (Err ErrClosed)
    else match ps_recv p with
         | Packet b => Some (Ok b)
         | NoMoreItems => first_outcome passes
         | HandleEOF => Some (Err ErrClosed)
         | InvalidData => Some (Err (EMsg "Send ring corrupt"))
         | Failed e => Some (Err (EWrap "Read failed" e))
         end
  end.
End Windows.

(** ** Commands *)

Section Commands.
(** Running a command changes the world and gives its output or an error. *)
Context {W : Type} (exec : list string -> GoM W string).

Definition join (l : list string) : string := String.concat " " l.
(** [runner.Run]. *)
Definition Run (args : list string) : GoM W unit :=
  match args with
  | [] => gthrow (EMsg "cmd: no argv[0]")
  | _ => _ ← gwrap ("running " ++ join args ++ " failed")%string (exec args); mret tt
  end.

(** A prefix as the routers print it: its address, the masked prefix, the
    masked network and the length, and whether it is IPv6. *)
Record Target := mkTarget { tg_IP : string; tg_Masked : string; tg_Network : string; tg_Bits : Z; tg_Is6 : bool }.

(** [device_linux.go] and [router_linux.go]. *)
Definition linux_Up (name address : string) : GoM W unit :=
  _ ← Run ["ip"; "addr"; "add"; address ++ "/" ++ pretty 32; "dev"; name]%string;
  Run ["ip"; "link"; "set"; "dev"; name; "up"]%string.
Definition linux_Down (name : string) : GoM W unit := Run ["ip"; "link"; "set"; "dev"; name; "down"]%string.
Definition linux_add (name localAddress : string) (t : Target) : GoM W unit :=
  Run ["ip"; "route"; "add"; tg_Masked t; "via"; localAddress]%string.
Definition linux_del (name localAddress : string) (t : Target) : GoM W unit :=
  Run ["ip"; "route"; "del"; tg_Masked t; "via"; localAddress]%string.

(** [device_darwin.go] and [router_bsd.go]. *)
Definition darwin_Up (name address : string) : GoM W unit := Run ["ifconfig"; name; "inet"; address; address; "up"]%string.
Definition darwin_Down : GoM W unit := mret tt.
Definition inet (t : Target) : string := if tg_Is6 t then "inet6" else "inet".
Definition bsdAdd (devName localAddress : string) (t : Target) : GoM W unit :=
  Run ["route"; "-q"; "-n"; "add"; "-" ++ inet t; tg_Network t ++ "/" ++ pretty (tg_Bits t); "-iface"; devName]%string.
Definition bsdDel (darwin : bool) (devName localAddress : string) (t : Target) : GoM W unit :=
  Run ["route"; "-q"; "-n"; if darwin then "delete" else "del"; "-" ++ inet t; tg_Network t ++ "/" ++ pretty (tg_Bits t);
       "-iface"; devName]%string.

(** [device_windows.go] and [router_windows.go]; the firewall is set up on
    the side. *)
Definition windows_Up (name address : string) : GoM W unit :=
  _ ← Run ["netsh"; "interface"; "ip"; "set"; "address"; "name=" ++ quoted name; "addr=" ++ address; "gateway=none"]%string;
  Run ["netsh"; "interface"; "set"; "interface"; quoted name; "enable"]%string.
Definition windows_Down (name : string) : GoM W unit :=
  Run ["netsh"; "interface"; "set"; "interface"; quoted name; "disable"]%string.
Definition windows_add (name localAddress : string) (t : Target) : GoM W unit :=
  Run ["route"; "add"; tg_IP t; "mask"; tg_Masked t; localAddress]%string.
Definition windows_del (name localAddress : string) (t : Target) : GoM W unit :=
  Run ["route"; "delete "; tg_IP t; "mask"; tg_Masked t]%string.

(** [firewall.Setup]: every failure is logged and the next command runs. *)
Definition firewallNameIn : string := "PairMesh-In".
Definition firewallNameProcess : string := "PairMesh-Process".
Definition netsh (args : list string) : GoM W unit := gignore (exec ("netsh"%string :: args)).
Definition clear : GoM W unit :=
  _ ← netsh ["advfirewall"; "firewall"; "delete"; "rule"; "name=" ++ firewallNameIn; "dir=in"]%string;
  netsh ["advfirewall"; "firewall"; "delete"; "rule"; "name=" ++ firewallNameProcess; "dir=in"]%string.
Definition Setup (exe addr : string) : GoM W unit :=
  _ ← clear;
  _ ← netsh ["advfirewall"; "firewall"; "add"; "rule"; "name=" ++ firewallNameProcess; "dir=in"; "action=allow"; "edge=yes";
             "program=" ++ quoted exe; "protocol=udp"; "profile=any"; "enable=yes"]%string;
  netsh ["advfirewall"; "firewall"; "add"; "rule"; "name=" ++ firewallNameIn; "dir=in"; "action=allow"; "localip=" ++ addr;
         "profile=any"; "enable=yes"]%string.
End Commands.

(** The name and the flags of [setDeviceName]: 16 bytes of name, with their
    terminator, and the request's flags in the machine's order. *)
Definition IFNAMSIZ : Z := 16.
Definition ifReqSize : Z := IFNAMSIZ + 64.
Definition IFF_TUN : Z := 1.
Definition IFF_NO_PI : Z := 4096.
Definition ifr_of (name : bytes) : result bytes :=
  let ifr := go_make ifReqSize in
  if IFNAMSIZ <=? zlen name then Err (EWrap "interface name too long" (EExt "file name too long"))
  else
    let ifr := go_copy ifr name in
    let flags := Z.lor IFF_TUN IFF_NO_PI in
    Ok (<[16%nat := byte.of_Z flags]> (<[17%nat := byte.of_Z (Z.shiftr flags 8)]> ifr)).

(** ** Lemmas *)

Module DarwinFacts.
Import Darwin.

(** The three bytes before the family stay zero: only the family and the
    packet are written. *)
Definition clean (t : tunReadCloser) : Prop := take 3 (t_wBuf t) = replicate (length (take 3 (t_wBuf t))) Byte.x00.

Lemma length_grow buf n : n <= zlen (grow buf n).
Proof. unfold grow, go_make. destruct (Z.ltb_spec (zlen buf) n); [unfold zlen; rewrite length_replicate; lia|lia]. Qed.
Lemma take_grow (buf : bytes) n : 4 <= n -> take 3 buf = replicate (length (take 3 buf)) Byte.x00 ->
  take 3 (grow buf n) = replicate 3 Byte.x00.
Proof.
  intros Hn Hc. unfold grow, go_make. destruct (Z.ltb_spec (zlen buf) n) as [Hl|Hl].
  - rewrite take_replicate. f_equal. lia.
  - rewrite Hc. f_equal. rewrite length_take. unfold zlen in Hl. lia.
Qed.

(** The header that goes before a packet. *)
Lemma header_of (arr : bytes) af : take 3 arr = replicate 3 Byte.x00 -> 4 <= zlen arr ->
  take 4 (<[3%nat := byte.of_Z af]> arr) = [Byte.x00; Byte.x00; Byte.x00; byte.of_Z af].
Proof.
  intros H3 Hl. destruct arr as [|a [|b [|c [|d arr]]]]; unfold zlen in Hl; cbn in Hl; try lia.
  cbn in H3. injection H3 as -> -> ->. done.
Qed.

Lemma zlen_nonempty (p : bytes) af : family p = Some af -> 0 < zlen p.
Proof. destruct p; [done|]. intros _. unfold zlen. cbn. lia. Qed.

Lemma Write_family p af t : family p = Some af -> clean t ->
  Write p t = let need := zlen p + 4 in
    let arr := frame_of af p ++ zdrop need (<[3%nat := byte.of_Z af]> (grow (t_wBuf t) need)) in
    match t_write_error t with
    | Some e => (mkTun (t_rBuf t) arr (t_in t) (t_out t) (Some e), (- 4, Some e))
    | None => (mkTun (t_rBuf t) arr (t_in t) (t_out t ++ [frame_of af p]) None, (zlen p, None))
    end.
Proof.
  intros Hf Hc. pose proof (zlen_nonempty p af Hf) as Hp. unfold Write. destruct (Z.eqb_spec (zlen p) 0); [lia|]. rewrite Hf.
  rewrite header_of; [|by apply take_grow; [lia|]|pose proof (length_grow (t_wBuf t) (zlen p + 4)); lia]. cbn zeta.
  fold (frame_of af p). destruct (t_write_error t); [done|]. f_equal. f_equal. unfold frame_of. rewrite zlen_app. unfold zlen at 1. cbn. lia.
Qed.

Lemma clean_Write p t : clean t -> clean (Write p t).1.
Proof.
  intros Hc. unfold Write. destruct (Z.eqb_spec (zlen p) 0) as [|Hz]; [done|]. pose proof (zlen_nonneg p).
  destruct (family p) as [af|] eqn:Hf.
  - pose proof (Write_family p af t Hf Hc) as Hw. unfold Write in Hw. destruct (Z.eqb_spec (zlen p) 0); [done|]. rewrite Hf in Hw. rewrite Hw.
    unfold clean. by destruct (t_write_error t).
  - unfold clean. cbn. rewrite take_grow; [done|lia|done].
Qed.

Lemma used_clean t : used t -> clean t.
Proof.
  induction 1 as [incoming|t buf _ IH|t p _ IH|t e _ IH]; [done| |by apply clean_Write|done].
  unfold clean, Read, file_Read in *. destruct (t_in t) as [|[f|e|w] rest]; cbn; exact IH.
Qed.

(** Reading a frame that fits. *)
Lemma Read_frame buf t frame rest : t_in t = Ok frame :: rest -> 4 <= zlen frame <= zlen buf + 4 ->
  exists t' tail, Read buf t = (t', (drop 4 frame ++ tail, zlen frame - 4, None)) /\ t_in t' = rest /\ t_out t' = t_out t.
Proof.
  intros Hi Hl. unfold Read, file_Read. rewrite Hi. set (window := ztake _ (grow _ _)).
  pose proof (length_grow (t_rBuf t) (zlen buf + 4)) as Hg.
  assert (zlen window = zlen buf + 4) as Hw by (apply zlen_ztake; pose proof (zlen_nonneg buf); lia).
  assert (go_copy window frame = frame ++ drop (length frame) window) as Hc.
  { unfold go_copy. rewrite take_ge; [done|]. unfold zlen in *. lia. }
  rewrite Hc.
  assert (zdrop 4 (frame ++ drop (length frame) window) = drop 4 frame ++ drop (length frame) window) as ->.
  { unfold zdrop. rewrite drop_app_le; [done|]. unfold zlen in *. lia. }
  rewrite go_copy_same by (rewrite length_app, !length_drop; unfold zlen in *; lia).
  replace (Z.min (zlen frame) (zlen window)) with (zlen frame) by lia.
  eexists _, (drop (length frame) window). split; [reflexivity|done].
Qed.
End DarwinFacts.

(** ** Properties *)

(** However the device was used before - buffers of any size
    are kept and grown - an IPv4 or IPv6 packet leaves the node as one frame:
    its address family in four bytes, then the packet, the count being the
    packet's; and such a frame read into a buffer with room for it gives back
    the packet and its length. *)
Theorem utun_frames_packets (t t2 : Darwin.tunReadCloser) (p buf : bytes) (af : Z) (rest : list (result bytes)) :
  Darwin.used t -> Darwin.family p = Some af -> Darwin.t_write_error t = None ->
  Darwin.t_in t2 = Ok (Darwin.frame_of af p) :: rest -> zlen p <= zlen buf ->
  (exists t', Darwin.Write p t = (t', (zlen p, None)) /\ Darwin.t_out t' = Darwin.t_out t ++ [Darwin.frame_of af p] /\
     Darwin.used t') /\
  (exists t2' buf', Darwin.Read buf t2 = (t2', (buf', zlen p, None)) /\ ztake (zlen p) buf' = p /\ Darwin.t_in t2' = rest).
Proof.
  intros Hu Hf He Hin Hl. split.
  - pose proof (DarwinFacts.Write_family p af t Hf (DarwinFacts.used_clean t Hu)) as Hw. cbn zeta in Hw. rewrite He in Hw.
    eexists. split; [exact Hw|]. split; [done|]. pose proof (Darwin.used_write t p Hu) as Hu'. by rewrite Hw in Hu'.
  - assert (zlen (Darwin.frame_of af p) = zlen p + 4) as Hfl by (unfold Darwin.frame_of; rewrite zlen_app; unfold zlen at 1; cbn; lia).
    pose proof (zlen_nonneg p).
    destruct (DarwinFacts.Read_frame buf t2 (Darwin.frame_of af p) rest Hin ltac:(lia)) as (t2' & tail & Hr & Hi & _).
    rewrite Hfl in Hr. replace (zlen p + 4 - 4) with (zlen p) in Hr by lia. eexists _, _. split; [exact Hr|]. split; [|done].
    change (drop 4 (Darwin.frame_of af p)) with p. unfold ztake, zlen. by rewrite Nat2Z.id, take_app_length.
Qed.

(** Spinning is invisible: whatever the measured rate and
    the clock say - so whether the loop spins, stops spinning or waits - a read
    on Windows gives what the ring gives first, the first packet or the first
    error, or that the device was closed before; it waits exactly as long as
    the ring is empty. *)
Theorem spinning_is_invisible (passes : list Windows.pass) (start : option (Z * bool)) (r : Windows.rateJuggler) :
  fst <$> Windows.read_loop passes start r = Windows.first_outcome passes.
Proof.
  revert start. induction passes as [|p passes IH]; intros start; [done|]. cbn.
  destruct (match start with Some s => s | None => _ end) as [t0 spin].
  destruct (Windows.ps_closed p); [done|]. destruct (Windows.ps_recv p); [done| |done..].
  destruct (negb spin || _); apply IH.
Qed.

(** ** Examples *)

Module DeviceExample.
Import Darwin.
Definition ping : bytes := Byte.x45 :: replicate 19 Byte.x01.
(** A device that has written a longer packet before. *)
Definition busy : tunReadCloser := (Write (Byte.x60 :: replicate 39 Byte.x09) (new_tun [])).1.
Definition arriving : tunReadCloser := new_tun [Ok (frame_of AF_INET ping)].
Lemma utun_frames_packets_witness :
  exists t', Write ping busy = (t', (20, None)) /\ t_out t' = t_out busy ++ [frame_of AF_INET ping].
Proof.
  destruct (utun_frames_packets busy arriving ping (go_make 4096) AF_INET []
    (used_write _ _ (used_new [])) eq_refl eq_refl eq_refl ltac:(vm_compute; discriminate)) as ((t' & H1 & H2 & _) & _).
  exists t'. split; [exact H1|exact H2].
Defined.

(** A failed read counts less than nothing. *)
Example failed_read_is_negative :
  (Read (go_make 4096) (new_tun [Err (EExt "interrupted")])).2.1.2 = - 4.
Proof. by vm_compute. Qed.
(** So does a frame that is shorter than its header, without an error. *)
Example short_frame_is_negative :
  let '(_, n, e) := (Read (go_make 4096) (new_tun [Ok [Byte.x00]])).2 in n = - 3 /\ e = None.
Proof. by vm_compute. Qed.

(** The name of the device fits the request, with its terminator. *)
Example device_name_fits : is_ok (ifr_of (bytes_of_string "pairmesh0")) = true /\
  is_ok (ifr_of (bytes_of_string "pairmesh01234567")) = false.
Proof. by vm_compute. Qed.

(** The commands run, kept in a list; one of them fails. *)
Definition logged (failing : string) (args : list string) : GoM (list (list string)) string := fun w =>
  (w ++ [args], if bool_decide (failing ∈ args) then Err (EExt "exit status 1") else Ok ""%string).
(** A deletion on Windows asks for another command than an addition, with the
    prefix in the place of a mask. *)
Example windows_delete :
  let t := mkTarget "10.0.0.2" "10.0.0.2/32" "10.0.0.2" 32 false in
  gstate (windows_add (logged "") "PairMesh" "10.0.0.1" t) [] = [["route"; "add"; "10.0.0.2"; "mask"; "10.0.0.2/32"; "10.0.0.1"]%string] /\
  gstate (windows_del (logged "") "PairMesh" "10.0.0.1" t) [] = [["route"; "delete "; "10.0.0.2"; "mask"; "10.0.0.2/32"]%string].
Proof. by vm_compute. Qed.
(** The link is not set up when the address cannot be set. *)
Example failed_address_stops_up :
  length (gstate (linux_Up (logged "add") "pairmesh0" "10.0.0.1") []) = 1%nat /\
  is_ok (gresult (linux_Up (logged "add") "pairmesh0" "10.0.0.1") []) = false.
Proof. by vm_compute. Qed.
End DeviceExample.
