(* ===== verification/DeviceOpen.v ===== *)
(** Opening the virtual network device: [NewTUN] of
    [node/device/tun/tun_linux.go], [tun_darwin.go] and [tun_windows.go], and
    the closing of the Windows device.  The system calls and the Wintun adapter
    are the environment: a kernel is a state with the calls the code makes, and
    its law says which descriptors they open and close. *)
From S2P Require Import Prelude GoText Device.
#[local] Set Warnings "-clear-no-such-hyp".
#[local] Open Scope string_scope.

(** ** The kernel *)

(** A descriptor is a number; an argument of [ioctl] or [connect] is the bytes
    of the structure, and [ioctl] gives them back as the kernel left them. *)
Class Kernel (K : Type) := {
  sys_open : string -> GoM K Z;
  sys_socket : Z -> Z -> Z -> GoM K Z;
  sys_ioctl : Z -> Z -> bytes -> GoM K bytes;
  sys_connect : Z -> bytes -> GoM K unit;
  sys_getsockopt : Z -> Z -> Z -> Z -> GoM K (bytes * Z);
  sys_ifmtu : Z -> string -> Z -> GoM K unit;
  sys_nonblock : Z -> GoM K unit;
  sys_close : Z -> GoM K unit }.

Section Descriptors.
Context {K : Type} (fds : K -> gset Z).
(** A call that opens one descriptor or fails, and one that opens and closes
    none. *)
Definition opens (m : GoM K Z) : Prop := forall k,
  match m k with
  | (k', Ok fd) => (fd ∉ fds k) /\ fds k' = ({[fd]} ∪ fds k)
  | (k', Err _) => fds k' = fds k
  | (_, Panic _) => False
  end.
Definition keeps {A} (m : GoM K A) : Prop := forall k,
  match m k with (k', Ok _) | (k', Err _) => fds k' = fds k | (_, Panic _) => False end.
End Descriptors.

Class KernelOk (K : Type) `{!Kernel K} := {
  fds : K -> gset Z;
  open_opens : forall path, opens fds (sys_open path);
  socket_opens : forall domain typ proto, opens fds (sys_socket domain typ proto);
  ioctl_keeps : forall fd req arg, keeps fds (sys_ioctl fd req arg);
  connect_keeps : forall fd arg, keeps fds (sys_connect fd arg);
  getsockopt_keeps : forall fd level opt size, keeps fds (sys_getsockopt fd level opt size);
  ifmtu_keeps : forall fd name mtu, keeps fds (sys_ifmtu fd name mtu);
  nonblock_keeps : forall fd, keeps fds (sys_nonblock fd);
  getsockopt_size : forall fd level opt size k k' b n,
    0 < size -> sys_getsockopt fd level opt size k = (k', Ok (b, n)) -> zlen b = size /\ 1 <= n <= size;
  close_closes : forall fd k, fds (gstate (sys_close fd) k) = (fds k ∖ {[fd]}) /\ is_panic (gresult (sys_close fd) k) = false }.

(** ** Opening *)

(** [defer unix.Close(fd)]: whatever the body does. *)
Definition closing {K} `{!Kernel K} {A} (fd : Z) (m : GoM K A) : GoM K A := fun k =>
  let (k', r) := m k in (gstate (sys_close fd) k', r).

(** [generalDevice]: its name and the descriptor of its file. *)
Record generalDevice := mkDevice { g_name : string; g_fd : Z; g_file : string }.

Definition AF_INET : Z := 2.
Definition SOCK_DGRAM : Z := 2.

(** *** Linux ([tun_linux.go]) *)

Module Linux.
Section Open.
Context {K : Type} `{!Kernel K}.
Definition cloneDevicePath : string := "/dev/net/tun".
Definition TUNSETIFF : Z := 1074025674.
Definition SIOCSIFMTU : Z := 35106.
Definition is_not_exist (e : error) : bool := bool_decide (e = EExt "no such file or directory").

Definition setDeviceName (nfd : Z) (name : string) : GoM K unit :=
  ifr ← glift (ifr_of (bytes_of_string name));
  _ ← sys_ioctl nfd TUNSETIFF ifr; mret tt.
(** The request with the name and, behind it, the MTU in the machine's order. *)
Definition mtu_request (name : bytes) : bytes :=
  let r := go_copy (go_make ifReqSize) name in
  take 16 r ++ rev (be_put 4 DefaultMTU) ++ drop 20 r.
Definition setmtu (name : string) : GoM K unit :=
  fd ← sys_socket AF_INET SOCK_DGRAM 0;
  closing fd (fun k =>
    match sys_ioctl fd SIOCSIFMTU (mtu_request (bytes_of_string name)) k with
    | (k', Ok _) => (k', Ok tt)
    | (k', Err _) => (k', Err (EMsg "failed to set MTU of TUN device"))
    | (k', Panic w) => (k', Panic w)
    end).
Definition open_clone (name : string) : GoM K Z := fun k =>
  match sys_open cloneDevicePath k with
  | (k', Err e) =>
    (k', Err (if is_not_exist e then EMsg ("CreateTUN(" ++ quoted name ++ ") failed; " ++ cloneDevicePath ++ " does not exist") else e))
  | r => r
  end.
Definition NewTUN (name : string) : GoM K generalDevice :=
  nfd ← open_clone name;
  _ ← setDeviceName nfd name;
  _ ← setmtu name;
  _ ← sys_nonblock nfd;
  mret (mkDevice name nfd ("pairmeshDeviceFile/" ++ pretty nfd)).
(** [NewDevice] of [device_linux.go]. *)
Definition NewDevice : GoM K generalDevice := NewTUN "pairmesh0".
End Open.
End Linux.

(** *** macOS ([tun_darwin.go]) *)

Module Darwin_.
Section Open.
Context {K : Type} `{!Kernel K}.
Definition appleUTUNCtl : string := "com.apple.net.utun_control".
Definition appleCTLIOCGINFO : Z :=
  Z.lor (Z.lor (Z.lor (Z.lor 1073741824 2147483648) (Z.shiftl (Z.land 100 8191) 16)) (Z.shiftl 78 8)) 3.
Definition AF_SYSTEM : Z := 32.
Definition sockaddrCtlSize : Z := 32.

(** Numbers in the machine's order. *)
Definition le (n : nat) (w : Z) : bytes := rev (be_put n w).
Definition le_get (bs : bytes) : Z := be_get (rev bs).
(** [ctlInfo]: the identifier, which the kernel fills in, and the name. *)
Definition ctl_info : bytes := le 4 0 ++ go_copy (go_make 96) (bytes_of_string appleUTUNCtl).
(** [sockaddrCtl]. *)
Record sockaddrCtl := mkSockaddr { scLen : Z; scFamily : Z; ssSysaddr : Z; scID : Z; scUnit : Z; scReserved : list Z }.
Definition sockaddr_bytes (s : sockaddrCtl) : bytes :=
  le 1 (scLen s) ++ le 1 (scFamily s) ++ le 2 (ssSysaddr s) ++ le 4 (scID s) ++ le 4 (scUnit s) ++ concat (map (le 4) (scReserved s)).

Definition setmtu (name : string) : GoM K unit :=
  fd ← sys_socket AF_INET SOCK_DGRAM 0;
  closing fd (gwrap ("failed to set MTU on " ++ name) (sys_ifmtu fd name DefaultMTU)).
(** [setNonBlock] of [tun_darwin_go1.11.go]; [NewTUN] drops its error. *)
Definition setNonBlock (fd : Z) : GoM K unit := fun k =>
  match sys_nonblock fd k with (k', Err _) => (k', Err (EMsg "setting non-blocking error")) | r => r end.
Definition NewTUN : GoM K generalDevice :=
  fd ← gwrap "error in syscall.Socket" (sys_socket AF_SYSTEM SOCK_DGRAM 2);
  info ← gwrap "error in syscall.Syscall(syscall.SYS_IOCTL, ...)" (sys_ioctl fd appleCTLIOCGINFO ctl_info);
  let addr := mkSockaddr sockaddrCtlSize AF_SYSTEM 2 (le_get (take 4 info)) 0 [0; 0; 0; 0; 0]%Z in
  _ ← gwrap "error in syscall.RawSyscall(syscall.SYS_CONNECT, ...)" (sys_connect fd (sockaddr_bytes addr));
  opt ← gwrap "error in syscall.Syscall6(syscall.SYS_GETSOCKOPT, ...)" (sys_getsockopt fd 2 2 16);
  let '(ifName, ifNameSize) := opt in
  _ ← setNonBlock fd;
  name ← glift (go_slice ifName 0 (u64 (ifNameSize - 1)));
  let name := String.string_of_list_byte name in
  _ ← setmtu name;
  mret (mkDevice name fd (String.string_of_list_byte ifName)).
End Open.
End Darwin_.

(** *** Windows ([tun_windows.go]) *)

Module WindowsDevice.
Definition WintunTunnelName : string := "PairMesh".
Definition WintunTunnelType : string := "PairMesh".
Definition WintunStaticRequestedGUID : string := "{418099dd-0ee3-4624-96ae-fef1070f8777}".
Definition ring_capacity : Z := 8388608.

Section Wintun.
(** The driver's state with the calls of the [wintun] package. *)
Context {W Adapter Session Event : Type}
  (Uninstall : GoM W unit) (CreateAdapter : string -> string -> string -> GoM W Adapter)
  (StartSession : Adapter -> Z -> GoM W Session) (ReadWaitEvent : Session -> Event)
  (SetEvent : Event -> GoM W unit) (End_ : Session -> GoM W unit) (CloseAdapter : Adapter -> GoM W unit).

Record windowsDevice := mkWindows { w_name : string; w_wt : Adapter; w_session : Session; w_readWait : Event; w_forcedMTU : Z }.
(** The session; without one the adapter is closed. *)
Definition start (wt : Adapter) : GoM W Session := fun w =>
  match StartSession wt ring_capacity w with
  | (w', Err e) => (gstate (CloseAdapter wt) w', Err (EWrap "Error starting session" e))
  | r => r
  end.
Definition NewTUN : GoM W windowsDevice :=
  _ ← gignore Uninstall;
  wt ← gwrap "Error creating interface" (CreateAdapter WintunTunnelName WintunTunnelType WintunStaticRequestedGUID);
  s ← start wt;
  mret (mkWindows WintunTunnelName wt s (ReadWaitEvent s) DefaultMTU).

(** [Close]: the flag of [closeOnce], which is also [close], and the driver;
    [running] are the readers that still have to leave.  It waits for them. *)
Record Closing := mkClosing { c_closed : bool; c_driver : W }.
Definition on_driver {A} (m : GoM W A) : GoM Closing A := fun c =>
  let (w, r) := m (c_driver c) in (mkClosing (c_closed c) w, r).
Definition Close (d : windowsDevice) : GoM Closing unit :=
  c ← gget;
  if c_closed c then mret tt
  else
    _ ← gmodify (fun c => mkClosing true (c_driver c));
    _ ← gignore (on_driver (SetEvent (w_readWait d)));
    _ ← gignore (on_driver (End_ (w_session d)));
    gignore (on_driver (CloseAdapter (w_wt d))).
End Wintun.
End WindowsDevice.

(** ** Lemmas *)

Section Facts.
Context {K : Type} `{HO : KernelOk K}.

(** What a computation may leave open beyond what was: nothing, or exactly the
    descriptor it holds. *)
Definition holds (fd : option Z) (before : gset Z) (k : K) : Prop :=
  match fd with None => fds k = before | Some fd => (fd ∉ before) /\ fds k = ({[fd]} ∪ before) end.

Lemma keeps_bind_of {A B} (m : GoM K A) (f : A -> GoM K B) :
  keeps fds m -> (forall a k k', m k = (k', Ok a) -> keeps fds (f a)) -> keeps fds (m ≫= f).
Proof.
  intros Hm Hf k. cbv [mbind gom_bind]. specialize (Hm k). destruct (m k) as [k1 [a|e|w]] eqn:Hk; [|done..].
  specialize (Hf a k k1 Hk k1). destruct (f a k1) as [k2 [b|e|w]]; by rewrite ?Hf.
Qed.
Lemma keeps_bind {A B} (m : GoM K A) (f : A -> GoM K B) : keeps fds m -> (forall a, keeps fds (f a)) -> keeps fds (m ≫= f).
Proof. intros Hm Hf. apply keeps_bind_of; [done|]. by intros a _ _ _. Qed.
Lemma keeps_ret {A} (a : A) : keeps fds (mret a : GoM K A).
Proof. by intros k. Qed.
Lemma keeps_wrap {A} msg (m : GoM K A) : keeps fds m -> keeps fds (gwrap msg m).
Proof. intros Hm k. specialize (Hm k). unfold gwrap. by destruct (m k) as [k1 [a|e|w]]. Qed.
Lemma opens_wrap msg (m : GoM K Z) : opens fds m -> opens fds (gwrap msg m).
Proof. intros Hm k. specialize (Hm k). unfold gwrap. by destruct (m k) as [k1 [a|e|w]]. Qed.

(** A socket that is closed again leaves nothing. *)
Lemma keeps_closing {A} (m : GoM K Z) (f : Z -> GoM K A) : opens fds m -> (forall fd, keeps fds (f fd)) ->
  keeps fds (fd ← m; closing fd (f fd)).
Proof.
  intros Hm Hf k. cbv [mbind gom_bind]. specialize (Hm k). destruct (m k) as [k1 [fd|e|w]]; [|done..].
  destruct Hm as [Hfd H1]. unfold closing. specialize (Hf fd k1).
  destruct (f fd k1) as [k2 r] eqn:Hr. destruct (close_closes fd k2) as [Hc _]. rewrite Hc.
  destruct r as [a|e|w]; [..|done]; rewrite Hf, H1; set_solver.
Qed.

(** What is opened first stays open, whatever comes of the rest. *)
Definition one_more {A} (R : Z -> A -> Prop) (m : GoM K A) : Prop := forall k,
  match m k with
  | (k', Ok a) => exists fd, holds (Some fd) (fds k) k' /\ R fd a
  | (k', Err _) => holds None (fds k) k' \/ exists fd, holds (Some fd) (fds k) k'
  | (_, Panic _) => False
  end.
Lemma opens_then {A} (R : Z -> A -> Prop) (m : GoM K Z) (f : Z -> GoM K A) : opens fds m -> (forall fd, keeps fds (f fd)) ->
  (forall fd k k' a, f fd k = (k', Ok a) -> R fd a) -> one_more R (fd ← m; f fd).
Proof.
  intros Hm Hf HR k. cbv [mbind gom_bind]. specialize (Hm k). destruct (m k) as [k1 [fd|e|w]]; [|by left|done].
  destruct Hm as [Hfd H1]. specialize (Hf fd k1). specialize (HR fd k1). destruct (f fd k1) as [k2 [a|e|w]]; [| |done].
  - exists fd. split; [|by eapply HR]. split; [done|]. by rewrite Hf.
  - right. exists fd. split; [done|]. by rewrite Hf.
Qed.
(** The value of a computation whose last step tells it. *)
Lemma bind_gives {A B} (Q : B -> Prop) (m : GoM K A) (f : A -> GoM K B) :
  (forall a k k' b, f a k = (k', Ok b) -> Q b) -> forall k k' b, (m ≫= f) k = (k', Ok b) -> Q b.
Proof. intros Hf k k' b. cbv [mbind gom_bind]. destruct (m k) as [k1 [a|e|w]]; [apply Hf|done..]. Qed.

Lemma open_clone_opens name : opens fds (Linux.open_clone name).
Proof.
  intros k. pose proof (open_opens Linux.cloneDevicePath k) as Ho. unfold Linux.open_clone.
  by destruct (sys_open _ k) as [k1 [fd|e|w]].
Qed.
Lemma keeps_lift {A} (r : result A) : is_panic r = false -> keeps fds (glift r).
Proof. intros Hr k. by destruct r. Qed.

Lemma linux_setmtu_keeps name : keeps fds (Linux.setmtu name).
Proof.
  apply keeps_closing; [apply socket_opens|]. intros fd k. pose proof (ioctl_keeps fd Linux.SIOCSIFMTU (Linux.mtu_request (bytes_of_string name)) k) as Hi.
  by destruct (sys_ioctl _ _ _ k) as [k1 [a|e|w]].
Qed.
Lemma darwin_setmtu_keeps name : keeps fds (Darwin_.setmtu name).
Proof. apply keeps_closing; [apply socket_opens|]. intros fd. apply keeps_wrap, ifmtu_keeps. Qed.
Lemma setDeviceName_keeps fd name : keeps fds (Linux.setDeviceName fd name).
Proof.
  apply keeps_bind; [apply keeps_lift; unfold ifr_of; by case_match|]. intros ifr. apply keeps_bind; [apply ioctl_keeps|]. intros. apply keeps_ret.
Qed.
Lemma setNonBlock_keeps fd : keeps fds (Darwin_.setNonBlock fd).
Proof. intros k. pose proof (nonblock_keeps fd k) as Hn. unfold Darwin_.setNonBlock. by destruct (sys_nonblock fd k) as [k1 [a|e|w]]. Qed.
Lemma device_name_there (b : bytes) n : 1 <= n <= 16 -> zlen b = 16 -> is_panic (go_slice b 0 (u64 (n - 1))) = false.
Proof. intros Hn Hb. unfold u64. rewrite Z.mod_small by lia. by rewrite go_slice_ok by lia. Qed.
Lemma wrapped_ok {A} msg (m : GoM K A) k k' a : gwrap msg m k = (k', Ok a) -> m k = (k', Ok a).
Proof. unfold gwrap. by destruct (m k) as [k1 [b|e|w]]. Qed.
End Facts.

(** ** Properties *)

Section Properties.
Context {K : Type} `{HO : KernelOk K}.

(** Opening the device on Linux and on macOS: it succeeds with one more
    descriptor, the device's own, the socket that sets the MTU being closed
    again - and on Linux the name had room in the request; when it fails, the
    kernel has the descriptors it had, or one more that nothing will close
    ([failed_open_leaks]). *)
Theorem new_device_holds_one_descriptor (name : string) :
  one_more (fun fd d => g_fd d = fd /\ g_name d = name /\ zlen (bytes_of_string name) < IFNAMSIZ) (Linux.NewTUN name) /\
  one_more (fun fd d => g_fd d = fd) Darwin_.NewTUN.
Proof.
  split.
  - apply (opens_then _ (Linux.open_clone name)); [apply open_clone_opens| |].
    + intros fd.
      apply keeps_bind; [apply setDeviceName_keeps|]. intros _. apply keeps_bind; [apply linux_setmtu_keeps|]. intros _.
      apply keeps_bind; [apply nonblock_keeps|]. intros _. apply keeps_ret.
    + intros fd k k' d H. assert (zlen (bytes_of_string name) < IFNAMSIZ) as Hl.
      { revert H. unfold Linux.setDeviceName, ifr_of. cbv [mbind gom_bind glift].
        by destruct (Z.leb_spec IFNAMSIZ (zlen (bytes_of_string name))). }
      revert k k' d H. apply bind_gives. intros _. apply bind_gives. intros _. apply bind_gives. intros _ k1 k2 d' [= _ <-]. done.
  - apply (opens_then _ (gwrap "error in syscall.Socket" (sys_socket Darwin_.AF_SYSTEM SOCK_DGRAM 2))); [apply opens_wrap, socket_opens| |].
    + intros fd. apply keeps_bind; [apply keeps_wrap, ioctl_keeps|]. intros info.
      apply keeps_bind; [apply keeps_wrap, connect_keeps|]. intros _.
      apply keeps_bind_of; [apply keeps_wrap, getsockopt_keeps|]. intros [b n] k1 k2 Hb%wrapped_ok.
      destruct (getsockopt_size _ _ _ 16 _ _ _ _ ltac:(lia) Hb) as [Hl Hn].
      apply keeps_bind; [apply setNonBlock_keeps|]. intros _.
      apply keeps_bind; [by apply keeps_lift, device_name_there|]. intros nm.
      apply keeps_bind; [apply darwin_setmtu_keeps|]. intros _. apply keeps_ret.
    + intros fd. do 2 (apply bind_gives; intros ?). apply bind_gives. intros [b n]. do 3 (apply bind_gives; intros ?).
      intros k1 k2 d [= _ <-]. done.
Qed.
End Properties.

(** Closing the Windows device is done once: another close changes nothing. *)
Theorem windows_close_is_done_once {W Adapter Session Event : Type} (SetEvent : Event -> GoM W unit) (End_ : Session -> GoM W unit)
    (CloseAdapter : Adapter -> GoM W unit) (d : WindowsDevice.windowsDevice) (c : WindowsDevice.Closing) :
  let close := WindowsDevice.Close (Adapter := Adapter) SetEvent End_ CloseAdapter d in
  is_ok (gresult close c) = true -> gstate close (gstate close c) = gstate close c.
Proof.
  cbn zeta. intros Hok. destruct c as [closed w]. unfold WindowsDevice.Close in *.
  cbv [mbind gom_bind gget gmodify gstate gresult gignore WindowsDevice.on_driver] in *. cbn in *.
  destruct closed; [done|]. cbn in *.
  destruct (SetEvent _ w) as [w1 [u1|e1|s1]]; cbn in *; [..|done];
    (destruct (End_ _ w1) as [w2 [u2|e2|s2]]; cbn in *; [..|done];
     (destruct (CloseAdapter _ w2) as [w3 [u3|e3|s3]]; cbn in *; done)).
Qed.

(** ** Examples *)

Module DeviceOpenExample.
(** A kernel with the descriptors it has open, the calls it made, and the
    requests that fail. *)
Record K := mkK { k_fds : gset Z; k_log : list (string * Z); k_failing : list Z }.
Definition logged (call : string) (fd : Z) (k : K) : K := mkK (k_fds k) (k_log k ++ [(call, fd)])%list (k_failing k).
Definition fresh_fd (k : K) : Z := set_fold (fun x y => Z.max (x + 1) y) 0 (k_fds k).
Definition opening (call : string) : GoM K Z := fun k =>
  let fd := fresh_fd k in
  (mkK ({[fd]} ∪ k_fds k) (k_log k ++ [(call, fd)])%list (k_failing k), Ok fd).
Definition request {A} (call : string) (fd req : Z) (a : A) : GoM K A := fun k =>
  (logged call fd k, if bool_decide (req ∈ k_failing k) then Err (EExt "operation not permitted") else Ok a).
#[export] Instance kernel : Kernel K := {|
  sys_open path := opening "open"; sys_socket _ _ _ := opening "socket";
  sys_ioctl fd req arg := request "ioctl" fd req arg;
  sys_connect fd arg := request "connect" fd 0 tt;
  sys_getsockopt fd level opt size := request "getsockopt" fd 0 (go_copy (go_make size) (bytes_of_string "utun4"), Z.min size 6 `max` 1);
  sys_ifmtu fd name mtu := request "ifmtu" fd Linux.SIOCSIFMTU tt;
  sys_nonblock fd := request "nonblock" fd 0 tt;
  sys_close fd k := (mkK (k_fds k ∖ {[fd]}) (k_log k ++ [("close", fd)])%list (k_failing k), Ok tt) |}.
Lemma fresh_fd_fresh k : fresh_fd k ∉ k_fds k.
Proof.
  unfold fresh_fd. intros Hin. cut (forall x, x ∈ k_fds k -> x < set_fold (fun x y => Z.max (x + 1) y) 0 (k_fds k)); [intros H; apply H in Hin; lia|].
  apply (set_fold_ind_L (fun m X => forall x, x ∈ X -> x < m)); [set_solver|]. intros x X m _ IH y [->%elem_of_singleton|Hy]%elem_of_union; [lia|].
  specialize (IH y Hy). lia.
Qed.
Lemma request_keeps {A} call fd req (a : A) : keeps k_fds (request call fd req a).
Proof. intros k. unfold request. by case_bool_decide. Qed.
#[export] Instance kernel_ok : KernelOk K.
Proof.
  unshelve econstructor; [exact k_fds|..].
  1, 2: intros; intros k; cbn; split; [apply fresh_fd_fresh|done].
  1, 2, 3, 4, 5: intros; apply request_keeps.
  - intros fd level opt size k k' b n Hs H. cbn in H. unfold request in H. case_bool_decide; [done|]. injection H as _ <- <-.
    unfold zlen. rewrite length_go_copy. unfold go_make. rewrite length_replicate. lia.
  - intros fd k. done.
Defined.
Definition boot (failing : list Z) : K := mkK {[0; 1; 2]} [] failing.

Example device_opens :
  (Linux.NewDevice (boot [])).2 = Ok (mkDevice "pairmesh0" 3 "pairmeshDeviceFile/3") /\
  k_log (gstate Linux.NewDevice (boot [])) = [("open", 3); ("ioctl", 3); ("socket", 4); ("ioctl", 4); ("close", 4); ("nonblock", 3)] /\
  elements (k_fds (gstate Linux.NewDevice (boot []))) ≡ₚ [0; 1; 2; 3].
Proof. vm_compute. split_and!; [done..|]. apply (bool_decide_unpack _). vm_compute. exact I. Qed.
Example utun_opens :
  (Darwin_.NewTUN (boot [])).2 = Ok (mkDevice "utun4" 3 (String.string_of_list_byte (go_copy (go_make 16) (bytes_of_string "utun4")))) /\
  Darwin_.appleCTLIOCGINFO = 3227799043.
Proof. by vm_compute. Qed.

(** Without the right to name a device the descriptor that was opened stays
    open: nothing closes it. *)
Example failed_open_leaks :
  let k := gstate Linux.NewDevice (boot [Linux.TUNSETIFF]) in
  is_ok (gresult Linux.NewDevice (boot [Linux.TUNSETIFF])) = false /\ bool_decide (3 ∈ k_fds k) = true /\
  k_log k = [("open", 3); ("ioctl", 3)].
Proof. by vm_compute. Qed.
End DeviceOpenExample.
