(* ===== verification/Bench.v ===== *)
(** The benchmark tool: [bench/] and [cmd/pairbench/].  The echo server and
    one worker of the echo client over the bytes their sockets give them, the
    latencies and their report, the deterministic random numbers, and the
    command's checks.  The clock, the sockets and [math/rand] are arguments. *)
From S2P Require Import Prelude GoText Wire.
#[local] Set Warnings "-clear-no-such-hyp".

(** ** Constants and configurations ([constant.go], [config/]) *)

Abbreviation ModeType := string.
Definition ModeTypeEcho : ModeType := "echo".
Definition ModeTypeRelay : ModeType := "relay".
Definition BufferSize : Z := 512.
Definition MaxClientCount : Z := 1000.
Definition MaxPayload : Z := 9000.

(** Ports, counts, the payload's length and the seconds are [uint16]. *)
Record ClientConfig := mkClientConfig {
  cc_Mode : ModeType; cc_Endpoint : string; cc_Port : Z; cc_IsBounce : bool; cc_Clients : Z; cc_Payload : Z; cc_Duration : Z }.
Record ServerConfig := mkServerConfig { sc_Mode : ModeType; sc_Port : Z; sc_IsBounce : bool }.

(** ** Payloads and random numbers ([utils/]) *)

Definition alp : bytes := bytes_of_string "abcdefghijklmnopqrstuvwxyzABCDEFGHIJKLMNOPQRSTUVWXYZ".
(** The numbers [rand.Intn(len(alp))] gives, by the position they are for. *)
Definition GenerateRandPayload (intn : nat -> nat) (plen : Z) : result bytes :=
  mapM (fun i => go_index alp (Z.of_nat (intn i))) (seq 0 (Z.to_nat plen)).

(** [DetermRng]: its counter, an [int]. *)
Record DetermRng := mkDetermRng { rng_counter : Z }.
Definition NewDetermRng : DetermRng := mkDetermRng 0.
Definition Rng_Read (p : bytes) (r : DetermRng) : DetermRng * bytes :=
  (mkDetermRng (i64 (rng_counter r + 1)), imap (fun i _ => byte.of_Z (go_rem (i64 (Z.of_nat i + rng_counter r)) 256)) p).

(** ** Results ([results/results.go]) *)

Record Results := mkResults { latencies : list Z; throughput : Z }.
Definition NewResults : Results := mkResults [] 0.
Definition Submit (res r : Results) : Results := mkResults (latencies r ++ latencies res) (u64 (throughput r + throughput res)).
Definition AddDataPoint (lat : Z) (r : Results) : Results := mkResults (latencies r ++ [lat]) (u64 (throughput r + 1)).

(** *** [float64] products

    An integer with 53 bits of precision, to the nearest and even on ties; the
    product of an integer with a constant whose significand is [c] and whose
    value is [c / 2 ^ 53]; and [int] of it, which truncates. *)
Definition excess (p : Z) : Z := Z.max 0 (Z.log2 p - 52).
Definition round_even (e p : Z) : Z :=
  let q := p / 2 ^ e in
  let r := p mod 2 ^ e in
  if 2 * r <? 2 ^ e then q else if 2 ^ e <? 2 * r then q + 1 else if Z.even q then q else q + 1.
Definition round53 (p : Z) : Z := round_even (excess p) p * 2 ^ excess p.
Definition half : Z := 4503599627370496.
Definition nine_tenths : Z := 8106479329266893.
Definition ninety_nine : Z := 8917127262193582.
Definition float_index (llen c : Z) : Z := round53 (round53 llen * c) / 2 ^ 53.

(** What [Report] logs; [latencies] is sorted afterwards. *)
Record Summary := mkSummary { sm_throughput : Z; sm_tps : Z; sm_p50 : Z; sm_p90 : Z; sm_p99 : Z }.
Definition element (l : list Z) (i : Z) : result Z :=
  match (if 0 <=? i then l !! Z.to_nat i else None) with Some x => Ok x | None => Panic "index out of range" end.
Definition Report (cfg : ClientConfig) (r : Results) : Results * result Summary :=
  let l := merge_sort Z.le (latencies r) in
  let r := mkResults l (throughput r) in
  (r,
   if cc_Duration cfg =? 0 then Panic "integer divide by zero"
   else
     let tps := throughput r / cc_Duration cfg in
     let llen := zlen l in
     p50 ← element l (float_index llen half);
     p90 ← element l (float_index llen nine_tenths);
     p99 ← element l (float_index llen ninety_nine);
     Ok (mkSummary (throughput r) tps p50 p90 p99)).

(** ** The echo benchmark ([server/echo.go], [client/echo.go]) *)

(** One turn of a connection of the server: [chunk] is what the read gave of
    at most [BufferSize] bytes; the whole buffer goes back. *)
Definition echo_turn (bounce : bool) (chunk : bytes) : bytes :=
  if bounce then go_copy (go_make BufferSize) chunk else bytes_of_string "OK".

(** The bytes of a buffer before its first zero, as the client counts them. *)
Fixpoint count_nonzero (buf : bytes) : Z :=
  match buf with
  | [] => 0
  | b :: buf => if byte.unsigned b =? 0 then 0 else 1 + count_nonzero buf
  end.
(** The loop that reads an answer, each read into a new buffer of 512 bytes,
    until exactly [thres] bytes were counted, in a [uint16].  It gives the reads
    that are left; nothing when it still waits. *)
Fixpoint read_answer (thres rcount : Z) (reads : list (result bytes)) : option (result (list (result bytes))) :=
  match reads with
  | [] => None
  | Ok chunk :: reads =>
    let rcount := u16 (rcount + count_nonzero (go_copy (go_make 512) chunk)) in
    if rcount =? thres then Some (Ok reads) else read_answer thres rcount reads
  | Err e :: _ => Some (Err e)
  | Panic w :: _ => Some (Panic w)
  end.

(** One turn of a worker: whether the test is over, the errors of
    [SetDeadline] and of the write, and the clock before and after. *)
Record Turn := mkTurn { tu_over : bool; tu_deadline : option error; tu_write : option error; tu_prev : Z; tu_post : Z }.
Definition threshold (cfg : ClientConfig) : Z := if cc_IsBounce cfg then cc_Payload cfg else 2.
Inductive outcome := Finished | Failed (e : error) | Waiting.
Fixpoint worker (cfg : ClientConfig) (turns : list Turn) (reads : list (result bytes)) (lres : Results) : Results * outcome :=
  match turns with
  | [] => (lres, Waiting)
  | t :: turns =>
    if tu_over t then (lres, Finished)
    else
      match tu_deadline t, tu_write t with
      | Some e, _ | None, Some e => (lres, Failed e)
      | None, None =>
        match read_answer (threshold cfg) 0 reads with
        | None | Some (Panic _) => (lres, Waiting)
        | Some (Err e) => (lres, Failed e)
        | Some (Ok reads) => worker cfg turns reads (AddDataPoint (time_sub (tu_post t) (tu_prev t)) lres)
        end
      end
  end.

(** *** The relay benchmark ([server/relay.go], [client/relay.go]) *)

(** What the relay answers to a request, and one worker of the client: a turn
    sends a request and waits for one of the responses that arrive; [tu_write]
    is the error of sending. *)
Definition on_UnitTestRequest (msg : Message) : result (PacketType * Message) :=
  match msg with
  | MUnitTestRequest field => Ok (PacketType__UnitTestResponse, MUnitTestResponse field)
  | _ => Panic "interface conversion"
  end.
Fixpoint relay_worker (turns : list Turn) (responses : nat) (lres : Results) : Results * outcome :=
  match turns with
  | [] => (lres, Waiting)
  | t :: turns =>
    if tu_over t then (lres, Finished)
    else
      match tu_write t, responses with
      | Some e, _ => (lres, Failed e)
      | None, O => (lres, Waiting)
      | None, S responses => relay_worker turns responses (AddDataPoint (time_sub (tu_post t) (tu_prev t)) lres)
      end
  end.

(** The keys both programs make of the deterministic numbers.  The standard
    library's [rsa.GenerateKey] first reads a byte or not, at random. *)
Section Keys.
Context {K : Type} (rsa_of dh_of : DetermRng -> DetermRng * result K).
Definition MaybeReadByte (coin : bool) (rng : DetermRng) : DetermRng := if coin then fst (Rng_Read (go_make 1) rng) else rng.
Definition rsa_GenerateKey (coin : bool) (rng : DetermRng) : DetermRng * result K := rsa_of (MaybeReadByte coin rng).
Definition server_keys (coin : bool) : result (K * K) :=
  let (rng, priv) := rsa_GenerateKey coin NewDetermRng in
  priv ← match priv with Err e => Err (EWrap "error generating private key" e) | r => r end;
  let (_, dh) := dh_of rng in
  dh ← match dh with Err e => Err (EWrap "error creating server DHKey" e) | r => r end;
  Ok (priv, dh).
Definition client_keys (coin : bool) : result (K * K * K) :=
  let (rng, priv) := rsa_GenerateKey coin NewDetermRng in
  priv ← match priv with Err e => Err (EWrap "error generating private key" e) | r => r end;
  let (rng, server) := dh_of rng in
  server ← match server with Err e => Err (EWrap "error generating server DH key from client side" e) | r => r end;
  let (_, client) := dh_of rng in
  client ← match client with Err e => Err (EWrap "error generating client DH key from client side" e) | r => r end;
  Ok (priv, server, client).
End Keys.

(** [Start]: the workers submit in the order in which they end; the report
    when all have. *)
Definition Start (cfg : ClientConfig) (workers : list Results) : Results * result Summary :=
  Report cfg (foldl (fun r lres => Submit lres r) NewResults workers).

(** ** The command ([cmd/pairbench/main.go], [client/entry.go], [server/entry.go]) *)

Inductive Job := EchoClient (cfg : ClientConfig) | RelayClient (cfg : ClientConfig) | EchoServer (cfg : ServerConfig) | RelayServer (cfg : ServerConfig).
Definition client_Run (cfg : ClientConfig) : result Job :=
  if String.eqb (cc_Mode cfg) ModeTypeEcho then Ok (EchoClient cfg)
  else if String.eqb (cc_Mode cfg) ModeTypeRelay then Ok (RelayClient cfg)
  else Err (EMsg "invalid mode specified when starting client (supported mode: echo/relay)").
Definition server_Run (cfg : ServerConfig) : result Job :=
  if String.eqb (sc_Mode cfg) ModeTypeEcho then Ok (EchoServer cfg)
  else if String.eqb (sc_Mode cfg) ModeTypeRelay then Ok (RelayServer cfg)
  else Err (EMsg "invalid mode specified when starting a server (supported mode: echo/relay)").
(** [RunE], on the values of the flags, up to the start of the job. *)
Definition RunE (role mode isBounceStr host : string) (port clients payload duration : Z) : result Job :=
  let mode := ToLower mode in
  if negb (String.eqb mode "relay") && negb (String.eqb mode "echo") then Err (EMsg "invalid mode param. Only relay or echo are valid")
  else
    isBounce ← (let b := ToLower isBounceStr in
                if String.eqb b "true" then Ok true else if String.eqb b "false" then Ok false
                else Err (EMsg "invalid bounce param. Only true or false are valid"));
    let role := ToLower role in
    if String.eqb role "server" then server_Run (mkServerConfig mode port isBounce)
    else if String.eqb role "client" then
      if MaxClientCount <? clients then Err (EMsg ("invalid client number. Cannot be more than " ++ pretty MaxClientCount)%string)
      else if MaxPayload <? payload then Err (EMsg ("invalid payload length. Cannot be more than " ++ pretty MaxPayload)%string)
      else client_Run (mkClientConfig mode host port isBounce clients payload duration)
    else Err (EMsg "invalid role. Only server or client are valid roles").

(** ** Lemmas *)

(** *** Counting an answer *)

Definition nonzero (b : Byte.byte) : Prop := byte.unsigned b <> 0.
Lemma count_zeros n : count_nonzero (replicate n Byte.x00) = 0.
Proof. by destruct n. Qed.
Lemma count_nonzero_app l n : Forall nonzero l -> count_nonzero (l ++ replicate n Byte.x00) = zlen l.
Proof.
  induction 1 as [|b l Hb _ IH]; [apply count_zeros|]. cbn [app count_nonzero].
  destruct (Z.eqb_spec (byte.unsigned b) 0); [done|]. rewrite IH, zlen_cons. lia.
Qed.
(** A buffer of 512 bytes with a chunk in front. *)
Lemma fill_buffer chunk : zlen chunk <= BufferSize ->
  go_copy (go_make BufferSize) chunk = chunk ++ replicate (Z.to_nat BufferSize - length chunk) Byte.x00.
Proof.
  intros Hl. unfold go_copy, go_make. rewrite length_replicate, drop_replicate. f_equal. apply take_ge. unfold zlen, BufferSize in *. lia.
Qed.
Lemma answer_counts chunk : Forall nonzero chunk -> zlen chunk <= BufferSize ->
  count_nonzero (go_copy (go_make 512) (echo_turn true chunk)) = zlen chunk.
Proof.
  intros Hn Hl. unfold echo_turn. change 512 with BufferSize. rewrite go_copy_same.
  - rewrite fill_buffer by done. by apply count_nonzero_app.
  - rewrite length_go_copy. done.
Qed.

(** How the server's reads may cut a payload. *)
Definition cut (payload : bytes) (chunks : list bytes) : Prop :=
  concat chunks = payload /\ Forall (fun c => 0 < zlen c <= BufferSize) chunks.

Lemma zlen_concat_cons (c : bytes) cs : zlen (concat (c :: cs)) = zlen c + zlen (concat cs).
Proof. cbn. apply zlen_app. Qed.

Lemma read_answer_echo (thres : Z) (rest : list (result bytes)) chunks : forall rcount,
  chunks <> [] -> Forall (fun c => 0 < zlen c <= BufferSize) chunks -> Forall nonzero (concat chunks) ->
  0 <= rcount -> rcount + zlen (concat chunks) = thres -> thres < 2 ^ 16 ->
  read_answer thres rcount (map (fun c => Ok (echo_turn true c)) chunks ++ rest) = Some (Ok rest).
Proof.
  induction chunks as [|c cs IH]; intros rcount Hne Hc Hn H0 Ht Hb; [done|].
  apply Forall_cons in Hc as [Hc Hcs]. cbn [concat] in Hn. apply Forall_app in Hn as [Hn Hns]. rewrite zlen_concat_cons in Ht.
  pose proof (zlen_nonneg (concat cs)). cbn [map app read_answer]. rewrite answer_counts by (done || lia).
  unfold u16. rewrite Z.mod_small by lia. destruct cs as [|c' cs].
  - cbn in Ht. rewrite zlen_nil in Ht. destruct (Z.eqb_spec (rcount + zlen c) thres); [done|lia].
  - rewrite zlen_concat_cons in Ht. pose proof (proj1 (Forall_cons _ _ _) Hcs) as [Hc' _]. pose proof (zlen_nonneg (concat cs)).
    destruct (Z.eqb_spec (rcount + zlen c) thres); [lia|]. apply IH; try done; rewrite ?zlen_concat_cons; lia.
Qed.

Lemma go_index_elem (l : bytes) i b : go_index l i = Ok b -> b ∈ l.
Proof.
  unfold go_index. case_decide as Hr; [|done]. intros [= <-]. apply list_elem_of_In, nth_In. unfold zlen in Hr. lia.
Qed.
Lemma alp_nonzero : Forall nonzero alp.
Proof. unfold nonzero. apply (bool_decide_unpack _). vm_compute. exact I. Qed.
Lemma payload_nonzero intn plen p : GenerateRandPayload intn plen = Ok p -> Forall nonzero p /\ zlen p = Z.max 0 plen.
Proof.
  unfold GenerateRandPayload. intros H.
  assert (Forall2 (fun i b => go_index alp (Z.of_nat (intn i)) = Ok b) (seq 0 (Z.to_nat plen)) p) as HF.
  { revert p H. generalize (seq 0 (Z.to_nat plen)) as is_. induction is_ as [|i is_ IH]; intros p; cbn; res_simpl; [intros [= <-]; constructor|].
    destruct (go_index _ _) as [b| |] eqn:Hb; [|done..]. destruct (mapM _ is_) as [bs| |]; [|done..]. intros [= <-]. by constructor; [|apply IH]. }
  split.
  - apply Forall_forall. intros b Hb. apply list_elem_of_lookup in Hb as [k Hk]. destruct (Forall2_lookup_r _ _ _ _ _ HF Hk) as (i & _ & Hi).
    pose proof alp_nonzero as Ha. rewrite Forall_forall in Ha. by eapply Ha, go_index_elem.
  - apply Forall2_length in HF. rewrite length_seq in HF. unfold zlen. lia.
Qed.

(** *** Products *)

Lemma round53_near p : 0 < p -> 2 * Z.abs (round53 p - p) <= 2 ^ excess p.
Proof.
  intros Hp. unfold round53, round_even. set (e := excess p). assert (0 <= e) as He by (unfold e, excess; lia).
  assert (0 < 2 ^ e) as H2 by (apply Z.pow_pos_nonneg; lia).
  pose proof (Z.div_mod p (2 ^ e) ltac:(lia)) as Hd. pose proof (Z.mod_pos_bound p (2 ^ e) H2) as Hr.
  set (q := p / 2 ^ e) in *. set (r := p mod 2 ^ e) in *.
  destruct (Z.ltb_spec (2 * r) (2 ^ e)); [lia|]. destruct (Z.ltb_spec (2 ^ e) (2 * r)); [lia|]. destruct (Z.even q); lia.
Qed.
Lemma excess_small p b : 0 <= b -> 0 < p < 2 ^ (b + 53) -> excess p <= b.
Proof. intros Hb [Hp Hl]. unfold excess. assert (Z.log2 p < b + 53) by (apply Z.log2_lt_pow2; lia). lia. Qed.
Lemma round53_exact n : 0 < n <= 2 ^ 40 -> round53 n = n.
Proof.
  intros Hn. pose proof (excess_small n 0 ltac:(lia) ltac:(lia)) as He. pose proof (round53_near n ltac:(lia)) as Hr.
  assert (excess n = 0) as H0 by (unfold excess in *; lia). rewrite H0 in Hr. lia.
Qed.

(** The index of the k-th percentile, for a constant within two units of the
    last place of [k / 100]. *)
Lemma float_index_bounds n c k : 0 < n <= 2 ^ 40 -> 0 < c < 2 ^ 53 -> Z.abs (100 * c - k * 2 ^ 53) <= 100 ->
  100 * float_index n c <= k * n <= 100 * (float_index n c + 1).
Proof.
  intros Hn Hc Hk. unfold float_index. rewrite (round53_exact n) by done. set (P := n * c).
  assert (0 < P < 2 ^ (40 + 53)) as HP.
  { unfold P. split; [apply Z.mul_pos_pos; lia|]. apply Z.le_lt_trans with (2 ^ 40 * c); [apply Z.mul_le_mono_nonneg_r; lia|]. lia. }
  pose proof (excess_small P 40 ltac:(lia) HP) as He. pose proof (round53_near P (proj1 HP)) as Hr.
  assert (2 ^ excess P <= 2 ^ 40) as He2 by (apply Z.pow_le_mono_r; lia).
  assert (2 * Z.abs (round53 P - P) <= 2 ^ 40) as Hr2 by lia. clear Hr He He2.
  assert (Z.abs (100 * P - k * n * 2 ^ 53) <= 100 * n) as HPk by (unfold P; nia).
  pose proof (Z.div_mod (round53 P) (2 ^ 53) ltac:(lia)) as Hd. pose proof (Z.mod_pos_bound (round53 P) (2 ^ 53) ltac:(lia)) as Hm.
  set (i := round53 P / 2 ^ 53) in *. set (m := round53 P mod 2 ^ 53) in *. lia.
Qed.
Lemma percentile_index n : 0 < n <= 2 ^ 40 ->
  (100 * float_index n half <= 50 * n <= 100 * (float_index n half + 1)) /\
  (100 * float_index n nine_tenths <= 90 * n <= 100 * (float_index n nine_tenths + 1)) /\
  (100 * float_index n ninety_nine <= 99 * n <= 100 * (float_index n ninety_nine + 1)).
Proof. intros Hn. split_and!; by apply float_index_bounds. Qed.
Lemma float_index_nonneg n c : 0 <= n -> 0 <= c -> 0 <= float_index n c.
Proof.
  intros Hn Hc. unfold float_index. apply Z.div_pos; [|lia].
  assert (forall p, 0 <= p -> 0 <= round53 p) as H.
  { intros p Hp. unfold round53, round_even. apply Z.mul_nonneg_nonneg; [|apply Z.pow_nonneg; lia].
    pose proof (Z.div_pos p (2 ^ excess p) Hp ltac:(apply Z.pow_pos_nonneg; unfold excess; lia)). repeat case_match; lia. }
  apply H, Z.mul_nonneg_nonneg; [by apply H|done].
Qed.

(** *** Ranks in a sorted list *)

Lemma sorted_lookup l i j x y : StronglySorted Z.le l -> (i <= j)%nat -> l !! i = Some x -> l !! j = Some y -> x <= y.
Proof.
  intros Hs. revert i j. induction Hs as [|z l Hs IH Hz]; intros i j Hij Hi Hj; [done|].
  destruct i as [|i], j as [|j]; cbn in *; simplify_eq; [lia| |lia|by apply (IH i j); [lia|..]].
  rewrite Forall_forall in Hz. apply Hz. by eapply list_elem_of_lookup_2.
Qed.
Definition at_most (x : Z) (l : list Z) : Z := zlen (base.filter (fun y => y <= x) l).
Definition below (x : Z) (l : list Z) : Z := zlen (base.filter (fun y => y < x) l).
Lemma sorted_rank l i x : StronglySorted Z.le l -> l !! i = Some x -> Z.of_nat i + 1 <= at_most x l /\ below x l <= Z.of_nat i.
Proof.
  unfold at_most, below, zlen. intros Hs. revert i. induction Hs as [|z l Hs IH Hz]; intros i Hi; [done|].
  rewrite Forall_forall in Hz. rewrite !filter_cons. destruct i as [|i]; cbn in Hi.
  - injection Hi as ->. destruct (decide (x <= x)); [|lia]. destruct (decide (x < x)); [lia|].
    cbn [length]. split; [lia|]. cut (base.filter (fun y => y < x) l = []); [intros ->; cbn; lia|].
    clear -Hz. induction l as [|y l IH]; [done|]. rewrite filter_cons. pose proof (Hz y ltac:(by left)).
    destruct (decide (y < x)); [lia|]. apply IH. intros w Hw. apply Hz. by right.
  - destruct (IH i Hi) as [H1 H2]. pose proof (Hz x (list_elem_of_lookup_2 _ _ _ Hi)). destruct (decide (z <= x)); [|lia].
    destruct (decide (z < x)); cbn [length]; lia.
Qed.
Lemma ranks_permutation x l k : l ≡ₚ k -> at_most x l = at_most x k /\ below x l = below x k.
Proof. intros H. unfold at_most, below, zlen. by rewrite H. Qed.

Lemma element_there l i : 0 <= i < zlen l -> exists x, element l i = Ok x /\ l !! Z.to_nat i = Some x.
Proof.
  intros Hi. unfold element. destruct (Z.leb_spec 0 i); [|lia]. unfold zlen in Hi.
  destruct (lookup_lt_is_Some_2 l (Z.to_nat i)) as [x Hx]; [lia|]. exists x. by rewrite Hx.
Qed.

(** *** Workers and their results *)

Definition quiet (t : Turn) : Prop := tu_over t = false /\ tu_deadline t = None /\ tu_write t = None.
Definition measured (t : Turn) : Z := time_sub (tu_post t) (tu_prev t).
(** What the server sends for payloads cut by its reads. *)
Definition answers (bounce : bool) (chunks : list bytes) : list (result bytes) := map (fun c => Ok (echo_turn bounce c)) chunks.

Lemma u64_add_u64 a b : u64 (u64 a + b) = u64 (a + b).
Proof. unfold u64. apply Z.add_mod_idemp_l. lia. Qed.

Lemma submit_all ws : forall r,
  foldl (fun r lres => Submit lres r) r ws =
  mkResults (latencies r ++ concat (map latencies ws)) (match ws with [] => throughput r | _ => u64 (throughput r + foldr Z.add 0 (map throughput ws)) end).
Proof.
  induction ws as [|w ws IH]; intros r; cbn [foldl map concat foldr]; [rewrite app_nil_r; by destruct r|].
  rewrite IH. cbn [Submit latencies throughput]. rewrite <- app_assoc. f_equal. destruct ws as [|w' ws]; [cbn; by rewrite Z.add_0_r|].
  rewrite u64_add_u64. f_equal. cbn. lia.
Qed.

(** ** Properties *)

(** Every exchange of the echo benchmark is measured once: when the server
    bounces a payload the client generated, however its reads cut the payload,
    and each of the client's reads gets one of the server's writes, then each
    turn of the worker ends with its own answer, adds the time between its two
    readings of the clock, and leaves the answers of later turns alone. *)
Theorem echo_rounds_are_measured (cfg : ClientConfig) (intn : nat -> nat) (payload : bytes) (ts ts' : list Turn)
    (cuts : list (list bytes)) (rest : list (result bytes)) (lres : Results) :
  cc_IsBounce cfg = true -> 0 < cc_Payload cfg <= MaxPayload -> GenerateRandPayload intn (cc_Payload cfg) = Ok payload ->
  Forall quiet ts -> length cuts = length ts -> Forall (cut payload) cuts -> 0 <= throughput lres < 2 ^ 64 ->
  worker cfg (ts ++ ts') (concat (map (answers true) cuts) ++ rest) lres =
  worker cfg ts' rest (mkResults (latencies lres ++ map measured ts) (u64 (throughput lres + zlen ts))).
Proof.
  intros Hb Hp Hg Hq Hl Hc. destruct (payload_nonzero _ _ _ Hg) as [Hn Hlen]. rewrite Z.max_r in Hlen by lia.
  revert cuts lres Hl Hc. induction Hq as [|t ts (H1 & H2 & H3) Hq IH]; intros [|c cuts] lres Hl Hc Ht; try done.
  - cbn. rewrite app_nil_r, zlen_nil, Z.add_0_r. unfold u64. rewrite Z.mod_small by done. by destruct lres.
  - apply Forall_cons in Hc as [[Hcat Hcut] Hc]. cbn [map concat app worker]. rewrite H1, H2, H3.
    unfold threshold. rewrite Hb, <- app_assoc. unfold answers at 1. unfold MaxPayload in Hp.
    rewrite read_answer_echo; [|..]; rewrite ?Hcat, ?Hlen; try done; try lia.
    2: { intros ->. cbn in Hcat. subst payload. rewrite zlen_nil in Hlen. lia. }
    rewrite IH; [|by injection Hl|done|unfold AddDataPoint, u64; cbn; apply Z.mod_pos_bound; lia].
    cbn [AddDataPoint latencies throughput map]. rewrite <- app_assoc. f_equal. f_equal. rewrite u64_add_u64, zlen_cons. f_equal. lia.
Qed.

(** The report's percentiles are percentiles: with at least one latency and a
    duration of at least a second it does not panic, for up to 2^40 latencies
    the floating-point indices stay inside, and each value is one of the
    latencies with at least that share of them at or below it and at most that
    share strictly below; they are in order. *)
Theorem report_percentiles (cfg : ClientConfig) (r : Results) :
  0 < cc_Duration cfg -> 0 < zlen (latencies r) <= 2 ^ 40 ->
  let n := zlen (latencies r) in
  let percentile (k x : Z) := x ∈ latencies r /\ k * n <= 100 * at_most x (latencies r) /\ 100 * below x (latencies r) <= k * n in
  exists s, snd (Report cfg r) = Ok s /\ sm_tps s = throughput r / cc_Duration cfg /\
    percentile 50 (sm_p50 s) /\ percentile 90 (sm_p90 s) /\ percentile 99 (sm_p99 s) /\ sm_p50 s <= sm_p90 s <= sm_p99 s.
Proof.
  intros Hd Hn n percentile. unfold Report. destruct (Z.eqb_spec (cc_Duration cfg) 0); [lia|]. cbn [snd throughput].
  set (l := merge_sort Z.le (latencies r)).
  assert (l ≡ₚ latencies r) as Hperm by apply merge_sort_Permutation.
  assert (StronglySorted Z.le l) as Hs by (apply (StronglySorted_merge_sort _)).
  assert (zlen l = n) as Hlen by (unfold zlen, n; by rewrite Hperm).
  destruct (percentile_index n Hn) as (H50 & H90 & H99).
  pose proof (float_index_nonneg n half ltac:(lia) ltac:(done)) as P50.
  pose proof (float_index_nonneg n nine_tenths ltac:(lia) ltac:(done)) as P90.
  pose proof (float_index_nonneg n ninety_nine ltac:(lia) ltac:(done)) as P99. rewrite Hlen.
  destruct (element_there l (float_index n half)) as (x50 & E50 & L50); [lia|].
  destruct (element_there l (float_index n nine_tenths)) as (x90 & E90 & L90); [lia|].
  destruct (element_there l (float_index n ninety_nine)) as (x99 & E99 & L99); [lia|].
  rewrite E50, E90, E99. res_simpl. eexists. split; [reflexivity|].
  assert (forall k i x, 0 <= i -> 100 * i <= k * n <= 100 * (i + 1) -> l !! Z.to_nat i = Some x -> percentile k x) as Hpc.
  { intros k i x Hi Hk Hx. destruct (sorted_rank l _ x Hs Hx) as [Hr1 Hr2]. destruct (ranks_permutation x _ _ Hperm) as [R1 R2].
    unfold percentile. rewrite <- R1, <- R2. split_and!; [rewrite <- Hperm; by eapply list_elem_of_lookup_2|lia..]. }
  assert (forall i j x y, 0 <= i <= j -> l !! Z.to_nat i = Some x -> l !! Z.to_nat j = Some y -> x <= y) as Hle.
  { intros i j x y Hij. apply sorted_lookup; [done|lia]. }
  cbn [sm_tps sm_p50 sm_p90 sm_p99]. split; [done|]. split; [exact (Hpc _ _ _ P50 H50 L50)|].
  split; [exact (Hpc _ _ _ P90 H90 L90)|]. split; [exact (Hpc _ _ _ P99 H99 L99)|].
  split; [apply (fun H => Hle _ _ _ _ H L50 L90); lia|apply (fun H => Hle _ _ _ _ H L90 L99); lia].
Qed.

(** The report does not depend on the order in which the workers end. *)
Theorem report_ignores_order (cfg : ClientConfig) (ws ws' : list Results) :
  ws ≡ₚ ws' -> Start cfg ws = Start cfg ws'.
Proof.
  intros Hp. unfold Start. rewrite !submit_all. cbn [NewResults latencies throughput app].
  assert (merge_sort Z.le (concat (map latencies ws)) = merge_sort Z.le (concat (map latencies ws'))) as Hl.
  { apply (StronglySorted_unique Z.le); [apply (StronglySorted_merge_sort _)..|]. rewrite !merge_sort_Permutation.
    rewrite <- !flat_map_concat_map. by apply Permutation_flat_map. }
  assert (foldr Z.add 0 (map throughput ws) = foldr Z.add 0 (map throughput ws')) as Ht.
  { clear -Hp. induction Hp; cbn; lia. }
  unfold Report. cbn [latencies throughput]. rewrite Hl. destruct ws as [|w ws], ws' as [|w' ws'].
  - done.
  - by apply Permutation_nil_cons in Hp.
  - symmetry in Hp. by apply Permutation_nil_cons in Hp.
  - by rewrite Ht.
Qed.

(** What the command starts is what was asked for: a job of the role and mode,
    in any letter case, and a client has no more workers and no longer payloads
    than the limits. *)
Theorem command_checks_its_flags (role mode bounce host : string) (port clients payload duration : Z) (j : Job) :
  RunE role mode bounce host port clients payload duration = Ok j ->
  let m := ToLower mode in
  let b := String.eqb (ToLower bounce) "true" in
  (m = ModeTypeEcho \/ m = ModeTypeRelay) /\
  (ToLower role = "server"%string /\ j = (if String.eqb m ModeTypeEcho then EchoServer else RelayServer) (mkServerConfig m port b) \/
   ToLower role = "client"%string /\ clients <= MaxClientCount /\ payload <= MaxPayload /\
   j = (if String.eqb m ModeTypeEcho then EchoClient else RelayClient) (mkClientConfig m host port b clients payload duration)).
Proof.
  unfold RunE. cbn zeta. set (m := ToLower mode). destruct (String.eqb_spec m "relay") as [Hm|Hm], (String.eqb_spec m "echo") as [He|He];
    cbn [negb andb]; try done; [by rewrite Hm in He|..];
    (destruct (String.eqb_spec (ToLower bounce) "true") as [Ht|Ht];
     [|destruct (String.eqb_spec (ToLower bounce) "false") as [Hf|Hf]; [|done]]); res_simpl;
    (destruct (String.eqb_spec (ToLower role) "server") as [Hs|Hs];
     [|destruct (String.eqb_spec (ToLower role) "client") as [Hr|Hr]; [|done];
       destruct (Z.ltb_spec MaxClientCount clients); [done|]; destruct (Z.ltb_spec MaxPayload payload); [done|]]);
    unfold server_Run, client_Run; cbn [sc_Mode cc_Mode]; rewrite ?Hm, ?He; intros [= <-]; (split; [by auto|]); [by left|by right|by left|by right|..];
    (by left) || by right.
Qed.

(** ** Examples *)

Module BenchExample.
(** The two programs have the same private key only when the standard library
    read the byte in both or in neither: here a key is the counter of the
    numbers it was made of. *)
Definition counter_key (rng : DetermRng) : DetermRng * result Z := (fst (Rng_Read (go_make 32) rng), Ok (rng_counter rng)).
Example shared_keys_differ :
  server_keys counter_key counter_key false = Ok (0, 1) /\ client_keys counter_key counter_key false = Ok (0, 1, 2) /\
  client_keys counter_key counter_key true = Ok (1, 2, 3).
Proof. by vm_compute. Qed.
Definition cfg (bounce : bool) (payload duration : Z) : ClientConfig := mkClientConfig ModeTypeEcho "127.0.0.1" 9736 bounce 1 payload duration.
Definition turn (prev post : Z) : Turn := mkTurn false None None prev post.
Definition ab : bytes := bytes_of_string "ab".
Definition intn (i : nat) : nat := i.

Lemma ab_generated : GenerateRandPayload intn 2 = Ok ab.
Proof. by vm_compute. Qed.
Lemma quiet_turns : Forall quiet [turn 10 14; turn 20 27].
Proof. repeat constructor. Qed.
Lemma two_cuts : Forall (cut ab) [[ab]; [bytes_of_string "a"; bytes_of_string "b"]].
Proof. repeat constructor; discriminate. Qed.
Lemma echo_rounds_are_measured_witness :
  worker (cfg true 2 60) [turn 10 14; turn 20 27] (concat (map (answers true) [[ab]; [bytes_of_string "a"; bytes_of_string "b"]])) NewResults =
  (mkResults [4; 7] 2, Waiting).
Proof.
  pose proof (echo_rounds_are_measured (cfg true 2 60) intn ab [turn 10 14; turn 20 27] [] [[ab]; [bytes_of_string "a"; bytes_of_string "b"]]
    [] NewResults eq_refl ltac:(split; [reflexivity|discriminate]) ab_generated quiet_turns eq_refl two_cuts ltac:(split; [discriminate|reflexivity])) as H.
  rewrite !app_nil_r in H. rewrite H. vm_compute. reflexivity.
Defined.

Definition measured_once : Results := mkResults [30; 10; 20] 3.
Lemma report_percentiles_witness : exists s,
  snd (Report (cfg true 2 2) measured_once) = Ok s /\ sm_p50 s = 20 /\ sm_p99 s = 30.
Proof.
  destruct (report_percentiles (cfg true 2 2) measured_once ltac:(reflexivity) ltac:(split; [reflexivity|discriminate])) as (s & Hs & _).
  exists s. split; [exact Hs|]. vm_compute in Hs. injection Hs as <-. split; reflexivity.
Defined.

(** An answer that arrives in two pieces leaves its zeros in the socket.  They
    come in front of the next answer, whose bytes are then not counted: the
    worker waits for bytes that it has thrown away, until the deadline. *)
Example split_answer_stalls :
  let answer := echo_turn true ab in
  let reads := [Ok (take 300 answer); Ok (drop 300 answer ++ take 300 answer); Ok (drop 300 answer); Err (EExt "i/o timeout")] in
  worker (cfg true 2 60) [turn 10 14; turn 20 27] reads NewResults = (mkResults [4] 1, Failed (EExt "i/o timeout")).
Proof. by vm_compute. Qed.
(** Without bouncing, the server says OK to every 512 bytes: two of them that
    arrive together are four bytes, and the worker waits for two. *)
Example two_oks_stall :
  let payload := replicate 600 Byte.x61 in
  let oks := map (echo_turn false) [take 512 payload; drop 512 payload] in
  worker (cfg false 600 60) [turn 10 14] [Ok (concat oks); Err (EExt "i/o timeout")] NewResults = (NewResults, Failed (EExt "i/o timeout")).
Proof. by vm_compute. Qed.
(** A benchmark that measured nothing panics, and so does one of no time. *)
Example empty_report_panics :
  is_panic (snd (Start (cfg true 2 60) [NewResults])) = true /\ is_panic (snd (Start (cfg true 2 0) [measured_once])) = true.
Proof. by vm_compute. Qed.
(** The random numbers depend on how often they were asked for, not on how
    many were read. *)
Example same_reads_same_numbers :
  let twice := fst (Rng_Read (go_make 4) NewDetermRng) in
  snd (Rng_Read (go_make 3) twice) = [Byte.x01; Byte.x02; Byte.x03] /\
  snd (Rng_Read (go_make 3) NewDetermRng) = [Byte.x00; Byte.x01; Byte.x02].
Proof. by vm_compute. Qed.
End BenchExample.
