(* ===== verification/Logging.v ===== *)
(** What the programs share around their logic: the switches of the log
    ([pkg/logutil/verbosity.go]), the log of the database
    ([portal/db/logger.go]), the names of protocols ([internal/netutil/]) and
    the examples of the commands' help ([pkg/cmdutil/]).  Writing a log line and
    colouring a text are the environment. *)
From Stdlib Require Import Ascii.
From S2P Require Import Prelude GoText.
#[local] Set Warnings "-clear-no-such-hyp".
#[local] Open Scope string_scope.

(** ** Switches of the log *)

(** [Type]; the switches are the bits of an [int]. *)
Definition DebugPortalLevel : Z := 0.
Definition DebugRelayPacket : Z := 1.
Definition DebugPeerPacket : Z := 2.
Definition DebugDevicePacket : Z := 3.
Definition Enable (t bits : Z) : Z := Z.lor bits (Z.shiftl 1 t).
Definition EnableAll (bits : Z) : Z :=
  foldl (fun bits l => Enable l bits) bits [DebugPortalLevel; DebugRelayPacket; DebugPeerPacket; DebugDevicePacket]%Z.
(** One of the names in the variable. *)
Definition enable_part (bits : Z) (p : string) : Z :=
  let p := TrimSpace p in
  if String.eqb p "portal" then Enable DebugPortalLevel bits
  else if String.eqb p "relay" then Enable DebugRelayPacket bits
  else if String.eqb p "peer" then Enable DebugPeerPacket bits
  else if String.eqb p "device" then Enable DebugDevicePacket bits
  else bits.
(** [init], with the value of PAIRMESH_LOG_VERBOSE if it is set. *)
Definition init (env : option string) : Z :=
  match env with
  | None => 0
  | Some v =>
    let v := ToLower v in
    if String.eqb v "all" then EnableAll 0 else foldl enable_part 0%Z (split_on "," v)
  end.
Inductive Level_ := DebugLevel | InfoLevel.
Definition Level (bits : Z) : Level_ := if (0 <? bits)%Z then DebugLevel else InfoLevel.
Definition is_enabled (t bits : Z) : bool := (0 <? Z.land bits (Z.shiftl 1 t))%Z.
Definition IsEnablePortal : Z -> bool := is_enabled DebugPortalLevel.
Definition IsEnableRelay : Z -> bool := is_enabled DebugRelayPacket.
Definition IsEnablePeer : Z -> bool := is_enabled DebugPeerPacket.
Definition IsEnableDevice : Z -> bool := is_enabled DebugDevicePacket.

(** ** The database's log *)

(** gorm's levels; the calls give the line they log, with its level. *)
Inductive LogLevel := Silent | Error_ | Warn_ | Info_.
Definition level_number (l : LogLevel) : Z := match l with Silent => 1 | Error_ => 2 | Warn_ => 3 | Info_ => 4 end.
Record Logger := mkLogger { lg_level : LogLevel }.
Definition LogMode (level : LogLevel) (l : Logger) : Logger := mkLogger level.
Definition log_at (at_ : LogLevel) (l : Logger) (text : string) : option (LogLevel * string) :=
  if (level_number (lg_level l) <? level_number at_)%Z then None else Some (at_, text).
Definition Info : Logger -> string -> option (LogLevel * string) := log_at Info_.
Definition Warn : Logger -> string -> option (LogLevel * string) := log_at Warn_.
Definition Error : Logger -> string -> option (LogLevel * string) := log_at Error_.
(** A statement is only rendered when the portal's switch is on; it is logged
    as an error with its error and for debugging without. *)
Definition Trace (bits : Z) (fc : unit -> string) (err : option error) : option (bool * string * option error) :=
  if IsEnablePortal bits then Some (match err with Some _ => true | None => false end, fc tt, err) else None.

(** ** Protocols *)

Definition Proto_String (p : Z) : string :=
  if (p =? 0)%Z then "Unknown" else if (p =? 255)%Z then "Frag" else if (p =? 1)%Z then "ICMPv4" else if (p =? 2)%Z then "IGMP"
  else if (p =? 58)%Z then "ICMPv6" else if (p =? 17)%Z then "UDP" else if (p =? 6)%Z then "TCP" else if (p =? 132)%Z then "SCTP"
  else if (p =? 99)%Z then "MSMP" else "IPProto-" ++ pretty p.
(** [PickFreePort]: what listening on any port of each protocol gives. *)
Definition PickFreePort (ListenUDP ListenTCP : result Z) (p : Z) : Z * option error :=
  let picked r := match r with Ok port => (port, None) | Err e => ((-1)%Z, Some e) | Panic w => ((-1)%Z, Some (EExt w)) end in
  if (p =? 17)%Z then picked ListenUDP else if (p =? 6)%Z then picked ListenTCP else (0%Z, None).

(** ** Examples in a help text *)

Record Example_ := mkExample { ex_Example : string; ex_Comment : string }.
Fixpoint Repeat (s : string) (n : nat) : string := match n with O => "" | S n => s ++ Repeat s n end.
Definition newline : string := String (Ascii.ascii_of_nat 10) EmptyString.
Section Help.
(** [Highlight], which colours. *)
Context (Highlight : string -> string).
Definition longer (m : nat) (e : Example_) : nat := if Nat.ltb m (String.length (ex_Example e)) then String.length (ex_Example e) else m.
Definition longest (es : list Example_) : nat := foldl longer O es.
Definition before_comment (max : nat) (e : Example_) : string :=
  "  " ++ Highlight (ex_Example e) ++ Repeat " " (max - String.length (ex_Example e) + 3).
Definition Examples_String (es : list Example_) : string :=
  match es with
  | [] => ""
  | _ => Join (map (fun e => before_comment (longest es) e ++ "# " ++ ex_Comment e) es) newline
  end.
End Help.

(** ** Lemmas *)

Lemma enabled_bit t bits : (0 <= t)%Z -> (0 <= bits)%Z -> is_enabled t bits = Z.testbit bits t.
Proof.
  intros Ht Hb. unfold is_enabled. rewrite Z.shiftl_1_l. destruct (Z.testbit bits t) eqn:Hbit.
  - apply Z.ltb_lt. assert (0 <= Z.land bits (2 ^ t))%Z by (apply Z.land_nonneg; lia).
    assert (Z.land bits (2 ^ t) <> 0)%Z; [|lia]. intros H0. apply (f_equal (fun z => Z.testbit z t)) in H0.
    rewrite Z.land_spec, Hbit, Z.pow2_bits_true, Z.bits_0 in H0 by done. done.
  - apply Z.ltb_ge. replace (Z.land bits (2 ^ t)) with 0%Z; [done|]. symmetry. apply Z.bits_inj'. intros n Hn.
    rewrite Z.land_spec, Z.bits_0. destruct (decide (n = t)) as [->|Hne]; [by rewrite Hbit|]. rewrite Z.pow2_bits_false by done. apply andb_false_r.
Qed.
Lemma Enable_bit t u bits : (0 <= t)%Z -> (0 <= u)%Z -> Z.testbit (Enable t bits) u = Z.testbit bits u || Z.eqb t u.
Proof. intros Ht Hu. unfold Enable. by rewrite Z.lor_spec, Z.shiftl_1_l, Z.pow2_bits_eqb. Qed.
Lemma Enable_nonneg t bits : (0 <= bits)%Z -> (0 <= Enable t bits)%Z.
Proof. intros Hb. unfold Enable. apply Z.lor_nonneg. split; [done|]. by apply Z.shiftl_nonneg. Qed.

Definition name_of (t : Z) : string :=
  if (t =? 0)%Z then "portal" else if (t =? 1)%Z then "relay" else if (t =? 2)%Z then "peer" else "device".
Lemma enable_part_bit t bits p : (0 <= t < 4)%Z -> Z.testbit (enable_part bits p) t = Z.testbit bits t || String.eqb (TrimSpace p) (name_of t).
Proof.
  intros Ht. assert (t = 0 \/ t = 1 \/ t = 2 \/ t = 3)%Z as Hc by lia. unfold enable_part.
  destruct (String.eqb_spec (TrimSpace p) "portal") as [->|H0]; [|destruct (String.eqb_spec (TrimSpace p) "relay") as [->|H1];
    [|destruct (String.eqb_spec (TrimSpace p) "peer") as [->|H2]; [|destruct (String.eqb_spec (TrimSpace p) "device") as [->|H3]]]];
    rewrite ?Enable_bit by (unfold DebugPortalLevel, DebugRelayPacket, DebugPeerPacket, DebugDevicePacket; lia);
    destruct Hc as [->|[->|[->| ->]]]; cbn; try done;
    match goal with |- _ = _ || ?b => destruct b eqn:Hb; [apply String.eqb_eq in Hb; done|by rewrite orb_false_r] end.
Qed.
Lemma enable_part_nonneg bits p : (0 <= bits)%Z -> (0 <= enable_part bits p)%Z.
Proof. intros Hb. unfold enable_part. repeat case_match; try done; by apply Enable_nonneg. Qed.
Lemma parts_bits t ps : (0 <= t < 4)%Z -> forall bits, (0 <= bits)%Z ->
  (0 <= foldl enable_part bits ps)%Z /\
  Z.testbit (foldl enable_part bits ps) t = Z.testbit bits t || existsb (fun p => String.eqb (TrimSpace p) (name_of t)) ps.
Proof.
  intros Ht. induction ps as [|p ps IH]; intros bits Hb; [by rewrite orb_false_r|]. cbn [foldl existsb].
  destruct (IH (enable_part bits p) (enable_part_nonneg _ _ Hb)) as [H1 H2]. split; [done|].
  by rewrite H2, enable_part_bit, orb_assoc.
Qed.

(** ** What the switches and the help do *)

(** A switch of the log is on exactly when the variable is "all" or one of its
    names, between commas, is the switch's, in any letter case and with blanks
    around; without the variable every switch is off. *)
Theorem switches_follow_environment (env : option string) (t : Z) : (0 <= t < 4)%Z ->
  is_enabled t (init env) = match env with
    | None => false
    | Some v => String.eqb (ToLower v) "all" || existsb (fun p => String.eqb (TrimSpace p) (name_of t)) (split_on "," (ToLower v))
    end.
Proof.
  intros Ht. destruct env as [v|]; cbn [init].
  - destruct (String.eqb_spec (ToLower v) "all") as [Ha|Ha]; cbn [orb].
    + assert (t = 0 \/ t = 1 \/ t = 2 \/ t = 3)%Z as [->|[->|[->| ->]]] by lia; done.
    + destruct (parts_bits t (split_on "," (ToLower v)) Ht 0%Z ltac:(done)) as [Hn Hb]. rewrite enabled_bit by lia. by rewrite Hb, Z.bits_0.
  - by assert (t = 0 \/ t = 1 \/ t = 2 \/ t = 3)%Z as [->|[->|[->| ->]]] by lia.
Qed.

Lemma length_Repeat n : String.length (Repeat " " n) = n.
Proof. induction n as [|n IH]; [done|]. cbn [Repeat]. by rewrite length_append, IH. Qed.
Lemma longest_bound es : forall m, (m <= foldl longer m es)%nat /\
  forall e, e ∈ es -> (String.length (ex_Example e) <= foldl longer m es)%nat.
Proof.
  induction es as [|x es IH]; intros m; cbn [foldl]; [split; [done|by intros e ?%elem_of_nil]|].
  set (m' := longer m x). destruct (IH m') as [H1 H2].
  assert (m <= m' /\ String.length (ex_Example x) <= m')%nat as [Hm Hx] by (unfold m', longer; destruct (Nat.ltb_spec m (String.length (ex_Example x))); lia).
  split; [lia|]. intros e [->|He]%elem_of_cons; [lia|by apply H2].
Qed.

(** The comments of a help text start in one column, when colouring adds the
    same to every text. *)
Theorem comments_are_aligned (Highlight : string -> string) (extra : nat) (es : list Example_) :
  (forall s, String.length (Highlight s) = String.length s + extra)%nat ->
  Forall (fun e => String.length (before_comment Highlight (longest es) e) = longest es + extra + 5)%nat es.
Proof.
  intros Hh. apply Forall_forall. intros e He. unfold before_comment.
  rewrite !length_append, length_Repeat, Hh. cbn [String.length]. pose proof (proj2 (longest_bound es 0) e He). unfold longest in *. lia.
Qed.

Module LoggingExample.
Example verbose : map (fun f => f (init (Some "Relay, device,nothing"))) [IsEnablePortal; IsEnableRelay; IsEnablePeer; IsEnableDevice] =
  [false; true; false; true].
Proof. by vm_compute. Qed.
(** A logger of the zero level logs nothing; [LogMode] changes the logger it
    is called on. *)
Example warnings : Warn (mkLogger Error_) "slow" = None /\ Warn (LogMode Info_ (mkLogger Error_)) "slow" = Some (Warn_, "slow").
Proof. done. Qed.
End LoggingExample.
