(* ===== verification/Commands.v ===== *)
(** The processes of the three commands: [cmd/pairportal/main.go],
    [cmd/pairrelay/main.go] and the end of [node/entry/entry_cli.go], from the
    command line to the exit.  A process is the phases of the goroutines that
    decide when it ends; what they do meanwhile is in the files of the portal,
    the relay server and the driver.  A turn of a goroutine is one event, with
    what its environment answers; the steps of a process are the turns that are
    enabled. *)
From S2P Require Import RelaySession RelayServer.
From S2P Require Import Prelude Noise Credential Wire ApiClient Config Services Entry.
#[local] Set Warnings "-clear-no-such-hyp".

(** ** Processes *)

(** How a process ended: with [os.Exit] or at the end of [main], or by a panic
    that nothing recovers. *)
Inductive End := Exit (code : Z) | Crash (why : string).

(** [cmdutil.Run]: an error of the command is the exit code 1. *)
Definition cmd_Run {A} (r : result A) : End + A :=
  match r with Ok a => inr a | Err _ => inl (Exit 1) | Panic w => inl (Crash w) end.
(** What [RunE] makes of the path of its flag: the help without one. *)
Definition with_config {A} (cfgPath : string) (load : result A) : End + A :=
  if String.eqb cfgPath "" then inl (Exit 0) else cmd_Run load.

(** The steps some events allow; a run that cannot be continued comes to [P]
    when there is no other, and all runs are finite. *)
Definition steps {S E} (turn : E -> S -> option S) (s s' : S) : Prop := exists e, turn e s = Some s'.
Definition comes_to {S} (step : relation S) (P : S -> Prop) (s : S) : Prop :=
  sn step s /\ forall s', rtc step s s' -> nf step s' -> P s'.

Section Measure.
Context {S : Type} (step : relation S) (inv P : S -> Prop) (weight : S -> nat).
Context (step_inv : forall s s', inv s -> step s s' -> inv s' /\ (weight s' < weight s)%nat)
  (progress : forall s, inv s -> P s \/ red step s).
Lemma comes_to_by_weight s : inv s -> comes_to step P s.
Proof.
  intros Hi. split.
  - remember (weight s) as n eqn:Hn. revert s Hi Hn. induction n as [n IH] using lt_wf_ind. intros s Hi ->.
    constructor. intros s' Hs. destruct (step_inv s s' Hi Hs) as [Hi' Hw]. by eapply IH.
  - intros s' Hr Hnf. assert (inv s') as Hi'.
    { induction Hr as [|x y z Hxy _ IH]; [done|]. apply IH; [|done]. by eapply step_inv. }
    destruct (progress s' Hi') as [HP|Hred]; [done|]. by destruct Hnf.
Qed.
End Measure.

(** ** The portal *)

(** [Serve]'s goroutine, and the one of [serveHTTP] that listens. *)
Inductive Phase (A : Type) := Starting | Serving_ (a : A) | Stopped.
Arguments Starting {A}. Arguments Serving_ {A} a. Arguments Stopped {A}.
Inductive Listener := NotYet | Binding | Accepting | Over.

Section Portal.
Context {K : Type} `{HK : RsaKey K} `{HF : FileSystem} (cfg : PortalCfg.Config).

(** [po_signal]: the main goroutine has received a signal and cancelled the
    context; [po_disk] holds the key file. *)
Record portal := mkPortal {
  po_ended : option End; po_signal : bool; po_serve : Phase (Serving (K := K)); po_listen : Listener; po_disk : fs }.
Inductive PortalEvent :=
| PStart (setup gorm cache preload : result unit)
| PListen (r : result unit)
| PServerEnds
| PShutdown
| PJoin.

(** [RunE] until the goroutine of [Serve] is started. *)
Definition portal_RunE (decode : string -> PortalCfg.Config -> result PortalCfg.Config) (cfgPath : string) (conf : fs) : End + PortalCfg.Config :=
  with_config cfgPath (PortalCfg.FromPath decode conf).
Definition portal_started (f : fs) : portal := mkPortal None false Starting NotYet f.
Definition portal_signal (s : portal) : portal := mkPortal (po_ended s) true (po_serve s) (po_listen s) (po_disk s).

(** A failed start is logged and ends the goroutine.  Listening that fails
    ends the process ([zap.Fatal]); a server that ends is logged. *)
Definition portal_turn (e : PortalEvent) (s : portal) : option portal :=
  match po_ended s with
  | Some _ => None
  | None =>
    match e, po_serve s, po_listen s with
    | PStart setup gorm cache preload, Starting, l =>
      let (f, r) := serveHTTP cfg setup gorm cache preload (po_disk s) in
      Some match r with
           | Ok sv => mkPortal None (po_signal s) (Serving_ sv) Binding f
           | Err _ => mkPortal None (po_signal s) Stopped l f
           | Panic w => mkPortal (Some (Crash w)) (po_signal s) Starting l f
           end
    | PListen r, p, Binding =>
      Some match r with
           | Ok _ => mkPortal None (po_signal s) p match p with Stopped => Over | _ => Accepting end (po_disk s)
           | _ => mkPortal (Some (Exit 1)) (po_signal s) p Over (po_disk s)
           end
    | PServerEnds, p, Accepting => Some (mkPortal None (po_signal s) p Over (po_disk s))
    | PShutdown, Serving_ _, l =>
      if po_signal s then Some (mkPortal None true Stopped match l with Accepting => Over | l => l end (po_disk s)) else None
    | PJoin, Stopped, l => if po_signal s then Some (mkPortal (Some (Exit 0)) true Stopped l (po_disk s)) else None
    | _, _, _ => None
    end
  end.

(** The states of a process that may receive a signal at any time. *)
Inductive portal_reachable (f : fs) : portal -> Prop :=
| portal_init : portal_reachable f (portal_started f)
| portal_step s s' : portal_reachable f s -> steps portal_turn s s' -> portal_reachable f s'
| portal_sig s : portal_reachable f s -> po_ended s = None -> portal_reachable f (portal_signal s).
End Portal.

(** ** The relay server *)

(** Where the main goroutine is, in [server.Serve] of [relay/] and of
    [internal/relay/], and the goroutine of the STUN server. *)
Inductive RelayMain := RStarting | RListening (srv : Server) | RAccepting (srv : Server) | RJoining.
Inductive Stun_ := SAbsent | SOpening | SServing | SOver.

Section Relay.
Context {W : Type} (send : HttpRequest RelayKeepaliveRequest -> GoM W (HttpResponse RelayKeepaliveResponse))
  (key_text : DHKeyBytes -> string) (parse : string -> result Signature) (startedAt : Z) (cfg : RelayCfg.Config).

(** [re_cancelled]: the context is done; [re_keepalive]: the goroutine of the
    keepalive runs.  The accepted connections are in [RelayServer.v]. *)
Record relay := mkRelay {
  re_ended : option End; re_cancelled : bool; re_main : RelayMain; re_keepalive : bool; re_stun : Stun_; re_world : W }.
Inductive RelayEvent :=
| RStart
| RListen (r : result unit)
| RAcceptFails
| RStun (r : result unit)
| RStunEnds
| RKeepaliveEnds
| RJoin.

Definition relay_RunE `{FileSystem} `{Curve} `{RelayCfg.Yaml} (cfgPath : string) (conf : fs) : fs * (End + RelayCfg.Config) :=
  if String.eqb cfgPath "" then (conf, inl (Exit 0))
  else let (conf', r) := RelayCfg.FromPath conf in (conf', cmd_Run r).
Definition relay_started (w : W) : relay := mkRelay None false RStarting false SAbsent w.
Definition relay_cancel (s : relay) : relay := mkRelay (re_ended s) true (re_main s) (re_keepalive s) (re_stun s) (re_world s).
Definition joining (s : relay) : relay := mkRelay None true RJoining (re_keepalive s) (re_stun s) (re_world s).

(** [Serve] that returns is only logged, whatever the error; then the context
    is cancelled and the goroutines are waited for.  A listener is closed when
    the context is done, and a connection that cannot be accepted ends
    [Serve].  The STUN server that cannot listen ends the process. *)
Definition relay_turn (e : RelayEvent) (s : relay) : option relay :=
  match re_ended s with
  | Some _ => None
  | None =>
    match e, re_main s with
    | RStart, RStarting =>
      let (w, r) := relay_Serve send key_text parse cfg startedAt (re_world s) in
      Some match r with
           | Ok (srv, _) => mkRelay None (re_cancelled s) (RListening srv) true SOpening w
           | Err _ => mkRelay None true RJoining false SAbsent w
           | Panic why => mkRelay (Some (Crash why)) (re_cancelled s) RStarting false SAbsent w
           end
    | RListen r, RListening srv =>
      Some match r with
           | Ok _ => mkRelay None (re_cancelled s) (RAccepting srv) (re_keepalive s) (re_stun s) (re_world s)
           | _ => joining s
           end
    | RAcceptFails, RAccepting _ => Some (joining s)
    | RStun r, m =>
      match re_stun s with
      | SOpening =>
        Some match r with
             | Ok _ => mkRelay None (re_cancelled s) m (re_keepalive s) SServing (re_world s)
             | _ => mkRelay (Some (Exit 1)) (re_cancelled s) m (re_keepalive s) SOver (re_world s)
             end
      | _ => None
      end
    | RStunEnds, m =>
      match re_stun s, re_cancelled s with
      | SServing, true => Some (mkRelay None true m (re_keepalive s) SOver (re_world s))
      | _, _ => None
      end
    | RKeepaliveEnds, m =>
      if re_keepalive s && re_cancelled s then Some (mkRelay None true m false (re_stun s) (re_world s)) else None
    | RJoin, RJoining =>
      match re_keepalive s, re_stun s with
      | false, (SAbsent | SOver) => Some (mkRelay (Some (Exit 0)) true RJoining false (re_stun s) (re_world s))
      | _, _ => None
      end
    | _, _ => None
    end
  end.

Inductive relay_reachable (w : W) : relay -> Prop :=
| relay_init : relay_reachable w (relay_started w)
| relay_step s s' : relay_reachable w s -> steps relay_turn s s' -> relay_reachable w s'
| relay_sig s : relay_reachable w s -> re_ended s = None -> relay_reachable w (relay_cancel s).
End Relay.

(** ** The node *)

(** The goroutines [Drive] starts. *)
Inductive Worker := DevRead | DevWrite | PullGraph | EventsMonitor | Monitoring | RenewCredential.
#[export] Instance Worker_eq_dec : EqDecision Worker.
Proof. solve_decision. Defined.
Definition workers : list Worker := [DevRead; DevWrite; PullGraph; EventsMonitor; Monitoring; RenewCredential].

(** The driver of [cli_Run] and the goroutines that run; the main goroutine
    waits for a signal, cancels the context and calls [Terminate], which waits
    for all of them; the deferred [Terminate] finds the driver stopped. *)
Record node := mkNode { nd_ended : option End; nd_handle : Handle; nd_cancelled : bool; nd_left : list Worker }.
Inductive NodeEvent :=
| NSignal
| NPacket
| NWorker (w : Worker)
| NJoin.
Definition node_started (h : Handle) : node := mkNode None h false (if h_running h then workers else []).
Definition without (w : Worker) : list Worker -> list Worker := base.filter (fun x => x <> w).
(** The goroutine that reads the device looks at the context between two reads,
    and the device stays open: it ends with the packet that comes next.  The
    others wait for the context as well. *)
Definition node_turn (e : NodeEvent) (s : node) : option node :=
  match nd_ended s with
  | Some _ => None
  | None =>
    match e with
    | NSignal => if nd_cancelled s then None else Some (mkNode None (driver_stopped (nd_handle s)) true (nd_left s))
    | NPacket =>
      if nd_cancelled s && bool_decide (DevRead ∈ nd_left s) then Some (mkNode None (nd_handle s) true (without DevRead (nd_left s))) else None
    | NWorker w =>
      if nd_cancelled s && bool_decide (w <> DevRead /\ w ∈ nd_left s) then Some (mkNode None (nd_handle s) true (without w (nd_left s))) else None
    | NJoin =>
      if nd_cancelled s && bool_decide (nd_left s = []) then Some (mkNode (Some (Exit 0)) (nd_handle s) true []) else None
    end
  end.

(** A run of events, as far as they are enabled. *)
Fixpoint run {S E} (turn : E -> S -> option S) (es : list E) (s : S) : option S :=
  match es with [] => Some s | e :: es => s' ← turn e s; run turn es s' end.

(** ** Lemmas *)

Lemma run_inv {S E} (turn : E -> S -> option S) (I : S -> Prop) (es : list E) :
  (forall e s s', e ∈ es -> I s -> turn e s = Some s' -> I s') -> forall s s', I s -> run turn es s = Some s' -> I s'.
Proof.
  induction es as [|e es IH]; intros HI s s' Hs Hr; [by injection Hr as <-|]. cbn in Hr.
  destruct (turn e s) as [s1|] eqn:Ht; [|done]. cbn in Hr. eapply IH; [|by eapply HI; [left|..]|exact Hr].
  intros e' t t' He. apply HI. by right.
Qed.

Section PortalFacts.
Context {K : Type} `{HK : RsaKey K} `{HF : FileSystem} (cfg : PortalCfg.Config).
Abbreviation portal_steps := (steps (portal_turn (K := K) cfg)).

Definition portal_weight (s : portal (K := K)) : nat :=
  match po_ended s with Some _ => 0 | None => 1 end + match po_serve s with Starting => 10 | Serving_ _ => 4 | Stopped => 0 end +
  match po_listen s with NotYet => 0 | Binding => 3 | Accepting => 2 | Over => 1 end.
Ltac portal_cases e :=
  destruct e; cbn; repeat case_match; try done; intros [= <-]; cbn in *; simplify_eq.
Lemma portal_turn_weight e s s' : portal_turn cfg e s = Some s' ->
  (po_signal s = true -> po_signal s' = true) /\ (portal_weight s' < portal_weight s)%nat.
Proof.
  destruct s as [en sg sv ln f]. unfold portal_turn, portal_weight. destruct en; [done|].
  portal_cases e; (split; [done|]); repeat case_match; simplify_eq; lia.
Qed.
Lemma portal_progress s : po_signal s = true -> is_Some (po_ended s) \/ red portal_steps s.
Proof.
  destruct s as [en sg sv ln f]. cbn. intros ->. destruct en as [x|]; [by left; eexists|right].
  destruct sv as [|sv|].
  - destruct (serveHTTP cfg (Ok tt) (Ok tt) (Ok tt) (Ok tt) f) as [f' r] eqn:Hs.
    eexists. exists (PStart (Ok tt) (Ok tt) (Ok tt) (Ok tt)). cbn. by rewrite Hs.
  - eexists. by exists PShutdown.
  - eexists. by exists PJoin.
Qed.
(** What is true of a process that ended. *)
Definition portal_end_ok (s : portal (K := K)) : Prop :=
  match po_ended s with
  | Some (Exit c) => if c =? 0 then po_signal s = true /\ po_serve s = Stopped else c = 1 /\ po_listen s = Over
  | _ => True
  end.
Lemma portal_turn_end e s s' : portal_turn cfg e s = Some s' -> portal_end_ok s'.
Proof. destruct s as [en sg sv ln f]. unfold portal_turn, portal_end_ok. destruct en; [done|]. portal_cases e; done. Qed.
Lemma portal_reachable_end f s : portal_reachable cfg f s -> portal_end_ok s.
Proof.
  induction 1 as [|s s' _ _ [e He]|s _ IH Hn]; [done|by eapply portal_turn_end|]. unfold portal_end_ok in *. cbn in *. by rewrite Hn in *.
Qed.
End PortalFacts.

Section RelayFacts.
Context {W : Type} (send : HttpRequest RelayKeepaliveRequest -> GoM W (HttpResponse RelayKeepaliveResponse))
  (key_text : DHKeyBytes -> string) (parse : string -> result Signature) (startedAt : Z) (cfg : RelayCfg.Config).
Abbreviation relay_turn := (relay_turn send key_text parse startedAt cfg).

Definition relay_weight (s : relay (W := W)) : nat :=
  match re_ended s with Some _ => 0 | None => 1 end +
  match re_main s with RStarting => 20 | RListening _ => 4 | RAccepting _ => 2 | RJoining => 0 end +
  (if re_keepalive s then 1 else 0) + match re_stun s with SOpening => 3 | SServing => 2 | _ => 0 end.
(** Nothing is in the background before the server was made. *)
Definition relay_ok (s : relay (W := W)) : Prop :=
  match re_ended s with
  | Some (Exit c) =>
    if c =? 0 then re_cancelled s = true /\ re_main s = RJoining /\ re_keepalive s = false /\ (re_stun s = SAbsent \/ re_stun s = SOver)
    else c = 1 /\ re_stun s = SOver
  | Some (Crash _) => True
  | None => match re_main s with RStarting => re_keepalive s = false /\ re_stun s = SAbsent | RJoining => re_cancelled s = true | _ => True end
  end.
Lemma relay_turn_ok e s s' : relay_ok s -> relay_turn e s = Some s' ->
  relay_ok s' /\ (re_cancelled s = true -> re_cancelled s' = true) /\ (relay_weight s' < relay_weight s)%nat.
Proof.
  destruct s as [en ca mn ka st w]. unfold Commands.relay_turn, relay_weight, relay_ok. cbn -[relay_Serve]. destruct en; [done|].
  intros Hok. destruct e.
  - destruct mn; try done. destruct Hok as [-> ->]. destruct (relay_Serve _ _ _ _ _ _) as [w' [[srv a]| |]]; intros [= <-]; cbn; split_and!; done || lia.
  - destruct mn as [|srv| |]; try done. destruct r; intros [= <-]; cbn; split_and!; done || lia.
  - destruct mn; try done. intros [= <-]. cbn. split_and!; done || lia.
  - destruct st; try done. destruct mn; [by destruct Hok|..]; destruct r; intros [= <-]; cbn; split_and!; done || lia.
  - destruct st; try done. destruct ca; [|done]. destruct mn; [by destruct Hok|..]; intros [= <-]; cbn; split_and!; done || lia.
  - destruct ka; [|done]. destruct ca; [|done]. destruct mn; [by destruct Hok|..]; intros [= <-]; cbn; split_and!; done || lia.
  - destruct mn; try done. destruct ka; [done|]. destruct st; intros [= <-]; cbn; split_and!; auto; lia.
Qed.
Lemma relay_progress s : relay_ok s -> re_cancelled s = true -> is_Some (re_ended s) \/ red (steps relay_turn) s.
Proof.
  destruct s as [en ca mn ka st w]. unfold relay_ok. cbn. intros Hok ->. destruct en as [x|]; [by left; eexists|right].
  destruct mn as [|srv|srv|].
  - destruct (relay_Serve send key_text parse cfg startedAt w) as [w' r] eqn:Hs. eexists. exists RStart. cbn. by rewrite Hs.
  - eexists. by exists (RListen (Ok tt)).
  - eexists. by exists RAcceptFails.
  - destruct ka; [eexists; by exists RKeepaliveEnds|]. destruct st.
    + eexists. by exists RJoin.
    + eexists. by exists (RStun (Ok tt)).
    + eexists. by exists RStunEnds.
    + eexists. by exists RJoin.
Qed.
Lemma relay_reachable_ok w s : relay_reachable send key_text parse startedAt cfg w s -> relay_ok s.
Proof.
  induction 1 as [|s s' _ IH [e He]|s _ IH Hn]; [done|by eapply relay_turn_ok|]. unfold relay_ok in *. cbn in *.
  rewrite Hn in *. by destruct (re_main s).
Qed.
End RelayFacts.

Section NodeFacts.
Definition node_weight (s : node) : nat :=
  match nd_ended s with Some _ => 0 | None => 1 end + (if nd_cancelled s then 0 else 1) + length (nd_left s).
Lemma without_shorter w l : w ∈ l -> (length (without w l) < length l)%nat.
Proof. intros Hw. apply length_filter_lt with (x := w); [done|]. intros Hn. by apply Hn. Qed.
Lemma node_turn_weight e s s' : node_turn e s = Some s' ->
  (nd_cancelled s = true -> nd_cancelled s' = true) /\ (node_weight s' < node_weight s)%nat.
Proof.
  destruct s as [en h ca l]. unfold node_turn, node_weight. cbn. destruct en; [done|]. destruct ca, e; cbn; try done.
  - case_bool_decide as H; [|done]. intros [= <-]. cbn. pose proof (without_shorter _ _ H). split; [done|lia].
  - case_bool_decide as H; [|done]. intros [= <-]. cbn. pose proof (without_shorter _ _ (proj2 H)). split; [done|lia].
  - case_bool_decide; [|done]. intros [= <-]. cbn. split; [done|lia].
  - intros [= <-]. cbn. split; [done|lia].
Qed.
Lemma node_progress s : nd_cancelled s = true -> is_Some (nd_ended s) \/ red (steps node_turn) s.
Proof.
  destruct s as [en h ca l]. cbn. intros ->. destruct en as [x|]; [by left; eexists|right].
  destruct l as [|w l]; [eexists; exists NJoin; cbn; reflexivity|].
  destruct (decide (w = DevRead)) as [->|Hw].
  - eexists. exists NPacket. cbn. rewrite bool_decide_true by by left. done.
  - eexists. exists (NWorker w). cbn. rewrite bool_decide_true; [done|]. split; [done|by left].
Qed.
(** The node is up and its reader runs, whatever else has ended. *)
Definition reader_up (s : node) : Prop := nd_ended s = None /\ DevRead ∈ nd_left s.
Lemma node_turn_reader e s s' : e <> NPacket -> reader_up s -> node_turn e s = Some s' -> reader_up s'.
Proof.
  destruct s as [en h ca l]. unfold reader_up, node_turn. cbn. intros He [-> Hl]. destruct ca, e; cbn; try done.
  - case_bool_decide as H; [|done]. intros [= <-]. cbn. split; [done|]. apply list_elem_of_filter. split; [by destruct H|done].
  - case_bool_decide as H; [|done]. subst. by apply elem_of_nil in Hl.
  - by intros [= <-].
Qed.
End NodeFacts.

(** ** Properties *)

(** Once a signal came, the portal's process ends whatever its
    goroutines have reached and in whatever order they go on: every run is
    finite and stops only when the process has ended.  It ends well only after
    a signal and with its server stopped; otherwise it could not listen. *)
Theorem signal_ends_the_portal {K : Type} `{RsaKey K} `{FileSystem} (cfg : PortalCfg.Config) (f : fs) (s : portal (K := K)) :
  portal_reachable cfg f s ->
  (po_signal s = true -> comes_to (steps (portal_turn cfg)) (fun s' => is_Some (po_ended s')) s) /\
  (po_ended s = Some (Exit 0) -> po_signal s = true /\ po_serve s = Stopped) /\
  (forall c, po_ended s = Some (Exit c) -> c <> 0 -> c = 1 /\ po_listen s = Over).
Proof.
  intros Hr. pose proof (portal_reachable_end cfg f s Hr) as He. unfold portal_end_ok in He. split_and!.
  - intros Hs. apply (comes_to_by_weight _ (fun s => po_signal s = true) _ portal_weight); [|apply portal_progress|done].
    intros s1 s2 H1 [e Ht]. destruct (portal_turn_weight _ _ _ _ Ht) as [Hk Hw]. auto.
  - intros Hx. by rewrite Hx in He.
  - intros c Hx Hc. rewrite Hx in He. by destruct (Z.eqb_spec c 0).
Qed.

(** The relay's process ends once its context is done, by a signal or because
    [Serve] returned: every run is finite and stops only at the end.  When it
    exits with 0 the main goroutine has waited for the keepalive and for the
    STUN server; it exits with 1 only because the STUN server cannot listen. *)
Theorem cancelled_relay_ends {W : Type} (send : HttpRequest RelayKeepaliveRequest -> GoM W (HttpResponse RelayKeepaliveResponse))
    (key_text : DHKeyBytes -> string) (parse : string -> result Signature) (startedAt : Z) (cfg : RelayCfg.Config) (w : W) (s : relay (W := W)) :
  relay_reachable send key_text parse startedAt cfg w s ->
  (re_cancelled s = true -> comes_to (steps (relay_turn send key_text parse startedAt cfg)) (fun s' => is_Some (re_ended s')) s) /\
  (re_ended s = Some (Exit 0) -> re_cancelled s = true /\ re_keepalive s = false /\ (re_stun s = SAbsent \/ re_stun s = SOver)) /\
  (forall c, re_ended s = Some (Exit c) -> c <> 0 -> c = 1 /\ re_stun s = SOver).
Proof.
  intros Hr. pose proof (relay_reachable_ok _ _ _ _ _ _ _ Hr) as Hok. split_and!.
  - intros Hc. apply (comes_to_by_weight _ (fun s => relay_ok s /\ re_cancelled s = true) _ relay_weight); [| |done].
    + intros s1 s2 [H1 H2] [e Ht]. destruct (relay_turn_ok _ _ _ _ _ _ _ _ H1 Ht) as (H3 & H4 & H5). auto.
    + intros s1 [H1 H2]. by apply relay_progress.
  - intros Hx. unfold relay_ok in Hok. rewrite Hx in Hok. cbn in Hok. by destruct Hok as (? & _ & ? & ?).
  - intros c Hx Hn. unfold relay_ok in Hok. rewrite Hx in Hok. by destruct (Z.eqb_spec c 0).
Qed.

(** The node's process ends after a signal when the device gives another
    packet: then every run is finite and stops at the end.  Without a packet
    it never ends, as nobody closes the device the reader waits for. *)
Theorem node_ends_with_a_packet (h : Handle) (es : list NodeEvent) (s : node) :
  run node_turn es (node_started h) = Some s ->
  (nd_cancelled s = true -> comes_to (steps node_turn) (fun s' => is_Some (nd_ended s')) s) /\
  (h_running h = true -> NPacket ∉ es -> nd_ended s = None).
Proof.
  intros Hr. split.
  - intros Hs. apply (comes_to_by_weight _ (fun s => nd_cancelled s = true) _ node_weight); [|apply node_progress|done].
    intros s1 s2 H1 [e Ht]. destruct (node_turn_weight _ _ _ Ht) as [Hk Hw]. auto.
  - intros Hh Hn. refine (proj1 (run_inv node_turn reader_up es _ _ s _ Hr)).
    + intros e s1 s2 He. apply node_turn_reader. by intros ->.
    + unfold reader_up, node_started. rewrite Hh. cbn. split; [done|by left].
Qed.

(** ** Examples *)

Module CommandsExample.
Import ServicesExample.
#[local] Existing Instances ServicesExample.files ServicesExample.rsa.
(** A portal whose database cannot be opened: the error is logged and the
    process stays, serving nothing, until a signal ends it with 0. *)
Definition dead_portal : portal (K := string) :=
  default (portal_started blank) (portal_turn (with_relay "") (PStart (Ok tt) (Err (EExt "connection refused")) (Ok tt) (Ok tt)) (portal_started blank)).
Lemma dead_portal_step :
  portal_turn (with_relay "") (PStart (Ok tt) (Err (EExt "connection refused")) (Ok tt) (Ok tt)) (portal_started blank) = Some dead_portal.
Proof. vm_compute. reflexivity. Qed.
Lemma dead_portal_reachable : portal_reachable (with_relay "") blank (portal_signal dead_portal).
Proof.
  apply portal_sig; [|vm_compute; reflexivity]. eapply portal_step; [apply portal_init|]. eexists. exact dead_portal_step.
Qed.
Example failed_portal_stays :
  po_ended dead_portal = None /\ po_serve dead_portal = Stopped /\ nf (steps (portal_turn (with_relay ""))) dead_portal.
Proof.
  split_and!; [vm_compute; reflexivity..|]. intros [s' [e He]]. destruct e; cbn in He; discriminate.
Qed.
Lemma signal_ends_the_portal_witness :
  comes_to (steps (portal_turn (with_relay ""))) (fun s' => is_Some (po_ended s')) (portal_signal dead_portal).
Proof. exact (proj1 (signal_ends_the_portal (with_relay "") blank (portal_signal dead_portal) dead_portal_reachable) eq_refl). Defined.

(** A portal that starts, listens, gets a signal and shuts down. *)
Example portal_life :
  po_ended <$> (s ← run (portal_turn (with_relay "")) [PStart (Ok tt) (Ok tt) (Ok tt) (Ok tt); PListen (Ok tt)] (portal_started (K := string) blank);
    run (portal_turn (with_relay "")) [PShutdown; PJoin] (portal_signal s)) = Some (Some (Exit 0)).
Proof. vm_compute. reflexivity. Qed.

(** A relay whose portal does not answer: the error of [Serve] is logged and
    the process exits with 0. *)
Definition no_portal (r : HttpRequest RelayKeepaliveRequest) : GoM unit (HttpResponse RelayKeepaliveResponse) :=
  gthrow (EExt "connection refused").
Definition relay_cfg : RelayCfg.Config := RelayCfg.set_DHKey (mkDHKey (mkDHKeyBytes (replicate 32 Byte.x01)) (mkDHKeyBytes (replicate 32 Byte.x02))) RelayCfg.New.
Example failed_relay_exits_zero :
  re_ended <$> run (relay_turn no_portal (fun _ => "key"%string) (fun _ => Err (EMsg "no key")) 0 relay_cfg) [RStart; RJoin] (relay_started tt) =
  Some (Some (Exit 0)).
Proof. vm_compute. reflexivity. Qed.

(** After a signal everything but the reader has ended, and the process waits. *)
Example node_hangs :
  let quiet := NSignal :: map NWorker (tail workers) in
  (s ← run node_turn quiet (node_started (driver_Drive 0 (driver_Preflight (Ok tt) driver_New))); Some (nd_ended s, nd_left s)) =
    Some (None, [DevRead]) /\
  run node_turn (quiet ++ [NJoin]) (node_started (driver_Drive 0 driver_New)) = None /\
  nd_ended <$> run node_turn (quiet ++ [NPacket; NJoin]) (node_started (driver_Drive 0 driver_New)) = Some (Some (Exit 0)).
Proof. vm_compute. done. Qed.
End CommandsExample.
