(* ===== verification/Menu.v ===== *)
(** The menu of the desktop application on macOS: [node/entry/gui_darwin.go]
    and the menu items of [node/entry/systray/].  Every item is held in one
    place, so items are values with their identifier; the tray's order and the
    registry are lists of identifiers. *)
From S2P Require Import Driver MeshManager.
From S2P Require Import Prelude GoText Entry.
#[local] Set Warnings "-clear-no-such-hyp".

(** ** Menu items ([systray.go]) *)

(** What clicking an item runs. *)
Inductive Action :=
| OpenLoginWeb | OpenConsole | AutoStart | Logout | OpenAbout | Quit
| SwitchDriver (currentEnabled : bool) | CopyAddress (name address : string) | ChooseLocale (name : string).
#[export] Instance Action_eq_dec : EqDecision Action.
Proof. solve_decision. Defined.

#[warnings="-register-all"]
Inductive MenuItem := mkItem {
  mi_sep : bool; mi_id : Z; mi_title : string; mi_disabled : bool; mi_checked : bool; mi_hidden : bool;
  mi_action : option Action; mi_children : list MenuItem }.

Definition SetTitle (t : string) (i : MenuItem) : MenuItem :=
  mkItem (mi_sep i) (mi_id i) t (mi_disabled i) (mi_checked i) (mi_hidden i) (mi_action i) (mi_children i).
Definition SetDisabled (d : bool) (i : MenuItem) : MenuItem :=
  mkItem (mi_sep i) (mi_id i) (mi_title i) d (mi_checked i) (mi_hidden i) (mi_action i) (mi_children i).
Definition SetHidden (h : bool) (i : MenuItem) : MenuItem :=
  mkItem (mi_sep i) (mi_id i) (mi_title i) (mi_disabled i) (mi_checked i) h (mi_action i) (mi_children i).
Definition SetChecked (c : bool) (i : MenuItem) : MenuItem :=
  mkItem (mi_sep i) (mi_id i) (mi_title i) (mi_disabled i) c (mi_hidden i) (mi_action i) (mi_children i).
Definition SetAction (a : Action) (i : MenuItem) : MenuItem :=
  mkItem (mi_sep i) (mi_id i) (mi_title i) (mi_disabled i) (mi_checked i) (mi_hidden i) (Some a) (mi_children i).
Definition set_children (l : list MenuItem) (i : MenuItem) : MenuItem :=
  mkItem (mi_sep i) (mi_id i) (mi_title i) (mi_disabled i) (mi_checked i) (mi_hidden i) (mi_action i) l.

(** [NewMenuItem] and [NewSeparator] with the next identifier. *)
Definition new_item (id : Z) (title : string) : MenuItem := mkItem false id title false false false None [].
Definition new_separator (id : Z) : MenuItem := mkItem true id "" false false false None [].

(** ** The application's menu *)

(** The fixed items with the keys of their titles, the separators that only a
    signed-in node shows, the lists, the top level's order, the identifiers the
    registry knows, and the last identifier given. *)
Record Menu := mkMenu {
  m_login : MenuItem; m_device : MenuItem; m_status : MenuItem; m_enable : MenuItem; m_console : MenuItem;
  m_myDevices : MenuItem; m_myNetworks : MenuItem; m_start : MenuItem; m_logout : MenuItem; m_about : MenuItem;
  m_language : MenuItem; m_quit : MenuItem;
  m_seps : list MenuItem; m_myDevicesSep : Z; m_myNetworksSep : Z;
  m_myDevicesList : list MenuItem; m_myNetworksList : list MenuItem;
  m_order : list Z; m_registry : list Z; m_currentID : Z }.

Definition set_fixed (login device status enable console myDevices myNetworks start logout : MenuItem) (seps : list MenuItem) (m : Menu) : Menu :=
  mkMenu login device status enable console myDevices myNetworks start logout (m_about m) (m_language m) (m_quit m)
    seps (m_myDevicesSep m) (m_myNetworksSep m) (m_myDevicesList m) (m_myNetworksList m) (m_order m) (m_registry m) (m_currentID m).
Definition set_lists (devices networks : list MenuItem) (m : Menu) : Menu :=
  mkMenu (m_login m) (m_device m) (m_status m) (m_enable m) (m_console m) (m_myDevices m) (m_myNetworks m) (m_start m) (m_logout m)
    (m_about m) (m_language m) (m_quit m) (m_seps m) (m_myDevicesSep m) (m_myNetworksSep m) devices networks
    (m_order m) (m_registry m) (m_currentID m).
Definition set_language (language : MenuItem) (m : Menu) : Menu :=
  mkMenu (m_login m) (m_device m) (m_status m) (m_enable m) (m_console m) (m_myDevices m) (m_myNetworks m) (m_start m) (m_logout m)
    (m_about m) language (m_quit m) (m_seps m) (m_myDevicesSep m) (m_myNetworksSep m) (m_myDevicesList m) (m_myNetworksList m)
    (m_order m) (m_registry m) (m_currentID m).
Definition set_tray (order registry : list Z) (currentID : Z) (m : Menu) : Menu :=
  mkMenu (m_login m) (m_device m) (m_status m) (m_enable m) (m_console m) (m_myDevices m) (m_myNetworks m) (m_start m) (m_logout m)
    (m_about m) (m_language m) (m_quit m) (m_seps m) (m_myDevicesSep m) (m_myNetworksSep m) (m_myDevicesList m) (m_myNetworksList m)
    order registry currentID.

Abbreviation T := (GoM Menu).

(** [NewMenuItem]: the identifier is incremented first. *)
Definition NewMenuItem (title : string) : T MenuItem := fun m =>
  let id := m_currentID m + 1 in (set_tray (m_order m) (m_registry m) id m, Ok (new_item id title)).

Fixpoint insert_before (id next : Z) (l : list Z) : list Z :=
  match l with
  | [] => [id]
  | x :: l => if x =? next then id :: x :: l else x :: insert_before id next l
  end.
(** [AddMenuItem] and [AddMenuItemBefore] at the top level, and [AddMenuItem]
    below a parent, whose children the caller extends. *)
Definition AddMenuItem (i : MenuItem) : T unit := gmodify (fun m => set_tray (m_order m ++ [mi_id i]) (mi_id i :: m_registry m) (m_currentID m) m).
Definition AddMenuItemBefore (i : MenuItem) (next : Z) : T unit :=
  gmodify (fun m => set_tray (insert_before (mi_id i) next (m_order m)) (mi_id i :: m_registry m) (m_currentID m) m).
Definition AddChild (i : MenuItem) : T unit := gmodify (fun m => set_tray (m_order m) (mi_id i :: m_registry m) (m_currentID m) m).

(** *** Rendering *)

Definition setMenuVisibility (isGuest : bool) : T unit := gmodify (fun m =>
  let m := set_fixed (SetHidden (negb isGuest) (m_login m)) (SetHidden isGuest (m_device m)) (SetHidden isGuest (m_status m))
    (SetHidden isGuest (m_enable m)) (SetHidden isGuest (m_console m)) (SetHidden isGuest (m_myDevices m))
    (SetHidden isGuest (m_myNetworks m)) (m_start m) (SetHidden isGuest (m_logout m))
    (map (SetHidden isGuest) (m_seps m)) m in
  if isGuest then set_lists (map (SetHidden true) (m_myDevicesList m)) (map (SetHidden true) (m_myNetworksList m)) m else m).

Definition tab : string := String (Ascii.ascii_of_nat 9) EmptyString.
Definition deviceName (d : Device) : string := (dev_Name d ++ tab ++ dev_IPv4 d)%string.
Definition copy_of (d : Device) : Action := CopyAddress (dev_Name d) (dev_IPv4 d).

(** Hiding what is shown beyond [n]. *)
Definition hide_from (n : nat) (l : list MenuItem) : list MenuItem := imap (fun i x => if Nat.ltb i n then x else SetHidden true x) l.

(** "My devices". *)
Definition render_device (shown : nat) (i : nat) (d : Device) : T unit :=
  if Nat.ltb i shown then gmodify (fun m =>
    set_lists (alter (fun x => SetAction (copy_of d) (SetHidden false (SetTitle (deviceName d) x))) i (m_myDevicesList m)) (m_myNetworksList m) m)
  else
    m ← gget;
    device ← NewMenuItem (deviceName d);
    _ ← AddMenuItemBefore device (m_myDevicesSep m);
    gmodify (fun m => set_lists (m_myDevicesList m ++ [SetAction (copy_of d) device]) (m_myNetworksList m) m).
Definition render_devices (ds : list Device) : T unit :=
  m ← gget;
  _ ← genum 0 ds (render_device (length (m_myDevicesList m)));
  gmodify (fun m => set_lists (hide_from (length ds) (m_myDevicesList m)) (m_myNetworksList m) m).

(** The devices of one network, as the children of its item [j]. *)
Definition on_network (j : nat) (f : MenuItem -> MenuItem) : T unit :=
  gmodify (fun m => set_lists (m_myDevicesList m) (alter f j (m_myNetworksList m)) m).
Definition render_child (j shown : nat) (i : nat) (d : Device) : T unit :=
  if Nat.ltb i shown then
    on_network j (fun x => set_children (alter (fun c => SetAction (copy_of d) (SetHidden false (SetTitle (deviceName d) c))) i (mi_children x)) x)
  else
    device ← NewMenuItem (deviceName d);
    _ ← AddChild device;
    on_network j (fun x => set_children (mi_children x ++ [SetAction (copy_of d) device]) x).
Definition is_nil {A} (l : list A) : bool := match l with [] => true | _ => false end.
Definition render_network (shown : nat) (j : nat) (n : NetworkSummary) : T unit :=
  _ ← (if Nat.ltb j shown then
         m ← gget;
         let count := length (default [] (mi_children <$> m_myNetworksList m !! j)) in
         _ ← genum 0 (ns_Devices n) (render_child j count);
         on_network j (fun x => set_children (hide_from (length (ns_Devices n)) (mi_children x)) x)
       else
         m ← gget;
         network ← NewMenuItem (ns_Name n);
         _ ← AddMenuItemBefore network (m_myNetworksSep m);
         _ ← gmodify (fun m => set_lists (m_myDevicesList m) (m_myNetworksList m ++ [network]) m);
         genum 0 (ns_Devices n) (render_child j 0));
  on_network j (fun x => SetDisabled (is_nil (ns_Devices n)) (SetHidden false (SetTitle (ns_Name n) x))).
Definition render_networks (ns : list NetworkSummary) : T unit :=
  m ← gget;
  _ ← genum 0 ns (render_network (length (m_myNetworksList m)));
  gmodify (fun m => set_lists (m_myDevicesList m) (hide_from (length ns) (m_myNetworksList m)) m).

(** The languages: their names in the order the map gives them, with the
    description of each and the current one. *)
Definition render_language (desc : string -> string) (curName : string) (shown : nat) (i : nat) (name : string) : T unit :=
  let finish x := SetAction (ChooseLocale name) (SetChecked (String.eqb curName name) (SetDisabled (String.eqb curName name) x)) in
  if Nat.ltb i shown then gmodify (fun m =>
    set_language (set_children (alter (fun c => finish (SetHidden false (SetTitle (desc name) c))) i (mi_children (m_language m))) (m_language m)) m)
  else
    language ← NewMenuItem (desc name);
    _ ← AddChild language;
    gmodify (fun m => set_language (set_children (mi_children (m_language m) ++ [finish language]) (m_language m)) m).
Definition displayLanguageList (locales : list string) (desc : string -> string) (curName : string) : T unit :=
  m ← gget; genum 0 locales (render_language desc curName (length (mi_children (m_language m)))).

Section Render.
(** [i18n.L] with its arguments, and the languages. *)
Context (L : string -> list string -> string) (locales : list string) (desc : string -> string) (curName : string).

(** [render], for the configuration's guest flag and the auto start's state. *)
Definition render_profile (s : DriverSummary) : T unit := gmodify (fun m =>
  let p := ds_Profile s in
  set_fixed (m_login m)
    (SetAction (CopyAddress (pf_Name p) (pf_IPv4 p)) (SetTitle (L "tray.device" [pf_Name p]) (m_device m)))
    (SetTitle (L ("tray.status." ++ ds_Status s)%string []) (m_status m))
    (SetAction (SwitchDriver (ds_Enabled s)) (SetChecked (ds_Enabled s) (m_enable m)))
    (m_console m) (m_myDevices m) (m_myNetworks m) (m_start m) (m_logout m) (m_seps m) m).
Definition render_content (s : DriverSummary) : T unit :=
  _ ← render_profile s;
  _ ← render_devices (sm_MyDevices (ds_Mesh s));
  render_networks (sm_Networks (ds_Mesh s)).
Definition render (isGuest auto : bool) (s : DriverSummary) : T unit :=
  _ ← setMenuVisibility isGuest;
  _ ← (if isGuest then mret tt else render_content s);
  _ ← displayLanguageList locales desc curName;
  gmodify (fun m => set_fixed (m_login m) (m_device m) (m_status m) (m_enable m) (m_console m) (m_myDevices m) (m_myNetworks m)
    (SetDisabled (negb auto) (m_start m)) (m_logout m) (m_seps m) m).

(** *** Creating the tray *)

Definition add_item (title : string) : T MenuItem := i ← NewMenuItem title; _ ← AddMenuItem i; mret i.
Definition add_action (title : string) (a : Action) : T MenuItem :=
  i ← NewMenuItem title; _ ← AddMenuItem (SetAction a i); mret (SetAction a i).
Definition add_separator : T MenuItem := fun m =>
  let id := m_currentID m + 1 in
  let i := new_separator id in
  (set_tray (m_order m ++ [id]) (id :: m_registry m) id m, Ok i).

(** [createTray] on an application without items. *)
Definition no_item : MenuItem := new_item 0 "".
Definition no_menu : Menu :=
  mkMenu no_item no_item no_item no_item no_item no_item no_item no_item no_item no_item no_item no_item [] 0 0 [] [] [] [] 0.
Definition createTray (isGuest auto : bool) : T unit :=
  login ← add_action (L "tray.login" []) OpenLoginWeb;
  device ← add_item (L "tray.unknown" []);
  status ← add_item (L "tray.unknown" []);
  enable ← add_item (L "tray.enable" []);
  console ← add_action (L "tray.profile.console" []) OpenConsole;
  sep ← add_separator;
  myDevices ← add_item (L "tray.my_devices" []);
  devicesSep ← add_separator;
  myNetworks ← add_item (L "tray.my_networks" []);
  networksSep ← add_separator;
  start ← add_action (L "tray.autorun" []) AutoStart;
  logout ← add_action (L "tray.profile.logout" []) Logout;
  about ← add_action (L "tray.about" []) OpenAbout;
  _ ← add_separator;
  language ← add_item (L "tray.language" [curName]);
  _ ← add_separator;
  quit ← add_action (L "tray.exit" []) Quit;
  _ ← gmodify (fun m => mkMenu login device (SetDisabled true status) enable console (SetDisabled true myDevices)
    (SetDisabled true myNetworks) (SetChecked auto start) logout about language quit [sep; devicesSep; networksSep]
    (mi_id devicesSep) (mi_id networksSep) [] [] (m_order m) (m_registry m) (m_currentID m));
  setMenuVisibility isGuest.
End Render.

(** [setLocale], when the locale is there: the fixed titles are looked up
    again, then everything is rendered with the driver's summary. *)
Definition retitle (L : string -> list string -> string) (curName : string) : T unit := gmodify (fun m =>
  mkMenu (SetTitle (L "tray.login" []) (m_login m)) (SetTitle (L "tray.unknown" []) (m_device m))
    (SetTitle (L "tray.unknown" []) (m_status m)) (SetTitle (L "tray.enable" []) (m_enable m))
    (SetTitle (L "tray.profile.console" []) (m_console m)) (SetTitle (L "tray.my_devices" []) (m_myDevices m))
    (SetTitle (L "tray.my_networks" []) (m_myNetworks m)) (SetTitle (L "tray.autorun" []) (m_start m))
    (SetTitle (L "tray.profile.logout" []) (m_logout m)) (SetTitle (L "tray.about" []) (m_about m))
    (SetTitle (L "tray.language" [curName]) (m_language m)) (SetTitle (L "tray.exit" []) (m_quit m))
    (m_seps m) (m_myDevicesSep m) (m_myNetworksSep m) (m_myDevicesList m) (m_myNetworksList m) (m_order m) (m_registry m) (m_currentID m)).
Definition setLocale (L : string -> list string -> string) (locales : list string) (desc : string -> string) (name : string)
    (isGuest auto : bool) (s : DriverSummary) : T unit :=
  if negb (bool_decide (name ∈ locales)) then mret tt
  else _ ← retitle L name; render L locales desc name isGuest auto s.

(** *** Refreshing ([refreshTray] of [entry_gui.go]) *)

(** A device whose name is longer than the one before it. *)
Fixpoint later_name_longer (ds : list Device) : bool :=
  match ds with
  | d :: (e :: _) as rest => Nat.ltb (String.length (dev_Name d)) (String.length (dev_Name e)) || later_name_longer rest
  | _ => false
  end.
(** The tray with the summary it rendered last; [refresh] is what every event
    and every three seconds run, on macOS. *)
Record Tray := mkTray { tr_cached : option DriverSummary; tr_menu : Menu }.
Definition unchanged (cached : option DriverSummary) (s : DriverSummary) : bool :=
  match cached with Some c => summary_Equal c s | None => false end.
Definition on_menu (m : T unit) : GoM Tray unit := fun t => let (m', r) := m (tr_menu t) in (mkTray (tr_cached t) m', r).
Definition refresh (render : bool -> bool -> DriverSummary -> T unit) (isGuest initialized auto : bool) (s : DriverSummary) : GoM Tray unit :=
  t ← gget;
  if isGuest || negb initialized || unchanged (tr_cached t) s then mret tt
  else
    _ ← gmodify (fun t => mkTray (Some s) (tr_menu t));
    _ ← on_menu (render isGuest auto s);
    gwhen (later_name_longer (sm_MyDevices (ds_Mesh s))) (on_menu (render isGuest auto s)).
(** One turn of the loop, and the turns so far. *)
Record Turn := mkTurn { tn_isGuest : bool; tn_initialized : bool; tn_auto : bool; tn_summary : DriverSummary }.
Definition refreshTray (render : bool -> bool -> DriverSummary -> T unit) (turns : list Turn) : GoM Tray unit :=
  gfor turns (fun n => refresh render (tn_isGuest n) (tn_initialized n) (tn_auto n) (tn_summary n)).

(** *** Clicks *)

(** Every item of the menu, those below others included. *)
Fixpoint below (i : MenuItem) : list MenuItem := i :: flat_map below (mi_children i).
Definition all_items (m : Menu) : list MenuItem :=
  flat_map below ([m_login m; m_device m; m_status m; m_enable m; m_console m; m_myDevices m; m_myNetworks m; m_start m;
    m_logout m; m_about m; m_language m; m_quit m] ++ m_seps m ++ m_myDevicesList m ++ m_myNetworksList m).
(** [systrayMenuItemSelected]: the item of the identifier goes to the events,
    unless 64 of them wait; a greyed item cannot be clicked. *)
Definition selected (waiting : nat) (id : Z) (m : Menu) : option MenuItem :=
  if negb (bool_decide (id ∈ m_registry m)) || Nat.leb 64 waiting then None
  else snd <$> list_find (fun i => mi_id i = id) (all_items m).

(** ** Lemmas *)

Lemma length_hide_from n l : length (hide_from n l) = length l.
Proof. unfold hide_from. by rewrite length_imap. Qed.

(** What a list shows: the items that are not hidden. *)
Definition shown (l : list MenuItem) : list MenuItem := filter (fun i => mi_hidden i = false) l.

(** [hide_from] keeps what is before and hides the rest. *)
Lemma imap_before (n k : nat) (l : list MenuItem) : (k + length l <= n)%nat ->
  imap (fun i x => if Nat.ltb (k + i) n then x else SetHidden true x) l = l.
Proof.
  revert k. induction l as [|x l IH]; intros k Hk; [done|]. rewrite imap_cons. cbn in Hk.
  rewrite Nat.add_0_r. destruct (Nat.ltb_spec k n); [|lia]. f_equal.
  rewrite <- (IH (S k)) at 2 by (cbn; lia). apply imap_ext. intros i y _. cbn. by rewrite Nat.add_succ_r.
Qed.
Lemma imap_after (n k : nat) (l : list MenuItem) : (n <= k)%nat ->
  imap (fun i x => if Nat.ltb (k + i) n then x else SetHidden true x) l = map (SetHidden true) l.
Proof.
  revert k. induction l as [|x l IH]; intros k Hk; [done|]. rewrite imap_cons. cbn [map].
  rewrite Nat.add_0_r. destruct (Nat.ltb_spec k n); [lia|]. f_equal.
  rewrite <- (IH (S k)) by lia. apply imap_ext. intros i y _. cbn. by rewrite Nat.add_succ_r.
Qed.
Lemma hide_from_app l k : hide_from (length l) (l ++ k) = l ++ map (SetHidden true) k.
Proof.
  unfold hide_from. rewrite imap_app. f_equal; [by apply (imap_before _ 0)|].
  rewrite <- (imap_after (length l) (length l) k) by lia. apply imap_ext. done.
Qed.

Lemma shown_app l k : shown (l ++ k) = shown l ++ shown k.
Proof. apply filter_app. Qed.
Lemma shown_hidden l : shown (map (SetHidden true) l) = [].
Proof. by induction l. Qed.
Lemma shown_all {A} (P : A -> MenuItem -> Prop) xs l :
  (forall a i, P a i -> mi_hidden i = false) -> Forall2 P xs l -> shown l = l.
Proof.
  intros Hp. induction 1 as [|a i xs l Ha _ IH]; [done|]. unfold shown in *. rewrite filter_cons_True by by eapply Hp. by rewrite IH.
Qed.

(** *** The loops *)

(** What the loops leave alone. *)
Definition fixed (m : Menu) :=
  ((m_login m, m_device m, m_status m, m_enable m, m_console m, m_myDevices m, m_myNetworks m, m_start m),
   (m_logout m, m_about m, m_quit m, m_seps m, m_myDevicesSep m, m_myNetworksSep m)).
Definition keeps_devices (m m' : Menu) : Prop :=
  fixed m' = fixed m /\ m_language m' = m_language m /\ m_myDevicesList m' = m_myDevicesList m.
Definition keeps_networks (m m' : Menu) : Prop :=
  fixed m' = fixed m /\ m_language m' = m_language m /\ m_myNetworksList m' = m_myNetworksList m.
Definition keeps_lists (m m' : Menu) : Prop :=
  fixed m' = fixed m /\ m_myDevicesList m' = m_myDevicesList m /\ m_myNetworksList m' = m_myNetworksList m.
(** For the children of the network [j]. *)
Definition bare (i : MenuItem) : MenuItem := set_children [] i.
Definition keeps_but_children (j : nat) (m m' : Menu) : Prop :=
  keeps_devices m m' /\ bare <$> m_myNetworksList m' = bare <$> m_myNetworksList m /\
  forall k, k <> j -> m_myNetworksList m' !! k = m_myNetworksList m !! k.

#[local] Instance keeps_devices_refl : Reflexive keeps_devices.
Proof. by repeat split. Qed.
#[local] Instance keeps_devices_trans : Transitive keeps_devices.
Proof. intros m1 m2 m3 (A1 & B1 & C1) (A2 & B2 & C2). unfold keeps_devices. by rewrite A2, B2, C2. Qed.
#[local] Instance keeps_networks_refl : Reflexive keeps_networks.
Proof. by repeat split. Qed.
#[local] Instance keeps_networks_trans : Transitive keeps_networks.
Proof. intros m1 m2 m3 (A1 & B1 & C1) (A2 & B2 & C2). unfold keeps_networks. by rewrite A2, B2, C2. Qed.
#[local] Instance keeps_lists_refl : Reflexive keeps_lists.
Proof. by repeat split. Qed.
#[local] Instance keeps_lists_trans : Transitive keeps_lists.
Proof. intros m1 m2 m3 (A1 & B1 & C1) (A2 & B2 & C2). unfold keeps_lists. by rewrite A2, B2, C2. Qed.
#[local] Instance keeps_but_children_refl j : Reflexive (keeps_but_children j).
Proof. by repeat split. Qed.
#[local] Instance keeps_but_children_trans j : Transitive (keeps_but_children j).
Proof.
  intros m1 m2 m3 (A1 & B1 & C1) (A2 & B2 & C2). split_and!; [by etrans|by rewrite B2|]. intros k Hk. by rewrite C2, C1.
Qed.

(** A device, a network and a language as they are shown. *)
Definition dev_shown (d : Device) (i : MenuItem) : Prop :=
  mi_hidden i = false /\ mi_title i = deviceName d /\ mi_action i = Some (copy_of d).
Definition net_shown (n : NetworkSummary) (i : MenuItem) : Prop :=
  mi_hidden i = false /\ mi_title i = ns_Name n /\ mi_disabled i = is_nil (ns_Devices n) /\
  Forall2 dev_shown (ns_Devices n) (shown (mi_children i)).
Definition lang_shown (desc : string -> string) (curName : string) (name : string) (i : MenuItem) : Prop :=
  mi_hidden i = false /\ mi_title i = desc name /\ mi_checked i = String.eqb curName name /\
  mi_disabled i = String.eqb curName name /\ mi_action i = Some (ChooseLocale name).

Lemma list_lookup_alter_insert {A} (f : A -> A) (l : list A) i x : l !! i = Some x -> alter f i l = <[i := f x]> l.
Proof. revert i. induction l as [|y l IH]; intros [|i] Hx; cbn in *; [done|done|by simplify_eq|]. f_equal. by apply IH. Qed.

Lemma render_devices_ok ds m : exists m', render_devices ds m = (m', Ok tt) /\
  Forall2 dev_shown ds (shown (m_myDevicesList m')) /\ keeps_networks m m'.
Proof.
  unfold render_devices. cbv [mbind gom_bind gget].
  destruct (genum_all m_myDevicesList dev_shown keeps_networks (fun _ => True) (render_device (length (m_myDevicesList m)))
    (length (m_myDevicesList m))) with (xs := ds) (m := m) as (m1 & cur & -> & Hl & HF & HR); [done| | |done|done|].
  - intros i d m1 x _ Hi Hx. unfold render_device. destruct (Nat.ltb_spec i (length (m_myDevicesList m))); [|lia].
    eexists _, _. split; [reflexivity|]. cbn [m_myDevicesList set_lists]. rewrite (list_lookup_alter_insert _ _ _ _ Hx).
    by repeat split.
  - intros i d m1 _ Hi _. unfold render_device. destruct (Nat.ltb_spec i (length (m_myDevicesList m))); [lia|].
    eexists _, _. split; [reflexivity|]. by repeat split.
  - unfold gmodify. eexists. split; [done|]. cbn [m_myDevicesList set_lists]. split; [|done].
    rewrite Hl, (Forall2_length _ _ _ HF), hide_from_app, shown_app, shown_hidden, app_nil_r.
    rewrite (shown_all dev_shown ds); [done|by intros ? ? []|done].
Qed.

(** The children of a network that is there. *)
Definition children_of (j : nat) (m : Menu) : list MenuItem := default [] (mi_children <$> m_myNetworksList m !! j).
Lemma on_network_children j f m x : m_myNetworksList m !! j = Some x ->
  exists m', on_network j (fun x => set_children (f (mi_children x)) x) m = (m', Ok tt) /\
    children_of j m' = f (mi_children x) /\ keeps_but_children j m m' /\ is_Some (m_myNetworksList m' !! j).
Proof.
  intros Hx. unfold on_network, gmodify. rewrite (list_lookup_alter_insert _ _ _ _ Hx). eexists. split; [done|].
  unfold children_of. cbn [m_myNetworksList set_lists]. pose proof (lookup_lt_Some _ _ _ Hx) as Hlt.
  rewrite list_lookup_insert_eq by done. split_and!; [done| |by eexists]. split_and!; [by repeat split| |].
  - cbn [m_myNetworksList set_lists]. rewrite list_fmap_insert.
    apply list_insert_id. rewrite list_lookup_fmap, Hx. by destruct x.
  - intros k Hk. cbn [m_myNetworksList set_lists]. by rewrite list_lookup_insert_ne.
Qed.

Lemma keeps_some j m m' : keeps_but_children j m m' -> is_Some (m_myNetworksList m !! j) -> is_Some (m_myNetworksList m' !! j).
Proof.
  intros (_ & Hb & _) Hx. apply lookup_lt_is_Some. apply lookup_lt_is_Some in Hx. apply (f_equal length) in Hb.
  rewrite !length_fmap in Hb. lia.
Qed.

Lemma children_ok j n ds m : is_Some (m_myNetworksList m !! j) -> n = length (children_of j m) ->
  exists m' cur, genum 0 ds (render_child j n) m = (m', Ok tt) /\
    children_of j m' = cur ++ drop (length ds) (children_of j m) /\ Forall2 dev_shown ds cur /\ keeps_but_children j m m'.
Proof.
  intros Hs Hn. apply (genum_all (children_of j) dev_shown (keeps_but_children j) (fun m => is_Some (m_myNetworksList m !! j)) (render_child j n) n); [..|done|done].
  - intros m1 m2. apply keeps_some.
  - intros i d m1 x [net Hnet] Hi Hx. unfold render_child. destruct (Nat.ltb_spec i n); [|lia].
    assert (children_of j m1 = mi_children net) as Hc by (unfold children_of; by rewrite Hnet). rewrite Hc in Hx.
    destruct (on_network_children j (alter (fun c => SetAction (copy_of d) (SetHidden false (SetTitle (deviceName d) c))) i) m1 net Hnet)
      as (m2 & H1 & H2 & H3 & _).
    exists m2, (SetAction (copy_of d) (SetHidden false (SetTitle (deviceName d) x))).
    rewrite (list_lookup_alter_insert _ _ _ _ Hx) in H2. by rewrite Hc.
  - intros i d m1 [net Hnet] Hi _. unfold render_child. destruct (Nat.ltb_spec i n); [lia|]. cbv [mbind gom_bind NewMenuItem AddChild gmodify].
    set (dev := new_item _ _). set (m2 := set_tray _ _ _ (set_tray _ _ _ m1)).
    destruct (on_network_children j (fun l => l ++ [SetAction (copy_of d) dev]) m2 net Hnet) as (m3 & H1 & H2 & H3 & _).
    exists m3, (SetAction (copy_of d) dev). split; [exact H1|]. split; [rewrite H2; unfold children_of; by rewrite Hnet|]. split; [by repeat split|exact H3].
Qed.

Lemma keeps_insert j m m' y : keeps_but_children j m m' -> m_myNetworksList m' !! j = Some y ->
  m_myNetworksList m' = <[j := y]> (m_myNetworksList m).
Proof.
  intros (_ & Hb & Ho) Hy. apply list_eq. intros k. destruct (decide (k = j)) as [->|Hk]; [|by rewrite Ho, list_lookup_insert_ne].
  rewrite Hy, list_lookup_insert_eq; [done|]. apply lookup_lt_Some in Hy. apply (f_equal length) in Hb. rewrite !length_fmap in Hb. lia.
Qed.

(** The last step of a network's item. *)
Lemma finish_network j nw m net : m_myNetworksList m !! j = Some net -> Forall2 dev_shown (ns_Devices nw) (shown (mi_children net)) ->
  exists m' y, on_network j (fun x => SetDisabled (is_nil (ns_Devices nw)) (SetHidden false (SetTitle (ns_Name nw) x))) m = (m', Ok tt) /\
    m_myNetworksList m' = <[j := y]> (m_myNetworksList m) /\ net_shown nw y /\ keeps_devices m m'.
Proof.
  intros Hn Hc. unfold on_network, gmodify. rewrite (list_lookup_alter_insert _ _ _ _ Hn).
  eexists _, _. split; [reflexivity|]. split; [reflexivity|]. by repeat split.
Qed.

Lemma shown_children (ds : list Device) cur old : Forall2 dev_shown ds cur ->
  Forall2 dev_shown ds (shown (hide_from (length ds) (cur ++ old))).
Proof.
  intros HF. rewrite (Forall2_length _ _ _ HF), hide_from_app, shown_app, shown_hidden, app_nil_r.
  by rewrite (shown_all dev_shown ds) by (done || by intros ? ? []).
Qed.

Lemma render_network_old n nw j m x : (j < n)%nat -> m_myNetworksList m !! j = Some x ->
  exists m' y, render_network n j nw m = (m', Ok tt) /\ m_myNetworksList m' = <[j := y]> (m_myNetworksList m) /\
    net_shown nw y /\ keeps_devices m m'.
Proof.
  intros Hj Hx. unfold render_network. destruct (Nat.ltb_spec j n); [|lia]. cbv [mbind gom_bind gget].
  destruct (children_ok j (length (children_of j m)) (ns_Devices nw) m (ex_intro _ x Hx) eq_refl) as (m1 & cur & H1 & H2 & H3 & H4).
  unfold children_of in H1 at 1. rewrite H1. destruct (keeps_some j m m1 H4 (ex_intro _ x Hx)) as [x1 Hx1].
  destruct (on_network_children j (hide_from (length (ns_Devices nw))) m1 x1 Hx1) as (m2 & -> & Hc2 & H5 & [x2 Hx2]).
  assert (keeps_but_children j m m2) as Hk by by etrans.
  destruct (finish_network j nw m2 x2 Hx2) as (m3 & y & -> & Hl & Hy & Hd).
  { unfold children_of in Hc2. rewrite Hx2 in Hc2. cbn in Hc2. rewrite Hc2.
    unfold children_of in H2 at 1. rewrite Hx1 in H2. cbn in H2. rewrite H2. by apply shown_children. }
  exists m3, y. split_and!; [done| |done|etrans; [apply Hk|done]].
  rewrite Hl, (keeps_insert j m m2 x2 Hk Hx2). apply list_insert_insert_eq.
Qed.

Lemma render_network_new n nw j m : (n <= j)%nat -> j = length (m_myNetworksList m) ->
  exists m' y, render_network n j nw m = (m', Ok tt) /\ m_myNetworksList m' = m_myNetworksList m ++ [y] /\
    net_shown nw y /\ keeps_devices m m'.
Proof.
  intros Hj Hlen. unfold render_network. destruct (Nat.ltb_spec j n); [lia|].
  cbv [mbind gom_bind gget NewMenuItem AddMenuItemBefore gmodify]. set (net := new_item _ _). set (m1 := set_lists _ _ _).
  assert (m_myNetworksList m1 = m_myNetworksList m ++ [net]) as Hl1 by done.
  assert (m_myNetworksList m1 !! j = Some net) as Hx1 by (rewrite Hl1, Hlen; apply list_lookup_middle; done).
  destruct (children_ok j 0 (ns_Devices nw) m1 (ex_intro _ net Hx1)) as (m2 & cur & -> & H2 & H3 & H4).
  { unfold children_of. by rewrite Hx1. }
  destruct (keeps_some j m1 m2 H4 (ex_intro _ net Hx1)) as [x2 Hx2].
  destruct (finish_network j nw m2 x2 Hx2) as (m3 & y & -> & Hl & Hy & Hd).
  { unfold children_of in H2. rewrite Hx1, Hx2 in H2. cbn in H2. rewrite H2, drop_nil, app_nil_r.
    by rewrite (shown_all dev_shown (ns_Devices nw)) by (done || by intros ? ? []). }
  exists m3, y. split_and!; [done| |done|].
  - rewrite Hl, (keeps_insert j m1 m2 x2 H4 Hx2), list_insert_insert_eq, Hl1, Hlen. rewrite insert_app_r_alt by lia.
    by rewrite Nat.sub_diag.
  - etrans; [|exact Hd]. etrans; [|exact (proj1 H4)]. by repeat split.
Qed.

Lemma render_networks_ok ns m : exists m', render_networks ns m = (m', Ok tt) /\
  Forall2 net_shown ns (shown (m_myNetworksList m')) /\ keeps_devices m m'.
Proof.
  unfold render_networks. cbv [mbind gom_bind gget].
  destruct (genum_all m_myNetworksList net_shown keeps_devices (fun _ => True) (render_network (length (m_myNetworksList m)))
    (length (m_myNetworksList m))) with (xs := ns) (m := m) as (m1 & cur & -> & Hl & HF & HR); [done| | |done|done|].
  - intros j nw m1 x _ Hj Hx. by eapply render_network_old.
  - intros j nw m1 _ Hj Hlen. by apply render_network_new.
  - unfold gmodify. eexists. split; [done|]. cbn [m_myNetworksList set_lists]. split; [|done].
    rewrite Hl, (Forall2_length _ _ _ HF), hide_from_app, shown_app, shown_hidden, app_nil_r.
    by rewrite (shown_all net_shown ns) by (done || by intros ? ? []).
Qed.

Lemma displayLanguageList_ok locales desc curName m : exists m' cur,
  displayLanguageList locales desc curName m = (m', Ok tt) /\
  mi_children (m_language m') = cur ++ drop (length locales) (mi_children (m_language m)) /\
  Forall2 (lang_shown desc curName) locales cur /\ keeps_lists m m'.
Proof.
  unfold displayLanguageList. cbv [mbind gom_bind gget].
  apply (genum_all (fun m => mi_children (m_language m)) (lang_shown desc curName) keeps_lists (fun _ => True)
    (render_language desc curName (length (mi_children (m_language m)))) (length (mi_children (m_language m)))); [done| | |done|done].
  - intros i name m1 x _ Hi Hx. unfold render_language. destruct (Nat.ltb_spec i (length (mi_children (m_language m)))); [|lia].
    eexists _, _. split; [reflexivity|]. cbn [m_language set_language mi_children set_children].
    rewrite (list_lookup_alter_insert _ _ _ _ Hx). by repeat split.
  - intros i name m1 _ Hi _. unfold render_language. destruct (Nat.ltb_spec i (length (mi_children (m_language m)))); [lia|].
    eexists _, _. split; [reflexivity|]. by repeat split.
Qed.

(** What the menu shows of who is signed in, and of a summary. *)
Definition visibility (isGuest : bool) (m : Menu) : Prop :=
  mi_hidden (m_login m) = negb isGuest /\
  forall i, i ∈ [m_device m; m_status m; m_enable m; m_console m; m_myDevices m; m_myNetworks m; m_logout m] ++ m_seps m ->
    mi_hidden i = isGuest.
Definition shows (L : string -> list string -> string) (s : DriverSummary) (m : Menu) : Prop :=
  Forall2 dev_shown (sm_MyDevices (ds_Mesh s)) (shown (m_myDevicesList m)) /\
  Forall2 net_shown (sm_Networks (ds_Mesh s)) (shown (m_myNetworksList m)) /\
  mi_title (m_status m) = L ("tray.status." ++ ds_Status s)%string [] /\
  mi_checked (m_enable m) = ds_Enabled s /\ mi_action (m_enable m) = Some (SwitchDriver (ds_Enabled s)).
Definition shows_nothing (m : Menu) : Prop := shown (m_myDevicesList m) = [] /\ shown (m_myNetworksList m) = [].

Lemma visibility_fixed g m m' : fixed m' = fixed m -> visibility g m -> visibility g m'.
Proof. unfold fixed, visibility. intros [= -> -> -> -> -> -> -> _ -> _ _ -> _ _]. done. Qed.
Lemma shows_fixed L s m m' : keeps_lists m m' -> shows L s m -> shows L s m'.
Proof. unfold shows. intros (Hf & -> & ->). unfold fixed in Hf. by injection Hf as _ _ -> -> _ _ _ _ _ _ _ _ _ _. Qed.

Lemma setMenuVisibility_ok g m : exists m', setMenuVisibility g m = (m', Ok tt) /\ visibility g m' /\ (g = true -> shows_nothing m').
Proof.
  unfold setMenuVisibility, gmodify. eexists. split; [reflexivity|].
  assert (forall i, i ∈ map (SetHidden g) (m_seps m) -> mi_hidden i = g) as Hs by (by intros i (x & -> & _)%list_elem_of_fmap).
  assert (forall (a b c d e f h : MenuItem) i, i ∈ [SetHidden g a; SetHidden g b; SetHidden g c; SetHidden g d; SetHidden g e; SetHidden g f;
    SetHidden g h] ++ map (SetHidden g) (m_seps m) -> mi_hidden i = g) as Hi.
  { intros a b c d e f h i [Hi|Hi]%elem_of_app; [|by apply Hs]. repeat (apply elem_of_cons in Hi as [->|Hi]; [done|]). by apply elem_of_nil in Hi. }
  destruct g; cbn; (split; [split; [done|]; cbn; intros i; apply Hi|]); [|done]. intros _. split; apply shown_hidden.
Qed.

Lemma render_content_ok L s m : visibility false m -> exists m',
  render_content L s m = (m', Ok tt) /\ visibility false m' /\ shows L s m'.
Proof.
  intros Hv. unfold render_content. cbv [mbind gom_bind]. unfold render_profile, gmodify. set (mp := set_fixed _ _ _ _ _ _ _ _ _ _ _).
  destruct (render_devices_ok (sm_MyDevices (ds_Mesh s)) mp) as (m2 & -> & Hd & Hf2 & Hl2 & Hn2).
  destruct (render_networks_ok (sm_Networks (ds_Mesh s)) m2) as (m3 & -> & Hn & Hf3 & Hl3 & Hd3).
  exists m3. split; [done|]. rewrite Hf2 in Hf3. split.
  - apply (visibility_fixed false mp); [done|]. destruct Hv as [H1 H2]. split; [exact H1|]. intros i Hi.
    apply elem_of_app in Hi as [Hi|Hi]; [|apply H2, elem_of_app; by right].
    assert (forall x, x ∈ [m_device m; m_status m; m_enable m; m_console m; m_myDevices m; m_myNetworks m; m_logout m] -> mi_hidden x = false) as H3
      by (intros x Hx; apply H2, elem_of_app; by left).
    cbn in Hi. repeat (apply elem_of_cons in Hi as [->|Hi]; [cbn; apply H3; set_solver|]). by apply elem_of_nil in Hi.
  - unfold shows. rewrite Hd3. unfold fixed in Hf3. injection Hf3 as _ _ -> -> _ _ _ _ _ _ _ _ _ _. done.
Qed.

(** *** Rendering again *)

Section Refresh.
Context (L : string -> list string -> string) (locales : list string) (desc : string -> string) (curName : string).
Abbreviation rend := (render L locales desc curName).

Lemma render_ok isGuest auto s m : exists m', rend isGuest auto s m = (m', Ok tt) /\
  visibility isGuest m' /\ (if isGuest then shows_nothing m' else shows L s m') /\
  Forall2 (lang_shown desc curName) locales (take (length locales) (mi_children (m_language m'))) /\
  mi_disabled (m_start m') = negb auto.
Proof.
  unfold render. destruct (setMenuVisibility_ok isGuest m) as (m1 & H1 & Hv & Hg). cbv [mbind gom_bind] in *. rewrite H1.
  assert (exists m2, (if isGuest then mret tt else render_content L s : T unit) m1 = (m2, Ok tt) /\ visibility isGuest m2 /\
    (if isGuest then shows_nothing m2 else shows L s m2)) as (m2 & -> & Hv2 & Hs2).
  { destruct isGuest; [by exists m1; auto|]. by apply render_content_ok. }
  destruct (displayLanguageList_ok locales desc curName m2) as (m3 & cur & -> & Hc & HF & Hk).
  unfold gmodify. eexists. split; [reflexivity|].
  assert (visibility isGuest m3 /\ if isGuest then shows_nothing m3 else shows L s m3) as [Hv3 Hs3].
  { split; [by apply (visibility_fixed isGuest m2); [apply Hk|]|]. destruct isGuest; [|by eapply shows_fixed].
    destruct Hk as (_ & Hd & Hn). unfold shows_nothing. by rewrite Hd, Hn. }
  split_and!; [exact Hv3|exact Hs3| |done]. cbn [m_language set_fixed]. rewrite Hc, (Forall2_length _ _ _ HF), take_app_length. exact HF.
Qed.

(** The menu shows the summary in the cache. *)
Definition tray_ok (t : Tray) : Prop :=
  match tr_cached t with Some c => visibility false (tr_menu t) /\ shows L c (tr_menu t) | None => True end.

Lemma rendered_tray isGuest auto s t : isGuest = false -> tr_cached t = Some s ->
  exists t', on_menu (rend isGuest auto s) t = (t', Ok tt) /\ tr_cached t' = Some s /\ tray_ok t'.
Proof.
  intros -> Hc. unfold on_menu. destruct (render_ok false auto s (tr_menu t)) as (m' & -> & Hv & Hs & _).
  eexists. split; [reflexivity|]. unfold tray_ok. cbn. by rewrite Hc.
Qed.

Lemma refresh_ok isGuest initialized auto s t : tray_ok t -> exists t',
  refresh rend isGuest initialized auto s t = (t', Ok tt) /\ tray_ok t' /\
  (isGuest = false -> initialized = true -> exists c, tr_cached t' = Some c /\ (c = s \/ summary_Equal c s = true)).
Proof.
  intros Ht. unfold refresh. cbv [mbind gom_bind]. unfold gget.
  destruct isGuest; [by exists t|]. destruct initialized; [|by exists t]. cbn [orb negb].
  destruct (unchanged (tr_cached t) s) eqn:Hu.
  { exists t. split; [done|]. split; [done|]. intros _ _. unfold unchanged in Hu. destruct (tr_cached t) as [c|]; [eauto|done]. }
  unfold gmodify. destruct (rendered_tray false auto s (mkTray (Some s) (tr_menu t)) eq_refl eq_refl) as (t1 & -> & Hc1 & Ht1).
  unfold gwhen. destruct (later_name_longer _).
  - destruct (rendered_tray false auto s t1 eq_refl Hc1) as (t2 & -> & Hc2 & Ht2). exists t2. split_and!; [done..|]. intros _ _. exists s. by split; [|left].
  - exists t1. split_and!; [done..|]. intros _ _. exists s. by split; [|left].
Qed.

Lemma refreshTray_ok turns : forall t, tray_ok t -> exists t', refreshTray rend turns t = (t', Ok tt) /\ tray_ok t'.
Proof.
  unfold refreshTray. induction turns as [|n turns IH]; intros t Ht; cbn [gfor]; [by exists t|].
  cbv [mbind gom_bind] in *. destruct (refresh_ok (tn_isGuest n) (tn_initialized n) (tn_auto n) (tn_summary n) t Ht) as (t1 & -> & Ht1 & _).
  by apply IH.
Qed.
End Refresh.

(** ** Properties *)

(** Whatever the menu showed before - more devices, fewer
    networks, a guest's menu - rendering succeeds and it shows what the
    summary says: for a signed-in node exactly its devices and its networks
    with their devices, in order, each with the address it copies, the status
    and the switch of the driver; for a guest the login and none of them.
    Every language is listed and the current one is ticked.  The item that
    switches the auto start is greyed exactly while it is off. *)
Theorem rendered_menu_shows_the_summary (L : string -> list string -> string) (locales : list string) (desc : string -> string)
    (curName : string) (isGuest auto : bool) (s : DriverSummary) (m : Menu) :
  exists m', render L locales desc curName isGuest auto s m = (m', Ok tt) /\
    visibility isGuest m' /\ (if isGuest then shows_nothing m' else shows L s m') /\
    Forall2 (lang_shown desc curName) locales (take (length locales) (mi_children (m_language m'))) /\
    mi_disabled (m_start m') = negb auto.
Proof.
  apply render_ok.
Qed.

(** Whatever the loop of the tray went through - turns as a
    guest, before the tray was there, with any summaries - a turn of a
    signed-in node leaves a menu that shows the driver's summary, or one the
    driver calls equal to it. *)
Theorem tray_shows_the_last_summary (L : string -> list string -> string) (locales : list string) (desc : string -> string)
    (curName : string) (turns : list Turn) (m : Menu) (auto : bool) (s : DriverSummary) :
  exists t t' c, refreshTray (render L locales desc curName) turns (mkTray None m) = (t, Ok tt) /\
    refresh (render L locales desc curName) false true auto s t = (t', Ok tt) /\
    (c = s \/ summary_Equal c s = true) /\ visibility false (tr_menu t') /\ shows L c (tr_menu t').
Proof.
  destruct (refreshTray_ok L locales desc curName turns (mkTray None m) I) as (t & Ht & Hok).
  destruct (refresh_ok L locales desc curName false true auto s t Hok) as (t' & Ht' & Hok' & Hc).
  destruct (Hc eq_refl eq_refl) as (c & Hc' & Heq). unfold tray_ok in Hok'. rewrite Hc' in Hok'. exists t, t', c. by destruct Hok'.
Qed.

(** ** Examples *)

Module MenuExample.
Definition L (key : string) (args : list string) : string := String.concat " " (key :: args).
Definition d1 : Device := mkDevice "laptop" "10.0.0.2" StateP2P.
Definition d2 : Device := mkDevice "phone" "10.0.0.3" StateRelay.
Definition summary (ds : list Device) (ns : list NetworkSummary) : DriverSummary :=
  mkDriverSummary true "connected" (mkProfile 1 "laptop" "10.0.0.2") (mkSummary 0 ds ns).
Definition tray : Menu := gstate (createTray L "en_US" true false) no_menu.
Definition rendered (isGuest auto : bool) (s : DriverSummary) (m : Menu) : Menu :=
  gstate (render L ["en_US"; "zh_CN"]%string (fun n => n) "en_US" isGuest auto s) m.

(** Two devices, then one, then two again: the second item is hidden and comes
    back; nothing is created twice. *)
Example devices_come_back :
  let two := rendered false true (summary [d1; d2] [mkNetworkSummary 7 "home" [d2]]) tray in
  let one := rendered false true (summary [d1] []) two in
  let again := rendered false true (summary [d1; d2] [mkNetworkSummary 7 "home" [d2]]) one in
  map mi_title (shown (m_myDevicesList one)) = [deviceName d1] /\
  map mi_id (shown (m_myDevicesList again)) = map mi_id (shown (m_myDevicesList two)) /\
  m_currentID again = m_currentID two /\ m_order again = m_order two.
Proof. by vm_compute. Qed.

(** The new items of the top level stand before their separators. *)
Example items_before_separators :
  let m := rendered false true (summary [d1; d2] [mkNetworkSummary 7 "home" [d2]]) tray in
  map mi_id (m_myDevicesList m ++ m_myNetworksList m) = [18; 19; 20] /\
  m_order m = [1; 2; 3; 4; 5; 6; 7; 18; 19; 8; 9; 20; 10; 11; 12; 13; 14; 15; 16; 17].
Proof. by vm_compute. Qed.

(** Auto start is off: the item that would turn it on is greyed. *)
Example autostart_cannot_be_enabled :
  let m := rendered false false (summary [d1] []) tray in
  mi_action (m_start m) = Some AutoStart /\ mi_disabled (m_start m) = true.
Proof. by vm_compute. Qed.
(** After a logout the turns do nothing: the menu of the signed-in node, its
    logout included, stays, and the login stays hidden. *)
Example logout_keeps_the_menu :
  let rend := render L ["en_US"]%string (fun n => n) "en_US"%string in
  let shown_in := gstate (refresh rend false true true (summary [d1; d2] [])) (mkTray None tray) in
  let t := gstate (refreshTray rend [mkTurn true true true (summary [] []); mkTurn true true true (summary [] [])]) shown_in in
  map mi_title (shown (m_myDevicesList (tr_menu t))) = [deviceName d1; deviceName d2] /\
  mi_hidden (m_logout (tr_menu t)) = false /\ mi_hidden (m_login (tr_menu t)) = true.
Proof. by vm_compute. Qed.
Example click_copies_address :
  let m := rendered false true (summary [d1; d2] []) tray in
  (selected 0 19 m ≫= mi_action) = Some (CopyAddress "phone" "10.0.0.3") /\ selected 64 19 m = None.
Proof. by vm_compute. Qed.
End MenuExample.
