(* ===== verification/WinMenu.v ===== *)
(** The menu of the desktop application on Windows:
    [node/entry/gui_windows.go].  An action is held in one place - a field, a
    list or a submenu - so actions are values with their identifier, and the
    context menu is the list of the identifiers it shows, in order.  The [walk]
    toolkit is the environment: its lists and its events are classes. *)
From S2P Require Import Driver MeshManager.
From S2P Require Import Prelude GoText Entry Menu.
#[local] Set Warnings "-clear-no-such-hyp".

(** ** The toolkit *)

(** [walk.Event]: attaching a handler gives its number, with which it is
    detached; the handlers that are attached run, in order. *)
Class WalkEvents := {
  Event : Type;
  no_handlers : Event;
  Attach : Action -> Event -> Event * Z;
  Detach : Z -> Event -> Event;
  handlers : Event -> list (Z * Action) }.
Class WalkEventsOk `{!WalkEvents} := {
  handlers_none : handlers no_handlers = [];
  handlers_attach : forall h e, let (e', n) := Attach h e in
    0 <= n /\ (n ∉ map fst (handlers e)) /\ handlers e' ≡ₚ (n, h) :: handlers e;
  handlers_detach : forall n e, handlers (Detach n e) ≡ₚ base.filter (fun p => fst p <> n) (handlers e) }.

(** [walk.ActionList], by the actions it holds, and what a new action is
    before the code sets it up. *)
Class WalkLists := {
  list_Add : forall {A}, A -> list A -> list A;
  list_Insert : forall {A}, Z -> A -> list A -> list A;
  list_RemoveAt : forall {A}, Z -> list A -> list A;
  list_Index : Z -> list Z -> Z;
  list_Remove : Z -> list Z -> list Z;
  new_enabled : bool; new_visible : bool; new_checked : bool }.
Class WalkListsOk `{!WalkLists} := {
  Add_appends : forall A (x : A) l, list_Add x l = l ++ [x];
  Insert_inserts : forall A (x : A) (pre post : list A), list_Insert (zlen pre) x (pre ++ post) = pre ++ x :: post;
  RemoveAt_removes : forall A (x : A) (pre post : list A), list_RemoveAt (zlen pre) (pre ++ x :: post) = pre ++ post;
  Index_finds : forall x (pre post : list Z), x ∉ pre -> list_Index x (pre ++ x :: post) = zlen pre;
  Remove_removes : forall x (pre post : list Z), x ∉ pre -> list_Remove x (pre ++ x :: post) = pre ++ post }.

Section Windows.
Context `{HE : WalkEvents} `{HL : WalkLists}.

(** ** Actions and the application *)

(** [walk.Action]; one that [NewMenuAction] makes has a submenu. *)
#[warnings="-register-all"]
Inductive Act := mkAct {
  x_id : Z; x_text : string; x_enabled : bool; x_visible : bool; x_checked : bool; x_triggered : Event; x_menu : option (list Act) }.
Definition SetText (t : string) (x : Act) : Act := mkAct (x_id x) t (x_enabled x) (x_visible x) (x_checked x) (x_triggered x) (x_menu x).
Definition SetEnabled (b : bool) (x : Act) : Act := mkAct (x_id x) (x_text x) b (x_visible x) (x_checked x) (x_triggered x) (x_menu x).
Definition SetVisible (b : bool) (x : Act) : Act := mkAct (x_id x) (x_text x) (x_enabled x) b (x_checked x) (x_triggered x) (x_menu x).
Definition SetTicked (b : bool) (x : Act) : Act := mkAct (x_id x) (x_text x) (x_enabled x) (x_visible x) b (x_triggered x) (x_menu x).
Definition set_triggered (e : Event) (x : Act) : Act := mkAct (x_id x) (x_text x) (x_enabled x) (x_visible x) (x_checked x) e (x_menu x).
Definition set_menu (l : list Act) (x : Act) : Act :=
  mkAct (x_id x) (x_text x) (x_enabled x) (x_visible x) (x_checked x) (x_triggered x) (Some l).
Definition attach (h : Action) (x : Act) : Act := set_triggered (fst (Attach h (x_triggered x))) x.

(** [replaceHandler]. *)
Definition replace_event (h : Action) (e : Event) : Event :=
  let (e', index) := Attach h e in
  if index =? 0 then e' else foldl (fun e i => Detach i e) e' (seqZ 0 index).
Definition replaceHandler (h : Action) (x : Act) : Act := set_triggered (replace_event h (x_triggered x)) x.

(** The fields of [osApp] that hold one action. *)
Inductive Field :=
| Login | DeviceField | Status | Enable | Console | MyDevices | MyNetworks | Start | LogoutField | About | Language | Exit
| Sep | MyDevicesSep | MyNetworksSep.
#[export] Instance Field_eq_dec : EqDecision Field.
Proof. solve_decision. Defined.
(** [osApp]: the fields, the two lists, the context menu, and the identifier
    of the next action.  [seps] are the three separators of [Field]. *)
Record osApp := mkApp {
  w_field : Field -> Act; w_myDevicesList : list Act; w_myNetworksList : list Act; w_context : list Z; w_next : Z }.
Abbreviation T := (GoM osApp).
Definition on_field (f : Field) (g : Act -> Act) : T unit :=
  gmodify (fun m => mkApp (fun k => if decide (k = f) then g (w_field m k) else w_field m k)
    (w_myDevicesList m) (w_myNetworksList m) (w_context m) (w_next m)).
Definition on_devices (g : list Act -> list Act) : T unit :=
  gmodify (fun m => mkApp (w_field m) (g (w_myDevicesList m)) (w_myNetworksList m) (w_context m) (w_next m)).
Definition on_networks (g : list Act -> list Act) : T unit :=
  gmodify (fun m => mkApp (w_field m) (w_myDevicesList m) (g (w_myNetworksList m)) (w_context m) (w_next m)).
Definition on_context (g : list Z -> list Z) : T unit :=
  gmodify (fun m => mkApp (w_field m) (w_myDevicesList m) (w_myNetworksList m) (g (w_context m)) (w_next m)).

(** [walk.NewAction] and [walk.NewMenuAction]. *)
Definition NewAction (menu : option (list Act)) : T Act := fun m =>
  (mkApp (w_field m) (w_myDevicesList m) (w_myNetworksList m) (w_context m) (w_next m + 1),
   Ok (mkAct (w_next m) "" new_enabled new_visible new_checked no_handlers menu)).
(** [addAction] into a submenu: the action, which the caller puts there. *)
Definition addAction (title : string) : T Act := x ← NewAction None; mret (SetText title (SetVisible true x)).

(** [setMenuVisibility]. *)
Definition member_fields : list Field :=
  [DeviceField; Status; Console; Enable; MyDevices; MyNetworks; LogoutField; Sep; MyDevicesSep; MyNetworksSep].
Definition setMenuVisibility (isGuest : bool) : T unit :=
  _ ← on_field Login (SetVisible isGuest);
  _ ← gfor member_fields (fun f => on_field f (SetVisible (negb isGuest)));
  gwhen isGuest
    (_ ← on_devices (map (SetVisible false)); on_networks (map (SetVisible false))).

(** *** Rendering *)

(** Inserting before a separator of the context menu, and removing what is
    beyond [n] of a list from it. *)
Definition insert_before_field (f : Field) (x : Act) : T unit :=
  m ← gget; on_context (fun l => list_Insert (list_Index (x_id (w_field m f)) l) (x_id x) l).
Definition remove_actions (l : list Act) : T unit := gfor l (fun x => on_context (list_Remove (x_id x))).

(** "My devices": the device [i] of the summary. *)
Definition render_device (shown : nat) (i : nat) (d : Device) : T unit :=
  if Nat.ltb i shown then
    on_devices (alter (fun x => SetVisible true (SetText (deviceName d) (replaceHandler (copy_of d) (SetVisible true x)))) i)
  else
    device ← NewAction None;
    let device := attach (copy_of d) device in
    _ ← insert_before_field MyDevicesSep device;
    on_devices (fun l => l ++ [SetVisible true (SetText (deviceName d) device)]).
Definition remove_extra_devices (n : nat) : T unit :=
  m ← gget;
  if Nat.ltb n (length (w_myDevicesList m)) then
    _ ← remove_actions (drop n (w_myDevicesList m)); on_devices (take n)
  else mret tt.
Definition render_devices (ds : list Device) : T unit :=
  m ← gget;
  _ ← genum 0 ds (render_device (length (w_myDevicesList m)));
  remove_extra_devices (length ds).

(** A device of a network: for a network that has its action already, the
    submenu's item [i] is set - the network's index, the loop over the devices
    has none - when the submenu has that many, else an item is added. *)
Definition shown_device (d : Device) (x : Act) : Act := SetVisible true (SetText (deviceName d) x).
Definition render_known_child (i count : nat) (items : list Act) (d : Device) : T (list Act) :=
  if Nat.ltb i count then mret (alter (fun x => replaceHandler (copy_of d) (shown_device d x)) i items)
  else x ← addAction (deviceName d); mret (list_Add (attach (copy_of d) x) items).
Definition render_new_child (items : list Act) (d : Device) : T (list Act) :=
  x ← addAction (deviceName d); mret (list_Add (attach (copy_of d) x) items).
Fixpoint gfold {A B} (f : B -> A -> T B) (b : B) (l : list A) : T B :=
  match l with [] => mret b | x :: l => b ← f b x; gfold f b l end.
(** [removeExtraItem]: from the last one down. *)
Definition removeExtraItem (items : list Act) (expectLength : Z) : list Act :=
  if zlen items <=? expectLength then items
  else foldl (fun l i => list_RemoveAt i l) items (rev (seqZ expectLength (zlen items - expectLength))).

Section Render.
(** [i18n.L] with its arguments, the languages, and whether [walk.NewMenu]
    succeeds for a network. *)
Context (L : string -> list string -> string) (locales : list string) (desc : string -> string) (curName : string)
  (NewMenu : NetworkSummary -> bool).

Definition finish_network (n : NetworkSummary) (x : Act) : Act :=
  SetEnabled (negb (is_nil (ns_Devices n))) (SetVisible true (SetText (ns_Name n) x)).
Definition render_network (shown : nat) (i : nat) (n : NetworkSummary) : T unit :=
  if Nat.ltb i shown then
    m ← gget;
    match w_myNetworksList m !! i with
    | Some (mkAct _ _ _ _ _ _ (Some items)) =>
      items' ← gfold (render_known_child i (length items)) items (ns_Devices n);
      on_networks (alter (fun x => finish_network n (set_menu (removeExtraItem items' (zlen (ns_Devices n))) x)) i)
    | Some _ => gpanic "invalid memory address or nil pointer dereference"
    | None => gpanic "index out of range"
    end
  else if negb (NewMenu n) then mret tt
  else
    network ← NewAction (Some []);
    _ ← insert_before_field MyNetworksSep network;
    items ← gfold render_new_child [] (ns_Devices n);
    on_networks (fun l => l ++ [finish_network n (set_menu items network)]).
Definition remove_extra_networks (n : nat) : T unit :=
  m ← gget;
  if Nat.ltb n (length (w_myNetworksList m)) then
    _ ← remove_actions (drop n (w_myNetworksList m)); on_networks (take n)
  else mret tt.
Definition render_networks (ns : list NetworkSummary) : T unit :=
  m ← gget;
  _ ← genum 0 ns (render_network (length (w_myNetworksList m)));
  remove_extra_networks (length ns).

(** [displayLanguageList]: the items of the language's submenu. *)
Definition language_items (m : osApp) : list Act := default [] (x_menu (w_field m Language)).
Definition tick (name : string) (x : Act) : Act :=
  SetTicked (String.eqb curName name) (SetEnabled (negb (String.eqb curName name)) x).
Definition render_language (shown : nat) (i : nat) (name : string) : T unit :=
  if Nat.ltb i shown then
    on_field Language (fun x => set_menu (alter (fun y => tick name (replaceHandler (ChooseLocale name) (SetText (desc name) y))) i
      (default [] (x_menu x))) x)
  else
    language ← addAction (desc name);
    on_field Language (fun x => set_menu (list_Add (tick name (attach (ChooseLocale name) language)) (default [] (x_menu x))) x).
Definition displayLanguageList : T unit :=
  m ← gget;
  match x_menu (w_field m Language) with
  | None => gpanic "invalid memory address or nil pointer dereference"
  | Some items => genum 0 locales (render_language (length items))
  end.

(** [render]. *)
Definition render_profile (s : DriverSummary) : T unit :=
  let p := ds_Profile s in
  _ ← on_field DeviceField (fun x => replaceHandler (CopyAddress (pf_Name p) (pf_IPv4 p)) (SetText (L "tray.device" [pf_Name p]) x));
  _ ← on_field Status (SetText (L ("tray.status." ++ ds_Status s)%string []));
  on_field Enable (fun x => replaceHandler (SwitchDriver (ds_Enabled s)) (SetTicked (ds_Enabled s) x)).
Definition render_content (s : DriverSummary) : T unit :=
  _ ← render_profile s;
  _ ← render_devices (sm_MyDevices (ds_Mesh s));
  render_networks (sm_Networks (ds_Mesh s)).
Definition render (isGuest auto : bool) (s : DriverSummary) : T unit :=
  _ ← setMenuVisibility isGuest;
  _ ← (if isGuest then mret tt else render_content s);
  _ ← displayLanguageList;
  on_field Start (SetTicked auto).

(** *** Creating the tray *)

(** [addActionWithTK], [addActionWithActionWithTK], [addSeparator] and
    [addMenuAction] at the top level, into a field. *)
Definition put (f : Field) (x : Act) : T unit :=
  _ ← on_context (list_Add (x_id x)); on_field f (fun _ => x).
Definition add_action (f : Field) (title : string) (h : option Action) : T unit :=
  x ← addAction title; put f (match h with Some h => attach h x | None => x end).
Definition addSeparator (f : option Field) : T unit :=
  x ← NewAction None;
  match f with Some f => put f x | None => on_context (list_Add (x_id x)) end.
Definition addMenuAction (f : Field) (title : string) (menu : bool) : T unit :=
  x ← NewAction (if menu then Some [] else None); put f (SetText title (SetVisible true x)).

(** [createTray], for what opening the window and the icon gives; [showing] is
    the result of making the icon visible. *)
Definition createTray (opened showing : result unit) (menu isGuest auto : bool) : T unit :=
  _ ← glift opened;
  _ ← add_action Login (L "tray.login" []) (Some OpenLoginWeb);
  _ ← add_action DeviceField (L "tray.unknown" []) None;
  _ ← add_action Status (L "tray.unknown" []) None;
  _ ← on_field Status (SetEnabled false);
  _ ← add_action Enable (L "tray.enable" []) None;
  _ ← add_action Console (L "tray.profile.console" []) (Some OpenConsole);
  _ ← addSeparator (Some Sep);
  _ ← add_action MyDevices (L "tray.my_devices" []) None;
  _ ← on_field MyDevices (SetEnabled false);
  _ ← addSeparator (Some MyDevicesSep);
  _ ← add_action MyNetworks (L "tray.my_networks" []) None;
  _ ← on_field MyNetworks (SetEnabled false);
  _ ← addSeparator (Some MyNetworksSep);
  _ ← add_action Start (L "tray.autorun" []) (Some AutoStart);
  _ ← on_field Start (SetTicked auto);
  _ ← add_action LogoutField (L "tray.profile.logout" []) (Some Logout);
  _ ← add_action About (L "tray.about" []) (Some OpenAbout);
  _ ← addSeparator None;
  _ ← addMenuAction Language (L "tray.language" [curName]) menu;
  _ ← addSeparator None;
  _ ← add_action Exit (L "tray.exit" []) (Some Quit);
  _ ← setMenuVisibility isGuest;
  glift showing.
End Render.

(** [setLocale], when the locale is there: the texts by their keys are looked
    up again, then everything is rendered. *)
Definition actionLocaleNameMap : list (Field * string) :=
  [(Login, "tray.login"); (DeviceField, "tray.unknown"); (Status, "tray.unknown"); (Enable, "tray.enable");
   (Console, "tray.profile.console"); (MyDevices, "tray.my_devices"); (MyNetworks, "tray.my_networks"); (Start, "tray.autorun");
   (LogoutField, "tray.profile.logout"); (About, "tray.about"); (Exit, "tray.exit")]%string.
Definition setLocale (L : string -> list string -> string) (locales : list string) (desc : string -> string) (NewMenu : NetworkSummary -> bool)
    (name : string) (isGuest auto : bool) (s : DriverSummary) : T unit :=
  if negb (bool_decide (name ∈ locales)) then mret tt
  else
    _ ← gfor actionLocaleNameMap (fun kv => on_field kv.1 (SetText (L kv.2 [])));
    _ ← on_field Language (SetText (L "tray.language" [name]));
    render L locales desc name NewMenu isGuest auto s.
End Windows.

(** ** Lemmas *)

Section Facts.
Context `{HE : WalkEvents} `{HEO : !WalkEventsOk} `{HL : WalkLists} `{HLO : !WalkListsOk}.
Abbreviation T := (GoM osApp).

(** *** Handlers *)

Definition runs (x : Act) : list Action := map snd (handlers (x_triggered x)).

Lemma attach_runs h x : h ∈ runs (attach h x).
Proof.
  unfold runs, attach, set_triggered. cbn. pose proof (handlers_attach h (x_triggered x)) as Ha.
  destruct (Attach h (x_triggered x)) as [e' n]. destruct Ha as (_ & _ & Hp). cbn. apply list_elem_of_fmap. exists (n, h). split; [done|].
  rewrite Hp. by left.
Qed.
Lemma detach_others p is_ : forall e, p ∈ handlers e -> fst p ∉ is_ -> p ∈ handlers (foldl (fun e i => Detach i e) e is_).
Proof.
  induction is_ as [|i is_ IH]; intros e Hp Hi; [done|]. cbn [foldl]. apply not_elem_of_cons in Hi as [Hi Hr]. apply IH; [|done].
  rewrite handlers_detach. apply list_elem_of_filter. done.
Qed.
(** Whatever ran before, the handler that replaces it runs. *)
Lemma replace_runs h x : h ∈ runs (replaceHandler h x).
Proof.
  unfold runs, replaceHandler, set_triggered, replace_event. cbn. pose proof (handlers_attach h (x_triggered x)) as Ha.
  destruct (Attach h (x_triggered x)) as [e' n]. destruct Ha as (Hn & _ & Hp). apply list_elem_of_fmap. exists (n, h). split; [done|].
  assert ((n, h) ∈ handlers e') as Hin by (rewrite Hp; by left). destruct (n =? 0); [done|]. apply detach_others; [done|].
  cbn. rewrite elem_of_seqZ. lia.
Qed.

(** *** The context menu *)

(** Between fixed actions the context menu holds the devices before their
    separator and the networks before theirs; every identifier is used once. *)
Definition separator_id (f : Field) (m : osApp) : Z := x_id (w_field m f).
Definition ctx_list (h md t : list Z) (m : osApp) : list Z :=
  h ++ map x_id (w_myDevicesList m) ++ separator_id MyDevicesSep m :: md ++ map x_id (w_myNetworksList m) ++ separator_id MyNetworksSep m :: t.
Definition ctx_ok (h md t : list Z) (m : osApp) : Prop :=
  w_context m = ctx_list h md t m /\ NoDup (w_context m) /\ Forall (fun i => i < w_next m) (w_context m).

Definition bump (k : Z) (m : osApp) : osApp :=
  mkApp (w_field m) (w_myDevicesList m) (w_myNetworksList m) (w_context m) (w_next m + k).
Lemma bump_bump j k m : bump j (bump k m) = bump (k + j) m.
Proof. unfold bump. cbn. f_equal. lia. Qed.
Lemma bump_0 m : bump 0 m = m.
Proof. unfold bump. rewrite Z.add_0_r. by destruct m. Qed.
Lemma ctx_bump h md t k m : 0 <= k -> ctx_ok h md t m -> ctx_ok h md t (bump k m).
Proof.
  intros Hk (H1 & H2 & H3). split_and!; [done|done|]. cbn. eapply Forall_impl; [exact H3|]. cbn. lia.
Qed.

Lemma fresh_insert (x : Z) (pre post : list Z) next : NoDup (pre ++ post) -> Forall (fun i => i < next) (pre ++ post) -> x = next ->
  NoDup (pre ++ x :: post) /\ Forall (fun i => i < next + 1) (pre ++ x :: post).
Proof.
  intros Hn Hf ->. split.
  - rewrite <- Permutation_middle. apply NoDup_cons. split; [|done]. intros Hin. rewrite Forall_forall in Hf. specialize (Hf next Hin). lia.
  - rewrite <- Permutation_middle. constructor; [lia|]. eapply Forall_impl; [exact Hf|]. cbn. lia.
Qed.
Lemma NoDup_middle (x : Z) pre post : NoDup (pre ++ x :: post) -> (x ∉ pre) /\ NoDup (pre ++ post).
Proof.
  intros H. split; [|rewrite <- Permutation_middle in H; by apply NoDup_cons in H as [_ H]].
  apply NoDup_app in H as (_ & H & _). intros Hx. eapply H; [exact Hx|by left].
Qed.

(** Removing the actions of a list from the context menu. *)
Lemma remove_actions_ok l : forall pre post m, w_context m = pre ++ map x_id l ++ post -> NoDup (w_context m) ->
  remove_actions l m = (mkApp (w_field m) (w_myDevicesList m) (w_myNetworksList m) (pre ++ post) (w_next m), Ok tt).
Proof.
  unfold remove_actions. induction l as [|x l IH]; intros pre post m Hc Hn; cbn [gfor].
  - cbn in Hc. rewrite <- Hc. by destruct m.
  - cbv [mbind gom_bind on_context gmodify] in *. cbn [map app] in Hc. rewrite Hc in Hn |- *. destruct (NoDup_middle _ _ _ Hn) as [Hx Hn'].
    rewrite Remove_removes by done. by rewrite (IH pre post) by done.
Qed.

(** *** The loops *)

Lemma map_insert_id i (l : list Act) x y : l !! i = Some x -> x_id y = x_id x -> map x_id (<[i := y]> l) = map x_id l.
Proof. intros Hx Hy. rewrite list_fmap_insert. apply list_insert_id. by rewrite list_lookup_fmap, Hx, Hy. Qed.

(** What a device and a network look like. *)
Definition dev_item (d : Device) (x : Act) : Prop :=
  x_visible x = true /\ x_text x = deviceName d /\ copy_of d ∈ runs x.
Definition net_item (n : NetworkSummary) (x : Act) : Prop :=
  x_visible x = true /\ x_text x = ns_Name n /\ x_enabled x = negb (is_nil (ns_Devices n)).
Definition has_menu (x : Act) : Prop := is_Some (x_menu x).

Definition same_fields (m m' : osApp) : Prop := forall f, w_field m' f = w_field m f.
Definition keeps_networks (h md t : list Z) (m m' : osApp) : Prop :=
  same_fields m m' /\ w_myNetworksList m' = w_myNetworksList m /\ (ctx_ok h md t m -> ctx_ok h md t m').
Definition keeps_devices (h md t : list Z) (m m' : osApp) : Prop :=
  same_fields m m' /\ w_myDevicesList m' = w_myDevicesList m /\ (ctx_ok h md t m -> ctx_ok h md t m').
#[local] Instance keeps_networks_refl h md t : Reflexive (keeps_networks h md t).
Proof. intros m. by split_and!. Qed.
#[local] Instance keeps_networks_trans h md t : Transitive (keeps_networks h md t).
Proof. intros m1 m2 m3 (A1 & B1 & C1) (A2 & B2 & C2). split_and!; [intros f; by rewrite A2|by rewrite B2|auto]. Qed.
#[local] Instance keeps_devices_refl h md t : Reflexive (keeps_devices h md t).
Proof. intros m. by split_and!. Qed.
#[local] Instance keeps_devices_trans h md t : Transitive (keeps_devices h md t).
Proof. intros m1 m2 m3 (A1 & B1 & C1) (A2 & B2 & C2). split_and!; [intros f; by rewrite A2|by rewrite B2|auto]. Qed.

(** Lists appended in any grouping. *)
Ltac app_norm := repeat (rewrite <- app_assoc || rewrite <- app_comm_cons).

(** An action put before its separator, and one set up in place. *)
Definition inserted (f : Field) (id : Z) (m : osApp) : list Z := list_Insert (list_Index (separator_id f m) (w_context m)) id (w_context m).
Lemma insert_at (f : Field) (x : Z) (pre post : list Z) m :
  w_context m = pre ++ separator_id f m :: post -> NoDup (w_context m) -> inserted f x m = pre ++ x :: separator_id f m :: post.
Proof.
  intros Hc Hn. unfold inserted. rewrite Hc in Hn |- *. rewrite Index_finds by by eapply NoDup_middle. by rewrite Insert_inserts.
Qed.
Lemma ctx_insert_device h md t m x k : ctx_ok h md t m -> x_id x = w_next m -> 0 < k ->
  ctx_ok h md t (mkApp (w_field m) (w_myDevicesList m ++ [x]) (w_myNetworksList m) (inserted MyDevicesSep (x_id x) m) (w_next m + k)).
Proof.
  intros (Hc & Hn & Hl) Hx Hk. unfold ctx_list in Hc. rewrite app_assoc in Hc.
  rewrite (insert_at _ _ _ _ _ Hc Hn). rewrite Hc in Hn, Hl.
  destruct (fresh_insert (x_id x) _ _ (w_next m) Hn Hl Hx) as [H1 H2]. split_and!; cbn; [|done|].
  - unfold ctx_list. cbn. rewrite map_app. cbn. by rewrite <- !app_assoc.
  - eapply Forall_impl; [exact H2|]. cbn. lia.
Qed.
Lemma ctx_insert_network h md t m x k : ctx_ok h md t m -> x_id x = w_next m -> 0 < k ->
  ctx_ok h md t (mkApp (w_field m) (w_myDevicesList m) (w_myNetworksList m ++ [x]) (inserted MyNetworksSep (x_id x) m) (w_next m + k)).
Proof.
  intros (Hc & Hn & Hl) Hx Hk.
  assert (w_context m = (h ++ map x_id (w_myDevicesList m) ++ separator_id MyDevicesSep m :: md ++ map x_id (w_myNetworksList m)) ++
    separator_id MyNetworksSep m :: t) as Hc' by (rewrite Hc; unfold ctx_list; by app_norm).
  rewrite (insert_at _ _ _ _ _ Hc' Hn). rewrite Hc' in Hn, Hl.
  destruct (fresh_insert (x_id x) _ _ (w_next m) Hn Hl Hx) as [H1 H2]. split_and!; cbn; [|done|].
  - unfold ctx_list. cbn. rewrite map_app. by app_norm.
  - eapply Forall_impl; [exact H2|]. cbn. lia.
Qed.
Lemma ctx_same h md t m m' : map x_id (w_myDevicesList m') = map x_id (w_myDevicesList m) ->
  map x_id (w_myNetworksList m') = map x_id (w_myNetworksList m) -> w_context m' = w_context m -> w_next m <= w_next m' ->
  separator_id MyDevicesSep m' = separator_id MyDevicesSep m -> separator_id MyNetworksSep m' = separator_id MyNetworksSep m ->
  ctx_ok h md t m -> ctx_ok h md t m'.
Proof.
  intros H1 H2 H3 H4 H5 H6 (Hc & Hn & Hl). unfold ctx_ok, ctx_list. rewrite H1, H2, H3, H5, H6. split_and!; [done|done|].
  eapply Forall_impl; [exact Hl|]. cbn. lia.
Qed.

Lemma NoDup_without (a b c : list Z) : NoDup (a ++ b ++ c) -> NoDup (a ++ c).
Proof. intros H. eapply sublist_NoDup; [exact H|]. apply sublist_app; [done|]. by apply sublist_inserts_l. Qed.
Lemma Forall_without (P : Z -> Prop) a b c : Forall P (a ++ b ++ c) -> Forall P (a ++ c).
Proof. rewrite !Forall_app. tauto. Qed.

(** Cutting a list: its last actions leave the context menu with it. *)
Lemma remove_extra_devices_ok h md t n m : ctx_ok h md t m -> exists m',
  remove_extra_devices n m = (m', Ok tt) /\ w_myDevicesList m' = take n (w_myDevicesList m) /\ keeps_networks h md t m m' /\ ctx_ok h md t m'.
Proof.
  intros Hok. pose proof Hok as (Hc & Hn & Hl). unfold remove_extra_devices. cbv [mbind gom_bind gget].
  destruct (Nat.ltb_spec n (length (w_myDevicesList m))) as [Hlt|Hge].
  2: { exists m. rewrite take_ge by lia. by split_and!. }
  set (l := w_myDevicesList m) in *.
  set (post := separator_id MyDevicesSep m :: md ++ map x_id (w_myNetworksList m) ++ separator_id MyNetworksSep m :: t).
  assert (w_context m = (h ++ map x_id (take n l)) ++ map x_id (drop n l) ++ post) as Hc'.
  { rewrite Hc. unfold ctx_list. fold l. rewrite <- (take_drop n l) at 1. rewrite map_app. by rewrite <- !app_assoc. }
  rewrite (remove_actions_ok (drop n l) _ _ _ Hc' Hn). unfold on_devices, gmodify. cbn. eexists. split; [reflexivity|]. split; [done|].
  assert (ctx_ok h md t (mkApp (w_field m) (take n l) (w_myNetworksList m) ((h ++ map x_id (take n l)) ++ post) (w_next m))) as Hok'.
  { split_and!; cbn.
    - unfold ctx_list. cbn. by rewrite <- app_assoc.
    - rewrite Hc' in Hn. by eapply NoDup_without.
    - rewrite Hc' in Hl. by eapply Forall_without. }
  split; [|done]. by split_and!.
Qed.
Lemma remove_extra_networks_ok h md t n m : ctx_ok h md t m -> exists m',
  remove_extra_networks n m = (m', Ok tt) /\ w_myNetworksList m' = take n (w_myNetworksList m) /\ keeps_devices h md t m m' /\ ctx_ok h md t m'.
Proof.
  intros Hok. pose proof Hok as (Hc & Hn & Hl). unfold remove_extra_networks. cbv [mbind gom_bind gget].
  destruct (Nat.ltb_spec n (length (w_myNetworksList m))) as [Hlt|Hge].
  2: { exists m. rewrite take_ge by lia. by split_and!. }
  set (l := w_myNetworksList m) in *. set (pre := h ++ map x_id (w_myDevicesList m) ++ separator_id MyDevicesSep m :: md).
  set (post := separator_id MyNetworksSep m :: t).
  assert (w_context m = (pre ++ map x_id (take n l)) ++ map x_id (drop n l) ++ post) as Hc'.
  { rewrite Hc. unfold ctx_list, pre. fold l. rewrite <- (take_drop n l) at 1. rewrite map_app. by app_norm. }
  rewrite (remove_actions_ok (drop n l) _ _ _ Hc' Hn). unfold on_networks, gmodify. cbn. eexists. split; [reflexivity|]. split; [done|].
  assert (ctx_ok h md t (mkApp (w_field m) (w_myDevicesList m) (take n l) ((pre ++ map x_id (take n l)) ++ post) (w_next m))) as Hok'.
  { split_and!; cbn.
    - unfold ctx_list, pre. cbn. by app_norm.
    - rewrite Hc' in Hn. by eapply NoDup_without.
    - rewrite Hc' in Hl. by eapply Forall_without. }
  split; [|done]. by split_and!.
Qed.

Lemma win_render_devices_ok h md t ds m : ctx_ok h md t m -> exists m', render_devices ds m = (m', Ok tt) /\
  Forall2 dev_item ds (w_myDevicesList m') /\ keeps_networks h md t m m' /\ ctx_ok h md t m'.
Proof.
  intros Hok. unfold render_devices. cbv [mbind gom_bind gget].
  destruct (genum_all w_myDevicesList dev_item (keeps_networks h md t) (fun _ => True) (render_device (length (w_myDevicesList m)))
    (length (w_myDevicesList m))) with (xs := ds) (m := m) as (m1 & cur & -> & Hl & HF & HR); [done| | |done|done|].
  - intros i d m1 x _ Hi Hx. unfold render_device. destruct (Nat.ltb_spec i (length (w_myDevicesList m))); [|lia].
    eexists _, _. split; [reflexivity|]. cbn [w_myDevicesList]. rewrite (list_lookup_alter_insert _ _ _ _ Hx). split; [reflexivity|].
    split; [split_and!; [done..|apply replace_runs]|]. split_and!; [done|done|].
    apply ctx_same; try done; cbn; try lia. by eapply map_insert_id.
  - intros i d m1 _ Hi _. unfold render_device. destruct (Nat.ltb_spec i (length (w_myDevicesList m))); [lia|].
    eexists _, _. split; [reflexivity|]. split; [reflexivity|]. split; [split_and!; [done..|apply attach_runs]|]. split_and!; [done|done|].
    intros Hc. by apply (ctx_insert_device h md t m1 (SetVisible true (SetText (deviceName d) (attach (copy_of d) _))) 1).
  - destruct (remove_extra_devices_ok h md t (length ds) m1 (proj2 (proj2 HR) Hok)) as (m2 & -> & Hl2 & HR2 & Hok2).
    exists m2. split_and!; [done| |by etrans|done]. rewrite Hl2, Hl, (Forall2_length _ _ _ HF). by rewrite take_app_length.
Qed.

(** *** Networks *)

Lemma new_children_ok ds : forall items m, exists k items', gfold render_new_child items ds m = (bump k m, Ok (items ++ items')) /\
  0 <= k /\ Forall2 dev_item ds items'.
Proof.
  induction ds as [|d ds IH]; intros items m; cbn [gfold].
  - exists 0, []. rewrite bump_0, app_nil_r. by split_and!.
  - cbv [mbind gom_bind]. unfold render_new_child at 1. cbv [mbind gom_bind addAction NewAction mret gom_ret]. rewrite Add_appends.
    set (x := attach _ _). fold (bump 1 m). destruct (IH (items ++ [x]) (bump 1 m)) as (k & items' & -> & Hk & HF).
    exists (1 + k), (x :: items'). rewrite bump_bump, <- app_assoc. split_and!; [done|lia|]. constructor; [|done].
    repeat split. apply attach_runs.
Qed.
Lemma known_children_ok i n ds : forall items m, exists k items', gfold (render_known_child i n) items ds m = (bump k m, Ok items') /\ 0 <= k.
Proof.
  induction ds as [|d ds IH]; intros items m; cbn [gfold].
  - exists 0, items. rewrite bump_0. by split_and!.
  - cbv [mbind gom_bind]. unfold render_known_child at 1. destruct (Nat.ltb i n).
    + cbv [mret gom_ret]. apply IH.
    + cbv [mbind gom_bind addAction NewAction mret gom_ret]. fold (bump 1 m). set (l := list_Add _ _).
      destruct (IH l (bump 1 m)) as (k & items' & -> & Hk). exists (1 + k), items'. rewrite bump_bump. split; [done|lia].
Qed.

(** The network [j] of the loop: the devices below it are the summary's when
    its action is new. *)
Definition net_shown (n j : nat) (nw : NetworkSummary) (x : Act) : Prop :=
  net_item nw x /\ has_menu x /\ ((n <= j)%nat -> Forall2 dev_item (ns_Devices nw) (default [] (x_menu x))).
Definition with_menus (m : osApp) : Prop := Forall has_menu (w_myNetworksList m).

Lemma win_render_network_old h md t NewMenu n nw j m x : (j < n)%nat -> w_myNetworksList m !! j = Some x -> has_menu x ->
  exists m' y, render_network NewMenu n j nw m = (m', Ok tt) /\ w_myNetworksList m' = <[j := y]> (w_myNetworksList m) /\
    net_shown n j nw y /\ keeps_devices h md t m m'.
Proof.
  intros Hj Hx [items Hm]. unfold render_network. destruct (Nat.ltb_spec j n); [|lia]. cbv [mbind gom_bind gget]. rewrite Hx.
  destruct x as [id tx en vi ch ev me]. cbn in Hm. subst me.
  destruct (known_children_ok j (length items) (ns_Devices nw) items m) as (k & items' & -> & Hk).
  unfold on_networks, gmodify. eexists _, _. split; [reflexivity|]. cbn [w_myNetworksList bump].
  rewrite (list_lookup_alter_insert _ _ _ _ Hx). split; [reflexivity|]. split; [split_and!; [done|by eexists|intros; lia]|].
  split_and!; [done|done|]. apply ctx_same; try done; cbn; try lia. by eapply map_insert_id.
Qed.
Lemma win_render_network_new h md t NewMenu n nw j m : (n <= j)%nat -> NewMenu nw = true ->
  exists m' y, render_network NewMenu n j nw m = (m', Ok tt) /\ w_myNetworksList m' = w_myNetworksList m ++ [y] /\
    net_shown n j nw y /\ keeps_devices h md t m m'.
Proof.
  intros Hj Hm. unfold render_network. destruct (Nat.ltb_spec j n); [lia|]. rewrite Hm. cbn [negb].
  cbv [mbind gom_bind NewAction insert_before_field gget on_context gmodify]. set (m1 := mkApp _ _ _ _ _).
  destruct (new_children_ok (ns_Devices nw) [] m1) as (k & items & -> & Hk & HF). cbn [app].
  unfold on_networks, gmodify. eexists _, _. split; [reflexivity|]. split; [reflexivity|].
  split; [split_and!; [done|by eexists|done]|]. split_and!; [done|done|]. intros Hc.
  pose proof (ctx_insert_network h md t m (finish_network nw (set_menu items (mkAct (w_next m) "" new_enabled new_visible new_checked no_handlers (Some []))))
    (1 + k) Hc eq_refl ltac:(lia)) as Hc'. unfold bump, m1. cbn in Hc' |- *. by rewrite <- Z.add_assoc.
Qed.

Definition net_step (h md t : list Z) (m m' : osApp) : Prop := keeps_devices h md t m m' /\ (with_menus m -> with_menus m').
#[local] Instance net_step_refl h md t : Reflexive (net_step h md t).
Proof. by intros m. Qed.
#[local] Instance net_step_trans h md t : Transitive (net_step h md t).
Proof. intros m1 m2 m3 [A1 B1] [A2 B2]. split; [by etrans|auto]. Qed.

Lemma win_render_networks_ok h md t NewMenu ns m : (forall n, NewMenu n = true) -> ctx_ok h md t m -> with_menus m ->
  exists m', render_networks NewMenu ns m = (m', Ok tt) /\
    numbered (net_shown (length (w_myNetworksList m))) 0 ns (w_myNetworksList m') /\
    keeps_devices h md t m m' /\ ctx_ok h md t m' /\ with_menus m'.
Proof.
  intros HN Hok Hm. unfold render_networks. cbv [mbind gom_bind gget]. set (n := length (w_myNetworksList m)).
  destruct (genum_numbered w_myNetworksList (net_shown n) (net_step h md t) with_menus (render_network NewMenu n) n)
    with (xs := ns) (m := m) as (m1 & cur & -> & Hl & HF & [HR HM]); [by intros m1 m2 [_ H]| | |done|done|].
  - intros j nw m1 x Hw Hj Hx. pose proof Hw as Hw'. unfold with_menus in Hw'. rewrite Forall_forall in Hw'.
    destruct (win_render_network_old h md t NewMenu n nw j m1 x Hj Hx) as (m' & y & H1 & H2 & H3 & H4); [by eapply Hw', list_elem_of_lookup_2|].
    exists m', y. split_and!; [done..|]. split; [done|]. intros _. unfold with_menus. rewrite H2. apply Forall_insert; [done|]. apply H3.
  - intros j nw m1 Hw Hj _. destruct (win_render_network_new h md t NewMenu n nw j m1 Hj (HN nw)) as (m' & y & H1 & H2 & H3 & H4).
    exists m', y. split_and!; [done..|]. split; [done|]. intros _. unfold with_menus. rewrite H2. apply Forall_app. split; [done|].
    constructor; [apply H3|done].
  - destruct (remove_extra_networks_ok h md t (length ns) m1 (proj2 (proj2 HR) Hok)) as (m2 & -> & Hl2 & HR2 & Hok2).
    exists m2. pose proof (numbered_length _ _ _ _ HF) as Hlen. split_and!; [done| |by etrans|done|].
    + rewrite Hl2, Hl, Hlen. by rewrite take_app_length.
    + unfold with_menus. rewrite Hl2. by apply Forall_take, HM.
Qed.

(** *** Languages *)

Definition lang_item (desc : string -> string) (curName name : string) (x : Act) : Prop :=
  x_text x = desc name /\ x_checked x = String.eqb curName name /\ x_enabled x = negb (String.eqb curName name) /\ ChooseLocale name ∈ runs x.
(** The language action apart, nothing of the application changes but the
    next identifier. *)
Definition but_language (h md t : list Z) (m m' : osApp) : Prop :=
  (forall f, f <> Language -> w_field m' f = w_field m f) /\ w_myDevicesList m' = w_myDevicesList m /\
  w_myNetworksList m' = w_myNetworksList m /\ (ctx_ok h md t m -> ctx_ok h md t m') /\ (has_menu (w_field m Language) -> has_menu (w_field m' Language)).
#[local] Instance but_language_refl h md t : Reflexive (but_language h md t).
Proof. intros m. by split_and!. Qed.
#[local] Instance but_language_trans h md t : Transitive (but_language h md t).
Proof.
  intros m1 m2 m3 (A1 & B1 & C1 & D1 & E1) (A2 & B2 & C2 & D2 & E2).
  split_and!; [intros f Hf; by rewrite A2, A1|by rewrite B2|by rewrite C2|auto..].
Qed.

Lemma win_displayLanguageList_ok h md t locales desc curName m : has_menu (w_field m Language) -> exists m' cur,
  displayLanguageList locales desc curName m = (m', Ok tt) /\
  language_items m' = cur ++ drop (length locales) (language_items m) /\ Forall2 (lang_item desc curName) locales cur /\ but_language h md t m m'.
Proof.
  intros [items Hi]. unfold displayLanguageList. cbv [mbind gom_bind gget]. rewrite Hi.
  apply (genum_all language_items (lang_item desc curName) (but_language h md t) (fun _ => True) (render_language desc curName (length items)) (length items));
    [done| | |done|unfold language_items; by rewrite Hi].
  - intros i name m1 x _ Hlt Hx. unfold render_language. destruct (Nat.ltb_spec i (length items)); [|lia].
    eexists _, _. split; [reflexivity|]. unfold language_items in *. cbn. split; [by apply list_lookup_alter_insert|].
    split; [split_and!; [done..|apply replace_runs]|]. split_and!; [|done|done| |by eexists].
    + intros f Hf. cbn. by rewrite decide_False.
    + apply ctx_same; try done; cbn; lia.
  - intros i name m1 _ Hge _. unfold render_language. destruct (Nat.ltb_spec i (length items)); [lia|].
    eexists _, _. split; [reflexivity|]. unfold language_items in *. cbn. rewrite Add_appends. split; [reflexivity|].
    split; [split_and!; [done..|apply attach_runs]|]. split_and!; [|done|done| |by eexists].
    + intros f Hf. cbn. by rewrite decide_False.
    + apply ctx_same; try done; cbn; lia.
Qed.

(** *** The whole menu *)

Definition set_visible_field (isGuest : bool) (f : Field) (x : Act) : Act :=
  match f with
  | Login => SetVisible isGuest x
  | Start | About | Language | Exit => x
  | _ => SetVisible (negb isGuest) x
  end.
(** One change for several fields. *)
Lemma on_fields_ok (g : Act -> Act) fs : NoDup fs -> forall m, exists m', gfor fs (fun f => on_field f g) m = (m', Ok tt) /\
  (forall f, w_field m' f = if bool_decide (f ∈ fs) then g (w_field m f) else w_field m f) /\
  w_myDevicesList m' = w_myDevicesList m /\ w_myNetworksList m' = w_myNetworksList m /\ w_context m' = w_context m /\ w_next m' = w_next m.
Proof.
  induction 1 as [|f fs Hf _ IH]; intros m; cbn [gfor]; [by exists m|]. cbv [mbind gom_bind]. unfold on_field at 1, gmodify.
  set (m1 := mkApp _ _ _ _ _). destruct (IH m1) as (m' & -> & H1 & H2). exists m'. split; [done|]. split; [|done].
  intros k. rewrite H1. unfold m1. cbn. destruct (decide (k = f)) as [->|Hk].
  - rewrite (bool_decide_false _ Hf). rewrite bool_decide_true by by left. done.
  - destruct (decide (k ∈ fs)) as [Hk'|Hk'].
    + rewrite !bool_decide_true; [done|by right|done].
    + rewrite !bool_decide_false; [done| |done]. by intros [?|?]%elem_of_cons.
Qed.
Lemma win_setMenuVisibility_ok h md t isGuest m : exists m', setMenuVisibility isGuest m = (m', Ok tt) /\
  (forall f, w_field m' f = set_visible_field isGuest f (w_field m f)) /\
  w_myDevicesList m' = (if isGuest then map (SetVisible false) (w_myDevicesList m) else w_myDevicesList m) /\
  w_myNetworksList m' = (if isGuest then map (SetVisible false) (w_myNetworksList m) else w_myNetworksList m) /\
  (ctx_ok h md t m -> ctx_ok h md t m') /\ (with_menus m -> with_menus m').
Proof.
  unfold setMenuVisibility. cbv [mbind gom_bind]. unfold on_field at 1, gmodify. set (m1 := mkApp _ _ _ _ _).
  destruct (on_fields_ok (SetVisible (negb isGuest)) member_fields) with (m := m1) as (m2 & -> & Hf & Hd & Hn & Hc & Hx).
  { apply (bool_decide_unpack _). vm_compute. exact I. }
  assert (forall f, w_field m2 f = set_visible_field isGuest f (w_field m f)) as Hf2 by (intros f; rewrite Hf; by destruct f).
  destruct isGuest; cbn.
  - eexists. split; [reflexivity|]. split; [done|]. split; [cbn; by rewrite Hd|]. split; [cbn; by rewrite Hn|]. split.
    + apply ctx_same; cbn; rewrite ?Hd, ?Hn, ?Hc, ?Hx; try done; try (rewrite map_map; by apply map_ext); unfold separator_id; cbn; by rewrite Hf2.
    + unfold with_menus. cbn. rewrite Hn. intros H. rewrite Forall_map. eapply Forall_impl; [exact H|]. done.
  - exists m2. split; [done|]. split; [done|]. split; [done|]. split; [done|]. split.
    + apply ctx_same; rewrite ?Hd, ?Hn, ?Hc, ?Hx; try done; unfold separator_id; by rewrite Hf2.
    + unfold with_menus. by rewrite Hn.
Qed.

(** The fields for a signed-in node's summary. *)
Definition profile_shown (L : string -> list string -> string) (s : DriverSummary) (m : osApp) : Prop :=
  x_text (w_field m DeviceField) = L "tray.device"%string [pf_Name (ds_Profile s)] /\
  CopyAddress (pf_Name (ds_Profile s)) (pf_IPv4 (ds_Profile s)) ∈ runs (w_field m DeviceField) /\
  x_text (w_field m Status) = L ("tray.status." ++ ds_Status s)%string [] /\
  x_checked (w_field m Enable) = ds_Enabled s /\ SwitchDriver (ds_Enabled s) ∈ runs (w_field m Enable).
Lemma render_profile_ok h md t L s m : exists m', render_profile L s m = (m', Ok tt) /\ profile_shown L s m' /\
  (forall f, x_visible (w_field m' f) = x_visible (w_field m f)) /\ w_field m' Language = w_field m Language /\
  w_myDevicesList m' = w_myDevicesList m /\ w_myNetworksList m' = w_myNetworksList m /\ (ctx_ok h md t m -> ctx_ok h md t m').
Proof.
  eexists. split; [reflexivity|]. split; [split_and!; [done|apply replace_runs|done|done|apply replace_runs]|].
  split; [by intros []|]. split; [done|]. split; [done|]. split; [done|]. apply ctx_same; try done; cbn; lia.
Qed.
Definition win_visibility (isGuest : bool) (m : osApp) : Prop :=
  x_visible (w_field m Login) = isGuest /\ forall f, f ∈ member_fields -> x_visible (w_field m f) = negb isGuest.
Lemma visible_fields isGuest m m' : (forall f, w_field m' f = set_visible_field isGuest f (w_field m f)) -> win_visibility isGuest m'.
Proof.
  intros H. split; [by rewrite H|]. intros f Hf. rewrite H. unfold member_fields in Hf.
  repeat (apply elem_of_cons in Hf as [->|Hf]; [done|]). by apply elem_of_nil in Hf.
Qed.
Lemma same_visibility isGuest m m' : (forall f, f <> Language -> x_visible (w_field m' f) = x_visible (w_field m f)) ->
  win_visibility isGuest m -> win_visibility isGuest m'.
Proof.
  intros H [H1 H2]. split; [by rewrite H|]. intros f Hf. rewrite H; [by apply H2|]. intros ->. unfold member_fields in Hf.
  repeat (apply elem_of_cons in Hf as [Hf|Hf]; [done|]). by apply elem_of_nil in Hf.
Qed.

(** What a signed-in node and a guest see; [n] networks had their action. *)
Definition win_shows (L : string -> list string -> string) (s : DriverSummary) (n : nat) (m : osApp) : Prop :=
  profile_shown L s m /\ Forall2 dev_item (sm_MyDevices (ds_Mesh s)) (w_myDevicesList m) /\
  numbered (net_shown n) 0 (sm_Networks (ds_Mesh s)) (w_myNetworksList m).
Definition win_shows_nothing (m : osApp) : Prop :=
  Forall (fun x => x_visible x = false) (w_myDevicesList m ++ w_myNetworksList m).
(** The menu between two renderings. *)
Definition menu_ok (h md t : list Z) (m : osApp) : Prop := ctx_ok h md t m /\ with_menus m /\ has_menu (w_field m Language).

Lemma win_render_content_ok h md t L NewMenu s m : (forall n, NewMenu n = true) -> menu_ok h md t m -> exists m',
  render_content L NewMenu s m = (m', Ok tt) /\ win_shows L s (length (w_myNetworksList m)) m' /\ menu_ok h md t m' /\
  (forall f, x_visible (w_field m' f) = x_visible (w_field m f)) /\ w_field m' Language = w_field m Language.
Proof.
  intros HN (Hc & Hw & Hg). unfold render_content. cbv [mbind gom_bind].
  destruct (render_profile_ok h md t L s m) as (m1 & -> & Hp & Hv & Hl & Hd1 & Hn1 & Hc1).
  destruct (win_render_devices_ok h md t (sm_MyDevices (ds_Mesh s)) m1 (Hc1 Hc)) as (m2 & -> & Hd & (Hf2 & Hn2 & _) & Hc2).
  assert (with_menus m2) as Hw2 by (unfold with_menus; by rewrite Hn2, Hn1).
  destruct (win_render_networks_ok h md t NewMenu (sm_Networks (ds_Mesh s)) m2 HN Hc2 Hw2) as (m3 & -> & Hn & (Hf3 & Hd3 & _) & Hc3 & Hw3).
  exists m3. rewrite Hn2, Hn1 in Hn. split; [done|]. split.
  { split_and!; [|by rewrite Hd3|done]. unfold profile_shown in *. by rewrite !Hf3, !Hf2. }
  split; [split_and!; [done..|by rewrite Hf3, Hf2, Hl]|]. split; [intros f; by rewrite Hf3, Hf2|by rewrite Hf3, Hf2].
Qed.
End Facts.

(** *** Creating the tray *)

Section Create.
Context `{HE : WalkEvents} `{HEO : !WalkEventsOk} `{HL : WalkLists} `{HLO : !WalkListsOk}.

Definition titled (title : string) (h : option Action) (id : Z) : Act :=
  let x := SetText title (SetVisible true (mkAct id "" new_enabled new_visible new_checked no_handlers None)) in
  match h with Some h => attach h x | None => x end.
Definition separator (id : Z) : Act := mkAct id "" new_enabled new_visible new_checked no_handlers None.
Definition with_field (f : Field) (x : Act) (F : Field -> Act) : Field -> Act := fun k => if decide (k = f) then x else F k.

Section Steps.
Context (F : Field -> Act) (ds ns : list Act) (C : list Z) (N : Z).
Lemma add_action_eq f title h : add_action f title h (mkApp F ds ns C N) = (mkApp (with_field f (titled title h N) F) ds ns (C ++ [N]) (N + 1), Ok tt).
Proof.
  unfold add_action, put. cbv [mbind gom_bind addAction NewAction mret gom_ret on_context on_field gmodify]. rewrite Add_appends.
  cbn. by destruct h.
Qed.
Lemma addSeparator_eq f : addSeparator (Some f) (mkApp F ds ns C N) = (mkApp (with_field f (separator N) F) ds ns (C ++ [N]) (N + 1), Ok tt).
Proof. unfold addSeparator, put. cbv [mbind gom_bind NewAction mret gom_ret on_context on_field gmodify]. by rewrite Add_appends. Qed.
Lemma addSeparator_none : addSeparator None (mkApp F ds ns C N) = (mkApp F ds ns (C ++ [N]) (N + 1), Ok tt).
Proof. unfold addSeparator, put. cbv [mbind gom_bind NewAction mret gom_ret on_context on_field gmodify]. by rewrite Add_appends. Qed.
Lemma addMenuAction_eq f title : addMenuAction f title true (mkApp F ds ns C N) =
  (mkApp (with_field f (SetText title (SetVisible true (set_menu [] (separator N)))) F) ds ns (C ++ [N]) (N + 1), Ok tt).
Proof. unfold addMenuAction, put. cbv [mbind gom_bind NewAction mret gom_ret on_context on_field gmodify]. by rewrite Add_appends. Qed.
Lemma on_field_eq f g : on_field f g (mkApp F ds ns C N) = (mkApp (fun k => if decide (k = f) then g (F k) else F k) ds ns C N, Ok tt).
Proof. done. Qed.
End Steps.

(** The application before the tray is created. *)
Definition no_app : osApp := mkApp (fun _ => separator 0) [] [] [] 0.
Lemma step_ok {A} (c : GoM osApp A) (k : A -> GoM osApp unit) m m1 a (Q : osApp -> Prop) : c m = (m1, Ok a) ->
  (exists m', k a m1 = (m', Ok tt) /\ Q m') -> exists m', (c ≫= k) m = (m', Ok tt) /\ Q m'.
Proof. intros H. cbv [mbind gom_bind]. by rewrite H. Qed.
Lemma createTray_ok L curName isGuest auto : exists m', createTray L curName (Ok tt) (Ok tt) true isGuest auto no_app = (m', Ok tt) /\
  menu_ok [0; 1; 2; 3; 4; 5; 6] [8] [10; 11; 12; 13; 14; 15; 16] m' /\ win_visibility isGuest m'.
Proof.
  unfold createTray.
  unfold no_app. eapply step_ok; [reflexivity|].
  repeat lazymatch goal with
  | |- exists m', (add_action _ _ _ ≫= _) _ = _ /\ _ => eapply step_ok; [exact (add_action_eq _ _ _ _ _ _ _ _)|]
  | |- exists m', (addSeparator (Some _) ≫= _) _ = _ /\ _ => eapply step_ok; [exact (addSeparator_eq _ _ _ _ _ _)|]
  | |- exists m', (addSeparator None ≫= _) _ = _ /\ _ => eapply step_ok; [exact (addSeparator_none _ _ _ _ _)|]
  | |- exists m', (addMenuAction _ _ _ ≫= _) _ = _ /\ _ => eapply step_ok; [exact (addMenuAction_eq _ _ _ _ _ _ _)|]
  | |- exists m', (on_field _ _ ≫= _) _ = _ /\ _ => eapply step_ok; [exact (on_field_eq _ _ _ _ _ _ _)|]
  end.
  match goal with |- exists m', (setMenuVisibility isGuest ≫= _) ?m = _ /\ _ => set (m0 := m) end. cbv [mbind gom_bind].
  destruct (win_setMenuVisibility_ok [0; 1; 2; 3; 4; 5; 6] [8] [10; 11; 12; 13; 14; 15; 16] isGuest m0) as (m' & -> & Hf & Hd & Hn & Hc & Hw).
  exists m'. split; [done|]. split; [|by eapply visible_fields].
  split_and!; [|by apply Hw; constructor|rewrite Hf; by eexists].
  apply Hc. split_and!; [by vm_compute|apply (bool_decide_unpack _); by vm_compute|by repeat constructor].
Qed.
End Create.

(** ** Properties *)

Section Properties.
Context `{HE : WalkEvents} `{HEO : !WalkEventsOk} `{HL : WalkLists} `{HLO : !WalkListsOk}.

(** Whatever the menu on Windows showed before, rendering succeeds and it
    shows the summary: for a signed-in node exactly its devices and networks,
    in order, each device with the address it copies, a network that has just
    been joined with its devices; for a guest none of them.  The context menu
    holds the actions of exactly these devices and networks, before their
    separators and in their order, and rendering can go on from there.  Every
    language is listed and the current one is ticked; the auto start is ticked
    when it is on. *)
Theorem windows_menu_shows_the_summary (L : string -> list string -> string) (locales : list string) (desc : string -> string)
    (curName : string) (NewMenu : NetworkSummary -> bool) (isGuest auto : bool) (s : DriverSummary) (h md t : list Z) (m : osApp) :
  (forall n, NewMenu n = true) -> menu_ok h md t m ->
  exists m', render L locales desc curName NewMenu isGuest auto s m = (m', Ok tt) /\ menu_ok h md t m' /\
    win_visibility isGuest m' /\
    (if isGuest then win_shows_nothing m' else win_shows L s (length (w_myNetworksList m)) m') /\
    Forall2 (lang_item desc curName) locales (take (length locales) (language_items m')) /\ x_checked (w_field m' Start) = auto.
Proof.
  intros HN (Hc & Hw & Hg). unfold render. cbv [mbind gom_bind].
  destruct (win_setMenuVisibility_ok h md t isGuest m) as (m1 & -> & Hf1 & Hd1 & Hn1 & Hc1 & Hw1).
  assert (menu_ok h md t m1) as Hok1 by (split_and!; [auto..|by rewrite Hf1]).
  assert (exists m2, (if isGuest then mret tt else render_content L NewMenu s) m1 = (m2, Ok tt) /\ menu_ok h md t m2 /\
    (forall f, x_visible (w_field m2 f) = x_visible (w_field m1 f)) /\
    (if isGuest then win_shows_nothing m2 else win_shows L s (length (w_myNetworksList m)) m2)) as (m2 & -> & Hok2 & Hv2 & Hs2).
  { destruct isGuest.
    - exists m1. split_and!; [done..|]. unfold win_shows_nothing. rewrite Hd1, Hn1, <- map_app, Forall_map. by apply Forall_true.
    - destruct (win_render_content_ok h md t L NewMenu s m1 HN Hok1) as (m2 & H1 & H2 & H3 & H4 & _). rewrite Hn1 in H2. by exists m2. }
  destruct Hok2 as (Hc2 & Hw2 & Hg2).
  destruct (win_displayLanguageList_ok h md t locales desc curName m2 Hg2) as (m3 & cur & -> & Hl3 & HF3 & (Hf3 & Hd3 & Hn3 & Hc3 & Hg3)).
  unfold on_field, gmodify. eexists. split; [reflexivity|].
  split; [split_and!; [|unfold with_menus; cbn; by rewrite Hn3|cbn; by apply Hg3]|].
  { apply (ctx_same h md t m3); [done|done|done|apply Z.le_refl|done|done|by apply Hc3]. }
  split. { eapply same_visibility; [|eapply visible_fields, Hf1]. intros f Hf. cbn. rewrite <- Hv2, <- (Hf3 f Hf). by destruct f. }
  split. { destruct isGuest; [unfold win_shows_nothing in *; cbn; by rewrite Hd3, Hn3|].
    destruct Hs2 as (Hp & Hd & Hn). split_and!; cbn; [|by rewrite Hd3|by rewrite Hn3]. unfold profile_shown in *. cbn. by rewrite !Hf3. }
  split; [|done]. change (language_items (mkApp _ _ _ _ _)) with (language_items m3). rewrite Hl3, (Forall2_length _ _ _ HF3). by rewrite take_app_length.
Qed.
End Properties.

(** ** Examples *)

(** A toolkit on lists. *)
Module ListToolkit.
Fixpoint index_of (i x : Z) (l : list Z) : Z := match l with [] => -1 | y :: l => if y =? x then i else index_of (i + 1) x l end.
Fixpoint remove_first (x : Z) (l : list Z) : list Z := match l with [] => [] | y :: l => if y =? x then l else y :: remove_first x l end.
#[export] Instance lists : WalkLists := {|
  list_Add A x l := l ++ [x]; list_Insert A i x l := ztake i l ++ x :: zdrop i l; list_RemoveAt A i l := ztake i l ++ zdrop (i + 1) l;
  list_Index := index_of 0; list_Remove := remove_first; new_enabled := true; new_visible := true; new_checked := false |}.
Lemma index_of_there x pre post : forall i, x ∉ pre -> index_of i x (pre ++ x :: post) = i + zlen pre.
Proof.
  induction pre as [|y pre IH]; intros i Hp; cbn.
  - rewrite Z.eqb_refl. unfold zlen. cbn. lia.
  - apply not_elem_of_cons in Hp as [Hy Hp]. destruct (Z.eqb_spec y x); [by subst|]. rewrite IH by done. unfold zlen. cbn [length]. lia.
Qed.
Lemma remove_first_there x pre post : x ∉ pre -> remove_first x (pre ++ x :: post) = pre ++ post.
Proof.
  induction pre as [|y pre IH]; intros Hp; cbn; [by rewrite Z.eqb_refl|]. apply not_elem_of_cons in Hp as [Hy Hp].
  destruct (Z.eqb_spec y x); [by subst|]. by rewrite IH.
Qed.
#[export] Instance lists_ok : WalkListsOk.
Proof.
  split; cbn; [done| | |intros; by rewrite index_of_there|intros; by apply remove_first_there]; intros A x pre post; unfold ztake, zdrop, zlen.
  - by rewrite Nat2Z.id, take_app_length, drop_app_length.
  - rewrite Nat2Z.id, take_app_length. replace (Z.to_nat (Z.of_nat (length pre) + 1)) with (length pre + 1)%nat by lia.
    rewrite <- drop_drop, drop_app_length. done.
Qed.
End ListToolkit.

(** An event that gives the free number of a handler that was detached to the
    next one. *)
Module SlotEvents.
Fixpoint put (h : Action) (i : Z) (l : list (option Action)) : list (option Action) * Z :=
  match l with
  | [] => ([Some h], i)
  | None :: l => (Some h :: l, i)
  | Some a :: l => let (l', n) := put h (i + 1) l in (Some a :: l', n)
  end.
Fixpoint held (i : Z) (l : list (option Action)) : list (Z * Action) :=
  match l with [] => [] | None :: l => held (i + 1) l | Some a :: l => (i, a) :: held (i + 1) l end.
Fixpoint clear (n i : Z) (l : list (option Action)) : list (option Action) :=
  match l with [] => [] | o :: l => (if i =? n then None else o) :: clear n (i + 1) l end.
Definition events : WalkEvents := {|
  Event := list (option Action); no_handlers := []; Attach h e := put h 0 e; Detach n e := clear n 0 e; handlers := held 0 |}.

Lemma held_from l : forall i p, p ∈ held i l -> i <= fst p.
Proof.
  induction l as [|[a|] l IH]; intros i p Hp; cbn in Hp; [by apply elem_of_nil in Hp| |].
  - apply elem_of_cons in Hp as [->|Hp]; [done|]. apply IH in Hp. lia.
  - apply IH in Hp. lia.
Qed.
Lemma put_held h l : forall i, let (l', n) := put h i l in i <= n /\ (n ∉ map fst (held i l)) /\ held i l' ≡ₚ (n, h) :: held i l.
Proof.
  induction l as [|[a|] l IH]; intros i; cbn.
  - split_and!; [lia|by apply not_elem_of_nil|done].
  - specialize (IH (i + 1)). destruct (put h (i + 1) l) as [l' n]. destruct IH as (H1 & H2 & H3). split_and!; [lia| |].
    + apply not_elem_of_cons. split; [lia|done].
    + cbn. rewrite H3. by rewrite Permutation_swap.
  - split_and!; [lia| |done]. intros Hin. apply list_elem_of_fmap in Hin as (p & Hp & Hin). apply held_from in Hin. lia.
Qed.
Lemma clear_held n l : forall i, held i (clear n i l) = base.filter (fun p => fst p <> n) (held i l).
Proof.
  induction l as [|[a|] l IH]; intros i; cbn [clear held]; [done| |].
  - rewrite filter_cons. cbn [fst]. destruct (Z.eqb_spec i n) as [->|Hn]; cbn [held].
    + destruct (decide (n <> n)); [done|]. apply IH.
    + destruct (decide (i <> n)); [|done]. f_equal. apply IH.
  - destruct (i =? n); cbn [held]; apply IH.
Qed.
Lemma events_ok : @WalkEventsOk events.
Proof.
  split; [done| |].
  - intros h e. apply (put_held h e 0).
  - intros n e. cbn. by rewrite clear_held.
Qed.
End SlotEvents.

Module WinMenuExample.
#[local] Existing Instance SlotEvents.events.
#[local] Existing Instance SlotEvents.events_ok.
#[local] Existing Instance ListToolkit.lists.
#[local] Existing Instance ListToolkit.lists_ok.
Definition L (key : string) (args : list string) : string := String.concat " " (key :: args).
Definition d1 : Device := mkDevice "laptop" "10.0.0.2" StateP2P.
Definition d2 : Device := mkDevice "phone" "10.0.0.3" StateRelay.
Definition d3 : Device := mkDevice "tv" "10.0.0.4" StateRelay.
Definition summary (address : string) (ds : list Device) (ns : list NetworkSummary) : DriverSummary :=
  mkDriverSummary true "connected" (mkProfile 1 "laptop" address) (mkSummary 0 ds ns).
Definition tray : osApp := gstate (createTray L "en_US" (Ok tt) (Ok tt) true true false) no_app.
Definition rendered (isGuest : bool) (s : DriverSummary) (m : osApp) : osApp :=
  gstate (render L ["en_US"; "zh_CN"]%string (fun n => n) "en_US" (fun _ => true) isGuest true s) m.

Lemma windows_menu_shows_the_summary_witness : exists h md t m',
  render L ["en_US"; "zh_CN"]%string (fun n => n) "en_US" (fun _ => true) false true (summary "10.0.0.2" [d1; d2] []) tray = (m', Ok tt) /\
  menu_ok h md t m' /\ Forall2 dev_item [d1; d2] (w_myDevicesList m').
Proof.
  destruct (createTray_ok L "en_US" true false) as (m & Hm & Hok & _).
  destruct (windows_menu_shows_the_summary L ["en_US"; "zh_CN"]%string (fun n => n) "en_US" (fun _ => true) false true
    (summary "10.0.0.2" [d1; d2] []) _ _ _ m (fun _ => eq_refl) Hok) as (m' & Hr & Hok' & _ & Hs & _).
  exists [0; 1; 2; 3; 4; 5; 6], [8], [10; 11; 12; 13; 14; 15; 16], m'. split; [|split; [exact Hok'|exact (proj1 (proj2 Hs))]].
  unfold tray, gstate. rewrite Hm. exact Hr.
Defined.

(** Two devices, then one: the other's action leaves the context menu. *)
Example devices_leave :
  let two := rendered false (summary "10.0.0.2" [d1; d2] [mkNetworkSummary 7 "home" [d2]]) tray in
  let one := rendered false (summary "10.0.0.2" [d1] []) two in
  map x_text (w_myDevicesList one) = [deviceName d1] /\
  w_context two = [0; 1; 2; 3; 4; 5; 6; 17; 18; 7; 8; 19; 9; 10; 11; 12; 13; 14; 15; 16] /\
  w_context one = [0; 1; 2; 3; 4; 5; 6; 17; 7; 8; 9; 10; 11; 12; 13; 14; 15; 16].
Proof. by vm_compute. Qed.

(** A network that has its action already is not rendered like a new one: the
    loop over its devices writes them all to the item of the network's own
    index.  The same summary twice makes the first device disappear, and a
    device that joins the first network is not added. *)
Definition submenu (m : osApp) : list (option (list string)) := map (fun x => map x_text <$> x_menu x) (w_myNetworksList m).
Example known_network_repeats_a_device :
  let home ds := summary "10.0.0.2" [] [mkNetworkSummary 7 "home" ds] in
  let first := rendered false (home [d1; d2]) tray in
  submenu first = [Some [deviceName d1; deviceName d2]] /\
  submenu (rendered false (home [d1; d2]) first) = [Some [deviceName d2; deviceName d2]] /\
  submenu (rendered false (home [d1; d2; d3]) first) = [Some [deviceName d3; deviceName d2]].
Proof. by vm_compute. Qed.

(** With events that give a freed number again, replacing a handler does not
    remove the previous one every other time: the third rendering leaves the
    second one's handler, and a click copies both addresses. *)
Example replaced_handler_still_runs :
  let m := rendered false (summary "10.0.0.9" [] []) (rendered false (summary "10.0.0.3" [] []) (rendered false (summary "10.0.0.2" [] []) tray)) in
  runs (w_field m DeviceField) = [CopyAddress "laptop" "10.0.0.9"; CopyAddress "laptop" "10.0.0.3"].
Proof. by vm_compute. Qed.
End WinMenuExample.
